(* ===== verification/_CoqProject ===== *)
-Q . S2P
Prelude.v
GoStrings.v
External.v
Logger.v
Json.v
Paths.v
Types.v
Decode.v
Identity.v
Ecdh.v
Registry.v
SessionManager.v
PartySession.v
KeyStore.v
BadgerKV.v
Sessions.v
SessionRuns.v
Eddsa.v
Node.v
EventConsumer.v
Messaging.v
Client.v
Topology.v
Keys.v
InitiatorKeys.v
Benchmark.v
JetConsumers.v
Backup.v
Config.v
Peers.v
Lifecycle.v
Memory.v
Programs.v
Examples.v
EndToEnd.v
