(* ===== verification/Prelude.v ===== *)
(** * mpcium: a verification development

    mpcium is a node of a threshold signing cluster.  An initiator asks the cluster
    for a wallet key, a signature or a resharing; the requests reach every node
    through JetStream, the nodes run the rounds of tss-lib among each other over
    NATS, keep their shares in Badger and what a key is in Consul, and publish the
    result.  This library models the node, the client and the programs around them,
    as shallow embeddings of the Go code under src/, and proves what makes them
    correct.  A definition keeps the name of the function it translates; the text of
    errors is kept too, since the code classifies errors by their text.

    ** How Go is modelled

    A call that can fail is a [Res]: a value, an error (its text and the sentinels its
    [%w] chain reaches) or a panic; [logger.Fatal] and [log.Fatal], which end the
    process, are panics.  Code that changes a component's state is a function of that
    state, [M S A], also with a [Res] ([bindR], written [x ←! m; k]).  Integers are [Z]
    with Go's wrap-around written out ([wrap64], [wrapU64]); strings and byte slices
    are [string], a nil slice is [None]; maps are [gmap], and where the code ranges
    over one the order is a parameter ([MapRange]).  Goroutines that share state are
    steps of a relation, and theorems about them hold for every interleaving of the
    steps; where they share variables without a lock, a step is one access (Registry,
    [watch_cmd]).  Calls of the logger are left out where their keys are strings, since they
    come back and write at most a line (Logger, [log_outcome]); the one call with another
    key is in Sessions.

    Code that is not in the repository is a class of operations with a class of laws
    that state what it documents, and every class of laws has a concrete instance:
    [Crypto] (ed25519, ECDSA, AES-GCM, X25519, HKDF), [TssLib] and [Curve] (tss-lib),
    [Lo], [KVStore], [ConsulKV] and [ConsulList], [Retry], [P256], [X509Keys],
    [Ed25519Seed], [Age], [Badger], [BadgerDB], [NatsSubjects], [Viper].
    encoding/json is modelled for writing (Json.v, with the escapes of the standard
    library), and for reading the three requests (Decode.v); other reading is a parameter,
    of which a theorem assumes at most that it reads back the texts the theorem is about.
    Of AES-GCM it is assumed, beside the laws of [Crypto], that a ciphertext that was cut
    off does not open (Backup, Programs).  What time, network, terminal, file system and
    random generator answer are arguments.

    ** The files

    - Prelude: outcomes, state passing, machine integers, labelled runs, automation.
    - GoStrings, External, Json: strings and bytes of the standard library (strings,
      strconv, math/big, comparison), the third-party interfaces, encoding/json, base64.
    - Logger (pkg/logger): what a call of the logger does to its caller, and which lines
      are written.
    - Types (pkg/types, pkg/constant): messages, the bytes that are signed, error codes
      and their derivation from an error's text, topics.  Decode: [json.Unmarshal] into the
      three requests, and that it reads back what [json.Marshal] writes of them.
    - Identity (pkg/identity/identity.go, pkg/encryption): the store of peer identities
      and symmetric keys, signatures and encryption of every kind of message.
    - Ecdh (pkg/mpc/key_exchange_session.go): the key exchange between two nodes.
    - Registry (pkg/mpc/registry.go): which peers are ready, by whole watch rounds
      ([watchTick]) and access by access ([reg_step], [round_cmds]); the interface
      [PeerRegistry] that Node and EventConsumer are proved against, and its laws.
    - SessionManager (pkg/session/manager.go): the table of started signings.
    - PartySession (pkg/mpc/core): sending and receiving the messages of a session.
    - KeyStore (pkg/keyinfo/keyinfo.go, kvstore.go, infra/consul.go): the two stores as
      interfaces; BadgerKV (pkg/kvstore/badger.go): the store of shares over badger's
      transactions, and that it is an instance of its interface.
    - Sessions (pkg/mpc/ecdsa, pkg/mpc/eddsa, pkg/encoding): initialisation, the loops
      that end a key generation, a signing and a resharing, the tables of rounds.
      SessionRuns: whole runs of these loops; Eddsa (pkg/mpc/eddsa): the package's own
      copy of the bodies that Sessions has once for both curves.
    - Node (pkg/mpc/node.go): committees and the construction of sessions, the
      parameters generated in advance.
    - EventConsumer (pkg/eventconsumer/event.go): the three request handlers, their
      workers with their semaphore, [Run] and [Close].
    - JetConsumers (pkg/eventconsumer/keygen.go, signing.go, resharing.go, timeout.go):
      forwarding of requests with their acknowledgement, and dead letters.
    - Messaging (pkg/messaging): direct messages, result queues, JetStream brokers.
    - Client (pkg/client, pkg/encryption/p256.go): the initiator.
    - Topology (NewMPCClient of pkg/client, runNode of cmd/node/start.go,
      pkg/messaging/message_queue.go): the streams and queues client and node create, and
      which of them a subject leads to.
    - Keys (cmd/cli/identity, cmd/cli/utils, loadPrivateKey of pkg/identity): the key
      files of a node, generated and read, on a disk whose operations may fail.
    - InitiatorKeys (cmd/cli/initiator, pkg/client/signer, pkg/encryption): the same for
      the initiator, in both algorithms, and the signer of AWS KMS.
    - Backup (pkg/kvstore): encrypted incremental backups and their restore.
    - Config (pkg/config/config.go, pkg/infra/consul.go, nats_connection.go),
      Paths (pkg/filesystem/path.go), Peers (pkg/config/peers.go, cmd/cli/peers,
      cmd/node/consul.go), Programs (cmd/node, cmd/cli/recovery): how a node starts,
      backs itself up and is recovered.
    - Lifecycle (runNode of cmd/node/start.go, Run and Close of the consumers): the three
      consumers, the signal handler, the loop over [errChan] and the deferred calls as
      one step relation.
    - Memory (pkg/security/memory.go, cmd/node/config.go): buffers as slices of a heap.
    - Benchmark (cmd/cli/benchmark): the benchmarks' wait group and statistics; Examples
      (src/examples, src/scripts/print-keys): the programs that use the client library.

    A request travels Client, Messaging, JetConsumers, EventConsumer, Node, Sessions,
    PartySession; Identity, Registry and KeyStore are what these rely on.  EndToEnd
    follows a signing request from the client to the nodes and its acknowledgement
    back, and a key generation and a resharing up to the client's callback; Programs puts
    a node together.

    ** What is proved

    Of keys: what a run of key generation or resharing leaves, whatever happened on
    its way, is what a later signing loads ([generated_key_signs], [reshared_key_signs],
    [eddsa_wallet_life]); what the client is told are the public keys of the shares that
    are stored ([keygen_round_trip], [resharing_round_trip]); a signing session the node
    creates initialises as soon as its share can be read ([created_signing_Init]); a
    signature is only published when it verifies; committees agree on their party ids and
    are disjoint across versions ([resharing_committees_disjoint]).
    Of messages: what a peer sends, broadcast or encrypted, is accepted and processed
    exactly when it is authentic, with the one impersonation the direct channel allows;
    two nodes end the key exchange with the same key; signed bytes determine the
    signing request; what the client publishes the nodes decode and verify; a request is
    acknowledged exactly when a reply came in time ([replied]).  Of the life of a
    node: the counter of ready peers between any two accesses ([ready_count_invariant]), the
    effect of a watch round, the workers' bounds, order and progress under every schedule,
    with no message lost, answers to every kind of failed request, how often a request is
    started, settled and answered, that every request and result has one stream and where
    subjects lead; that a shutdown ends, under every interleaving, and what has run when
    it has ([shutdown_terminates], [node_exit]).  Of
    the operation of a node: the chain of backup files refines a single snapshot, also
    through failed and cut-off backups ([backups_refine_snapshots]), a recovery rebuilds the
    database unless a file was cut off, and then fails ([recovery_after_backups]), a
    started node has a complete configuration and the id registered for its name.  Other
    lemmas pin down where the code departs from its intent.

    ** Bounds and fuel

    [poll_fuel timeout interval] rounds of polling are enough because a poll that times
    out takes the whole interval ([poll_loop_fuel]); the loops over characters in
    [TrimSpace], [skip_blanks] and [read_string_go] are given the length of their
    input, and consume a character in each round; so is [read_json], whose every call has
    consumed a character ([read_json_encode]).  The loop of [Keys] over badger's
    iterator ends when its fuel exceeds the number of keys ([badger_refines_map]).  A run
    of the process from its start has at most twenty-nine actions ([shutdown_terminates]).
    All other recursion is structural:
    the prompt and the waiting loops run over the list of what they are answered, and
    stay undecided ([None]) when it ends.

    ** Not modelled

    The rounds of tss-lib, the clients of NATS, Consul, Badger and AWS KMS, and the
    age encryption of key files are third-party, as is zerolog beyond its levels.  An error
    that a session sends to [ErrCh] after the one its handler reads blocks the sender in the
    code and not here (PartySession, [sendErr]).  badger_logger.go only
    logs; cmd/cli/main.go and the flags are declarations for cobra.  Timing is left out:
    tickers, delays and deadlines show as the events or answers they cause.  Shell
    scripts, deployment files and end-to-end tests are around the programs; what the
    examples only print, and the copy of the key generation loop in the KMS example, are
    not written out. *)

From stdpp Require Import base gmap list strings sets fin_maps.
From Stdlib Require Import ZArith Lia.

#[global] Open Scope Z_scope.

(** ** Outcomes of Go calls

    A Go call returns a value, returns an [error] or panics.  An error is its
    message together with the sentinel values its [%w] chain reaches, which is
    what [errors.Is] looks at. *)

Record error := mkError { Error : string; chain : list string }.

#[export] Instance error_eq_dec : EqDecision error.
Proof. solve_decision. Defined.

Definition errors_New (msg : string) : error := mkError msg [].

Definition Sentinel (name msg : string) : error := mkError msg [name].

(** [fmt.Errorf] whose format ends in [%w]: the text is prefixed, the chain kept. *)
Definition Errorf_w (prefix : string) (e : error) : error :=
  mkError (prefix +:+ Error e) (chain e).

(** [fmt.Errorf] with a text after the wrapped error. *)
Definition Errorf_wsuf (prefix : string) (e : error) (suffix : string) : error :=
  mkError (prefix +:+ Error e +:+ suffix) (chain e).

Definition errors_Is (e : error) (sentinel : string) : bool :=
  bool_decide (sentinel ∈ chain e).

Inductive Res (A : Type) : Type :=
| Ok (a : A)
| Err (e : error)
| Panic (why : string).
Arguments Ok {A} a.
Arguments Err {A} e.
Arguments Panic {A} why.

#[export] Instance Res_eq_dec `{EqDecision A} : EqDecision (Res A).
Proof. solve_decision. Defined.

#[export] Instance Res_ret : MRet Res := λ A a, Ok a.
#[export] Instance Res_bind : MBind Res := λ A B f r,
  match r with Ok a => f a | Err e => Err e | Panic w => Panic w end.

Definition is_Ok {A} (r : Res A) : bool :=
  match r with Ok _ => true | _ => false end.

(** [if err != nil { return ..., fmt.Errorf(prefix + "%w", err) }] *)
Definition wrap_err {A} (prefix : string) (r : Res A) : Res A :=
  match r with Err e => Err (Errorf_w prefix e) | _ => r end.

Definition of_option {A} (e : error) (o : option A) : Res A :=
  match o with Some a => Ok a | None => Err e end.

Lemma Res_bind_Ok {A B} (f : A → Res B) (r : Res A) b :
  (r ≫= f) = Ok b ↔ ∃ a, r = Ok a ∧ f a = Ok b.
Proof.
  destruct r; simpl; (split; [try done; by eexists|by intros (? & [=] & ?); subst]).
Qed.

Lemma wrap_err_Ok {A} p (r : Res A) a : wrap_err p r = Ok a ↔ r = Ok a.
Proof. by destruct r. Qed.

Lemma of_option_Ok {A} e (o : option A) a : of_option e o = Ok a ↔ o = Some a.
Proof. by destruct o; split; intros [=]; subst. Qed.

(** ** State passing

    Handlers that change a component's state are functions of type [M S A]. *)

Definition M (S A : Type) : Type := S → A * S.

#[export] Instance M_ret S : MRet (M S) := λ A a s, (a, s).
#[export] Instance M_bind S : MBind (M S) := λ A B f m s,
  let '(a, s') := m s in f a s'.

Definition gets {S A} (f : S → A) : M S A := λ s, (f s, s).
Definition modify {S} (f : S → S) : M S unit := λ s, (tt, f s).
Definition skip {S} : M S unit := λ s, (tt, s).
Definition when {S} (b : bool) (m : M S unit) : M S unit := if b then m else skip.

(** [for _, x := range l { body }] *)
Fixpoint forM {S A} (l : list A) (body : A → M S unit) : M S unit :=
  match l with
  | [] => skip
  | x :: l => body x ;; forM l body
  end.

Definition exec {S A} (m : M S A) (s : S) : S := (m s).2.
Definition eval {S A} (m : M S A) (s : S) : A := (m s).1.

Lemma exec_bind {S A B} (m : M S A) (f : A → M S B) s :
  exec (m ≫= f) s = exec (f (eval m s)) (exec m s).
Proof. unfold exec, eval, mbind, M_bind. by destruct (m s). Qed.

Lemma eval_bind {S A B} (m : M S A) (f : A → M S B) s :
  eval (m ≫= f) s = eval (f (eval m s)) (exec m s).
Proof. unfold exec, eval, mbind, M_bind. by destruct (m s). Qed.

Lemma exec_modify {S} (f : S → S) s : exec (modify f) s = f s.
Proof. done. Qed.

Lemma exec_when {S} b (m : M S unit) s :
  exec (when b m) s = if b then exec m s else s.
Proof. by destruct b. Qed.

Lemma exec_forM_cons {S A} (x : A) l (body : A → M S unit) s :
  exec (forM (x :: l) body) s = exec (forM l body) (exec (body x) s).
Proof. simpl. by rewrite exec_bind. Qed.

Lemma exec_forM_app {S A} (l k : list A) (body : A → M S unit) s :
  exec (forM (l ++ k) body) s = exec (forM k body) (exec (forM l body) s).
Proof.
  revert s. induction l as [|x l IH]; intros s; [done|].
  rewrite <-app_comm_cons, !exec_forM_cons. apply IH.
Qed.

(** A run from its outcome. *)
Lemma run_of_eval {S A} (r : A * S) a : r.1 = a → r = (a, r.2).
Proof. destruct r. cbn. by intros <-. Qed.

(** An invariant of the loop body is an invariant of the loop. *)
Lemma exec_forM_ind {S A} (P : S → Prop) (l : list A) (body : A → M S unit) s :
  (∀ x s, x ∈ l → P s → P (exec (body x) s)) → P s → P (exec (forM l body) s).
Proof.
  revert s. induction l as [|x l IH]; intros s Hb Hs; [done|].
  rewrite exec_forM_cons. apply IH; [|apply Hb; [set_solver|done]].
  intros y s' Hy. apply Hb. set_solver.
Qed.

(** State together with an outcome: [m ;; rest] of a call that may fail or panic
    stops at the failure. *)
Definition bindR {S A B} (m : M S (Res A)) (f : A → M S (Res B)) : M S (Res B) := λ s,
  match m s with
  | (Ok a, s') => f a s'
  | (Err e, s') => (Err e, s')
  | (Panic w, s') => (Panic w, s')
  end.

Definition lift {S A} (r : Res A) : M S (Res A) := λ s, (r, s).
Definition modifyR {S} (f : S → S) : M S (Res unit) := λ s, (Ok tt, f s).

Notation "x '←!' m ; k" := (bindR m (λ x, k))
  (at level 20, m at level 100, k at level 200, right associativity) : stdpp_scope.
Notation "' pat '←!' m ; k" := (bindR m (λ x, match x with pat => k end))
  (at level 20, pat pattern, m at level 100, k at level 200, right associativity) : stdpp_scope.

(** [for _, x := range l { body }] where the body may panic. *)
Fixpoint forR {S A} (l : list A) (body : A → M S (Res unit)) : M S (Res unit) :=
  match l with
  | [] => lift (Ok tt)
  | x :: l => _ ←! body x; forR l body
  end.

Lemma bindR_Ok {S A B} (m : M S (Res A)) (f : A → M S (Res B)) s b s' :
  bindR m f s = (Ok b, s') ↔ ∃ a s1, m s = (Ok a, s1) ∧ f a s1 = (Ok b, s').
Proof.
  unfold bindR. destruct (m s) as [[] s1]; split; try done.
  - intros H. by eexists _, s1.
  - intros (a' & s1' & [= <- <-] & H). done.
  - by intros (a' & s1' & [=] & H).
  - by intros (a' & s1' & [=] & H).
Qed.

Lemma lift_Ok {S A} (r : Res A) (s : S) a s' : lift r s = (Ok a, s') ↔ r = Ok a ∧ s' = s.
Proof. unfold lift. split; [by intros [= -> ->]|by intros [-> ->]]. Qed.

(** ** Machine integers: Go's [int] and [int64] are 64-bit two's complement *)

Definition MaxInt64 : Z := 2 ^ 63 - 1.
Definition MinInt64 : Z := - 2 ^ 63.
Definition wrap64 (z : Z) : Z := (z + 2 ^ 63) mod 2 ^ 64 - 2 ^ 63.
Definition wrapU64 (z : Z) : Z := z mod 2 ^ 64.
Definition int64_range (z : Z) : Prop := MinInt64 ≤ z ≤ MaxInt64.

Lemma wrap64_range z : int64_range (wrap64 z).
Proof.
  unfold int64_range, wrap64, MinInt64, MaxInt64.
  pose proof (Z.mod_pos_bound (z + 2 ^ 63) (2 ^ 64)). lia.
Qed.

Lemma wrap64_small z : int64_range z → wrap64 z = z.
Proof.
  unfold int64_range, wrap64, MinInt64, MaxInt64. intros ?.
  rewrite Z.mod_small; lia.
Qed.

Lemma wrap64_add_l a b : wrap64 (wrap64 a + b) = wrap64 (a + b).
Proof.
  unfold wrap64. f_equal.
  replace ((a + 2 ^ 63) mod 2 ^ 64 - 2 ^ 63 + b + 2 ^ 63)
    with ((a + 2 ^ 63) mod 2 ^ 64 + b) by lia.
  rewrite Zplus_mod_idemp_l. f_equal. lia.
Qed.

Lemma wrap64_sub_l a b : wrap64 (wrap64 a - b) = wrap64 (a - b).
Proof. apply (wrap64_add_l a (- b)). Qed.

(** ** Go's maps: the order of [for range] is not specified *)

Class MapRange := {
  range_of : ∀ {A : Type}, gmap string A → list (string * A);
  range_of_perm : ∀ {A : Type} (m : gmap string A), range_of m ≡ₚ map_to_list m;
}.

Lemma elem_of_range_of `{MapRange} {A} (m : gmap string A) k v :
  (k, v) ∈ range_of m ↔ m !! k = Some v.
Proof. rewrite range_of_perm. apply elem_of_map_to_list. Qed.

Lemma NoDup_fst_range_of `{MapRange} {A} (m : gmap string A) : NoDup (range_of m).*1.
Proof. rewrite range_of_perm. apply NoDup_fst_map_to_list. Qed.

(** One order Go may choose. *)
Definition map_to_list_range : MapRange :=
  {| range_of := λ A m, map_to_list m; range_of_perm := λ A m, reflexivity _ |}.

(** ** Lists *)

(** Membership in a list read as a loop reads it: the later elements decide first. *)
Lemma decide_elem_cons `{EqDecision A} {B} (p q : A) l (x y : B) :
  (if decide (p ∈ q :: l) then x else y) =
  if decide (p ∈ l) then x else if decide (q = p) then x else y.
Proof. repeat case_decide; set_solver. Qed.

(** ** Reflexive transitive closure of a step relation *)

Section star.
Context {A : Type} (R : A → A → Prop).

Lemma rtc_invariant (P : A → Prop) x y :
  (∀ a b, P a → R a b → P b) → rtc R x y → P x → P y.
Proof. intros HR. induction 1; eauto. Qed.

End star.

(** Runs of a labelled step relation, with their labels. *)
Inductive runs {S E : Type} (step : S → E → S → Prop) : S → list E → S → Prop :=
| runs_nil s : runs step s [] s
| runs_cons s e s1 es s2 : step s e s1 → runs step s1 es s2 → runs step s (e :: es) s2.

Lemma runs_app {S E} (step : S → E → S → Prop) s es s1 es' s2 :
  runs step s es s1 → runs step s1 es' s2 → runs step s (es ++ es') s2.
Proof. induction 1; intros H'; [done|]. econstructor; eauto. Qed.

(** Induction from the front: a property of a state and what happened up to it. *)
Lemma runs_invariant {S E} (step : S → E → S → Prop) (P : list E → S → Prop) s es s' :
  (∀ es s e s', P es s → step s e s' → P (es ++ [e]) s') →
  P [] s → runs step s es s' → P es s'.
Proof.
  intros Hstep H0 Hruns.
  enough (∀ pre, P pre s → P (pre ++ es) s') as H by exact (H [] H0). clear H0.
  induction Hruns as [s|s e s1 es s2 Hs _ IH]; intros pre Hpre; [by rewrite app_nil_r|].
  change (e :: es) with ([e] ++ es). rewrite (assoc_L app). by eapply IH, Hstep.
Qed.

(** ** Automation *)

Create HintDb mpcium.
Create Rewrite HintDb mpcium_rw.
#[export] Hint Rewrite @exec_bind @exec_modify @exec_when @exec_forM_cons : mpcium_rw.
#[export] Hint Resolve wrap64_range : mpcium.

(** Case analysis on the first [match] of the goal or of a hypothesis. *)
Ltac cases :=
  repeat (case_match; simplify_eq/=; try done).

Ltac inv_res :=
  repeat match goal with
  | H : mbind _ _ = Ok _ |- _ => apply Res_bind_Ok in H as (? & ? & ?)
  | H : wrap_err _ _ = Ok _ |- _ => apply wrap_err_Ok in H
  | H : of_option _ _ = Ok _ |- _ => apply of_option_Ok in H
  | H : Ok _ = Ok _ |- _ => injection H as H
  end; simplify_eq/=.
