(* ===== verification/GoStrings.v ===== *)
(** * Go strings, formatting and big integers

    The parts of Go's [strings], [fmt] and [math/big] that mpcium uses, on byte
    strings.  A Go [string] or the contents of a [[]byte] is a [string] of
    bytes; a [[]byte] whose nilness is observed is an [option string]. *)

From stdpp Require Import base gmap list strings pretty.
From Stdlib Require Import ZArith Lia Ascii.
From S2P Require Import Prelude.

#[global] Arguments String.append !_ _ / : simpl nomatch.

(** ** Bytes *)

Definition byte_of (c : ascii) : Z := Z.of_N (N_of_ascii c).
Definition ascii_of (z : Z) : ascii := ascii_of_N (Z.to_N z).
Definition chr (n : nat) : ascii := ascii_of_nat n.
Definition str1 (c : ascii) : string := String c EmptyString.
Definition quote : ascii := chr 34.
Definition colon : ascii := chr 58.
Definition comma : ascii := chr 44.

Fixpoint string_forallb (p : ascii → bool) (s : string) : bool :=
  match s with
  | EmptyString => true
  | String c s => p c && string_forallb p s
  end.

(** [c] does not occur in [s] *)
Definition no_char (c : ascii) (s : string) : bool :=
  string_forallb (λ d, negb (Ascii.eqb d c)) s.

Definition is_ascii (c : ascii) : bool := byte_of c <? 128.

Lemma byte_of_range c : 0 ≤ byte_of c < 256.
Proof. unfold byte_of. pose proof (N_ascii_bounded c). lia. Qed.

Lemma ascii_of_byte_of c : ascii_of (byte_of c) = c.
Proof. unfold ascii_of, byte_of. by rewrite N2Z.id, ascii_N_embedding. Qed.

Lemma byte_of_ascii_of z : 0 ≤ z < 256 → byte_of (ascii_of z) = z.
Proof.
  intros. unfold ascii_of, byte_of. rewrite N_ascii_embedding by lia. lia.
Qed.

Lemma byte_of_inj c d : byte_of c = byte_of d → c = d.
Proof. intros H. by rewrite <-(ascii_of_byte_of c), H, ascii_of_byte_of. Qed.

(** ** Appending *)

Lemma app_assoc_s (a b c : string) : (a +:+ b) +:+ c = a +:+ b +:+ c.
Proof. induction a; simpl; congruence. Qed.

Lemma app_nil_r_s (a : string) : a +:+ "" = a.
Proof. induction a; simpl; congruence. Qed.

Lemma length_app_s a b : String.length (a +:+ b) = (String.length a + String.length b)%nat.
Proof. induction a; simpl; congruence. Qed.

Lemma app_inj_l_s (a b c : string) : a +:+ b = a +:+ c → b = c.
Proof. induction a; simpl; [done|]. intros [=]. auto. Qed.

Lemma app_inj_len_s (a b c d : string) :
  String.length a = String.length c → a +:+ b = c +:+ d → a = c ∧ b = d.
Proof.
  revert c. induction a as [|x a IH]; intros [|y c]; simpl; try done.
  intros [= Hl] [= -> H]. destruct (IH _ Hl H). by subst.
Qed.

Lemma app_inj_r_s (a b c : string) : a +:+ c = b +:+ c → a = b.
Proof.
  intros H. apply (f_equal String.length) in H as Hl. rewrite !length_app_s in Hl.
  by apply app_inj_len_s in H as [-> _]; [|lia].
Qed.

(** What follows a prefix free of [c] and ending at [c] is determined. *)
Lemma cut_unique c a b x y :
  no_char c a = true → no_char c b = true →
  a +:+ String c x = b +:+ String c y → a = b ∧ x = y.
Proof.
  unfold no_char. revert b. induction a as [|d a IH]; intros [|e b]; simpl.
  - by intros _ _ [= ->].
  - intros _ [Hc _]%andb_true_iff [= -> _]. by rewrite Ascii.eqb_refl in Hc.
  - intros [Hc _]%andb_true_iff _ [= -> _]. by rewrite Ascii.eqb_refl in Hc.
  - intros [_ Ha]%andb_true_iff [_ Hb]%andb_true_iff [= -> Heq].
    by destruct (IH b Ha Hb Heq) as [-> ->].
Qed.

Lemma string_forallb_app p a b :
  string_forallb p (a +:+ b) = string_forallb p a && string_forallb p b.
Proof. induction a; simpl; [done|]. by rewrite IHa, andb_assoc. Qed.

Lemma no_char_app c a b : no_char c (a +:+ b) = no_char c a && no_char c b.
Proof. apply string_forallb_app. Qed.

Lemma string_forallb_impl (p q : ascii → bool) s :
  (∀ c, p c = true → q c = true) → string_forallb p s = true → string_forallb q s = true.
Proof.
  intros Hpq. induction s; simpl; [done|].
  intros [??]%andb_true_iff. apply andb_true_iff; auto.
Qed.

(** ** strings.HasPrefix, Contains, Cut, SplitN, Split, ReplaceAll *)

Fixpoint HasPrefix (s p : string) : bool :=
  match p, s with
  | EmptyString, _ => true
  | String c p, String d s => Ascii.eqb c d && HasPrefix s p
  | String _ _, EmptyString => false
  end.

Fixpoint TrimPrefix_opt (s p : string) {struct p} : option string :=
  match p, s with
  | EmptyString, _ => Some s
  | String c p, String d s => if Ascii.eqb c d then TrimPrefix_opt s p else None
  | String _ _, EmptyString => None
  end.

Fixpoint Contains (s sub : string) : bool :=
  HasPrefix s sub ||
  match s with EmptyString => false | String _ s => Contains s sub end.

(** [strings.Cut(s, string(c))] *)
Fixpoint Cut (c : ascii) (s : string) : string * string * bool :=
  match s with
  | EmptyString => (EmptyString, EmptyString, false)
  | String d s' =>
      if Ascii.eqb d c then (EmptyString, s', true)
      else let '(before, after, found) := Cut c s' in (String d before, after, found)
  end.

(** [strings.SplitN(s, string(c), n)] for a positive [n] *)
Fixpoint SplitN (c : ascii) (s : string) (n : nat) : list string :=
  match n with
  | O => []
  | 1%nat => [s]
  | S n =>
      match Cut c s with
      | (before, after, true) => before :: SplitN c after n
      | (_, _, false) => [s]
      end
  end.

(** [strings.Split(s, string(c))] *)
Fixpoint Split (c : ascii) (s : string) : list string :=
  match s with
  | EmptyString => [EmptyString]
  | String d s' =>
      if Ascii.eqb d c then EmptyString :: Split c s'
      else match Split c s' with
           | w :: ws => String d w :: ws
           | [] => [String d EmptyString]
           end
  end.

(** [strings.ReplaceAll(s, string(c), new)] *)
Fixpoint ReplaceAll (s : string) (c : ascii) (new : string) : string :=
  match s with
  | EmptyString => EmptyString
  | String d s' =>
      if Ascii.eqb d c then new +:+ ReplaceAll s' c new
      else String d (ReplaceAll s' c new)
  end.

Lemma HasPrefix_app p s : HasPrefix (p +:+ s) p = true.
Proof. induction p as [|c p IH]; cbn; [by destruct s|]. by rewrite Ascii.eqb_refl. Qed.

Lemma HasPrefix_inv s p : HasPrefix s p = true → ∃ r, s = p +:+ r.
Proof.
  revert s. induction p as [|c p IH]; intros s; [by exists s|].
  destruct s as [|d s]; [done|]. cbn. intros [<-%Ascii.eqb_eq (r & ->)%IH]%andb_true_iff.
  by exists r.
Qed.

Lemma Cut_app c a b : no_char c a = true → Cut c (a +:+ String c b) = (a, b, true).
Proof.
  unfold no_char. induction a as [|d a IH]; simpl.
  - by rewrite Ascii.eqb_refl.
  - intros [Hd Ha]%andb_true_iff. apply negb_true_iff in Hd.
    by rewrite Hd, (IH Ha).
Qed.

Lemma Cut_none c a : no_char c a = true → Cut c a = (a, EmptyString, false).
Proof.
  unfold no_char. induction a as [|d a IH]; simpl; [done|].
  intros [Hd Ha]%andb_true_iff. apply negb_true_iff in Hd. by rewrite Hd, (IH Ha).
Qed.

Lemma SplitN_app c a b n :
  no_char c a = true → SplitN c (a +:+ String c b) (S (S n)) = a :: SplitN c b (S n).
Proof.
  intros Ha. change (SplitN c (a +:+ String c b) (S (S n)))
    with (match Cut c (a +:+ String c b) with
          | (before, after, true) => before :: SplitN c after (S n)
          | (_, _, false) => [a +:+ String c b] end).
  by rewrite Cut_app.
Qed.

Lemma Split_cons c s : ∃ w ws, Split c s = w :: ws.
Proof. destruct s as [|d s]; simpl; [eauto|]. cases; eauto. Qed.

Lemma Split_head c a b : no_char c a = true →
  head (Split c (a +:+ String c b)) = Some a.
Proof.
  unfold no_char. induction a as [|d a IH]; simpl.
  - by rewrite Ascii.eqb_refl.
  - intros [Hd Ha]%andb_true_iff. apply negb_true_iff in Hd. rewrite Hd.
    specialize (IH Ha). destruct (Split c (a +:+ String c b)); naive_solver.
Qed.

Lemma Split_none c a : no_char c a = true → Split c a = [a].
Proof.
  unfold no_char. induction a as [|d a IH]; simpl; [done|].
  intros [Hd Ha]%andb_true_iff. apply negb_true_iff in Hd. by rewrite Hd, (IH Ha).
Qed.

Lemma Split_app c a b : Split c (a +:+ String c b) = Split c a ++ Split c b.
Proof.
  induction a as [|d a IH]; cbn; [by rewrite Ascii.eqb_refl|].
  destruct (Ascii.eqb d c); [by rewrite IH|]. rewrite IH.
  by destruct (Split_cons c a) as (w & ws & ->).
Qed.

(** ** fmt: decimal integers *)

Definition fmt_d (z : Z) : string := pretty z.

Definition is_numchar (c : ascii) : bool :=
  Ascii.eqb c "-" || ((48 <=? byte_of c) && (byte_of c <=? 57)).

Lemma pretty_N_char_num x : is_numchar (pretty_N_char x) = true.
Proof. unfold pretty_N_char. by repeat case_match. Qed.

Lemma pretty_N_go_num x s :
  string_forallb is_numchar s = true → string_forallb is_numchar (pretty_N_go x s) = true.
Proof.
  revert s. induction (N.lt_wf_0 x) as [x _ IH]; intros s Hs.
  destruct (decide (x = 0)%N) as [->|]; [by rewrite pretty_N_go_0|].
  rewrite pretty_N_go_step by lia. apply IH.
  - apply N.div_lt; lia.
  - simpl. by rewrite pretty_N_char_num, Hs.
Qed.

Lemma pretty_N_num (x : N) : string_forallb is_numchar (pretty x) = true.
Proof. unfold pretty, pretty_N. case_decide; [done|]. by apply pretty_N_go_num. Qed.

Lemma fmt_d_num z : string_forallb is_numchar (fmt_d z) = true.
Proof.
  unfold fmt_d, pretty, pretty_Z. destruct z; [done| |].
  - apply pretty_N_num.
  - simpl. apply pretty_N_num.
Qed.

Lemma fmt_d_no_char c z : is_numchar c = false → no_char c (fmt_d z) = true.
Proof.
  intros Hc. eapply string_forallb_impl, fmt_d_num. intros d Hd.
  apply negb_true_iff. destruct (Ascii.eqb_spec d c); congruence.
Qed.

Lemma fmt_d_inj a b : fmt_d a = fmt_d b → a = b.
Proof. apply (inj pretty). Qed.

(** ** strings.TrimSpace

    The UTF-8 encodings of the runes [unicode.IsSpace] accepts.  A valid encoding
    is recognised at either end of a byte string by its own bytes only. *)

Definition bytes_of_list (l : list nat) : string :=
  foldr (λ n s, String (chr n) s) EmptyString l.

Definition space_encodings : list string :=
  bytes_of_list <$>
    [[9]; [10]; [11]; [12]; [13]; [32]; [194; 133]; [194; 160]; [225; 154; 128];
     [226; 128; 128]; [226; 128; 129]; [226; 128; 130]; [226; 128; 131];
     [226; 128; 132]; [226; 128; 133]; [226; 128; 134]; [226; 128; 135];
     [226; 128; 136]; [226; 128; 137]; [226; 128; 138]; [226; 128; 168];
     [226; 128; 169]; [226; 128; 175]; [226; 129; 159]; [227; 128; 128]]%nat.

Fixpoint rev_s (s acc : string) : string :=
  match s with
  | EmptyString => acc
  | String c s => rev_s s (String c acc)
  end.

Definition strip_first (pats : list string) (s : string) : option string :=
  foldr (λ p r, match TrimPrefix_opt s p with Some s' => Some s' | None => r end)
    None pats.

Fixpoint trim_left (fuel : nat) (pats : list string) (s : string) : string :=
  match fuel with
  | O => s
  | S fuel =>
      match strip_first pats s with
      | Some s' => trim_left fuel pats s'
      | None => s
      end
  end.

(** Each round drops a byte at least, so the length is enough fuel. *)
Definition TrimSpace (s : string) : string :=
  let l := trim_left (String.length s) space_encodings s in
  let r := rev_s l EmptyString in
  rev_s (trim_left (String.length r) ((λ p, rev_s p EmptyString) <$> space_encodings) r)
    EmptyString.

(** [strings.HasSuffix] *)
Definition HasSuffix (s p : string) : bool := HasPrefix (rev_s s EmptyString) (rev_s p EmptyString).

Lemma rev_s_app_acc s acc : rev_s s acc = rev_s s EmptyString +:+ acc.
Proof.
  revert acc. induction s as [|c s IH]; intros acc; [done|]. cbn.
  by rewrite IH, (IH (String c "")), app_assoc_s.
Qed.

Lemma rev_s_app a b : rev_s (a +:+ b) EmptyString = rev_s b EmptyString +:+ rev_s a EmptyString.
Proof.
  induction a as [|c a IH]; cbn; [by rewrite app_nil_r_s|].
  by rewrite !(rev_s_app_acc _ (String c "")), IH, app_assoc_s.
Qed.

Lemma rev_s_involutive s : rev_s (rev_s s EmptyString) EmptyString = s.
Proof.
  induction s as [|c s IH]; [done|]. cbn. by rewrite (rev_s_app_acc s (String c "")), rev_s_app, IH.
Qed.

Lemma HasSuffix_app a p : HasSuffix (a +:+ p) p = true.
Proof. unfold HasSuffix. rewrite rev_s_app. apply HasPrefix_app. Qed.

Lemma string_forallb_rev p s : string_forallb p (rev_s s EmptyString) = string_forallb p s.
Proof.
  induction s as [|c s IH]; [done|]. cbn.
  rewrite rev_s_app_acc, string_forallb_app, IH. cbn. by rewrite andb_true_r, andb_comm.
Qed.

(** No pattern begins with a character of [ok]. *)
Definition avoids (ok : ascii → bool) (pats : list string) : bool :=
  forallb (λ p, match p with String c _ => negb (ok c) | EmptyString => false end) pats.

Lemma strip_first_avoids ok pats s : avoids ok pats = true → string_forallb ok s = true →
  strip_first pats s = None.
Proof.
  intros Hp Hs. induction pats as [|p pats IH]; [done|]. cbn in Hp |- *.
  apply andb_true_iff in Hp as [Hc Hp]. fold (strip_first pats s). rewrite (IH Hp).
  destruct p as [|c p]; [done|]. destruct s as [|d s]; [done|]. cbn in *.
  apply andb_true_iff in Hs as [Hd _]. destruct (Ascii.eqb_spec c d) as [->|]; [|done].
  by rewrite Hd in Hc.
Qed.

Lemma trim_left_avoids ok fuel pats s : avoids ok pats = true → string_forallb ok s = true →
  trim_left fuel pats s = s.
Proof. intros Hp Hs. destruct fuel; [done|]. cbn. by rewrite (strip_first_avoids ok). Qed.

(** Text without a byte that can begin or end the encoding of a space is kept. *)
Lemma TrimSpace_avoids ok s : avoids ok space_encodings = true →
  avoids ok ((λ p, rev_s p EmptyString) <$> space_encodings) = true →
  string_forallb ok s = true → TrimSpace s = s.
Proof.
  intros H1 H2 Hs. unfold TrimSpace. rewrite (trim_left_avoids ok _ space_encodings s) by done.
  rewrite (trim_left_avoids ok) by (try done; by rewrite string_forallb_rev).
  apply rev_s_involutive.
Qed.

(** [s] neither begins nor ends with white space. *)
Definition trimmed (s : string) : bool := bool_decide (TrimSpace s = s).

(** ** strings.ToLower

    ASCII letters, and the two runes outside ASCII whose lower case is an ASCII
    letter: U+0130 and U+212A.  Every other rune outside ASCII keeps to itself,
    which is exact for a search of ASCII words in the result. *)

Definition lower_byte (c : ascii) : ascii :=
  if (65 <=? byte_of c) && (byte_of c <=? 90) then ascii_of (byte_of c + 32) else c.

Fixpoint ToLower (s : string) : string :=
  match s with
  | EmptyString => EmptyString
  | String c s1 =>
      match s1 with
      | String d s2 =>
          if (byte_of c =? 196) && (byte_of d =? 176) then String "i" (ToLower s2)
          else match s2 with
               | String e s3 =>
                   if (byte_of c =? 226) && (byte_of d =? 132) && (byte_of e =? 170)
                   then String "k" (ToLower s3)
                   else String (lower_byte c) (ToLower s1)
               | EmptyString => String (lower_byte c) (ToLower s1)
               end
      | EmptyString => String (lower_byte c) (ToLower s1)
      end
  end.

Example TrimSpace_ex : TrimSpace " a b	" = "a b".
Proof. reflexivity. Qed.

Example ToLower_ex : ToLower "Session Timed OUT" = "session timed out".
Proof. reflexivity. Qed.

(** ** Comparison: byte by byte *)

Fixpoint bytes_leb (s t : string) : bool :=
  match s, t with
  | EmptyString, _ => true
  | String _ _, EmptyString => false
  | String c s, String d t =>
      (byte_of c <? byte_of d) || ((byte_of c =? byte_of d) && bytes_leb s t)
  end.

Definition bytes_le (s t : string) : Prop := bytes_leb s t = true.
Definition bytes_lt (s t : string) : Prop := bytes_leb t s = false.

#[export] Instance bytes_le_dec s t : Decision (bytes_le s t).
Proof. unfold bytes_le. apply _. Defined.

#[export] Instance bytes_le_total : Total bytes_le.
Proof.
  intros s. unfold bytes_le. induction s as [|c s IH]; intros [|d t]; cbn; auto.
  destruct (Z.ltb_spec (byte_of c) (byte_of d)); [by left|].
  destruct (Z.ltb_spec (byte_of d) (byte_of c)); [by right|]. cbn.
  rewrite !(proj2 (Z.eqb_eq _ _)) by lia. apply IH.
Qed.

#[export] Instance bytes_le_trans : Transitive bytes_le.
Proof.
  intros s. unfold bytes_le. induction s as [|c s IH]; intros [|d t] [|e u]; cbn; try done.
  destruct (Z.ltb_spec (byte_of c) (byte_of d)), (Z.ltb_spec (byte_of d) (byte_of e)); cbn;
    rewrite ?andb_true_iff, ?Z.eqb_eq; intros H1 H2; rewrite orb_true_iff, Z.ltb_lt, andb_true_iff,
    Z.eqb_eq; [left; lia|left; lia|left; lia|].
  right. split; [lia|]. by eapply IH; [apply H1|apply H2].
Qed.

#[export] Instance bytes_le_antisymm : AntiSymm (=) bytes_le.
Proof.
  intros s. unfold bytes_le. induction s as [|c s IH]; intros [|d t]; cbn; try done.
  rewrite !orb_true_iff, !andb_true_iff, !Z.ltb_lt, !Z.eqb_eq.
  intros [?|[? ?]] [?|[? ?]]; [lia..|]. f_equal; [by apply byte_of_inj|by apply IH].
Qed.

Lemma bytes_lt_le s t : bytes_lt s t → bytes_le s t.
Proof. unfold bytes_lt. destruct (bytes_le_total s t) as [|H]; [done|]. by rewrite H. Qed.

Lemma bytes_lt_ne s t : bytes_lt s t → s ≠ t.
Proof.
  intros H ->. unfold bytes_lt in H. destruct (bytes_le_total t t) as [H'|H'];
    unfold bytes_le in H'; congruence.
Qed.

Lemma bytes_lt_app p s t x y : String.length s = String.length t → bytes_lt s t →
  bytes_lt (p +:+ s +:+ x) (p +:+ t +:+ y).
Proof.
  unfold bytes_lt. intros Hlen Hst. induction p as [|c p IHp].
  - change ("" +:+ ?a) with a. revert t Hlen Hst.
    induction s as [|c s IH]; intros [|d t]; cbn; try done.
    intros [= Hlen]. rewrite !orb_false_iff, !andb_false_iff. intros [? [?|?]]; split; auto.
  - cbn. by rewrite Z.ltb_irrefl, Z.eqb_refl, IHp.
Qed.

(** ** math/big: SetBytes and Bytes, big endian *)

Fixpoint set_bytes_acc (acc : Z) (s : string) : Z :=
  match s with
  | EmptyString => acc
  | String c s => set_bytes_acc (acc * 256 + byte_of c) s
  end.

Definition SetBytes (s : string) : Z := set_bytes_acc 0 s.

Fixpoint be_bytes (n : nat) (z : Z) : string :=
  match n with
  | O => EmptyString
  | S n => String (ascii_of (z / 256 ^ Z.of_nat n)) (be_bytes n (z mod 256 ^ Z.of_nat n))
  end.

(** [x.Bytes()]: the absolute value without leading zero bytes. *)
Definition Bytes (z : Z) : string :=
  if z =? 0 then EmptyString else be_bytes (Z.to_nat (Z.log2 (Z.abs z) / 8 + 1)) (Z.abs z).

Fixpoint strip_zeros (s : string) : string :=
  match s with
  | String c s' => if byte_of c =? 0 then strip_zeros s' else s
  | EmptyString => EmptyString
  end.

(** [s] does not start with a zero byte. *)
Definition no_lead_zero (s : string) : bool :=
  match s with String c _ => negb (byte_of c =? 0) | EmptyString => true end.

Lemma set_bytes_acc_eq acc s :
  set_bytes_acc acc s = acc * 256 ^ Z.of_nat (String.length s) + SetBytes s.
Proof.
  unfold SetBytes. revert acc. induction s as [|c s IH]; intros acc; simpl; [lia|].
  rewrite (IH (acc * 256 + _)). change (0 * 256 + byte_of c) with (byte_of c).
  rewrite (IH (byte_of c)), Nat2Z.inj_succ, Z.pow_succ_r by lia. lia.
Qed.

Lemma SetBytes_cons c s :
  SetBytes (String c s) = byte_of c * 256 ^ Z.of_nat (String.length s) + SetBytes s.
Proof. unfold SetBytes at 1. simpl. by rewrite set_bytes_acc_eq. Qed.

Lemma SetBytes_bound s : 0 ≤ SetBytes s < 256 ^ Z.of_nat (String.length s).
Proof.
  induction s as [|c s IH]; [done|]. rewrite SetBytes_cons. simpl String.length.
  rewrite Nat2Z.inj_succ, Z.pow_succ_r by lia.
  pose proof (byte_of_range c). nia.
Qed.

Lemma be_bytes_SetBytes s : be_bytes (String.length s) (SetBytes s) = s.
Proof.
  induction s as [|c s IH]; [done|]. simpl String.length. rewrite SetBytes_cons.
  pose proof (SetBytes_bound s). pose proof (byte_of_range c).
  cbn [be_bytes].
  rewrite Z.div_add_l, Z.div_small, Z.add_0_r by lia.
  rewrite Z.add_comm, Z.mod_add, Z.mod_small by lia.
  by rewrite ascii_of_byte_of, IH.
Qed.

Lemma length_be_bytes n z : String.length (be_bytes n z) = n.
Proof. revert z. induction n as [|n IH]; intros z; simpl; [done|]. by rewrite IH. Qed.

Lemma SetBytes_be_bytes n z : 0 ≤ z < 256 ^ Z.of_nat n → SetBytes (be_bytes n z) = z.
Proof.
  revert z. induction n as [|n IH]; intros z Hz; [cbn in *; lia|].
  cbn [be_bytes]. rewrite Nat2Z.inj_succ, Z.pow_succ_r in Hz by lia.
  rewrite SetBytes_cons, length_be_bytes, IH by (apply Z.mod_pos_bound; lia).
  rewrite byte_of_ascii_of.
  - pose proof (Z.div_mod z (256 ^ Z.of_nat n)). lia.
  - split; [apply Z.div_pos; lia|apply Z.div_lt_upper_bound; lia].
Qed.

Lemma SetBytes_Bytes z : 0 ≤ z → SetBytes (Bytes z) = z.
Proof.
  intros Hz. unfold Bytes. destruct (Z.eqb_spec z 0) as [->|Hne]; [done|].
  rewrite Z.abs_eq by done. apply SetBytes_be_bytes. split; [done|].
  pose proof (Z.log2_nonneg z). pose proof (Z.log2_spec z ltac:(lia)) as [_ Hl].
  rewrite Z2Nat.id by (pose proof (Z.div_pos (Z.log2 z) 8); lia).
  eapply Z.lt_le_trans; [exact Hl|]. change 256 with (2 ^ 8). rewrite <-Z.pow_mul_r by
    (try lia; pose proof (Z.div_pos (Z.log2 z) 8); lia).
  apply Z.pow_le_mono_r; [lia|].
  pose proof (Z.div_mod (Z.log2 z) 8). pose proof (Z.mod_pos_bound (Z.log2 z) 8). lia.
Qed.

Lemma SetBytes_strip_zeros s : SetBytes (strip_zeros s) = SetBytes s.
Proof.
  induction s as [|c s IH]; [done|]. simpl. destruct (Z.eqb_spec (byte_of c) 0); [|done].
  rewrite SetBytes_cons, IH. lia.
Qed.

Lemma strip_zeros_lead s : no_lead_zero (strip_zeros s) = true.
Proof.
  induction s as [|c s IH]; [done|]. simpl.
  destruct (byte_of c =? 0) eqn:Hc; [done|]. simpl. by rewrite Hc.
Qed.

Lemma strip_zeros_id s : no_lead_zero s = true → strip_zeros s = s.
Proof. destruct s as [|c s]; simpl; [done|]. by destruct (byte_of c =? 0). Qed.

Lemma Bytes_SetBytes s : no_lead_zero s = true → Bytes (SetBytes s) = s.
Proof.
  destruct s as [|c s]; [done|]. intros Hc%negb_true_iff%Z.eqb_neq.
  pose proof (SetBytes_bound s) as Hs. pose proof (byte_of_range c).
  pose proof (SetBytes_cons c s) as Hz.
  pose proof (SetBytes_bound (String c s)) as Hb.
  assert (256 ^ Z.of_nat (String.length s) ≤ SetBytes (String c s)) as Hlow by nia.
  unfold Bytes. destruct (Z.eqb_spec (SetBytes (String c s)) 0); [lia|].
  rewrite Z.abs_eq by lia.
  replace (Z.to_nat _) with (String.length (String c s)); [apply be_bytes_SetBytes|].
  assert (Z.log2 (SetBytes (String c s)) / 8 = Z.of_nat (String.length s)) as ->.
  { simpl String.length in *. rewrite Nat2Z.inj_succ in Hb.
    set (k := Z.of_nat (String.length s)) in *. set (z := SetBytes (String c s)) in *.
    assert (0 ≤ k) by lia.
    replace (256 ^ k) with (2 ^ (8 * k)) in Hlow by (rewrite Z.pow_mul_r by lia; done).
    replace (256 ^ Z.succ k) with (2 ^ (8 * Z.succ k)) in Hb
      by (rewrite Z.pow_mul_r by lia; done).
    assert (8 * k ≤ Z.log2 z) by (apply Z.log2_le_pow2; lia).
    assert (Z.log2 z < 8 * Z.succ k) by (apply Z.log2_lt_pow2; lia).
    symmetry. apply (Z.div_unique _ 8 k (Z.log2 z - 8 * k)); lia. }
  simpl String.length. lia.
Qed.

(** Only leading zero bytes are lost. *)
Lemma Bytes_SetBytes_strip s : Bytes (SetBytes s) = strip_zeros s.
Proof.
  rewrite <-SetBytes_strip_zeros. apply Bytes_SetBytes, strip_zeros_lead.
Qed.

Lemma SetBytes_inj a b :
  no_lead_zero a = true → no_lead_zero b = true → SetBytes a = SetBytes b → a = b.
Proof. intros Ha Hb H. by rewrite <-(Bytes_SetBytes a), <-(Bytes_SetBytes b), H. Qed.
