(* ===== verification/External.v ===== *)
(** * Code mpcium calls and does not contain

    Third-party packages ([samber/lo], [bnb-chain/tss-lib]), and the
    cryptographic primitives, are parameters of the model: a class gives the
    functions, a second class the documented behaviour the theorems rely on.
    Each second class has a concrete instance, for the witnesses. *)

From stdpp Require Import base gmap list strings sorting.
From Stdlib Require Import ZArith Lia Ascii.
From S2P Require Import Prelude.
From S2P Require Import GoStrings.

(** ** samber/lo *)

Class Lo := {
  lo_Filter : (string → bool) → list string → list string;
  lo_Difference : list string → list string → list string * list string;
  lo_Intersect : list string → list string → list string;
}.

Class LoSpec (L : Lo) := {
  (** elements the predicate accepts, in order *)
  lo_Filter_spec p l : lo_Filter p l = List.filter p l;
  (** the first component is what the second list lacks *)
  lo_Difference_fst l1 l2 :
    (lo_Difference l1 l2).1 ≡ₚ List.filter (λ x, negb (bool_decide (x ∈ l2))) l1;
  lo_Intersect_elem l1 l2 x : x ∈ lo_Intersect l1 l2 ↔ x ∈ l1 ∧ x ∈ l2;
  lo_Intersect_NoDup l1 l2 : NoDup l1 → NoDup l2 → NoDup (lo_Intersect l1 l2);
}.

Definition lo_ref : Lo := {|
  lo_Filter := λ p l, List.filter p l;
  lo_Difference l1 l2 :=
    (List.filter (λ x, negb (bool_decide (x ∈ l2))) l1,
     List.filter (λ x, negb (bool_decide (x ∈ l1))) l2);
  lo_Intersect l1 l2 := List.filter (λ x, bool_decide (x ∈ l1)) l2;
|}.

Lemma elem_of_filter_b {A} (p : A → bool) (l : list A) x :
  x ∈ List.filter p l ↔ x ∈ l ∧ p x = true.
Proof. rewrite !list_elem_of_In. apply filter_In. Qed.

Lemma sublist_filter_b {A} (p : A → bool) (l : list A) : sublist (List.filter p l) l.
Proof.
  induction l as [|x l IH]; cbn; [constructor|]. destruct (p x); by constructor.
Qed.

Lemma NoDup_filter_b {A} (p : A → bool) (l : list A) : NoDup l → NoDup (List.filter p l).
Proof. rewrite !NoDup_ListNoDup. apply List.NoDup_filter. Qed.

#[export] Instance filter_b_Permutation {A} (p : A → bool) :
  Proper (Permutation ==> Permutation) (List.filter p).
Proof.
  induction 1; cbn; [done|by case_match; [constructor|]| |by etrans].
  destruct (p x), (p y); try done. constructor.
Qed.

Definition lo_ref_spec : LoSpec lo_ref.
Proof.
  split; simpl; try done.
  - intros l1 l2 x. rewrite elem_of_filter_b, bool_decide_eq_true. tauto.
  - intros l1 l2 _ H. by apply NoDup_filter_b.
Qed.

(** ** tss-lib: party identifiers

    [Key] identifies a party inside a protocol run, [Id] is a name and [Moniker]
    a label.  [SortPartyIDs] orders a committee by key. *)

Class TssLib := {
  PartyID : Type;
  PartyID_eq_dec :: EqDecision PartyID;
  NewPartyID : string → string → Z → PartyID;
  pid_Id : PartyID → string;
  pid_Moniker : PartyID → string;
  KeyInt : PartyID → Z;
  SortPartyIDs : list PartyID → list PartyID;
}.

Class TssLibSpec (T : TssLib) := {
  pid_Id_New i m k : pid_Id (NewPartyID i m k) = i;
  pid_Moniker_New i m k : pid_Moniker (NewPartyID i m k) = m;
  KeyInt_New i m k : 0 ≤ k → KeyInt (NewPartyID i m k) = k;
  (** the same parties up to the position [Index], in key order *)
  SortPartyIDs_perm l : KeyInt <$> SortPartyIDs l ≡ₚ KeyInt <$> l;
  SortPartyIDs_sorted l : StronglySorted Z.le (KeyInt <$> SortPartyIDs l);
}.

Record party_id := mkPartyID { rId : string; rMoniker : string; rKey : Z }.

#[export] Instance party_id_eq_dec : EqDecision party_id.
Proof. solve_decision. Defined.

Definition key_le (x y : party_id) : Prop := rKey x ≤ rKey y.

#[export] Instance key_le_dec x y : Decision (key_le x y).
Proof. unfold key_le. apply _. Defined.

Definition tss_ref : TssLib := {|
  PartyID := party_id;
  NewPartyID i m k := mkPartyID i m k;
  pid_Id := rId;
  pid_Moniker := rMoniker;
  KeyInt := rKey;
  SortPartyIDs := λ l, merge_sort key_le l;
|}.

Lemma StronglySorted_fmap_key l :
  StronglySorted key_le l → StronglySorted Z.le (rKey <$> l).
Proof. induction 1; simpl; constructor; [done|]. by apply Forall_fmap. Qed.

Definition tss_ref_spec : TssLibSpec tss_ref.
Proof.
  split; simpl; try done.
  - intros l. by rewrite merge_sort_Permutation.
  - intros l. apply StronglySorted_fmap_key, StronglySorted_merge_sort.
    + intros x y z. unfold key_le. lia.
    + intros x y. unfold key_le. lia.
Qed.

(** ** Cryptographic primitives *)

Class Crypto := {
  ed25519_Public : string → string;               (* private key to public key *)
  ed25519_Sign : string → string → string;        (* private key, message *)
  ed25519_Verify : string → string → string → bool;   (* public key, message, signature *)
  sha256 : string → string;
  ecdsa_PublicKey : Type;
  ecdsa_on_P256 : ecdsa_PublicKey → bool;         (* Curve == elliptic.P256() *)
  ecdsa_VerifyASN1 : ecdsa_PublicKey → string → string → bool;  (* hash, signature *)
  aes_Seal : string → string → string → string;       (* key, nonce, plaintext *)
  aes_Open : string → string → string → option string;  (* key, nonce, ciphertext *)
  x25519_PublicKey : string → string;             (* private key to public key *)
  x25519_ECDH : string → string → Res string;     (* private key, peer public key *)
  hkdf_sha256 : string → string → option string;  (* secret, info: 32 bytes *)
}.

Class CryptoSpec (C : Crypto) := {
  ed25519_Verify_Sign sk m : ed25519_Verify (ed25519_Public sk) m (ed25519_Sign sk m) = true;
  ed25519_Sign_nonempty sk m : ed25519_Sign sk m ≠ EmptyString;
  aes_Open_Seal k n p : aes_Open k n (aes_Seal k n p) = Some p;
  x25519_shared a b :
    x25519_ECDH a (x25519_PublicKey b) = x25519_ECDH b (x25519_PublicKey a);
  hkdf_length s i k : hkdf_sha256 s i = Some k → String.length k = 32%nat;
  ed25519_Public_length sk : String.length sk = 64%nat → String.length (ed25519_Public sk) = 32%nat;
  x25519_PublicKey_length sk :
    String.length sk = 32%nat → String.length (x25519_PublicKey sk) = 32%nat;
}.

(** A toy instance that satisfies the laws; it only serves to show that they
    can hold together. *)
Fixpoint pad_to (n : nat) (s : string) : string :=
  match n, s with
  | O, _ => EmptyString
  | S n, EmptyString => String "0" (pad_to n EmptyString)
  | S n, String c s => String c (pad_to n s)
  end.

Lemma length_pad_to n s : String.length (pad_to n s) = n.
Proof. revert s. induction n as [|n IH]; intros [|c s]; simpl; auto. Qed.

Definition toy_crypto : Crypto := {|
  ed25519_Public sk := pad_to 32 sk;
  ed25519_Sign sk m := pad_to 32 sk +:+ m;
  ed25519_Verify pk m s := bool_decide (pk +:+ m = s);
  sha256 m := pad_to 32 m;
  ecdsa_PublicKey := string;
  ecdsa_on_P256 pk := HasPrefix pk "p256";
  ecdsa_VerifyASN1 pk h s := bool_decide (s = pk +:+ h);
  aes_Seal k n p := k +:+ p;
  aes_Open k n c := TrimPrefix_opt c k;
  x25519_PublicKey sk := sk;
  x25519_ECDH a b := Ok (if String.leb a b then a +:+ b else b +:+ a);
  hkdf_sha256 s i := Some (pad_to 32 (s +:+ i));
|}.

Lemma TrimPrefix_opt_app p s : TrimPrefix_opt (p +:+ s) p = Some s.
Proof. induction p as [|c p IH]; simpl; [by destruct s|]. by rewrite Ascii.eqb_refl. Qed.

Lemma String_leb_antisym a b : String.leb a b = true → String.leb b a = true → a = b.
Proof. apply String.leb_antisym. Qed.

Definition toy_crypto_spec : CryptoSpec toy_crypto.
Proof.
  split; cbn -[pad_to].
  - intros sk m. by apply bool_decide_eq_true_2.
  - intros sk m H. apply (f_equal String.length) in H.
    rewrite length_app_s, length_pad_to in H. cbn in H. lia.
  - intros k n p. apply TrimPrefix_opt_app.
  - intros a b. f_equal.
    destruct (String.leb a b) eqn:Hab, (String.leb b a) eqn:Hba; try done.
    + by rewrite (String_leb_antisym a b).
    + destruct (String.leb_total a b); congruence.
  - intros s i k H. assert (k = pad_to 32 (s +:+ i)) as -> by congruence.
    apply length_pad_to.
  - intros sk _. apply length_pad_to.
  - done.
Qed.
