(* ===== verification/Logger.v ===== *)
(** * pkg/logger: what a call of the logger can do to its caller

    A call hands a line to zerolog, which is not in the repository: it writes the line
    when the logger has a writer and the line's level is enabled.  The rest is the code's
    own: the keys and values of a call, the arguments it does not accept
    ([log_at_panics], [Error_panics]) and the calls that end the process.  The other
    files leave out the calls with keys that are strings, since they come back and only
    write a line ([log_outcome]). *)

From stdpp Require Import base list strings.
From Stdlib Require Import ZArith Lia.
From S2P Require Import Prelude.

Module logger.

#[local] Open Scope Z_scope.

(** An [interface{}], as far as the logger looks at it: its string, or its type. *)
Inductive any :=
| AString (s : string)
| AInt (z : Z)
| AOther (type : string).

Definition type_name (a : any) : string :=
  match a with AString _ => "string" | AInt _ => "int" | AOther t => t end.

Inductive level := DebugLevel | InfoLevel | WarnLevel | ErrorLevel | FatalLevel | PanicLevel.

(** A line, as it is given to zerolog. *)
Record line := mkLine {
  ln_level : level;
  ln_fields : list (string * any);
  ln_unknown : option (list any);         (* the field "Unknown Key" *)
  ln_error : option error;
  ln_message : string;
}.

(** Where [Log] writes: it is the zero logger before [Init]. *)
Inductive writer := NoWriter | Console | Stdout.

Record log_state := mkLog { globalLevel : level; Log : writer; lines : list line }.

Definition init_log : log_state := mkLog DebugLevel NoWriter [].

Definition rank (l : level) : Z :=
  match l with
  | DebugLevel => 0 | InfoLevel => 1 | WarnLevel => 2 | ErrorLevel => 3 | FatalLevel => 4
  | PanicLevel => 5
  end.

(** zerolog drops a line below the global level, and every line of the zero logger. *)
Definition enabled (l : level) (s : log_state) : bool :=
  match Log s with NoWriter => false | _ => rank (globalLevel s) <=? rank l end.

Definition emit_line (l : line) (s : log_state) : log_state :=
  mkLog (globalLevel s) (Log s) (if enabled (ln_level l) s then lines s ++ [l] else lines s).

Definition Init (env : string) (debug : bool) (s : log_state) : log_state :=
  mkLog (if debug then DebugLevel else InfoLevel)
    (if negb (String.eqb env "production") then Console else Stdout) (lines s).

(** [key, value := keyValues[i].(string), keyValues[i+1]], for i = 0, 2, ...: the type
    assertion panics on a key that is not a string. *)
Fixpoint add_fields (keyValues : list any) (ctx : list (string * any)) :
    Res (list (string * any)) :=
  match keyValues with
  | AString key :: value :: rest => add_fields rest (ctx ++ [(key, value)])
  | k :: _ :: _ =>
      Panic ("interface conversion: interface {} is " +:+ type_name k +:+ ", not string")
  | _ => Ok ctx
  end.

Definition wrong_usage : string :=
  " ([Wrong logger.Info usage] Provided args to logger.Info must be a series of key/value pairs)".

(** The common body of [Debug], [Info] and [Warn]. *)
Definition log_at (l : level) (msg : string) (keyValues : list any) : M log_state (Res unit) :=
  if Nat.odd (length keyValues) then
    modifyR (emit_line (mkLine WarnLevel [] (Some keyValues) None (msg +:+ wrong_usage)))
  else
    ctx ←! lift (add_fields keyValues []);
    modifyR (emit_line (mkLine l ctx None None msg)).

Definition Debug (msg : string) (keyValues : list any) : M log_state (Res unit) :=
  log_at DebugLevel msg keyValues.
Definition Info (msg : string) (keyValues : list any) : M log_state (Res unit) :=
  log_at InfoLevel msg keyValues.
Definition Warn (msg : string) (keyValues : list any) : M log_state (Res unit) :=
  log_at WarnLevel msg keyValues.

(** [formatted]: what fmt makes of the format and its arguments. *)
Definition Infof (formatted : string) : M log_state (Res unit) :=
  modifyR (emit_line (mkLine InfoLevel [] None None formatted)).

Definition Error (msg : string) (err : option error) (keyValues : list any) :
    M log_state (Res unit) :=
  if Nat.odd (length keyValues) then lift (Panic "keyValues must be a list of key/value pairs")
  else
    ctx ←! lift (add_fields keyValues []);
    modifyR (emit_line (mkLine ErrorLevel ctx None err msg)).

(** The process ends: by os.Exit, or by a panic with the message. *)
Definition Fatal (msg : string) (err : option error) : M log_state (Res unit) :=
  _ ←! modifyR (emit_line (mkLine FatalLevel [] None err msg)); lift (Panic msg).
Definition Panic_ (msg : string) (err : option error) : M log_state (Res unit) :=
  _ ←! modifyR (emit_line (mkLine PanicLevel [] None err msg)); lift (Panic msg).

(** What a call does to its caller. *)
Definition logged (call : M log_state (Res unit)) : Res unit := eval call init_log.

End logger.

Import logger.

(** ** Properties *)

(** The keys of a call: its arguments at the even positions. *)
Fixpoint keys_of (keyValues : list any) : list any :=
  match keyValues with
  | k :: _ :: rest => k :: keys_of rest
  | _ => []
  end.

Definition is_string (a : any) : bool := match a with AString _ => true | _ => false end.

(** Every key is a string; the keys of an odd number of arguments do not matter. *)
Definition usable (keyValues : list any) : bool :=
  Nat.odd (length keyValues) || forallb is_string (keys_of keyValues).

(** Two elements at a time. *)
Lemma pairs_ind {A} (P : list A → Prop) :
  P [] → (∀ x, P [x]) → (∀ x y l, P l → P (x :: y :: l)) → ∀ l, P l.
Proof.
  intros H0 H1 H2. assert (∀ l, P l ∧ ∀ x, P (x :: l)) as H; [|intros l; apply H].
  induction l as [|y l [IH IH']]; [by split|]. split; [apply IH'|]. intros x. by apply H2.
Qed.

Lemma add_fields_spec kv ctx :
  if forallb is_string (keys_of kv)
  then ∃ fields, add_fields kv ctx = Ok (ctx ++ fields) ∧ AString <$> fields.*1 = keys_of kv
  else ∃ k, k ∈ keys_of kv ∧ is_string k = false ∧ add_fields kv ctx =
         Panic ("interface conversion: interface {} is " +:+ type_name k +:+ ", not string").
Proof.
  revert ctx. induction kv as [|a|k v kv IH] using pairs_ind; intros ctx; cbn.
  - exists []. by rewrite app_nil_r.
  - exists []. destruct a; by rewrite app_nil_r.
  - destruct k as [s|z|t]; cbn.
    + specialize (IH (ctx ++ [(s, v)])). destruct (forallb _ _).
      * destruct IH as (fields & -> & Hf). exists ((s, v) :: fields).
        rewrite <-app_assoc. split; [done|]. cbn. by rewrite Hf.
      * destruct IH as (k & Hk & Hs & ->). exists k. split; [by right|done].
    + exists (AInt z). split; [by left|done].
    + exists (AOther t). split; [by left|done].
Qed.

(** What a call does to its caller depends on its arguments alone. *)
Lemma log_at_logged l msg kv s : (log_at l msg kv s).1 = logged (log_at l msg kv).
Proof.
  unfold logged, eval, log_at. destruct (Nat.odd _); [done|]. unfold bindR, lift.
  by destruct (add_fields kv []).
Qed.

(** The line of a call: a warning with all the arguments if their number is odd, else
    the keys of the call. *)
Definition line_of (l : level) (msg : string) (kv : list any) (ln : line) : Prop :=
  if Nat.odd (length kv) then ln_level ln = WarnLevel ∧ ln_unknown ln = Some kv
  else ln_level ln = l ∧ AString <$> (ln_fields ln).*1 = keys_of kv ∧
       ln_message ln = msg ∧ ln_unknown ln = None.

Lemma log_at_line l msg kv s : usable kv = true →
  ∃ ln, log_at l msg kv s = (Ok tt, emit_line ln s) ∧ line_of l msg kv ln.
Proof.
  unfold usable, log_at, line_of. destruct (Nat.odd _); cbn [orb].
  { intros _. by eexists. }
  intros Hs. pose proof (add_fields_spec kv []) as Hf. rewrite Hs in Hf.
  destruct Hf as (fields & Hadd & Hk). unfold bindR, lift. rewrite Hadd.
  by eexists.
Qed.

(** C39: a call of [Debug], [Info] or [Warn] whose keys are strings, or whose number of
    arguments is odd, comes back and leaves the logger as it was but for at most one
    line: the call's own with all its keys, or, for an odd number, a warning with all the
    arguments.  Before [Init] nothing is written; after it every line is, except the debug
    lines of a logger without [debug].  [Error] writes its line, with the error, for an
    even number of arguments. *)
Theorem log_outcome env debug l msg err kv s0 : usable kv = true →
  let s := Init env debug s0 in
  log_at l msg kv init_log = (Ok tt, init_log) ∧
  (∃ ln, line_of l msg kv ln ∧
     log_at l msg kv s =
       (Ok tt, mkLog (globalLevel s) (Log s)
          (lines s0 ++ (if debug || (0 <? rank (ln_level ln)) then [ln] else [])))) ∧
  (Nat.odd (length kv) = false →
   ∃ ln, ln_level ln = ErrorLevel ∧ ln_error ln = err ∧ AString <$> (ln_fields ln).*1 = keys_of kv ∧
     logger.Error msg err kv s = (Ok tt, mkLog (globalLevel s) (Log s) (lines s0 ++ [ln]))).
Proof.
  intros Hkv. cbv zeta. split; [|split].
  - by destruct (log_at_line l msg kv init_log Hkv) as (ln & -> & _).
  - destruct (log_at_line l msg kv (Init env debug s0) Hkv) as (ln & -> & Hln).
    exists ln. split; [done|]. unfold emit_line, enabled, Init. cbn.
    destruct (String.eqb env "production"), debug; cbn; destruct ln as [[]]; cbn;
      by rewrite ?app_nil_r.
  - unfold usable in Hkv. intros Hodd. rewrite Hodd in Hkv. cbn [orb] in Hkv.
    pose proof (add_fields_spec kv []) as Hf. rewrite Hkv in Hf. destruct Hf as (fields & Hadd & Hk).
    unfold logger.Error, bindR, lift. rewrite Hodd, Hadd.
    exists (mkLine ErrorLevel fields None err msg). split; [done|]. split; [done|]. split; [done|].
    unfold modifyR, emit_line, enabled, Init. by destruct (String.eqb env "production"), debug.
Qed.

(** Otherwise the type assertion on the first key that is not a string panics, and nothing
    is written. *)
Lemma log_at_panics l msg kv s : usable kv = false → ∃ k, k ∈ keys_of kv ∧ is_string k = false ∧
  log_at l msg kv s =
    (Panic ("interface conversion: interface {} is " +:+ type_name k +:+ ", not string"), s).
Proof.
  unfold usable, log_at. destruct (Nat.odd _); cbn [orb]; [done|]. intros Hs.
  pose proof (add_fields_spec kv []) as Hf. rewrite Hs in Hf. destruct Hf as (k & Hk & Hb & Hadd).
  exists k. unfold bindR, lift. by rewrite Hadd.
Qed.

(** [Error] also panics on an odd number of arguments. *)
Lemma Error_panics msg err kv s : Nat.odd (length kv) || negb (usable kv) = true →
  ∃ why, logger.Error msg err kv s = (Panic why, s).
Proof.
  unfold logger.Error, usable. destruct (Nat.odd _); cbn; [by eexists|].
  intros Hs%negb_true_iff. pose proof (add_fields_spec kv []) as Hf. rewrite Hs in Hf.
  destruct Hf as (k & _ & _ & Hadd). unfold bindR, lift. rewrite Hadd. by eexists.
Qed.

(** No call of [Fatal] or [Panic] comes back. *)
Lemma ends_process msg err s :
  (Fatal msg err s).1 = Panic msg ∧ (Panic_ msg err s).1 = Panic msg.
Proof. done. Qed.

Lemma log_outcome_witness :
  (∃ ln, Warn "short" [AInt 2] (Init "production" false init_log) =
     (Ok tt, mkLog InfoLevel Stdout [ln])) ∧
  Debug "read" [AString "n"; AInt 2] (Init "test" false init_log) =
    (Ok tt, mkLog InfoLevel Console []).
Proof.
  split.
  - destruct (log_outcome "production" false WarnLevel "short" None [AInt 2] init_log eq_refl)
      as (_ & (ln & Hln & H) & _).
    exists ln. destruct Hln as [Hlevel _]. rewrite Hlevel in H. exact H.
  - destruct (log_outcome "test" false DebugLevel "read" None [AString "n"; AInt 2] init_log eq_refl)
      as (_ & (ln & Hln & H) & _).
    destruct Hln as [Hlevel _]. rewrite Hlevel in H. exact H.
Defined.
