(* ===== verification/Json.v ===== *)
(** * encoding/json: the encoder

    [json.Marshal] as the source uses it: strings escaped byte for byte as the
    standard library does (HTML-safe, invalid UTF-8 replaced), [[]byte] in
    base64 with nil as null, integers in decimal, structs as objects in field
    order. *)

From stdpp Require Import base gmap list strings pretty.
From Stdlib Require Import ZArith Lia Ascii.
From S2P Require Import Prelude.
From S2P Require Import GoStrings.

(** ** Strings *)

Definition backslash : ascii := chr 92.

Definition hex_digit (n : Z) : ascii := ascii_of (if n <? 10 then 48 + n else 87 + n).

Definition u00 (c : ascii) : string :=
  String backslash (String "u" (String "0" (String "0"
    (String (hex_digit (byte_of c / 16)) (str1 (hex_digit (byte_of c mod 16))))))).

(** The cases of [appendString] for a byte below [utf8.RuneSelf]. *)
Definition esc_ascii (c : ascii) : string :=
  let n := byte_of c in
  if (n =? 34) || (n =? 92) then String backslash (str1 c)
  else if n =? 8 then String backslash "b"
  else if n =? 12 then String backslash "f"
  else if n =? 10 then String backslash "n"
  else if n =? 13 then String backslash "r"
  else if n =? 9 then String backslash "t"
  else if (n <? 32) || (n =? 60) || (n =? 62) || (n =? 38) then u00 c
  else str1 c.

Definition in_range (lo hi : Z) (s : string) : option string :=
  match s with
  | String c s' => if (lo <=? byte_of c) && (byte_of c <=? hi) then Some s' else None
  | EmptyString => None
  end.

(** [o] was read, and [n] continuation bytes follow it. *)
Fixpoint conts (n : nat) (o : option string) : bool :=
  match o, n with
  | None, _ => false
  | Some _, O => true
  | Some s, S n => conts n (in_range 128 191 s)
  end.

(** Size of the valid multi-byte UTF-8 sequence at the head, 0 when there is none. *)
Definition utf8_size (s : string) : nat :=
  match s with
  | EmptyString => O
  | String c r =>
      let n := byte_of c in
      if (194 <=? n) && (n <=? 223) && conts 1 (Some r) then 2%nat
      else if (n =? 224) && conts 1 (in_range 160 191 r) then 3%nat
      else if (n =? 237) && conts 1 (in_range 128 159 r) then 3%nat
      else if (225 <=? n) && (n <=? 239) && negb (n =? 237) && conts 2 (Some r) then 3%nat
      else if (n =? 240) && conts 2 (in_range 144 191 r) then 4%nat
      else if (241 <=? n) && (n <=? 243) && conts 3 (Some r) then 4%nat
      else if (n =? 244) && conts 2 (in_range 128 143 r) then 4%nat
      else 0%nat
  end.

(** U+2028 and U+2029 *)
Definition line_sep (s : string) : option ascii :=
  match s with
  | String a (String b (String c _)) =>
      if (byte_of a =? 226) && (byte_of b =? 128) && ((byte_of c =? 168) || (byte_of c =? 169))
      then Some (ascii_of (byte_of c - 112)) else None
  | _ => None
  end.

(** [keep] bytes of a copied rune, or [drop] bytes of a replaced one, are left. *)
Fixpoint escape_go (keep drop : nat) (s : string) : string :=
  match s with
  | EmptyString => EmptyString
  | String c s' =>
      match drop, keep with
      | S d, _ => escape_go keep d s'
      | O, S k => String c (escape_go k 0 s')
      | O, O =>
          if is_ascii c then esc_ascii c +:+ escape_go 0 0 s'
          else match utf8_size s with
               | O => String backslash ("ufffd" +:+ escape_go 0 0 s')
               | S k =>
                   match line_sep s with
                   | Some d => String backslash ("u202" +:+ String d (escape_go 0 2 s'))
                   | None => String c (escape_go k 0 s')
                   end
               end
      end
  end.

Definition escape (s : string) : string := escape_go 0 0 s.

Definition json_string (s : string) : string := String quote (escape s +:+ str1 quote).

(** ** base64.StdEncoding *)

Definition b64_alphabet : string :=
  "ABCDEFGHIJKLMNOPQRSTUVWXYZabcdefghijklmnopqrstuvwxyz0123456789+/".

Definition b64c (b5 b4 b3 b2 b1 b0 : bool) : ascii :=
  let n := N_of_ascii (Ascii b0 b1 b2 b3 b4 b5 false false) in
  match String.get (N.to_nat n) b64_alphabet with Some c => c | None => "="%char end.

Fixpoint base64 (s : string) : string :=
  match s with
  | EmptyString => EmptyString
  | String (Ascii a0 a1 a2 a3 a4 a5 a6 a7) EmptyString =>
      String (b64c a7 a6 a5 a4 a3 a2) (String (b64c a1 a0 false false false false) "==")
  | String (Ascii a0 a1 a2 a3 a4 a5 a6 a7)
      (String (Ascii b0 b1 b2 b3 b4 b5 b6 b7) EmptyString) =>
      String (b64c a7 a6 a5 a4 a3 a2) (String (b64c a1 a0 b7 b6 b5 b4)
        (String (b64c b3 b2 b1 b0 false false) "="))
  | String (Ascii a0 a1 a2 a3 a4 a5 a6 a7)
      (String (Ascii b0 b1 b2 b3 b4 b5 b6 b7)
        (String (Ascii c0 c1 c2 c3 c4 c5 c6 c7) r)) =>
      String (b64c a7 a6 a5 a4 a3 a2) (String (b64c a1 a0 b7 b6 b5 b4)
        (String (b64c b3 b2 b1 b0 c7 c6) (String (b64c c5 c4 c3 c2 c1 c0) (base64 r))))
  end.

Definition b64_index (c : ascii) : Z :=
  let n := byte_of c in
  if (65 <=? n) && (n <=? 90) then n - 65
  else if (97 <=? n) && (n <=? 122) then n - 71
  else if (48 <=? n) && (n <=? 57) then n + 4
  else if n =? 43 then 62 else 63.

Definition b64_bits (c : ascii) : bool * bool * bool * bool * bool * bool :=
  let n := b64_index c in
  (Z.testbit n 5, Z.testbit n 4, Z.testbit n 3, Z.testbit n 2, Z.testbit n 1, Z.testbit n 0).

(** A character of the alphabet. *)
Definition is_b64 (c : ascii) : bool :=
  let '(b5, b4, b3, b2, b1, b0) := b64_bits c in Ascii.eqb (b64c b5 b4 b3 b2 b1 b0) c.

Definition b64_byte1 (c d : ascii) : ascii :=
  let '(a7, a6, a5, a4, a3, a2) := b64_bits c in
  let '(a1, a0, _, _, _, _) := b64_bits d in Ascii a0 a1 a2 a3 a4 a5 a6 a7.
Definition b64_byte2 (d e : ascii) : ascii :=
  let '(_, _, b7, b6, b5, b4) := b64_bits d in
  let '(b3, b2, b1, b0, _, _) := b64_bits e in Ascii b0 b1 b2 b3 b4 b5 b6 b7.
Definition b64_byte3 (e f : ascii) : ascii :=
  let '(_, _, _, _, c7, c6) := b64_bits e in
  let '(c5, c4, c3, c2, c1, c0) := b64_bits f in Ascii c0 c1 c2 c3 c4 c5 c6 c7.

(** [DecodeString], on text without line breaks (which Go skips). *)
Fixpoint base64_decode (s : string) : option string :=
  match s with
  | EmptyString => Some EmptyString
  | String c (String d (String e (String f r))) =>
      if negb (is_b64 c && is_b64 d) then None
      else if Ascii.eqb e "=" then
        if Ascii.eqb f "=" && String.eqb r "" then Some (String (b64_byte1 c d) EmptyString)
        else None
      else if negb (is_b64 e) then None
      else if Ascii.eqb f "=" then
        if String.eqb r "" then Some (String (b64_byte1 c d) (String (b64_byte2 d e) EmptyString))
        else None
      else if negb (is_b64 f) then None
      else match base64_decode r with
           | Some t => Some (String (b64_byte1 c d) (String (b64_byte2 d e)
                         (String (b64_byte3 e f) t)))
           | None => None
           end
  | _ => None
  end.

(** ** Values *)

Inductive json :=
| JNull
| JBool (b : bool)
| JInt (z : Z)
| JStr (s : string)
| JBase64 (s : string)
| JArr (l : list json)
| JObj (fields : list (string * json))
| JRaw (s : string).   (* what a custom marshaller produced *)

(** A [[]byte] field: nil is null. *)
Definition JBytes (o : option string) : json :=
  match o with Some s => JBase64 s | None => JNull end.

Definition JStrings (o : option (list string)) : json :=
  match o with Some l => JArr (JStr <$> l) | None => JNull end.

Definition concat_with (sep : string) (l : list string) : string :=
  match l with
  | [] => EmptyString
  | x :: l => foldl (λ acc y, acc +:+ sep +:+ y) x l
  end.

Fixpoint encode (j : json) : string :=
  match j with
  | JNull => "null"
  | JBool true => "true"
  | JBool false => "false"
  | JInt z => fmt_d z
  | JStr s => json_string s
  | JBase64 s => String quote (base64 s +:+ str1 quote)
  | JArr l => "[" +:+ concat_with "," (encode <$> l) +:+ "]"
  | JObj fields =>
      "{" +:+ concat_with "," ((λ '(k, v), json_string k +:+ ":" +:+ encode v) <$> fields) +:+ "}"
  | JRaw s => s
  end.

Example encode_ex :
  encode (JObj [("a", JStr "x<y"); ("b", JBytes (Some "Man")); ("n", JInt (-12));
                ("z", JBytes None)])
  = concat_with (str1 quote) ["{"; "a"; ":"; "x\u003cy"; ","; "b"; ":"; "TWFu"; ",";
                              "n"; ":-12,"; "z"; ":null}"].
Proof. vm_compute. reflexivity. Qed.

(** ** Unique readability

    An encoded ASCII string, byte slice or integer can be read back from the
    front of what follows it. *)

Definition all_ascii (s : string) : bool := string_forallb is_ascii s.

Definition hex_val (c : ascii) : Z :=
  let n := byte_of c in if n <? 58 then n - 48 else n - 87.

(** The first character of an escaped ASCII string, and the rest. *)
Definition unescape1 (e : string) : option (ascii * string) :=
  match e with
  | String c r =>
      if byte_of c =? 92 then
        match r with
        | String k r' =>
            let n := byte_of k in
            if n =? 117 then
              match r' with
              | String _ (String _ (String h1 (String h2 r''))) =>
                  Some (ascii_of (hex_val h1 * 16 + hex_val h2), r'')
              | _ => None
              end
            else if n =? 98 then Some (chr 8, r')
            else if n =? 102 then Some (chr 12, r')
            else if n =? 110 then Some (chr 10, r')
            else if n =? 114 then Some (chr 13, r')
            else if n =? 116 then Some (chr 9, r')
            else Some (k, r')
        | EmptyString => None
        end
      else Some (c, r)
  | EmptyString => None
  end.

Lemma unescape1_esc c x : is_ascii c = true → unescape1 (esc_ascii c +:+ x) = Some (c, x).
Proof. destruct c as [[] [] [] [] [] [] [] []]; (discriminate || reflexivity). Qed.

Lemma esc_ascii_head c : is_ascii c = true →
  ∃ d r, esc_ascii c = String d r ∧ d ≠ quote.
Proof.
  destruct c as [[] [] [] [] [] [] [] []]; try discriminate; intros _;
    eexists _, _; (split; [reflexivity|discriminate]).
Qed.

Lemma escape_cons c s : is_ascii c = true →
  escape (String c s) = esc_ascii c +:+ escape s.
Proof. intros Hc. unfold escape. cbn [escape_go]. by rewrite Hc. Qed.

Lemma escape_cancel s1 s2 x y :
  all_ascii s1 = true → all_ascii s2 = true →
  escape s1 +:+ String quote x = escape s2 +:+ String quote y → s1 = s2 ∧ x = y.
Proof.
  unfold all_ascii. revert s2. induction s1 as [|c s1 IH]; intros [|d s2].
  - by intros _ _ [= ->].
  - intros _ [Hd _]%andb_true_iff. rewrite escape_cons, app_assoc_s by done.
    destruct (esc_ascii_head d Hd) as (e & r & -> & Hne). intros [= Heq _]. by destruct Hne.
  - intros [Hc _]%andb_true_iff _. rewrite escape_cons, app_assoc_s by done.
    destruct (esc_ascii_head c Hc) as (e & r & -> & Hne). intros [= Heq _]. by destruct Hne.
  - intros [Hc H1]%andb_true_iff [Hd H2]%andb_true_iff.
    rewrite !escape_cons, !app_assoc_s by done. intros Heq.
    apply (f_equal unescape1) in Heq. rewrite !unescape1_esc in Heq by done.
    injection Heq as -> Heq. by destruct (IH s2 H1 H2 Heq) as [-> ->].
Qed.

Lemma json_string_cancel s1 s2 x y :
  all_ascii s1 = true → all_ascii s2 = true →
  json_string s1 +:+ x = json_string s2 +:+ y → s1 = s2 ∧ x = y.
Proof.
  unfold json_string. intros H1 H2. simpl. rewrite !app_assoc_s. intros [= H].
  by apply escape_cancel in H.
Qed.

Lemma b64_bits_b64c a b c d e f : b64_bits (b64c a b c d e f) = (a, b, c, d, e, f).
Proof. destruct a, b, c, d, e, f; reflexivity. Qed.

Lemma b64c_inj a b c d e f a' b' c' d' e' f' :
  b64c a b c d e f = b64c a' b' c' d' e' f' →
  (a, b, c, d, e, f) = (a', b', c', d', e', f').
Proof. intros H%(f_equal b64_bits). by rewrite !b64_bits_b64c in H. Qed.

Lemma b64c_plain a b c d e f : b64c a b c d e f ≠ quote ∧ b64c a b c d e f ≠ "="%char.
Proof. destruct a, b, c, d, e, f; split; discriminate. Qed.

Lemma string3_ind (P : string → Prop) :
  P "" → (∀ a, P (str1 a)) → (∀ a b, P (String a (str1 b))) →
  (∀ a b c s, P s → P (String a (String b (String c s)))) → ∀ s, P s.
Proof.
  intros H0 H1 H2 H3. fix IH 1. intros [|a [|b [|c s]]]; [done|apply H1|apply H2|].
  apply H3, IH.
Qed.

Lemma b64c_ascii a b c d e f : is_ascii (b64c a b c d e f) = true.
Proof. destruct a, b, c, d, e, f; reflexivity. Qed.

Lemma base64_ascii s : all_ascii (base64 s) = true.
Proof.
  unfold all_ascii. induction s as [|[]|[] []|[] [] [] s IH] using string3_ind;
    cbn -[b64c is_ascii]; rewrite ?b64c_ascii; try done.
Qed.

Lemma escape_base64 s : escape (base64 s) = base64 s.
Proof.
  assert (∀ a b c d e f, esc_ascii (b64c a b c d e f) = str1 (b64c a b c d e f)) as Hesc
    by (intros [] [] [] [] [] []; reflexivity).
  induction s as [|[]|[] []|[] [] [] s IH] using string3_ind; [done|..];
    unfold str1; cbn -[b64c escape esc_ascii is_ascii];
    repeat (rewrite escape_cons by (apply b64c_ascii || done));
    rewrite ?Hesc, ?IH; reflexivity.
Qed.

Lemma is_b64_b64c a b c d e f : is_b64 (b64c a b c d e f) = true.
Proof. unfold is_b64. rewrite b64_bits_b64c. apply Ascii.eqb_refl. Qed.

Lemma b64c_not_pad a b c d e f : Ascii.eqb (b64c a b c d e f) "=" = false.
Proof. apply Ascii.eqb_neq, b64c_plain. Qed.

Lemma base64_decode_base64 s : base64_decode (base64 s) = Some s.
Proof.
  induction s as [|[]|[] []|[] [] [] s IH] using string3_ind; [done|..];
    cbn -[b64c is_b64 b64_byte1 b64_byte2 b64_byte3];
    rewrite ?is_b64_b64c, ?b64c_not_pad; cbn -[b64c is_b64 b64_byte1 b64_byte2 b64_byte3];
    rewrite ?IH; unfold b64_byte1, b64_byte2, b64_byte3; by rewrite ?b64_bits_b64c.
Qed.

(** No base64 digit is padding or a quote; equal digits carry equal bits. *)
Ltac b64_cancel :=
  repeat match goal with
  | H : String _ _ = String _ _ |- _ => injection H; clear H; intros
  | H : b64c _ _ _ _ _ _ = b64c _ _ _ _ _ _ |- _ =>
      apply b64c_inj in H; injection H; clear H; intros; subst
  | H : b64c ?a ?b ?c ?d ?e ?f = _ |- _ =>
      exfalso; destruct (b64c_plain a b c d e f) as [Hq Hp];
      solve [exact (Hq H)|exact (Hp H)]
  | H : _ = b64c _ _ _ _ _ _ |- _ => symmetry in H
  end.

Lemma base64_cancel s1 s2 x y :
  base64 s1 +:+ String quote x = base64 s2 +:+ String quote y → s1 = s2 ∧ x = y.
Proof.
  revert s2. induction s1 as [|[]|[] []|[] [] [] s1 IH] using string3_ind;
    intros s2; destruct s2 as [|[] [|[] [|[] s2]]]; cbn -[quote]; intros H;
    b64_cancel; try discriminate; subst; try done.
  destruct (IH s2) as [-> ->]; done.
Qed.

Lemma encode_JBytes_cancel o1 o2 x y :
  encode (JBytes o1) +:+ x = encode (JBytes o2) +:+ y → o1 = o2 ∧ x = y.
Proof.
  destruct o1 as [s1|], o2 as [s2|]; cbn; rewrite ?app_assoc_s; cbn; intros [= H].
  - by apply base64_cancel in H as [-> ->].
  - by subst.
Qed.

(** A run of numeric characters ends at the first other character. *)
Definition starts_non_num (s : string) : bool :=
  match s with String c _ => negb (is_numchar c) | EmptyString => true end.

Lemma num_span a b x y :
  string_forallb is_numchar a = true → string_forallb is_numchar b = true →
  starts_non_num x = true → starts_non_num y = true →
  a +:+ x = b +:+ y → a = b ∧ x = y.
Proof.
  revert b. induction a as [|c a IH]; intros [|d b]; simpl.
  - by intros _ _ _ _ ->.
  - intros _ [Hd _]%andb_true_iff Hx _ ->. simpl in Hx. by rewrite Hd in Hx.
  - intros [Hc _]%andb_true_iff _ _ Hy <-. simpl in Hy. by rewrite Hc in Hy.
  - intros [_ Ha]%andb_true_iff [_ Hb]%andb_true_iff Hx Hy [= -> H].
    by destruct (IH b Ha Hb Hx Hy H) as [-> ->].
Qed.

Lemma fmt_d_cancel a b x y :
  starts_non_num x = true → starts_non_num y = true →
  fmt_d a +:+ x = fmt_d b +:+ y → a = b ∧ x = y.
Proof.
  intros Hx Hy H. apply num_span in H as [H ->]; auto using fmt_d_num.
  by apply fmt_d_inj in H.
Qed.

(** *** Arrays of strings *)

Fixpoint tail_with (sep : string) (l : list string) : string :=
  match l with
  | [] => EmptyString
  | y :: l => sep +:+ y +:+ tail_with sep l
  end.

Lemma concat_with_cons sep x l : concat_with sep (x :: l) = x +:+ tail_with sep l.
Proof.
  simpl. revert x. induction l as [|y l IH]; intros x; simpl; [by rewrite app_nil_r_s|].
  by rewrite IH, !app_assoc_s.
Qed.

Lemma tail_with_cancel l1 l2 x y :
  forallb all_ascii l1 = true → forallb all_ascii l2 = true →
  tail_with "," (json_string <$> l1) +:+ String "]" x =
  tail_with "," (json_string <$> l2) +:+ String "]" y → l1 = l2 ∧ x = y.
Proof.
  revert l2. induction l1 as [|s1 l1 IH]; intros [|s2 l2] H1 H2; cbn -[json_string].
  - by intros [= ->].
  - done.
  - done.
  - cbn in H1, H2. apply andb_true_iff in H1 as [Hs1 H1], H2 as [Hs2 H2].
    rewrite !app_assoc_s. intros H%(app_inj_l_s ",").
    apply json_string_cancel in H as [-> H]; [|done..].
    by destruct (IH l2 H1 H2 H) as [-> ->].
Qed.

Lemma encode_JArr l :
  encode (JArr l) = "[" +:+ concat_with "," (encode <$> l) +:+ "]".
Proof. done. Qed.

Lemma encode_JStr_list (l : list string) : encode <$> (JStr <$> l) = json_string <$> l.
Proof. rewrite <-list_fmap_compose. by apply list_fmap_ext. Qed.

Lemma encode_JStrings_cancel o1 o2 x y :
  forallb all_ascii (default [] o1) = true → forallb all_ascii (default [] o2) = true →
  encode (JStrings o1) +:+ x = encode (JStrings o2) +:+ y → o1 = o2 ∧ x = y.
Proof.
  destruct o1 as [l1|], o2 as [l2|]; cbn [JStrings default]; intros H1 H2;
    rewrite ?encode_JArr, ?encode_JStr_list; [|by intros [=]..|by intros [= ->]].
  rewrite !app_assoc_s. intros H%(app_inj_l_s "[").
  destruct l1 as [|s1 l1], l2 as [|s2 l2]; rewrite ?fmap_cons, ?concat_with_cons in H.
  - by injection H.
  - done.
  - done.
  - cbn in H1, H2. apply andb_true_iff in H1 as [Hs1 H1], H2 as [Hs2 H2].
    rewrite !app_assoc_s in H. apply json_string_cancel in H as [-> H]; [|done..].
    by apply tail_with_cancel in H as [-> ->].
Qed.

(** ** Reading back

    The inverse of the encoder on the pieces of a flat object: ASCII strings and
    non-negative integers.  Concrete decoders, for the witnesses, are made of them. *)

Fixpoint read_string_go (fuel : nat) (s : string) : option (string * string) :=
  match fuel with
  | O => None
  | S fuel =>
      match s with
      | EmptyString => None
      | String c r =>
          if Ascii.eqb c quote then Some (EmptyString, r)
          else match unescape1 s with
               | Some (d, r') =>
                   match read_string_go fuel r' with
                   | Some (t, r'') => Some (String d t, r'')
                   | None => None
                   end
               | None => None
               end
      end
  end.

(** A JSON string, from its opening quote. *)
Definition read_string (s : string) : option (string * string) :=
  match s with
  | String c r => if Ascii.eqb c quote then read_string_go (S (String.length r)) r else None
  | EmptyString => None
  end.

Fixpoint read_digits (acc : Z) (s : string) : Z * string :=
  match s with
  | String c r =>
      if (48 <=? byte_of c) && (byte_of c <=? 57) then read_digits (acc * 10 + (byte_of c - 48)) r
      else (acc, s)
  | EmptyString => (acc, s)
  end.

Lemma read_string_go_escape fuel s x : all_ascii s = true → (String.length s < fuel)%nat →
  read_string_go fuel (escape s +:+ String quote x) = Some (s, x).
Proof.
  unfold all_ascii. revert fuel. induction s as [|c s IH]; intros [|fuel]; cbn [String.length];
    try lia.
  - intros _ _. cbn. by rewrite Ascii.eqb_refl.
  - intros [Hc Hs]%andb_true_iff Hlen. rewrite escape_cons, app_assoc_s by done.
    pose proof (unescape1_esc c (escape s +:+ String quote x) Hc) as Hu.
    destruct (esc_ascii_head c Hc) as (d & r & Hd & Hne). rewrite Hd in *.
    change (String d r +:+ ?t) with (String d (r +:+ t)) in *. cbn [read_string_go].
    rewrite (proj2 (Ascii.eqb_neq d quote) Hne), Hu, IH by (done || lia). done.
Qed.

Lemma length_escape_le s : all_ascii s = true → (String.length s ≤ String.length (escape s))%nat.
Proof.
  unfold all_ascii. induction s as [|c s IH]; cbn [String.length]; [lia|].
  intros [Hc Hs]%andb_true_iff. rewrite escape_cons, length_app_s by done.
  destruct (esc_ascii_head c Hc) as (d & r & -> & _). cbn. specialize (IH Hs). lia.
Qed.

Lemma read_string_json s x : all_ascii s = true →
  read_string (json_string s +:+ x) = Some (s, x).
Proof.
  intros Hs. unfold json_string, str1. change (String quote ?a +:+ x) with (String quote (a +:+ x)).
  cbn [read_string]. rewrite Ascii.eqb_refl, app_assoc_s.
  change (String quote EmptyString +:+ x) with (String quote x).
  apply read_string_go_escape; [done|]. rewrite length_app_s.
  pose proof (length_escape_le s Hs). lia.
Qed.

Lemma pretty_N_char_digit n : (n < 10)%N →
  byte_of (pretty_N_char n) = 48 + Z.of_N n.
Proof.
  intros Hn. assert (n ∈ (N.of_nat <$> seq 0 10)) as Hin.
  { apply list_elem_of_fmap. exists (N.to_nat n). split; [lia|]. apply elem_of_seq. lia. }
  cbn in Hin. repeat (apply elem_of_cons in Hin as [->|Hin]; [done|]). by apply elem_of_nil in Hin.
Qed.

Lemma read_digits_char acc n s : (n < 10)%N →
  read_digits acc (String (pretty_N_char n) s) = read_digits (acc * 10 + Z.of_N n) s.
Proof.
  intros Hn. cbn [read_digits]. rewrite pretty_N_char_digit by done.
  rewrite (proj2 (Z.leb_le _ _)), (proj2 (Z.leb_le _ _)) by lia. cbn [andb]. f_equal. lia.
Qed.

Lemma read_digits_go x s : (0 < x)%N →
  read_digits 0 (pretty_N_go x s) = read_digits (Z.of_N x) s.
Proof.
  revert s. induction (N.lt_wf_0 x) as [x _ IH]; intros s Hx.
  rewrite pretty_N_go_step by done.
  assert (x `mod` 10 < 10)%N as Hmod by (apply N.mod_lt; lia).
  destruct (decide (x `div` 10 = 0)%N) as [H0|H0].
  - rewrite H0, pretty_N_go_0, read_digits_char by done. f_equal.
    apply N.div_small_iff in H0; [|lia]. rewrite N.mod_small by done. lia.
  - rewrite IH, read_digits_char; [|done|apply N.div_lt; lia|by apply N.neq_0_lt_0].
    f_equal. pose proof (N.div_mod x 10 ltac:(done)) as Hdm.
    generalize dependent (x `div` 10)%N. generalize dependent (x `mod` 10)%N. intros; lia.
Qed.

Lemma pretty_N_go_app x s t : pretty_N_go x s +:+ t = pretty_N_go x (s +:+ t).
Proof.
  revert s. induction (N.lt_wf_0 x) as [x _ IH]; intros s.
  destruct (decide (x = 0)%N) as [->|]; [by rewrite !pretty_N_go_0|].
  rewrite !(pretty_N_go_step x) by lia. by rewrite IH by (apply N.div_lt; lia).
Qed.

Lemma read_digits_stop acc x : starts_non_num x = true → read_digits acc x = (acc, x).
Proof.
  destruct x as [|c x]; [done|]. cbn. unfold is_numchar.
  rewrite negb_orb. intros [_ Hn%negb_true_iff]%andb_true_iff. by rewrite Hn.
Qed.

Lemma read_digits_fmt_d z x : 0 ≤ z → starts_non_num x = true →
  read_digits 0 (fmt_d z +:+ x) = (z, x).
Proof.
  intros Hz Hx. destruct z as [|p|p]; [| |lia].
  - change (fmt_d 0 +:+ x) with (String "0" x). cbn. by apply read_digits_stop.
  - change (fmt_d (Z.pos p)) with (pretty_N_go (N.pos p) "").
    rewrite pretty_N_go_app, read_digits_go by lia. cbn. by apply read_digits_stop.
Qed.
