(* ===== verification/Paths.v ===== *)
(** * pkg/filesystem and the part of path/filepath it uses

    Lexical paths of a Unix system: [Clean] works on the components of a path, as
    the package documents. *)

From stdpp Require Import base list strings.
From Stdlib Require Import ZArith Lia Ascii.
From S2P Require Import Prelude.
From S2P Require Import GoStrings.
From S2P Require Import Json.

(** ** path/filepath *)

Definition slash : ascii := chr 47.

Definition IsAbs (path : string) : bool := HasPrefix path "/".

(** One component onto the cleaned ones before it, the last first. *)
Definition clean_step (rooted : bool) (acc : list string) (c : string) : list string :=
  if String.eqb c "" || String.eqb c "." then acc
  else if String.eqb c ".." then
    match acc with
    | top :: rest => if String.eqb top ".." then c :: acc else rest
    | [] => if rooted then [] else [c]
    end
  else c :: acc.

Definition components (path : string) : list string :=
  rev (fold_left (clean_step (IsAbs path)) (Split slash path) []).

Definition path_of (rooted : bool) (l : list string) : string :=
  match rooted, l with
  | false, [] => "."
  | false, _ => concat_with "/" l
  | true, _ => "/" +:+ concat_with "/" l
  end.

Definition Clean (path : string) : string := path_of (IsAbs path) (components path).

Definition Join (a b : string) : string :=
  match List.filter (λ s, negb (String.eqb s "")) [a; b] with
  | [] => EmptyString
  | l => Clean (concat_with "/" l)
  end.

(** [wd] is the answer of [os.Getwd]. *)
Definition Abs (wd : Res string) (path : string) : Res string :=
  if IsAbs path then Ok (Clean path) else d ← wd; Ok (Join d path).

Example Clean_ex : Clean "a//b/./c/../d/" = "a/b/d" ∧ Clean "/../x" = "/x" ∧ Clean "" = "." ∧
  Clean "../../a" = "../../a" ∧ Join "/tmp" "/etc/passwd" = "/tmp/etc/passwd".
Proof. repeat split. Qed.

(** ** pkg/filesystem/path.go *)

Definition SafePath (wd : Res string) (baseDir filename : string) : Res string :=
  let cleanFilename := Clean filename in
  if Contains cleanFilename ".." then
    Err (errors_New "invalid filename: path traversal not allowed")
  else
    let fullPath := Join baseDir cleanFilename in
    absBase ← wrap_err "failed to get absolute path for base directory: " (Abs wd baseDir);
    absPath ← wrap_err "failed to get absolute path: " (Abs wd fullPath);
    if negb (HasPrefix absPath absBase) then
      Err (errors_New "path outside base directory not allowed")
    else Ok fullPath.

Definition ValidateFilePath (filePath : string) : Res unit :=
  if Contains (Clean filePath) ".." then
    Err (errors_New "invalid file path: path traversal not allowed")
  else Ok tt.

(** ** What a safe path is *)

Definition plain (c : string) : Prop :=
  c ≠ "" ∧ c ≠ "." ∧ c ≠ ".." ∧ no_char slash c = true.

Lemma Split_no_char c s : Forall (λ w, no_char c w = true) (Split c s).
Proof.
  unfold no_char. induction s as [|d s IH]; cbn; [by repeat constructor|].
  destruct (Ascii.eqb d c) eqn:Hd; [by constructor|].
  destruct (Split c s) as [|w ws]; [by repeat constructor; cbn; rewrite Hd|].
  apply Forall_cons in IH as [Hw Hws]. constructor; [|done]. cbn. by rewrite Hd.
Qed.

Lemma Split_concat_with w l : Forall (λ w, no_char slash w = true) (w :: l) →
  Split slash (concat_with "/" (w :: l)) = w :: l.
Proof.
  rewrite concat_with_cons. revert w. induction l as [|x l IH]; intros w [Hw Hl]%Forall_cons.
  - cbn [tail_with]. rewrite app_nil_r_s. by apply Split_none.
  - cbn [tail_with]. change ("/" +:+ ?t) with (String slash t).
    rewrite Split_app, (Split_none _ w), IH; done.
Qed.

Lemma Contains_app a s b : Contains (a +:+ s +:+ b) s = true.
Proof.
  induction a as [|c a IH]; [|cbn; by rewrite IH, orb_true_r].
  change ("" +:+ ?x) with x. destruct (s +:+ b) as [|c r] eqn:H.
  - by destruct s.
  - rewrite <-H. assert (HasPrefix (s +:+ b) s = true) as Hp.
    { clear. induction s as [|d s IH]; [by destruct b|]. cbn. by rewrite Ascii.eqb_refl. }
    rewrite H in *. cbn [Contains]. by rewrite Hp.
Qed.

Lemma tail_with_elem c l : c ∈ l → ∃ a b, tail_with "/" l = a +:+ c +:+ b.
Proof.
  induction l as [|x l IH]; [by intros ?%elem_of_nil|]. cbn [tail_with].
  intros [->|(a & b & Hab)%IH]%elem_of_cons.
  - by exists "/", (tail_with "/" l).
  - exists ("/" +:+ x +:+ a), b. by rewrite Hab, !app_assoc_s.
Qed.

Lemma concat_with_elem c l : c ∈ l → ∃ a b, concat_with "/" l = a +:+ c +:+ b.
Proof.
  destruct l as [|x l]; [by intros ?%elem_of_nil|]. rewrite concat_with_cons.
  intros [->|(a & b & ->)%tail_with_elem]%elem_of_cons; [by exists "", (tail_with "/" l)|].
  exists (x +:+ a), b. by rewrite !app_assoc_s.
Qed.

(** A path that does not contain [..] has no such component. *)
Lemma Clean_no_dotdot path : Contains (Clean path) ".." = false → ".." ∉ components path.
Proof.
  intros Hc Hin. destruct (concat_with_elem _ _ Hin) as (a & b & Hab).
  unfold Clean, path_of in Hc. destruct (IsAbs path).
  - rewrite Hab in Hc. rewrite <-app_assoc_s, Contains_app in Hc. done.
  - destruct (components path); [by apply elem_of_nil in Hin|].
    by rewrite Hab, Contains_app in Hc.
Qed.

Lemma clean_fold_ok r cs acc : Forall (λ w, no_char slash w = true) cs →
  Forall (λ c, c = ".." ∨ plain c) acc →
  Forall (λ c, c = ".." ∨ plain c) (fold_left (clean_step r) cs acc).
Proof.
  revert acc. induction cs as [|c cs IH]; intros acc; [done|]. intros [Hc Hcs]%Forall_cons Hacc.
  cbn. apply IH; [done|]. unfold clean_step.
  destruct (String.eqb_spec c ""), (String.eqb_spec c "."), (String.eqb_spec c ".."); cbn; try done.
  - destruct acc as [|top rest]; [destruct r; auto|].
    apply Forall_cons in Hacc as [? ?]. case_match; auto.
  - constructor; [by right|done].
Qed.

Lemma components_ok path : Forall (λ c, c = ".." ∨ plain c) (components path).
Proof.
  unfold components. apply Forall_rev, clean_fold_ok; [apply Split_no_char|done].
Qed.

Lemma clean_fold_plain r cs acc : Forall plain cs →
  fold_left (clean_step r) cs acc = rev cs ++ acc.
Proof.
  revert acc. induction cs as [|c cs IH]; intros acc; [done|].
  intros [(H1 & H2 & H3 & _) Hcs]%Forall_cons. cbn. rewrite IH by done.
  unfold clean_step. rewrite (proj2 (String.eqb_neq c "")), (proj2 (String.eqb_neq c ".")),
    (proj2 (String.eqb_neq c "..")) by done. by rewrite <-app_assoc.
Qed.

(** The components of a path below another: those of a cleaned path are appended. *)
Lemma clean_fold_path_of r b l acc : Forall plain l →
  fold_left (clean_step r) (Split slash (path_of b l)) acc = rev l ++ acc.
Proof.
  intros Hl. assert (Forall (λ w, no_char slash w = true) l) as Hs.
  { eapply Forall_impl; [apply Hl|]. by intros c (_ & _ & _ & ?). }
  destruct l as [|c l]; [by destruct b|]. unfold path_of. destruct b.
  - change ("/" +:+ ?t) with ("" +:+ String slash t). rewrite Split_app, fold_left_app.
    rewrite Split_concat_with, clean_fold_plain by done. done.
  - by rewrite Split_concat_with, clean_fold_plain by done.
Qed.

Lemma path_of_nonempty r l : Forall plain l → path_of r l ≠ "".
Proof.
  destruct r; [done|]. destruct l as [|c l]; [done|]. cbn [path_of].
  rewrite concat_with_cons. intros [(H & _) _]%Forall_cons. by destruct c.
Qed.

Lemma IsAbs_app a b : a ≠ "" → IsAbs (a +:+ b) = IsAbs a.
Proof.
  intros Ha. destruct a as [|c [|d a]]; [done| |done]. unfold IsAbs. cbn. by destruct b.
Qed.

Lemma components_join a r l : a ≠ "" → Forall plain l →
  components (a +:+ "/" +:+ path_of r l) = components a ++ l.
Proof.
  intros Ha Hl. unfold components. rewrite IsAbs_app by done.
  change ("/" +:+ ?t) with (String slash t). rewrite Split_app, fold_left_app.
  by rewrite clean_fold_path_of, rev_app_distr, rev_involutive by done.
Qed.

(** A file below a directory: the path ends with its name. *)
Lemma path_of_snoc r l : ∃ p, (r = true ∨ l ≠ [] → HasPrefix p (path_of r l) = true) ∧
  ∀ f, path_of r (l ++ [f]) = p +:+ f.
Proof.
  assert (∀ x k f, concat_with "/" ((x :: k) ++ [f]) = concat_with "/" (x :: k) +:+ "/" +:+ f)
    as Hsnoc.
  { intros x k f. rewrite <-app_comm_cons, !concat_with_cons, app_assoc_s. f_equal.
    induction k as [|y k IH]; cbn [tail_with app]; [by rewrite app_nil_r_s|].
    by rewrite IH, !app_assoc_s. }
  destruct l as [|x l], r.
  - by exists "/".
  - exists "". split; [|done]. by intros [?|?].
  - exists (path_of true (x :: l) +:+ "/"). split; [intros _; apply HasPrefix_app|].
    intros f. unfold path_of. by rewrite Hsnoc, !app_assoc_s.
  - exists (path_of false (x :: l) +:+ "/"). split; [intros _; apply HasPrefix_app|].
    intros f. change (path_of false ((x :: l) ++ [f])) with (concat_with "/" ((x :: l) ++ [f])).
    change (path_of false (x :: l)) with (concat_with "/" (x :: l)).
    by rewrite Hsnoc, app_assoc_s.
Qed.

Lemma IsAbs_path_of r l : Forall plain l → IsAbs (path_of r l) = r.
Proof.
  destruct r.
  { intros _. unfold IsAbs. destruct l; [done|]. apply HasPrefix_app. }
  destruct l as [|c l]; [done|]. cbn [path_of].
  rewrite concat_with_cons. intros [(Hne & _ & _ & Hc) _]%Forall_cons.
  rewrite IsAbs_app by done. destruct c as [|d c]; [done|]. unfold IsAbs.
  change (Ascii.eqb "/" d && HasPrefix c "" = false).
  by destruct (Ascii.eqb_spec "/" d) as [<-|].
Qed.

Lemma components_path_of r l : Forall plain l → components (path_of r l) = l.
Proof.
  intros Hl. unfold components. by rewrite clean_fold_path_of, app_nil_r, rev_involutive.
Qed.

Lemma Join_plain r l f : Forall plain l → plain f → Join (path_of r l) f = path_of r (l ++ [f]).
Proof.
  intros Hl Hf. unfold Join. cbn [List.filter].
  rewrite (proj2 (String.eqb_neq _ _) (path_of_nonempty r l Hl)),
    (proj2 (String.eqb_neq f "")) by apply Hf.
  cbn [negb]. rewrite concat_with_cons. cbn [tail_with]. rewrite app_nil_r_s. unfold Clean.
  rewrite IsAbs_app, IsAbs_path_of by (try done; by apply path_of_nonempty).
  change f with (path_of false [f]) at 1. rewrite components_join, components_path_of; auto.
  by apply path_of_nonempty.
Qed.

(** [SafePath] accepts a plain file name in a cleaned directory. *)
Lemma SafePath_plain w r l f : IsAbs w = true → Forall plain l → plain f →
  Contains f ".." = false →
  SafePath (Ok w) (path_of r l) f = Ok (path_of r (l ++ [f])).
Proof.
  intros Hw Hl Hf Hdd. assert (Forall plain [f]) as Hf1 by auto.
  assert (Forall plain (l ++ [f])) as Hlf by by apply Forall_app.
  assert (Clean f = f) as Hc.
  { change f with (path_of false [f]) at 1. unfold Clean.
    by rewrite IsAbs_path_of, components_path_of. }
  assert (w ≠ "") as Hwne by (by intros ->).
  assert (∀ k, Forall plain k → Join w (path_of r k) = path_of true (components w ++ k)) as Hj.
  { intros k Hk. unfold Join. cbn [List.filter].
    rewrite (proj2 (String.eqb_neq _ _) Hwne), (proj2 (String.eqb_neq _ _) (path_of_nonempty r k Hk)).
    cbn [negb]. rewrite concat_with_cons. cbn [tail_with]. rewrite app_nil_r_s. unfold Clean.
    by rewrite IsAbs_app, Hw, components_join. }
  unfold SafePath. rewrite Hc, Hdd. cbv zeta. rewrite Join_plain by done. unfold Abs.
  rewrite !IsAbs_path_of by done. destruct r; cbn [mbind Res_bind wrap_err].
  - unfold Clean. rewrite !IsAbs_path_of, !components_path_of by done.
    destruct (path_of_snoc true l) as (p & Hp & ->).
    destruct (HasPrefix_inv _ _ (Hp (or_introl eq_refl))) as (x & ->).
    by rewrite app_assoc_s, HasPrefix_app.
  - rewrite !Hj by done. rewrite app_assoc.
    destruct (path_of_snoc true (components w ++ l)) as (p & Hp & Hpf). rewrite Hpf.
    destruct (HasPrefix_inv _ _ (Hp (or_introl eq_refl))) as (x & ->).
    by rewrite app_assoc_s, HasPrefix_app.
Qed.

(** C33: a path [SafePath] returns consists of the cleaned base directory followed by
    the components of the file name, none of which is empty, [.] or [..] or has a
    slash: it never leaves the base directory.  An absolute file name is taken below
    the base directory too. *)
Theorem SafePath_inside wd baseDir filename path : baseDir ≠ "" →
  SafePath wd baseDir filename = Ok path →
  path = path_of (IsAbs baseDir) (components baseDir ++ components filename) ∧
  Forall plain (components filename).
Proof.
  intros Hbase. unfold SafePath. destruct (Contains _ _) eqn:Hdd; [done|]. cbv zeta.
  intros (absBase & _ & (absPath & _ & H)%Res_bind_Ok)%Res_bind_Ok.
  destruct (negb _); [done|]. injection H as <-.
  assert (Forall plain (components filename)) as Hplain.
  { pose proof (components_ok filename) as Hok. apply Clean_no_dotdot in Hdd.
    rewrite Forall_forall in Hok |- *. intros c Hc. by destruct (Hok c Hc) as [->|]. }
  split; [|done]. unfold Join.
  change (Clean filename) with (path_of (IsAbs filename) (components filename)).
  cbn [List.filter].
  rewrite (proj2 (String.eqb_neq _ _) Hbase),
    (proj2 (String.eqb_neq _ _) (path_of_nonempty (IsAbs filename) _ Hplain)).
  cbn [negb]. rewrite concat_with_cons. cbn [tail_with]. rewrite app_nil_r_s.
  unfold Clean. by rewrite IsAbs_app, components_join.
Qed.

Lemma SafePath_inside_witness :
  "/srv/identity/node0_identity.json" =
    path_of true (components "/srv/identity" ++ components "/node0_identity.json") ∧
  Forall plain (components "/node0_identity.json").
Proof. by apply (SafePath_inside (Ok "/") "/srv/identity" "/node0_identity.json"). Defined.
