(* ===== verification/Types.v ===== *)
(** * pkg/types and pkg/constant: messages, results, error codes, topics

    The messages the initiator, the nodes and their queues exchange, with the
    bytes their signatures cover. *)

From stdpp Require Import base gmap list strings.
From Stdlib Require Import ZArith Lia Ascii.
From S2P Require Import Prelude.
From S2P Require Import GoStrings.
From S2P Require Import External.
From S2P Require Import Json.

(** ** codes.go *)

(** [NoErrorCode] is the empty string, the value of an unset code. *)
Inductive ErrorCode :=
| NoErrorCode
| ErrorCodeUnknown
| ErrorCodeNetworkTimeout
| ErrorCodeNetworkConnection
| ErrorCodeNetworkSubscription
| ErrorCodeMessageRouting
| ErrorCodeDirectMessaging
| ErrorCodeSessionTimeout
| ErrorCodeSessionCreation
| ErrorCodeSessionInitialization
| ErrorCodeSessionCleanup
| ErrorCodeSessionDuplicate
| ErrorCodeSessionStale
| ErrorCodeInsufficientParticipants
| ErrorCodeIncompatiblePeerIDs
| ErrorCodePeerNotReady
| ErrorCodePeerUnavailable
| ErrorCodeParticipantNotFound
| ErrorCodeKeyNotFound
| ErrorCodeKeyAlreadyExists
| ErrorCodeKeyGeneration
| ErrorCodeKeySave
| ErrorCodeKeyLoad
| ErrorCodeKeyInfoSave
| ErrorCodeKeyInfoLoad
| ErrorCodeKeyEncoding
| ErrorCodeKeyDecoding
| ErrorCodeMsgValidation
| ErrorCodeSignatureGeneration
| ErrorCodeSignatureVerification
| ErrorCodeInvalidInitiatorSignature
| ErrorCodePreParamsGeneration
| ErrorCodeTSSPartyCreation
| ErrorCodeMarshalFailure
| ErrorCodeUnmarshalFailure
| ErrorCodeDataCorruption
| ErrorCodeStorageRead
| ErrorCodeStorageWrite
| ErrorCodeStorageInit
| ErrorCodeMessageVerification
| ErrorCodeMessageFormat
| ErrorCodeMessageDelivery
| ErrorCodeMaxDeliveryAttempts
| ErrorCodeInvalidConfiguration
| ErrorCodeInvalidThreshold
| ErrorCodeInvalidSessionType
| ErrorCodeResourceExhausted
| ErrorCodeMemoryAllocation
| ErrorCodeConcurrencyLimit
| ErrorCodeKeygenFailure
| ErrorCodeSigningFailure
| ErrorCodeResharingFailure
| ErrorCodeContextCancelled
| ErrorCodeOperationAborted
| ErrorCodeNotMajority
| ErrorCodeClusterNotReady.

#[export] Instance ErrorCode_eq_dec : EqDecision ErrorCode.
Proof. solve_decision. Defined.

Definition ErrorCode_string (c : ErrorCode) : string :=
  match c with
  | NoErrorCode => ""
  | ErrorCodeUnknown => "ERROR_UNKNOWN"
  | ErrorCodeNetworkTimeout => "ERROR_NETWORK_TIMEOUT"
  | ErrorCodeNetworkConnection => "ERROR_NETWORK_CONNECTION"
  | ErrorCodeNetworkSubscription => "ERROR_NETWORK_SUBSCRIPTION"
  | ErrorCodeMessageRouting => "ERROR_MESSAGE_ROUTING"
  | ErrorCodeDirectMessaging => "ERROR_DIRECT_MESSAGING"
  | ErrorCodeSessionTimeout => "ERROR_SESSION_TIMEOUT"
  | ErrorCodeSessionCreation => "ERROR_SESSION_CREATION"
  | ErrorCodeSessionInitialization => "ERROR_SESSION_INITIALIZATION"
  | ErrorCodeSessionCleanup => "ERROR_SESSION_CLEANUP"
  | ErrorCodeSessionDuplicate => "ERROR_SESSION_DUPLICATE"
  | ErrorCodeSessionStale => "ERROR_SESSION_STALE"
  | ErrorCodeInsufficientParticipants => "ERROR_INSUFFICIENT_PARTICIPANTS"
  | ErrorCodeIncompatiblePeerIDs => "ERROR_INCOMPATIBLE_PEER_IDS"
  | ErrorCodePeerNotReady => "ERROR_PEER_NOT_READY"
  | ErrorCodePeerUnavailable => "ERROR_PEER_UNAVAILABLE"
  | ErrorCodeParticipantNotFound => "ERROR_PARTICIPANT_NOT_FOUND"
  | ErrorCodeKeyNotFound => "ERROR_KEY_NOT_FOUND"
  | ErrorCodeKeyAlreadyExists => "ERROR_KEY_ALREADY_EXISTS"
  | ErrorCodeKeyGeneration => "ERROR_KEY_GENERATION"
  | ErrorCodeKeySave => "ERROR_KEY_SAVE"
  | ErrorCodeKeyLoad => "ERROR_KEY_LOAD"
  | ErrorCodeKeyInfoSave => "ERROR_KEY_INFO_SAVE"
  | ErrorCodeKeyInfoLoad => "ERROR_KEY_INFO_LOAD"
  | ErrorCodeKeyEncoding => "ERROR_KEY_ENCODING"
  | ErrorCodeKeyDecoding => "ERROR_KEY_DECODING"
  | ErrorCodeMsgValidation => "ERROR_MSG_VALIDATION"
  | ErrorCodeSignatureGeneration => "ERROR_SIGNATURE_GENERATION"
  | ErrorCodeSignatureVerification => "ERROR_SIGNATURE_VERIFICATION"
  | ErrorCodeInvalidInitiatorSignature => "ERROR_INVALID_INITIATOR_SIGNATURE"
  | ErrorCodePreParamsGeneration => "ERROR_PRE_PARAMS_GENERATION"
  | ErrorCodeTSSPartyCreation => "ERROR_TSS_PARTY_CREATION"
  | ErrorCodeMarshalFailure => "ERROR_MARSHAL_FAILURE"
  | ErrorCodeUnmarshalFailure => "ERROR_UNMARSHAL_FAILURE"
  | ErrorCodeDataCorruption => "ERROR_DATA_CORRUPTION"
  | ErrorCodeStorageRead => "ERROR_STORAGE_READ"
  | ErrorCodeStorageWrite => "ERROR_STORAGE_WRITE"
  | ErrorCodeStorageInit => "ERROR_STORAGE_INIT"
  | ErrorCodeMessageVerification => "ERROR_MESSAGE_VERIFICATION"
  | ErrorCodeMessageFormat => "ERROR_MESSAGE_FORMAT"
  | ErrorCodeMessageDelivery => "ERROR_MESSAGE_DELIVERY"
  | ErrorCodeMaxDeliveryAttempts => "ERROR_MAX_DELIVERY_ATTEMPTS"
  | ErrorCodeInvalidConfiguration => "ERROR_INVALID_CONFIGURATION"
  | ErrorCodeInvalidThreshold => "ERROR_INVALID_THRESHOLD"
  | ErrorCodeInvalidSessionType => "ERROR_INVALID_SESSION_TYPE"
  | ErrorCodeResourceExhausted => "ERROR_RESOURCE_EXHAUSTED"
  | ErrorCodeMemoryAllocation => "ERROR_MEMORY_ALLOCATION"
  | ErrorCodeConcurrencyLimit => "ERROR_CONCURRENCY_LIMIT"
  | ErrorCodeKeygenFailure => "ERROR_KEYGEN_FAILURE"
  | ErrorCodeSigningFailure => "ERROR_SIGNING_FAILURE"
  | ErrorCodeResharingFailure => "ERROR_RESHARING_FAILURE"
  | ErrorCodeContextCancelled => "ERROR_CONTEXT_CANCELLED"
  | ErrorCodeOperationAborted => "ERROR_OPERATION_ABORTED"
  | ErrorCodeNotMajority => "ERROR_NOT_MAJORITY"
  | ErrorCodeClusterNotReady => "ERROR_CLUSTER_NOT_READY"
  end.

(** [contains]: some pattern occurs in the text, letter case ignored. *)
Definition contains (str : string) (patterns : list string) : bool :=
  let str := ToLower str in
  existsb (λ pattern, Contains str (ToLower pattern)) patterns.

Definition GetErrorCodeFromError (err : option error) : ErrorCode :=
  match err with
  | None => NoErrorCode
  | Some e =>
      let errStr := Error e in
      if contains errStr ["validation"] then ErrorCodeMsgValidation
      else if contains errStr ["timeout"; "timed out"] then ErrorCodeNetworkTimeout
      else if contains errStr ["connection"; "connect"] then ErrorCodeNetworkConnection
      else if contains errStr ["send"] then ErrorCodePeerUnavailable
      else if contains errStr ["not enough"; "insufficient"] then ErrorCodeInsufficientParticipants
      else if contains errStr ["incompatible"] then ErrorCodeIncompatiblePeerIDs
      else if contains errStr ["not found"; "no such key"] then ErrorCodeKeyNotFound
      else if contains errStr ["exists"] then ErrorCodeKeyAlreadyExists
      else if contains errStr ["marshal"] then ErrorCodeMarshalFailure
      else if contains errStr ["unmarshal"] then ErrorCodeUnmarshalFailure
      else if contains errStr ["storage"; "kvstore"] then ErrorCodeStorageRead
      else if contains errStr ["save"; "put"] then ErrorCodeStorageWrite
      else if contains errStr ["session"] then ErrorCodeSessionCreation
      else if contains errStr ["verify"; "verification"] then ErrorCodeMessageVerification
      else if contains errStr ["delivery"; "deliver"] then ErrorCodeMessageDelivery
      else if contains errStr ["context"; "cancelled"] then ErrorCodeContextCancelled
      else if contains errStr ["invalid signature from initiator"]
        then ErrorCodeInvalidInitiatorSignature
      else if contains errStr ["duplicate"] then ErrorCodeSessionDuplicate
      else ErrorCodeUnknown
  end.

(** ** initiator.go, keygen.go, signing.go, resharing.go *)

Definition KeyTypeSecp256k1 : string := "secp256k1".
Definition KeyTypeEd25519 : string := "ed25519".
Definition EventInitiatorKeyTypeEd25519 : string := "ed25519".
Definition EventInitiatorKeyTypeP256 : string := "p256".

Record KeygenMessage := mkKeygenMessage {
  km_WalletID : string;
  km_Signature : option string;
}.

Record KeygenResponse := mkKeygenResponse {
  kr_WalletID : string;
  kr_ECDSAPubKey : option string;
  kr_EDDSAPubKey : option string;
  kr_ErrorCode : ErrorCode;
  kr_ErrorReason : string;
}.

Record SigningMessage := mkSigningMessage {
  sm_KeyType : string;
  sm_WalletID : string;
  sm_TxID : string;
  sm_Tx : option string;
  sm_Signature : option string;
}.

Record SigningResponse := mkSigningResponse {
  sr_ErrorCode : ErrorCode;
  sr_ErrorReason : string;
  sr_IsTimeout : bool;
  sr_WalletID : string;
  sr_TxID : string;
  sr_R : option string;
  sr_S : option string;
  sr_SignatureRecovery : option string;
  sr_Signature : option string;
}.

Record ResharingMessage := mkResharingMessage {
  rm_SessionID : string;
  rm_NodeIDs : option (list string);
  rm_NewThreshold : Z;
  rm_KeyType : string;
  rm_WalletID : string;
  rm_Signature : option string;
}.

Record ResharingResponse := mkResharingResponse {
  rr_WalletID : string;
  rr_NewThreshold : Z;
  rr_KeyType : string;
  rr_PubKey : option string;
  rr_ErrorCode : ErrorCode;
  rr_ErrorReason : string;
}.

(** The interface the signature check works on. *)
Class InitiatorMessage (T : Type) := {
  Raw : T → Res string;
  Sig : T → option string;
  InitiatorID : T → string;
}.

Definition SigningMessage_payload (m : SigningMessage) : json :=
  JObj [("key_type", JStr (sm_KeyType m)); ("wallet_id", JStr (sm_WalletID m));
        ("tx_id", JStr (sm_TxID m)); ("tx", JBytes (sm_Tx m))].

#[export] Instance SigningMessage_initiator : InitiatorMessage SigningMessage := {|
  Raw m := Ok (encode (SigningMessage_payload m));
  Sig := sm_Signature;
  InitiatorID := sm_TxID;
|}.

#[export] Instance KeygenMessage_initiator : InitiatorMessage KeygenMessage := {|
  Raw m := Ok (km_WalletID m);
  Sig := km_Signature;
  InitiatorID := km_WalletID;
|}.

(** [signature] is [omitempty]: absent when nil or empty. *)
Definition ResharingMessage_json (m : ResharingMessage) : json :=
  JObj ([("session_id", JStr (rm_SessionID m)); ("node_ids", JStrings (rm_NodeIDs m));
         ("new_threshold", JInt (rm_NewThreshold m)); ("key_type", JStr (rm_KeyType m));
         ("wallet_id", JStr (rm_WalletID m))] ++
        match rm_Signature m with
        | None | Some EmptyString => []
        | Some s => [("signature", JBase64 s)]
        end).

(** [copy := *m; copy.Signature = nil] *)
Definition clear_Signature (m : ResharingMessage) : ResharingMessage :=
  mkResharingMessage (rm_SessionID m) (rm_NodeIDs m) (rm_NewThreshold m)
    (rm_KeyType m) (rm_WalletID m) None.

#[export] Instance ResharingMessage_initiator : InitiatorMessage ResharingMessage := {|
  Raw m := Ok (encode (ResharingMessage_json (clear_Signature m)));
  Sig := rm_Signature;
  InitiatorID := rm_WalletID;
|}.

(** *** json.Marshal of the requests and of the results *)

Definition KeygenMessage_json (m : KeygenMessage) : json :=
  JObj [("wallet_id", JStr (km_WalletID m)); ("signature", JBytes (km_Signature m))].

Definition SigningMessage_json (m : SigningMessage) : json :=
  JObj [("key_type", JStr (sm_KeyType m)); ("wallet_id", JStr (sm_WalletID m));
        ("tx_id", JStr (sm_TxID m)); ("tx", JBytes (sm_Tx m));
        ("signature", JBytes (sm_Signature m))].

Definition KeygenResponse_json (r : KeygenResponse) : json :=
  JObj [("wallet_id", JStr (kr_WalletID r)); ("ecdsa_pub_key", JBytes (kr_ECDSAPubKey r));
        ("eddsa_pub_key", JBytes (kr_EDDSAPubKey r));
        ("error_code", JStr (ErrorCode_string (kr_ErrorCode r)));
        ("error_reason", JStr (kr_ErrorReason r))].

Definition SigningResponse_json (r : SigningResponse) : json :=
  JObj [("error_code", JStr (ErrorCode_string (sr_ErrorCode r)));
        ("error_reason", JStr (sr_ErrorReason r)); ("is_timeout", JBool (sr_IsTimeout r));
        ("wallet_id", JStr (sr_WalletID r)); ("tx_id", JStr (sr_TxID r));
        ("r", JBytes (sr_R r)); ("s", JBytes (sr_S r));
        ("signature_recovery", JBytes (sr_SignatureRecovery r));
        ("signature", JBytes (sr_Signature r))].

Definition ResharingResponse_json (r : ResharingResponse) : json :=
  JObj [("wallet_id", JStr (rr_WalletID r)); ("new_threshold", JInt (rr_NewThreshold r));
        ("key_type", JStr (rr_KeyType r)); ("pub_key", JBytes (rr_PubKey r));
        ("error_code", JStr (ErrorCode_string (rr_ErrorCode r)));
        ("error_reason", JStr (rr_ErrorReason r))].

(** ** ecdh.go *)

Record ECDHMessage := mkECDHMessage {
  em_From : string;
  em_PublicKey : option string;
  em_Timestamp : string;   (* its RFC 3339 rendering *)
  em_Signature : option string;
}.

(** json.Marshal of a map writes its keys in order. *)
Definition ECDHMessage_MarshalForSigning (m : ECDHMessage) : Res string :=
  Ok (encode (JObj [("from", JStr (em_From m)); ("publicKey", JBytes (em_PublicKey m));
                    ("timestamp", JStr (em_Timestamp m))])).

Definition ECDHMessage_json (m : ECDHMessage) : json :=
  JObj [("from", JStr (em_From m)); ("public_key", JBytes (em_PublicKey m));
        ("timestamp", JStr (em_Timestamp m)); ("signature", JBytes (em_Signature m))].

(** ** tss.go *)

Section tss.
Context `{T : TssLib}.

(** Pointers to party ids may be nil. *)
Record TssMessage := mkTssMessage {
  tm_WalletID : string;
  tm_MsgBytes : option string;
  tm_IsBroadcast : bool;
  tm_From : option PartyID;
  tm_To : option (list (option PartyID));
  tm_IsToOldCommittee : bool;
  tm_IsToOldAndNewCommittees : bool;
  tm_Signature : option string;
}.

Definition NewTssMessage (walletID : string) (msgBytes : option string) (isBroadcast : bool)
    (from : option PartyID) (to : option (list (option PartyID))) : TssMessage :=
  mkTssMessage walletID msgBytes isBroadcast from to false false None.

Definition set_tm_Signature (m : TssMessage) (s : option string) : TssMessage :=
  mkTssMessage (tm_WalletID m) (tm_MsgBytes m) (tm_IsBroadcast m) (tm_From m) (tm_To m)
    (tm_IsToOldCommittee m) (tm_IsToOldAndNewCommittees m) s.

(** [len(msg.To)] and the slice itself *)
Definition To (m : TssMessage) : list (option PartyID) := default [] (tm_To m).

(** How tss-lib's [PartyID] renders in JSON. *)
Variable PartyID_json : PartyID → json.

Definition PartyIDs_json (o : option (list (option PartyID))) : json :=
  match o with
  | Some l => JArr ((λ p, match p with Some p => PartyID_json p | None => JNull end) <$> l)
  | None => JNull
  end.

(** The signed bytes name the sender by [From.Id]; a nil [From] is dereferenced. *)
Definition TssMessage_MarshalForSigning (m : TssMessage) : Res string :=
  match tm_From m with
  | None => Panic "nil pointer dereference"
  | Some from =>
      Ok (encode (JObj [("from", JStr (pid_Id from)); ("isBroadcast", JBool (tm_IsBroadcast m));
        ("isToOldAndNewCommittees", JBool (tm_IsToOldAndNewCommittees m));
        ("isToOldCommittee", JBool (tm_IsToOldCommittee m));
        ("msgBytes", JBytes (tm_MsgBytes m)); ("sessionID", JStr (tm_WalletID m));
        ("to", PartyIDs_json (tm_To m))]))
  end.

Definition MarshalTssMessage (m : TssMessage) : Res string :=
  Ok (encode (JObj [("sessionID", JStr (tm_WalletID m)); ("msgBytes", JBytes (tm_MsgBytes m));
    ("isBroadcast", JBool (tm_IsBroadcast m));
    ("from", match tm_From m with Some p => PartyID_json p | None => JNull end);
    ("to", PartyIDs_json (tm_To m));
    ("isToOldCommittee", JBool (tm_IsToOldCommittee m));
    ("isToOldAndNewCommittees", JBool (tm_IsToOldAndNewCommittees m));
    ("signature", JBytes (tm_Signature m))])).

Definition MarshalTssResharingMessage (msgBytes : option string)
    (isToOldCommittee isBroadcast isToOldAndNewCommittees : bool)
    (from : option PartyID) (to : option (list (option PartyID))) : Res string :=
  MarshalTssMessage
    (mkTssMessage "" msgBytes isBroadcast from to isToOldCommittee isToOldAndNewCommittees None).

End tss.
Arguments TssMessage : clear implicits.
Arguments TssMessage T : rename.

(** ** pkg/constant/topics.go *)

Definition KeygenRequestTopic : string := "mpc.keygen_request.*".
Definition SigningRequestTopic : string := "mpc.signing_request.*".
Definition ResharingRequestTopic : string := "mpc.resharing_request.*".
Definition KeygenResultTopic : string := "mpc.mpc_keygen_result.*".
Definition SigningResultTopic : string := "mpc.mpc_signing_result.*".
Definition ResharingResultTopic : string := "mpc.mpc_resharing_result.*".
Definition KeygenResultCompleteTopic : string := "mpc.mpc_keygen_result.complete".
Definition SigningResultCompleteTopic : string := "mpc.mpc_signing_result.complete".
Definition ResharingResultCompleteTopic : string := "mpc.mpc_resharing_result.complete".
Definition KeygenBrokerStream : string := "mpc-keygen".
Definition KeygenConsumerStream : string := "mpc-keygen-consumer".
Definition SigningBrokerStream : string := "mpc-signing".
Definition SigningConsumerStream : string := "mpc-signing-consumer".
Definition ResharingBrokerStream : string := "mpc-resharing".
Definition ResharingConsumerStream : string := "mpc-resharing-consumer".

Definition FormatKeygenRequestTopic (walletID : string) : string :=
  "mpc.keygen_request." +:+ walletID.
Definition FormatSigningRequestTopic (txID : string) : string :=
  "mpc.signing_request." +:+ txID.
Definition FormatResharingRequestTopic (walletID : string) : string :=
  "mpc.resharing_request." +:+ walletID.
Definition FormatKeygenResultTopic (walletID : string) : string :=
  "mpc.mpc_keygen_result." +:+ walletID.
Definition FormatSigningResultTopic (txID : string) : string :=
  "mpc.mpc_signing_result." +:+ txID.
Definition FormatResharingResultTopic (walletID : string) : string :=
  "mpc.mpc_resharing_result." +:+ walletID.

(** The formats of pkg/mpc/core, [%s] applied. *)
Definition TypeGenerateWalletResultFmt (s : string) : string := "mpc.mpc_keygen_result." +:+ s.
Definition TypeResharingWalletResultFmt (s : string) : string := "mpc.mpc_resharing_result." +:+ s.
Definition TypeSigningResultFmt (s : string) : string := "mpc.mpc_signing_result." +:+ s.

(** ** Error codes *)

Lemma Contains_unfold s p :
  Contains s p = HasPrefix s p || match s with EmptyString => false | String _ s => Contains s p end.
Proof. by destruct s. Qed.

(** A word containing a pattern contains the pattern less its first letter. *)
Lemma Contains_tail c p s : Contains s (String c p) = true → Contains s p = true.
Proof.
  induction s as [|d s IH]; [done|].
  rewrite (Contains_unfold (String d s) (String c p)), (Contains_unfold (String d s) p).
  intros [H|H]%orb_true_iff.
  - cbn [HasPrefix] in H. apply andb_true_iff in H as [_ H]. apply orb_true_iff. right.
    rewrite Contains_unfold. by rewrite H.
  - apply orb_true_iff. right. auto.
Qed.

Lemma contains_unmarshal s : contains s ["unmarshal"] = true → contains s ["marshal"] = true.
Proof.
  unfold contains. cbn [existsb]. rewrite !orb_false_r. intros H.
  change (ToLower "unmarshal") with (String "u" (String "n" (ToLower "marshal"))) in H.
  by apply Contains_tail, Contains_tail in H.
Qed.

(** The text of the error [handleSigningEvent] builds for a session that is
    already active. *)
Definition duplicate_session_error (walletID txID : string) : error :=
  errors_New ("session already exists for walletID=" +:+ walletID +:+ " txID=" +:+ txID).

(** [GetErrorCodeFromError] never answers ERROR_UNMARSHAL_FAILURE: the
    pattern "marshal" is tried first and every text with "unmarshal" contains
    it, so a decoding failure is reported as a marshalling one. *)
Theorem GetErrorCodeFromError_never_unmarshal (e : error) :
  GetErrorCodeFromError (Some e) ≠ ErrorCodeUnmarshalFailure.
Proof.
  unfold GetErrorCodeFromError. intros H.
  repeat (match type of H with context [if ?b then _ else _] => destruct b eqn:? end;
          try discriminate).
  match goal with Hu : contains _ ["unmarshal"] = true |- _ =>
    apply contains_unmarshal in Hu end. congruence.
Qed.

(** ** What the initiator's signature covers *)

Definition SigningMessage_ascii (m : SigningMessage) : bool :=
  all_ascii (sm_KeyType m) && all_ascii (sm_WalletID m) && all_ascii (sm_TxID m).

Definition ResharingMessage_ascii (m : ResharingMessage) : bool :=
  all_ascii (rm_SessionID m) && forallb all_ascii (default [] (rm_NodeIDs m)) &&
  all_ascii (rm_KeyType m) && all_ascii (rm_WalletID m).

Lemma encode_payload m : encode (SigningMessage_payload m) =
  "{" +:+ json_string "key_type" +:+ ":" +:+ json_string (sm_KeyType m) +:+
  "," +:+ json_string "wallet_id" +:+ ":" +:+ json_string (sm_WalletID m) +:+
  "," +:+ json_string "tx_id" +:+ ":" +:+ json_string (sm_TxID m) +:+
  "," +:+ json_string "tx" +:+ ":" +:+ encode (JBytes (sm_Tx m)) +:+ "}".
Proof.
  unfold SigningMessage_payload. cbn -[json_string String.append JBytes].
  by rewrite !app_assoc_s.
Qed.

Lemma encode_resharing m : encode (ResharingMessage_json (clear_Signature m)) =
  "{" +:+ json_string "session_id" +:+ ":" +:+ json_string (rm_SessionID m) +:+
  "," +:+ json_string "node_ids" +:+ ":" +:+ encode (JStrings (rm_NodeIDs m)) +:+
  "," +:+ json_string "new_threshold" +:+ ":" +:+ fmt_d (rm_NewThreshold m) +:+
  "," +:+ json_string "key_type" +:+ ":" +:+ json_string (rm_KeyType m) +:+
  "," +:+ json_string "wallet_id" +:+ ":" +:+ json_string (rm_WalletID m) +:+ "}".
Proof.
  unfold ResharingMessage_json, clear_Signature.
  cbn -[json_string String.append JStrings fmt_d]. by rewrite !app_assoc_s.
Qed.

Lemma Ok_inj {A} (a b : A) : Ok a = Ok b → a = b.
Proof. by intros [=]. Qed.

(** Strip a common literal prefix from both sides of an equation of strings. *)
Ltac strip_prefix H :=
  repeat first
    [ apply (app_inj_l_s (json_string _)) in H
    | match type of H with ?p +:+ _ = ?p +:+ _ => apply (app_inj_l_s p) in H end ].

(** C36: the signed bytes of a signing request determine what is signed: two
    requests with the same [Raw] bytes agree on key type, wallet, transaction
    id and transaction, for any two requests whose identifiers are ASCII. *)
Theorem SigningMessage_Raw_inj (m m' : SigningMessage)
    (Hm : SigningMessage_ascii m = true) (Hm' : SigningMessage_ascii m' = true)
    (Heq : Raw m = Raw m') :
  sm_KeyType m = sm_KeyType m' ∧ sm_WalletID m = sm_WalletID m' ∧
  sm_TxID m = sm_TxID m' ∧ sm_Tx m = sm_Tx m'.
Proof.
  apply Ok_inj in Heq. unfold SigningMessage_ascii in *.
  rewrite !andb_true_iff in Hm, Hm'. destruct Hm as [[??]?], Hm' as [[??]?].
  rewrite !encode_payload in Heq. strip_prefix Heq.
  apply json_string_cancel in Heq as [-> Heq]; [|done..]. strip_prefix Heq.
  apply json_string_cancel in Heq as [-> Heq]; [|done..]. strip_prefix Heq.
  apply json_string_cancel in Heq as [-> Heq]; [|done..]. strip_prefix Heq.
  by apply encode_JBytes_cancel in Heq as [-> _].
Qed.

Lemma SigningMessage_Raw_inj_witness :
  let m := mkSigningMessage "ed25519" "w" "t" (Some "data") (Some "sig") in
  let m' := mkSigningMessage "ed25519" "w" "t" (Some "data") None in
  Raw m = Raw m' ∧ sm_Tx m = sm_Tx m'.
Proof.
  cbv zeta. split; [reflexivity|].
  apply (SigningMessage_Raw_inj (mkSigningMessage "ed25519" "w" "t" (Some "data") (Some "sig"))
    (mkSigningMessage "ed25519" "w" "t" (Some "data") None)); reflexivity.
Defined.

(** Likewise for resharing: the signed bytes determine session id, new
    committee, new threshold, key type and wallet, and do not depend on the
    signature field that is cleared in the copy. *)
Theorem ResharingMessage_Raw_inj (m m' : ResharingMessage)
    (Hm : ResharingMessage_ascii m = true) (Hm' : ResharingMessage_ascii m' = true) :
  Raw m = Raw m' ↔ clear_Signature m = clear_Signature m'.
Proof.
  split; [|by intros H; cbv [Raw ResharingMessage_initiator]; rewrite H].
  intros Heq%Ok_inj. unfold ResharingMessage_ascii in *.
  rewrite !andb_true_iff in Hm, Hm'. destruct Hm as [[[??]?]?], Hm' as [[[??]?]?].
  rewrite !encode_resharing in Heq. strip_prefix Heq.
  apply json_string_cancel in Heq as [Hs Heq]; [|done..]. strip_prefix Heq.
  apply encode_JStrings_cancel in Heq as [Hn Heq]; [|done..]. strip_prefix Heq.
  apply fmt_d_cancel in Heq as [Ht Heq]; [|done..]. strip_prefix Heq.
  apply json_string_cancel in Heq as [Hk Heq]; [|done..]. strip_prefix Heq.
  apply json_string_cancel in Heq as [Hw _]; [|done..].
  unfold clear_Signature. by rewrite Hs, Hn, Ht, Hk, Hw.
Qed.

Lemma ResharingMessage_Raw_inj_witness :
  let m := mkResharingMessage "s" (Some ["a"; "b"]) 1 "ed25519" "w" (Some "sig") in
  let m' := mkResharingMessage "s" (Some ["a,b"]) 1 "ed25519" "w" None in
  Raw m ≠ Raw m'.
Proof.
  cbv zeta. intros H%ResharingMessage_Raw_inj; [discriminate|reflexivity..].
Defined.
