(* ===== verification/Decode.v ===== *)
(** * encoding/json: the decoder

    [json.Unmarshal] on the texts that [json.Marshal] writes for values whose strings are
    ASCII: compact objects and arrays, strings with the encoder's escapes, decimal
    integers, base64.  A text is read into a [json] value ([read_json]), then the fields of
    the value are stored in the struct one by one, as encoding/json does: fields are
    matched without regard to letter case, unknown ones are skipped, null leaves the
    target alone, a value of the wrong type is skipped and the first such error returned.
    The readers of the three requests are the inverse of their encoders. *)

From stdpp Require Import base gmap list strings.
From Stdlib Require Import ZArith Lia Ascii.
From S2P Require Import Prelude.
From S2P Require Import GoStrings.
From S2P Require Import External.
From S2P Require Import Json.
From S2P Require Import Types.

(** ** Values *)

Definition is_digit (c : ascii) : bool := (48 <=? byte_of c) && (byte_of c <=? 57).

Definition read_nat (s : string) : option (Z * string) :=
  match s with
  | String c _ => if is_digit c then Some (read_digits 0 s) else None
  | EmptyString => None
  end.

(** Optional sign and digits. *)
Definition read_int (s : string) : option (Z * string) :=
  match TrimPrefix_opt s "-" with
  | Some r => '(z, r) ← read_nat r; Some (- z, r)
  | None => read_nat s
  end.

(** A value at the head of the text, and what follows it. *)
Fixpoint read_value (fuel : nat) (s : string) : option (json * string) :=
  match fuel, s with
  | S fuel, String c r =>
      if Ascii.eqb c quote then '(t, r) ← read_string s; Some (JStr t, r)
      else if Ascii.eqb c "[" then
        match TrimPrefix_opt r "]" with
        | Some r => Some (JArr [], r)
        | None => '(l, r) ← read_elems fuel r; Some (JArr l, r)
        end
      else if Ascii.eqb c "{" then
        match TrimPrefix_opt r "}" with
        | Some r => Some (JObj [], r)
        | None => '(l, r) ← read_members fuel r; Some (JObj l, r)
        end
      else if Ascii.eqb c "n" then r ← TrimPrefix_opt r "ull"; Some (JNull, r)
      else if Ascii.eqb c "t" then r ← TrimPrefix_opt r "rue"; Some (JBool true, r)
      else if Ascii.eqb c "f" then r ← TrimPrefix_opt r "alse"; Some (JBool false, r)
      else '(z, r) ← read_int s; Some (JInt z, r)
  | _, _ => None
  end
with read_elems (fuel : nat) (s : string) : option (list json * string) :=
  match fuel with
  | O => None
  | S fuel =>
      '(v, r) ← read_value fuel s;
      match r with
      | String c r =>
          if Ascii.eqb c "]" then Some ([v], r)
          else if Ascii.eqb c "," then '(l, r) ← read_elems fuel r; Some (v :: l, r)
          else None
      | EmptyString => None
      end
  end
with read_members (fuel : nat) (s : string) : option (list (string * json) * string) :=
  match fuel with
  | O => None
  | S fuel =>
      '(k, r) ← read_string s;
      r ← TrimPrefix_opt r ":";
      '(v, r) ← read_value fuel r;
      match r with
      | String c r =>
          if Ascii.eqb c "}" then Some ([(k, v)], r)
          else if Ascii.eqb c "," then '(l, r) ← read_members fuel r; Some ((k, v) :: l, r)
          else None
      | EmptyString => None
      end
  end.

(** Every call reads a character, so the length of the text is fuel enough. *)
Definition read_json (s : string) : option json :=
  match read_value (S (String.length s)) s with
  | Some (v, EmptyString) => Some v
  | _ => None
  end.

(** What a value reads back as: base64 is a string to the reader. *)
Fixpoint reads_as (j : json) : json :=
  match j with
  | JBase64 s => JStr (base64 s)
  | JArr l => JArr (reads_as <$> l)
  | JObj fs => JObj ((λ '(k, v), (k, reads_as v)) <$> fs)
  | _ => j
  end.

(** Values whose strings are ASCII, and with nothing a custom marshaller wrote. *)
Fixpoint readable (j : json) : bool :=
  match j with
  | JStr s => all_ascii s
  | JArr l => forallb readable l
  | JObj fs => forallb (λ '(k, v), all_ascii k && readable v) fs
  | JRaw _ => false
  | _ => true
  end.

(** *** Integers *)

Lemma fmt_d_head z : 0 ≤ z → ∃ c r, fmt_d z = String c r ∧ is_digit c = true.
Proof.
  intros Hz. destruct (decide (z = 0)) as [->|Hne]; [by eexists _, _|].
  pose proof (read_digits_fmt_d z "" Hz eq_refl) as Hr. rewrite app_nil_r_s in Hr.
  destruct (fmt_d z) as [|c r]; cbn in Hr; [congruence|]. exists c, r. split; [done|].
  unfold is_digit. by destruct (_ && _); [|congruence].
Qed.

Lemma is_digit_plain c : is_digit c = true →
  Ascii.eqb "-" c = false ∧ Ascii.eqb c quote = false ∧ Ascii.eqb c "[" = false ∧
  Ascii.eqb c "{" = false ∧ Ascii.eqb c "n" = false ∧ Ascii.eqb c "t" = false ∧
  Ascii.eqb c "f" = false.
Proof. destruct c as [[] [] [] [] [] [] [] []]; try discriminate; done. Qed.

Lemma read_nat_fmt_d z x : 0 ≤ z → starts_non_num x = true →
  read_nat (fmt_d z +:+ x) = Some (z, x).
Proof.
  intros Hz Hx. unfold read_nat. pose proof (read_digits_fmt_d z x Hz Hx) as Hr.
  destruct (fmt_d_head z Hz) as (c & r & Hc & Hd). rewrite Hc in *. cbn in *. rewrite Hd. by f_equal.
Qed.

Lemma read_int_fmt_d z x : starts_non_num x = true → read_int (fmt_d z +:+ x) = Some (z, x).
Proof.
  intros Hx. unfold read_int. destruct (Z_le_gt_dec 0 z) as [Hz|Hz].
  - rewrite read_nat_fmt_d by done. destruct (fmt_d_head z Hz) as (c & r & -> & Hd).
    destruct (is_digit_plain c Hd) as (Hm & _). cbn [String.append TrimPrefix_opt]. by rewrite Hm.
  - destruct z as [|p|p]; [lia..|].
    change (fmt_d (Z.neg p)) with (String "-" (fmt_d (Z.pos p))).
    cbn [String.append TrimPrefix_opt]. rewrite Ascii.eqb_refl, read_nat_fmt_d by done. done.
Qed.

Lemma read_value_int fuel z x : starts_non_num x = true →
  read_value (S fuel) (fmt_d z +:+ x) = Some (JInt z, x).
Proof.
  intros Hx. pose proof (read_int_fmt_d z x Hx) as Hr.
  destruct (Z_le_gt_dec 0 z) as [Hz|Hz].
  - destruct (fmt_d_head z Hz) as (c & r & Hc & Hd). rewrite Hc in *. cbn [String.append] in *.
    destruct (is_digit_plain c Hd) as (_ & H1 & H2 & H3 & H4 & H5 & H6).
    cbn [read_value]. by rewrite H1, H2, H3, H4, H5, H6, Hr.
  - destruct z as [|p|p]; [lia..|]. change (fmt_d (Z.neg p)) with (String "-" (fmt_d (Z.pos p))) in *.
    cbn [String.append read_value] in *. by rewrite Hr.
Qed.

(** *** Strings *)

Lemma read_value_string fuel s x : all_ascii s = true →
  read_value (S fuel) (json_string s +:+ x) = Some (JStr s, x).
Proof.
  intros Hs. pose proof (read_string_json s x Hs) as Hr. unfold json_string in *.
  change (String quote ?a +:+ x) with (String quote (a +:+ x)) in *.
  cbn [read_value]. by rewrite Ascii.eqb_refl, Hr.
Qed.

(** ** Round trip *)

Lemma encode_head j : readable j = true →
  ∃ c r, encode j = String c r ∧ Ascii.eqb "]" c = false.
Proof.
  destruct j as [|[]|z|s|s|l|fs|s]; intros Hj;
    try (eexists _, _; split; reflexivity); [|done].
  cbn. destruct (Z_le_gt_dec 0 z) as [Hz|Hz].
  - destruct (fmt_d_head z Hz) as (c & r & -> & Hd). exists c, r. split; [done|].
    destruct c as [[] [] [] [] [] [] [] []]; (done || discriminate Hd).
  - destruct z as [|p|p]; [lia..|]. by eexists _, _.
Qed.

Lemma encode_nonempty j : readable j = true → (0 < String.length (encode j))%nat.
Proof. intros (c & r & -> & _)%encode_head. cbn. lia. Qed.

#[local] Arguments encode : simpl never.
#[local] Arguments json_string : simpl never.
#[local] Arguments readable : simpl never.

(** What [read_value] does on the encoding of every value, with some fuel. *)
Definition reads (fuel : nat) : Prop := ∀ j x,
  readable j = true → starts_non_num x = true → (String.length (encode j) ≤ fuel)%nat →
  read_value fuel (encode j +:+ x) = Some (reads_as j, x).

Definition member_text (f : string * json) : string := json_string f.1 +:+ ":" +:+ encode f.2.

Lemma encode_JArr' l : encode (JArr l) = "[" +:+ concat_with "," (encode <$> l) +:+ "]".
Proof. done. Qed.
Lemma encode_JObj fs : encode (JObj fs) = "{" +:+ concat_with "," (member_text <$> fs) +:+ "}".
Proof. unfold encode; fold encode. do 3 f_equal. by apply list_fmap_ext; intros ? [] ?. Qed.

(** The elements after the first, up to the bracket. *)
Lemma read_elems_encode fuel : (∀ n, (n < fuel)%nat → reads n) → ∀ v l x,
  readable v = true → forallb readable l = true →
  (String.length (encode v +:+ tail_with "," (encode <$> l)) < fuel)%nat →
  read_elems fuel (encode v +:+ tail_with "," (encode <$> l) +:+ String "]" x) =
  Some (reads_as v :: (reads_as <$> l), x).
Proof.
  intros Hreads v l x. revert fuel v Hreads.
  induction l as [|w l IH]; intros [|fuel] v Hreads Hv Hl Hlen; [lia| |lia|].
  - cbn in *. rewrite app_nil_r_s in Hlen. by rewrite (Hreads fuel) by (done || lia).
  - cbn in Hl. apply andb_true_iff in Hl as [Hw Hl]. rewrite fmap_cons in *.
    cbn [tail_with read_elems] in *. rewrite !length_app_s in Hlen.
    rewrite (Hreads fuel) by (done || lia).
    cbn [mbind option_bind String.append Ascii.eqb]. cbn.
    pose proof (encode_nonempty v Hv). rewrite !app_assoc_s, IH; try done.
    + intros n Hn. apply Hreads. lia.
    + rewrite length_app_s. cbn in Hlen. lia.
Qed.

Lemma read_members_encode fuel : (∀ n, (n < fuel)%nat → reads n) → ∀ f fs x,
  all_ascii f.1 && readable f.2 = true →
  forallb (λ '(k, v), all_ascii k && readable v) fs = true →
  (String.length (member_text f +:+ tail_with "," (member_text <$> fs)) < fuel)%nat →
  read_members fuel (member_text f +:+ tail_with "," (member_text <$> fs) +:+ String "}" x) =
  Some ((f.1, reads_as f.2) :: ((λ '(k, v), (k, reads_as v)) <$> fs), x).
Proof.
  intros Hreads f fs x. revert fuel f Hreads.
  induction fs as [|[k' v'] fs IH]; intros [|fuel] [k v] Hreads [Hk Hv]%andb_true_iff Hfs Hlen;
    [lia| |lia|]; cbn [fst snd] in *; unfold member_text at 1; cbn [fst snd];
    rewrite !length_app_s in Hlen; cbn [read_members];
    rewrite !app_assoc_s, read_string_json by done; cbn [mbind option_bind];
    rewrite TrimPrefix_opt_app; cbn [mbind option_bind].
  - rewrite (Hreads fuel) by (done || (unfold member_text in Hlen; cbn in *;
      rewrite !length_app_s in Hlen; cbn in Hlen; lia)). done.
  - cbn in Hfs. apply andb_true_iff in Hfs as [Hf Hfs]. rewrite fmap_cons in *.
    cbn [tail_with] in *. unfold member_text in Hlen at 1. cbn [fst snd] in Hlen.
    rewrite !length_app_s in Hlen. rewrite (Hreads fuel) by (done || lia).
    cbn [mbind option_bind]. cbn. rewrite !app_assoc_s, (IH fuel (k', v')); try done.
    + intros n Hn. apply Hreads. lia.
    + rewrite length_app_s. cbn in Hlen. lia.
Qed.

Lemma reads_all fuel : reads fuel.
Proof.
  induction (lt_wf fuel) as [fuel _ IH]. intros j x Hj Hx Hlen.
  pose proof (encode_nonempty j Hj). destruct fuel as [|fuel]; [lia|].
  destruct j as [|[]|z|s|s|l|fs|s]; try done.
  - by apply read_value_int.
  - by apply read_value_string.
  - change (encode (JBase64 s)) with (String quote (base64 s +:+ str1 quote)).
    rewrite <-(escape_base64 s). change (String quote _) with (json_string (base64 s)).
    apply read_value_string, base64_ascii.
  - rewrite encode_JArr' in *. destruct l as [|v l]; [done|].
    unfold readable in Hj; fold readable in Hj. cbn in Hj. apply andb_true_iff in Hj as [Hv Hl].
    rewrite fmap_cons, concat_with_cons, !app_assoc_s in *.
    rewrite !length_app_s in Hlen. cbn in Hlen.
    pose proof (read_elems_encode fuel (λ n Hn, IH n ltac:(lia)) v l x Hv Hl) as Hr.
    rewrite length_app_s in Hr. specialize (Hr ltac:(lia)).
    destruct (encode_head v Hv) as (c & r & Hc & Hne). rewrite Hc in *.
    cbn [String.append read_value]. cbn. cbn in Hne, Hr. by rewrite Hne, Hr.
  - rewrite encode_JObj in *. destruct fs as [|f fs]; [done|].
    unfold readable in Hj; fold readable in Hj. cbn in Hj. apply andb_true_iff in Hj as [Hf Hfs].
    rewrite fmap_cons, concat_with_cons, !app_assoc_s in *.
    rewrite !length_app_s in Hlen. cbn in Hlen.
    pose proof (read_members_encode fuel (λ n Hn, IH n ltac:(lia)) f fs x) as Hr.
    destruct f as [k v]. specialize (Hr Hf Hfs).
    rewrite length_app_s in Hr. specialize (Hr ltac:(lia)).
    unfold member_text, json_string in *. cbn in *. rewrite Hr. done.
Qed.

(** A text [json.Marshal] made of a value is read back as this value. *)
Lemma read_json_encode j : readable j = true → read_json (encode j) = Some (reads_as j).
Proof.
  intros Hj. unfold read_json.
  pose proof (reads_all (S (String.length (encode j))) j "" Hj eq_refl ltac:(lia)) as Hr.
  rewrite app_nil_r_s in Hr. by rewrite Hr.
Qed.

(** ** Structs *)

(** The kinds of error, without the text encoding/json gives them. *)
Definition syntax_error : error := Sentinel "json.SyntaxError" "invalid JSON".
Definition type_error : error := Sentinel "json.UnmarshalTypeError" "json: cannot unmarshal value".
Definition corrupt_input : error := Sentinel "base64.CorruptInputError" "illegal base64 data".

Section store.
Context {A : Type}.

(** Storing a value in a field of a kind: the struct after it, and the error. *)
Definition stored : Type := A * option error.

Definition store_string (set : string → A → A) (v : json) (m : A) : stored :=
  match v with
  | JStr s => (set s m, None)
  | JNull => (m, None)
  | _ => (m, Some type_error)
  end.

Definition store_int (set : Z → A → A) (v : json) (m : A) : stored :=
  match v with
  | JInt z => if bool_decide (int64_range z) then (set z m, None) else (m, Some type_error)
  | JNull => (m, None)
  | _ => (m, Some type_error)
  end.

Definition store_bytes (set : option string → A → A) (v : json) (m : A) : stored :=
  match v with
  | JStr s =>
      match base64_decode s with
      | Some b => (set (Some b) m, None)
      | None => (m, Some corrupt_input)
      end
  | JNull => (set None m, None)
  | _ => (m, Some type_error)
  end.

(** An element that is no string is left empty. *)
Definition store_strings (set : option (list string) → A → A) (v : json) (m : A) : stored :=
  match v with
  | JArr l =>
      (set (Some ((λ v, match v with JStr s => s | _ => EmptyString end) <$> l)) m,
       if forallb (λ v, match v with JStr _ | JNull => true | _ => false end) l
       then None else Some type_error)
  | JNull => (set None m, None)
  | _ => (m, Some type_error)
  end.

(** One field, and the first error so far; [store] is given the field's name. *)
Definition store_field (store : string → json → A → stored) (st : stored) (f : string * json) :
    stored :=
  let '(m, e) := store (ToLower f.1) f.2 st.1 in
  (m, match st.2 with Some err => Some err | None => e end).

(** [json.Unmarshal] into a zero struct. *)
Definition Unmarshal_struct (store : string → json → A → stored) (zero : A) (text : string) :
    stored :=
  match read_json text with
  | Some (JObj fs) =>
      fold_left (store_field store) fs (zero, None)
  | Some JNull => (zero, None)
  | Some _ => (zero, Some type_error)
  | None => (zero, Some syntax_error)
  end.

End store.

Definition store_KeygenMessage (k : string) (v : json) (m : KeygenMessage) :
    KeygenMessage * option error :=
  if String.eqb k "wallet_id" then
    store_string (λ s m, mkKeygenMessage s (km_Signature m)) v m
  else if String.eqb k "signature" then
    store_bytes (λ b m, mkKeygenMessage (km_WalletID m) b) v m
  else (m, None).

Definition Unmarshal_KeygenMessage : string → KeygenMessage * option error :=
  Unmarshal_struct store_KeygenMessage (mkKeygenMessage "" None).

Definition store_SigningMessage (k : string) (v : json) (m : SigningMessage) :
    SigningMessage * option error :=
  let 'mkSigningMessage kt w t tx sg := m in
  if String.eqb k "key_type" then store_string (λ s _, mkSigningMessage s w t tx sg) v m
  else if String.eqb k "wallet_id" then store_string (λ s _, mkSigningMessage kt s t tx sg) v m
  else if String.eqb k "tx_id" then store_string (λ s _, mkSigningMessage kt w s tx sg) v m
  else if String.eqb k "tx" then store_bytes (λ b _, mkSigningMessage kt w t b sg) v m
  else if String.eqb k "signature" then store_bytes (λ b _, mkSigningMessage kt w t tx b) v m
  else (m, None).

Definition Unmarshal_SigningMessage : string → SigningMessage * option error :=
  Unmarshal_struct store_SigningMessage (mkSigningMessage "" "" "" None None).

Definition store_ResharingMessage (k : string) (v : json) (m : ResharingMessage) :
    ResharingMessage * option error :=
  let 'mkResharingMessage sid ids th kt w sg := m in
  if String.eqb k "session_id" then
    store_string (λ s _, mkResharingMessage s ids th kt w sg) v m
  else if String.eqb k "node_ids" then
    store_strings (λ l _, mkResharingMessage sid l th kt w sg) v m
  else if String.eqb k "new_threshold" then
    store_int (λ z _, mkResharingMessage sid ids z kt w sg) v m
  else if String.eqb k "key_type" then
    store_string (λ s _, mkResharingMessage sid ids th s w sg) v m
  else if String.eqb k "wallet_id" then
    store_string (λ s _, mkResharingMessage sid ids th kt s sg) v m
  else if String.eqb k "signature" then
    store_bytes (λ b _, mkResharingMessage sid ids th kt w b) v m
  else (m, None).

Definition Unmarshal_ResharingMessage : string → ResharingMessage * option error :=
  Unmarshal_struct store_ResharingMessage (mkResharingMessage "" None 0 "" "" None).

(** *** The requests read back *)

#[local] Arguments readable : simpl nomatch.

Lemma Unmarshal_struct_encode {A} (store : string → json → A → A * option error) zero fs :
  readable (JObj fs) = true →
  Unmarshal_struct store zero (encode (JObj fs)) =
  fold_left (store_field store) ((λ '(k, v), (k, reads_as v)) <$> fs) (zero, None).
Proof. intros Hfs. unfold Unmarshal_struct. by rewrite read_json_encode. Qed.

Lemma store_next {A} (store : string → json → A → A * option error) k v fs m m' :
  store (ToLower k) (reads_as v) m = (m', None) →
  fold_left (store_field store) ((λ '(k, v), (k, reads_as v)) <$> ((k, v) :: fs)) (m, None) =
  fold_left (store_field store) ((λ '(k, v), (k, reads_as v)) <$> fs) (m', None).
Proof. intros Hs. rewrite fmap_cons. cbn. unfold store_field at 2. cbn. by rewrite Hs. Qed.

Lemma readable_JBytes o : readable (JBytes o) = true.
Proof. by destruct o. Qed.

Lemma store_bytes_JBytes {A} (set : option string → A → A) o m :
  store_bytes set (reads_as (JBytes o)) m = (set o m, None).
Proof. destruct o as [b|]; [|done]. cbn. by rewrite base64_decode_base64. Qed.

Lemma readable_JStrings o : forallb all_ascii (default [] o) = true → readable (JStrings o) = true.
Proof.
  destruct o as [l|]; [|done]. change (readable (JStrings (Some l))) with
    (forallb readable (JStr <$> l)). cbn [default].
  induction l as [|s l IH]; [done|]. rewrite fmap_cons. cbn [forallb].
  intros [Hs Hl]%andb_true_iff. by rewrite IH, andb_true_r.
Qed.

Lemma store_strings_JStrings {A} (set : option (list string) → A → A) o m :
  store_strings set (reads_as (JStrings o)) m = (set o m, None).
Proof.
  destruct o as [l|]; [|done]. cbn.
  assert ((λ v : json, match v with JStr s => s | _ => EmptyString end) <$>
    (reads_as <$> (JStr <$> l)) = l) as ->.
  { induction l as [|s l IH]; [done|]. rewrite !fmap_cons. cbn. by rewrite IH. }
  assert (forallb (λ v : json, match v with JStr _ | JNull => true | _ => false end)
    (reads_as <$> (JStr <$> l)) = true) as ->; [|done].
  induction l as [|s l IH]; [done|]. rewrite !fmap_cons. exact IH.
Qed.

(** Stores the fields one by one. *)
Ltac store_fields :=
  repeat (etrans;
    [apply store_next; first [apply store_bytes_JBytes|apply store_strings_JStrings|reflexivity]|]).

#[local] Arguments all_ascii : simpl never.
#[local] Arguments JBytes : simpl never.
#[local] Arguments JStrings : simpl never.

Lemma Unmarshal_KeygenMessage_encode m : all_ascii (km_WalletID m) = true →
  Unmarshal_KeygenMessage (encode (KeygenMessage_json m)) = (m, None).
Proof.
  intros Hw. unfold Unmarshal_KeygenMessage, KeygenMessage_json. rewrite Unmarshal_struct_encode.
  - store_fields. by destruct m.
  - cbn. by rewrite Hw, readable_JBytes.
Qed.

Lemma Unmarshal_SigningMessage_encode m :
  all_ascii (sm_KeyType m) = true → all_ascii (sm_WalletID m) = true →
  all_ascii (sm_TxID m) = true →
  Unmarshal_SigningMessage (encode (SigningMessage_json m)) = (m, None).
Proof.
  intros Hk Hw Ht. unfold Unmarshal_SigningMessage, SigningMessage_json.
  rewrite Unmarshal_struct_encode.
  - store_fields. by destruct m.
  - cbn. by rewrite Hk, Hw, Ht, !readable_JBytes.
Qed.

Lemma Unmarshal_ResharingMessage_encode m :
  all_ascii (rm_SessionID m) = true → forallb all_ascii (default [] (rm_NodeIDs m)) = true →
  all_ascii (rm_KeyType m) = true → all_ascii (rm_WalletID m) = true →
  int64_range (rm_NewThreshold m) → rm_Signature m ≠ Some EmptyString →
  Unmarshal_ResharingMessage (encode (ResharingMessage_json m)) = (m, None).
Proof.
  intros Hs Hn Hk Hw Hth Hsg. unfold Unmarshal_ResharingMessage, ResharingMessage_json.
  assert (∀ z m', int64_range z → store_ResharingMessage "new_threshold" (JInt z) m' =
    (mkResharingMessage (rm_SessionID m') (rm_NodeIDs m') z (rm_KeyType m') (rm_WalletID m')
       (rm_Signature m'), None)) as Hint.
  { intros z [] Hz. cbn -[int64_range]. by rewrite bool_decide_eq_true_2. }
  destruct m as [sid ids th kt w sg]. cbn in *. rewrite Unmarshal_struct_encode.
  - store_fields. etrans; [apply store_next; by apply Hint|].
    destruct sg as [[|c sg]|]; [done| |]; store_fields; [|done].
    etrans; [apply store_next; apply (store_bytes_JBytes _ (Some _))|]. done.
  - cbn. rewrite Hs, readable_JStrings, Hk, Hw by done. by destruct sg as [[]|].
Qed.

(** Names in capitals match, other fields are skipped whatever they hold; a value of the
    wrong type leaves its field alone and is reported; a text that is cut off stores
    nothing. *)
Example Unmarshal_ex :
  Unmarshal_KeygenMessage (concat_with (str1 quote)
    ["{"; "WALLET_ID"; ":"; "w\n1"; ","; "x"; ":[1,{"; "y"; ":null}],"; "signature"; ":"; "c2ln";
     "}"]) = (mkKeygenMessage ("w" +:+ str1 (chr 10) +:+ "1") (Some "sig"), None) ∧
  Unmarshal_KeygenMessage (concat_with (str1 quote)
    ["{"; "wallet_id"; ":-7,"; "signature"; ":null}"]) =
    (mkKeygenMessage "" None, Some type_error) ∧
  Unmarshal_KeygenMessage (concat_with (str1 quote) ["{"; "wallet_id"; ":"; "w"; ""]) =
    (mkKeygenMessage "" None, Some syntax_error).
Proof. split_and!; vm_compute; reflexivity. Qed.
