(* ===== verification/Identity.v ===== *)
(** * pkg/identity and pkg/encryption: who may talk, and how

    [fileStore] holds the node's signing key, the public keys of the peers, the
    initiator's key and the symmetric keys of the ECDH exchange; it signs and
    verifies the broadcasts, verifies the initiator's requests and encrypts the
    point-to-point messages. *)

From stdpp Require Import base gmap list strings.
From Stdlib Require Import ZArith Lia Ascii.
From S2P Require Import Prelude.
From S2P Require Import GoStrings.
From S2P Require Import External.
From S2P Require Import Json.
From S2P Require Import Paths.
From S2P Require Import Types.

(** ** pkg/encryption *)

Section encryption.
Context `{C : Crypto}.

(** [crypto/ed25519] panics on keys of the wrong size. *)
Definition ed25519_Verify_go (publicKey msg sig : string) : Res bool :=
  if bool_decide (String.length publicKey = 32%nat) then Ok (ed25519_Verify publicKey msg sig)
  else Panic "ed25519: bad public key length".

Definition ed25519_Sign_go (privateKey msg : string) : Res string :=
  if bool_decide (String.length privateKey = 64%nat) then Ok (ed25519_Sign privateKey msg)
  else Panic "ed25519: bad private key length".

(** [aes.NewCipher]: only the key size can be wrong. *)
Definition NewCipher (key : string) : Res string :=
  if bool_decide (String.length key ∈ [16; 24; 32]%nat) then Ok key
  else Err (errors_New ("crypto/aes: invalid key size " +:+
                        fmt_d (Z.of_nat (String.length key)))).

Definition NonceSize : nat := 12.

Fixpoint take_s (n : nat) (s : string) : string :=
  match n, s with S n, String c s => String c (take_s n s) | _, _ => EmptyString end.

Fixpoint drop_s (n : nat) (s : string) : string :=
  match n, s with S n, String c s => drop_s n s | _, _ => s end.

(** The nonce is what [rand.Read] filled. *)
Definition EncryptAESGCM (plain key nonce : string) : Res (string * string) :=
  k ← NewCipher key;
  Ok (aes_Seal k nonce plain, nonce).

Definition DecryptAESGCM (ciphertext key nonce : string) : Res string :=
  k ← NewCipher key;
  if bool_decide (String.length nonce = NonceSize) then
    of_option (errors_New "cipher: message authentication failed")
      (aes_Open k nonce ciphertext)
  else Panic "crypto/cipher: incorrect nonce length given to GCM".

Definition EncryptAESGCMWithNonceEmbed (plaintext key nonce : string) : Res string :=
  k ← wrap_err "failed to create AES cipher: " (NewCipher key);
  Ok (nonce +:+ aes_Seal k nonce plaintext).

Definition DecryptAESGCMWithNonceEmbed (data key : string) : Res string :=
  k ← wrap_err "failed to create AES cipher: " (NewCipher key);
  if bool_decide (String.length data < NonceSize)%nat then
    Err (errors_New "ciphertext too short")
  else
    wrap_err "decryption failed: "
      (of_option (errors_New "cipher: message authentication failed")
         (aes_Open k (take_s NonceSize data) (drop_s NonceSize data))).

Definition VerifyP256Signature (publicKey : option ecdsa_PublicKey) (data : string)
    (signature : option string) : Res unit :=
  match publicKey with
  | None => Err (errors_New "public key is nil")
  | Some pk =>
      if negb (ecdsa_on_P256 pk) then Err (errors_New "public key is not on P-256 curve")
      else match default EmptyString signature with
           | EmptyString => Err (errors_New "signature is empty")
           | sig => if ecdsa_VerifyASN1 pk (sha256 data) sig then Ok tt
                    else Err (errors_New "invalid signature")
           end
  end.

Lemma take_drop_app_s a b : take_s (String.length a) (a +:+ b) = a ∧
  drop_s (String.length a) (a +:+ b) = b.
Proof. induction a as [|c a [IH1 IH2]]; simpl; [by destruct b|]. by rewrite IH1, IH2. Qed.

End encryption.

#[global] Arguments take_s : simpl never.
#[global] Arguments drop_s : simpl never.

(** ** The store *)

Section identity.
Context `{C : Crypto} `{T : TssLib}.
Variable PartyID_json : PartyID → json.

Record InitiatorKey := mkInitiatorKey {
  ik_Algorithm : string;
  ik_Ed25519 : string;
  ik_P256 : option ecdsa_PublicKey;
}.

Record fileStore := mkFileStore {
  identityDir : string;
  currentNodeName : string;
  publicKeys : gmap string string;
  privateKey : string;
  initiatorKey : InitiatorKey;
  symmetricKeys : gmap string (option string);   (* a stored key may be nil *)
}.

Definition set_symmetricKeys (f : gmap string (option string) → gmap string (option string))
    (s : fileStore) : fileStore :=
  mkFileStore (identityDir s) (currentNodeName s) (publicKeys s) (privateKey s)
    (initiatorKey s) (f (symmetricKeys s)).

Definition SetSymmetricKey (peerID : string) (key : option string) : M fileStore unit :=
  modify (set_symmetricKeys (insert peerID key)).

Definition GetSymmetricKey (s : fileStore) (peerID : string) : Res (option string) :=
  of_option (errors_New ("SymmetricKey key not found for node ID: " +:+ peerID))
    (symmetricKeys s !! peerID).

Definition RemoveSymmetricKey (peerID : string) : M fileStore unit :=
  modify (set_symmetricKeys (delete peerID)).

Definition GetSymmetricKeyCount (s : fileStore) : Z := Z.of_nat (size (symmetricKeys s)).

Definition CheckSymmetricKeyComplete (s : fileStore) (desired : Z) : bool :=
  Z.of_nat (size (symmetricKeys s)) =? desired.

Definition GetPublicKey (s : fileStore) (nodeID : string) : Res string :=
  of_option (errors_New ("public key not found for node ID: " +:+ nodeID))
    (publicKeys s !! nodeID).

(** [strings.Split(string(partyID.KeyInt().Bytes()), ":")[0]]: no nil check here. *)
Definition partyIDToNodeID (partyID : option PartyID) : Res string :=
  match partyID with
  | None => Panic "nil pointer dereference"
  | Some p => Ok (default EmptyString (head (Split colon (Bytes (KeyInt p)))))
  end.

Definition SignMessage (s : fileStore) (msg : TssMessage T) : Res string :=
  msgBytes ← wrap_err "failed to marshal message for signing: "
    (TssMessage_MarshalForSigning PartyID_json msg);
  ed25519_Sign_go (privateKey s) msgBytes.

Definition VerifyMessage (s : fileStore) (msg : TssMessage T) : Res unit :=
  match tm_Signature msg with
  | None => Err (errors_New "message has no signature")
  | Some signature =>
      senderNodeID ← partyIDToNodeID (tm_From msg);
      publicKey ← wrap_err "failed to get sender's public key: " (GetPublicKey s senderNodeID);
      msgBytes ← wrap_err "failed to marshal message for verification: "
        (TssMessage_MarshalForSigning PartyID_json msg);
      ok ← ed25519_Verify_go publicKey msgBytes signature;
      if (ok : bool) then Ok tt else Err (errors_New "invalid signature")
  end.

Definition SignEcdhMessage (s : fileStore) (msg : ECDHMessage) : Res string :=
  msgBytes ← wrap_err "failed to marshal message for signing: "
    (ECDHMessage_MarshalForSigning msg);
  ed25519_Sign_go (privateKey s) msgBytes.

(** The key is printed in hex in the error text; only the sender is kept here. *)
Definition VerifySignature (s : fileStore) (msg : ECDHMessage) : Res unit :=
  match em_Signature msg with
  | None => Err (errors_New "ECDH message has no signature")
  | Some signature =>
      senderPk ← wrap_err "failed to get sender's public key: " (GetPublicKey s (em_From msg));
      msgBytes ← wrap_err "failed to marshal message for verification: "
        (ECDHMessage_MarshalForSigning msg);
      ok ← ed25519_Verify_go senderPk msgBytes signature;
      if (ok : bool) then Ok tt
      else Err (errors_New ("invalid signature from " +:+ em_From msg))
  end.

Definition EncryptMessage (s : fileStore) (plaintext peerID nonce : string) : Res string :=
  key ← GetSymmetricKey s peerID;
  match key with
  | None => Err (errors_New ("no symmetric key for peer " +:+ peerID))
  | Some key => EncryptAESGCMWithNonceEmbed plaintext key nonce
  end.

Definition DecryptMessage (s : fileStore) (cipher peerID : string) : Res string :=
  key ← GetSymmetricKey s peerID;
  match key with
  | None => Err (errors_New ("no symmetric key for peer " +:+ peerID))
  | Some key => DecryptAESGCMWithNonceEmbed cipher key
  end.

Definition verifyEd25519 `{InitiatorMessage A} (s : fileStore) (msg : A) : Res unit :=
  msgBytes ← wrap_err "failed to get raw message data: " (Raw msg);
  match default EmptyString (Sig msg) with
  | EmptyString => Err (errors_New "signature is empty")
  | signature =>
      ok ← ed25519_Verify_go (ik_Ed25519 (initiatorKey s)) msgBytes signature;
      if (ok : bool) then Ok tt else Err (errors_New "invalid signature from initiator")
  end.

Definition verifyP256 `{InitiatorMessage A} (s : fileStore) (msg : A) : Res unit :=
  msgBytes ← wrap_err "failed to get raw message data: " (Raw msg);
  match ik_P256 (initiatorKey s) with
  | None => Err (errors_New "initiator public key for secp256r1 is not set")
  | Some pk => VerifyP256Signature (Some pk) msgBytes (Sig msg)
  end.

Definition VerifyInitiatorMessage `{InitiatorMessage A} (s : fileStore) (msg : A) : Res unit :=
  let algo := ik_Algorithm (initiatorKey s) in
  if String.eqb algo EventInitiatorKeyTypeEd25519 then verifyEd25519 s msg
  else if String.eqb algo EventInitiatorKeyTypeP256 then verifyP256 s msg
  else Err (errors_New ("unsupported algorithm: " +:+ algo)).

(** ** Loading the store *)

Record NodeIdentity := mkNodeIdentity {
  ni_NodeName : string;
  ni_NodeID : string;
  ni_PublicKey : string;
  ni_CreatedAt : string;
}.

Definition hex_nibble (c : ascii) : option Z :=
  let n := byte_of c in
  if (48 <=? n) && (n <=? 57) then Some (n - 48)
  else if (97 <=? n) && (n <=? 102) then Some (n - 87)
  else if (65 <=? n) && (n <=? 70) then Some (n - 55)
  else None.

(** [hex.DecodeString]; the offending byte is left out of the error text. *)
Fixpoint hex_DecodeString (s : string) : Res string :=
  match s with
  | EmptyString => Ok EmptyString
  | String a EmptyString =>
      match hex_nibble a with
      | Some _ => Err (errors_New "encoding/hex: odd length hex string")
      | None => Err (errors_New "encoding/hex: invalid byte")
      end
  | String a (String b s) =>
      match hex_nibble a, hex_nibble b with
      | Some x, Some y => rest ← hex_DecodeString s; Ok (String (ascii_of (x * 16 + y)) rest)
      | _, _ => Err (errors_New "encoding/hex: invalid byte")
      end
  end.

(** [hex.EncodeToString], also [%x] of bytes. *)
Fixpoint hex_EncodeToString (s : string) : string :=
  match s with
  | EmptyString => EmptyString
  | String c s => String (hex_digit (byte_of c / 16))
                    (String (hex_digit (byte_of c mod 16)) (hex_EncodeToString s))
  end.

Definition set_publicKeys (f : gmap string string → gmap string string)
    (s : fileStore) : fileStore :=
  mkFileStore (identityDir s) (currentNodeName s) (f (publicKeys s)) (privateKey s)
    (initiatorKey s) (symmetricKeys s).

(** The working directory, the file system and the JSON decoders. *)
Variable wd : Res string.
Variable readFile : string → Res string.
Variable decodeIdentity : string → Res NodeIdentity.
Variable decodePeers : string → Res (gmap string string).

(** One iteration over peers.json. *)
Definition addPeerIdentity (store : fileStore) (peer : string * string) : Res fileStore :=
  let '(nodeName, nodeID) := peer in
  identityFilePath ← wrap_err ("invalid identity file path for node " +:+ nodeName +:+ ": ")
    (SafePath wd (identityDir store) (nodeName +:+ "_identity.json"));
  data ← wrap_err ("missing identity file for node " +:+ nodeName +:+ " (" +:+ nodeID +:+ "): ")
    (readFile identityFilePath);
  identity ← wrap_err ("failed to parse identity file for node " +:+ nodeName +:+ ": ")
    (decodeIdentity data);
  if bool_decide (ni_NodeID identity = nodeID) then
    key ← wrap_err ("invalid public key format for node " +:+ nodeName +:+ ": ")
      (hex_DecodeString (ni_PublicKey identity));
    Ok (set_publicKeys (insert (ni_NodeID identity) key) store)
  else Err (errors_New ("node ID mismatch for " +:+ nodeName +:+ ": " +:+ nodeID +:+
    " in peers.json vs " +:+ ni_NodeID identity +:+ " in identity file")).

Fixpoint addPeerIdentities (store : fileStore) (peers : list (string * string)) : Res fileStore :=
  match peers with
  | [] => Ok store
  | p :: peers => store' ← addPeerIdentity store p; addPeerIdentities store' peers
  end.

(** [mkdir] is the answer of [os.MkdirAll]. *)
Definition NewFileStore `{MapRange} (mkdir : Res unit) (identityDir nodeName : string)
    (loadPrivateKey : Res string) (loadInitiatorKeys : Res InitiatorKey) : Res fileStore :=
  _ ← wrap_err "failed to create identity directory: " mkdir;
  privateKeyHex ← loadPrivateKey;
  privateKey ← wrap_err "invalid private key format: " (hex_DecodeString privateKeyHex);
  initiatorKey ← loadInitiatorKeys;
  peersData ← wrap_err "failed to read peers.json: " (readFile "peers.json");
  peers ← wrap_err "failed to parse peers.json: " (decodePeers peersData);
  addPeerIdentities (mkFileStore identityDir nodeName ∅ privateKey initiatorKey ∅)
    (range_of peers).

(** The configured public key, and its parsers. *)
Definition loadEd25519InitiatorKey (pubKeyHex : string) (parseEd25519 : string → Res string) :
    Res string :=
  if String.eqb pubKeyHex "" then Err (errors_New "event_initiator_pubkey not found in config")
  else wrap_err "failed to decode event_initiator_pubkey as hex: " (parseEd25519 pubKeyHex).

Definition loadP256InitiatorKey (pubKeyHex : string)
    (parseP256Hex parseP256Base64 : string → Res ecdsa_PublicKey) : Res ecdsa_PublicKey :=
  if String.eqb pubKeyHex "" then Err (errors_New "event_initiator_pubkey not found in config")
  else match parseP256Hex pubKeyHex with
       | Ok k => Ok k
       | _ => wrap_err "failed to decode event_initiator_pubkey as hex or base64: "
                (parseP256Base64 pubKeyHex)
       end.

(** [loadInitiatorKeys]: configured algorithm and public key, and the two parsers. *)
Definition loadInitiatorKeys (algorithm pubKeyHex : string)
    (parseEd25519 : string → Res string)
    (parseP256Hex parseP256Base64 : string → Res ecdsa_PublicKey) : Res InitiatorKey :=
  let algorithm := if String.eqb algorithm "" then KeyTypeEd25519 else algorithm in
  if String.eqb algorithm EventInitiatorKeyTypeEd25519 then
    key ← wrap_err "failed to load Ed25519 initiator key: "
      (loadEd25519InitiatorKey pubKeyHex parseEd25519);
    Ok (mkInitiatorKey EventInitiatorKeyTypeEd25519 key None)
  else if String.eqb algorithm EventInitiatorKeyTypeP256 then
    key ← wrap_err "failed to load P-256 initiator key: "
      (loadP256InitiatorKey pubKeyHex parseP256Hex parseP256Base64);
    Ok (mkInitiatorKey EventInitiatorKeyTypeP256 EmptyString (Some key))
  else Err (errors_New ("invalid algorithm: " +:+ algorithm +:+ ". Must be " +:+
    EventInitiatorKeyTypeEd25519 +:+ " or " +:+ EventInitiatorKeyTypeP256)).

(** [ValidateEd25519PublicKey] and [ParseEd25519PublicKeyFromHex]. *)
Definition ValidateEd25519PublicKey (keyBytes : string) : Res unit :=
  if bool_decide (String.length keyBytes = 32%nat) then Ok tt
  else Err (errors_New ("invalid Ed25519 public key length: expected 32 bytes, got " +:+
                        fmt_d (Z.of_nat (String.length keyBytes)))).

Definition ParseEd25519PublicKeyFromHex (hexKey : string) : Res string :=
  if String.eqb hexKey "" then Err (errors_New "public key hex string is empty") else
  keyBytes ← wrap_err "invalid hex format: " (hex_DecodeString hexKey);
  _ ← ValidateEd25519PublicKey keyBytes;
  Ok keyBytes.

End identity.

(** *** Hexadecimal *)

Lemma hex_nibble_digit c :
  hex_nibble (hex_digit (byte_of c / 16)) = Some (byte_of c / 16) ∧
  hex_nibble (hex_digit (byte_of c mod 16)) = Some (byte_of c mod 16).
Proof. destruct c as [[] [] [] [] [] [] [] []]; by vm_compute. Qed.

Lemma hex_Decode_Encode s : hex_DecodeString (hex_EncodeToString s) = Ok s.
Proof.
  induction s as [|c s IH]; [done|]. cbn [hex_EncodeToString hex_DecodeString].
  destruct (hex_nibble_digit c) as [-> ->]. rewrite IH. cbn. do 2 f_equal.
  rewrite <-(ascii_of_byte_of c) at 3. f_equal.
  pose proof (Z.div_mod (byte_of c) 16). lia.
Qed.

Lemma hex_Encode_no_0x s : TrimPrefix_opt (hex_EncodeToString s) "0x" = None.
Proof.
  destruct s as [|c s]; [done|]. destruct c as [[] [] [] [] [] [] [] []]; by vm_compute.
Qed.

Lemma hex_Encode_nonempty s : s ≠ EmptyString → String.eqb (hex_EncodeToString s) "" = false.
Proof. by destruct s. Qed.

Definition is_hex_digit (c : ascii) : bool :=
  let n := byte_of c in ((48 <=? n) && (n <=? 57)) || ((97 <=? n) && (n <=? 102)).

Lemma hex_Encode_digits s : string_forallb is_hex_digit (hex_EncodeToString s) = true.
Proof.
  induction s as [|c s IH]; [done|]. cbn. rewrite IH.
  by destruct c as [[] [] [] [] [] [] [] []]; vm_compute.
Qed.

Lemma TrimSpace_hex s : TrimSpace (hex_EncodeToString s) = hex_EncodeToString s.
Proof. by apply (TrimSpace_avoids is_hex_digit); [vm_compute..|apply hex_Encode_digits]. Qed.

(** ** Properties *)

Section properties.
Context `{C : Crypto} `{T : TssLib}.
Variable PartyID_json : PartyID → json.

Lemma GetPublicKey_Ok (s : fileStore) id pk :
  GetPublicKey s id = Ok pk ↔ publicKeys s !! id = Some pk.
Proof. apply of_option_Ok. Qed.

Lemma ed25519_Verify_go_Ok pk m sg b :
  ed25519_Verify_go pk m sg = Ok b ↔
  String.length pk = 32%nat ∧ ed25519_Verify pk m sg = b.
Proof.
  unfold ed25519_Verify_go. case_bool_decide; split; [by intros [= <-]|by intros [_ ->]|done|].
  by intros [? _].
Qed.

Lemma NewCipher_32 key : String.length key = 32%nat → NewCipher key = Ok key.
Proof. unfold NewCipher. intros ->. by rewrite bool_decide_eq_true_2 by set_solver. Qed.

Lemma encrypt_decrypt_agree `{!CryptoSpec C} (a b : fileStore) ida idb key plain nonce :
  symmetricKeys a !! idb = Some (Some key) → symmetricKeys b !! ida = Some (Some key) →
  String.length key = 32%nat → String.length nonce = NonceSize →
  ∃ ct, EncryptMessage a plain idb nonce = Ok ct ∧ DecryptMessage b ct ida = Ok plain.
Proof.
  intros Ha Hb Hk Hn. exists (nonce +:+ aes_Seal key nonce plain).
  unfold EncryptMessage, DecryptMessage, GetSymmetricKey. rewrite Ha, Hb. cbn.
  unfold EncryptAESGCMWithNonceEmbed, DecryptAESGCMWithNonceEmbed.
  rewrite NewCipher_32 by done. cbn. split; [done|].
  rewrite bool_decide_eq_false_2 by (rewrite length_app_s, Hn; lia).
  rewrite <-Hn. destruct (take_drop_app_s nonce (aes_Seal key nonce plain)) as [-> ->].
  by rewrite aes_Open_Seal.
Qed.

Lemma VerifyMessage_intro (s : fileStore) (m : TssMessage T) sg p node pk bytes :
  tm_Signature m = Some sg → tm_From m = Some p →
  partyIDToNodeID (Some p) = Ok node →
  publicKeys s !! node = Some pk → String.length pk = 32%nat →
  TssMessage_MarshalForSigning PartyID_json m = Ok bytes →
  ed25519_Verify pk bytes sg = true → VerifyMessage PartyID_json s m = Ok tt.
Proof.
  intros Hsg Hf Hn Hpk Hl Hb Hv. unfold VerifyMessage.
  rewrite Hsg, Hf, Hn. cbn. unfold GetPublicKey. rewrite Hpk. cbn.
  rewrite Hb. cbn. unfold ed25519_Verify_go. rewrite bool_decide_eq_true_2 by done. cbn.
  by rewrite Hv.
Qed.

(** A broadcast is accepted exactly when it carries a signature that the
    public key registered for the node named in the sender's party id verifies
    over the message's canonical bytes. *)
Theorem VerifyMessage_accepts (s : fileStore) (m : TssMessage T) :
  VerifyMessage PartyID_json s m = Ok tt ↔
  ∃ sg p node pk bytes,
    tm_Signature m = Some sg ∧ tm_From m = Some p ∧
    head (Split colon (Bytes (KeyInt p))) = Some node ∧
    publicKeys s !! node = Some pk ∧ String.length pk = 32%nat ∧
    TssMessage_MarshalForSigning PartyID_json m = Ok bytes ∧
    ed25519_Verify pk bytes sg = true.
Proof.
  unfold VerifyMessage. split.
  - destruct (tm_Signature m) as [sg|]; [|done].
    intros H. inv_res. unfold partyIDToNodeID in *.
    destruct (tm_From m) as [p|] eqn:Hp; [|done]. inv_res.
    match goal with H : ed25519_Verify_go _ _ _ = Ok ?b |- _ =>
      apply ed25519_Verify_go_Ok in H as [? ?]; destruct b; [|done] end.
    destruct (Split_cons colon (Bytes (KeyInt p))) as (w & ws & Hs).
    match goal with H : GetPublicKey _ _ = Ok _ |- _ =>
      apply GetPublicKey_Ok in H; rewrite Hs in H end.
    eexists sg, p, w, _, _. rewrite Hs. eauto 10.
  - intros (sg & p & node & pk & bytes & Hsg & Hf & Hn & Hpk & Hl & Hb & Hv).
    apply (VerifyMessage_intro s m sg p node pk bytes); try done.
    unfold partyIDToNodeID. by rewrite Hn.
Qed.

(** What a node signs, every node that registered its public key accepts:
    with the sender's party id naming that node, the signed message verifies. *)
Theorem SignMessage_VerifyMessage `{!CryptoSpec C} (a b : fileStore) (m : TssMessage T)
    p node sg
    (Hfrom : tm_From m = Some p)
    (Hnode : partyIDToNodeID (Some p) = Ok node)
    (Hreg : publicKeys b !! node = Some (ed25519_Public (privateKey a)))
    (Hsign : SignMessage PartyID_json a m = Ok sg) :
  VerifyMessage PartyID_json b (set_tm_Signature m (Some sg)) = Ok tt.
Proof.
  unfold SignMessage in Hsign. apply Res_bind_Ok in Hsign as (bytes & Hb & Hsg).
  apply wrap_err_Ok in Hb. unfold ed25519_Sign_go in Hsg.
  case_bool_decide as Hlen; [|done]. injection Hsg as <-.
  apply (VerifyMessage_intro b _ (ed25519_Sign (privateKey a) bytes) p node
           (ed25519_Public (privateKey a)) bytes); eauto using ed25519_Public_length.
  by apply ed25519_Verify_Sign.
Qed.

(** Authenticated encryption between two stores: what one encrypts for a
    peer, that peer decrypts, as soon as both hold the same symmetric key for
    each other, whatever the 12-byte nonce. *)
Theorem EncryptMessage_DecryptMessage `{!CryptoSpec C} (a b : fileStore) ida idb key nonce plain ct
    (Ha : symmetricKeys a !! idb = Some (Some key))
    (Hb : symmetricKeys b !! ida = Some (Some key))
    (Hnonce : String.length nonce = NonceSize)
    (Henc : EncryptMessage a plain idb nonce = Ok ct) :
  DecryptMessage b ct ida = Ok plain.
Proof.
  unfold EncryptMessage, DecryptMessage, GetSymmetricKey in *. rewrite Ha in Henc. rewrite Hb.
  cbn in *. unfold EncryptAESGCMWithNonceEmbed, DecryptAESGCMWithNonceEmbed in *.
  apply Res_bind_Ok in Henc as (k & Hk & [= <-]). rewrite wrap_err_Ok in Hk.
  rewrite Hk. cbn.
  rewrite bool_decide_eq_false_2 by (rewrite length_app_s, Hnonce; lia).
  rewrite <-Hnonce. destruct (take_drop_app_s nonce (aes_Seal k nonce plain)) as [-> ->].
  by rewrite aes_Open_Seal.
Qed.

(** Decryption of a peer's message never panics: a message shorter than a
    nonce, a wrong key or a missing key is an error. *)
Theorem DecryptMessage_no_panic (s : fileStore) (cipher peerID why : string) :
  DecryptMessage s cipher peerID ≠ Panic why ∧
  (String.length cipher < NonceSize → ∀ p, DecryptMessage s cipher peerID ≠ Ok p)%nat.
Proof.
  unfold DecryptMessage, GetSymmetricKey, DecryptAESGCMWithNonceEmbed, NewCipher.
  destruct (symmetricKeys s !! peerID) as [[k|]|]; cbn; [|split; done..].
  destruct (bool_decide (String.length k ∈ _)); cbn; [|done].
  destruct (bool_decide_reflect (String.length cipher < NonceSize)%nat); cbn; [done|].
  split; [|lia]. by destruct (aes_Open _ _ _).
Qed.

(** The initiator's signatures are not separated by message kind: the
    signature of a key-generation request whose wallet id is the canonical text
    of a signing request is accepted for that signing request. *)
Theorem VerifyInitiatorMessage_cross_kind (s : fileStore) (m : SigningMessage) :
  VerifyInitiatorMessage s
    (mkKeygenMessage (encode (SigningMessage_payload m)) (sm_Signature m)) =
  VerifyInitiatorMessage s m.
Proof. done. Qed.

(** *** The peer table *)

Section load.
Variable wd : Res string.
Variable readFile : string → Res string.
Variable decodeIdentity : string → Res NodeIdentity.

(** [key] is the public key of some peer of the list with id [id], from its identity
    file in [dir]. *)
Definition identity_of (dir : string) (peers : list (string * string)) (id key : string) : Prop :=
  ∃ name path data ident, (name, id) ∈ peers ∧
    SafePath wd dir (name +:+ "_identity.json") = Ok path ∧ readFile path = Ok data ∧
    decodeIdentity data = Ok ident ∧ ni_NodeID ident = id ∧
    hex_DecodeString (ni_PublicKey ident) = Ok key.

Lemma addPeerIdentity_Ok s name id s' :
  addPeerIdentity wd readFile decodeIdentity s (name, id) = Ok s' →
  ∃ key, s' = set_publicKeys (insert id key) s ∧ identity_of (identityDir s) [(name, id)] id key.
Proof.
  unfold addPeerIdentity. intros H. inv_res. case_bool_decide as Hid; [|done]. inv_res.
  match goal with H : hex_DecodeString _ = Ok ?k |- _ => exists k end.
  split; [done|]. unfold identity_of. eexists name, _, _, _. split_and!; eauto. set_solver.
Qed.

Lemma addPeerIdentities_Ok peers s s' :
  addPeerIdentities wd readFile decodeIdentity s peers = Ok s' →
  (∀ id, is_Some (publicKeys s' !! id) ↔ is_Some (publicKeys s !! id) ∨ id ∈ peers.*2) ∧
  (∀ id key, publicKeys s' !! id = Some key →
     publicKeys s !! id = Some key ∨ identity_of (identityDir s) peers id key).
Proof.
  revert s. induction peers as [|[name id] peers IH]; cbn [addPeerIdentities]; intros s H.
  { injection H as <-. set_solver. }
  apply Res_bind_Ok in H as (s1 & H1 & H).
  apply addPeerIdentity_Ok in H1 as (key & -> & Hkey).
  destruct (IH _ H) as [Hdom Hval]. split.
  - intros id'. rewrite Hdom. cbn. rewrite lookup_insert_is_Some', elem_of_cons. naive_solver.
  - intros id' key' Hk. destruct (Hval _ _ Hk) as [Hk'|(n & pa & d & i & Hin & ?)].
    + cbn in Hk'. apply lookup_insert_Some in Hk' as [[<- <-]|[_ ?]]; [right|by left].
      destruct Hkey as (n & pa & d & i & Hin & ?). exists n, pa, d, i. set_solver.
    + right. exists n, pa, d, i. set_solver.
Qed.

End load.

(** A store that loads has exactly the ids of peers.json registered, and
    each registered key comes from an identity file of a peer with that id
    whose content names the same id. *)
Theorem NewFileStore_peers `{MapRange} wd readFile decodeIdentity decodePeers mk dir node keyHex ik s
    (Hload : NewFileStore wd readFile decodeIdentity decodePeers mk dir node keyHex ik = Ok s) :
  ∃ peers, readFile "peers.json" ≫= decodePeers = Ok peers ∧
  (∀ id, is_Some (publicKeys s !! id) ↔ ∃ name, peers !! name = Some id) ∧
  (∀ id key, publicKeys s !! id = Some key → ∃ name path data ident,
     peers !! name = Some id ∧ SafePath wd dir (name +:+ "_identity.json") = Ok path ∧
     readFile path = Ok data ∧ decodeIdentity data = Ok ident ∧
     ni_NodeID ident = id ∧ hex_DecodeString (ni_PublicKey ident) = Ok key).
Proof.
  unfold NewFileStore in Hload. inv_res.
  match goal with H : decodePeers _ = Ok ?p |- _ => exists p end.
  match goal with H : readFile "peers.json" = Ok _ |- _ => rewrite H end. split; [done|].
  match goal with H : addPeerIdentities _ _ _ _ _ = Ok s |- _ =>
    apply addPeerIdentities_Ok in H as [Hdom Hval] end. cbn in *. split.
  - intros id. rewrite Hdom. rewrite list_elem_of_fmap. split.
    + intros [[? ?]|([name id'] & -> & Hin%elem_of_range_of)]; [done|eauto].
    + intros [name Hn]. right. exists (name, id). by rewrite elem_of_range_of.
  - intros id key Hk. destruct (Hval _ _ Hk) as [?|(n & pa & d & i & Hin & ?)]; [done|].
    rewrite elem_of_range_of in Hin. eauto 10.
Qed.

End properties.

(** *** Witnesses *)

Definition toy_store (sk : string) (pks : gmap string string)
    (syms : gmap string (option string)) : @fileStore toy_crypto :=
  @mkFileStore toy_crypto "identity" "node0" pks sk
    (@mkInitiatorKey toy_crypto "ed25519" "" None) syms.

Definition toy_key64 : string := pad_to 64 "secret".
Definition toy_key32 : string := pad_to 32 "shared".
Definition toy_pid : party_id := mkPartyID "uuid" "keygen" (SetBytes "nodeA:1").
Definition toy_msg : TssMessage tss_ref :=
  @NewTssMessage tss_ref "wallet" (Some "bytes") true (Some toy_pid) None.

Lemma SignMessage_VerifyMessage_witness :
  let a := toy_store toy_key64 ∅ ∅ in
  let b := toy_store toy_key64 {["nodeA" := @ed25519_Public toy_crypto toy_key64]} ∅ in
  ∃ sg, @VerifyMessage toy_crypto tss_ref (λ _, JNull) b
          (set_tm_Signature toy_msg (Some sg)) = Ok tt.
Proof.
  eexists. eapply (@SignMessage_VerifyMessage toy_crypto tss_ref (λ _, JNull) toy_crypto_spec
    (toy_store toy_key64 ∅ ∅)); [reflexivity|vm_compute; reflexivity|reflexivity|].
  vm_compute. reflexivity.
Defined.

Lemma EncryptMessage_DecryptMessage_witness :
  ∃ ct, @DecryptMessage toy_crypto (toy_store toy_key64 ∅ {["A" := Some toy_key32]}) ct "A"
        = Ok "hello".
Proof.
  eexists. apply (@EncryptMessage_DecryptMessage toy_crypto toy_crypto_spec
    (toy_store toy_key64 ∅ {["B" := Some toy_key32]})
    (toy_store toy_key64 ∅ {["A" := Some toy_key32]}) "A" "B" toy_key32 "123456789012" "hello");
    [reflexivity|reflexivity|reflexivity|vm_compute; reflexivity].
Defined.

Lemma NewFileStore_peers_witness :
  let read (n : string) : Res string := Ok "file" in
  let dec (d : string) : Res NodeIdentity := Ok (mkNodeIdentity "node0" "id0" "0a0b" "") in
  let peers (d : string) : Res (gmap string string) := Ok {["node0" := "id0"]} in
  ∃ s, @NewFileStore toy_crypto (Ok "/") read dec peers map_to_list_range (Ok tt) "identity"
         "node0" (Ok "ff") (Ok (mkInitiatorKey "ed25519" "" None)) = Ok s ∧
       is_Some (publicKeys s !! "id0").
Proof.
  cbv zeta. eexists. split; [vm_compute; reflexivity|].
  edestruct (@NewFileStore_peers toy_crypto map_to_list_range (Ok "/")
    (λ _, Ok "file") (λ _, Ok (mkNodeIdentity "node0" "id0" "0a0b" ""))
    (λ _, Ok {["node0" := "id0"]}) (Ok tt)
    "identity" "node0" (Ok "ff") (Ok (mkInitiatorKey "ed25519" "" None))) as (p & Hp & Hdom & _);
    [vm_compute; reflexivity|].
  apply Hdom. exists "node0". cbn in Hp. injection Hp as <-. by rewrite lookup_singleton_eq.
Defined.
