(* ===== verification/Ecdh.v ===== *)
(** * pkg/mpc/key_exchange_session.go: the ECDH exchange between nodes

    Every node broadcasts an ephemeral X25519 public key, signed with its
    identity key; whoever hears it derives a symmetric key for that node and
    stores it in the identity store.  The session, the store it shares and the
    topic it publishes on are one state, [EcdhState]. *)

From stdpp Require Import base gmap list strings.
From Stdlib Require Import ZArith Lia Ascii.
From S2P Require Import Prelude.
From S2P Require Import GoStrings.
From S2P Require Import External.
From S2P Require Import Json.
From S2P Require Import Types.
From S2P Require Import Identity.

Definition ECDHExchangeTopic : string := "ecdh:exchange".

(** Go's [<] on strings is lexicographic on bytes, as [String.ltb]. *)
Definition deriveConsistentInfo (a b : string) : string :=
  if String.ltb a b then a +:+ b else b +:+ a.

Section ecdh.
Context `{C : Crypto}.

Record ecdhSession := mkEcdhSession {
  es_nodeID : string;
  es_peerIDs : list string;
  es_privateKey : option string;    (* the public key is its function; both start nil *)
  es_ecdhSub : bool;                (* subscribed to the exchange topic *)
}.

Definition NewECDHSession (nodeID : string) (peerIDs : list string) : ecdhSession :=
  mkEcdhSession nodeID peerIDs None false.

Record EcdhState := mkEcdhState {
  session : ecdhSession;
  identityStore : fileStore;
  errCh : list error;                      (* errors sent, in order *)
  published : list (string * string);      (* topic and payload, in order *)
}.

Definition set_session (f : ecdhSession → ecdhSession) (s : EcdhState) : EcdhState :=
  mkEcdhState (f (session s)) (identityStore s) (errCh s) (published s).
Definition set_identityStore (f : fileStore → fileStore) (s : EcdhState) : EcdhState :=
  mkEcdhState (session s) (f (identityStore s)) (errCh s) (published s).
Definition send_err (e : error) (s : EcdhState) : EcdhState :=
  mkEcdhState (session s) (identityStore s) (errCh s ++ [e]) (published s).
Definition publish (topic data : string) (s : EcdhState) : EcdhState :=
  mkEcdhState (session s) (identityStore s) (errCh s) (published s ++ [(topic, data)]).

Definition RemovePeer (peerID : string) : M EcdhState unit :=
  modify (set_identityStore (exec (RemoveSymmetricKey peerID))).

Definition GetReadyPeersCount (s : EcdhState) : Z := GetSymmetricKeyCount (identityStore s).

(** The 32 bytes [hkdf.Read] yields; on an error the key stays nil. *)
Definition deriveSymmetricKey (sharedSecret peerID : string) : M EcdhState (option string) :=
  λ s, let info := deriveConsistentInfo (es_nodeID (session s)) peerID in
       match hkdf_sha256 sharedSecret info with
       | Some k => (Some k, s)
       | None => (None, send_err (errors_New "hkdf: entropy limit reached") s)
       end.

(** [ecdh.X25519().NewPublicKey] *)
Definition x25519_NewPublicKey (key : string) : Res string :=
  if bool_decide (String.length key = 32%nat) then Ok key
  else Err (errors_New "crypto/ecdh: invalid public key").

(** json.Unmarshal of an [ECDHMessage]; [None] is an error. *)
Variable Unmarshal : string → option ECDHMessage.

(** The subscription's callback. *)
Definition handleKeyExchange (data : string) : M EcdhState (Res unit) := λ s,
  match Unmarshal data with
  | None => (Ok tt, s)
  | Some ecdhMsg =>
      if String.eqb (em_From ecdhMsg) (es_nodeID (session s)) then (Ok tt, s) else
      match VerifySignature (identityStore s) ecdhMsg with
      | Panic w => (Panic w, s)
      | Err err => (Ok tt, send_err err s)
      | Ok _ =>
          match x25519_NewPublicKey (default EmptyString (em_PublicKey ecdhMsg)) with
          | Ok peerPublicKey =>
              match es_privateKey (session s) with
              | None => (Panic "nil pointer dereference", s)
              | Some privateKey =>
                  match x25519_ECDH privateKey peerPublicKey with
                  | Ok sharedSecret =>
                      let '(symmetricKey, s) :=
                        deriveSymmetricKey sharedSecret (em_From ecdhMsg) s in
                      (Ok tt, set_identityStore
                         (exec (SetSymmetricKey (em_From ecdhMsg) symmetricKey)) s)
                  | Err err => (Ok tt, send_err err s)
                  | Panic w => (Panic w, s)
                  end
              end
          | Err err => (Ok tt, send_err err s)
          | Panic w => (Panic w, s)
          end
      end
  end.

(** [generated] is what [GenerateKey] returns, [subscribed] what [Subscribe] does. *)
Definition ListenKeyExchange (generated subscribed : Res string) : M EcdhState (Res unit) := λ s,
  match generated with
  | Err e => (Err (Errorf_w "failed to generate ECDH key pair: " e), s)
  | Panic w => (Panic w, s)
  | Ok privateKey =>
      let upd b := set_session (λ e, mkEcdhSession (es_nodeID e) (es_peerIDs e)
                                       (Some privateKey) b) s in
      match subscribed with
      | Ok _ => (Ok tt, upd true)
      | Err e => (Err (Errorf_w "failed to subscribe to ECDH topic: " e), upd false)
      | Panic w => (Panic w, upd false)
      end
  end.

(** [Close]: a session that never subscribed has a nil subscription. *)
Definition Close (unsubscribe : Res unit) : M EcdhState (Res unit) := λ s,
  if es_ecdhSub (session s) then (unsubscribe, s) else (Panic "nil pointer dereference", s).

(** The message of [BroadcastPublicKey], signed; [now] is its time stamp. *)
Definition signedMessage (s : EcdhState) (privateKey now : string) : Res ECDHMessage :=
  let msg := mkECDHMessage (es_nodeID (session s)) (Some (x25519_PublicKey privateKey))
               now None in
  signature ← wrap_err "failed to sign ECDH message: " (SignEcdhMessage (identityStore s) msg);
  Ok (mkECDHMessage (em_From msg) (em_PublicKey msg) (em_Timestamp msg) (Some signature)).

(** [sent] is what [Publish] returns. *)
Definition BroadcastPublicKey (now : string) (sent : Res unit) : M EcdhState (Res unit) := λ s,
  match es_privateKey (session s) with
  | None => (Panic "nil pointer dereference", s)
  | Some privateKey =>
      match signedMessage s privateKey now with
      | Err e => (Err e, s)
      | Panic w => (Panic w, s)
      | Ok msg =>
          match sent with
          | Ok _ => (Ok tt, publish ECDHExchangeTopic (encode (ECDHMessage_json msg)) s)
          | Err e => (Err (Errorf_w (es_nodeID (session s) +:+
                             " failed to publish DH message because ") e), s)
          | Panic w => (Panic w, s)
          end
      end
  end.

End ecdh.

(** ** The pair context of the key derivation *)

Lemma ltb_compare a b : String.ltb a b = match String.compare a b with Lt => true | _ => false end.
Proof. done. Qed.

Lemma deriveConsistentInfo_sym a b : deriveConsistentInfo a b = deriveConsistentInfo b a.
Proof.
  unfold deriveConsistentInfo. rewrite !ltb_compare, (String.compare_antisym b a).
  destruct (String.compare a b) eqn:H; try done.
  apply String.compare_eq_iff in H. by subst.
Qed.

Section properties.
Context `{C : Crypto}.
Variable Unmarshal : string → option ECDHMessage.

(** What a store needs to accept a session's broadcast. *)
Definition registered (st : fileStore) (s : EcdhState) : Prop :=
  publicKeys st !! es_nodeID (session s) =
    Some (ed25519_Public (privateKey (identityStore s))).

Lemma VerifySignature_signed `{!CryptoSpec C} st s sk now m :
  registered st s → signedMessage s sk now = Ok m →
  em_From m = es_nodeID (session s) ∧ em_PublicKey m = Some (x25519_PublicKey sk) ∧
  VerifySignature st m = Ok tt.
Proof.
  unfold signedMessage. intros Hreg H. apply Res_bind_Ok in H as (sg & Hsg & [= <-]).
  apply wrap_err_Ok in Hsg. unfold SignEcdhMessage in Hsg.
  apply Res_bind_Ok in Hsg as (bytes & Hb & Hsg). apply wrap_err_Ok in Hb.
  unfold ed25519_Sign_go in Hsg.
  case_bool_decide as Hl; [|done]. injection Hsg as <-. split_and!; [done..|].
  unfold VerifySignature, GetPublicKey. cbn [em_From em_Signature].
  change (ECDHMessage_MarshalForSigning _) with
    (ECDHMessage_MarshalForSigning (mkECDHMessage (es_nodeID (session s))
       (Some (x25519_PublicKey sk)) now None)).
  rewrite Hreg, Hb. cbn.
  unfold ed25519_Verify_go.
  rewrite bool_decide_eq_true_2 by (by apply ed25519_Public_length). cbn.
  by rewrite ed25519_Verify_Sign.
Qed.

(** Hearing the signed broadcast of [s], [t] stores the derived key for it. *)
Lemma handleKeyExchange_signed `{!CryptoSpec C} s t sk tk now m secret key data :
  registered (identityStore t) s → es_nodeID (session s) ≠ es_nodeID (session t) →
  signedMessage s sk now = Ok m → Unmarshal data = Some m →
  es_privateKey (session t) = Some tk → String.length sk = 32%nat →
  x25519_ECDH tk (x25519_PublicKey sk) = Ok secret →
  hkdf_sha256 secret
    (deriveConsistentInfo (es_nodeID (session t)) (es_nodeID (session s))) = Some key →
  handleKeyExchange Unmarshal data t =
    (Ok tt, set_identityStore (set_symmetricKeys
       (insert (es_nodeID (session s)) (Some key))) t).
Proof.
  intros Hreg Hne Hm Hd Hk Hl Hs Hkey.
  destruct (VerifySignature_signed _ _ _ _ _ Hreg Hm) as (Hf & Hpk & Hv).
  unfold handleKeyExchange. rewrite Hd, Hf.
  destruct (String.eqb_spec (es_nodeID (session s)) (es_nodeID (session t))); [done|].
  rewrite Hv, Hpk. cbn. unfold x25519_NewPublicKey.
  rewrite bool_decide_eq_true_2 by (by apply x25519_PublicKey_length).
  rewrite Hk, Hs. unfold deriveSymmetricKey. by rewrite Hkey.
Qed.

(** C20: two nodes that registered each other's identity key and hear each
    other's broadcast end with a secure channel: each publishes its signed key
    on the exchange topic, and after the two deliveries whatever one encrypts
    for the other, the other decrypts, in both directions. *)
Theorem key_exchange_channel `{!CryptoSpec C} (a b : EcdhState) xa xb ta tb ma mb secret key
    (Hids : es_nodeID (session a) ≠ es_nodeID (session b))
    (Hxa : es_privateKey (session a) = Some xa) (Hxb : es_privateKey (session b) = Some xb)
    (Hla : String.length xa = 32%nat) (Hlb : String.length xb = 32%nat)
    (Hra : registered (identityStore a) b) (Hrb : registered (identityStore b) a)
    (Hma : signedMessage a xa ta = Ok ma) (Hmb : signedMessage b xb tb = Ok mb)
    (Hda : Unmarshal (encode (ECDHMessage_json ma)) = Some ma)
    (Hdb : Unmarshal (encode (ECDHMessage_json mb)) = Some mb)
    (Hsec : x25519_ECDH xa (x25519_PublicKey xb) = Ok secret)
    (Hkey : hkdf_sha256 secret (deriveConsistentInfo (es_nodeID (session a))
              (es_nodeID (session b))) = Some key) :
  let da := encode (ECDHMessage_json ma) in
  let db := encode (ECDHMessage_json mb) in
  let a' := identityStore (exec (handleKeyExchange Unmarshal db) a) in
  let b' := identityStore (exec (handleKeyExchange Unmarshal da) b) in
  published (exec (BroadcastPublicKey ta (Ok tt)) a) = published a ++ [(ECDHExchangeTopic, da)] ∧
  published (exec (BroadcastPublicKey tb (Ok tt)) b) = published b ++ [(ECDHExchangeTopic, db)] ∧
  ∀ plain nonce, String.length nonce = NonceSize →
    (∃ ct, EncryptMessage a' plain (es_nodeID (session b)) nonce = Ok ct ∧
           DecryptMessage b' ct (es_nodeID (session a)) = Ok plain) ∧
    (∃ ct, EncryptMessage b' plain (es_nodeID (session a)) nonce = Ok ct ∧
           DecryptMessage a' ct (es_nodeID (session b)) = Ok plain).
Proof.
  intros da db a' b'. pose proof (hkdf_length _ _ _ Hkey) as Hlen.
  assert (handleKeyExchange Unmarshal db a = _) as Ha
    by (by eapply (handleKeyExchange_signed b a)).
  rewrite x25519_shared in Hsec. rewrite deriveConsistentInfo_sym in Hkey.
  assert (handleKeyExchange Unmarshal da b = _) as Hb
    by (by eapply (handleKeyExchange_signed a b)).
  unfold a', b', exec. rewrite Ha, Hb. unfold BroadcastPublicKey.
  rewrite Hxa, Hma, Hxb, Hmb. split_and!; [done..|].
  intros plain nonce Hn.
  split; (eapply encrypt_decrypt_agree; [..|done|done]; cbn; by rewrite lookup_insert_eq).
Qed.

(** C31: the exchange only believes signatures: hearing a message changes the
    symmetric key of node [p] only if the message names [p] as its sender, [p]
    is another node and the message verifies under the identity key registered
    for [p]; the keys of all other nodes stay as they are. *)
Theorem handleKeyExchange_authentic (s : EcdhState) data p
    (Hchange : symmetricKeys (identityStore (exec (handleKeyExchange Unmarshal data) s)) !! p ≠
               symmetricKeys (identityStore s) !! p) :
  ∃ m sg pk, Unmarshal data = Some m ∧ em_From m = p ∧ p ≠ es_nodeID (session s) ∧
    em_Signature m = Some sg ∧ publicKeys (identityStore s) !! p = Some pk ∧
    (∃ bytes, ECDHMessage_MarshalForSigning m = Ok bytes ∧ ed25519_Verify pk bytes sg = true).
Proof.
  unfold exec, handleKeyExchange in Hchange.
  destruct (Unmarshal data) as [m|]; [|done].
  destruct (String.eqb_spec (em_From m) (es_nodeID (session s))) as [|Hne]; [done|].
  destruct (VerifySignature (identityStore s) m) as [[]| |] eqn:Hv; [|done..].
  assert (em_From m = p) as <-.
  { destruct (decide (em_From m = p)) as [|Hmp]; [done|]. destruct Hchange.
    destruct (x25519_NewPublicKey _); [|done..].
    destruct (es_privateKey (session s)); [|done].
    destruct (x25519_ECDH _ _); [|done..].
    unfold deriveSymmetricKey. destruct (hkdf_sha256 _ _); cbn; by rewrite lookup_insert_ne. }
  unfold VerifySignature in Hv. destruct (em_Signature m) as [sg|] eqn:Hsg; [|done].
  apply Res_bind_Ok in Hv as (pk & Hpk & Hv). rewrite wrap_err_Ok, GetPublicKey_Ok in Hpk.
  apply Res_bind_Ok in Hv as (bytes & Hb & Hv). rewrite wrap_err_Ok in Hb.
  apply Res_bind_Ok in Hv as (ok & Hok & Hv). apply ed25519_Verify_go_Ok in Hok as [_ Hok].
  exists m, sg, pk. split_and!; try done. exists bytes. split; [done|].
  by destruct ok.
Qed.

End properties.

(** *** Witnesses *)

Definition toy_id (n : string) : string := pad_to 64 n.

Definition toy_node (me other : string) : EcdhState (C := toy_crypto) :=
  mkEcdhState (mkEcdhSession me [me; other] (Some (pad_to 32 me)) true)
    (toy_store (toy_id me) {[other := @ed25519_Public toy_crypto (toy_id other)]} ∅) [] [].

Definition toy_signed (me other : string) : ECDHMessage :=
  match signedMessage (toy_node me other) (pad_to 32 me) "2025-01-01T00:00:00Z" with
  | Ok m => m
  | _ => mkECDHMessage me None "" None
  end.

(** A decoder of the two messages of the example. *)
Definition toy_Unmarshal (d : string) : option ECDHMessage :=
  if String.eqb d (encode (ECDHMessage_json (toy_signed "nodeA" "nodeB")))
  then Some (toy_signed "nodeA" "nodeB")
  else if String.eqb d (encode (ECDHMessage_json (toy_signed "nodeB" "nodeA")))
  then Some (toy_signed "nodeB" "nodeA") else None.

Lemma key_exchange_channel_witness :
  let a' := identityStore (exec (handleKeyExchange toy_Unmarshal
              (encode (ECDHMessage_json (toy_signed "nodeB" "nodeA")))) (toy_node "nodeA" "nodeB")) in
  let b' := identityStore (exec (handleKeyExchange toy_Unmarshal
              (encode (ECDHMessage_json (toy_signed "nodeA" "nodeB")))) (toy_node "nodeB" "nodeA")) in
  ∃ ct, EncryptMessage a' "hello" "nodeB" "123456789012" = Ok ct ∧
        DecryptMessage b' ct "nodeA" = Ok "hello".
Proof.
  cbv zeta.
  refine (proj1 (proj2 (proj2 (@key_exchange_channel toy_crypto toy_Unmarshal toy_crypto_spec
    (toy_node "nodeA" "nodeB") (toy_node "nodeB" "nodeA") (pad_to 32 "nodeA") (pad_to 32 "nodeB")
    "2025-01-01T00:00:00Z" "2025-01-01T00:00:00Z"
    (toy_signed "nodeA" "nodeB") (toy_signed "nodeB" "nodeA")
    (pad_to 32 "nodeA" +:+ pad_to 32 "nodeB")
    (pad_to 32 (pad_to 32 "nodeA" +:+ pad_to 32 "nodeB" +:+ "nodeAnodeB"))
    _ eq_refl eq_refl eq_refl eq_refl eq_refl eq_refl _ _ _ _ _ _)) "hello" "123456789012" _));
    first [vm_compute; reflexivity | discriminate].
Defined.

Lemma handleKeyExchange_authentic_witness :
  let s := toy_node "nodeA" "nodeB" in
  let data := encode (ECDHMessage_json (toy_signed "nodeB" "nodeA")) in
  ∃ m, toy_Unmarshal data = Some m ∧ em_From m = "nodeB".
Proof.
  cbv zeta.
  destruct (@handleKeyExchange_authentic toy_crypto toy_Unmarshal (toy_node "nodeA" "nodeB")
    (encode (ECDHMessage_json (toy_signed "nodeB" "nodeA"))) "nodeB") as (m & sg & pk & Hm & Hf & _).
  - vm_compute. discriminate.
  - exists m. by split.
Defined.
