(* ===== verification/Registry.v ===== *)
(** * pkg/mpc/registry.go: which peers are ready

    A node marks itself ready under [ready/<nodeID>] in Consul; every second
    [WatchPeersReady] lists those keys and updates the table of ready peers,
    their count and the [ready] flag, drops the symmetric keys of the peers that
    went away and starts an ECDH broadcast for those that came.  The state is
    the registry's fields and the ECDH session it owns; [trace] records the
    callbacks it makes and the goroutines it starts, in order. *)

From stdpp Require Import base gmap list strings.
From Stdlib Require Import ZArith Lia Ascii.
From S2P Require Import Prelude.
From S2P Require Import GoStrings.
From S2P Require Import External.
From S2P Require Import Json.
From S2P Require Import Types.
From S2P Require Import Identity.
From S2P Require Import Ecdh.

Section registry.
Context `{C : Crypto} `{L : Lo}.

Inductive reg_event :=
| PeerConnected (peerID : string)        (* onPeerConnected *)
| PeerReConnected (peerID : string)      (* onPeerReConnected *)
| PeerDisconnected (peerID : string)     (* onPeerDisconnected *)
| GoTriggerECDHExchange.                 (* go r.triggerECDHExchange() *)

Record registry := mkRegistry {
  nodeID : string;
  peerNodeIDs : list string;        (* without the node itself *)
  readyMap : gmap string bool;
  readyCount : Z;                   (* int64 *)
  ready : bool;
  threshold : Z;
  onPeerConnected : bool;           (* the callback is set *)
  onPeerDisconnected : bool;
  onPeerReConnected : bool;
  ecdh : EcdhState;
  trace : list reg_event;
}.

Definition set_readyMap f (r : registry) : registry :=
  mkRegistry (nodeID r) (peerNodeIDs r) (f (readyMap r)) (readyCount r) (ready r) (threshold r)
    (onPeerConnected r) (onPeerDisconnected r) (onPeerReConnected r) (ecdh r) (trace r).
Definition set_readyCount f (r : registry) : registry :=
  mkRegistry (nodeID r) (peerNodeIDs r) (readyMap r) (f (readyCount r)) (ready r) (threshold r)
    (onPeerConnected r) (onPeerDisconnected r) (onPeerReConnected r) (ecdh r) (trace r).
Definition set_ready b (r : registry) : registry :=
  mkRegistry (nodeID r) (peerNodeIDs r) (readyMap r) (readyCount r) b (threshold r)
    (onPeerConnected r) (onPeerDisconnected r) (onPeerReConnected r) (ecdh r) (trace r).
Definition set_callbacks c d e (r : registry) : registry :=
  mkRegistry (nodeID r) (peerNodeIDs r) (readyMap r) (readyCount r) (ready r) (threshold r)
    c d e (ecdh r) (trace r).
Definition set_ecdh f (r : registry) : registry :=
  mkRegistry (nodeID r) (peerNodeIDs r) (readyMap r) (readyCount r) (ready r) (threshold r)
    (onPeerConnected r) (onPeerDisconnected r) (onPeerReConnected r) (f (ecdh r)) (trace r).
Definition emit ev (r : registry) : registry :=
  mkRegistry (nodeID r) (peerNodeIDs r) (readyMap r) (readyCount r) (ready r) (threshold r)
    (onPeerConnected r) (onPeerDisconnected r) (onPeerReConnected r) (ecdh r) (trace r ++ [ev]).

(** [atomic.AddInt64] wraps. *)
Definition AddInt64 (d : Z) : M registry unit := modify (set_readyCount (λ c, wrap64 (c + d))).

(** [logger.Fatal] ends the process. *)
Definition NewRegistry (self : string) (peers : list string) (store : fileStore)
    (config_threshold : Z) : Res registry :=
  if config_threshold <? 1 then Panic "threshold must be greater than 0"
  else Ok (mkRegistry self (lo_Filter (λ item, negb (String.eqb item self)) peers) ∅ 1 false
             config_threshold false false false
             (mkEcdhState (NewECDHSession self peers) store [] []) []).

Definition OnPeerConnected : M registry unit :=
  modify (λ r, set_callbacks true (onPeerDisconnected r) (onPeerReConnected r) r).
Definition OnPeerDisconnected : M registry unit :=
  modify (λ r, set_callbacks (onPeerConnected r) true (onPeerReConnected r) r).
Definition OnPeerReConnected : M registry unit :=
  modify (λ r, set_callbacks (onPeerConnected r) (onPeerDisconnected r) true r).

Definition readyKey (nodeID : string) : string := "ready/" +:+ nodeID.

(** ** Reading the keys of Consul *)

(** The blanks [fmt.Sscanf] skips before [%s]; a newline is an error. *)
Fixpoint skip_blanks (fuel : nat) (s : string) : option string :=
  match fuel with
  | O => Some s
  | S fuel =>
      if HasPrefix s (str1 (chr 10)) then None
      else match strip_first space_encodings s with
           | Some s' => skip_blanks fuel s'
           | None => Some s
           end
  end.

(** The bytes up to the next white space. *)
Fixpoint token (s : string) : string :=
  match s with
  | EmptyString => EmptyString
  | String c s' =>
      match strip_first space_encodings s with
      | Some _ => EmptyString
      | None => String c (token s')
      end
  end.

(** The variable after [fmt.Sscanf(key, "ready/%s", &v)]: it stays empty on an error. *)
Definition Sscanf_ready (key : string) : string :=
  match TrimPrefix_opt key "ready/" with
  | None => EmptyString
  | Some s => match skip_blanks (String.length s) s with
              | None => EmptyString
              | Some t => token t
              end
  end.

Fixpoint getReadyPeersFromKVStore (r : registry) (kvPairs : list string) : list string :=
  match kvPairs with
  | [] => []
  | k :: kvPairs =>
      let peerNodeID := Sscanf_ready k in
      if String.eqb peerNodeID (nodeID r) then getReadyPeersFromKVStore r kvPairs
      else peerNodeID :: getReadyPeersFromKVStore r kvPairs
  end.

(** ** The watch loop *)

Definition registerPeer (peerID : string) : M registry unit :=
  r ← gets id;
  match readyMap r !! peerID with
  | None =>
      AddInt64 1;;
      when (onPeerConnected r) (modify (emit (PeerConnected peerID)));;
      modify (emit GoTriggerECDHExchange)
  | Some false =>
      AddInt64 1;;
      when (onPeerReConnected r) (modify (emit (PeerReConnected peerID)));;
      modify (emit GoTriggerECDHExchange)
  | Some true => skip
  end;;
  modify (set_readyMap (insert peerID true)).

Definition registerReadyPairs (peerIDs : list string) : M registry unit :=
  forM peerIDs registerPeer;;
  r ← gets id;
  when (bool_decide (length peerIDs = length (peerNodeIDs r)) && negb (ready r))
    (modify (set_ready true)).

Definition disconnectPeer (peerID : string) : M registry unit :=
  modify (set_readyMap (insert peerID false));;
  AddInt64 (-1);;
  modify (set_ecdh (exec (RemovePeer peerID)));;
  r ← gets id;
  when (onPeerDisconnected r) (modify (emit (PeerDisconnected peerID))).

Definition readyPeers `{MapRange} (r : registry) : list string :=
  (List.filter (λ p, p.2) (range_of (readyMap r))).*1.

(** One round of [WatchPeersReady]: [pairs] are the keys [List] returned.  Its
    error is logged and nothing more, so it is not an input: on an error Consul
    returns no pairs. *)
Definition watchTick `{MapRange} (pairs : list string) : M registry unit :=
  r ← gets id;
  let newReadyPeerIDs := getReadyPeersFromKVStore r pairs in
  when (negb (bool_decide (length newReadyPeerIDs = length (peerNodeIDs r))))
    (modify (set_ready false);;
     forM (lo_Difference (readyPeers r) newReadyPeerIDs).1 disconnectPeer);;
  registerReadyPairs newReadyPeerIDs.

Definition WatchPeersReady `{MapRange} (ticks : list (list string)) : M registry unit :=
  forM ticks watchTick.

(** *** The loop as the other goroutines see it

    The watch goroutine takes no lock for the table and the counter, so others may read
    them between any two of its writes.  Its round is cut into commands that touch the
    shared state once: what it does next, with the values it has at hand. *)

Inductive watch_cmd :=
| CRound (new : list string)             (* compares the lengths; ready = false *)
| CDiff (new : list string)              (* reads the table *)
| CLeave (p : string)
| CMark (p : string) (isReady : bool)    (* readyMap[p] = isReady *)
| CAdd (d : Z)                           (* atomic.AddInt64(&readyCount, d) *)
| CRemove (p : string)                   (* ecdhSession.RemovePeer *)
| CCall (isSet : registry → bool) (ev : reg_event)   (* a callback, if it is set *)
| CRegister (new : list string)          (* registerReadyPairs *)
| CCome (p : string)                     (* looks the peer up *)
| CTrigger                               (* go triggerECDHExchange() *)
| CEnd (new : list string).              (* ready = true *)

(** The state after a command, and what follows it before the rest of the round. *)
Definition do_cmd `{MapRange} (c : watch_cmd) (r : registry) : registry * list watch_cmd :=
  match c with
  | CRound new =>
      if bool_decide (length new = length (peerNodeIDs r)) then (r, [CRegister new])
      else (set_ready false r, [CDiff new])
  | CDiff new => (r, (CLeave <$> (lo_Difference (readyPeers r) new).1) ++ [CRegister new])
  | CLeave p =>
      (r, [CMark p false; CAdd (-1); CRemove p; CCall onPeerDisconnected (PeerDisconnected p)])
  | CMark p b => (set_readyMap (insert p b) r, [])
  | CAdd d => (exec (AddInt64 d) r, [])
  | CRemove p => (set_ecdh (exec (RemovePeer p)) r, [])
  | CCall isSet ev => (if isSet r then emit ev r else r, [])
  | CRegister new => (r, (CCome <$> new) ++ [CEnd new])
  | CCome p =>
      (r, match readyMap r !! p with
          | None => [CAdd 1; CCall onPeerConnected (PeerConnected p); CTrigger; CMark p true]
          | Some false =>
              [CAdd 1; CCall onPeerReConnected (PeerReConnected p); CTrigger; CMark p true]
          | Some true => [CMark p true]
          end)
  | CTrigger => (emit GoTriggerECDHExchange r, [])
  | CEnd new =>
      (if bool_decide (length new = length (peerNodeIDs r)) && negb (ready r)
       then set_ready true r else r, [])
  end.

(** The registry and what is left of the round; the goroutine goes on by one command. *)
Definition watched : Type := registry * list watch_cmd.

Definition run_cmd `{MapRange} (c : watch_cmd) (r : registry) (cs : list watch_cmd) : watched :=
  let '(r, now) := do_cmd c r in (r, now ++ cs).

(** ** Queries *)

Definition GetReadyPeersIncludeSelf `{MapRange} (r : registry) : list string :=
  readyPeers r ++ [nodeID r].

Definition GetReadyPeersCountExcludeSelf (r : registry) : Z := wrap64 (readyCount r - 1).

Definition GetTotalPeersCount (r : registry) : Z := Z.of_nat (length (peerNodeIDs r)) + 1.

Definition isECDHReady (r : registry) : bool :=
  CheckSymmetricKeyComplete (identityStore (ecdh r)) (GetReadyPeersCountExcludeSelf r).

Definition ArePeersReady (r : registry) : bool := ready r && isECDHReady r.

Definition AreMajorityReady (r : registry) : bool :=
  (wrap64 (threshold r + 1) <=? readyCount r) && isECDHReady r.

(** ** Health checks *)

Definition composeHealthCheckTopic (nodeID : string) : string := "healthcheck:" +:+ nodeID.

Definition fmt_t (b : bool) : string := if b then "true" else "false".

Definition composeHealthData (r : registry) : string :=
  nodeID r +:+ "," +:+ fmt_t (isECDHReady r).

(** [strconv.ParseBool] *)
Definition ParseBool (s : string) : option bool :=
  if bool_decide (s ∈ ["1"; "t"; "T"; "true"; "TRUE"; "True"]) then Some true
  else if bool_decide (s ∈ ["0"; "f"; "F"; "false"; "FALSE"; "False"]) then Some false
  else None.

Definition parseHealthDataSplit (s : string) : string * bool * option error :=
  match SplitN comma s 2 with
  | [peerID; flag] =>
      match ParseBool flag with
      | Some ready => (peerID, ready, None)
      | None => (EmptyString, false, Some (errors_New ("strconv.ParseBool: parsing " +:+
                   json_string flag +:+ ": invalid syntax")))
      end
  | _ => (EmptyString, false, Some (errors_New ("invalid format: " +:+ json_string s)))
  end.

(** The callback of the health check subscription. *)
Definition onHealthCheck (data : string) : M registry unit :=
  let '(peerID, isEcdhReady, _) := parseHealthDataSplit data in
  when (negb isEcdhReady) (modify (emit GoTriggerECDHExchange)).

(** One round of [checkPeersHealth]: the ready keys it deletes.  [send] is the
    outcome of [SendToOtherWithRetry] for a topic and a payload. *)
Definition checkPeersHealth_round (r : registry) (pairs : Res (list string))
    (send : string → string → Res unit) : list string :=
  match pairs with
  | Ok pairs =>
      readyKey <$> List.filter
        (λ peerID, match send (composeHealthCheckTopic peerID) (composeHealthData r) with
                   | Err e => Contains (Error e) "no responders"
                   | _ => false
                   end) (getReadyPeersFromKVStore r pairs)
  | _ => []
  end.

(** ** Starting and stopping *)

Definition in_ecdh {A} (m : M EcdhState A) : M registry A := λ r,
  let '(a, e) := m (ecdh r) in (a, set_ecdh (λ _, e) r).

Definition startECDHExchange (generated subscribed sent : Res string) (now : string) :
    M registry (Res unit) := λ r,
  match in_ecdh (ListenKeyExchange generated subscribed) r with
  | (Ok _, r) =>
      match in_ecdh (BroadcastPublicKey now (sent ≫= λ _, Ok tt)) r with
      | (Err e, r) => (Err (Errorf_w "failed to broadcast ECDH public key: " e), r)
      | res => res
      end
  | (Err e, r) => (Err (Errorf_w "failed to start ECDH listener: " e), r)
  | (Panic w, r) => (Panic w, r)
  end.

(** [put] is Consul's answer, [listen] that of the health check subscription. *)
Definition Ready (generated subscribed sent put listen : Res string) (now : string) :
    M registry (Res unit) := λ r,
  match startECDHExchange generated subscribed sent now r with
  | (Err e, r) => (Err (Errorf_w "failed to start ECDH exchange: " e), r)
  | (Panic w, r) => (Panic w, r)
  | (Ok _, r) =>
      (_ ← wrap_err "put ready key failed: " put;
       _ ← wrap_err "listen health check failed: " listen; Ok tt, r)
  end.

(** The goroutine: its error is logged, a panic ends the process. *)
Definition triggerECDHExchange (now : string) (sent : Res unit) : M registry (Res unit) := λ r,
  match in_ecdh (BroadcastPublicKey now sent) r with
  | (Panic w, r) => (Panic w, r)
  | (_, r) => (Ok tt, r)
  end.

Definition Resign (deleted : Res unit) : Res unit :=
  wrap_err "delete ready key failed: " deleted.

End registry.

(** ** The interface the node uses *)

(** mpc.PeerRegistry, as far as the session constructors call it. *)
Class PeerRegistry (R : Type) := {
  pr_self : R → string;
  pr_ArePeersReady : R → bool;
  pr_GetReadyPeersCount : R → Z;
  pr_GetReadyPeersIncludeSelf : R → list string;
}.

(** What it promises, on its well-formed states. *)
Class PeerRegistrySpec (R : Type) `{PeerRegistry R} (ok : R → Prop) := {
  pr_count r : ok r →
    pr_GetReadyPeersCount r = wrap64 (Z.of_nat (length (pr_GetReadyPeersIncludeSelf r)));
  pr_NoDup r : ok r → NoDup (pr_GetReadyPeersIncludeSelf r);
  pr_self_ready r : ok r → pr_self r ∈ pr_GetReadyPeersIncludeSelf r;
}.

#[export] Instance registry_PeerRegistry `{C : Crypto} `{MapRange} : PeerRegistry registry := {|
  pr_self := nodeID;
  pr_ArePeersReady := ArePeersReady;
  pr_GetReadyPeersCount := readyCount;
  pr_GetReadyPeersIncludeSelf := GetReadyPeersIncludeSelf;
|}.

(** ** Properties *)

Section properties.
Context `{C : Crypto} `{L : Lo} `{!LoSpec L} `{MapRange}.

(** *** The table, its count and the list of ready peers *)

Definition nready (m : gmap string bool) : nat := size (filter (λ kv, kv.2 = true) m).

Lemma nready_insert_true m p :
  nready (<[p := true]> m) =
  if decide (m !! p = Some true) then nready m else S (nready m).
Proof.
  unfold nready. case_decide as Hp.
  - by rewrite insert_id.
  - rewrite map_filter_insert_True by done. rewrite map_size_insert_None; [done|].
    apply map_lookup_filter_None. right. intros x Hx Hb. cbn in Hb. by subst x.
Qed.

Lemma nready_insert_false m p :
  m !! p = Some true → nready m = S (nready (<[p := false]> m)).
Proof.
  intros Hp. unfold nready. rewrite map_filter_insert_False by done.
  rewrite map_filter_delete. rewrite map_size_delete_Some.
  2: { exists true. by apply map_lookup_filter_Some. }
  destruct (size _) eqn:Hs; [|done]. apply map_size_empty_inv in Hs.
  assert (filter (λ kv : string * bool, kv.2 = true) m !! p = Some true) as Hf
    by (by apply map_lookup_filter_Some).
  by rewrite Hs in Hf.
Qed.

Lemma elem_of_readyPeers (r : registry) p :
  p ∈ readyPeers r ↔ readyMap r !! p = Some true.
Proof.
  unfold readyPeers. rewrite list_elem_of_fmap. split.
  - intros ([k b] & -> & Hin). apply elem_of_filter_b in Hin as [Hin Hb]. cbn in Hb.
    apply elem_of_range_of in Hin. by subst b.
  - intros Hp. exists (p, true). split; [done|]. apply elem_of_filter_b.
    by rewrite elem_of_range_of.
Qed.

Lemma NoDup_fst_filter {A} (f : string * A → bool) (l : list (string * A)) :
  NoDup l.*1 → NoDup (List.filter f l).*1.
Proof.
  induction l as [|[k v] l IH]; cbn; [done|]. intros [Hk Hl]%NoDup_cons.
  destruct (f (k, v)); cbn; [|by apply IH]. apply NoDup_cons. split; [|by apply IH].
  intros Hin. apply Hk. apply list_elem_of_fmap in Hin as ([k' v'] & -> & Hin).
  apply elem_of_filter_b in Hin as [Hin _]. apply list_elem_of_fmap. by exists (k', v').
Qed.

Lemma NoDup_readyPeers (r : registry) : NoDup (readyPeers r).
Proof. apply NoDup_fst_filter, NoDup_fst_range_of. Qed.

Lemma length_readyPeers (r : registry) : length (readyPeers r) = nready (readyMap r).
Proof.

  unfold nready. rewrite <-length_map_to_list, <-(length_fmap fst (map_to_list _)).
  apply Permutation_length, NoDup_Permutation.
  - apply NoDup_readyPeers.
  - apply NoDup_fst_map_to_list.
  - intros p. rewrite elem_of_readyPeers, list_elem_of_fmap. split.
    + intros Hp. exists (p, true). by rewrite elem_of_map_to_list, map_lookup_filter_Some.
    + intros ([k b] & -> & Hin). rewrite elem_of_map_to_list, map_lookup_filter_Some in Hin.
      destruct Hin as [Hin Hb]. cbn in *. by subst b.
Qed.

(** *** One peer comes, one peer goes *)

Lemma exec_skip {S} (s : S) : exec skip s = s.
Proof. done. Qed.

Definition joins (r : registry) (p : string) : bool :=
  negb (bool_decide (readyMap r !! p = Some true)).

Lemma registerPeer_spec p (r : registry) :
  let r' := exec (registerPeer p) r in
  nodeID r' = nodeID r ∧ peerNodeIDs r' = peerNodeIDs r ∧ threshold r' = threshold r ∧
  ready r' = ready r ∧ ecdh r' = ecdh r ∧
  readyMap r' = <[p := true]> (readyMap r) ∧
  readyCount r' = (if joins r p then wrap64 (readyCount r + 1) else readyCount r) ∧
  (GoTriggerECDHExchange ∈ trace r' ↔
     GoTriggerECDHExchange ∈ trace r ∨ joins r p = true).
Proof.
  cbv zeta. unfold registerPeer, joins. rewrite !exec_bind. cbn.
  destruct (readyMap r !! p) as [[]|] eqn:Hp; cbn.
  - rewrite bool_decide_eq_true_2 by done. cbn. split_and!; [done..|]. set_solver.
  - rewrite bool_decide_eq_false_2 by done. unfold when. rewrite !exec_bind.
    destruct (onPeerReConnected r); cbn; (split_and!; [done..|]); set_solver.
  - rewrite bool_decide_eq_false_2 by done. unfold when. rewrite !exec_bind.
    destruct (onPeerConnected r); cbn; (split_and!; [done..|]); set_solver.
Qed.

Lemma disconnectPeer_spec p (r : registry) :
  let r' := exec (disconnectPeer p) r in
  nodeID r' = nodeID r ∧ peerNodeIDs r' = peerNodeIDs r ∧ threshold r' = threshold r ∧
  ready r' = ready r ∧ ecdh r' = exec (RemovePeer p) (ecdh r) ∧
  readyMap r' = <[p := false]> (readyMap r) ∧
  readyCount r' = wrap64 (readyCount r - 1) ∧
  (GoTriggerECDHExchange ∈ trace r' ↔ GoTriggerECDHExchange ∈ trace r).
Proof.
  cbv zeta. unfold disconnectPeer. rewrite !exec_bind. cbn.
  unfold when. destruct (onPeerDisconnected r); cbn; (split_and!; [done..|]); set_solver.
Qed.

(** The registry's invariant: the atomic counter is the number of ready peers
    plus one (at its width), and the node never lists itself. *)
Definition wf (r : registry) : Prop :=
  readyCount r = wrap64 (1 + Z.of_nat (nready (readyMap r))) ∧
  readyMap r !! nodeID r = None.

(** The list of ready peers of a well-formed registry: the interface's laws. *)
Lemma wf_ready_list (r : registry) : wf r →
  readyCount r = wrap64 (Z.of_nat (length (GetReadyPeersIncludeSelf r))) ∧
  NoDup (GetReadyPeersIncludeSelf r) ∧ nodeID r ∈ GetReadyPeersIncludeSelf r.
Proof.
  intros [Hc Hs]. unfold GetReadyPeersIncludeSelf. split_and!.
  - rewrite Hc, length_app, length_readyPeers. cbn. f_equal. lia.
  - apply NoDup_app. split_and!; [apply NoDup_readyPeers| |apply NoDup_singleton].
    intros p Hp ->%list_elem_of_singleton. apply elem_of_readyPeers in Hp. congruence.
  - set_solver.
Qed.

Lemma registerPeer_wf p r : p ≠ nodeID r → wf r → wf (exec (registerPeer p) r).
Proof.
  intros Hne [Hc Hs]. destruct (registerPeer_spec p r) as (Hid & _ & _ & _ & _ & Hm & Hct & _).
  unfold wf. rewrite Hid, Hm, Hct, nready_insert_true, lookup_insert_ne by done.
  split; [|done]. unfold joins. case_decide.
  - by rewrite bool_decide_eq_true_2.
  - rewrite bool_decide_eq_false_2 by done. cbn [negb]. rewrite Hc, wrap64_add_l. f_equal. lia.
Qed.

Lemma disconnectPeer_wf p r :
  readyMap r !! p = Some true → wf r → wf (exec (disconnectPeer p) r).
Proof.
  intros Hp [Hc Hs].
  destruct (disconnectPeer_spec p r) as (Hid & _ & _ & _ & _ & Hm & Hct & _).
  unfold wf. rewrite Hid, Hm, Hct. split.
  - rewrite Hc, wrap64_sub_l, (nready_insert_false _ _ Hp). f_equal. lia.
  - rewrite lookup_insert_ne; [done|]. intros ->. congruence.
Qed.

(** *** The loops *)

Lemma registerLoop_spec l (r : registry) :
  let r' := exec (forM l registerPeer) r in
  nodeID r' = nodeID r ∧ peerNodeIDs r' = peerNodeIDs r ∧ threshold r' = threshold r ∧
  ready r' = ready r ∧ ecdh r' = ecdh r ∧
  (∀ p, readyMap r' !! p = if decide (p ∈ l) then Some true else readyMap r !! p) ∧
  (GoTriggerECDHExchange ∈ trace r' ↔
     GoTriggerECDHExchange ∈ trace r ∨ ∃ p, p ∈ l ∧ joins r p = true).
Proof.
  revert r. induction l as [|q l IH]; intros r; cbv zeta.
  { cbn. split_and!; try done. set_solver. }
  rewrite exec_forM_cons. specialize (IH (exec (registerPeer q) r)).
  destruct (registerPeer_spec q r) as (E1 & E2 & E3 & E4 & E5 & Hm & _ & Ht).
  cbv zeta in IH. destruct IH as (F1 & F2 & F3 & F4 & F5 & Hm' & Ht').
  split_and!; [congruence..| |].
  - intros p. by rewrite Hm', Hm, lookup_insert, decide_elem_cons.
  - rewrite Ht', Ht. assert (∀ p, joins (exec (registerPeer q) r) p = true ↔
      joins r p = true ∧ p ≠ q) as Hj.
    { intros p. unfold joins. rewrite Hm, !negb_true_iff, !bool_decide_eq_false.
      destruct (decide (p = q)) as [->|Hpq].
      - rewrite lookup_insert_eq. split; [by intros []|by intros [_ []]].
      - rewrite lookup_insert_ne by done. tauto. }
    setoid_rewrite Hj. setoid_rewrite elem_of_cons. split.
    + intros [[?|?]|(p & ? & ? & ?)]; eauto.
    + intros [?|(p & [->|?] & ?)]; eauto.
      destruct (decide (p = q)) as [->|]; eauto 6.
Qed.

Lemma disconnectLoop_spec l (r : registry) :
  let r' := exec (forM l disconnectPeer) r in
  nodeID r' = nodeID r ∧ peerNodeIDs r' = peerNodeIDs r ∧ threshold r' = threshold r ∧
  ready r' = ready r ∧ session (ecdh r') = session (ecdh r) ∧
  (∀ p, readyMap r' !! p = if decide (p ∈ l) then Some false else readyMap r !! p) ∧
  (∀ p, symmetricKeys (identityStore (ecdh r')) !! p =
     if decide (p ∈ l) then None else symmetricKeys (identityStore (ecdh r)) !! p) ∧
  (GoTriggerECDHExchange ∈ trace r' ↔ GoTriggerECDHExchange ∈ trace r).
Proof.
  revert r. induction l as [|q l IH]; intros r; cbv zeta.
  { cbn. split_and!; done. }
  rewrite exec_forM_cons. specialize (IH (exec (disconnectPeer q) r)).
  destruct (disconnectPeer_spec q r) as (E1 & E2 & E3 & E4 & E5 & Hm & _ & Ht).
  cbv zeta in IH. destruct IH as (F1 & F2 & F3 & F4 & F5 & Hm' & Hk & Ht').
  split_and!; [congruence..| | | |].
  - by rewrite F5, E5.
  - intros p. by rewrite Hm', Hm, lookup_insert, decide_elem_cons.
  - intros p. rewrite Hk, E5. cbn. by rewrite lookup_delete, decide_elem_cons.
  - by rewrite Ht', Ht.
Qed.

Lemma disconnectLoop_wf l r :
  NoDup l → (∀ p, p ∈ l → readyMap r !! p = Some true) → wf r →
  wf (exec (forM l disconnectPeer) r).
Proof.
  revert r. induction l as [|q l IH]; intros r Hnd Hl Hwf; [done|].
  rewrite exec_forM_cons. apply NoDup_cons in Hnd as [Hq Hnd]. apply IH; [done| |].
  - intros p Hp. destruct (disconnectPeer_spec q r) as (_ & _ & _ & _ & _ & Hm & _).
    rewrite Hm, lookup_insert_ne by (intros ->; done). apply Hl. set_solver.
  - apply disconnectPeer_wf; [|done]. apply Hl. set_solver.
Qed.

Lemma registerLoop_wf l r :
  nodeID r ∉ l → wf r → wf (exec (forM l registerPeer) r).
Proof.
  intros Hl Hwf.
  enough (wf (exec (forM l registerPeer) r) ∧
          nodeID (exec (forM l registerPeer) r) = nodeID r) by tauto.
  apply (exec_forM_ind (λ s, wf s ∧ nodeID s = nodeID r)); [|done].
  intros p s Hp [Hs Hid]. destruct (registerPeer_spec p s) as (E & _). split; [|congruence].
  apply registerPeer_wf; [|done]. rewrite Hid. intros ->. done.
Qed.

(** *** One round of the watch loop *)

Lemma getReadyPeersFromKVStore_self r pairs :
  nodeID r ∉ getReadyPeersFromKVStore r pairs.
Proof.
  induction pairs as [|k pairs IH]; cbn; [set_solver|].
  destruct (String.eqb_spec (Sscanf_ready k) (nodeID r)); [done|].
  apply not_elem_of_cons. split; [congruence|done].
Qed.

Lemma elem_of_disconnecteds r l p :
  p ∈ (lo_Difference (readyPeers r) l).1 ↔ readyMap r !! p = Some true ∧ p ∉ l.
Proof.
  rewrite lo_Difference_fst, elem_of_filter_b, elem_of_readyPeers, negb_true_iff.
  by rewrite bool_decide_eq_false.
Qed.

(** The round in two halves: who went, who came. *)
Definition watch_go (r : registry) (new : list string) : registry :=
  if bool_decide (length new = length (peerNodeIDs r)) then r
  else exec (forM (lo_Difference (readyPeers r) new).1 disconnectPeer) (set_ready false r).

Lemma watchTick_exec r pairs :
  let new := getReadyPeersFromKVStore r pairs in
  let r1 := watch_go r new in
  exec (watchTick pairs) r =
  let r2 := exec (forM new registerPeer) r1 in
  if bool_decide (length new = length (peerNodeIDs r2)) && negb (ready r2)
  then set_ready true r2 else r2.
Proof.
  cbv zeta. unfold watchTick, watch_go, registerReadyPairs. rewrite exec_bind.
  change (eval (gets Datatypes.id) r) with r. change (exec (gets Datatypes.id) r) with r.
  rewrite exec_bind, exec_when. case_bool_decide; cbn [negb].
  - rewrite !exec_bind. change (exec (gets _) ?x) with x. change (eval (gets _) ?x) with x.
    by rewrite exec_when.
  - rewrite !exec_bind. change (exec (gets _) ?x) with x. change (eval (gets _) ?x) with x.
    by rewrite exec_when.
Qed.

Lemma watch_go_spec r new :
  let r1 := watch_go r new in
  nodeID r1 = nodeID r ∧ peerNodeIDs r1 = peerNodeIDs r ∧ threshold r1 = threshold r ∧
  session (ecdh r1) = session (ecdh r) ∧
  (GoTriggerECDHExchange ∈ trace r1 ↔ GoTriggerECDHExchange ∈ trace r) ∧
  (wf r → wf r1) ∧
  (length new = length (peerNodeIDs r) → r1 = r) ∧
  (length new ≠ length (peerNodeIDs r) →
     ready r1 = false ∧
     (∀ p, readyMap r1 !! p = Some true ↔ readyMap r !! p = Some true ∧ p ∈ new) ∧
     (∀ p, symmetricKeys (identityStore (ecdh r1)) !! p =
        if bool_decide (readyMap r !! p = Some true ∧ p ∉ new) then None
        else symmetricKeys (identityStore (ecdh r)) !! p)).
Proof.
  cbv zeta. unfold watch_go. case_bool_decide as Hl; [by split_and!|].
  set (d := (lo_Difference (readyPeers r) new).1).
  destruct (disconnectLoop_spec d (set_ready false r))
    as (E1 & E2 & E3 & E4 & E5 & Hm & Hk & Ht).
  split_and!; [by rewrite E1|by rewrite E2|by rewrite E3|exact E5|exact Ht| |done|].
  { intros Hwf. apply disconnectLoop_wf; [| |done].
    - subst d. rewrite lo_Difference_fst. apply NoDup_filter_b, NoDup_readyPeers.
    - intros p Hp. by apply elem_of_disconnecteds in Hp as [? _]. }
  intros _. split_and!.
  - by rewrite E4.
  - intros p. rewrite Hm. change (readyMap (set_ready false r)) with (readyMap r).
    case_decide as Hd; unfold d in Hd; rewrite elem_of_disconnecteds in Hd.
    + split; [done|tauto].
    + destruct (decide (p ∈ new)); tauto.
  - intros p. rewrite Hk. case_decide as Hd; unfold d in Hd; rewrite elem_of_disconnecteds in Hd.
    + by rewrite bool_decide_eq_true_2.
    + by rewrite bool_decide_eq_false_2.
Qed.

Lemma watchTick_frame pairs (r : registry) :
  let r' := exec (watchTick pairs) r in
  nodeID r' = nodeID r ∧ peerNodeIDs r' = peerNodeIDs r ∧ threshold r' = threshold r ∧
  session (ecdh r') = session (ecdh r) ∧ (wf r → wf r').
Proof.
  cbv zeta. rewrite watchTick_exec. cbv zeta.
  set (new := getReadyPeersFromKVStore r pairs).
  destruct (watch_go_spec r new) as (E1 & E2 & E3 & E4 & _ & Hwf & _).
  destruct (registerLoop_spec new (watch_go r new)) as (F1 & F2 & F3 & _ & F5 & _ & _).
  assert (wf r → wf (exec (forM new registerPeer) (watch_go r new))) as Hwf'.
  { intros H0. apply registerLoop_wf; [|by apply Hwf]. rewrite E1.
    apply getReadyPeersFromKVStore_self. }
  destruct (_ && _); cbn; (split_and!; [congruence..| |exact Hwf']); by rewrite F5, E4.
Qed.

(** C34: a round that lists another number of ready keys than the node has peers
    makes the table exact: the ready peers are the listed ones, the node is not
    ready, and precisely the peers that were ready and are no longer listed lose
    their symmetric key. *)
Theorem watchTick_exact (r : registry) pairs
    (Hlen : length (getReadyPeersFromKVStore r pairs) ≠ length (peerNodeIDs r)) :
  let new := getReadyPeersFromKVStore r pairs in
  let r' := exec (watchTick pairs) r in
  (∀ p, readyMap r' !! p = Some true ↔ p ∈ new) ∧
  ready r' = false ∧
  (∀ p, symmetricKeys (identityStore (ecdh r')) !! p =
     if bool_decide (readyMap r !! p = Some true ∧ p ∉ new) then None
     else symmetricKeys (identityStore (ecdh r)) !! p).
Proof.
  intros new r'. subst r'. rewrite watchTick_exec. cbv zeta. fold new.
  destruct (watch_go_spec r new) as (E1 & E2 & _ & _ & _ & _ & _ & Hgo).
  destruct (Hgo Hlen) as (Er & Hm & Hk).
  destruct (registerLoop_spec new (watch_go r new)) as (_ & F2 & _ & F4 & F5 & Fm & _).
  rewrite bool_decide_eq_false_2 by (rewrite F2, E2; done). cbn [andb].
  split_and!.
  - intros p. rewrite Fm. case_decide; [done|]. rewrite Hm. tauto.
  - by rewrite F4.
  - intros p. rewrite F5. apply Hk.
Qed.

(** A round that lists as many ready keys as the node has peers, whoever
    they are, disconnects nobody: every peer that was ready stays ready with its
    symmetric key, listed or not, the listed ones are added, and the node
    reports all its peers ready. *)
Theorem watchTick_same_length (r : registry) pairs
    (Hlen : length (getReadyPeersFromKVStore r pairs) = length (peerNodeIDs r)) :
  let new := getReadyPeersFromKVStore r pairs in
  let r' := exec (watchTick pairs) r in
  (∀ p, readyMap r' !! p = Some true ↔ readyMap r !! p = Some true ∨ p ∈ new) ∧
  ready r' = true ∧
  symmetricKeys (identityStore (ecdh r')) = symmetricKeys (identityStore (ecdh r)).
Proof.
  intros new r'. subst r'. rewrite watchTick_exec. cbv zeta. fold new.
  destruct (watch_go_spec r new) as (_ & _ & _ & _ & _ & _ & Hgo & _).
  rewrite (Hgo Hlen).
  destruct (registerLoop_spec new r) as (_ & F2 & _ & F4 & F5 & Fm & _).
  rewrite bool_decide_eq_true_2 by (rewrite F2; done). cbn [andb].
  assert (∀ p, readyMap (exec (forM new registerPeer) r) !! p = Some true ↔
               readyMap r !! p = Some true ∨ p ∈ new) as Hm.
  { intros p. rewrite Fm. case_decide; tauto. }
  destruct (ready _) eqn:Hr; cbn; (split_and!; [exact Hm|done|by rewrite F5]).
Qed.

(** The watch loop starts with the node and [Ready] creates the ECDH key
    later: a round that finds a peer before [Ready] has run starts the broadcast
    goroutine, and that goroutine panics on the nil public key, which ends the
    process. *)
Theorem watchTick_before_Ready_panics (r : registry) pairs p now sent
    (Hkey : es_privateKey (session (ecdh r)) = None)
    (Hlisted : p ∈ getReadyPeersFromKVStore r pairs)
    (Hnew : readyMap r !! p ≠ Some true) :
  let r' := exec (watchTick pairs) r in
  GoTriggerECDHExchange ∈ trace r' ∧
  eval (triggerECDHExchange now sent) r' = Panic "nil pointer dereference".
Proof.
  intros r'. split.
  - unfold r'. rewrite watchTick_exec. cbv zeta.
    set (new := getReadyPeersFromKVStore r pairs).
    destruct (watch_go_spec r new) as (_ & _ & _ & _ & _ & _ & Heq & Hgo).
    destruct (registerLoop_spec new (watch_go r new)) as (_ & _ & _ & _ & _ & _ & Htr).
    assert (GoTriggerECDHExchange ∈ trace (exec (forM new registerPeer) (watch_go r new))).
    { apply Htr. right. exists p. split; [done|]. unfold joins. apply negb_true_iff.
      apply bool_decide_eq_false. destruct (decide (length new = length (peerNodeIDs r))) as [E|E].
      - by rewrite Heq.
      - destruct (Hgo E) as (_ & Hm & _). rewrite Hm. tauto. }
    by destruct (_ && _).
  - destruct (watchTick_frame pairs r) as (_ & _ & _ & Hs & _).
    unfold eval, triggerECDHExchange, in_ecdh, BroadcastPublicKey.
    rewrite <-Hs in Hkey. fold r' in Hkey. by rewrite Hkey.
Qed.

(** What a node says about itself in a health check is what the other end
    reads, as long as node ids hold no comma. *)
Theorem healthData_roundtrip (r : registry)
    (Hid : no_char comma (nodeID r) = true) :
  parseHealthDataSplit (composeHealthData r) = (nodeID r, isECDHReady r, None).
Proof.
  unfold parseHealthDataSplit, composeHealthData.
  change ("," +:+ fmt_t (isECDHReady r)) with (String comma (fmt_t (isECDHReady r))).
  rewrite SplitN_app by done. cbn [SplitN]. by destruct (isECDHReady r).
Qed.

(** *** A round is its commands *)

Inductive cmd_step : watched → watched → Prop :=
| cmd_step_intro r c cs : cmd_step (r, c :: cs) (run_cmd c r cs).

Lemma cmd_step_to r c cs w : run_cmd c r cs = w → cmd_step (r, c :: cs) w.
Proof. intros <-. constructor. Qed.

(** The goroutine goes on by the first command of the rest. *)
Ltac one_cmd := eapply rtc_l; [apply cmd_step_to; unfold run_cmd, do_cmd; reflexivity|]; cbn [app].

Lemma leave_cmds p r cs : rtc cmd_step (r, CLeave p :: cs) (exec (disconnectPeer p) r, cs).
Proof.
  do 4 one_cmd. apply rtc_once, cmd_step_to. unfold disconnectPeer.
  rewrite !exec_bind, exec_when. reflexivity.
Qed.

Lemma come_cmds p r cs : rtc cmd_step (r, CCome p :: cs) (exec (registerPeer p) r, cs).
Proof.
  unfold registerPeer. rewrite !exec_bind.
  change (eval (gets Datatypes.id) r) with r. change (exec (gets Datatypes.id) r) with r.
  one_cmd. destruct (readyMap r !! p) as [[]|]; cbn [app].
  - apply rtc_once, cmd_step_to. reflexivity.
  - do 3 one_cmd. apply rtc_once, cmd_step_to. by rewrite !exec_bind, exec_when.
  - do 3 one_cmd. apply rtc_once, cmd_step_to. by rewrite !exec_bind, exec_when.
Qed.

Lemma loop_cmds {A} (c : A → watch_cmd) (f : A → M registry unit) l r cs :
  (∀ x r cs, rtc cmd_step (r, c x :: cs) (exec (f x) r, cs)) →
  rtc cmd_step (r, (c <$> l) ++ cs) (exec (forM l f) r, cs).
Proof.
  intros Hf. revert r. induction l as [|x l IH]; intros r; [apply rtc_refl|].
  rewrite fmap_cons, exec_forM_cons. etrans; [apply Hf|]. apply IH.
Qed.

Lemma round_cmds r pairs :
  rtc cmd_step (r, [CRound (getReadyPeersFromKVStore r pairs)]) (exec (watchTick pairs) r, []).
Proof.
  rewrite watchTick_exec. cbv zeta. set (new := getReadyPeersFromKVStore r pairs).
  assert (rtc cmd_step (r, [CRound new]) (watch_go r new, [CRegister new])) as Hgo.
  { one_cmd. unfold watch_go. case_bool_decide; cbn [app]; [apply rtc_refl|]. one_cmd.
    rewrite <-(assoc_L app). cbn [app].
    apply loop_cmds, leave_cmds. }
  etrans; [exact Hgo|]. one_cmd.
  rewrite <-(assoc_L app). cbn [app]. etrans; [apply loop_cmds, come_cmds|].
  apply rtc_once, cmd_step_to. reflexivity.
Qed.

(** *** Reachable states *)

Variable Unmarshal : string → option ECDHMessage.

(** A command of the watch goroutine, or, at any point of its round, what another
    goroutine does: the callbacks of the subscriptions, an ECDH broadcast, [Ready]. *)
Inductive reg_step : watched → watched → Prop :=
| step_cmd r c cs : reg_step (r, c :: cs) (run_cmd c r cs)
| step_round r pairs : reg_step (r, []) (r, [CRound (getReadyPeersFromKVStore r pairs)])
| step_health r cs data : reg_step (r, cs) (exec (onHealthCheck data) r, cs)
| step_hear r cs data : es_ecdhSub (session (ecdh r)) = true →
    reg_step (r, cs) (exec (in_ecdh (handleKeyExchange Unmarshal data)) r, cs)
| step_trigger r cs now sent : reg_step (r, cs) (exec (triggerECDHExchange now sent) r, cs)
| step_ready r cs generated subscribed sent put listen now :
    reg_step (r, cs) (exec (Ready generated subscribed sent put listen now) r, cs)
| step_callbacks r cs c d e : reg_step (r, cs) (set_callbacks c d e r, cs).

(** A whole round that nothing comes in between of. *)
Lemma step_tick r pairs : rtc reg_step (r, []) (exec (watchTick pairs) r, []).
Proof.
  eapply rtc_l; [apply step_round|].
  assert (∀ w w', rtc cmd_step w w' → rtc reg_step w w') as Hsub.
  { induction 1 as [|? ? ? [] _ IH]; [apply rtc_refl|]. eapply rtc_l; [apply step_cmd|exact IH]. }
  apply Hsub, round_cmds.
Qed.

(** Whether the counter is one ahead of the table: it is from the increment to the
    moment a new peer is marked, and from the moment a lost peer is unmarked to the
    decrement. *)
Definition in_flight (r : registry) (cs : list watch_cmd) : bool :=
  match cs with
  | CAdd d :: _ => d =? -1
  | CCall _ (PeerConnected _) :: _ | CCall _ (PeerReConnected _) :: _ | CTrigger :: _ => true
  | CMark p true :: _ => joins r p
  | _ => false
  end.

(** What is left of a round: part of what one peer needs, the other peers of the loop
    and what follows it.  The peers that leave are ready, those that come are not the node. *)
Inductive rest_ok (r : registry) : list watch_cmd → Prop :=
| ro_idle : rest_ok r []
| ro_round new : nodeID r ∉ new → rest_ok r [CRound new]
| ro_diff new : nodeID r ∉ new → rest_ok r [CDiff new]
| ro_leave gone new k p : (k ≤ 3)%nat → nodeID r ∉ new → NoDup gone → p ∉ gone →
    (∀ q, q ∈ gone → readyMap r !! q = Some true) →
    readyMap r !! p = Some (bool_decide (k = O)) →
    rest_ok r (drop k [CMark p false; CAdd (-1); CRemove p;
                       CCall onPeerDisconnected (PeerDisconnected p)] ++
               (CLeave <$> gone) ++ [CRegister new])
| ro_leaving gone new : nodeID r ∉ new → NoDup gone →
    (∀ q, q ∈ gone → readyMap r !! q = Some true) →
    rest_ok r ((CLeave <$> gone) ++ [CRegister new])
| ro_come come new k p isSet ev : nodeID r ∉ p :: come → joins r p = true →
    ev = PeerConnected p ∨ ev = PeerReConnected p → (k ≤ 3)%nat →
    rest_ok r (drop k [CAdd 1; CCall isSet ev; CTrigger; CMark p true] ++
               (CCome <$> come) ++ [CEnd new])
| ro_again come new p : nodeID r ∉ p :: come → joins r p = false →
    rest_ok r (CMark p true :: (CCome <$> come) ++ [CEnd new])
| ro_coming come new : nodeID r ∉ come → rest_ok r ((CCome <$> come) ++ [CEnd new]).

(** The invariant at every point. *)
Definition wf_at (w : watched) : Prop :=
  let '(r, cs) := w in
  readyCount r = wrap64 (1 + Z.of_nat (nready (readyMap r)) + Z.b2z (in_flight r cs)) ∧
  readyMap r !! nodeID r = None ∧ rest_ok r cs.

Lemma wf_at_idle r : wf_at (r, []) ↔ wf r.
Proof.
  unfold wf_at, wf. cbn. rewrite Z.add_0_r. split; [tauto|]. intros []. split_and!; try done.
  constructor.
Qed.

Lemma rest_ok_ext r r' cs : nodeID r' = nodeID r → readyMap r' = readyMap r →
  rest_ok r cs → rest_ok r' cs.
Proof.
  intros Hid Hm.
  assert (∀ p, joins r' p = joins r p) as Hj by (intros p; unfold joins; by rewrite Hm).
  destruct 1; econstructor; rewrite ?Hid, ?Hj, ?Hm; eauto; by setoid_rewrite Hm.
Qed.

Lemma in_flight_ext r r' cs : readyMap r' = readyMap r → in_flight r' cs = in_flight r cs.
Proof. intros Hm. unfold in_flight, joins. by rewrite Hm. Qed.

Lemma wf_at_ext r r' cs : nodeID r' = nodeID r → readyMap r' = readyMap r →
  readyCount r' = readyCount r → wf_at (r, cs) → wf_at (r', cs).
Proof.
  intros Hid Hm Hct (Hc & Hs & Hok). unfold wf_at. rewrite Hct, Hm, Hid, (in_flight_ext r) by done.
  split; [done|]. split; [done|]. by apply (rest_ok_ext r).
Qed.

(** A command that leaves the table and the counter as they are. *)
Lemma wf_at_next r r' cs cs' : nodeID r' = nodeID r → readyMap r' = readyMap r →
  readyCount r' = readyCount r → in_flight r cs' = in_flight r cs → rest_ok r cs' →
  wf_at (r, cs) → wf_at (r', cs').
Proof.
  intros Hid Hm Hct Hf Hok (Hc & Hs & _). apply (wf_at_ext r); [done..|].
  unfold wf_at. by rewrite Hf.
Qed.

Lemma in_flight_leaving r gone new : in_flight r ((CLeave <$> gone) ++ [CRegister new]) = false.
Proof. by destruct gone. Qed.
Lemma in_flight_coming r come new : in_flight r ((CCome <$> come) ++ [CEnd new]) = false.
Proof. by destruct come. Qed.

(** What one peer needs when it leaves ... *)
Lemma leave_wf r gone new k p rest :
  let cs := drop k [CMark p false; CAdd (-1); CRemove p;
                    CCall onPeerDisconnected (PeerDisconnected p)] in
  (k ≤ 3)%nat → wf_at (r, cs ++ (CLeave <$> gone) ++ [CRegister new]) →
  nodeID r ∉ new → NoDup gone → p ∉ gone → (∀ q, q ∈ gone → readyMap r !! q = Some true) →
  readyMap r !! p = Some (bool_decide (k = O)) →
  rest = (CLeave <$> gone) ++ [CRegister new] →
  match cs ++ rest with [] => True | c :: cs' => wf_at (run_cmd c r cs') end.
Proof.
  cbv zeta. intros Hk Hwf Hid Hnd Hp Hgone Hready ->. pose proof Hwf as (Hc & Hs & _).
  destruct k as [|[|[|[|k]]]]; [..|lia]; cbn [drop app] in *; unfold run_cmd; cbn [do_cmd app].
  - unfold wf_at. cbn in Hc, Hready |- *. split; [|split].
    + rewrite Hc. f_equal. rewrite (nready_insert_false _ _ Hready). lia.
    + rewrite lookup_insert_ne; [done|]. intros ->. congruence.
    + apply (ro_leave _ gone new 1 p); cbn; try done; [lia| |by rewrite lookup_insert_eq].
      intros q Hq. rewrite lookup_insert_ne; [by apply Hgone|]. by intros ->.
  - unfold wf_at. cbn in Hc |- *. split; [|split; [done|]].
    + rewrite Hc, wrap64_add_l. f_equal. lia.
    + by apply (ro_leave _ gone new 2 p); [lia|..].
  - eapply wf_at_next; [..|exact Hwf]; try done.
    by apply (ro_leave _ gone new 3 p); [lia|..].
  - eapply wf_at_next; [..|exact Hwf]; try by destruct (onPeerDisconnected r).
    + by rewrite in_flight_leaving.
    + by apply ro_leaving.
Qed.

(** ... and when it comes. *)
Lemma come_wf r come new k p isSet ev :
  let cs := drop k [CAdd 1; CCall isSet ev; CTrigger; CMark p true] in
  let rest := (CCome <$> come) ++ [CEnd new] in
  (k ≤ 3)%nat → wf_at (r, cs ++ rest) → nodeID r ∉ p :: come → joins r p = true →
  ev = PeerConnected p ∨ ev = PeerReConnected p →
  match cs ++ rest with [] => True | c :: cs' => wf_at (run_cmd c r cs') end.
Proof.
  cbv zeta. intros Hk Hwf Hid Hj Hev. pose proof Hwf as (Hc & Hs & _).
  pose proof (not_elem_of_cons come (nodeID r) p) as [[Hne Hcome] _]; [done|].
  destruct k as [|[|[|[|k]]]]; [..|lia]; cbn [drop app] in *; unfold run_cmd; cbn [do_cmd app].
  - unfold wf_at. split; [|split; [done|]].
    + cbn in Hc |- *. rewrite Hc, wrap64_add_l. f_equal. destruct Hev as [-> | ->]; cbn; lia.
    + by apply (ro_come _ come new 1 p isSet ev); try done; lia.
  - eapply wf_at_next; [..|exact Hwf]; try by destruct (isSet r).
    + by destruct Hev as [-> | ->].
    + by apply (ro_come _ come new 2 p isSet ev); try done; lia.
  - eapply wf_at_next; [..|exact Hwf]; try done.
    by apply (ro_come _ come new 3 p isSet ev); try done; lia.
  - unfold wf_at. cbn in Hc |- *. rewrite Hj in Hc. unfold joins in Hj.
    apply negb_true_iff, bool_decide_eq_false in Hj. split; [|split].
    + rewrite Hc, in_flight_coming, nready_insert_true, decide_False by done. f_equal. cbn. lia.
    + by rewrite lookup_insert_ne.
    + by apply ro_coming.
Qed.

Lemma cmd_wf r cs : wf_at (r, cs) →
  match cs with [] => True | c :: cs' => wf_at (run_cmd c r cs') end.
Proof.
  intros Hwf. pose proof Hwf as (Hc & Hs & Hok).
  destruct Hok as [|new Hid|new Hid|gone new k p Hk Hid Hnd Hp Hgone Hready|gone new Hid Hnd Hgone|
    come new k p isSet ev Hid Hj Hev Hk|come new p Hid Hj|come new Hid]; [done|..].
  - unfold run_cmd, do_cmd. case_bool_decide; (eapply wf_at_next; [..|exact Hwf]; try done).
    + apply (ro_leaving _ [] new); [done|constructor|]. intros q []%not_elem_of_nil.
    + by constructor.
  - unfold run_cmd, do_cmd. eapply wf_at_next; [..|exact Hwf]; rewrite ?app_nil_r; try done.
    + by rewrite in_flight_leaving.
    + apply ro_leaving; [done| |].
      * rewrite lo_Difference_fst. apply NoDup_filter_b, NoDup_readyPeers.
      * intros q [? _]%elem_of_disconnecteds. done.
  - by eapply leave_wf.
  - destruct gone as [|p gone]; cbn [fmap list_fmap app]; unfold run_cmd, do_cmd.
    + eapply wf_at_next; [..|exact Hwf]; rewrite ?app_nil_r; try done.
      * by rewrite in_flight_coming.
      * by apply ro_coming.
    + apply NoDup_cons in Hnd as [Hp Hnd]. eapply wf_at_next; [..|exact Hwf]; try done.
      apply (ro_leave _ gone new 0 p); try done; [lia| |].
      * intros q Hq. apply Hgone. by right.
      * apply Hgone. left.
  - by apply come_wf.
  - unfold run_cmd, do_cmd. cbn in Hc. rewrite Hj in Hc. unfold joins in Hj.
    apply negb_false_iff, bool_decide_eq_true in Hj. unfold wf_at. cbn. rewrite insert_id by done.
    split; [by rewrite in_flight_coming|]. split; [done|]. apply (rest_ok_ext r); cbn; [done| |].
    + by rewrite insert_id.
    + apply ro_coming. set_solver.
  - destruct come as [|p come]; cbn [fmap list_fmap app]; unfold run_cmd, do_cmd.
    + eapply wf_at_next; [..|exact Hwf]; try (by destruct (_ && _)); [done|].
      exact (ro_idle r).
    + destruct (readyMap r !! p) as [[]|] eqn:Hp; (eapply wf_at_next; [..|exact Hwf]; try done).
      * cbn. unfold joins. by rewrite Hp.
      * apply ro_again; [done|]. unfold joins. by rewrite Hp.
      * apply (ro_come _ come new 0 p); [done| |by eauto|lia]. unfold joins. by rewrite Hp.
      * apply (ro_come _ come new 0 p); [done| |by eauto|lia]. unfold joins. by rewrite Hp.
Qed.

(** What other goroutines do leaves the table, the counter and the round alone. *)
Definition same_table (r r' : registry) : Prop :=
  nodeID r' = nodeID r ∧ peerNodeIDs r' = peerNodeIDs r ∧ threshold r' = threshold r ∧
  readyMap r' = readyMap r ∧ readyCount r' = readyCount r.

Lemma same_table_trans r1 r2 r3 : same_table r1 r2 → same_table r2 r3 → same_table r1 r3.
Proof. intros (?&?&?&?&?) (?&?&?&?&?). split_and!; congruence. Qed.

Lemma same_in_ecdh {A} (m : M EcdhState A) r : same_table r (exec (in_ecdh m) r).
Proof. unfold exec, in_ecdh. by destruct (m (ecdh r)). Qed.

Lemma same_startECDHExchange g s p now r : same_table r (exec (startECDHExchange g s p now) r).
Proof.
  unfold exec, startECDHExchange.
  pose proof (same_in_ecdh (ListenKeyExchange g s) r) as H1. unfold exec in H1.
  destruct (in_ecdh (ListenKeyExchange g s) r) as [[] r1]; [|exact H1..].
  pose proof (same_in_ecdh (BroadcastPublicKey now (p ≫= λ _, Ok tt)) r1) as H2.
  unfold exec in H2. destruct (in_ecdh _ r1) as [[] r2]; exact (same_table_trans _ _ _ H1 H2).
Qed.

(** What every step keeps. *)
Definition keeps (w w' : watched) : Prop :=
  nodeID w'.1 = nodeID w.1 ∧ peerNodeIDs w'.1 = peerNodeIDs w.1 ∧ threshold w'.1 = threshold w.1 ∧
  (wf_at w → wf_at w').

Lemma keeps_same r r' cs : same_table r r' → keeps (r, cs) (r', cs).
Proof.
  intros (Hid & Hp & Ht & Hm & Hc). split; [done|]. split; [done|]. split; [done|].
  by apply wf_at_ext.
Qed.

Lemma do_cmd_frame c r : let r' := (do_cmd c r).1 in
  nodeID r' = nodeID r ∧ peerNodeIDs r' = peerNodeIDs r ∧ threshold r' = threshold r.
Proof. destruct c; cbn; repeat case_match; done. Qed.

Lemma reg_step_keeps w w' : reg_step w w' → keeps w w'.
Proof.
  destruct 1 as [r c cs|r pairs|r cs data|r cs data|r cs now sent|r cs g s p put listen now|
    r cs c d e].
  - pose proof (do_cmd_frame c r) as Hf. pose proof (cmd_wf r (c :: cs)) as Hwf. revert Hf Hwf.
    cbv zeta. unfold run_cmd. destruct (do_cmd c r) as [r' now]. intros (H1 & H2 & H3) Hwf.
    split; [exact H1|]. split; [exact H2|]. split; [exact H3|exact Hwf].
  - split; [done|]. split; [done|]. split; [done|]. intros (Hc & Hs & _).
    split; [exact Hc|]. split; [exact Hs|]. apply ro_round, getReadyPeersFromKVStore_self.
  - apply keeps_same. unfold onHealthCheck. destruct (parseHealthDataSplit data) as [[]].
    rewrite exec_when. by destruct (negb _).
  - apply keeps_same, same_in_ecdh.
  - apply keeps_same. unfold exec, triggerECDHExchange.
    pose proof (same_in_ecdh (BroadcastPublicKey now sent) r) as Hk. unfold exec in Hk.
    by destruct (in_ecdh _ r) as [[] ?].
  - apply keeps_same. unfold exec, Ready.
    pose proof (same_startECDHExchange g s p now r) as Hk.
    unfold exec in Hk. by destruct (startECDHExchange _ _ _ _ r) as [[] ?].
  - by apply keeps_same.
Qed.

Lemma reachable_keeps w w' : rtc reg_step w w' → keeps w w'.
Proof.
  induction 1 as [|w w1 w2 Hstep%reg_step_keeps _ IH]; [done|].
  destruct Hstep as (?&?&?&?), IH as (?&?&?&?). split_and!; [congruence..|tauto].
Qed.

Lemma NewRegistry_wf self peers store th r0 : NewRegistry self peers store th = Ok r0 → wf r0.
Proof.
  unfold NewRegistry. destruct (Z.ltb_spec th 1); [done|]. intros [= <-].
  split; cbn; [|done]. unfold nready. by rewrite map_filter_empty, map_size_empty.
Qed.

Lemma reachable_wf self peers store th r0 r cs :
  NewRegistry self peers store th = Ok r0 → rtc reg_step (r0, []) (r, cs) → wf_at (r, cs).
Proof.
  intros Hnew (_ & _ & _ & Hwf)%reachable_keeps. apply Hwf, wf_at_idle. by eapply NewRegistry_wf.
Qed.

(** The list of ready peers, at every point. *)
Lemma wf_at_ready_list r cs : wf_at (r, cs) →
  readyCount r =
    wrap64 (Z.of_nat (length (GetReadyPeersIncludeSelf r)) + Z.b2z (in_flight r cs)) ∧
  NoDup (GetReadyPeersIncludeSelf r) ∧ nodeID r ∈ GetReadyPeersIncludeSelf r.
Proof.
  intros (Hc & Hs & _). unfold GetReadyPeersIncludeSelf. split_and!.
  - rewrite Hc, length_app, length_readyPeers. cbn [length]. f_equal. lia.
  - apply NoDup_app. split_and!; [apply NoDup_readyPeers| |apply NoDup_singleton].
    intros p Hp ->%list_elem_of_singleton. apply elem_of_readyPeers in Hp. congruence.
  - set_solver.
Qed.

Lemma wf_count_pos r cs : wf_at (r, cs) →
  Z.of_nat (length (GetReadyPeersIncludeSelf r)) < MaxInt64 → 1 ≤ readyCount r.
Proof.
  intros Hwf Hsmall. destruct (wf_at_ready_list r cs Hwf) as (-> & _ & Hin).
  assert (0 ≤ Z.b2z (in_flight r cs) ≤ 1) by (destruct (in_flight r cs); cbn; lia).
  rewrite wrap64_small by (unfold int64_range, MinInt64, MaxInt64 in *; lia).
  destruct (GetReadyPeersIncludeSelf r); [by apply not_elem_of_nil in Hin|]. cbn. lia.
Qed.

(** C21: in every state the registry can reach, between any two writes of the watch
    goroutine and whatever the other goroutines do meanwhile, the counter of ready peers
    is the length of the list of ready peers (at the counter's 64 bits), or one more while
    the watch goroutine is between the two writes for one peer; between two rounds they
    agree.  The list has no duplicates and names the node itself exactly once, and the
    peer list and threshold are those of the configuration. *)
Theorem ready_count_invariant self peers store th r0 r cs
    (Hnew : NewRegistry self peers store th = Ok r0)
    (Hreach : rtc reg_step (r0, []) (r, cs)) :
  readyCount r =
    wrap64 (Z.of_nat (length (GetReadyPeersIncludeSelf r)) + Z.b2z (in_flight r cs)) ∧
  (cs = [] → readyCount r = wrap64 (Z.of_nat (length (GetReadyPeersIncludeSelf r)))) ∧
  NoDup (GetReadyPeersIncludeSelf r) ∧ self ∈ GetReadyPeersIncludeSelf r ∧
  nodeID r = self ∧ (∀ p, p ∈ peerNodeIDs r ↔ p ∈ peers ∧ p ≠ self) ∧
  threshold r = th ∧ 1 ≤ th.
Proof.
  pose proof (reachable_wf _ _ _ _ _ _ _ Hnew Hreach) as Hwf.
  unfold NewRegistry in Hnew. destruct (Z.ltb_spec th 1) as [|Hth]; [done|].
  injection Hnew as <-. apply reachable_keeps in Hreach as (Hid & Hpe & Ht & _).
  cbn in Hid, Hpe, Ht. destruct (wf_at_ready_list r cs Hwf) as (Hc & Hnd & Hself).
  rewrite Hid in Hself. split_and!; try done.
  - intros ->. rewrite Hc. cbn. by rewrite Z.add_0_r.
  - intros p. by rewrite Hpe, lo_Filter_spec, elem_of_filter_b, negb_true_iff, String.eqb_neq.
Qed.

End properties.

#[export] Instance registry_PeerRegistrySpec `{C : Crypto} `{L : Lo} `{!LoSpec L} `{MapRange} :
  PeerRegistrySpec registry wf.
Proof. split; intros r Hr; cbn; by destruct (wf_ready_list r Hr) as (? & ? & ?). Qed.

(** *** A concrete registry *)

#[local] Existing Instance map_to_list_range.
#[local] Existing Instance lo_ref.
#[local] Existing Instance lo_ref_spec.
#[local] Existing Instance toy_crypto.

Definition toy_reg_store : fileStore (C := toy_crypto) :=
  toy_store (toy_id "nodeN")
    {["nodeA" := @ed25519_Public toy_crypto (toy_id "nodeA");
      "nodeB" := @ed25519_Public toy_crypto (toy_id "nodeB")]} ∅.

Definition toy_registry : registry (C := toy_crypto) :=
  mkRegistry "nodeN" ["nodeA"; "nodeB"] ∅ 1 false 1 false false false
    (mkEcdhState (NewECDHSession "nodeN" ["nodeN"; "nodeA"; "nodeB"]) toy_reg_store [] []) [].

Definition after_Ready (r : registry) : registry :=
  exec (Ready (Ok (pad_to 32 "x")) (Ok "") (Ok "") (Ok "") (Ok "") "2025-01-01T00:00:00Z") r.

Definition after_hear (m : ECDHMessage) (r : registry) : registry :=
  exec (in_ecdh (handleKeyExchange toy_Unmarshal (encode (ECDHMessage_json m)))) r.

Lemma EncryptMessage_no_key `{C : Crypto} (s : fileStore) p :
  symmetricKeys s !! p = None → ∀ plain nonce ct, EncryptMessage s plain p nonce ≠ Ok ct.
Proof. intros Hp plain nonce ct. unfold EncryptMessage, GetSymmetricKey. by rewrite Hp. Qed.

(** Symmetric keys are counted, not matched with the ready peers: a node
    that heard the broadcast of a peer which is not ready yet, and sees another
    peer ready whose broadcast it has not heard, reports that a majority is
    ready, and cannot encrypt for the peer it counts on. *)
Theorem AreMajorityReady_without_key :
  ∃ r p, rtc (reg_step toy_Unmarshal) (toy_registry, []) (r, []) ∧
    NewRegistry "nodeN" ["nodeN"; "nodeA"; "nodeB"] toy_reg_store 1 = Ok toy_registry ∧
    AreMajorityReady r = true ∧ p ∈ GetReadyPeersIncludeSelf r ∧ p ≠ nodeID r ∧
    ∀ plain nonce ct, EncryptMessage (identityStore (ecdh r)) plain p nonce ≠ Ok ct.
Proof.
  set (r1 := after_Ready toy_registry).
  set (r2 := after_hear (toy_signed "nodeA" "nodeB") r1).
  set (r3 := exec (watchTick ["ready/nodeB"]) r2).
  exists r3, "nodeB". split_and!.
  - apply (rtc_l _ _ (r1, [])); [apply step_ready|].
    apply (rtc_l _ _ (r2, []));
      [apply (step_hear _ r1 [] (encode (ECDHMessage_json (toy_signed "nodeA" "nodeB"))));
       vm_compute; reflexivity|].
    apply step_tick.
  - reflexivity.
  - by vm_compute.
  - apply (bool_decide_unpack _). by vm_compute.
  - by vm_compute.
  - apply EncryptMessage_no_key. by vm_compute.
Qed.

(** *** Witnesses *)

Lemma watchTick_exact_witness :
  let r := exec (watchTick ["ready/nodeA"; "ready/nodeB"]) toy_registry in
  readyMap r !! "nodeB" = Some true ∧
  (readyMap (exec (watchTick ["ready/nodeA"]) r) !! "nodeB" = Some true ↔
     "nodeB" ∈ getReadyPeersFromKVStore r ["ready/nodeA"]).
Proof.
  cbv zeta. split; [by vm_compute|].
  apply (watchTick_exact (exec (watchTick ["ready/nodeA"; "ready/nodeB"]) toy_registry)
           ["ready/nodeA"]). by vm_compute.
Defined.

Lemma watchTick_same_length_witness :
  let r := exec (watchTick ["ready/nodeA"; "ready/nodeB"]) toy_registry in
  let r' := exec (watchTick ["ready/nodeA"; "ready/stranger"]) r in
  ready r' = true ∧ readyMap r' !! "nodeB" = Some true.
Proof.
  cbv zeta.
  destruct (watchTick_same_length (exec (watchTick ["ready/nodeA"; "ready/nodeB"]) toy_registry)
              ["ready/nodeA"; "ready/stranger"]) as (Hm & Hr & _); [by vm_compute|].
  split; [exact Hr|]. apply Hm. left. by vm_compute.
Defined.

(** In the middle of the first round, and after it. *)
Definition toy_watched : watched :=
  let '(r, cs) := run_cmd (CRegister ["nodeA"; "nodeB"]) toy_registry [] in
  let '(r, cs) := run_cmd (CCome "nodeA") r (tail cs) in
  run_cmd (CAdd 1) r (tail cs).

Lemma toy_watched_reachable : rtc (reg_step toy_Unmarshal) (toy_registry, []) toy_watched.
Proof.
  eapply rtc_l; [apply (step_round _ _ ["ready/nodeA"; "ready/nodeB"])|].
  do 3 (eapply rtc_l; [apply step_cmd|]). eapply rtc_l; [apply step_cmd|].
  vm_compute. apply rtc_refl.
Qed.

Lemma ready_count_invariant_witness :
  let r := exec (watchTick ["ready/nodeA"; "ready/nodeB"]) toy_registry in
  (readyCount r = wrap64 (Z.of_nat (length (GetReadyPeersIncludeSelf r))) ∧ readyCount r = 3) ∧
  ∃ cs, readyCount toy_watched.1 =
      wrap64 (Z.of_nat (length (GetReadyPeersIncludeSelf toy_watched.1)) + 1) ∧
    toy_watched.2 = CCall onPeerConnected (PeerConnected "nodeA") :: cs.
Proof.
  cbv zeta. split; [split; [|by vm_compute]|].
  - apply (ready_count_invariant toy_Unmarshal "nodeN" ["nodeN"; "nodeA"; "nodeB"] toy_reg_store 1
           toy_registry _ []); [reflexivity| |reflexivity]. apply step_tick.
  - eexists. split; [|reflexivity].
    refine (proj1 (ready_count_invariant toy_Unmarshal "nodeN" ["nodeN"; "nodeA"; "nodeB"]
      toy_reg_store 1 toy_registry toy_watched.1 toy_watched.2 _ _)); [reflexivity|].
    exact toy_watched_reachable.
Defined.

Lemma watchTick_before_Ready_panics_witness :
  eval (triggerECDHExchange "now" (Ok tt)) (exec (watchTick ["ready/nodeA"]) toy_registry) =
  Panic "nil pointer dereference".
Proof.
  apply (watchTick_before_Ready_panics toy_registry ["ready/nodeA"] "nodeA");
    [reflexivity|apply (bool_decide_unpack _); by vm_compute|by vm_compute].
Defined.

Lemma healthData_roundtrip_witness :
  parseHealthDataSplit (composeHealthData toy_registry) =
  ("nodeN", isECDHReady toy_registry, None).
Proof. apply (healthData_roundtrip toy_registry). reflexivity. Defined.
