(* ===== verification/SessionManager.v ===== *)
(** * pkg/session: the table of active signing sessions

    [session.Manager] remembers which (wallet, transaction) pairs are being
    signed, so that a redelivered signing event is not processed twice, and a
    background goroutine drops the entries older than [sessionTimeout].
    [time.Now()] is an argument of each operation, in nanoseconds. *)

From stdpp Require Import base gmap list strings.
From Stdlib Require Import ZArith Lia Ascii.
From S2P Require Import Prelude.
From S2P Require Import GoStrings.

Definition GetSessionID (walletID txID : string) : string :=
  walletID +:+ "-" +:+ txID.

Record Manager := mkManager {
  activeSessions : gmap string Z;   (* session id to creation time *)
  cleanupInterval : Z;
  sessionTimeout : Z;
  stopClosed : bool;                (* stopChan has been closed *)
}.

Definition set_activeSessions (f : gmap string Z → gmap string Z) (m : Manager) : Manager :=
  mkManager (f (activeSessions m)) (cleanupInterval m) (sessionTimeout m) (stopClosed m).

Definition NewManager (cleanupInterval sessionTimeout : Z) : Manager :=
  mkManager ∅ cleanupInterval sessionTimeout false.

Definition AddSession (walletID txID : string) (now : Z) : M Manager unit :=
  modify (set_activeSessions (insert (GetSessionID walletID txID) now)).

Definition HasSession (walletID txID : string) : M Manager bool :=
  gets (λ m, bool_decide (is_Some (activeSessions m !! GetSessionID walletID txID))).

(** Its answer; the table is only read. *)
Definition eval_HasSession (walletID txID : string) (m : Manager) : bool :=
  eval (HasSession walletID txID) m.

(** [now.Sub(t)]: a Duration, saturated to the int64 range. *)
Definition time_Sub (now t : Z) : Z := Z.max MinInt64 (Z.min MaxInt64 (now - t)).

Definition stale (m : Manager) (now creationTime : Z) : bool :=
  sessionTimeout m <? time_Sub now creationTime.

Definition cleanupStaleSessions `{MapRange} (now : Z) : M Manager unit :=
  m ← gets id;
  forM (range_of (activeSessions m)) (λ '(sessionID, creationTime),
    when (stale m now creationTime)
      (modify (set_activeSessions (delete sessionID)))).

(** The loop of [StartCleanup]: a tick cleans up, the closed stop channel ends it. *)
Inductive cleanup_event := TickerC (now : Z) | StopC.

Fixpoint StartCleanup `{MapRange} (evs : list cleanup_event) : M Manager unit :=
  match evs with
  | [] => skip
  | TickerC now :: evs => cleanupStaleSessions now ;; StartCleanup evs
  | StopC :: _ => skip
  end.

(** [close] of a closed channel panics. *)
Definition Stop (m : Manager) : Res Manager :=
  if stopClosed m then Panic "close of closed channel"
  else Ok (mkManager (activeSessions m) (cleanupInterval m) (sessionTimeout m) true).

Definition GetActiveSessionCount : M Manager Z :=
  gets (λ m, Z.of_nat (size (activeSessions m))).

Definition GetActiveSessions : M Manager (gmap string Z) := gets activeSessions.

(** ** Session ids *)

Lemma GetSessionID_inj w1 t1 w2 t2 :
  String.length w1 = String.length w2 →
  GetSessionID w1 t1 = GetSessionID w2 t2 → w1 = w2 ∧ t1 = t2.
Proof.
  unfold GetSessionID. intros Hl H.
  apply app_inj_len_s in H as [-> H]; [|done]. by injection H.
Qed.

Lemma HasSession_eval w t m :
  eval (HasSession w t) m = true ↔ is_Some (activeSessions m !! GetSessionID w t).
Proof. unfold HasSession, eval, gets. simpl. apply bool_decide_eq_true. Qed.

(** ** Cleanup *)

Definition drops (m : Manager) (now : Z) (id : string) : string * Z → bool :=
  λ '(k, t), bool_decide (k = id) && stale m now t.

Lemma existsb_drops m now id l :
  existsb (drops m now id) l = true ↔ ∃ t, (id, t) ∈ l ∧ stale m now t = true.
Proof.
  rewrite existsb_exists. split.
  - intros ([k t] & Hin%list_elem_of_In & [->%bool_decide_eq_true Hs]%andb_true_iff). eauto.
  - intros (t & Hin%list_elem_of_In & Hs). exists (id, t). simpl.
    by rewrite bool_decide_eq_true_2, Hs.
Qed.

(** Deleting the stale keys of a list of entries. *)
Lemma cleanup_loop_lookup m0 now (l : list (string * Z)) m id :
  activeSessions (exec (forM l (λ '(sessionID, creationTime),
     when (stale m0 now creationTime)
       (modify (set_activeSessions (delete sessionID))))) m) !! id =
  if existsb (drops m0 now id) l then None else activeSessions m !! id.
Proof.
  revert m. induction l as [|[k t] l IH]; intros m; [done|].
  rewrite exec_forM_cons, IH, exec_when, exec_modify. simpl.
  destruct (existsb _ l); [by rewrite orb_true_r|]. rewrite orb_false_r.
  destruct (stale m0 now t); [|by rewrite andb_false_r]. simpl. rewrite andb_true_r.
  case_bool_decide; [subst; by rewrite lookup_delete_eq|by rewrite lookup_delete_ne].
Qed.

Lemma cleanup_activeSessions `{MapRange} now m id :
  activeSessions (exec (cleanupStaleSessions now) m) !! id =
  match activeSessions m !! id with
  | Some t => if stale m now t then None else Some t
  | None => None
  end.
Proof.
  unfold cleanupStaleSessions. rewrite exec_bind, cleanup_loop_lookup.
  change (eval (gets Datatypes.id) m) with m.
  change (exec (gets Datatypes.id) m) with m.
  destruct (existsb _ _) eqn:He.
  - apply existsb_drops in He as (t & Ht%elem_of_range_of & Hs). by rewrite Ht, Hs.
  - destruct (activeSessions m !! id) as [t|] eqn:Ht; [|done].
    destruct (stale m now t) eqn:Hs; [|done].
    apply not_true_iff_false in He. destruct He. apply existsb_drops. exists t.
    by rewrite elem_of_range_of.
Qed.

(** ** The window in which a session is remembered *)

Inductive manager_op :=
| OpAdd (walletID txID : string) (now : Z)
| OpCleanup (now : Z).

Definition op_time (o : manager_op) : Z :=
  match o with OpAdd _ _ now | OpCleanup now => now end.

Definition run_op `{MapRange} (o : manager_op) : M Manager unit :=
  match o with
  | OpAdd w t now => AddSession w t now
  | OpCleanup now => cleanupStaleSessions now
  end.

Lemma time_Sub_le now t d : MinInt64 ≤ d → now - t ≤ d → time_Sub now t ≤ d.
Proof. unfold time_Sub. lia. Qed.

Lemma AddSession_lookup w t now m id :
  activeSessions (exec (AddSession w t now) m) !! id =
  if decide (GetSessionID w t = id) then Some now else activeSessions m !! id.
Proof. unfold AddSession. rewrite exec_modify. simpl. apply lookup_insert. Qed.

Lemma sessionTimeout_run_op `{MapRange} o m :
  sessionTimeout (exec (run_op o) m) = sessionTimeout m.
Proof.
  destruct o; [done|]. simpl. unfold cleanupStaleSessions. rewrite exec_bind.
  apply (exec_forM_ind (λ m', sessionTimeout m' = sessionTimeout m)); [|done].
  intros [k t] m' _ Hm. rewrite exec_when. by case_match.
Qed.

(** An entry stored at or after [t0] survives every operation whose clock is
    between [t0] and [t0 + sessionTimeout]. *)
Lemma recent_entry_run_op `{MapRange} o m id t0 :
  MinInt64 ≤ sessionTimeout m →
  t0 ≤ op_time o ≤ t0 + sessionTimeout m →
  (∃ t, activeSessions m !! id = Some t ∧ t0 ≤ t) →
  ∃ t, activeSessions (exec (run_op o) m) !! id = Some t ∧ t0 ≤ t.
Proof.
  intros Hto Hop (t & Ht & Hle). destruct o as [w x now|now]; cbn [run_op op_time] in *.
  - rewrite AddSession_lookup. case_decide; [exists now; split; [done|lia]|eauto].
  - rewrite cleanup_activeSessions, Ht. unfold stale.
    destruct (Z.ltb_spec (sessionTimeout m) (time_Sub now t)) as [Hlt|]; [|eauto].
    pose proof (time_Sub_le now t (sessionTimeout m)). lia.
Qed.

Lemma recent_entry_ops `{MapRange} (m : Manager) w x t0 (ops : list manager_op) :
  MinInt64 ≤ sessionTimeout m →
  Forall (λ o, t0 ≤ op_time o ≤ t0 + sessionTimeout m) ops →
  eval_HasSession w x (exec (forM ops run_op) (exec (AddSession w x t0) m)) = true.
Proof.
  intros Hto Hops. unfold eval_HasSession. set (m1 := exec (AddSession w x t0) m).
  assert (∃ t, activeSessions (exec (forM ops run_op) m1) !! GetSessionID w x = Some t ∧ t0 ≤ t)
    as (t & Ht & _); [|apply HasSession_eval; eauto].
  eapply (exec_forM_ind (λ m', sessionTimeout m' = sessionTimeout m ∧
    ∃ t, activeSessions m' !! GetSessionID w x = Some t ∧ t0 ≤ t)); last first.
  { split; [done|]. exists t0. unfold m1. rewrite AddSession_lookup, decide_True; done. }
  intros o m' Ho%list_elem_of_In [Hm' Hent]. rewrite sessionTimeout_run_op. split; [done|].
  eapply List.Forall_forall in Hops as Hop; [|done].
  apply recent_entry_run_op; rewrite ?Hm'; auto.
Qed.

(** C37: after [AddSession] at time [t0], whatever sessions are added and
    whatever cleanups run, [HasSession] answers true until the session
    timeout has elapsed: a redelivery inside the window is always detected. *)
Theorem HasSession_window `{MapRange} (m : Manager) w x t0 (ops : list manager_op)
    (Hto : MinInt64 ≤ sessionTimeout m)
    (Hops : Forall (λ o, t0 ≤ op_time o ≤ t0 + sessionTimeout m) ops) :
  eval (HasSession w x) (exec (forM ops run_op) (exec (AddSession w x t0) m)) = true.
Proof. by apply recent_entry_ops. Qed.

Lemma HasSession_window_witness :
  let m := NewManager 300 1800 in
  eval (HasSession "w" "t")
    (exec (forM [OpCleanup 1500; OpAdd "w" "u" 1600; OpCleanup 2800]
             (@run_op map_to_list_range))
       (exec (AddSession "w" "t" 1000) m)) = true.
Proof.
  apply (@HasSession_window map_to_list_range).
  - unfold MinInt64. simpl. lia.
  - repeat constructor; simpl; lia.
Defined.

(** A cleanup run keeps exactly the sessions whose age does not
    exceed the timeout, with their creation times, whatever order the map is
    traversed in. *)
Theorem cleanupStaleSessions_spec `{MapRange} (m : Manager) now id t :
  activeSessions (exec (cleanupStaleSessions now) m) !! id = Some t ↔
  activeSessions m !! id = Some t ∧ time_Sub now t ≤ sessionTimeout m.
Proof.
  rewrite cleanup_activeSessions. unfold stale.
  destruct (activeSessions m !! id) as [t'|]; [|naive_solver].
  destruct (Z.ltb_spec (sessionTimeout m) (time_Sub now t')); split.
  - done.
  - intros [[= ->] ?]. lia.
  - intros [= ->]. split; [done|lia].
  - by intros [[= ->] _].
Qed.

(** With wallet ids of one length (the UUIDs the node uses) the
    table separates transactions exactly: recording one session changes the
    answer for that session alone. *)
Theorem AddSession_exact (m : Manager) w x w' x' now
    (Hlen : String.length w = String.length w') :
  eval (HasSession w' x') (exec (AddSession w x now) m) =
  eval (HasSession w' x') m || bool_decide (w = w' ∧ x = x').
Proof.
  apply eq_true_iff_eq. rewrite orb_true_iff, !HasSession_eval, bool_decide_eq_true,
    AddSession_lookup.
  case_decide as Hid.
  - apply GetSessionID_inj in Hid as [-> ->]; [|done]. naive_solver.
  - split; [by left|]. intros [?|[-> ->]]; [done|congruence].
Qed.

Lemma AddSession_exact_witness :
  eval (HasSession "w2" "t") (exec (AddSession "w1" "t" 5) (NewManager 300 1800)) = false.
Proof. by rewrite AddSession_exact. Defined.

(** With wallet ids of different lengths the separator is
    ambiguous: a session that was never added is reported as active. *)
Theorem GetSessionID_collision :
  ∃ w x w' x', (w, x) ≠ (w', x') ∧
    ∀ m now, eval (HasSession w' x') (exec (AddSession w x now) m) = true.
Proof.
  exists "wallet", "a-tx", "wallet-a", "tx". split; [done|]. intros m now.
  rewrite HasSession_eval, AddSession_lookup. eauto.
Qed.
