(* ===== verification/PartySession.v ===== *)
(** * pkg/mpc/core: the session of one protocol run

    [PartySession] moves the protocol's messages: it signs and publishes the
    broadcasts, encrypts and sends the direct messages, verifies or decrypts what
    it receives and hands the bytes to the party of tss-lib.  The session's
    effects are part of its state: the errors sent to [ErrCh], what it gave to the
    messaging layer, and the calls of [Party.UpdateFromBytes]. *)

From stdpp Require Import base gmap list strings.
From Stdlib Require Import ZArith Lia Ascii.
From S2P Require Import Prelude.
From S2P Require Import GoStrings.
From S2P Require Import External.
From S2P Require Import Json.
From S2P Require Import Types.
From S2P Require Import Identity.

Definition SessionTypeECDSA : string := "session_ecdsa".
Definition SessionTypeEDDSA : string := "session_eddsa".
Definition BackwardCompatibleVersion : Z := 0.
Definition DefaultVersion : Z := 1.

Definition ErrNotEnoughParticipants : error :=
  Sentinel "ErrNotEnoughParticipants" "Not enough participants to sign".
Definition ErrNotInParticipantList : error :=
  Sentinel "ErrNotInParticipantList" "Node is not in the participant list".

(** ** party_id.go *)

Section party_id.
Context `{T : TssLib}.

(** [partyID] nil gives the empty name. *)
Definition PartyIDToNodeID (partyID : option PartyID) : string :=
  match partyID with
  | None => EmptyString
  | Some p => let '(nodeID, _, _) := Cut colon (Bytes (KeyInt p)) in TrimSpace nodeID
  end.

Definition PartyIDsToNodeIDs (pids : list (option PartyID)) : list string :=
  PartyIDToNodeID <$> pids.

Definition ComparePartyIDs (x y : PartyID) : bool :=
  String.eqb (Bytes (KeyInt x)) (Bytes (KeyInt y)).

(** The number tss-lib knows the node by. *)
Definition partyKey (nodeID : string) (version : Z) : Z :=
  if version =? BackwardCompatibleVersion then SetBytes nodeID
  else SetBytes (nodeID +:+ ":" +:+ fmt_d version).

(** [uuid] is the fresh [uuid.NewString()]. *)
Definition CreatePartyID (uuid nodeID label : string) (version : Z) : PartyID :=
  NewPartyID uuid label (partyKey nodeID version).

End party_id.

(** ** session.go: names *)

Definition WalletIDWithVersion (walletID : string) (version : Z) : string :=
  if 0 <? version then walletID +:+ "_v" +:+ fmt_d version else walletID.

Definition extractSenderIDFromDirectTopic (topic : string) : string :=
  match SplitN colon topic 5 with
  | _ :: _ :: _ :: sender :: _ => sender
  | _ => EmptyString
  end.

(** ** The session *)

Record RoundInfo := mkRoundInfo { Index : Z; RoundMsg : string; MsgIdentifier : string }.

(** What the session hands to the messaging layer. *)
Inductive wire_event :=
| Publish (topic data : string)
| SendToSelf (topic data : string)
| SendToOther (topic data : string).

#[export] Instance wire_event_eq_dec : EqDecision wire_event.
Proof. solve_decision. Defined.

Section session.
Context `{C : Crypto} `{T : TssLib}.

Record PartySession := mkPartySession {
  WalletID : string;
  Threshold : Z;
  ParticipantPeerIDs : list string;
  SelfPartyID : option PartyID;
  PartyIDs : list (option PartyID);
  Version : Z;
  ComposeBroadcastTopic : string;
  ComposeDirectTopic : string → string → string;
  ComposeKey : string → string;
  GetRoundFunc : option string → option PartyID → bool → Res RoundInfo;
  SessionType : string;
  IdempotentKey : string;
  PubkeyBytes : option string;
  BroadcastSub : bool;                (* not nil *)
  DirectSubs : list string;           (* the topics subscribed to *)
  ErrCh : list error;
  wire : list wire_event;
  updates : list (option string * option PartyID * bool);  (* UpdateFromBytes *)
}.

(** The getters of the [Session] interface. *)
Definition GetPartyID (s : PartySession) : option PartyID := SelfPartyID s.
Definition GetPartyIDs (s : PartySession) : list (option PartyID) := PartyIDs s.
Definition GetPartyCount (s : PartySession) : Z := Z.of_nat (length (PartyIDs s)).
Definition GetPubKeyResult (s : PartySession) : option string := PubkeyBytes s.
Definition GetErrChan (s : PartySession) : list error := ErrCh s.
Definition GetVersion (s : PartySession) : Z := Version s.

Definition set_ErrCh f (s : PartySession) : PartySession :=
  mkPartySession (WalletID s) (Threshold s) (ParticipantPeerIDs s) (SelfPartyID s) (PartyIDs s)
    (Version s) (ComposeBroadcastTopic s) (ComposeDirectTopic s) (ComposeKey s) (GetRoundFunc s)
    (SessionType s) (IdempotentKey s) (PubkeyBytes s) (BroadcastSub s) (DirectSubs s)
    (f (ErrCh s)) (wire s) (updates s).
Definition set_wire f (s : PartySession) : PartySession :=
  mkPartySession (WalletID s) (Threshold s) (ParticipantPeerIDs s) (SelfPartyID s) (PartyIDs s)
    (Version s) (ComposeBroadcastTopic s) (ComposeDirectTopic s) (ComposeKey s) (GetRoundFunc s)
    (SessionType s) (IdempotentKey s) (PubkeyBytes s) (BroadcastSub s) (DirectSubs s)
    (ErrCh s) (f (wire s)) (updates s).
Definition set_updates f (s : PartySession) : PartySession :=
  mkPartySession (WalletID s) (Threshold s) (ParticipantPeerIDs s) (SelfPartyID s) (PartyIDs s)
    (Version s) (ComposeBroadcastTopic s) (ComposeDirectTopic s) (ComposeKey s) (GetRoundFunc s)
    (SessionType s) (IdempotentKey s) (PubkeyBytes s) (BroadcastSub s) (DirectSubs s)
    (ErrCh s) (wire s) (f (updates s)).
Definition set_subs b f (s : PartySession) : PartySession :=
  mkPartySession (WalletID s) (Threshold s) (ParticipantPeerIDs s) (SelfPartyID s) (PartyIDs s)
    (Version s) (ComposeBroadcastTopic s) (ComposeDirectTopic s) (ComposeKey s) (GetRoundFunc s)
    (SessionType s) (IdempotentKey s) (PubkeyBytes s) (b || BroadcastSub s) (f (DirectSubs s))
    (ErrCh s) (wire s) (updates s).
Definition set_PubkeyBytes k (s : PartySession) : PartySession :=
  mkPartySession (WalletID s) (Threshold s) (ParticipantPeerIDs s) (SelfPartyID s) (PartyIDs s)
    (Version s) (ComposeBroadcastTopic s) (ComposeDirectTopic s) (ComposeKey s) (GetRoundFunc s)
    (SessionType s) (IdempotentKey s) k (BroadcastSub s) (DirectSubs s)
    (ErrCh s) (wire s) (updates s).
Definition set_Version v (s : PartySession) : PartySession :=
  mkPartySession (WalletID s) (Threshold s) (ParticipantPeerIDs s) (SelfPartyID s) (PartyIDs s)
    v (ComposeBroadcastTopic s) (ComposeDirectTopic s) (ComposeKey s) (GetRoundFunc s)
    (SessionType s) (IdempotentKey s) (PubkeyBytes s) (BroadcastSub s) (DirectSubs s)
    (ErrCh s) (wire s) (updates s).

(** [s.ErrCh <- err].  The channel has no buffer: the send waits until the handler of the
    request reads the error, and the list holds what is sent, in this order.  The handler
    reads only the first error, so that in the code the goroutine of a second one stays
    at its send; here it goes on, and what holds of every run here holds of the runs that
    get as far. *)
Definition sendErr (e : error) : M PartySession (Res unit) := modifyR (set_ErrCh (λ l, l ++ [e])).

Definition emit (w : wire_event) : M PartySession (Res unit) := modifyR (set_wire (λ l, l ++ [w])).

(** [id.String()] of a nil party id. *)
Definition deref {A} (o : option A) : M PartySession (Res A) :=
  lift (match o with Some a => Ok a | None => Panic "nil pointer dereference" end).

(** The environment: what the messaging layer answers, the nonces [rand.Read]
    gives for each recipient, and json on party ids and messages. *)
Variable answer : wire_event → Res unit.
Variable nonce_for : string → string.
Variable PartyID_json : PartyID → json.
Variable Unmarshal : string → Res (TssMessage T).

(** A call of the messaging layer: the attempt is recorded, the answer returned. *)
Definition call (w : wire_event) : M PartySession (Res (Res unit)) :=
  _ ←! emit w; lift (match answer w with Panic p => Panic p | r => Ok r end).

(** The routing of a [tss.Message]. *)
Record MessageRouting := mkRouting {
  mr_From : option PartyID;
  mr_To : option (list (option PartyID));
  mr_IsBroadcast : bool;
}.

(** Sending [msg] to one recipient. *)
Definition sendDirect (ids : fileStore) (selfID msg : string) (to : option PartyID) :
    M PartySession (Res unit) := λ s,
  let toNodeID := PartyIDToNodeID to in
  let topic := ComposeDirectTopic s selfID toNodeID in
  (if String.eqb selfID toNodeID then
     r ←! call (SendToSelf topic msg);
     match r with
     | Err _ => sendErr (errors_New ("failed to send direct message to " +:+ topic))
     | _ => lift (Ok tt)
     end
   else
     cipher ←! (match EncryptMessage ids msg toNodeID (nonce_for toNodeID) with
                | Ok c => lift (Ok c)
                | Err e =>
                    _ ←! sendErr (Errorf_w "encrypt tss message error " e);
                    lift (Ok EmptyString)              (* and goes on *)
                | Panic w => lift (Panic w)
                end);
     r ←! call (SendToOther topic cipher);
     match r with
     | Err e => sendErr (Errorf_w "failed to send direct message to " e)
     | _ => lift (Ok tt)
     end) s.

(** [wireBytes] is what [keyshare.WireBytes()] returns. *)
Definition HandleTssMessage (ids : fileStore) (wireBytes : Res (option string * MessageRouting)) :
    M PartySession (Res unit) := λ s,
  match wireBytes with
  | Err err => sendErr err s
  | Panic w => (Panic w, s)
  | Ok (data, routing) =>
      let tssMsg := NewTssMessage (WalletID s) data (mr_IsBroadcast routing) (mr_From routing)
                      (mr_To routing) in
      let to := default [] (mr_To routing) in
      (_ ←! forR to (λ id, _ ←! deref id; lift (Ok tt));
       _ ←! deref (SelfPartyID s);
       if mr_IsBroadcast routing && bool_decide (to = []) then
         match SignMessage PartyID_json ids tssMsg with
         | Panic w => lift (Panic w)
         | Err e => sendErr (Errorf_w "failed to sign message: " e)
         | Ok signature =>
             match MarshalTssMessage PartyID_json (set_tm_Signature tssMsg (Some signature)) with
             | Panic w => lift (Panic w)
             | Err e => sendErr (Errorf_w "failed to marshal tss message: " e)
             | Ok msg =>
                 r ←! call (Publish (ComposeBroadcastTopic s) msg);
                 match r with Err e => sendErr e | _ => lift (Ok tt) end
             end
         end
       else
         match MarshalTssMessage PartyID_json tssMsg with
         | Panic w => lift (Panic w)
         | Err e => sendErr (Errorf_w "failed to marshal tss message: " e)
         | Ok msg => forR to (sendDirect ids (PartyIDToNodeID (SelfPartyID s)) msg)
         end) s
  end.

Definition is_to_self (self : PartyID) (to : list (option PartyID)) : bool :=
  existsb (λ t, match t with Some t => ComparePartyIDs t self | None => false end) to.

(** The answer of [UpdateFromBytes] is only logged. *)
Definition receiveTssMessage (msg : TssMessage T) : M PartySession (Res unit) := λ s,
  (_ ←! forR (To msg) (λ id, _ ←! deref id; lift (Ok tt));
   match GetRoundFunc s (tm_MsgBytes msg) (SelfPartyID s) (tm_IsBroadcast msg) with
   | Panic w => lift (Panic w)
   | Err err => sendErr (Errorf_w "Broken TSS Share: " err)
   | Ok round =>
       from ←! deref (tm_From msg);
       self ←! deref (SelfPartyID s);
       let isBroadcast := tm_IsBroadcast msg && bool_decide (To msg = []) in
       let isToSelf := is_to_self self (To msg) in
       if isBroadcast || isToSelf then
         modifyR (set_updates (λ l, l ++ [(tm_MsgBytes msg, tm_From msg, tm_IsBroadcast msg)]))
       else lift (Ok tt)
   end) s.

Definition receiveP2PTssMessage (ids : fileStore) (topic cipher : string) :
    M PartySession (Res unit) := λ s,
  let senderID := extractSenderIDFromDirectTopic topic in
  if String.eqb senderID "" then
    sendErr (errors_New ("failed to extract senderID from direct topic: " +:+
                         "the direct topic format is wrong")) s
  else
    let plaintext := if String.eqb senderID (PartyIDToNodeID (SelfPartyID s)) then Ok cipher
                     else DecryptMessage ids cipher senderID in
    match plaintext with
    | Panic w => (Panic w, s)
    | Err err => sendErr (Errorf_wsuf "failed to decrypt message: " err ", tampered message") s
    | Ok plaintext =>
        match Unmarshal plaintext with
        | Panic w => (Panic w, s)
        | Err err => sendErr (Errorf_w "failed to unmarshal message: " err) s
        | Ok msg => receiveTssMessage msg s
        end
    end.

Definition receiveBroadcastTssMessage (ids : fileStore) (rawMsg : string) :
    M PartySession (Res unit) := λ s,
  match Unmarshal rawMsg with
  | Panic w => (Panic w, s)
  | Err err => sendErr (Errorf_w "failed to unmarshal message: " err) s
  | Ok msg =>
      match VerifyMessage PartyID_json ids msg with
      | Panic w => (Panic w, s)
      | Err err => sendErr (Errorf_wsuf "failed to verify message: " err ", tampered message") s
      | Ok _ => receiveTssMessage msg s
      end
  end.

(** ** Subscriptions *)

(** [listen] is the answer of [Direct.Listen]. *)
Definition subscribeDirectTopicAsync (listen : string → Res unit) (topic : string) :
    M PartySession (Res unit) :=
  match listen topic with
  | Panic w => lift (Panic w)
  | Err e => lift (Err (Errorf_w ("failed to subscribe to direct topic " +:+ topic +:+ ": ") e))
  | Ok _ => modifyR (set_subs false (λ l, l ++ [topic]))
  end.

Definition subscribeFromPeersAsync (listen : string → Res unit) (fromIDs : list string) :
    M PartySession (Res unit) := λ s,
  let toID := PartyIDToNodeID (SelfPartyID s) in
  forR fromIDs (λ fromID s,
    match subscribeDirectTopicAsync listen (ComposeDirectTopic s fromID toID) s with
    | (Err e, s) => sendErr e s
    | r => r
    end) s.

(** The goroutine of [subscribeBroadcastAsync]. *)
Definition subscribeBroadcast (subscribed : Res unit) : M PartySession (Res unit) := λ s,
  match subscribed with
  | Panic w => (Panic w, s)
  | Err e => sendErr (Errorf_w ("failed to subscribe to broadcast topic " +:+
                        ComposeBroadcastTopic s +:+ ": ") e) s
  | Ok _ => modifyR (set_subs true id) s
  end.

(** The goroutine and the loop are independent: here the goroutine runs first. *)
Definition ListenToIncomingMessageAsync (subscribed : Res unit) (listen : string → Res unit) :
    M PartySession (Res unit) := λ s,
  (_ ←! subscribeBroadcast subscribed;
   subscribeFromPeersAsync listen (PartyIDsToNodeIDs (PartyIDs s))) s.

Definition ListenToPeersAsync (listen : string → Res unit) (peerIDs : list string) :
    M PartySession (Res unit) := subscribeFromPeersAsync listen peerIDs.

(** [unsubscribe None] is the broadcast subscription's answer. *)
Definition Close (unsubscribe : option string → Res unit) : M PartySession (Res unit) := λ s,
  if BroadcastSub s then
    (_ ←! lift (unsubscribe None);
     forR (DirectSubs s) (λ t, lift (unsubscribe (Some t)))) s
  else (Panic "nil pointer dereference", s).

(** ** Loading a share *)

(** [get] is [Kvstore.Get], [decode] json.Unmarshal into [dest]. *)
Definition LoadOldShareDataGeneric {D} (s : PartySession) (get : string → Res string)
    (decode : string → Res D) (walletID : string) (version : Z) : Res D :=
  keyData ← (if 0 <? version then get (ComposeKey s (WalletIDWithVersion walletID version))
             else Ok EmptyString);
  keyData ← (if version =? 0 then get (ComposeKey s walletID) else Ok keyData);
  wrap_err "failed to unmarshal wallet data: " (decode keyData).

End session.

(** ** Properties: names *)

(** Node names that survive the way through a party's key: no separator, no
    surrounding white space, no leading zero byte.  UUIDs are such names. *)
Definition node_name (n : string) : bool :=
  no_char colon n && trimmed n && no_lead_zero n.

Lemma no_lead_zero_app n c s : no_lead_zero n = true → byte_of c ≠ 0 →
  no_lead_zero (n +:+ String c s) = true.
Proof. destruct n as [|d n]; cbn; [|done]. intros _ Hc. by apply negb_true_iff, Z.eqb_neq. Qed.

Lemma partyKey_bytes n v : node_name n = true →
  Bytes (partyKey n v) =
  if v =? BackwardCompatibleVersion then n else n +:+ String colon (fmt_d v).
Proof.
  intros [[Hc Ht]%andb_true_iff Hz]%andb_true_iff. unfold partyKey.
  destruct (v =? BackwardCompatibleVersion); [by apply Bytes_SetBytes|].
  change (":" +:+ fmt_d v) with (String colon (fmt_d v)).
  apply Bytes_SetBytes. by apply no_lead_zero_app.
Qed.

Lemma partyKey_nonneg n v : 0 ≤ partyKey n v.
Proof. unfold partyKey. destruct (v =? _); apply SetBytes_bound. Qed.

Lemma extractSender_topic a b c from rest :
  no_char colon a = true → no_char colon b = true → no_char colon c = true →
  no_char colon from = true →
  extractSenderIDFromDirectTopic
    (a +:+ String colon (b +:+ String colon (c +:+ String colon (from +:+ String colon rest)))) =
  from.
Proof.
  intros Ha Hb Hc Hf. unfold extractSenderIDFromDirectTopic.
  rewrite (SplitN_app colon a _ 3), (SplitN_app colon b _ 2), (SplitN_app colon c _ 1),
    (SplitN_app colon from _ 0) by done. done.
Qed.

Lemma partyKey_inj n n' v v' : node_name n = true → node_name n' = true →
  partyKey n v = partyKey n' v' → n = n' ∧ v = v'.
Proof.
  intros Hn Hn' H. apply (f_equal Bytes) in H. rewrite !partyKey_bytes in H by done.
  apply andb_true_iff in Hn as [[Hc _]%andb_true_iff _].
  apply andb_true_iff in Hn' as [[Hc' _]%andb_true_iff _].
  destruct (Z.eqb_spec v BackwardCompatibleVersion) as [->|Hv],
    (Z.eqb_spec v' BackwardCompatibleVersion) as [->|Hv'].
  - done.
  - subst n. rewrite no_char_app in Hc. by apply andb_true_iff in Hc as [_ Hc].
  - subst n'. rewrite no_char_app in Hc'. by apply andb_true_iff in Hc' as [_ Hc'].
  - apply cut_unique in H as [-> H]; [|done..]. by apply fmt_d_inj in H.
Qed.

Section names.
Context `{T : TssLib} `{!TssLibSpec T}.

Lemma KeyInt_Create uuid n label v : KeyInt (CreatePartyID uuid n label v) = partyKey n v.
Proof. apply KeyInt_New, partyKey_nonneg. Qed.

Lemma PartyIDToNodeID_Create uuid n label v : node_name n = true →
  PartyIDToNodeID (Some (CreatePartyID uuid n label v)) = n.
Proof.
  intros Hn. unfold PartyIDToNodeID. rewrite KeyInt_Create, partyKey_bytes by done.
  apply andb_true_iff in Hn as [[Hc Ht]%andb_true_iff Hz]. apply bool_decide_eq_true in Ht.
  destruct (v =? _); [by rewrite Cut_none|by rewrite Cut_app].
Qed.

(** A party id keeps the node it was made for: for every version, also the
    unversioned one, the session layer and the identity store both read the
    node's name back from the key. *)
Theorem CreatePartyID_roundtrip uuid n label v (Hn : node_name n = true) :
  PartyIDToNodeID (Some (CreatePartyID uuid n label v)) = n ∧
  partyIDToNodeID (Some (CreatePartyID uuid n label v)) = Ok n.
Proof.
  split; [by apply PartyIDToNodeID_Create|].
  unfold partyIDToNodeID. rewrite KeyInt_Create, partyKey_bytes by done.
  apply andb_true_iff in Hn as [[Hc _]%andb_true_iff _].
  destruct (v =? _); [by rewrite Split_none|by rewrite Split_head].
Qed.

(** Keys identify parties: two party ids are the same party for the
    protocol exactly when they have the same node and the same version, so the
    old and the new committee of a resharing never share a key. *)
Theorem CreatePartyID_key_inj u u' l l' n n' v v'
    (Hn : node_name n = true) (Hn' : node_name n' = true) :
  ComparePartyIDs (CreatePartyID u n l v) (CreatePartyID u' n' l' v') = true ↔
  n = n' ∧ v = v'.
Proof.
  unfold ComparePartyIDs. rewrite String.eqb_eq, !KeyInt_Create. split.
  - intros H. apply partyKey_inj; [done..|].
    rewrite <-(SetBytes_Bytes (partyKey n v)), H by apply partyKey_nonneg.
    apply SetBytes_Bytes, partyKey_nonneg.
  - by intros [-> ->].
Qed.

End names.

(** Two versions of one wallet have different keys. *)
Lemma versioned_ne w v v' : 0 ≤ v → 0 ≤ v' → v ≠ v' →
  WalletIDWithVersion w v ≠ WalletIDWithVersion w v'.
Proof.
  unfold WalletIDWithVersion. intros Hv Hv' Hne H.
  destruct (Z.ltb_spec 0 v), (Z.ltb_spec 0 v'); [| | |lia].
  - apply app_inj_l_s in H. apply app_inj_l_s in H. by apply fmt_d_inj in H.
  - apply (f_equal String.length) in H. rewrite length_app_s in H. cbn in H. lia.
  - apply (f_equal String.length) in H. rewrite length_app_s in H. cbn in H. lia.
Qed.

(** Storage keys of different versions of a wallet, and of different wallets
    with ids of one length, never collide. *)
Theorem WalletIDWithVersion_inj w w' v v' (Hlen : String.length w = String.length w')
    (Hv : 0 ≤ v) (Hv' : 0 ≤ v') :
  WalletIDWithVersion w v = WalletIDWithVersion w' v' → w = w' ∧ v = v'.
Proof.
  unfold WalletIDWithVersion. intros H.
  destruct (Z.ltb_spec 0 v), (Z.ltb_spec 0 v').
  - apply app_inj_len_s in H as [-> H]; [|done]. apply app_inj_l_s in H.
    by apply fmt_d_inj in H.
  - subst w'. rewrite length_app_s in Hlen. cbn in Hlen. lia.
  - subst w. rewrite length_app_s in Hlen. cbn in Hlen. lia.
  - split; [done|lia].
Qed.

(** The share is looked up under one key only: the versioned one for a
    positive version, the plain one for version 0, none for a negative version;
    an error of the store is returned as it is. *)
Theorem LoadOldShareDataGeneric_key `{C : Crypto} `{T : TssLib} {D} (s : PartySession)
    get (decode : string → Res D) w v :
  LoadOldShareDataGeneric s get decode w v =
  let load := λ r, r ≫= λ data, wrap_err "failed to unmarshal wallet data: " (decode data) in
  if 0 <? v then load (get (ComposeKey s (w +:+ "_v" +:+ fmt_d v)))
  else if v =? 0 then load (get (ComposeKey s w))
  else load (Ok EmptyString).
Proof.
  unfold LoadOldShareDataGeneric, WalletIDWithVersion. cbv zeta.
  destruct (Z.ltb_spec 0 v) as [Hv|Hv]; cbn.
  - destruct (Z.eqb_spec v 0); [lia|]. by destruct (get _).
  - destruct (Z.eqb_spec v 0); done.
Qed.

(** ** Properties: the way of a message *)

#[local] Arguments SignMessage : simpl never.
#[local] Arguments VerifyMessage : simpl never.
#[local] Arguments EncryptMessage : simpl never.
#[local] Arguments DecryptMessage : simpl never.
#[local] Arguments MarshalTssMessage : simpl never.
#[local] Arguments NewTssMessage : simpl never.
#[local] Arguments PartyIDToNodeID : simpl never.

Section messages.
Context `{C : Crypto} `{T : TssLib}.
Variable answer : wire_event → Res unit.
Variable nonce_for : string → string.
Variable PartyID_json : PartyID → json.
Variable Unmarshal : string → Res (TssMessage T).

Lemma forR_deref {A} (l : list (option A)) (s : PartySession) :
  Forall is_Some l →
  forR l (λ id, _ ←! deref id; lift (Ok tt)) s = (Ok tt, s).
Proof.
  induction 1 as [|x l [a ->] _ IH]; [done|]. cbn [forR]. unfold bindR at 1.
  cbn. apply IH.
Qed.

(** A message a session is meant to take: a broadcast, or one addressed to it. *)
Definition for_me (self : PartyID) (m : TssMessage T) : bool :=
  (tm_IsBroadcast m && bool_decide (To m = [])) || is_to_self self (To m).

Lemma receiveTssMessage_accepts (s : PartySession) m round from self :
  Forall is_Some (To m) →
  GetRoundFunc s (tm_MsgBytes m) (SelfPartyID s) (tm_IsBroadcast m) = Ok round →
  tm_From m = Some from → SelfPartyID s = Some self → for_me self m = true →
  receiveTssMessage m s =
    (Ok tt, set_updates (λ l, l ++ [(tm_MsgBytes m, Some from, tm_IsBroadcast m)]) s).
Proof.
  intros Hto Hr Hf Hs Hme. unfold receiveTssMessage. unfold bindR at 1.
  rewrite forR_deref by done. rewrite Hr. unfold bindR. rewrite Hf, Hs. cbn.
  unfold for_me in Hme. by rewrite Hme.
Qed.

Lemma receiveTssMessage_updates (s : PartySession) m :
  updates (exec (receiveTssMessage m) s) = updates s ∨
  updates (exec (receiveTssMessage m) s) =
    updates s ++ [(tm_MsgBytes m, tm_From m, tm_IsBroadcast m)] ∧
  ∃ self, SelfPartyID s = Some self ∧ for_me self m = true.
Proof.
  unfold exec. destruct (receiveTssMessage m s) as [o s'] eqn:E. cbn [snd].
  assert (∀ l, ∃ r, forR l (λ id : option PartyID, _ ←! deref id; lift (Ok tt)) s = (r, s))
    as Hl.
  { induction l as [|[a|] l [r IH]]; [by eexists|exists r|eexists; reflexivity].
    cbn [forR]. unfold bindR at 1. cbn. exact IH. }
  destruct (Hl (To m)) as [r Hr].
  unfold receiveTssMessage in E. unfold bindR at 1 in E. rewrite Hr in E.
  destruct r; [|injection E as <- <-; by left..].
  destruct (GetRoundFunc _ _ _ _); [|injection E as <- <-; by left..].
  unfold bindR in E. destruct (tm_From m) as [from|]; [|injection E as <- <-; by left].
  destruct (SelfPartyID s) as [self|]; [|injection E as <- <-; by left].
  cbn in E. change (tm_IsBroadcast m && bool_decide (To m = []) || is_to_self self (To m))
    with (for_me self m) in E.
  destruct (for_me self m) eqn:Hme; injection E as <- <-; [right|by left].
  split; [done|]. by exists self.
Qed.

(** C17: the party only sees broadcasts whose signature verified: receiving bytes
    on the broadcast topic either leaves the party alone or updates it once, with
    the content of a decoded message that the identity store accepted and that is
    a broadcast or addressed to this party. *)
Theorem receiveBroadcast_only_verified ids raw (s : PartySession) :
  let s' := exec (receiveBroadcastTssMessage PartyID_json Unmarshal ids raw) s in
  updates s' = updates s ∨
  ∃ m self, Unmarshal raw = Ok m ∧ VerifyMessage PartyID_json ids m = Ok tt ∧
    SelfPartyID s = Some self ∧ for_me self m = true ∧
    updates s' = updates s ++ [(tm_MsgBytes m, tm_From m, tm_IsBroadcast m)].
Proof.
  cbv zeta. unfold exec, receiveBroadcastTssMessage.
  destruct (Unmarshal raw) as [m| |]; [|by left..].
  destruct (VerifyMessage PartyID_json ids m) as [[]| |] eqn:Hv; [|by left..].
  destruct (receiveTssMessage_updates s m) as [H|(H & self & Hs & Hme)]; [by left|].
  right. exists m, self. by split_and!.
Qed.

(** What comes on a direct topic is decrypted with the key of the sender the
    topic names, except on the node's own topic: the party is updated at most
    once, with the content of the decoded plaintext. *)
Theorem receiveP2P_only_decrypted ids topic cipher (s : PartySession) :
  let s' := exec (receiveP2PTssMessage Unmarshal ids topic cipher) s in
  let sender := extractSenderIDFromDirectTopic topic in
  updates s' = updates s ∨
  ∃ plain m self,
    ((sender = PartyIDToNodeID (SelfPartyID s) ∧ plain = cipher) ∨
     (sender ≠ PartyIDToNodeID (SelfPartyID s) ∧ DecryptMessage ids cipher sender = Ok plain)) ∧
    Unmarshal plain = Ok m ∧ SelfPartyID s = Some self ∧ for_me self m = true ∧
    updates s' = updates s ++ [(tm_MsgBytes m, tm_From m, tm_IsBroadcast m)].
Proof.
  cbv zeta. unfold exec, receiveP2PTssMessage.
  set (sender := extractSenderIDFromDirectTopic topic).
  destruct (String.eqb sender "") eqn:He; [by left|].
  destruct (String.eqb_spec sender (PartyIDToNodeID (SelfPartyID s))) as [Heq|Hne].
  - destruct (Unmarshal cipher) as [m| |] eqn:Hm; [|by left..].
    destruct (receiveTssMessage_updates s m) as [H|(H & self & Hs & Hme)]; [by left|].
    right. exists cipher, m, self. split_and!; auto.
  - destruct (DecryptMessage ids cipher sender) as [plain| |] eqn:Hd; [|by left..].
    destruct (Unmarshal plain) as [m| |] eqn:Hm; [|by left..].
    destruct (receiveTssMessage_updates s m) as [H|(H & self & Hs & Hme)]; [by left|].
    right. exists plain, m, self. split_and!; auto.
Qed.

(** The sender a direct message claims is not compared with the sender whose
    key decrypted it, and a broadcast that comes on a direct topic needs no
    signature: any peer that shares a key with this node can make its party take
    an unsigned broadcast in the name of any other party. *)
Theorem receiveP2P_impersonation ids topic cipher plain (s : PartySession) m self victim round
    (Hsender : extractSenderIDFromDirectTopic topic ≠ "")
    (Hpeer : extractSenderIDFromDirectTopic topic ≠ PartyIDToNodeID (SelfPartyID s))
    (Hdec : DecryptMessage ids cipher (extractSenderIDFromDirectTopic topic) = Ok plain)
    (Hm : Unmarshal plain = Ok m) (Hself : SelfPartyID s = Some self)
    (Hfrom : tm_From m = Some victim) (Hsig : tm_Signature m = None)
    (Hb : tm_IsBroadcast m = true) (Hto : tm_To m = None)
    (Hround : GetRoundFunc s (tm_MsgBytes m) (Some self) true = Ok round) :
  VerifyMessage PartyID_json ids m = Err (errors_New "message has no signature") ∧
  updates (exec (receiveP2PTssMessage Unmarshal ids topic cipher) s) =
    updates s ++ [(tm_MsgBytes m, Some victim, true)].
Proof.
  split; [unfold VerifyMessage; by rewrite Hsig|].
  unfold exec, receiveP2PTssMessage.
  destruct (String.eqb_spec (extractSenderIDFromDirectTopic topic) ""); [done|].
  destruct (String.eqb_spec (extractSenderIDFromDirectTopic topic)
              (PartyIDToNodeID (SelfPartyID s))); [done|].
  rewrite Hdec, Hm. rewrite (receiveTssMessage_accepts s m round victim self).
  - by rewrite Hb.
  - unfold To. by rewrite Hto.
  - by rewrite Hb, Hself.
  - done.
  - done.
  - unfold for_me, To. by rewrite Hb, Hto.
Qed.

(** C18: broadcasts arrive: what a session publishes for a broadcast of its party
    makes every session that registered the sender's identity, and understands
    the round, update its party with the same bytes from the same party. *)
Theorem broadcast_delivery `{!CryptoSpec C} ids_a ids_b (a b : PartySession) data p node sg raw
    self round
    (Hnode : partyIDToNodeID (Some p) = Ok node)
    (Hreg : publicKeys ids_b !! node = Some (ed25519_Public (privateKey ids_a)))
    (Hself_a : is_Some (SelfPartyID a)) (Hself : SelfPartyID b = Some self)
    (Hround : GetRoundFunc b data (Some self) true = Ok round)
    (Hsent : answer (Publish (ComposeBroadcastTopic a) raw) = Ok tt)
    (Hsign : SignMessage PartyID_json ids_a
               (NewTssMessage (WalletID a) data true (Some p) None) = Ok sg)
    (Hraw : MarshalTssMessage PartyID_json (set_tm_Signature
              (NewTssMessage (WalletID a) data true (Some p) None) (Some sg)) = Ok raw)
    (Hdec : Unmarshal raw = Ok (set_tm_Signature
              (NewTssMessage (WalletID a) data true (Some p) None) (Some sg))) :
  HandleTssMessage answer nonce_for PartyID_json ids_a
    (Ok (data, mkRouting (Some p) None true)) a =
    (Ok tt, set_wire (λ l, l ++ [Publish (ComposeBroadcastTopic a) raw]) a) ∧
  receiveBroadcastTssMessage PartyID_json Unmarshal ids_b raw b =
    (Ok tt, set_updates (λ l, l ++ [(data, Some p, true)]) b).
Proof.
  destruct Hself_a as [self_a Hself_a]. split.
  - unfold HandleTssMessage. cbn. unfold bindR. cbn. rewrite Hself_a. cbn.
    rewrite Hsign. cbn. rewrite Hraw. unfold call, bindR. cbn. by rewrite Hsent.
  - unfold receiveBroadcastTssMessage. rewrite Hdec.
    unfold SignMessage in Hsign. apply Res_bind_Ok in Hsign as (bytes & Hb & Hsg).
    apply wrap_err_Ok in Hb. unfold ed25519_Sign_go in Hsg.
    case_bool_decide as Hl; [|done]. injection Hsg as <-.
    rewrite (VerifyMessage_intro PartyID_json ids_b _ (ed25519_Sign (privateKey ids_a) bytes) p
      node (ed25519_Public (privateKey ids_a)) bytes);
      eauto using ed25519_Public_length, ed25519_Verify_Sign.
    rewrite (receiveTssMessage_accepts b _ round p self); cbn; auto.
    by rewrite Hself.
Qed.

(** C19: direct messages arrive: for two sessions that share a symmetric key, what
    one sends to a party is an encrypted message on the direct topic, and the
    session of that party decrypts it and updates its party with the same bytes
    from the same party. *)
Theorem direct_delivery `{!CryptoSpec C} ids_a ids_b (a b : PartySession) data p q self_a self key
    raw isB round
    (Hself_a : SelfPartyID a = Some self_a) (Hself : SelfPartyID b = Some self)
    (Hq : ComparePartyIDs q self = true)
    (Hab : PartyIDToNodeID (Some self_a) ≠ PartyIDToNodeID (Some q))
    (Hba : PartyIDToNodeID (Some self_a) ≠ PartyIDToNodeID (Some self))
    (Hname : PartyIDToNodeID (Some self_a) ≠ "")
    (Htopic : extractSenderIDFromDirectTopic
       (ComposeDirectTopic a (PartyIDToNodeID (Some self_a)) (PartyIDToNodeID (Some q))) =
       PartyIDToNodeID (Some self_a))
    (Hka : symmetricKeys ids_a !! PartyIDToNodeID (Some q) = Some (Some key))
    (Hkb : symmetricKeys ids_b !! PartyIDToNodeID (Some self_a) = Some (Some key))
    (Hlen : String.length key = 32%nat)
    (Hnonce : String.length (nonce_for (PartyIDToNodeID (Some q))) = NonceSize)
    (Hround : GetRoundFunc b data (Some self) isB = Ok round)
    (Hsent : ∀ w, answer w = Ok tt)
    (Hraw : MarshalTssMessage PartyID_json
              (NewTssMessage (WalletID a) data isB (Some p) (Some [Some q])) = Ok raw)
    (Hdec : Unmarshal raw = Ok (NewTssMessage (WalletID a) data isB (Some p) (Some [Some q]))) :
  let topic := ComposeDirectTopic a (PartyIDToNodeID (Some self_a)) (PartyIDToNodeID (Some q)) in
  ∃ ct,
    HandleTssMessage answer nonce_for PartyID_json ids_a
      (Ok (data, mkRouting (Some p) (Some [Some q]) isB)) a =
      (Ok tt, set_wire (λ l, l ++ [SendToOther topic ct]) a) ∧
    receiveP2PTssMessage Unmarshal ids_b topic ct b =
      (Ok tt, set_updates (λ l, l ++ [(data, Some p, isB)]) b).
Proof.
  intros topic.
  destruct (encrypt_decrypt_agree ids_a ids_b _ _ key raw _ Hka Hkb Hlen Hnonce)
    as (ct & Henc & Hct).
  exists ct. split.
  - unfold HandleTssMessage. cbn. unfold bindR. cbn. rewrite Hself_a. cbn.
    rewrite andb_false_r, Hraw. unfold bindR, sendDirect.
    destruct (String.eqb_spec (PartyIDToNodeID (Some self_a)) (PartyIDToNodeID (Some q)));
      [done|].
    rewrite Henc. unfold call, bindR. cbn. by rewrite Hsent.
  - unfold receiveP2PTssMessage. unfold topic at 1 2 3. rewrite Htopic.
    destruct (String.eqb_spec (PartyIDToNodeID (Some self_a)) ""); [done|].
    rewrite Hself.
    destruct (String.eqb_spec (PartyIDToNodeID (Some self_a)) (PartyIDToNodeID (Some self)));
      [done|].
    rewrite Hct, Hdec. rewrite (receiveTssMessage_accepts b _ round p self).
    + done.
    + apply Forall_singleton. by exists q.
    + cbn. by rewrite Hself.
    + done.
    + done.
    + unfold for_me, is_to_self, NewTssMessage. cbn -[ComparePartyIDs]. by rewrite Hq, orb_true_r.
Qed.

End messages.

(** ** Witnesses *)

#[local] Existing Instance toy_crypto.
#[local] Existing Instance toy_crypto_spec.
#[local] Existing Instance tss_ref.
#[local] Existing Instance tss_ref_spec.

Lemma CreatePartyID_roundtrip_witness :
  PartyIDToNodeID (Some (CreatePartyID "u" "node0" "keygen" 1)) = "node0" ∧
  partyIDToNodeID (Some (CreatePartyID "u" "node0" "keygen" 1)) = Ok "node0".
Proof. apply (CreatePartyID_roundtrip "u" "node0" "keygen" 1). by vm_compute. Defined.

Lemma CreatePartyID_key_inj_witness :
  ComparePartyIDs (CreatePartyID "u" "node0" "keygen" 1)
    (CreatePartyID "u'" "node0" "resharing" 2) = true ↔ "node0" = "node0" ∧ 1 = 2.
Proof. apply (CreatePartyID_key_inj "u" "u'"); by vm_compute. Defined.

Lemma WalletIDWithVersion_inj_witness :
  WalletIDWithVersion "wallet-a" 2 = WalletIDWithVersion "wallet-a" 2 →
  "wallet-a" = "wallet-a" ∧ 2 = 2.
Proof. apply (WalletIDWithVersion_inj "wallet-a" "wallet-a" 2 2); [reflexivity|lia..]. Defined.

Definition toy_pj (p : @PartyID tss_ref) : json :=
  JObj [("id", JStr (rId p)); ("key", JInt (rKey p))].

Definition toy_party (n : string) : party_id := CreatePartyID "uuid" n "keygen" 1.

Definition toy_session (me : string) : PartySession :=
  mkPartySession "wallet" 1 ["nodeA"; "nodeB"] (Some (toy_party me))
    [Some (toy_party "nodeA"); Some (toy_party "nodeB")] 1 "keygen:broadcast:ecdsa:wallet"
    (λ f t, "keygen:direct:ecdsa:" +:+ f +:+ ":" +:+ t +:+ ":wallet") (λ w, "ecdsa:" +:+ w)
    (λ _ _ _, Ok (mkRoundInfo 0 "KGRound1Message" "")) SessionTypeECDSA "" None true [] [] [] [].

Definition toy_ids (me other : string) : fileStore :=
  toy_store (pad_to 64 me) {[other := @ed25519_Public toy_crypto (pad_to 64 other)]}
    {[other := Some toy_key32]}.

Definition toy_bcast : TssMessage tss_ref :=
  set_tm_Signature (NewTssMessage "wallet" (Some "share") true (Some (toy_party "nodeA")) None)
    (match SignMessage toy_pj (toy_ids "nodeA" "nodeB")
       (NewTssMessage "wallet" (Some "share") true (Some (toy_party "nodeA")) None) with
     | Ok sg => Some sg | _ => None end).

Definition toy_direct : TssMessage tss_ref :=
  NewTssMessage "wallet" (Some "share") false (Some (toy_party "nodeA"))
    (Some [Some (toy_party "nodeB")]).

(** An unsigned broadcast in the name of node C. *)
Definition toy_forged : TssMessage tss_ref :=
  NewTssMessage "wallet" (Some "forged") true (Some (toy_party "nodeC")) None.

Definition toy_raw (m : TssMessage tss_ref) : string :=
  match MarshalTssMessage toy_pj m with Ok r => r | _ => "" end.

Definition toy_decode (raw : string) : Res (TssMessage tss_ref) :=
  if String.eqb raw (toy_raw toy_bcast) then Ok toy_bcast
  else if String.eqb raw (toy_raw toy_direct) then Ok toy_direct
  else if String.eqb raw (toy_raw toy_forged) then Ok toy_forged
  else Err (errors_New "invalid character").

Lemma broadcast_delivery_witness :
  updates (exec (receiveBroadcastTssMessage toy_pj toy_decode (toy_ids "nodeB" "nodeA")
                   (toy_raw toy_bcast)) (toy_session "nodeB")) =
  [(Some "share", Some (toy_party "nodeA"), true)].
Proof.
  destruct (broadcast_delivery (λ _, Ok tt) (λ _, "123456789012") toy_pj toy_decode
    (toy_ids "nodeA" "nodeB") (toy_ids "nodeB" "nodeA") (toy_session "nodeA")
    (toy_session "nodeB") (Some "share") (toy_party "nodeA") "nodeA"
    (default "" (tm_Signature toy_bcast)) (toy_raw toy_bcast) (toy_party "nodeB")
    (mkRoundInfo 0 "KGRound1Message" "")) as [_ H];
    [by vm_compute|by vm_compute|by eexists|reflexivity|reflexivity|reflexivity
    |by vm_compute|by vm_compute|by vm_compute|].
  unfold exec. rewrite H. reflexivity.
Defined.

Lemma direct_delivery_witness :
  ∃ ct, receiveP2PTssMessage toy_decode (toy_ids "nodeB" "nodeA")
          "keygen:direct:ecdsa:nodeA:nodeB:wallet" ct (toy_session "nodeB") =
        (Ok tt, set_updates (λ l, l ++ [(Some "share", Some (toy_party "nodeA"), false)])
                  (toy_session "nodeB")).
Proof.
  destruct (direct_delivery (λ _, Ok tt) (λ _, "123456789012") toy_pj toy_decode
    (toy_ids "nodeA" "nodeB") (toy_ids "nodeB" "nodeA") (toy_session "nodeA")
    (toy_session "nodeB") (Some "share") (toy_party "nodeA") (toy_party "nodeB")
    (toy_party "nodeA") (toy_party "nodeB") toy_key32 (toy_raw toy_direct) false
    (mkRoundInfo 0 "KGRound1Message" "")) as (ct & _ & H);
    [reflexivity|reflexivity|by vm_compute|by vm_compute|by vm_compute|by vm_compute
    |by vm_compute|by vm_compute|by vm_compute|by vm_compute|reflexivity|reflexivity|done
    |by vm_compute|by vm_compute|].
  exists ct. exact H.
Defined.

(** Node A's own key for node B, used to speak for node C. *)
Definition toy_forged_cipher : string :=
  match EncryptMessage (toy_ids "nodeA" "nodeB") (toy_raw toy_forged) "nodeB" "123456789012" with
  | Ok c => c | _ => "" end.

Lemma receiveP2P_impersonation_witness :
  updates (exec (receiveP2PTssMessage toy_decode (toy_ids "nodeB" "nodeA")
    "keygen:direct:ecdsa:nodeA:nodeB:wallet" toy_forged_cipher) (toy_session "nodeB")) =
  [(Some "forged", Some (toy_party "nodeC"), true)].
Proof.
  apply (receiveP2P_impersonation toy_pj toy_decode (toy_ids "nodeB" "nodeA")
    "keygen:direct:ecdsa:nodeA:nodeB:wallet" toy_forged_cipher (toy_raw toy_forged)
    (toy_session "nodeB") toy_forged (toy_party "nodeB") (toy_party "nodeC")
    (mkRoundInfo 0 "KGRound1Message" "")); first [reflexivity | by vm_compute].
Defined.
