(* ===== verification/KeyStore.v ===== *)
(** * pkg/keyinfo and the stores beneath

    Key shares live in Badger ([kvstore.KVStore]), what a key is - its committee,
    threshold and version - in Consul, under [threshold_keyinfo/].  The two stores
    are interfaces: a class of operations on a state and a class of laws; the
    clients' theorems are proved against the laws, and a map that forgets nothing
    is an instance of both. *)

From stdpp Require Import base gmap list strings.
From Stdlib Require Import ZArith Lia Ascii.
From S2P Require Import Prelude.
From S2P Require Import GoStrings.
From S2P Require Import Json.

(** ** Interfaces *)

(** kvstore.KVStore. *)
Class KVStore := {
  kv_db : Type;
  kv_Get : kv_db → string → Res string;
  kv_Put : string → string → M kv_db (Res unit);
}.

Class KVStoreSpec (K : KVStore) := {
  (** a successful write is read back, other keys keep their value *)
  kv_Get_Put k v d d' : kv_Put k v d = (Ok tt, d') → kv_Get d' k = Ok v;
  kv_Get_Put_ne k k' v d d' : k ≠ k' → kv_Put k v d = (Ok tt, d') → kv_Get d' k' = kv_Get d k';
}.

(** infra.ConsulKV, on single keys; [None] is a nil pair. *)
Class ConsulKV := {
  consul_db : Type;
  consul_Get : consul_db → string → Res (option string);
  consul_Put : string → string → M consul_db (Res unit);
}.

Class ConsulKVSpec (K : ConsulKV) := {
  consul_Get_Put k v d d' : consul_Put k v d = (Ok tt, d') → consul_Get d' k = Ok (Some v);
  consul_Get_Put_ne k k' v d d' :
    k ≠ k' → consul_Put k v d = (Ok tt, d') → consul_Get d' k' = consul_Get d k';
}.

Definition badger_ErrKeyNotFound : error := Sentinel "badger.ErrKeyNotFound" "Key not found".

Definition kv_ref : KVStore := {|
  kv_db := gmap string string;
  kv_Get d k := of_option badger_ErrKeyNotFound (d !! k);
  kv_Put k v := modifyR (insert k v);
|}.

Definition kv_ref_spec : KVStoreSpec kv_ref.
Proof.
  split; cbn; unfold modifyR.
  - intros k v d d' [= <-]. by rewrite lookup_insert_eq.
  - intros k k' v d d' Hk [= <-]. by rewrite lookup_insert_ne.
Qed.

Definition consul_ref : ConsulKV := {|
  consul_db := gmap string string;
  consul_Get d k := Ok (d !! k);
  consul_Put k v := modifyR (insert k v);
|}.

Definition consul_ref_spec : ConsulKVSpec consul_ref.
Proof.
  split; cbn; unfold modifyR.
  - intros k v d d' [= <-]. by rewrite lookup_insert_eq.
  - intros k k' v d d' Hk [= <-]. by rewrite lookup_insert_ne.
Qed.

(** ** keyinfo.go *)

Record KeyInfo := mkKeyInfo {
  ki_ParticipantPeerIDs : list string;
  ki_Threshold : Z;
  ki_Version : Z;
}.

#[export] Instance KeyInfo_eq_dec : EqDecision KeyInfo.
Proof. solve_decision. Defined.

(** The order and names of the struct's tags. *)
Definition KeyInfo_json (i : KeyInfo) : json :=
  JObj [("participant_peer_ids", JArr (JStr <$> ki_ParticipantPeerIDs i));
        ("threshold", JInt (ki_Threshold i)); ("version", JInt (ki_Version i))].

Definition composeKey (walletID : string) : string := "threshold_keyinfo/" +:+ walletID.

Section store.
Context `{K : ConsulKV}.
(** json.Unmarshal into a [KeyInfo]. *)
Variable Unmarshal : string → Res KeyInfo.

Definition Get (db : consul_db) (walletID : string) : Res KeyInfo :=
  pair ← wrap_err "failed to get key info: " (consul_Get db (composeKey walletID));
  match pair with
  | None => Err (errors_New "key info not found")
  | Some value => wrap_err "failed to unmarshal key info: " (Unmarshal value)
  end.

Definition Save (walletID : string) (info : KeyInfo) : M consul_db (Res unit) := λ db,
  let bytes := encode (KeyInfo_json info) in
  match consul_Put (composeKey walletID) bytes db with
  | (Err e, db') => (Err (Errorf_w "failed to save key info: " e), db')
  | r => r
  end.

Lemma composeKey_inj w w' : composeKey w = composeKey w' → w = w'.
Proof. apply app_inj_l_s. Qed.

Lemma Save_Get `{!ConsulKVSpec K} w info db db' :
  Unmarshal (encode (KeyInfo_json info)) = Ok info →
  Save w info db = (Ok tt, db') → Get db' w = Ok info.
Proof.
  intros Hdec. unfold Save, Get.
  destruct (consul_Put _ _ db) as [[[]| |] d] eqn:Hput; [|done..].
  intros [= <-]. rewrite (consul_Get_Put _ _ _ _ Hput). cbn -[encode]. by rewrite Hdec.
Qed.

Lemma Save_Get_ne `{!ConsulKVSpec K} w w' info db db' :
  w ≠ w' → Save w info db = (Ok tt, db') → Get db' w' = Get db w'.
Proof.
  intros Hne. assert (composeKey w ≠ composeKey w') as Hk by (by intros H%composeKey_inj).
  unfold Save, Get.
  destruct (consul_Put _ _ db) as [[[]| |] d] eqn:Hput; [|done..].
  intros [= <-]. by rewrite (consul_Get_Put_ne _ _ _ _ _ Hk Hput).
Qed.

End store.
