(* ===== verification/BadgerKV.v ===== *)
(** * pkg/kvstore/badger.go: the key-value operations over badger's transactions

    Badger itself is an interface: databases, transactions with what they see, and the
    two functions that run a closure in a transaction.  The operations of
    [BadgerKVStore] are closures that assign to a variable of their caller; they refine
    a finite map, and are an instance of the [KVStore] the sessions are proved
    against. *)

From stdpp Require Import base gmap list strings.
From Stdlib Require Import ZArith Lia.
From S2P Require Import Prelude.
From S2P Require Import GoStrings.
From S2P Require Import KeyStore.

(** ** Badger *)

Definition badger_ErrEmptyKey : error := Sentinel "badger.ErrEmptyKey" "Key cannot be empty".
Definition badger_ErrDBClosed : error := Sentinel "badger.ErrDBClosed" "DB Closed".

(** [View] runs a closure with variables of type [S]. *)
Class BadgerDB := {
  badger_DB : Type;
  badger_Txn : Type;
  badger_Item : Type;
  badger_Iterator : Type;
  db_Update : M badger_Txn (Res unit) → M badger_DB (Res unit);
  db_View : ∀ {S}, (badger_Txn → M S (Res unit)) → badger_DB → M S (Res unit);
  db_Close : M badger_DB (Res unit);
  txn_Set : string → string → M badger_Txn (Res unit);
  txn_Delete : string → M badger_Txn (Res unit);
  txn_Get : badger_Txn → string → Res badger_Item;
  item_Value : ∀ {S}, badger_Item → (string → M S (Res unit)) → M S (Res unit);
  txn_NewIterator : badger_Txn → badger_Iterator;
  it_Rewind : badger_Iterator → badger_Iterator;
  it_Valid : badger_Iterator → bool;
  it_Key : badger_Iterator → string;
  it_Next : badger_Iterator → badger_Iterator;
}.

(** What its documentation promises.  [contents] is what is committed, [view] what a
    transaction sees, [ahead] the keys an iterator has left. *)
Class BadgerDBSpec (B : BadgerDB) := {
  contents : badger_DB → gmap string string;
  closed : badger_DB → bool;
  view : badger_Txn → gmap string string;
  bytes_of : badger_Item → string;
  ahead : badger_Iterator → list string;

  (** a closure's error is returned and nothing is written; a commit may fail *)
  db_Update_spec fn d r d' : db_Update fn d = (r, d') →
    closed d' = closed d ∧
    match r with
    | Ok _ => closed d = false ∧
        ∃ t t', view t = contents d ∧ fn t = (Ok tt, t') ∧ contents d' = view t'
    | _ => contents d' = contents d
    end;
  db_View_spec {S} (fn : badger_Txn → M S (Res unit)) d s : closed d = false →
    ∃ t, view t = contents d ∧ db_View fn d s = fn t s;
  db_View_closed {S} (fn : badger_Txn → M S (Res unit)) d s : closed d = true →
    db_View fn d s = (Err badger_ErrDBClosed, s);
  db_Close_spec d r d' : db_Close d = (r, d') → r = Ok tt → closed d' = true;

  txn_Set_spec k v t t' : txn_Set k v t = (Ok tt, t') → view t' = <[k := v]> (view t);
  txn_Delete_spec k t t' : txn_Delete k t = (Ok tt, t') → view t' = delete k (view t);
  txn_Get_spec k t : k ≠ EmptyString →
    match view t !! k with
    | Some v => ∃ i, txn_Get t k = Ok i ∧ bytes_of i = v
    | None => txn_Get t k = Err badger_ErrKeyNotFound
    end;
  txn_Get_empty t : txn_Get t EmptyString = Err badger_ErrEmptyKey;
  txn_Set_empty v t : (txn_Set EmptyString v t).1 = Err badger_ErrEmptyKey;
  item_Value_spec {S} i (fn : string → M S (Res unit)) s : item_Value i fn s = fn (bytes_of i) s;

  it_start t : ahead (it_Rewind (txn_NewIterator t)) ≡ₚ (map_to_list (view t)).*1;
  it_Valid_spec i : it_Valid i = match ahead i with [] => false | _ => true end;
  it_Key_spec i k l : ahead i = k :: l → it_Key i = k ∧ ahead (it_Next i) = l;
}.

Section store.
Context `{B : BadgerDB}.

(** ** The operations *)

Definition Put (key value : string) : M badger_DB (Res unit) := db_Update (txn_Set key value).

(** The closure's variable is [result], a nil slice at first. *)
Definition BadgerKVStore_Get (b : badger_DB) (key : string) : Res (option string) :=
  let '(err, result) := db_View (λ txn : badger_Txn,
    match txn_Get txn key with
    | Ok item => item_Value item (λ val, modifyR (λ _ : option string, Some val))
    | Err err => lift (Err err)
    | Panic w => lift (Panic w)
    end) b None in
  _ ← err; Ok result.

(** The loop of [Keys]; [fuel] bounds its rounds. *)
Fixpoint collect (fuel : nat) (it : badger_Iterator) : M (list string) (Res unit) :=
  match fuel with
  | O => lift (Ok tt)
  | S fuel =>
      if it_Valid it then
        _ ←! modifyR (λ keys, keys ++ [it_Key it]); collect fuel (it_Next it)
      else lift (Ok tt)
  end.

Definition Keys (fuel : nat) (b : badger_DB) : Res (list string) :=
  let '(err, keys) := db_View (λ txn : badger_Txn,
    let it := txn_NewIterator txn in collect fuel (it_Rewind it)) b [] in
  _ ← err; Ok keys.

Definition Delete (key : string) : M badger_DB (Res unit) := db_Update (txn_Delete key).

Definition Close : M badger_DB (Res unit) := db_Close.

(** As the interface the sessions use: a nil slice has no bytes. *)
Definition badger_store : KVStore := {|
  kv_db := badger_DB;
  kv_Get b key := result ← BadgerKVStore_Get b key; Ok (default EmptyString result);
  kv_Put := Put;
|}.

(** Writes in sequence, with what each returned. *)
Inductive write := WPut (key value : string) | WDelete (key : string).

Definition perform (o : write) : M badger_DB (Res unit) :=
  match o with WPut k v => Put k v | WDelete k => Delete k end.

Fixpoint performs (l : list write) (d : badger_DB) : list (Res unit) * badger_DB :=
  match l with
  | [] => ([], d)
  | o :: l =>
      let '(r, d) := perform o d in
      let '(rs, d) := performs l d in (r :: rs, d)
  end.

(** ** Properties *)

(** The map: a write that succeeded takes effect, another one does not. *)
Definition effect (o : write) (r : Res unit) (m : gmap string string) : gmap string string :=
  match r, o with
  | Ok _, WPut k v => <[k := v]> m
  | Ok _, WDelete k => delete k m
  | _, _ => m
  end.

Fixpoint effects (l : list write) (rs : list (Res unit)) (m : gmap string string) :
    gmap string string :=
  match l, rs with
  | o :: l, r :: rs => effects l rs (effect o r m)
  | _, _ => m
  end.

(** What [Get] answers on a map. *)
Definition Get_map (m : gmap string string) (key : string) : Res (option string) :=
  if String.eqb key EmptyString then Err badger_ErrEmptyKey
  else match m !! key with Some v => Ok (Some v) | None => Err badger_ErrKeyNotFound end.

Context `{!BadgerDBSpec B}.

Lemma perform_effect o d r d' : perform o d = (r, d') →
  closed d' = closed d ∧ contents d' = effect o r (contents d) ∧
  match o, r with WPut k _, Ok _ => k ≠ EmptyString | _, _ => True end.
Proof.
  intros Hp. destruct o as [k v|k]; cbn in Hp;
    apply db_Update_spec in Hp as [Hc Hr]; (split; [done|]); destruct r as [[]|e|w]; cbn; try done.
  - destruct Hr as (_ & t & t' & Hv & Hs & ->). pose proof (txn_Set_empty v t) as He.
    split; [|by intros ->; rewrite Hs in He]. apply txn_Set_spec in Hs as ->. by rewrite Hv.
  - destruct Hr as (_ & t & t' & Hv & Hs & ->). apply txn_Delete_spec in Hs as ->.
    by rewrite Hv.
Qed.

Lemma performs_effects l d rs d' : performs l d = (rs, d') →
  closed d' = closed d ∧ contents d' = effects l rs (contents d).
Proof.
  revert d rs d'. induction l as [|o l IH]; cbn; intros d rs d' H; [by injection H as <- <-|].
  destruct (perform o d) as [r d1] eqn:Ho. destruct (performs l d1) as [rs1 d2] eqn:Hl.
  injection H as <- <-. apply perform_effect in Ho as (Hc & Hm & _).
  apply IH in Hl as [Hc' Hm']. split; [congruence|]. by rewrite Hm', Hm.
Qed.

Lemma Get_spec d key : closed d = false → BadgerKVStore_Get d key = Get_map (contents d) key.
Proof.
  intros Hd. unfold BadgerKVStore_Get, Get_map.
  match goal with |- context [db_View ?fn d None] =>
    destruct (db_View_spec fn d (None : option string) Hd) as (t & Hv & ->) end.
  destruct (String.eqb key "") eqn:Hk.
  - apply String.eqb_eq in Hk as ->. by rewrite txn_Get_empty.
  - apply String.eqb_neq in Hk. pose proof (txn_Get_spec key t Hk) as Hg. rewrite Hv in Hg.
    destruct (contents d !! key) as [v|].
    + destruct Hg as (i & -> & <-). by rewrite item_Value_spec.
    + by rewrite Hg.
Qed.

(** Every key is collected, in the iterator's order. *)
Lemma collect_ahead fuel it keys : (length (ahead it) < fuel)%nat →
  collect fuel it keys = (Ok tt, keys ++ ahead it).
Proof.
  revert it keys. induction fuel as [|fuel IH]; intros it keys Hl; [lia|]. cbn.
  rewrite it_Valid_spec. destruct (ahead it) as [|k l] eqn:Ha; [by rewrite app_nil_r|].
  destruct (it_Key_spec it k l Ha) as [Hk Hn]. unfold bindR, modifyR.
  rewrite IH by (rewrite Hn; cbn in Hl; lia). by rewrite Hk, Hn, <-app_assoc.
Qed.

Lemma Keys_spec d fuel : closed d = false → (size (contents d) < fuel)%nat →
  ∃ keys, Keys fuel d = Ok keys ∧ keys ≡ₚ (map_to_list (contents d)).*1.
Proof.
  intros Hd Hf. unfold Keys.
  match goal with |- context [db_View ?fn d []] =>
    destruct (db_View_spec fn d ([] : list string) Hd) as (t & Hv & ->) end.
  pose proof (it_start t) as Hs. rewrite Hv in Hs.
  rewrite collect_ahead; [by eexists|].
  rewrite Hs, length_fmap, length_map_to_list. done.
Qed.

(** The store is a map.  After any sequence of writes, whatever each returned, an
    open store answers as the map to which those that succeeded were applied in order:
    [Get] finds exactly its entries and refuses the empty key, [Keys] lists its keys
    without repetition, and comes to an end. *)
Theorem badger_refines_map l d rs d' key fuel :
  performs l d = (rs, d') → closed d = false →
  let m := effects l rs (contents d) in
  BadgerKVStore_Get d' key = Get_map m key ∧
  ((size m < fuel)%nat →
   ∃ keys, Keys fuel d' = Ok keys ∧ keys ≡ₚ (map_to_list m).*1 ∧ NoDup keys).
Proof.
  intros (Hc & Hm)%performs_effects Hd m. rewrite Hd in Hc.
  unfold m. rewrite <-Hm. split; [by apply Get_spec|].
  intros Hf. destruct (Keys_spec d' fuel Hc Hf) as (keys & Hk & Hp).
  exists keys. split_and!; [done..|]. rewrite Hp. apply NoDup_fst_map_to_list.
Qed.

(** After [Close] nothing is read, and no write succeeds. *)
Lemma closed_store d d' key o r d2 fuel :
  Close d = (Ok tt, d') →
  BadgerKVStore_Get d' key = Err badger_ErrDBClosed ∧ Keys fuel d' = Err badger_ErrDBClosed ∧
  (perform o d' = (r, d2) → is_Ok r = false ∧ contents d2 = contents d').
Proof.
  intros Hc. apply db_Close_spec in Hc as Hcl; [|done]. split_and!.
  - unfold BadgerKVStore_Get. by rewrite db_View_closed.
  - unfold Keys. by rewrite db_View_closed.
  - intros Hp. assert (is_Ok r = false ∧ contents d2 = contents d') as []; [|done].
    destruct o; cbn in Hp; apply db_Update_spec in Hp as [_ Hr]; destruct r as [[]| |]; try done;
      destruct Hr as [Hr _]; congruence.
Qed.

(** The sessions' interface: what is put is got, other keys keep their value. *)
Definition badger_store_spec : KVStoreSpec badger_store.
Proof.
  assert (∀ k v d d', Put k v d = (Ok tt, d') →
    closed d = false ∧ closed d' = false ∧ k ≠ EmptyString ∧
    contents d' = <[k := v]> (contents d)) as Hput.
  { intros k v d d' H. pose proof (perform_effect (WPut k v) d (Ok tt) d' H) as (Hc & Hm & Hk).
    apply db_Update_spec in H as [_ [Hd _]]. split_and!; [done|congruence|done..]. }
  split; cbn [badger_store kv_db kv_Get kv_Put].
  - intros k v d d' (_ & Hc & Hk & Hm)%Hput. rewrite Get_spec by done. unfold Get_map.
    rewrite (proj2 (String.eqb_neq _ _)) by done. by rewrite Hm, lookup_insert_eq.
  - intros k k' v d d' Hne (Hd & Hc & _ & Hm)%Hput. rewrite !Get_spec by done.
    unfold Get_map. by rewrite Hm, lookup_insert_ne.
Qed.

End store.

(** ** A badger that keeps its promises *)

(** A transaction is its view; an iterator goes over a list of keys. *)
Definition badger_ref : BadgerDB := {|
  badger_DB := gmap string string * bool;
  badger_Txn := gmap string string;
  badger_Item := string;
  badger_Iterator := list string;
  db_Update fn d :=
    if d.2 then (Err badger_ErrDBClosed, d)
    else match fn d.1 with
         | (Ok _, t) => (Ok tt, (t, false))
         | (Err e, _) => (Err e, d)
         | (Panic w, _) => (Panic w, d)
         end;
  db_View S fn d s := if d.2 then (Err badger_ErrDBClosed, s) else fn d.1 s;
  db_Close d := (Ok tt, (d.1, true));
  txn_Set k v t :=
    if String.eqb k EmptyString then (Err badger_ErrEmptyKey, t) else (Ok tt, <[k := v]> t);
  txn_Delete k t :=
    if String.eqb k EmptyString then (Err badger_ErrEmptyKey, t) else (Ok tt, delete k t);
  txn_Get t k :=
    if String.eqb k EmptyString then Err badger_ErrEmptyKey
    else of_option badger_ErrKeyNotFound (t !! k);
  item_Value S i fn := fn i;
  txn_NewIterator t := (map_to_list t).*1;
  it_Rewind i := i;
  it_Valid i := match i with [] => false | _ => true end;
  it_Key i := default EmptyString (head i);
  it_Next i := tail i;
|}.

Definition badger_ref_spec : BadgerDBSpec badger_ref.
Proof.
  refine {| contents := (fst : badger_DB (BadgerDB := badger_ref) → _); closed := snd;
            view := (λ t, t) : badger_Txn (BadgerDB := badger_ref) → _;
            bytes_of := (λ i, i) : badger_Item (BadgerDB := badger_ref) → _;
            ahead := (λ i, i) : badger_Iterator (BadgerDB := badger_ref) → _ |}; cbn.
  - intros fn [m c] r d'. cbn. destruct c; [by intros [= <- <-]|].
    destruct (fn m) as [[[]|e|w] t] eqn:Hf; intros [= <- <-]; cbn; [|done..].
    split_and!; [done..|]. by exists m, t.
  - intros S fn [m c] s. cbn. intros ->. by exists m.
  - intros S fn [m c] s. cbn. by intros ->.
  - intros [m c] r d' [= <- <-] _. done.
  - intros k v t t'. destruct (String.eqb k ""); [done|]. by intros [= <-].
  - intros k t t'. destruct (String.eqb k ""); [done|]. by intros [= <-].
  - intros k t Hk. rewrite (proj2 (String.eqb_neq _ _)) by done.
    destruct (t !! k); [by eexists|done].
  - done.
  - done.
  - done.
  - done.
  - done.
  - by intros i k l ->.
Defined.

Lemma badger_refines_map_witness :
  let d : badger_DB (BadgerDB := badger_ref) := (∅, false) in
  let l := [WPut "ecdsa:w_1" "share"; WPut "" "lost"; WPut "x" "y"; WDelete "x"] in
  let '(rs, d') := performs (B := badger_ref) l d in
  BadgerKVStore_Get (B := badger_ref) d' "ecdsa:w_1" = Ok (Some "share") ∧
  BadgerKVStore_Get (B := badger_ref) d' "x" = Err badger_ErrKeyNotFound ∧
  ∃ keys, Keys (B := badger_ref) 2 d' = Ok keys ∧ keys ≡ₚ ["ecdsa:w_1"].
Proof.
  cbv zeta.
  destruct (performs _ _) as [rs d'] eqn:Hp.
  pose proof (badger_refines_map (BadgerDBSpec0 := badger_ref_spec) _ _ _ _ "ecdsa:w_1" 2 Hp
    eq_refl) as [H1 H3].
  pose proof (badger_refines_map (BadgerDBSpec0 := badger_ref_spec) _ _ _ _ "x" 2 Hp
    eq_refl) as [H2 _].
  pose proof (f_equal fst Hp) as Hrs. vm_compute in Hrs. subst rs. split_and!; [exact H1|exact H2|].
  destruct H3 as (keys & Hk & Hperm & _); [vm_compute; lia|].
  exists keys. split; [exact Hk|]. rewrite Hperm. reflexivity.
Defined.
