(* ===== verification/Sessions.v ===== *)
(** * pkg/mpc/ecdsa and pkg/mpc/eddsa: key generation, signing, resharing

    The two packages hold the same three sessions for the two curves.  What
    differs between them - the share type, the encoding of public keys, the
    verification of a signature, the response and a few texts - is the record
    [Curve]; the session bodies take a [Curve], and the modules [ecdsa] and
    [eddsa] at the end give the packages' own constructors and rounds.

    A run is the sequence of what its channels deliver: messages to send
    ([OutCh]) and the final value ([endCh]).  [world] is the session with the two
    stores it writes and the results it enqueued. *)

From stdpp Require Import base gmap list strings.
From Stdlib Require Import ZArith Lia Ascii.
From S2P Require Import Prelude.
From S2P Require Import GoStrings.
From S2P Require Import External.
From S2P Require Import Json.
From S2P Require Import Types.
From S2P Require Import Identity.
From S2P Require Import PartySession.
From S2P Require Import KeyStore.
From S2P Require Import Logger.

(** pkg/encoding/ecdsa.go: the coordinates' bytes, one after the other. *)
Definition EncodeS256PubKey (pubKey : Z * Z) : string :=
  Bytes pubKey.1 +:+ Bytes pubKey.2.

(** common.SignatureData *)
Record SignatureData := mkSignatureData {
  sd_R : option string;
  sd_S : option string;
  sd_SignatureRecovery : option string;
  sd_Signature : option string;
}.

Definition big_SetBytes (b : option string) : Z := SetBytes (default EmptyString b).

Record Curve := mkCurve {
  prefix : string;
  SaveData : Type;                               (* keygen.LocalPartySaveData *)
  Marshal : SaveData → Res string;
  Unmarshal_SaveData : string → Res SaveData;
  Pub : SaveData → option (Z * Z);               (* nil for the old committee *)
  NewLocalPartySaveData : nat → SaveData;
  encodePub : Z * Z → Res string;
  Verify : Z * Z → string → Z → Z → bool;        (* key, message, r, s *)
  response : string → string → SignatureData → SigningResponse;
  keyinfo_msg : string;
  short_warning : Z → list string → M logger.log_state (Res unit);   (* a signing is too small *)
  reshare_msg : string;
}.

Section sessions.
Context `{C : Crypto} `{T : TssLib} `{L : Lo} `{KV : KVStore} `{CK : ConsulKV}.
Variable cv : Curve.

Record world := mkWorld {
  ps : PartySession;
  kv : kv_db;
  consul : consul_db;
  data : option (SaveData cv);                  (* the share a signing loaded *)
  tx : Z;
  queue : list (string * string * string);      (* topic, payload, idempotent key *)
}.

Definition set_ps f (w : world) : world :=
  mkWorld (f (ps w)) (kv w) (consul w) (data w) (tx w) (queue w).
Definition set_kv d (w : world) : world :=
  mkWorld (ps w) d (consul w) (data w) (tx w) (queue w).
Definition set_consul d (w : world) : world :=
  mkWorld (ps w) (kv w) d (data w) (tx w) (queue w).
Definition set_signing v d t (w : world) : world :=
  mkWorld (set_Version v (ps w)) (kv w) (consul w) d t (queue w).
Definition push e (w : world) : world :=
  mkWorld (ps w) (kv w) (consul w) (data w) (tx w) (queue w ++ [e]).

Definition in_ps {A} (m : M PartySession (Res A)) : M world (Res A) := λ w,
  let '(a, s) := m (ps w) in (a, set_ps (λ _, s) w).
Definition in_kv {A} (m : M kv_db (Res A)) : M world (Res A) := λ w,
  let '(a, d) := m (kv w) in (a, set_kv d w).
Definition in_consul {A} (m : M consul_db (Res A)) : M world (Res A) := λ w,
  let '(a, d) := m (consul w) in (a, set_consul d w).

(** The environment. *)
Variable ids : fileStore.
Variable answer : wire_event → Res unit.
Variable nonce_for : string → string.
Variable PartyID_json : PartyID → json.
Variable Unmarshal_KeyInfo : string → Res KeyInfo.
Variable unsubscribe : option string → Res unit.
Variable enqueue : string → string → string → Res unit.   (* ResultQueue.Enqueue *)

(** How a run ends: [done()] was called, or an error went to [ErrCh]. *)
Inductive run_end := Finished (bytes : string) | Failed.

(** [if err != nil { s.ErrCh <- err; return }] *)
Definition try {A} (wrap : error → error) (m : M world (Res A))
    (k : A → M world (Res run_end)) : M world (Res run_end) := λ w,
  match m w with
  | (Ok a, w') => k a w'
  | (Err e, w') => (_ ←! in_ps (sendErr (wrap e)); lift (Ok Failed)) w'
  | (Panic p, w') => (Panic p, w')
  end.

(** An error of [Close] is only logged. *)
Definition close_session : M world (Res unit) := λ w,
  match in_ps (Close unsubscribe) w with
  | (Err _, w') => (Ok tt, w')
  | r => r
  end.

Definition nonnil {A} (o : option A) : Res A :=
  match o with Some a => Ok a | None => Panic "nil pointer dereference" end.

(** ** Key generation *)

Definition keygen_endCh (saveData : SaveData cv) : M world (Res run_end) := λ w,
  let s := ps w in
  (try id (lift (Marshal cv saveData)) (λ keyBytes,
   try id (in_kv (kv_Put (ComposeKey s (WalletIDWithVersion (WalletID s) (Version s)))
                    keyBytes)) (λ _,
   try id (in_consul (Save (ComposeKey s (WalletID s))
             (mkKeyInfo (ParticipantPeerIDs s) (Threshold s) (Version s)))) (λ _,
   publicKey ←! lift (nonnil (Pub cv saveData));
   try (Errorf_w "failed to encode public key: ") (lift (encodePub cv publicKey))
     (λ pubKeyBytes,
      _ ←! in_ps (modifyR (set_PubkeyBytes (Some pubKeyBytes)));
      _ ←! close_session;
      lift (Ok (Finished pubKeyBytes))))))) w.

Inductive tss_event (E : Type) :=
| OutCh (wireBytes : Res (option string * MessageRouting))
| StartErr (e : error)                (* the goroutine of Party.Start *)
| EndCh (e : E).
Arguments OutCh {E} _.
Arguments StartErr {E} _.
Arguments EndCh {E} _.

(** The [select] loop over a run's events; [None]: it still waits. *)
Fixpoint run_loop {E} (fin : E → M world (Res run_end)) (evs : list (tss_event E)) :
    M world (Res (option run_end)) :=
  match evs with
  | [] => lift (Ok None)
  | OutCh m :: evs =>
      _ ←! in_ps (HandleTssMessage answer nonce_for PartyID_json ids m); run_loop fin evs
  | StartErr e :: evs => _ ←! in_ps (sendErr e); run_loop fin evs
  | EndCh e :: _ => r ←! fin e; lift (Ok (Some r))
  end.

Definition GenerateKey (evs : list (tss_event (SaveData cv))) : M world (Res (option run_end)) :=
  run_loop keygen_endCh evs.

(** ** Signing *)

Definition fmt_v (l : list string) : string := "[" +:+ concat_with " " l +:+ "]".

Definition sign_Init (newTx : Z) : M world (Res unit) := λ w,
  let s := ps w in
  let need keyInfo := wrap64 (ki_Threshold keyInfo + 1) in
  (keyInfo ←! lift (wrap_err (keyinfo_msg cv)
               (Get Unmarshal_KeyInfo (consul w) (ComposeKey s (WalletID s))));
   if Z.of_nat (length (ParticipantPeerIDs s)) <? need keyInfo then
     _ ←! lift (logger.logged (short_warning cv (need keyInfo) (ParticipantPeerIDs s)));
     lift (Err ErrNotEnoughParticipants)
   else
     let result := lo_Intersect (ParticipantPeerIDs s) (ki_ParticipantPeerIDs keyInfo) in
     if Z.of_nat (length result) <? need keyInfo then
       lift (Err (errors_New ("incompatible peerIDs to participate in signing. " +:+
         "Current participants: " +:+ fmt_v (ParticipantPeerIDs s) +:+
         ", expected participants: " +:+ fmt_v (ki_ParticipantPeerIDs keyInfo))))
     else
       keyData ←! lift (wrap_err "Failed to get wallet data from KVStore: "
         (kv_Get (kv w) (ComposeKey s (WalletIDWithVersion (WalletID s) (ki_Version keyInfo)))));
       d ←! lift (wrap_err "Failed to unmarshal wallet data: " (Unmarshal_SaveData cv keyData));
       modifyR (set_signing (ki_Version keyInfo) (Some d) newTx)) w.

Definition sign_endCh (txID : string) (sig : SignatureData) : M world (Res run_end) := λ w,
  let s := ps w in
  (d ←! lift (nonnil (data w));
   pk ←! lift (nonnil (Pub cv d));
   if negb (Verify cv pk (Bytes (tx w)) (big_SetBytes (sd_R sig)) (big_SetBytes (sd_S sig))) then
     _ ←! in_ps (sendErr (errors_New "Failed to verify signature")); lift (Ok Failed)
   else
     let r := response cv (WalletID s) txID sig in
     let bytes := encode (SigningResponse_json r) in
     try (Errorf_w "Failed to publish sign success message: ")
       (lift (enqueue SigningResultCompleteTopic bytes (IdempotentKey s))) (λ _,
       _ ←! modifyR (push (SigningResultCompleteTopic, bytes, IdempotentKey s));
       _ ←! close_session;
       lift (Ok (Finished bytes)))) w.

Definition Sign (txID : string) (evs : list (tss_event SignatureData)) :
    M world (Res (option run_end)) :=
  run_loop (sign_endCh txID) evs.

(** ** Resharing *)

Record resharingSession := mkResharing {
  isNewParty : bool;
  oldPeerIDs : list string;
  newPeerIDs : list string;
  NewThreshold : Z;               (* of resharingParams *)
}.

(** The [seen] map of the code is the second list as a set. *)
Definition GetLegacyCommitteePeers (r : resharingSession) : list string :=
  let seen : gset string := list_to_set (newPeerIDs r) in
  List.filter (λ a, bool_decide (a ∉ seen)) (oldPeerIDs r).

(** The share the resharing party starts from. *)
Definition reshare_Init (r : resharingSession) (w : world) : Res (SaveData cv) :=
  if isNewParty r then Ok (NewLocalPartySaveData cv (length (PartyIDs (ps w))))
  else wrap_err (reshare_msg cv)
         (LoadOldShareDataGeneric (ps w) (kv_Get (kv w)) (Unmarshal_SaveData cv)
            (WalletID (ps w)) (Version (ps w))).

(** The end of a resharing: [done()] comes first, with the bytes of that moment; what
    [Close] answers after it is only logged. *)
Definition done_then_close : M world (Res run_end) := λ w,
  let finished := Finished (default EmptyString (PubkeyBytes (ps w))) in
  (_ ←! close_session; lift (Ok finished)) w.

Definition reshare_endCh (r : resharingSession) (saveData : SaveData cv) :
    M world (Res run_end) := λ w,
  let s := ps w in
  match Pub cv saveData with
  | None => done_then_close w              (* old committee *)
  | Some publicKey =>
      let newVersion := wrap64 (Version s + 1) in
      try id (lift (Marshal cv saveData)) (λ keyBytes,
      try id (in_kv (kv_Put (ComposeKey s (WalletIDWithVersion (WalletID s) newVersion))
                       keyBytes)) (λ _,
      try id (in_consul (Save (ComposeKey s (WalletID s))
                (mkKeyInfo (newPeerIDs r) (NewThreshold r) newVersion))) (λ _,
      try (Errorf_w "failed to encode public key: ") (lift (encodePub cv publicKey))
        (λ pubKeyBytes,
         _ ←! in_ps (modifyR (set_PubkeyBytes (Some pubKeyBytes)));
         done_then_close)))) w
  end.

Definition Reshare (r : resharingSession) (evs : list (tss_event (SaveData cv))) :
    M world (Res (option run_end)) :=
  run_loop (reshare_endCh r) evs.

End sessions.

(** ** Constructors *)

Section constructors.
Context `{C : Crypto} `{T : TssLib}.

(** The fields the constructors set; the others are nil. *)
Definition NewPartySession (walletID : string) (participantPeerIDs : list string)
    (selfID : option PartyID) (partyIDs : list (option PartyID)) (threshold version : Z)
    (broadcastTopic : string) (directTopic : string → string → string)
    (composeKey : string → string) (getRound : option string → option PartyID → bool → Res RoundInfo)
    (sessionType idempotentKey : string) : PartySession :=
  mkPartySession walletID threshold participantPeerIDs selfID partyIDs version broadcastTopic
    directTopic composeKey getRound sessionType idempotentKey None false [] [] [] [].

Definition sprintf3 (p from to id : string) : string :=
  p +:+ ":" +:+ from +:+ ":" +:+ to +:+ ":" +:+ id.

(** tss-lib's resharing parameters only keep the thresholds and committees. *)
Definition new_resharing (oldPartyIDs : list (option PartyID)) (newPeerIDs : list string)
    (isNewParty : bool) (newThreshold : Z) : resharingSession :=
  mkResharing isNewParty (PartyIDToNodeID <$> oldPartyIDs) newPeerIDs newThreshold.

End constructors.

Module ecdsa.

Section ecdsa.
Context `{C : Crypto} `{T : TssLib}.

(** What [tss.ParseWireMessage(...).Content()] can be. *)
Inductive Content :=
| KGRound1Message | KGRound2Message1 | KGRound2Message2 | KGRound3Message
| SignRound1Message1 | SignRound1Message2 | SignRound2Message | SignRound3Message
| SignRound4Message | SignRound5Message | SignRound6Message | SignRound7Message
| SignRound8Message | SignRound9Message
| DGRound1Message | DGRound2Message1 | DGRound2Message2 | DGRound3Message1
| DGRound3Message2 | DGRound4Message1 | DGRound4Message2
| OtherContent.

Definition KEYGEN1 := "KGRound1Message".
Definition KEYGEN2aUnicast := "KGRound2Message1".
Definition KEYGEN2b := "KGRound2Message2".
Definition KEYGEN3 := "KGRound3Message".
Definition KEYSIGN1aUnicast := "SignRound1Message1".
Definition KEYSIGN1b := "SignRound1Message2".
Definition KEYSIGN2Unicast := "SignRound2Message".
Definition KEYSIGN3 := "SignRound3Message".
Definition KEYSIGN4 := "SignRound4Message".
Definition KEYSIGN5 := "SignRound5Message".
Definition KEYSIGN6 := "SignRound6Message".
Definition KEYSIGN7 := "SignRound7Message".
Definition KEYSIGN8 := "SignRound8Message".
Definition KEYSIGN9 := "SignRound9Message".
Definition KEYRESHARING1Unicast := "DGRound1Message".
Definition KEYRESHARING2aUnicast := "DGRound2Message1".
Definition KEYRESHARING2bUnicast := "DGRound2Message2".
Definition KEYRESHARING3aUnicast := "DGRound3Message1".
Definition KEYRESHARING3b := "DGRound3Message2".
Definition KEYRESHARING4a := "DGRound4Message1".
Definition KEYRESHARING4bUnicast := "DGRound4Message2".

(** The type switch of [GetMsgRound]. *)
Definition round_of (c : Content) : Res RoundInfo :=
  match c with
  | KGRound1Message => Ok (mkRoundInfo 0 KEYGEN1 "")
  | KGRound2Message1 => Ok (mkRoundInfo 1 KEYGEN2aUnicast "")
  | KGRound2Message2 => Ok (mkRoundInfo 2 KEYGEN2b "")
  | KGRound3Message => Ok (mkRoundInfo 3 KEYGEN3 "")
  | SignRound1Message1 => Ok (mkRoundInfo 0 KEYSIGN1aUnicast "")
  | SignRound1Message2 => Ok (mkRoundInfo 1 KEYSIGN1b "")
  | SignRound2Message => Ok (mkRoundInfo 2 KEYSIGN2Unicast "")
  | SignRound3Message => Ok (mkRoundInfo 3 KEYSIGN3 "")
  | SignRound4Message => Ok (mkRoundInfo 4 KEYSIGN4 "")
  | SignRound5Message => Ok (mkRoundInfo 5 KEYSIGN5 "")
  | SignRound6Message => Ok (mkRoundInfo 6 KEYSIGN6 "")
  | SignRound7Message => Ok (mkRoundInfo 7 KEYSIGN7 "")
  | SignRound8Message => Ok (mkRoundInfo 8 KEYSIGN8 "")
  | SignRound9Message => Ok (mkRoundInfo 9 KEYSIGN9 "")
  | DGRound1Message => Ok (mkRoundInfo 0 KEYRESHARING1Unicast "")
  | DGRound2Message1 => Ok (mkRoundInfo 1 KEYRESHARING2aUnicast "")
  | DGRound2Message2 => Ok (mkRoundInfo 2 KEYRESHARING2bUnicast "")
  | DGRound3Message1 => Ok (mkRoundInfo 3 KEYRESHARING3aUnicast "")
  | DGRound3Message2 => Ok (mkRoundInfo 4 KEYRESHARING3b "")
  | DGRound4Message1 => Ok (mkRoundInfo 5 KEYRESHARING4a "")
  | DGRound4Message2 => Ok (mkRoundInfo 6 KEYRESHARING4bUnicast "")
  | OtherContent => Err (errors_New "unknown round")
  end.

Variable ParseWireMessage : option string → option PartyID → bool → Res Content.

Definition GetMsgRound (msg : option string) (partyID : option PartyID) (isBroadcast : bool) :
    Res RoundInfo :=
  parsedMsg ← ParseWireMessage msg partyID isBroadcast; round_of parsedMsg.

Definition IsResharingRound (roundMsg : string) : bool :=
  String.eqb roundMsg KEYRESHARING1Unicast || String.eqb roundMsg KEYRESHARING2aUnicast ||
  String.eqb roundMsg KEYRESHARING2bUnicast || String.eqb roundMsg KEYRESHARING3aUnicast ||
  String.eqb roundMsg KEYRESHARING3b || String.eqb roundMsg KEYRESHARING4a ||
  String.eqb roundMsg KEYRESHARING4bUnicast.

Definition NewECDSAKeygenSession (walletID : string) (participantPeerIDs : list string)
    (selfID : option PartyID) (partyIDs : list (option PartyID)) (threshold : Z) : PartySession :=
  NewPartySession walletID participantPeerIDs selfID partyIDs threshold DefaultVersion
    ("keygen:broadcast:ecdsa:" +:+ walletID)
    (λ fromID toID, sprintf3 "keygen:direct:ecdsa" fromID toID walletID)
    (λ walletID, "ecdsa:" +:+ walletID) GetMsgRound SessionTypeECDSA "".

Definition NewECDSASigningSession (walletID txID : string) (participantPeerIDs : list string)
    (selfID : option PartyID) (partyIDs : list (option PartyID)) (threshold : Z)
    (idempotentKey : string) : PartySession :=
  NewPartySession walletID participantPeerIDs selfID partyIDs threshold 0
    ("sign:ecdsa:broadcast:" +:+ walletID +:+ ":" +:+ txID)
    (λ fromID toID, sprintf3 "sign:ecdsa:direct" fromID toID txID)
    (λ walletID, "ecdsa:" +:+ walletID) GetMsgRound SessionTypeECDSA idempotentKey.

Definition NewECDSAResharingSession (walletID : string) (participantPeerIDs : list string)
    (selfID : option PartyID) (oldPartyIDs newPartyIDs : list (option PartyID))
    (threshold newThreshold : Z) (newPeerIDs : list string) (isNewParty : bool) (version : Z) :
    PartySession * resharingSession :=
  let realPartyIDs := if isNewParty then newPartyIDs else oldPartyIDs in
  (NewPartySession walletID participantPeerIDs selfID realPartyIDs threshold version
     ("resharing:broadcast:ecdsa:" +:+ walletID)
     (λ fromID toID, sprintf3 "resharing:direct:ecdsa" fromID toID walletID)
     (λ walletID, "ecdsa:" +:+ walletID) GetMsgRound SessionTypeECDSA "",
   new_resharing oldPartyIDs newPeerIDs isNewParty newThreshold).

(** The warning of [Init] that the session has too few participants. *)
Definition warn_short (expected : Z) (participants : list string) :
    M logger.log_state (Res unit) :=
  logger.Warn "Not enough participants to sign"
    [logger.AString "participants"; logger.AOther "[]string"; logger.AString "expected";
     logger.AInt expected].

(** The curve record: shares and the verification are tss-lib's and crypto/ecdsa's. *)
Definition curve {SD} (marshal : SD → Res string) (unmarshal : string → Res SD)
    (ECDSAPub : SD → option (Z * Z)) (fresh : nat → SD)
    (ecdsa_Verify : Z * Z → string → Z → Z → bool) : Curve :=
  mkCurve "ecdsa" SD marshal unmarshal ECDSAPub fresh (λ pk, Ok (EncodeS256PubKey pk)) ecdsa_Verify
    (λ w t sig, mkSigningResponse NoErrorCode "" false w t (sd_R sig) (sd_S sig)
                  (sd_SignatureRecovery sig) None)
    "Failed to get key info data: " warn_short "failed to load old share data ecdsa: ".

End ecdsa.

End ecdsa.

Module eddsa.

Section eddsa.
Context `{C : Crypto} `{T : TssLib}.

Inductive Content :=
| KGRound1Message | KGRound2Message1 | KGRound2Message2
| SignRound1Message | SignRound2Message | SignRound3Message
| DGRound1Message | DGRound2Message | DGRound3Message1 | DGRound3Message2 | DGRound4Message
| OtherContent.

Definition KEYGEN1 := "KGRound1Message".
Definition KEYGEN2aUnicast := "KGRound2Message1".
Definition KEYGEN2b := "KGRound2Message2".
Definition KEYSIGN1 := "SignRound1Message".
Definition KEYSIGN2 := "SignRound2Message".
Definition KEYSIGN3 := "SignRound3Message".
Definition RESHARING1 := "DGRound1Message".
Definition RESHARING2 := "DGRound2Message".
Definition RESHARING3aUnicast := "DGRound3Message1".
Definition RESHARING3bUnicast := "DGRound3Message2".
Definition RESHARING4 := "DGRound4Message".

(** The three signing rounds all have index 0 in the code. *)
Definition round_of (c : Content) : Res RoundInfo :=
  match c with
  | KGRound1Message => Ok (mkRoundInfo 0 KEYGEN1 "")
  | KGRound2Message1 => Ok (mkRoundInfo 1 KEYGEN2aUnicast "")
  | KGRound2Message2 => Ok (mkRoundInfo 2 KEYGEN2b "")
  | SignRound1Message => Ok (mkRoundInfo 0 KEYSIGN1 "")
  | SignRound2Message => Ok (mkRoundInfo 0 KEYSIGN2 "")
  | SignRound3Message => Ok (mkRoundInfo 0 KEYSIGN3 "")
  | DGRound1Message => Ok (mkRoundInfo 0 RESHARING1 "")
  | DGRound2Message => Ok (mkRoundInfo 1 RESHARING2 "")
  | DGRound3Message1 => Ok (mkRoundInfo 2 RESHARING3aUnicast "")
  | DGRound3Message2 => Ok (mkRoundInfo 3 RESHARING3bUnicast "")
  | DGRound4Message => Ok (mkRoundInfo 4 RESHARING4 "")
  | OtherContent => Err (errors_New "unknown round")
  end.

Variable ParseWireMessage : option string → option PartyID → bool → Res Content.

Definition GetMsgRound (msg : option string) (partyID : option PartyID) (isBroadcast : bool) :
    Res RoundInfo :=
  parsedMsg ← ParseWireMessage msg partyID isBroadcast; round_of parsedMsg.

Definition NewEDDSAKeygenSession (walletID : string) (participantPeerIDs : list string)
    (selfID : option PartyID) (partyIDs : list (option PartyID)) (threshold : Z) : PartySession :=
  NewPartySession walletID participantPeerIDs selfID partyIDs threshold DefaultVersion
    ("keygen:broadcast:eddsa:" +:+ walletID)
    (λ fromID toID, sprintf3 "keygen:direct:eddsa" fromID toID walletID)
    (λ walletID, "eddsa:" +:+ walletID) GetMsgRound SessionTypeEDDSA "".

Definition NewEDDSASigningSession (walletID txID : string) (participantPeerIDs : list string)
    (selfID : option PartyID) (partyIDs : list (option PartyID)) (threshold : Z)
    (idempotentKey : string) : PartySession :=
  NewPartySession walletID participantPeerIDs selfID partyIDs threshold 0
    ("sign:eddsa:broadcast:" +:+ walletID +:+ ":" +:+ txID)
    (λ fromID toID, sprintf3 "sign:eddsa:direct" fromID toID txID)
    (λ walletID, "eddsa:" +:+ walletID) GetMsgRound SessionTypeEDDSA idempotentKey.

Definition NewEDDSAResharingSession (walletID : string) (participantPeerIDs : list string)
    (selfID : option PartyID) (oldPartyIDs newPartyIDs : list (option PartyID))
    (threshold newThreshold : Z) (newPeerIDs : list string) (isNewParty : bool) (version : Z) :
    PartySession * resharingSession :=
  let realPartyIDs := if isNewParty then newPartyIDs else oldPartyIDs in
  (NewPartySession walletID participantPeerIDs selfID realPartyIDs threshold version
     ("resharing:broadcast:eddsa:" +:+ walletID)
     (λ fromID toID, sprintf3 "resharing:direct:eddsa" fromID toID walletID)
     (λ walletID, "eddsa:" +:+ walletID) GetMsgRound SessionTypeEDDSA "",
   new_resharing oldPartyIDs newPeerIDs isNewParty newThreshold).

(** The same warning, with the arguments of a format string. *)
Definition warn_short (expected : Z) (participants : list string) :
    M logger.log_state (Res unit) :=
  logger.Warn "Not enough participants to sign, expected %d, got %d"
    [logger.AInt expected; logger.AInt (Z.of_nat (length participants))].

(** [serialize] is [edwards.PublicKey.SerializeCompressed]. *)
Definition curve {SD} (marshal : SD → Res string) (unmarshal : string → Res SD)
    (EDDSAPub : SD → option (Z * Z)) (fresh : nat → SD) (serialize : Z * Z → string)
    (edwards_Verify : Z * Z → string → Z → Z → bool) : Curve :=
  mkCurve "eddsa" SD marshal unmarshal EDDSAPub fresh (λ pk, Ok (serialize pk)) edwards_Verify
    (λ w t sig, mkSigningResponse NoErrorCode "" false w t None None None (sd_Signature sig))
    "failed to get key info data: " warn_short "failed to load old share data eddsa: ".

End eddsa.

End eddsa.

(** ** Properties *)

Section stores.
Context `{C : Crypto} `{T : TssLib} `{L : Lo} `{KV : KVStore} `{!KVStoreSpec KV}
  `{CK : ConsulKV} `{!ConsulKVSpec CK}.
Variable cv : Curve.
Variable Unmarshal_KeyInfo : string → Res KeyInfo.
Variable unsubscribe : option string → Res unit.

Notation world := (world cv).

(** *** Inverting a successful run *)

Lemma try_Finished {A} wrap (m : M world (Res A)) k w b w' :
  try cv wrap m k w = (Ok (Finished b), w') →
  ∃ a w1, m w = (Ok a, w1) ∧ k a w1 = (Ok (Finished b), w').
Proof.
  unfold try. destruct (m w) as [[a|e|p] w1]; [by eauto| |done].
  intros (? & ? & ? & H)%bindR_Ok. done.
Qed.

Lemma in_kv_Ok {A} (m : M kv_db (Res A)) (w w' : world) a :
  in_kv cv m w = (Ok a, w') ↔ ∃ d, m (kv cv w) = (Ok a, d) ∧ w' = set_kv cv d w.
Proof.
  unfold in_kv. destruct (m (kv cv w)) as [o d].
  split; [intros [= -> <-]; by exists d|by intros (d' & [= -> ->] & ->)].
Qed.

Lemma in_consul_Ok {A} (m : M consul_db (Res A)) (w w' : world) a :
  in_consul cv m w = (Ok a, w') ↔ ∃ d, m (consul cv w) = (Ok a, d) ∧ w' = set_consul cv d w.
Proof.
  unfold in_consul. destruct (m (consul cv w)) as [o d].
  split; [intros [= -> <-]; by exists d|by intros (d' & [= -> ->] & ->)].
Qed.

Lemma forR_lift {A} (l : list A) (f : A → Res unit) (s : PartySession) :
  (forR l (λ t, lift (f t)) s).2 = s.
Proof.
  induction l as [|x l IH]; [done|]. cbn [forR]. unfold bindR, lift at 1.
  by destruct (f x).
Qed.

(** Closing changes neither the session nor the stores. *)
Lemma close_session_Ok (w w' : world) r :
  close_session cv unsubscribe w = (Ok r, w') → w' = w.
Proof.
  unfold close_session, in_ps, Close. destruct (BroadcastSub (ps cv w)); [|done].
  unfold bindR, lift at 1.
  destruct (unsubscribe None) as [[]| |].
  - pose proof (forR_lift (DirectSubs (ps cv w)) (λ t, unsubscribe (Some t)) (ps cv w)) as Hs.
    destruct (forR _ _ (ps cv w)) as [o s]. cbn in Hs. subst s.
    destruct o; intros H; inversion H; by destruct w.
  - intros H; inversion H; by destruct w.
  - done.
Qed.

Lemma done_then_close_Ok (w w' : world) e : done_then_close cv unsubscribe w = (Ok e, w') →
  e = Finished (default EmptyString (PubkeyBytes (ps cv w))) ∧ w' = w.
Proof.
  intros ([] & w1 & Hcl%close_session_Ok & [= <- <-])%bindR_Ok. by subst.
Qed.

(** What a finished key generation did. *)
Lemma keygen_endCh_Finished sd (w w' : world) bytes :
  keygen_endCh cv unsubscribe sd w = (Ok (Finished bytes), w') →
  let s := ps cv w in
  ∃ kb pk, Marshal cv sd = Ok kb ∧ Pub cv sd = Some pk ∧ encodePub cv pk = Ok bytes ∧
    kv_Put (ComposeKey s (WalletIDWithVersion (WalletID s) (Version s))) kb (kv cv w) =
      (Ok tt, kv cv w') ∧
    Save (ComposeKey s (WalletID s))
      (mkKeyInfo (ParticipantPeerIDs s) (Threshold s) (Version s)) (consul cv w) =
      (Ok tt, consul cv w') ∧
    ps cv w' = set_PubkeyBytes (Some bytes) s.
Proof.
  intros H s. unfold keygen_endCh in H. fold s in H.
  apply try_Finished in H as (kb & w1 & [Hm ->]%lift_Ok & H).
  apply try_Finished in H as ([] & w2 & (d & Hd & ->)%in_kv_Ok & H).
  apply try_Finished in H as ([] & w3 & (c & Hc & ->)%in_consul_Ok & H).
  apply bindR_Ok in H as (pk & w4 & [Hpk ->]%lift_Ok & H).
  apply try_Finished in H as (pb & w5 & [Hpb ->]%lift_Ok & H).
  apply bindR_Ok in H as ([] & w6 & Hset & H). injection Hset as <-.
  apply bindR_Ok in H as ([] & w7 & Hcl & H). apply close_session_Ok in Hcl as ->.
  apply lift_Ok in H as [[= <-] ->].
  exists kb, pk. split_and!; try done. by destruct (Pub cv sd) as [q|]; inversion Hpk.
Qed.

Lemma reshare_endCh_Finished r sd pk (w w' : world) bytes :
  Pub cv sd = Some pk →
  reshare_endCh cv unsubscribe r sd w = (Ok (Finished bytes), w') →
  let s := ps cv w in let v := wrap64 (Version s + 1) in
  ∃ kb, Marshal cv sd = Ok kb ∧ encodePub cv pk = Ok bytes ∧
    kv_Put (ComposeKey s (WalletIDWithVersion (WalletID s) v)) kb (kv cv w) =
      (Ok tt, kv cv w') ∧
    Save (ComposeKey s (WalletID s)) (mkKeyInfo (newPeerIDs r) (NewThreshold r) v)
      (consul cv w) = (Ok tt, consul cv w') ∧
    ps cv w' = set_PubkeyBytes (Some bytes) s.
Proof.
  intros Hpk H s v. unfold reshare_endCh in H. rewrite Hpk in H. fold s in H. fold v in H.
  apply try_Finished in H as (kb & w1 & [Hm ->]%lift_Ok & H).
  apply try_Finished in H as ([] & w2 & (d & Hd & ->)%in_kv_Ok & H).
  apply try_Finished in H as ([] & w3 & (c & Hc & ->)%in_consul_Ok & H).
  apply try_Finished in H as (pb & w5 & [Hpb ->]%lift_Ok & H).
  apply bindR_Ok in H as ([] & w6 & Hset & H). injection Hset as <-.
  apply done_then_close_Ok in H as [[= ->] ->]. exists kb. by split_and!.
Qed.

(** *** Loading for a signature *)

(** Enough of the session's participants hold a share of the key. *)
Definition enough (s : PartySession) (i : KeyInfo) : Prop :=
  ki_Threshold i < MaxInt64 ∧ MinInt64 ≤ ki_Threshold i ∧
  ki_Threshold i < Z.of_nat (length (ParticipantPeerIDs s)) ∧
  ki_Threshold i <
    Z.of_nat (length (lo_Intersect (ParticipantPeerIDs s) (ki_ParticipantPeerIDs i))).

Lemma sign_Init_loads tx (w : world) i kb sd :
  let s := ps cv w in
  Get Unmarshal_KeyInfo (consul cv w) (ComposeKey s (WalletID s)) = Ok i →
  enough s i →
  kv_Get (kv cv w) (ComposeKey s (WalletIDWithVersion (WalletID s) (ki_Version i))) = Ok kb →
  Unmarshal_SaveData cv kb = Ok sd →
  sign_Init cv Unmarshal_KeyInfo tx w =
    (Ok tt, set_signing cv (ki_Version i) (Some sd) tx w).
Proof.
  cbv zeta. intros Hget (Hmax & Hmin & Hlen & Hint) Hkv Hdec.
  unfold sign_Init, bindR, lift. rewrite Hget. cbn [wrap_err].
  rewrite wrap64_small by (unfold int64_range, MinInt64, MaxInt64 in *; lia).
  rewrite !(proj2 (Z.ltb_ge _ _)) by lia.
  rewrite Hkv. cbn [wrap_err]. rewrite Hdec. done.
Qed.

(** A key that was generated can sign: after a key generation has finished,
    a signing session of the same wallet and curve, on a state with the same
    stores, initialises as soon as enough of its participants took part in the
    generation, with exactly the share and the version that were saved; the
    shares of other keys are as before. *)
Theorem keygen_then_sign sd (w w' ws : world) bytes tx
    (Hrun : keygen_endCh cv unsubscribe sd w = (Ok (Finished bytes), w'))
    (Hround : ∀ kb, Marshal cv sd = Ok kb → Unmarshal_SaveData cv kb = Ok sd)
    (Hinfo : let i := mkKeyInfo (ParticipantPeerIDs (ps cv w)) (Threshold (ps cv w))
                        (Version (ps cv w)) in
             Unmarshal_KeyInfo (encode (KeyInfo_json i)) = Ok i)
    (Hkv : kv cv ws = kv cv w') (Hconsul : consul cv ws = consul cv w')
    (Hkey : ComposeKey (ps cv ws) = ComposeKey (ps cv w))
    (Hwallet : WalletID (ps cv ws) = WalletID (ps cv w))
    (Henough : enough (ps cv ws) (mkKeyInfo (ParticipantPeerIDs (ps cv w))
                 (Threshold (ps cv w)) (Version (ps cv w)))) :
  sign_Init cv Unmarshal_KeyInfo tx ws =
    (Ok tt, set_signing cv (Version (ps cv w)) (Some sd) tx ws) ∧
  (∀ k, k ≠ ComposeKey (ps cv w) (WalletIDWithVersion (WalletID (ps cv w)) (Version (ps cv w))) →
     kv_Get (kv cv w') k = kv_Get (kv cv w) k).
Proof.
  apply keygen_endCh_Finished in Hrun as (kb & pk & Hm & Hpk & Hpb & Hput & Hsave & _).
  split; [|intros k Hk; by eapply kv_Get_Put_ne].
  eapply (sign_Init_loads tx ws (mkKeyInfo _ _ _)); rewrite ?Hkv, ?Hconsul, ?Hkey, ?Hwallet.
  - by eapply Save_Get.
  - done.
  - by eapply kv_Get_Put.
  - by apply Hround.
Qed.

(** A wallet that was reshared signs with its new share: after a member of
    the new committee has finished, a signing session finds the new committee,
    the new threshold and the next version, and loads the new share; the old
    share stays in the store under its own version. *)
Theorem reshare_then_sign r sd pk (w w' ws : world) bytes tx
    (Hnew : Pub cv sd = Some pk)
    (Hrun : reshare_endCh cv unsubscribe r sd w = (Ok (Finished bytes), w'))
    (Hv : 0 ≤ Version (ps cv w) < MaxInt64)
    (Hcompose : ∀ a b, ComposeKey (ps cv w) a = ComposeKey (ps cv w) b → a = b)
    (Hround : ∀ kb, Marshal cv sd = Ok kb → Unmarshal_SaveData cv kb = Ok sd)
    (Hinfo : let i := mkKeyInfo (newPeerIDs r) (NewThreshold r) (Version (ps cv w) + 1) in
             Unmarshal_KeyInfo (encode (KeyInfo_json i)) = Ok i)
    (Hkv : kv cv ws = kv cv w') (Hconsul : consul cv ws = consul cv w')
    (Hkey : ComposeKey (ps cv ws) = ComposeKey (ps cv w))
    (Hwallet : WalletID (ps cv ws) = WalletID (ps cv w))
    (Henough : enough (ps cv ws) (mkKeyInfo (newPeerIDs r) (NewThreshold r)
                 (Version (ps cv w) + 1))) :
  sign_Init cv Unmarshal_KeyInfo tx ws =
    (Ok tt, set_signing cv (Version (ps cv w) + 1) (Some sd) tx ws) ∧
  let old := ComposeKey (ps cv w) (WalletIDWithVersion (WalletID (ps cv w)) (Version (ps cv w))) in
  kv_Get (kv cv w') old = kv_Get (kv cv w) old.
Proof.
  apply (reshare_endCh_Finished r sd pk) in Hrun as (kb & Hm & Hpb & Hput & Hsave & _); [|done].
  rewrite wrap64_small in Hput, Hsave
    by (unfold int64_range, MinInt64, MaxInt64 in *; lia).
  split.
  - eapply (sign_Init_loads tx ws (mkKeyInfo _ _ _)); rewrite ?Hkv, ?Hconsul, ?Hkey, ?Hwallet.
    + by eapply Save_Get.
    + done.
    + by eapply kv_Get_Put.
    + by apply Hround.
  - eapply kv_Get_Put_ne; [|exact Hput]. intros H%Hcompose.
    apply versioned_ne in H; [done|lia..].
Qed.

End stores.

Section signing.
Context `{C : Crypto} `{T : TssLib} `{KV : KVStore} `{CK : ConsulKV}.
Variable cv : Curve.
Variable unsubscribe : option string → Res unit.
Variable enqueue : string → string → string → Res unit.

(** C15: only verified signatures leave the node: when a signing run gets its
    signature, either the result queue is left alone and the run failed, or the
    signature verified under the wallet's public key over the transaction's
    bytes, and exactly the response for this wallet and transaction is enqueued,
    under the session's idempotent key. *)
Theorem sign_publishes_verified txID sig (w w' : world cv) r
    (Hrun : sign_endCh cv unsubscribe enqueue txID sig w = (Ok r, w')) :
  (queue cv w' = queue cv w ∧ r = Failed) ∨
  ∃ d pk, data cv w = Some d ∧ Pub cv d = Some pk ∧
    Verify cv pk (Bytes (tx cv w)) (big_SetBytes (sd_R sig)) (big_SetBytes (sd_S sig)) = true ∧
    let bytes := encode (SigningResponse_json (response cv (WalletID (ps cv w)) txID sig)) in
    r = Finished bytes ∧
    queue cv w' = queue cv w ++
      [(SigningResultCompleteTopic, bytes, IdempotentKey (ps cv w))].
Proof.
  unfold sign_endCh in Hrun.
  apply bindR_Ok in Hrun as (d & w1 & Hd & Hrun). injection Hd as Hd <-.
  apply bindR_Ok in Hrun as (pk & w2 & Hpk & Hrun). injection Hpk as Hpk <-.
  destruct (data cv w) as [d'|]; [|done]. injection Hd as ->.
  destruct (Pub cv d) as [pk'|] eqn:Hpub; [|done]. injection Hpk as ->.
  destruct (Verify cv pk _ _ _) eqn:Hv; cbn [negb] in Hrun.
  - unfold try, lift in Hrun. destruct (enqueue _ _ _); [| |done].
    + right. exists d, pk. split_and!; try done.
      apply bindR_Ok in Hrun as ([] & w3 & Hp & Hrun). injection Hp as <-.
      apply bindR_Ok in Hrun as ([] & w4 & Hcl & Hrun). apply close_session_Ok in Hcl as ->.
      by injection Hrun as <- <-.
    + left. apply bindR_Ok in Hrun as ([] & w3 & Hs & Hrun). injection Hs as <-.
      by injection Hrun as <- <-.
  - left. apply bindR_Ok in Hrun as ([] & w3 & Hs & Hrun). injection Hs as <-.
    by injection Hrun as <- <-.
Qed.

End signing.

(** *** Encodings and names *)

(** The public key encoding does not pad the coordinates: it is one to one among pairs
    whose first numbers have the same number of bytes; of the others two may be encoded
    alike, here two small pairs that are not points of the curve. *)
Theorem EncodeS256PubKey_injectivity :
  (∀ p q, 0 ≤ p.1 → 0 ≤ p.2 → 0 ≤ q.1 → 0 ≤ q.2 →
     String.length (Bytes p.1) = String.length (Bytes q.1) →
     EncodeS256PubKey p = EncodeS256PubKey q → p = q) ∧
  ∃ p q, 0 < p.1 < 2 ^ 256 ∧ 0 < p.2 < 2 ^ 256 ∧ 0 < q.1 < 2 ^ 256 ∧ 0 < q.2 < 2 ^ 256 ∧
    p ≠ q ∧ EncodeS256PubKey p = EncodeS256PubKey q.
Proof.
  split.
  - intros [x y] [x' y'] Hx Hy Hx' Hy'. unfold EncodeS256PubKey. cbn. intros Hl H.
    apply app_inj_len_s in H as [H1 H2]; [|done].
    f_equal; [by rewrite <-(SetBytes_Bytes x), H1, SetBytes_Bytes|].
    by rewrite <-(SetBytes_Bytes y), H2, SetBytes_Bytes.
  - exists (1, 515), (258, 3). cbn. split_and!; [lia..|done|by vm_compute].
Qed.

(** The sender's name is read back from the direct topic of every kind of
    session of both curves. *)
Theorem extractSenderID_topics `{T : TssLib} pe pd w t ps sid pids opids npids th nth nps np v ik
    from to (Hfrom : no_char colon from = true) :
  extractSenderIDFromDirectTopic
    (ComposeDirectTopic (ecdsa.NewECDSAKeygenSession pe w ps sid pids th) from to) = from ∧
  extractSenderIDFromDirectTopic
    (ComposeDirectTopic (ecdsa.NewECDSASigningSession pe w t ps sid pids th ik) from to) = from ∧
  extractSenderIDFromDirectTopic
    (ComposeDirectTopic
       (ecdsa.NewECDSAResharingSession pe w ps sid opids npids th nth nps np v).1 from to) = from ∧
  extractSenderIDFromDirectTopic
    (ComposeDirectTopic (eddsa.NewEDDSAKeygenSession pd w ps sid pids th) from to) = from ∧
  extractSenderIDFromDirectTopic
    (ComposeDirectTopic (eddsa.NewEDDSASigningSession pd w t ps sid pids th ik) from to) = from ∧
  extractSenderIDFromDirectTopic
    (ComposeDirectTopic
       (eddsa.NewEDDSAResharingSession pd w ps sid opids npids th nth nps np v).1 from to) = from.
Proof.
  cbn [ComposeDirectTopic ecdsa.NewECDSAKeygenSession ecdsa.NewECDSASigningSession
    ecdsa.NewECDSAResharingSession eddsa.NewEDDSAKeygenSession eddsa.NewEDDSASigningSession
    eddsa.NewEDDSAResharingSession fst NewPartySession]. unfold sprintf3.
  split_and!; [apply (extractSender_topic "keygen" "direct" "ecdsa")
    |apply (extractSender_topic "sign" "ecdsa" "direct")
    |apply (extractSender_topic "resharing" "direct" "ecdsa")
    |apply (extractSender_topic "keygen" "direct" "eddsa")
    |apply (extractSender_topic "sign" "eddsa" "direct")
    |apply (extractSender_topic "resharing" "direct" "eddsa")]; done.
Qed.

(** The committee members to keep listening to are the old ones that are not
    in the new committee, in order and as often as they occur. *)
Theorem GetLegacyCommitteePeers_spec (r : resharingSession) :
  (∀ p, p ∈ GetLegacyCommitteePeers r ↔ p ∈ oldPeerIDs r ∧ p ∉ newPeerIDs r) ∧
  sublist (GetLegacyCommitteePeers r) (oldPeerIDs r).
Proof.
  split.
  - intros p. unfold GetLegacyCommitteePeers. cbv zeta. rewrite elem_of_filter_b, bool_decide_eq_true.
    by rewrite elem_of_list_to_set.
  - apply sublist_filter_b.
Qed.

#[export] Instance Content_eq_dec : EqDecision ecdsa.Content.
Proof. solve_decision. Defined.

(** The ECDSA round table: resharing rounds are recognised by name exactly
    among the contents of the resharing protocol, and the names of the known
    rounds are pairwise different. *)
Theorem IsResharingRound_spec (c c' : ecdsa.Content) i i' :
  ecdsa.round_of c = Ok i →
  (ecdsa.IsResharingRound (RoundMsg i) = true ↔
   c ∈ [ecdsa.DGRound1Message; ecdsa.DGRound2Message1; ecdsa.DGRound2Message2;
        ecdsa.DGRound3Message1; ecdsa.DGRound3Message2; ecdsa.DGRound4Message1;
        ecdsa.DGRound4Message2]) ∧
  (ecdsa.round_of c' = Ok i' → RoundMsg i = RoundMsg i' → c = c').
Proof.
  intros Hi. split.
  - assert (∀ b (P : Prop) `{Decision P}, b = bool_decide P → b = true ↔ P) as Hdec
      by (intros b P ? ->; apply bool_decide_eq_true).
    eapply Hdec. destruct c; try done; injection Hi as <-; by vm_compute.
  - intros Hi'. destruct c; try done; injection Hi as <-; destruct c'; try done;
      injection Hi' as <-; done.
Qed.

(** *** Witnesses *)

#[local] Existing Instance toy_crypto.
#[local] Existing Instance tss_ref.
#[local] Existing Instance lo_ref.
#[local] Existing Instance kv_ref.
#[local] Existing Instance kv_ref_spec.
#[local] Existing Instance consul_ref.
#[local] Existing Instance consul_ref_spec.

Definition toy_curve : Curve :=
  ecdsa.curve (SD := string) (λ sd, Ok sd) (λ kb, Ok kb) (λ _, Some (1, 2)) (λ _, "fresh")
    (λ pk m r s, m =? "tx")%string.

Definition toy_keygen : PartySession :=
  set_subs true id (ecdsa.NewECDSAKeygenSession (λ _ _ _, Ok ecdsa.KGRound1Message) "w"
    ["A"; "B"; "C"] (Some (toy_party "A")) [Some (toy_party "A")] 1).

Definition toy_signing : PartySession :=
  set_subs true id (ecdsa.NewECDSASigningSession (λ _ _ _, Ok ecdsa.SignRound2Message) "w" "t1"
    ["A"; "B"] (Some (toy_party "A")) [Some (toy_party "A")] 1 "idem").

Definition toy_world (s : PartySession) : world toy_curve :=
  mkWorld toy_curve s (∅ : gmap string string) (∅ : gmap string string) None (SetBytes "tx") [].

Definition toy_info : KeyInfo := mkKeyInfo ["A"; "B"; "C"] 1 1.
Definition toy_info2 : KeyInfo := mkKeyInfo ["A"; "B"; "D"] 1 2.

Definition toy_Unmarshal_KeyInfo (s : string) : Res KeyInfo :=
  if String.eqb s (encode (KeyInfo_json toy_info)) then Ok toy_info
  else if String.eqb s (encode (KeyInfo_json toy_info2)) then Ok toy_info2
  else Err (errors_New "unexpected end of JSON input").

Definition with_stores (s : PartySession) (w : world toy_curve) : world toy_curve :=
  mkWorld toy_curve s (kv toy_curve w) (consul toy_curve w) None 0 [].

Lemma keygen_then_sign_witness :
  let w' := (keygen_endCh toy_curve (λ _, Ok tt) "share" (toy_world toy_keygen)).2 in
  sign_Init toy_curve toy_Unmarshal_KeyInfo 7 (with_stores toy_signing w') =
  (Ok tt, set_signing toy_curve 1 (Some "share") 7 (with_stores toy_signing w')).
Proof.
  cbv zeta.
  apply (keygen_then_sign toy_curve toy_Unmarshal_KeyInfo (λ _, Ok tt) "share"
    (toy_world toy_keygen) (keygen_endCh toy_curve (λ _, Ok tt) "share" (toy_world toy_keygen)).2
    (with_stores toy_signing
       (keygen_endCh toy_curve (λ _, Ok tt) "share" (toy_world toy_keygen)).2)
    (EncodeS256PubKey (1, 2)));
    [vm_compute; reflexivity| | | | | | |].
  - intros kb H. symmetry. exact H.
  - vm_compute; reflexivity.
  - reflexivity.
  - reflexivity.
  - reflexivity.
  - reflexivity.
  - split_and!; vm_compute; first [reflexivity | discriminate].
Defined.

Definition toy_reshare : resharingSession :=
  mkResharing false ["A"; "B"; "C"] ["A"; "B"; "D"] 1.

Lemma reshare_then_sign_witness :
  let w' := (reshare_endCh toy_curve (λ _, Ok tt) toy_reshare "new" (toy_world toy_keygen)).2 in
  sign_Init toy_curve toy_Unmarshal_KeyInfo 7 (with_stores toy_signing w') =
  (Ok tt, set_signing toy_curve 2 (Some "new") 7 (with_stores toy_signing w')).
Proof.
  cbv zeta.
  apply (reshare_then_sign toy_curve toy_Unmarshal_KeyInfo (λ _, Ok tt) toy_reshare "new" (1, 2)
    (toy_world toy_keygen)
    (reshare_endCh toy_curve (λ _, Ok tt) toy_reshare "new" (toy_world toy_keygen)).2
    (with_stores toy_signing
       (reshare_endCh toy_curve (λ _, Ok tt) toy_reshare "new" (toy_world toy_keygen)).2)
    (EncodeS256PubKey (1, 2)));
    [reflexivity|vm_compute; reflexivity|by vm_compute| | | | | | | |].
  - intros a b H. injection H as H. exact H.
  - intros kb H. symmetry. exact H.
  - vm_compute; reflexivity.
  - reflexivity.
  - reflexivity.
  - reflexivity.
  - reflexivity.
  - split_and!; vm_compute; first [reflexivity | discriminate].
Defined.

Lemma sign_publishes_verified_witness :
  let w := set_signing toy_curve 1 (Some "share") (SetBytes "tx") (toy_world toy_signing) in
  let sig := mkSignatureData (Some "r") (Some "s") None None in
  let w' := (sign_endCh toy_curve (λ _, Ok tt) (λ _ _ _, Ok tt) "t1" sig w).2 in
  queue toy_curve w' ≠ [].
Proof.
  cbv zeta.
  destruct (sign_publishes_verified toy_curve (λ _, Ok tt) (λ _ _ _, Ok tt) "t1"
    (mkSignatureData (Some "r") (Some "s") None None)
    (set_signing toy_curve 1 (Some "share") (SetBytes "tx") (toy_world toy_signing))
    (sign_endCh toy_curve (λ _, Ok tt) (λ _ _ _, Ok tt) "t1"
      (mkSignatureData (Some "r") (Some "s") None None)
      (set_signing toy_curve 1 (Some "share") (SetBytes "tx") (toy_world toy_signing))).2
    (Finished (encode (SigningResponse_json (response toy_curve "w" "t1"
       (mkSignatureData (Some "r") (Some "s") None None))))))
    as [[_ H]|(d & pk & _ & _ & _ & _ & H)].
  - by vm_compute.
  - discriminate H.
  - rewrite H. apply not_eq_sym, app_cons_not_nil.
Defined.

Lemma extractSenderID_topics_witness :
  extractSenderIDFromDirectTopic "sign:ecdsa:direct:nodeA:nodeB:t1" = "nodeA".
Proof.
  apply (extractSenderID_topics (λ _ _ _, Ok ecdsa.KGRound1Message)
    (λ _ _ _, Ok eddsa.KGRound1Message) "w" "t1" [] None [] [] [] 1 1 [] false 1 ""
    "nodeA" "nodeB"). reflexivity.
Defined.

Lemma IsResharingRound_spec_witness :
  ecdsa.IsResharingRound "DGRound4Message1" = true.
Proof.
  apply (IsResharingRound_spec ecdsa.DGRound4Message1 ecdsa.DGRound4Message1
    (mkRoundInfo 5 "DGRound4Message1" "") (mkRoundInfo 5 "DGRound4Message1" "") eq_refl).
  apply (bool_decide_unpack _). by vm_compute.
Defined.
