(* ===== verification/SessionRuns.v ===== *)
(** * Whole runs of a session

    [Sessions] has what a session does with the final value of its protocol; here are the
    runs of its [select] loop around that, over any interleaving of the messages it has
    to send, errors of the party and the end.  Sending touches neither the stores nor
    what the session is about, so what a run leaves is determined by its end. *)

From stdpp Require Import base gmap list strings.
From Stdlib Require Import ZArith Lia.
From S2P Require Import Prelude.
From S2P Require Import GoStrings.
From S2P Require Import External.
From S2P Require Import Json.
From S2P Require Import Types.
From S2P Require Import Identity.
From S2P Require Import PartySession.
From S2P Require Import KeyStore.
From S2P Require Import Sessions.

(** ** What sending leaves alone *)

Section frame.
Context `{C : Crypto} `{T : TssLib}.

(** Only the errors and what was handed to the messaging layer differ. *)
Definition same_session (s s' : PartySession) : Prop :=
  ∃ errs sent, s' = set_wire (λ _, sent) (set_ErrCh (λ _, errs) s).

#[export] Instance same_session_preorder : PreOrder same_session.
Proof.
  split.
  - intros s. exists (ErrCh s), (wire s). by destruct s.
  - intros s1 s2 s3 (e & w & ->) (e' & w' & ->). by exists e', w'.
Qed.

Definition sends {A} (m : M PartySession A) : Prop := ∀ s, same_session s (m s).2.

Lemma sends_lift {A} (r : Res A) : sends (lift r).
Proof. intros s. done. Qed.

Lemma sends_sendErr e : sends (sendErr e).
Proof. intros s. exists (ErrCh s ++ [e]), (wire s). by destruct s. Qed.

Lemma sends_emit w : sends (emit w).
Proof. intros s. exists (ErrCh s), (wire s ++ [w]). by destruct s. Qed.

Lemma sends_bindR {A B} (m : M PartySession (Res A)) (f : A → M PartySession (Res B)) :
  sends m → (∀ a, sends (f a)) → sends (bindR m f).
Proof.
  intros Hm Hf s. unfold bindR. specialize (Hm s). destruct (m s) as [[a|e|p] s1]; [|done..].
  cbn in Hm. etrans; [exact Hm|]. apply Hf.
Qed.

Lemma sends_forR {A} (l : list A) (f : A → M PartySession (Res unit)) :
  (∀ a, sends (f a)) → sends (forR l f).
Proof.
  intros Hf. induction l as [|a l IH]; cbn; [apply sends_lift|]. apply sends_bindR; [apply Hf|done].
Qed.

Lemma sends_deref {A} (o : option A) : sends (deref o).
Proof. apply sends_lift. Qed.

Variable answer : wire_event → Res unit.
Variable nonce_for : string → string.
Variable PartyID_json : PartyID → json.

Lemma sends_call w : sends (call answer w).
Proof. apply sends_bindR; [apply sends_emit|intros; apply sends_lift]. Qed.

(** A computation sends when its steps do, on every branch. *)
Ltac sends :=
  repeat match goal with
  | |- same_session ?s (?m ?s).2 => refine ((_ : sends m) s)
  | |- sends (bindR _ _) => apply sends_bindR; [|intros]
  | |- sends (forR _ _) => apply sends_forR; intros
  | |- sends (match ?x with _ => _ end) => destruct x
  | _ => solve [auto using sends_lift, sends_sendErr, sends_deref, sends_call]
  end.

Lemma sends_sendDirect ids self msg to : sends (sendDirect answer nonce_for ids self msg to).
Proof. intros s. unfold sendDirect. sends. Qed.

Lemma sends_HandleTssMessage ids m : sends (HandleTssMessage answer nonce_for PartyID_json ids m).
Proof.
  intros s. unfold HandleTssMessage.
  destruct m as [[d r]|e|p]; [|apply sends_sendErr|apply (sends_lift (Panic p))].
  sends. apply sends_sendDirect.
Qed.

End frame.

(** ** Runs *)

Section runs.
Context `{C : Crypto} `{T : TssLib} `{L : Lo} `{KV : KVStore} `{CK : ConsulKV}.
Variable cv : Curve.
Variable ids : fileStore.
Variable answer : wire_event → Res unit.
Variable nonce_for : string → string.
Variable PartyID_json : PartyID → json.
Variable Unmarshal_KeyInfo : string → Res KeyInfo.
Variable unsubscribe : option string → Res unit.

#[local] Abbreviation world := (world cv).
#[local] Abbreviation run_loop := (run_loop cv ids answer nonce_for PartyID_json).
#[local] Abbreviation GenerateKey := (GenerateKey cv ids answer nonce_for PartyID_json unsubscribe).
#[local] Abbreviation Reshare := (Reshare cv ids answer nonce_for PartyID_json unsubscribe).

Definition same_stores (w w' : world) : Prop :=
  same_session (ps cv w) (ps cv w') ∧ kv cv w' = kv cv w ∧ consul cv w' = consul cv w ∧
  data cv w' = data cv w ∧ tx cv w' = tx cv w ∧ queue cv w' = queue cv w.

Lemma in_ps_sends {A} (m : M PartySession (Res A)) (w : world) :
  sends m → same_stores w (in_ps cv m w).2.
Proof.
  intros Hm. unfold in_ps. specialize (Hm (ps cv w)). destruct (m (ps cv w)) as [a s].
  cbn. by split_and!.
Qed.

Lemma same_stores_trans w1 w2 w3 : same_stores w1 w2 → same_stores w2 w3 → same_stores w1 w3.
Proof.
  intros (H1 & H2 & H3 & H4 & H5 & H6) (K1 & K2 & K3 & K4 & K5 & K6).
  split_and!; [by etrans|congruence..].
Qed.

(** A run that ends did its last step on the stores it started with. *)
Lemma run_loop_end {E} (fin : E → M world (Res run_end)) evs w r w' :
  run_loop fin evs w = (Ok (Some r), w') →
  ∃ e w1, EndCh _ e ∈ evs ∧ same_stores w w1 ∧ fin e w1 = (Ok r, w').
Proof.
  revert w. induction evs as [|[m|e|e] evs IH]; intros w H; cbn [Sessions.run_loop] in H; [done|..].
  - apply bindR_Ok in H as ([] & w1 & Hs & H).
    pose proof (in_ps_sends _ w
      (sends_HandleTssMessage answer nonce_for PartyID_json ids m)) as Hsame.
    rewrite Hs in Hsame. apply IH in H as (e & w2 & He & Hw & Hf).
    exists e, w2. split_and!; [by right|by eapply same_stores_trans|done].
  - apply bindR_Ok in H as ([] & w1 & Hs & H).
    pose proof (in_ps_sends _ w (sends_sendErr e)) as Hsame.
    rewrite Hs in Hsame. apply IH in H as (e' & w2 & He & Hw & Hf).
    exists e', w2. split_and!; [by right|by eapply same_stores_trans|done].
  - apply bindR_Ok in H as (r' & w1 & Hf & H). apply lift_Ok in H as [[= ->] ->].
    exists e, w. split_and!; [by left| |done]. split_and!; done.
Qed.

Context `{!KVStoreSpec KV} `{!ConsulKVSpec CK}.

(** What the code relies on of json: a key info and a share are read back. *)
Definition info_readable (i : KeyInfo) : Prop :=
  Unmarshal_KeyInfo (encode (KeyInfo_json i)) = Ok i.
Definition share_readable (sd : SaveData cv) : Prop :=
  ∀ kb, Marshal cv sd = Ok kb → Unmarshal_SaveData cv kb = Ok sd.

(** A session [ws] for the wallet of [w], on the stores of [w']. *)
Definition later_session (w w' ws : world) : Prop :=
  kv cv ws = kv cv w' ∧ consul cv ws = consul cv w' ∧
  ComposeKey (ps cv ws) = ComposeKey (ps cv w) ∧ WalletID (ps cv ws) = WalletID (ps cv w).

Lemma run_GenerateKey evs w bytes w' :
  GenerateKey evs w = (Ok (Some (Finished bytes)), w') →
  let s := ps cv w in
  let i := mkKeyInfo (ParticipantPeerIDs s) (Threshold s) (Version s) in
  ∃ sd kb pk, EndCh _ sd ∈ evs ∧ Marshal cv sd = Ok kb ∧ Pub cv sd = Some pk ∧
    encodePub cv pk = Ok bytes ∧
    kv_Put (ComposeKey s (WalletIDWithVersion (WalletID s) (Version s))) kb (kv cv w) =
      (Ok tt, kv cv w') ∧
    Save (ComposeKey s (WalletID s)) i (consul cv w) = (Ok tt, consul cv w').
Proof.
  intros (sd & w1 & He & ((er & wr & Hps) & Hkv & Hco & _) & Hf)%run_loop_end s i.
  apply keygen_endCh_Finished in Hf as (kb & pk & Hm & Hpk & Hpb & Hput & Hsave & _).
  rewrite Hps, ?Hkv, ?Hco in *. exists sd, kb, pk. by split_and!.
Qed.

Lemma run_Reshare r evs w bytes w' :
  Reshare r evs w = (Ok (Some (Finished bytes)), w') →
  let s := ps cv w in
  let v := wrap64 (Version s + 1) in
  ∃ sd, EndCh _ sd ∈ evs ∧
    match Pub cv sd with
    | None => kv cv w' = kv cv w ∧ consul cv w' = consul cv w
    | Some pk => ∃ kb, Marshal cv sd = Ok kb ∧ encodePub cv pk = Ok bytes ∧
        kv_Put (ComposeKey s (WalletIDWithVersion (WalletID s) v)) kb (kv cv w) =
          (Ok tt, kv cv w') ∧
        Save (ComposeKey s (WalletID s)) (mkKeyInfo (newPeerIDs r) (NewThreshold r) v)
          (consul cv w) = (Ok tt, consul cv w')
    end.
Proof.
  intros (sd & w1 & He & ((er & wr & Hps) & Hkv & Hco & _) & Hf)%run_loop_end s v.
  exists sd. split; [done|]. destruct (Pub cv sd) as [pk|] eqn:Hpk.
  - apply (reshare_endCh_Finished cv unsubscribe r sd pk) in Hf
      as (kb & Hm & Hpb & Hput & Hsave & _); [|done].
    rewrite Hps, ?Hkv, ?Hco in *. exists kb. by split_and!.
  - unfold reshare_endCh in Hf. rewrite Hpk in Hf.
    by apply done_then_close_Ok in Hf as [_ ->].
Qed.

(** C1: a generated key can sign.  A run of key generation that finishes, whatever was
    sent and failed on its way, has received a share such that a later signing session
    of the wallet at this node, with enough of its participants from the generation,
    initialises with exactly this share and the version it was saved under; the shares
    of other keys are as before. *)
Theorem generated_key_signs evs w bytes w' ws newTx
    (Hrun : GenerateKey evs w = (Ok (Some (Finished bytes)), w'))
    (Hlater : later_session w w' ws)
    (Hshare : ∀ sd, EndCh _ sd ∈ evs → share_readable sd)
    (Hinfo : info_readable
      (mkKeyInfo (ParticipantPeerIDs (ps cv w)) (Threshold (ps cv w)) (Version (ps cv w))))
    (Henough : enough (ps cv ws)
      (mkKeyInfo (ParticipantPeerIDs (ps cv w)) (Threshold (ps cv w)) (Version (ps cv w)))) :
  (∃ sd, EndCh _ sd ∈ evs ∧
     sign_Init cv Unmarshal_KeyInfo newTx ws =
       (Ok tt, set_signing cv (Version (ps cv w)) (Some sd) newTx ws)) ∧
  ∀ k, k ≠ ComposeKey (ps cv w) (WalletIDWithVersion (WalletID (ps cv w)) (Version (ps cv w))) →
    kv_Get (kv cv w') k = kv_Get (kv cv w) k.
Proof.
  destruct (run_GenerateKey _ _ _ _ Hrun) as (sd & kb & pk & He & Hm & _ & _ & Hput & Hsave).
  destruct Hlater as (Hkv & Hco & Hkey & Hwallet).
  split; [|intros k Hk; by eapply kv_Get_Put_ne]. exists sd. split; [done|].
  eapply (sign_Init_loads cv Unmarshal_KeyInfo newTx ws (mkKeyInfo _ _ _));
    rewrite ?Hkv, ?Hco, ?Hkey, ?Hwallet.
  - by eapply Save_Get.
  - done.
  - by eapply kv_Get_Put.
  - by apply Hshare.
Qed.

(** C2: a reshared key can sign.  A run of resharing that finishes leaves an old member's
    stores alone; at a new member a later signing session finds the new committee, the
    new threshold and the next version, and loads the share the run has received, while
    the old share stays in the store under its own version. *)
Theorem reshared_key_signs r evs w bytes w' ws newTx
    (Hrun : Reshare r evs w = (Ok (Some (Finished bytes)), w'))
    (Hlater : later_session w w' ws)
    (Hv : 0 ≤ Version (ps cv w) < MaxInt64)
    (Hcompose : ∀ a b, ComposeKey (ps cv w) a = ComposeKey (ps cv w) b → a = b)
    (Hshare : ∀ sd, EndCh _ sd ∈ evs → share_readable sd)
    (Hinfo : info_readable (mkKeyInfo (newPeerIDs r) (NewThreshold r) (Version (ps cv w) + 1)))
    (Henough : enough (ps cv ws)
      (mkKeyInfo (newPeerIDs r) (NewThreshold r) (Version (ps cv w) + 1))) :
  ∃ sd, EndCh _ sd ∈ evs ∧
    let old := ComposeKey (ps cv w)
                 (WalletIDWithVersion (WalletID (ps cv w)) (Version (ps cv w))) in
    kv_Get (kv cv w') old = kv_Get (kv cv w) old ∧
    match Pub cv sd with
    | None => kv cv w' = kv cv w ∧ consul cv w' = consul cv w
    | Some _ => sign_Init cv Unmarshal_KeyInfo newTx ws =
        (Ok tt, set_signing cv (Version (ps cv w) + 1) (Some sd) newTx ws)
    end.
Proof.
  destruct (run_Reshare _ _ _ _ _ Hrun) as (sd & He & Hsd).
  destruct Hlater as (Hkv & Hco & Hkey & Hwallet). exists sd. split; [done|].
  destruct (Pub cv sd) as [pk|]; [|destruct Hsd as [-> ->]; by split_and!].
  destruct Hsd as (kb & Hm & _ & Hput & Hsave).
  rewrite wrap64_small in Hput, Hsave by (unfold int64_range, MinInt64, MaxInt64 in *; lia).
  split.
  - eapply kv_Get_Put_ne; [|exact Hput]. intros H%Hcompose.
    apply versioned_ne in H; [done|lia..].
  - eapply (sign_Init_loads cv Unmarshal_KeyInfo newTx ws (mkKeyInfo _ _ _));
      rewrite ?Hkv, ?Hco, ?Hkey, ?Hwallet.
    + by eapply Save_Get.
    + done.
    + by eapply kv_Get_Put.
    + by apply Hshare.
Qed.

End runs.

(** ** Witnesses *)

#[local] Existing Instance toy_crypto.
#[local] Existing Instance tss_ref.
#[local] Existing Instance lo_ref.
#[local] Existing Instance kv_ref.
#[local] Existing Instance kv_ref_spec.
#[local] Existing Instance consul_ref.
#[local] Existing Instance consul_ref_spec.

(** A broadcast, a message without bytes, an error of the party, the end. *)
Definition toy_evs (share : string) : list (tss_event string) :=
  [OutCh _ (Ok (Some "r1", mkRouting (Some (toy_party "A")) None true));
   OutCh _ (Err (errors_New "wire bytes")); StartErr _ (errors_New "start"); EndCh _ share].

#[local] Abbreviation toy_keygen_run :=
  (GenerateKey toy_curve (toy_ids "A" "B") (λ _, Ok tt) (λ _, "nonce") (λ _, JNull) (λ _, Ok tt)
    (toy_evs "share") (toy_world toy_keygen)).

#[local] Abbreviation toy_reshare_run :=
  (Reshare toy_curve (toy_ids "A" "B") (λ _, Ok tt) (λ _, "nonce") (λ _, JNull) (λ _, Ok tt)
    toy_reshare (toy_evs "new") (toy_world toy_keygen)).

Lemma toy_keygen_finished :
  ∃ w', toy_keygen_run = (Ok (Some (Finished (EncodeS256PubKey (1, 2)))), w').
Proof. eexists. apply run_of_eval. vm_compute. reflexivity. Qed.

Lemma toy_reshare_finished :
  ∃ w', toy_reshare_run = (Ok (Some (Finished (EncodeS256PubKey (1, 2)))), w').
Proof. eexists. apply run_of_eval. vm_compute. reflexivity. Qed.

Lemma toy_share_readable sd : share_readable toy_curve sd.
Proof. intros kb H. symmetry. exact H. Qed.

Lemma toy_later w' : later_session toy_curve (toy_world toy_keygen) w' (with_stores toy_signing w').
Proof. by split_and!. Qed.

Lemma generated_key_signs_witness :
  ∃ w', toy_keygen_run = (Ok (Some (Finished (EncodeS256PubKey (1, 2)))), w') ∧
    (∃ sd, EndCh _ sd ∈ toy_evs "share" ∧
      sign_Init toy_curve toy_Unmarshal_KeyInfo 7 (with_stores toy_signing w') =
        (Ok tt, set_signing toy_curve 1 (Some sd) 7 (with_stores toy_signing w'))).
Proof.
  destruct toy_keygen_finished as [w' Hrun]. exists w'. split; [exact Hrun|].
  refine (proj1 (generated_key_signs toy_curve (toy_ids "A" "B") (λ _, Ok tt) (λ _, "nonce")
    (λ _, JNull) toy_Unmarshal_KeyInfo (λ _, Ok tt) (toy_evs "share") (toy_world toy_keygen)
    (EncodeS256PubKey (1, 2)) w' (with_stores toy_signing w') 7 Hrun (toy_later w') _ _ _)).
  - intros sd _. apply toy_share_readable.
  - vm_compute. reflexivity.
  - split_and!; vm_compute; first [reflexivity | discriminate].
Defined.

Lemma reshared_key_signs_witness :
  ∃ w', toy_reshare_run = (Ok (Some (Finished (EncodeS256PubKey (1, 2)))), w') ∧
    ∃ sd : string, EndCh _ sd ∈ toy_evs "new" ∧
      sign_Init toy_curve toy_Unmarshal_KeyInfo 7 (with_stores toy_signing w') =
        (Ok tt, set_signing toy_curve 2 (Some sd) 7 (with_stores toy_signing w')).
Proof.
  destruct toy_reshare_finished as [w' Hrun]. exists w'. split; [exact Hrun|].
  destruct (reshared_key_signs toy_curve (toy_ids "A" "B") (λ _, Ok tt) (λ _, "nonce")
    (λ _, JNull) toy_Unmarshal_KeyInfo (λ _, Ok tt) toy_reshare (toy_evs "new")
    (toy_world toy_keygen) (EncodeS256PubKey (1, 2)) w' (with_stores toy_signing w') 7 Hrun
    (toy_later w')) as (sd & He & _ & Hs).
  - by vm_compute.
  - intros a b H. injection H as H. exact H.
  - intros sd _. apply toy_share_readable.
  - vm_compute. reflexivity.
  - split_and!; vm_compute; first [reflexivity | discriminate].
  - exists sd. split; [exact He|exact Hs].
Defined.
