(* ===== verification/Eddsa.v ===== *)
(** * pkg/mpc/eddsa: the EdDSA sessions as their files have them

    [Sessions] gives the bodies of the sessions once, for a [Curve].  This file writes
    out the EdDSA package's own copy - keygen.go, signing.go and resharing.go - and
    shows that it behaves as the shared bodies do at [eddsa.curve], so that what is
    proved of those holds of it. *)

From stdpp Require Import base gmap list strings.
From Stdlib Require Import ZArith Lia.
From S2P Require Import Prelude.
From S2P Require Import GoStrings.
From S2P Require Import External.
From S2P Require Import Json.
From S2P Require Import Types.
From S2P Require Import Identity.
From S2P Require Import PartySession.
From S2P Require Import KeyStore.
From S2P Require Import Logger.
From S2P Require Import Sessions.
From S2P Require Import SessionRuns.

Section eddsa.
Context `{C : Crypto} `{T : TssLib} `{L : Lo} `{KV : KVStore} `{CK : ConsulKV}.

(** keygen.LocalPartySaveData with its JSON form, and the edwards package. *)
Context {SD : Type}.
Variable json_Marshal : SD → Res string.
Variable json_Unmarshal : string → Res SD.
Variable EDDSAPub : SD → option (Z * Z).
Variable NewLocalPartySaveData : nat → SD.
Variable SerializeCompressed : Z * Z → string.
Variable edwards_Verify : Z * Z → string → Z → Z → bool.

Definition cv : Curve :=
  eddsa.curve json_Marshal json_Unmarshal EDDSAPub NewLocalPartySaveData SerializeCompressed
    edwards_Verify.

Variable ids : fileStore.
Variable answer : wire_event → Res unit.
Variable nonce_for : string → string.
Variable PartyID_json : PartyID → json.
Variable Unmarshal_KeyInfo : string → Res KeyInfo.
Variable unsubscribe : option string → Res unit.
Variable enqueue : string → string → string → Res unit.

#[local] Abbreviation world := (world cv).
#[local] Abbreviation try := (try cv).
#[local] Abbreviation in_ps := (in_ps cv).
#[local] Abbreviation in_kv := (in_kv cv).
#[local] Abbreviation in_consul := (in_consul cv).
#[local] Abbreviation close_session := (close_session cv unsubscribe).

(** ** keygen.go *)

Definition GenerateKey_endCh (saveData : SD) : M world (Res run_end) := λ w,
  let s := ps cv w in
  (try id (lift (json_Marshal saveData)) (λ keyBytes,
   try id (in_kv (kv_Put (ComposeKey s (WalletIDWithVersion (WalletID s) (Version s)))
                    keyBytes)) (λ _,
   let keyInfo := mkKeyInfo (ParticipantPeerIDs s) (Threshold s) (Version s) in
   try id (in_consul (Save (ComposeKey s (WalletID s)) keyInfo)) (λ _,
   publicKey ←! lift (nonnil (EDDSAPub saveData));
   let pubKeyBytes := SerializeCompressed publicKey in
   _ ←! in_ps (modifyR (set_PubkeyBytes (Some pubKeyBytes)));
   _ ←! close_session;
   lift (Ok (Finished pubKeyBytes)))))) w.

Definition GenerateKey (evs : list (tss_event SD)) : M world (Res (option run_end)) :=
  run_loop cv ids answer nonce_for PartyID_json GenerateKey_endCh evs.

(** ** signing.go *)

Definition signing_Init (tx : Z) : M world (Res unit) := λ w,
  let s := ps cv w in
  (keyInfo ←! lift (wrap_err "failed to get key info data: "
               (Get Unmarshal_KeyInfo (consul cv w) (ComposeKey s (WalletID s))));
   if Z.of_nat (length (ParticipantPeerIDs s)) <? wrap64 (ki_Threshold keyInfo + 1) then
     _ ←! lift (logger.logged (eddsa.warn_short (wrap64 (ki_Threshold keyInfo + 1))
            (ParticipantPeerIDs s)));
     lift (Err ErrNotEnoughParticipants)
   else
     let result := lo_Intersect (ParticipantPeerIDs s) (ki_ParticipantPeerIDs keyInfo) in
     if Z.of_nat (length result) <? wrap64 (ki_Threshold keyInfo + 1) then
       lift (Err (errors_New ("incompatible peerIDs to participate in signing. " +:+
         "Current participants: " +:+ fmt_v (ParticipantPeerIDs s) +:+
         ", expected participants: " +:+ fmt_v (ki_ParticipantPeerIDs keyInfo))))
     else
       let key := ComposeKey s (WalletIDWithVersion (WalletID s) (ki_Version keyInfo)) in
       keyData ←! lift (wrap_err "Failed to get wallet data from KVStore: "
         (kv_Get (kv cv w) key));
       data ←! lift (wrap_err "Failed to unmarshal wallet data: " (json_Unmarshal keyData));
       modifyR (set_signing cv (ki_Version keyInfo) (Some data) tx)) w.

(** Only the signature itself is in the response; the field is from [tss-lib]. *)
Definition Sign_endCh (txID : string) (sig : SignatureData) : M world (Res run_end) := λ w,
  let s := ps cv w in
  (data ←! lift (nonnil (data cv w));
   publicKey ←! lift (nonnil (EDDSAPub data));
   let ok := edwards_Verify publicKey (Bytes (tx cv w)) (big_SetBytes (sd_R sig))
               (big_SetBytes (sd_S sig)) in
   if negb ok then
     _ ←! in_ps (sendErr (errors_New "Failed to verify signature")); lift (Ok Failed)
   else
     let r := mkSigningResponse NoErrorCode "" false (WalletID s) txID None None None
                (sd_Signature sig) in
     let bytes := encode (SigningResponse_json r) in
     try (Errorf_w "Failed to publish sign success message: ")
       (lift (enqueue SigningResultCompleteTopic bytes (IdempotentKey s))) (λ _,
       _ ←! modifyR (push cv (SigningResultCompleteTopic, bytes, IdempotentKey s));
       _ ←! close_session;
       lift (Ok (Finished bytes)))) w.

Definition Sign (txID : string) (evs : list (tss_event SignatureData)) :
    M world (Res (option run_end)) :=
  run_loop cv ids answer nonce_for PartyID_json (Sign_endCh txID) evs.

(** ** resharing.go *)

(** The closure of [GetLegacyCommitteePeers]: its map, then its loop. *)
Definition difference_loop (A B : list string) : list string :=
  let seen := foldl (λ (m : gmap string bool) b, <[b := true]> m) ∅ B in
  foldl (λ result a, if negb (default false (seen !! a)) then result ++ [a] else result) [] A.

Definition GetLegacyCommitteePeers_loop (r : resharingSession) : list string :=
  difference_loop (oldPeerIDs r) (newPeerIDs r).

Definition resharing_Init (r : resharingSession) (w : world) : Res SD :=
  if isNewParty r then Ok (NewLocalPartySaveData (length (PartyIDs (ps cv w))))
  else wrap_err "failed to load old share data eddsa: "
         (LoadOldShareDataGeneric (ps cv w) (kv_Get (kv cv w)) json_Unmarshal
            (WalletID (ps cv w)) (Version (ps cv w))).

(** The public key is looked at twice; [done()] comes before [Close]. *)
Definition Reshare_endCh (r : resharingSession) (saveData : SD) : M world (Res run_end) := λ w,
  let s := ps cv w in
  let finish := done_then_close cv unsubscribe in
  (if bool_decide (is_Some (EDDSAPub saveData)) then
     try id (lift (json_Marshal saveData)) (λ keyBytes,
     let newVersion := wrap64 (Version s + 1) in
     let key := ComposeKey s (WalletIDWithVersion (WalletID s) newVersion) in
     try id (in_kv (kv_Put key keyBytes)) (λ _,
     let keyInfo := mkKeyInfo (newPeerIDs r) (NewThreshold r) newVersion in
     try id (in_consul (Save (ComposeKey s (WalletID s)) keyInfo)) (λ _,
     _ ←! match EDDSAPub saveData with
          | Some publicKey =>
              in_ps (modifyR (set_PubkeyBytes (Some (SerializeCompressed publicKey))))
          | None => lift (Ok tt)
          end;
     finish)))
   else finish) w.

Definition Reshare (r : resharingSession) (evs : list (tss_event SD)) :
    M world (Res (option run_end)) :=
  run_loop cv ids answer nonce_for PartyID_json (Reshare_endCh r) evs.

(** ** Properties *)

Lemma seen_lookup B (m : gmap string bool) a :
  default false (foldl (λ (m : gmap string bool) b, <[b := true]> m) m B !! a) =
  bool_decide (a ∈ B) || default false (m !! a).
Proof.
  revert m. induction B as [|b B IH]; intros m; [done|]. cbn. rewrite IH.
  destruct (decide (a = b)) as [->|Hne].
  - rewrite lookup_insert_eq. cbn. rewrite orb_true_r. by rewrite bool_decide_eq_true_2 by set_solver.
  - rewrite lookup_insert_ne by done. f_equal. apply bool_decide_ext. set_solver.
Qed.

Lemma foldl_filter {A} (f : A → bool) l acc :
  foldl (λ result a, if f a then result ++ [a] else result) acc l = acc ++ List.filter f l.
Proof.
  revert acc. induction l as [|a l IH]; intros acc; cbn; [by rewrite app_nil_r|].
  rewrite IH. destruct (f a); [by rewrite <-app_assoc|done].
Qed.

Lemma difference_loop_spec A B :
  difference_loop A B = List.filter (λ a, bool_decide (a ∉ B)) A.
Proof.
  unfold difference_loop. rewrite foldl_filter. cbn. apply filter_ext. intros a.
  rewrite seen_lookup, lookup_empty, orb_false_r, bool_decide_not. done.
Qed.

Lemma Reshare_endCh_shared r sd w :
  Reshare_endCh r sd w = reshare_endCh cv unsubscribe r sd w.
Proof.
  unfold Reshare_endCh, reshare_endCh. cbn [Pub cv eddsa.curve].
  destruct (EDDSAPub sd) as [pk|]; [|done]. rewrite bool_decide_eq_true_2 by done.
  done.
Qed.

(** Two loops whose last steps agree do the same. *)
Lemma run_loop_ext {E} (f g : E → M world (Res run_end)) evs w :
  (∀ e w, f e w = g e w) →
  run_loop cv ids answer nonce_for PartyID_json f evs w =
  run_loop cv ids answer nonce_for PartyID_json g evs w.
Proof.
  intros Hfg. revert w. induction evs as [|[m|e|e] evs IH]; intros w; cbn [run_loop].
  - done.
  - unfold bindR. destruct (in_ps _ w) as [[] w1]; [apply IH|done..].
  - unfold bindR. destruct (in_ps _ w) as [[] w1]; [apply IH|done..].
  - unfold bindR. by rewrite Hfg.
Qed.

Lemma GenerateKey_shared evs w :
  GenerateKey evs w = Sessions.GenerateKey cv ids answer nonce_for PartyID_json unsubscribe evs w.
Proof. by apply run_loop_ext. Qed.

Lemma Reshare_shared r evs w :
  Reshare r evs w = Sessions.Reshare cv ids answer nonce_for PartyID_json unsubscribe r evs w.
Proof. apply run_loop_ext. intros; apply Reshare_endCh_shared. Qed.

(** The EdDSA package's sessions - constructors apart, which [Sessions] has - do
    what the shared sessions do at its curve: their runs, whatever the protocol
    delivers, and their initialisation, with the same end, session and stores; and the
    committee members that are listened to are the old ones that are not new. *)
Theorem eddsa_sessions_shared r txID newTx w :
  (∀ evs, GenerateKey evs w =
     Sessions.GenerateKey cv ids answer nonce_for PartyID_json unsubscribe evs w) ∧
  signing_Init newTx w = sign_Init cv Unmarshal_KeyInfo newTx w ∧
  (∀ evs, Sign txID evs w =
     Sessions.Sign cv ids answer nonce_for PartyID_json unsubscribe enqueue txID evs w) ∧
  resharing_Init r w = reshare_Init cv r w ∧
  (∀ evs, Reshare r evs w =
     Sessions.Reshare cv ids answer nonce_for PartyID_json unsubscribe r evs w) ∧
  GetLegacyCommitteePeers_loop r = GetLegacyCommitteePeers r.
Proof.
  split_and!.
  - intros evs. apply GenerateKey_shared.
  - done.
  - intros evs. by apply run_loop_ext.
  - done.
  - intros evs. apply Reshare_shared.
  - unfold GetLegacyCommitteePeers_loop. rewrite difference_loop_spec.
    unfold GetLegacyCommitteePeers. apply filter_ext. intros a. apply bool_decide_ext.
    by rewrite elem_of_list_to_set.
Qed.

(** *** A signing with too few participants *)

(** The warning about it is called with the arguments of a format string, of which
    the first is taken for a key: the EdDSA session panics where the ECDSA session returns
    ErrNotEnoughParticipants, for which the event consumer has a case. *)
Lemma short_signing_panics newTx w i
    (Hget : Get Unmarshal_KeyInfo (consul cv w) (ComposeKey (ps cv w) (WalletID (ps cv w))) = Ok i)
    (Hshort : Z.of_nat (length (ParticipantPeerIDs (ps cv w))) < wrap64 (ki_Threshold i + 1)) :
  signing_Init newTx w =
    (Panic "interface conversion: interface {} is int, not string", w) ∧
  logger.logged (ecdsa.warn_short (wrap64 (ki_Threshold i + 1)) (ParticipantPeerIDs (ps cv w))) =
    Ok tt.
Proof.
  split; [|done]. unfold signing_Init, bindR at 1, lift at 1. rewrite Hget. cbn [wrap_err].
  rewrite (proj2 (Z.ltb_lt _ _)) by done. done.
Qed.

(** *** What an old member keeps *)

(** A resharing that ends without a public key writes to no store. *)
Lemma Reshare_old_member r sd w e w' :
  EDDSAPub sd = None → Reshare_endCh r sd w = (Ok e, w') →
  e = Finished (default EmptyString (PubkeyBytes (ps cv w))) ∧ w' = w.
Proof.
  intros Hpk Hr. unfold Reshare_endCh in Hr. rewrite Hpk in Hr.
  by apply done_then_close_Ok in Hr.
Qed.

(** *** A wallet from its generation to a signature after a resharing *)

Context `{!KVStoreSpec KV} `{!ConsulKVSpec CK}.

(** The key a share is saved under is the one a resharing looks for. *)
Lemma LoadOldShareDataGeneric_saved {D} s get (decode : string → Res D) wid v kb sd :
  0 ≤ v → get (ComposeKey s (WalletIDWithVersion wid v)) = Ok kb → decode kb = Ok sd →
  LoadOldShareDataGeneric s get decode wid v = Ok sd.
Proof.
  intros Hv Hget Hdec. unfold LoadOldShareDataGeneric, WalletIDWithVersion in *.
  destruct (Z.ltb_spec 0 v) as [Hp|Hp].
  - rewrite Hget. cbn. destruct (Z.eqb_spec v 0); [lia|]. cbn. by rewrite Hdec.
  - assert (v = 0) as -> by lia. cbn in *. rewrite Hget. cbn. by rewrite Hdec.
Qed.

(** C16: the EdDSA life of a wallet at one node.  A generation that finished has
    published the serialised public key of a share it received; a resharing session of
    the wallet at the generated version, on the stores that are left, loads exactly that
    share when the node is of the old committee, and its run, however it goes, leaves the
    share in the store.  If the run finishes at a member of the new committee, what it
    publishes is the public key of the share it has received, and a later signing
    session, with enough of the new committee, initialises with this share and the next
    version. *)
Theorem eddsa_wallet_life r evs evs2 w w1 w2 w3 ws pub bytes newTx
    (Hgen : GenerateKey evs w = (Ok (Some (Finished pub)), w1))
    (Hnext : later_session cv w w1 w2) (Hversion : Version (ps cv w2) = Version (ps cv w))
    (Hres : Reshare r evs2 w2 = (Ok (Some (Finished bytes)), w3))
    (Hlater : later_session cv w2 w3 ws)
    (Hv : 0 ≤ Version (ps cv w) < MaxInt64)
    (Hcompose : ∀ a b, ComposeKey (ps cv w) a = ComposeKey (ps cv w) b → a = b)
    (Hshare : ∀ sd kb, json_Marshal sd = Ok kb → json_Unmarshal kb = Ok sd)
    (Hinfo : info_readable Unmarshal_KeyInfo
       (mkKeyInfo (newPeerIDs r) (NewThreshold r) (Version (ps cv w) + 1)))
    (Henough : enough (ps cv ws)
       (mkKeyInfo (newPeerIDs r) (NewThreshold r) (Version (ps cv w) + 1))) :
  ∃ sd sd' pk, EndCh _ sd ∈ evs ∧ EndCh _ sd' ∈ evs2 ∧
    EDDSAPub sd = Some pk ∧ pub = SerializeCompressed pk ∧
    (isNewParty r = false → resharing_Init r w2 = Ok sd) ∧
    kv_Get (kv cv w3) (ComposeKey (ps cv w)
      (WalletIDWithVersion (WalletID (ps cv w)) (Version (ps cv w)))) = json_Marshal sd ∧
    ∀ pk', EDDSAPub sd' = Some pk' →
      bytes = SerializeCompressed pk' ∧
      signing_Init newTx ws =
        (Ok tt, set_signing cv (Version (ps cv w) + 1) (Some sd') newTx ws).
Proof.
  rewrite GenerateKey_shared in Hgen. rewrite Reshare_shared in Hres.
  apply run_GenerateKey in Hgen
    as (sd & kb & pk & He & Hm & Hpk & [= Hpub] & Hput & _).
  apply run_Reshare in Hres as (sd' & He' & Hend).
  destruct Hnext as (Hkv & _ & Hkey & Hwallet), Hlater as (Hkv' & Hco' & Hkey' & Hwallet').
  apply kv_Get_Put in Hput. rewrite Hkey, Hwallet, Hversion, Hkv in Hend.
  rewrite wrap64_small in Hend by (unfold int64_range, MinInt64, MaxInt64 in *; lia).
  exists sd, sd', pk. split_and!; [done..|congruence| | |].
  - intros Hold. unfold resharing_Init. rewrite Hold.
    erewrite LoadOldShareDataGeneric_saved; [done|lia| |by apply Hshare].
    by rewrite Hkey, Hwallet, Hversion, Hkv.
  - cbn [Marshal cv eddsa.curve] in Hm. rewrite Hm.
    destruct (Pub cv sd') as [pk'|]; [|destruct Hend as [-> _]; done].
    destruct Hend as (kb' & _ & _ & Hput' & _).
    erewrite kv_Get_Put_ne; [done| |exact Hput'].
    intros H%Hcompose. apply versioned_ne in H; [done|lia..].
  - intros pk' Hpk'. change (Pub cv sd') with (EDDSAPub sd') in Hend. rewrite Hpk' in Hend.
    destruct Hend as (kb' & Hm' & [= Hbytes] & Hput' & Hsave'). split; [done|].
    change (sign_Init cv Unmarshal_KeyInfo newTx ws =
      (Ok tt, set_signing cv (Version (ps cv w) + 1) (Some sd') newTx ws)).
    eapply (sign_Init_loads cv Unmarshal_KeyInfo newTx ws (mkKeyInfo _ _ _));
      rewrite ?Hkv', ?Hco', ?Hkey', ?Hwallet', ?Hkey, ?Hwallet.
    + by eapply Save_Get.
    + done.
    + by eapply kv_Get_Put.
    + by apply Hshare.
Qed.

End eddsa.

(** ** Witnesses *)

#[local] Existing Instance toy_crypto.
#[local] Existing Instance tss_ref.
#[local] Existing Instance lo_ref.
#[local] Existing Instance kv_ref.
#[local] Existing Instance kv_ref_spec.
#[local] Existing Instance consul_ref.
#[local] Existing Instance consul_ref_spec.

Definition toy_eddsa : Curve :=
  cv (SD := string) (λ sd, Ok sd) (λ kb, Ok kb) (λ _, Some (1, 2)) (λ _, "fresh") (λ _, "pub")
    (λ _ _ _ _, true).

Definition toy_eddsa_world (s : PartySession) (kv consul : gmap string string) : world toy_eddsa :=
  mkWorld toy_eddsa (set_subs true id s) kv consul None 0 [].

Definition toy_eddsa_gen : PartySession :=
  eddsa.NewEDDSAKeygenSession (λ _ _ _, Ok eddsa.KGRound1Message) "w" ["A"; "B"; "C"]
    (Some (toy_party "A")) [Some (toy_party "A")] 1.

Definition toy_eddsa_reshare : PartySession * resharingSession :=
  eddsa.NewEDDSAResharingSession (λ _ _ _, Ok eddsa.DGRound1Message) "w" ["A"; "B"; "D"]
    (Some (toy_party "A")) [Some (toy_party "A")] [Some (toy_party "A")] 1 1 ["A"; "B"; "D"]
    false 1.

Definition toy_eddsa_sign : PartySession :=
  eddsa.NewEDDSASigningSession (λ _ _ _, Ok eddsa.SignRound1Message) "w" "t1" ["A"; "B"]
    (Some (toy_party "A")) [Some (toy_party "A")] 1 "idem".

#[local] Abbreviation toy_eddsa_generated :=
  (GenerateKey (SD := string) (λ sd, Ok sd) (λ kb, Ok kb) (λ _, Some (1, 2)) (λ _, "fresh")
    (λ _, "pub") (λ _ _ _ _, true) (toy_ids "A" "B") (λ _, Ok tt) (λ _, "nonce") (λ _, JNull)
    (λ _, Ok tt) (toy_evs "share") (toy_eddsa_world toy_eddsa_gen ∅ ∅)).

#[local] Abbreviation toy_eddsa_reshared w1 :=
  (Reshare (SD := string) (λ sd, Ok sd) (λ kb, Ok kb) (λ _, Some (1, 2)) (λ _, "fresh")
    (λ _, "pub") (λ _ _ _ _, true) (toy_ids "A" "B") (λ _, Ok tt) (λ _, "nonce") (λ _, JNull)
    (λ _, Ok tt) toy_eddsa_reshare.2 (toy_evs "new")
    (toy_eddsa_world toy_eddsa_reshare.1 (kv toy_eddsa w1) (consul toy_eddsa w1))).

Lemma toy_eddsa_life : ∃ w1 w3,
  toy_eddsa_generated = (Ok (Some (Finished "pub")), w1) ∧
  toy_eddsa_reshared w1 = (Ok (Some (Finished "pub")), w3).
Proof.
  exists toy_eddsa_generated.2, (toy_eddsa_reshared toy_eddsa_generated.2).2.
  split; apply run_of_eval; vm_compute; reflexivity.
Qed.

Lemma eddsa_wallet_life_witness : ∃ w1 w3 sd sd' pk,
  toy_eddsa_generated = (Ok (Some (Finished "pub")), w1) ∧
  toy_eddsa_reshared w1 = (Ok (Some (Finished "pub")), w3) ∧
  EndCh _ sd ∈ toy_evs "share" ∧ EndCh _ sd' ∈ toy_evs "new" ∧ Some (1, 2) = Some pk ∧
  kv_Get (kv toy_eddsa w3) "eddsa:w_v1" = Ok sd ∧
  sign_Init toy_eddsa toy_Unmarshal_KeyInfo 7
    (toy_eddsa_world toy_eddsa_sign (kv toy_eddsa w3) (consul toy_eddsa w3)) =
  (Ok tt, set_signing toy_eddsa 2 (Some sd') 7
    (toy_eddsa_world toy_eddsa_sign (kv toy_eddsa w3) (consul toy_eddsa w3))).
Proof.
  destruct toy_eddsa_life as (w1 & w3 & Hgen & Hres). exists w1, w3.
  destruct (eddsa_wallet_life (SD := string) (λ sd, Ok sd) (λ kb, Ok kb) (λ _, Some (1, 2))
    (λ _, "fresh") (λ _, "pub") (λ _ _ _ _, true) (toy_ids "A" "B") (λ _, Ok tt) (λ _, "nonce")
    (λ _, JNull) toy_Unmarshal_KeyInfo (λ _, Ok tt) toy_eddsa_reshare.2 (toy_evs "share")
    (toy_evs "new") (toy_eddsa_world toy_eddsa_gen ∅ ∅) w1
    (toy_eddsa_world toy_eddsa_reshare.1 (kv toy_eddsa w1) (consul toy_eddsa w1)) w3
    (toy_eddsa_world toy_eddsa_sign (kv toy_eddsa w3) (consul toy_eddsa w3)) "pub" "pub" 7 Hgen)
    as (sd & sd' & pk & He & He' & Hpk & _ & _ & Hold & Hnew).
  - by split_and!.
  - reflexivity.
  - exact Hres.
  - by split_and!.
  - by vm_compute.
  - intros a b H. injection H as H. exact H.
  - intros sd kb H. symmetry. exact H.
  - vm_compute. reflexivity.
  - split_and!; vm_compute; first [reflexivity | discriminate].
  - exists sd, sd', pk.
    split; [exact Hgen|split; [exact Hres|split; [exact He|split; [exact He'|]]]].
    split; [exact Hpk|]. split; [exact Hold|]. exact (proj2 (Hnew (1, 2) eq_refl)).
Defined.
