(* ===== verification/Node.v ===== *)
(** * pkg/mpc/node.go: creating the sessions

    The node reads the registry and the key infos and decides who takes part in a
    session, under which party ids, with which version.  The registry is any
    type with the [PeerRegistry] interface; [uuid] is the sequence of fresh
    UUIDs of a call.  [logger.Fatal] ends the process, as a panic does here. *)

From stdpp Require Import base gmap list strings sorting.
From Stdlib Require Import ZArith Lia Ascii.
From S2P Require Import Prelude.
From S2P Require Import GoStrings.
From S2P Require Import External.
From S2P Require Import Json.
From S2P Require Import Types.
From S2P Require Import Identity.
From S2P Require Import Ecdh.
From S2P Require Import Registry.
From S2P Require Import PartySession.
From S2P Require Import KeyStore.
From S2P Require Import Sessions.

Definition PurposeKeygen : string := "keygen".
Definition PurposeSign : string := "sign".
Definition PurposeResharing : string := "resharing".

Definition slices_Contains (l : list string) (x : string) : bool := bool_decide (x ∈ l).

Definition sessionKeyPrefix (sessionType : string) : Res string :=
  if String.eqb sessionType SessionTypeECDSA then Ok "ecdsa"
  else if String.eqb sessionType SessionTypeEDDSA then Ok "eddsa"
  else Err (errors_New ("unsupported session type: " +:+ sessionType)).

Definition ComposeReadyKey (nodeID : string) : string := "ready/" +:+ nodeID.

Section node.
Context `{C : Crypto} `{T : TssLib} `{CK : ConsulKV} {R : Type} `{PR : PeerRegistry R}.
Variable Unmarshal_KeyInfo : string → Res KeyInfo.
Variable ParseECDSA : option string → option PartyID → bool → Res ecdsa.Content.
Variable ParseEDDSA : option string → option PartyID → bool → Res eddsa.Content.

(** [Node]'s fields that its methods read. *)
Record Node := mkNode {
  node_nodeID : string;
  node_peerIDs : list string;
  keyinfoStore : consul_db;
  peerRegistry : R;
}.

Definition getKeyInfo (p : Node) (sessionType walletID : string) : Res KeyInfo :=
  keyID ← (if String.eqb sessionType SessionTypeECDSA then Ok ("ecdsa:" +:+ walletID)
           else if String.eqb sessionType SessionTypeEDDSA then Ok ("eddsa:" +:+ walletID)
           else Err (errors_New "unsupported session type"));
  Get Unmarshal_KeyInfo (keyinfoStore p) keyID.

(** An error of the store is the default version. *)
Definition getVersion (p : Node) (sessionType walletID : string) : Res Z :=
  composeKey ← (if String.eqb sessionType SessionTypeECDSA then Ok ("ecdsa:" +:+ walletID)
                else if String.eqb sessionType SessionTypeEDDSA then Ok ("eddsa:" +:+ walletID)
                else Panic "Unknown session type");
  match Get Unmarshal_KeyInfo (keyinfoStore p) composeKey with
  | Ok info => Ok (ki_Version info)
  | Err _ => Ok DefaultVersion
  | Panic w => Panic w
  end.

(** The loop that makes the party ids: the last one of this node is [self]. *)
Fixpoint makePartyIDs (n : Node) (uuid : nat → string) (label : string) (version : Z)
    (readyPeerIDs : list string) : option PartyID * list PartyID :=
  match readyPeerIDs with
  | [] => (None, [])
  | peerID :: rest =>
      let partyID := CreatePartyID (uuid O) peerID label version in
      let '(self, all) := makePartyIDs n (uuid ∘ S) label version rest in
      (match self with
       | Some s => Some s
       | None => if String.eqb peerID (node_nodeID n) then Some partyID else None
       end, partyID :: all)
  end.

Definition keygenPartyIDs (n : Node) (uuid : nat → string) (label : string)
    (readyPeerIDs : list string) (version : Z) : option PartyID * list (option PartyID) :=
  let '(self, partyIDs) := makePartyIDs n uuid label version readyPeerIDs in
  (self, Some <$> SortPartyIDs partyIDs).

(** ** Key generation *)

Definition createECDSAKeyGenSession (p : Node) (uuid : nat → string) (walletID : string)
    (threshold version : Z) : Res PartySession :=
  let readyPeerIDs := pr_GetReadyPeersIncludeSelf (peerRegistry p) in
  let '(selfPartyID, allPartyIDs) := keygenPartyIDs p uuid PurposeKeygen readyPeerIDs version in
  Ok (ecdsa.NewECDSAKeygenSession ParseECDSA walletID readyPeerIDs selfPartyID allPartyIDs
        threshold).

Definition createEDDSAKeyGenSession (p : Node) (uuid : nat → string) (walletID : string)
    (threshold version : Z) : Res PartySession :=
  let readyPeerIDs := pr_GetReadyPeersIncludeSelf (peerRegistry p) in
  let '(selfPartyID, allPartyIDs) := keygenPartyIDs p uuid PurposeKeygen readyPeerIDs version in
  Ok (eddsa.NewEDDSAKeygenSession ParseEDDSA walletID readyPeerIDs selfPartyID allPartyIDs
        threshold).

(** [keyInfo, _ :=]: the error of the lookup is dropped. *)
Definition CreateKeyGenSession (p : Node) (uuid : nat → string) (sessionType walletID : string)
    (threshold : Z) : Res PartySession :=
  if negb (pr_ArePeersReady (peerRegistry p)) then Err (errors_New "All nodes are not ready!")
  else match getKeyInfo p sessionType walletID with
       | Ok _ => Err (errors_New ("key already exists: " +:+ walletID))
       | Panic w => Panic w
       | Err _ =>
           if String.eqb sessionType SessionTypeECDSA then
             createECDSAKeyGenSession p uuid walletID threshold DefaultVersion
           else if String.eqb sessionType SessionTypeEDDSA then
             createEDDSAKeyGenSession p uuid walletID threshold DefaultVersion
           else Err (errors_New ("unknown session type: " +:+ sessionType))
       end.

(** ** Signing *)

Definition getReadyPeersForSession (keyInfo : KeyInfo) (readyPeers : list string) : list string :=
  List.filter (slices_Contains readyPeers) (ki_ParticipantPeerIDs keyInfo).

Definition ensureNodeIsParticipant (p : Node) (keyInfo : KeyInfo) : Res unit :=
  if negb (slices_Contains (ki_ParticipantPeerIDs keyInfo) (node_nodeID p))
  then Err ErrNotInParticipantList else Ok tt.

Definition fmt_need (what : string) (need got : Z) : error :=
  errors_New ("not enough peers to create " +:+ what +:+ " session! expected " +:+ fmt_d need
              +:+ ", got " +:+ fmt_d got).

Definition CreateSigningSession (p : Node) (uuid : nat → string)
    (sessionType walletID txID idempotentKey : string) : Res PartySession :=
  version ← getVersion p sessionType walletID;
  keyInfo ← getKeyInfo p sessionType walletID;
  let readyPeers := pr_GetReadyPeersIncludeSelf (peerRegistry p) in
  let readyParticipantIDs := getReadyPeersForSession keyInfo readyPeers in
  let need := wrap64 (ki_Threshold keyInfo + 1) in
  if Z.of_nat (length readyParticipantIDs) <? need then
    Err (fmt_need "signing" need (Z.of_nat (length readyParticipantIDs)))
  else
    _ ← ensureNodeIsParticipant p keyInfo;
    let '(selfPartyID, allPartyIDs) :=
      keygenPartyIDs p uuid PurposeKeygen readyParticipantIDs version in
    if String.eqb sessionType SessionTypeECDSA then
      Ok (ecdsa.NewECDSASigningSession ParseECDSA walletID txID readyParticipantIDs selfPartyID
            allPartyIDs (ki_Threshold keyInfo) idempotentKey)
    else if String.eqb sessionType SessionTypeEDDSA then
      Ok (eddsa.NewEDDSASigningSession ParseEDDSA walletID txID readyParticipantIDs selfPartyID
            allPartyIDs (ki_Threshold keyInfo) idempotentKey)
    else Err (errors_New "unknown session type").

(** ** Resharing *)

(** [Ok None] is the nil session of a node that has no part in the run. *)
Definition CreateResharingSession (p : Node) (uuid uuid' : nat → string)
    (sessionType walletID : string) (newThreshold : Z) (newPeerIDs : list string)
    (isNewPeer : bool) : Res (option (PartySession * resharingSession)) :=
  let count := pr_GetReadyPeersCount (peerRegistry p) in
  if count <? wrap64 (newThreshold + 1) then
    Err (errors_New ("not enough peers to create reshare session! Expected at least " +:+
      fmt_d (wrap64 (newThreshold + 1)) +:+ ", got " +:+ fmt_d count))
  else if Z.of_nat (length newPeerIDs) <? wrap64 (newThreshold + 1) then
    Err (errors_New "new peer list is smaller than required t+1")
  else
    let readyPeers := pr_GetReadyPeersIncludeSelf (peerRegistry p) in
    match List.find (λ peerID, negb (slices_Contains readyPeers peerID)) newPeerIDs with
    | Some peerID => Err (errors_New ("new peer " +:+ peerID +:+ " is not ready"))
    | None =>
        keyPrefix ← wrap_err "failed to get session key prefix: " (sessionKeyPrefix sessionType);
        oldKeyInfo ← wrap_err "failed to get old key info: "
          (Get Unmarshal_KeyInfo (keyinfoStore p) (keyPrefix +:+ ":" +:+ walletID));
        let readyOldParticipantIDs := getReadyPeersForSession oldKeyInfo readyPeers in
        let isInOldCommittee :=
          slices_Contains (ki_ParticipantPeerIDs oldKeyInfo) (node_nodeID p) in
        let isInNewCommittee := slices_Contains newPeerIDs (node_nodeID p) in
        if isNewPeer && negb isInNewCommittee then Ok None
        else if negb isNewPeer && negb isInOldCommittee then Ok None
        else
          let need := wrap64 (ki_Threshold oldKeyInfo + 1) in
          if Z.of_nat (length readyOldParticipantIDs) <? need then
            Err (fmt_need "resharing" need (Z.of_nat (length readyOldParticipantIDs)))
          else
            _ ← (if negb isNewPeer then ensureNodeIsParticipant p oldKeyInfo else Ok tt);
            version ← getVersion p sessionType walletID;
            let '(oldSelf, oldAllPartyIDs) :=
              keygenPartyIDs p uuid PurposeKeygen readyOldParticipantIDs version in
            let '(newSelf, newAllPartyIDs) :=
              keygenPartyIDs p uuid' PurposeResharing newPeerIDs (wrap64 (version + 1)) in
            let selfPartyID := if isNewPeer then newSelf else oldSelf in
            let participantPeerIDs := if isNewPeer then newPeerIDs else readyOldParticipantIDs in
            if String.eqb sessionType SessionTypeECDSA then
              let participantPeerIDs :=
                if isNewPeer then newPeerIDs else ki_ParticipantPeerIDs oldKeyInfo in
              Ok (Some (ecdsa.NewECDSAResharingSession ParseECDSA walletID participantPeerIDs
                selfPartyID oldAllPartyIDs newAllPartyIDs (ki_Threshold oldKeyInfo) newThreshold
                newPeerIDs isNewPeer (ki_Version oldKeyInfo)))
            else if String.eqb sessionType SessionTypeEDDSA then
              Ok (Some (eddsa.NewEDDSAResharingSession ParseEDDSA walletID participantPeerIDs
                selfPartyID oldAllPartyIDs newAllPartyIDs (ki_Threshold oldKeyInfo) newThreshold
                newPeerIDs isNewPeer (ki_Version oldKeyInfo)))
            else Err (errors_New ("unsupported session type: " +:+ sessionType))
    end.

(** ** Pre-parameters *)

Section preparams.
Context `{KV : KVStore}.
Context {PreParams : Type}.
Variable Unmarshal_PreParams : string → Res PreParams.
Variable Marshal_PreParams : PreParams → Res string.
Variable GeneratePreParams : nat → Res PreParams.    (* the i-th generation *)

Definition fatal {A} (r : Res A) (msg : string) : Res A :=
  match r with Err _ => Panic msg | _ => r end.

Definition loadOrGenerate (i : nat) : M kv_db (Res PreParams) := λ db,
  let key := "pre_params_" +:+ fmt_d (Z.of_nat i) in
  match kv_Get db key with
  | Ok val => (fatal (Unmarshal_PreParams val) "Unmarshal pre params failed", db)
  | Panic w => (Panic w, db)
  | Err _ =>
      (params ←! lift (fatal (GeneratePreParams i) "Generate pre params failed");
       bytes ←! lift (fatal (Marshal_PreParams params) "Marshal pre params failed");
       λ db, match kv_Put key bytes db with
             | (Ok _, db) => (Ok params, db)
             | (Err _, db) => (Panic "Save pre params failed", db)
             | (Panic w, db) => (Panic w, db)
             end) db
  end.

Definition generatePreParams : M kv_db (Res (list PreParams)) :=
  p0 ←! loadOrGenerate 0; p1 ←! loadOrGenerate 1; lift (Ok [p0; p1]).

(** The registry starts to watch its peers when the parameters are there. *)
Definition NewNode (nodeID : string) (peerIDs : list string) (keyinfos : consul_db)
    (registry : R) : M kv_db (Res (Node * list PreParams)) :=
  ecdsaPreParams ←! generatePreParams;
  lift (Ok (mkNode nodeID peerIDs keyinfos registry, ecdsaPreParams)).

End preparams.

Definition ID (p : Node) : string := node_nodeID p.

(** [resign] is what the registry's [Resign] does; its error is only logged. *)
Definition Node_Close (resign : R → Res unit) (p : Node) : Res unit :=
  match resign (peerRegistry p) with Err _ => Ok tt | r => r end.

End node.

(** ** Properties *)

Section properties.
Context `{C : Crypto} `{T : TssLib} `{!TssLibSpec T} `{CK : ConsulKV} `{L : Lo}
  {R : Type} `{PR : PeerRegistry R} {ok : R → Prop} `{!PeerRegistrySpec R ok}.
(** *** Party ids of a committee *)

(** The protocol keys of a list of (pointers to) party ids. *)
Definition keys (l : list (option PartyID)) : list Z :=
  omap (λ o, KeyInt <$> o) l.

Lemma keys_Some (l : list PartyID) : keys (Some <$> l) = KeyInt <$> l.
Proof. unfold keys. induction l as [|p l IH]; cbn; [done|]. by rewrite IH. Qed.

Lemma makePartyIDs_keys (n : Node (R := R)) uuid label v ids :
  KeyInt <$> (makePartyIDs n uuid label v ids).2 = (λ i, partyKey i v) <$> ids.
Proof.
  revert uuid. induction ids as [|i ids IH]; intros uuid; [done|]. cbn.
  specialize (IH (uuid ∘ S)). destruct (makePartyIDs _ _ _ _ ids) as [self all]. cbn in *.
  by rewrite IH, KeyInt_Create.
Qed.

Lemma makePartyIDs_self (n : Node (R := R)) uuid label v ids :
  (node_nodeID n ∈ ids → ∃ q, (makePartyIDs n uuid label v ids).1 = Some q ∧
     KeyInt q = partyKey (node_nodeID n) v) ∧
  (node_nodeID n ∉ ids → (makePartyIDs n uuid label v ids).1 = None).
Proof.
  revert uuid. induction ids as [|i ids IH]; intros uuid; [set_solver|]. cbn.
  destruct (IH (uuid ∘ S)) as [IH1 IH2].
  destruct (makePartyIDs _ _ _ _ ids) as [self all]. cbn in *.
  destruct (decide (node_nodeID n ∈ ids)) as [Hin|Hin].
  - destruct (IH1 Hin) as (q & -> & Hq). split; [intros _; by exists q|]. set_solver.
  - rewrite (IH2 Hin). destruct (String.eqb_spec i (node_nodeID n)) as [->|Hne].
    + split; [intros _; eexists; by rewrite KeyInt_Create|]. set_solver.
    + split; [set_solver|done].
Qed.

Lemma keygenPartyIDs_spec (n : Node (R := R)) uuid label ids v :
  let '(self, all) := keygenPartyIDs n uuid label ids v in
  keys all ≡ₚ (λ i, partyKey i v) <$> ids ∧ StronglySorted Z.le (keys all) ∧
  (node_nodeID n ∈ ids → ∃ q, self = Some q ∧ KeyInt q = partyKey (node_nodeID n) v) ∧
  (node_nodeID n ∉ ids → self = None).
Proof.
  unfold keygenPartyIDs.
  pose proof (makePartyIDs_keys n uuid label v ids) as Hk.
  pose proof (makePartyIDs_self n uuid label v ids) as Hs.
  destruct (makePartyIDs n uuid label v ids) as [self all]. cbn in *.
  rewrite keys_Some. split_and!; [|apply SortPartyIDs_sorted|apply Hs..].
  by rewrite SortPartyIDs_perm, Hk.
Qed.

(** Committees with the same members have the same list of keys. *)
Lemma keygenPartyIDs_agree (n n' : Node (R := R)) uuid uuid' label label' ids ids' v :
  ids ≡ₚ ids' →
  keys (keygenPartyIDs n uuid label ids v).2 = keys (keygenPartyIDs n' uuid' label' ids' v).2.
Proof.
  intros Hp. pose proof (keygenPartyIDs_spec n uuid label ids v) as H1.
  pose proof (keygenPartyIDs_spec n' uuid' label' ids' v) as H2.
  destruct (keygenPartyIDs n uuid label ids v) as [s l],
    (keygenPartyIDs n' uuid' label' ids' v) as [s' l']. cbn in *.
  destruct H1 as (Hl & Hsl & _), H2 as (Hl' & Hsl' & _).
  apply (StronglySorted_unique Z.le); [done..|]. by rewrite Hl, Hl', Hp.
Qed.


Variable Unmarshal_KeyInfo : string → Res KeyInfo.
Variable ParseECDSA : option string → option PartyID → bool → Res ecdsa.Content.
Variable ParseEDDSA : option string → option PartyID → bool → Res eddsa.Content.

(** *** Signing sessions *)

Lemma CreateSigningSession_Ok (p : Node (R := R)) uuid st w t ik s :
  CreateSigningSession Unmarshal_KeyInfo ParseECDSA ParseEDDSA p uuid st w t ik = Ok s →
  ∃ i v, getKeyInfo Unmarshal_KeyInfo p st w = Ok i ∧
    getVersion Unmarshal_KeyInfo p st w = Ok v ∧
    ParticipantPeerIDs s =
      getReadyPeersForSession i (pr_GetReadyPeersIncludeSelf (peerRegistry p)) ∧
    wrap64 (ki_Threshold i + 1) ≤ Z.of_nat (length (ParticipantPeerIDs s)) ∧
    node_nodeID p ∈ ki_ParticipantPeerIDs i ∧
    Threshold s = ki_Threshold i ∧ WalletID s = w ∧ SessionType s = st ∧
    (SelfPartyID s, PartyIDs s) =
      keygenPartyIDs p uuid PurposeKeygen (ParticipantPeerIDs s) v ∧
    (st = SessionTypeECDSA ∧ ComposeKey s = (λ w, "ecdsa:" +:+ w) ∨
     st = SessionTypeEDDSA ∧ ComposeKey s = (λ w, "eddsa:" +:+ w)).
Proof.
  unfold CreateSigningSession. intros H.
  apply Res_bind_Ok in H as (v & Hv & H). apply Res_bind_Ok in H as (i & Hi & H).
  destruct (Z.ltb_spec (Z.of_nat (length (getReadyPeersForSession i
    (pr_GetReadyPeersIncludeSelf (peerRegistry p))))) (wrap64 (ki_Threshold i + 1)))
    as [|Hlen]; [done|].
  apply Res_bind_Ok in H as ([] & Hpart & H). unfold ensureNodeIsParticipant in Hpart.
  destruct (slices_Contains _ _) eqn:Hin; [|done]. apply bool_decide_eq_true in Hin.
  destruct (keygenPartyIDs _ _ _ _ _) as [self all] eqn:Hk.
  destruct (String.eqb_spec st SessionTypeECDSA) as [->|];
    [|destruct (String.eqb_spec st SessionTypeEDDSA) as [->|]; [|done]];
    injection H as <-; exists i, v; cbn; split_and!; auto.
Qed.

(** C23: a signing session is created exactly for the wallet's committee: its
    participants are the ready members in the committee's order, there are more
    of them than the threshold, the node is one of them, and the parties are
    those participants in key order, under the wallet's version. *)
Theorem CreateSigningSession_committee (p : Node (R := R)) uuid st w t ik s
    (Hok : ok (peerRegistry p)) (Hself : pr_self (peerRegistry p) = node_nodeID p)
    (Hrun : CreateSigningSession Unmarshal_KeyInfo ParseECDSA ParseEDDSA p uuid st w t ik = Ok s) :
  ∃ i v self, getKeyInfo Unmarshal_KeyInfo p st w = Ok i ∧
    getVersion Unmarshal_KeyInfo p st w = Ok v ∧
    (∀ x, x ∈ ParticipantPeerIDs s ↔ x ∈ ki_ParticipantPeerIDs i ∧
       x ∈ pr_GetReadyPeersIncludeSelf (peerRegistry p)) ∧
    sublist (ParticipantPeerIDs s) (ki_ParticipantPeerIDs i) ∧
    wrap64 (ki_Threshold i + 1) ≤ Z.of_nat (length (ParticipantPeerIDs s)) ∧
    node_nodeID p ∈ ParticipantPeerIDs s ∧
    SelfPartyID s = Some self ∧ KeyInt self = partyKey (node_nodeID p) v ∧
    keys (PartyIDs s) ≡ₚ (λ x, partyKey x v) <$> ParticipantPeerIDs s ∧
    StronglySorted Z.le (keys (PartyIDs s)).
Proof.
  apply CreateSigningSession_Ok in Hrun
    as (i & v & Hi & Hv & Hp & Hlen & Hin & _ & _ & _ & Hk & _).
  assert (∀ x, x ∈ ParticipantPeerIDs s ↔ x ∈ ki_ParticipantPeerIDs i ∧
       x ∈ pr_GetReadyPeersIncludeSelf (peerRegistry p)) as Hmem.
  { intros x. rewrite Hp. unfold getReadyPeersForSession, slices_Contains.
    by rewrite elem_of_filter_b, bool_decide_eq_true. }
  assert (node_nodeID p ∈ ParticipantPeerIDs s) as Hme.
  { apply Hmem. split; [done|]. rewrite <-Hself. by apply pr_self_ready. }
  pose proof (keygenPartyIDs_spec p uuid PurposeKeygen (ParticipantPeerIDs s) v) as Hspec.
  rewrite <-Hk in Hspec. destruct Hspec as (Hperm & Hsort & Hsome & _).
  destruct (Hsome Hme) as (self & Hs & Hkey).
  exists i, v, self. do 3 (split; [done|]). split; [|by split_and!].
  rewrite Hp. apply sublist_filter_b.
Qed.

(** A signing session that was created never fails for want of participants:
    against the same key infos, its initialisation does not return
    ErrNotEnoughParticipants, which is the error the event consumer waits for to
    ask for a redelivery. *)
Theorem signing_Init_never_short `{KV : KVStore} cv (p : Node (R := R)) uuid st w t ik s tx wd
    (Hrun : CreateSigningSession Unmarshal_KeyInfo ParseECDSA ParseEDDSA p uuid st w t ik = Ok s)
    (Hps : ps cv wd = s) (Hconsul : consul cv wd = keyinfoStore p) :
  eval (sign_Init cv Unmarshal_KeyInfo tx) wd ≠ Err ErrNotEnoughParticipants.
Proof.
  apply CreateSigningSession_Ok in Hrun
    as (i & v & Hi & _ & _ & Hlen & _ & _ & Hw & Hst & _ & Hkey).
  unfold eval, sign_Init, bindR, lift. rewrite Hps, Hconsul.
  assert (Get Unmarshal_KeyInfo (keyinfoStore p) (ComposeKey s (WalletID s)) = Ok i) as ->.
  { unfold getKeyInfo in Hi. rewrite Hw. by destruct Hkey as [[-> ->]|[-> ->]]. }
  cbn [wrap_err]. rewrite (proj2 (Z.ltb_ge _ _)) by done.
  destruct (_ <? _); [done|].
  destruct (kv_Get _ _) as [kd|e|]; cbn [wrap_err]; [|intros [=]|done].
  destruct (Unmarshal_SaveData cv kd); cbn; intros [=].
Qed.

(** C24: a signing session that was created initialises as soon as its share can be
    read.  Against the same key infos, with a committee without repetitions, neither of
    the two checks of the number of participants can fail, so the one of EdDSA does not
    get to its warning, which panics: the outcome is that of loading the share of the
    key's version, and on success the session has this share, version and transaction. *)
Theorem created_signing_Init `{KV : KVStore} `{!LoSpec L} cv (p : Node (R := R)) uuid st w t ik s
    tx wd
    (Hrun : CreateSigningSession Unmarshal_KeyInfo ParseECDSA ParseEDDSA p uuid st w t ik = Ok s)
    (Hps : ps cv wd = s) (Hconsul : consul cv wd = keyinfoStore p)
    (Hnodup : ∀ i, getKeyInfo Unmarshal_KeyInfo p st w = Ok i → NoDup (ki_ParticipantPeerIDs i)) :
  ∃ i, getKeyInfo Unmarshal_KeyInfo p st w = Ok i ∧
    sign_Init cv Unmarshal_KeyInfo tx wd =
    match (kd ← wrap_err "Failed to get wallet data from KVStore: "
             (kv_Get (kv cv wd) (ComposeKey s (WalletIDWithVersion w (ki_Version i))));
           wrap_err "Failed to unmarshal wallet data: " (Unmarshal_SaveData cv kd)) with
    | Ok d => (Ok tt, set_signing cv (ki_Version i) (Some d) tx wd)
    | Err e => (Err e, wd)
    | Panic why => (Panic why, wd)
    end.
Proof.
  apply CreateSigningSession_Ok in Hrun
    as (i & v & Hi & _ & Hp & Hlen & _ & _ & Hw & Hst & _ & Hkey).
  exists i. split; [done|]. unfold sign_Init, bindR, lift. rewrite Hps, Hconsul.
  assert (Get Unmarshal_KeyInfo (keyinfoStore p) (ComposeKey s (WalletID s)) = Ok i) as ->.
  { unfold getKeyInfo in Hi. rewrite Hw. by destruct Hkey as [[-> ->]|[-> ->]]. }
  assert (length (ParticipantPeerIDs s) ≤
    length (lo_Intersect (ParticipantPeerIDs s) (ki_ParticipantPeerIDs i)))%nat as Hall.
  { apply submseteq_length, NoDup_submseteq.
    - rewrite Hp. unfold getReadyPeersForSession. eapply sublist_NoDup; [by apply Hnodup|].
      apply sublist_filter_b.
    - intros x Hx. apply lo_Intersect_elem. split; [done|]. rewrite Hp in Hx.
      unfold getReadyPeersForSession in Hx. by apply elem_of_filter_b in Hx as []. }
  cbn [wrap_err]. rewrite !(proj2 (Z.ltb_ge _ _)) by lia. rewrite Hw.
  destruct (kv_Get _ _) as [kd|e|]; cbn; [|done..].
  by destruct (Unmarshal_SaveData cv kd).
Qed.

(** C25: nodes agree on a key generation: two nodes that see the same peers ready,
    in whatever order, create sessions with the same parties in the same order,
    and each finds itself among them. *)
Theorem keygen_committee_agreement (p q : Node (R := R)) uuid uuid' st w th th' s s'
    (Hokp : ok (peerRegistry p)) (Hokq : ok (peerRegistry q))
    (Hself : pr_self (peerRegistry p) = node_nodeID p)
    (Hsame : ∀ x, x ∈ pr_GetReadyPeersIncludeSelf (peerRegistry p) ↔
                  x ∈ pr_GetReadyPeersIncludeSelf (peerRegistry q))
    (Hp : CreateKeyGenSession Unmarshal_KeyInfo ParseECDSA ParseEDDSA p uuid st w th = Ok s)
    (Hq : CreateKeyGenSession Unmarshal_KeyInfo ParseECDSA ParseEDDSA q uuid' st w th' = Ok s') :
  keys (PartyIDs s) = keys (PartyIDs s') ∧
  (∃ self, SelfPartyID s = Some self ∧
     KeyInt self = partyKey (node_nodeID p) DefaultVersion ∧ KeyInt self ∈ keys (PartyIDs s)) ∧
  ParticipantPeerIDs s ≡ₚ ParticipantPeerIDs s'.
Proof.
  assert (∀ (n : Node (R := R)) u t r,
    CreateKeyGenSession Unmarshal_KeyInfo ParseECDSA ParseEDDSA n u st w t
            = Ok r →
    ParticipantPeerIDs r = pr_GetReadyPeersIncludeSelf (peerRegistry n) ∧
    (SelfPartyID r, PartyIDs r) =
      keygenPartyIDs n u PurposeKeygen (ParticipantPeerIDs r) DefaultVersion) as Hget.
  { intros n u t r. unfold CreateKeyGenSession, createECDSAKeyGenSession, createEDDSAKeyGenSession.
    destruct (pr_ArePeersReady _); [|done]. cbn [negb].
    destruct (getKeyInfo _ _ _ _); [done| |done].
    destruct (keygenPartyIDs n u _ _ _) as [self all] eqn:Hk.
    destruct (String.eqb st SessionTypeECDSA); [by intros [= <-]|].
    destruct (String.eqb st SessionTypeEDDSA); [by intros [= <-]|done]. }
  destruct (Hget _ _ _ _ Hp) as [Hpe Hk], (Hget _ _ _ _ Hq) as [Hpe' Hk'].
  assert (ParticipantPeerIDs s ≡ₚ ParticipantPeerIDs s') as Hperm.
  { rewrite Hpe, Hpe'. apply NoDup_Permutation; [by eapply pr_NoDup..|done]. }
  split_and!; [| |done].
  - pose proof (keygenPartyIDs_agree p q uuid uuid' PurposeKeygen PurposeKeygen _ _
      DefaultVersion Hperm) as Ha. by rewrite <-Hk, <-Hk' in Ha.
  - pose proof (keygenPartyIDs_spec p uuid PurposeKeygen (ParticipantPeerIDs s)
      DefaultVersion) as Hspec.
    rewrite <-Hk in Hspec. destruct Hspec as (Hl & _ & Hsome & _).
    assert (node_nodeID p ∈ ParticipantPeerIDs s) as Hin.
    { rewrite Hpe, <-Hself. by eapply pr_self_ready. }
    destruct (Hsome Hin) as (self & Hs & Hkey). exists self. split_and!; [done..|].
    rewrite Hl, Hkey. apply list_elem_of_fmap. by exists (node_nodeID p).
Qed.

(** The check that a key does not exist yet is skipped when the key infos
    cannot be read: whatever the store would hold, an error of the lookup lets a
    ready node create the session that will overwrite the wallet's share. *)
Theorem CreateKeyGenSession_fails_open (p : Node (R := R)) uuid st w th e
    (Hst : st = SessionTypeECDSA ∨ st = SessionTypeEDDSA)
    (Hready : pr_ArePeersReady (peerRegistry p) = true)
    (Herr : getKeyInfo Unmarshal_KeyInfo p st w = Err e) :
  ∃ s, CreateKeyGenSession Unmarshal_KeyInfo ParseECDSA ParseEDDSA p uuid st w th = Ok s ∧
    WalletID s = w ∧ Version s = DefaultVersion ∧ Threshold s = th.
Proof.
  unfold CreateKeyGenSession, createECDSAKeyGenSession, createEDDSAKeyGenSession.
  rewrite Hready, Herr. cbn [negb]. destruct (keygenPartyIDs _ _ _ _ _) as [self all].
  destruct Hst as [->| ->]; cbn; by eexists.
Qed.

Lemma find_none_ready (ready l : list string) :
  List.find (λ x, negb (slices_Contains ready x)) l = None → ∀ x, x ∈ l → x ∈ ready.
Proof.
  intros H x Hx. apply list_elem_of_In in Hx. pose proof (List.find_none _ _ H _ Hx) as Hn.
  apply negb_false_iff in Hn. by apply bool_decide_eq_true in Hn.
Qed.

(** A resharing session is only created with enough nodes: for a threshold
    that is not the largest integer, the ready nodes and the new committee both
    outnumber it, every member of the new committee is ready, the node belongs
    to the committee whose role it takes, and the old committee has enough ready
    members. *)
Theorem CreateResharingSession_guard (p : Node (R := R)) u u' st w nth newPeers isNew s r
    (Hok : ok (peerRegistry p)) (Hth : MinInt64 ≤ nth < MaxInt64)
    (Hrun : CreateResharingSession Unmarshal_KeyInfo ParseECDSA ParseEDDSA p u u' st w nth
              newPeers isNew = Ok (Some (s, r))) :
  nth < pr_GetReadyPeersCount (peerRegistry p) ∧ nth < Z.of_nat (length newPeers) ∧
  (∀ x, x ∈ newPeers → x ∈ pr_GetReadyPeersIncludeSelf (peerRegistry p)) ∧
  ∃ i, getKeyInfo Unmarshal_KeyInfo p st w = Ok i ∧
    node_nodeID p ∈ (if isNew then newPeers else ki_ParticipantPeerIDs i) ∧
    wrap64 (ki_Threshold i + 1) ≤ Z.of_nat (length (getReadyPeersForSession i
      (pr_GetReadyPeersIncludeSelf (peerRegistry p)))) ∧
    newPeerIDs r = newPeers ∧ NewThreshold r = nth ∧ isNewParty r = isNew ∧
    Version s = ki_Version i.
Proof.
  unfold CreateResharingSession in Hrun.
  rewrite wrap64_small in Hrun by (unfold int64_range, MinInt64, MaxInt64 in *; lia).
  destruct (Z.ltb_spec (pr_GetReadyPeersCount (peerRegistry p)) (nth + 1)); [done|].
  destruct (Z.ltb_spec (Z.of_nat (length newPeers)) (nth + 1)); [done|].
  destruct (List.find _ newPeers) eqn:Hfind; [done|].
  split; [lia|]. split; [lia|]. split; [by apply find_none_ready|].
  apply Res_bind_Ok in Hrun as (pre & Hpre & Hrun). rewrite wrap_err_Ok in Hpre.
  apply Res_bind_Ok in Hrun as (i & Hi & Hrun). rewrite wrap_err_Ok in Hi.
  exists i. split.
  { unfold getKeyInfo. unfold sessionKeyPrefix in Hpre.
    destruct (String.eqb st SessionTypeECDSA); [by injection Hpre as <-|].
    by destruct (String.eqb st SessionTypeEDDSA); [injection Hpre as <-|]. }
  destruct (isNew && negb (slices_Contains newPeers (node_nodeID p))) eqn:Hn; [done|].
  destruct (negb isNew && negb (slices_Contains (ki_ParticipantPeerIDs i) (node_nodeID p)))
    eqn:Ho; [done|].
  destruct (_ <? wrap64 (ki_Threshold i + 1)) eqn:Hlen; [done|]. split.
  { destruct isNew; cbn in Hn, Ho.
    - by apply negb_false_iff, bool_decide_eq_true in Hn.
    - by apply negb_false_iff, bool_decide_eq_true in Ho. }
  split; [by apply Z.ltb_ge|].
  apply Res_bind_Ok in Hrun as ([] & _ & Hrun). apply Res_bind_Ok in Hrun as (v & _ & Hrun).
  destruct (keygenPartyIDs p u _ _ _) as [s1 l1], (keygenPartyIDs p u' _ _ _) as [s2 l2].
  destruct (String.eqb st SessionTypeECDSA); [by injection Hrun as <- <-|].
  by destruct (String.eqb st SessionTypeEDDSA); [injection Hrun as <- <-|].
Qed.

End properties.

(** *** Pre-parameters *)

Section preparams_props.
Context `{KV : KVStore} `{!KVStoreSpec KV} {PreParams : Type}.
Variable Unmarshal_PreParams : string → Res PreParams.
Variable Marshal_PreParams : PreParams → Res string.

(** After loading or generating, the store holds the parameters. *)
Lemma loadOrGenerate_stored gen i db pp db' :
  (∀ b, Marshal_PreParams pp = Ok b → Unmarshal_PreParams b = Ok pp) →
  loadOrGenerate Unmarshal_PreParams Marshal_PreParams gen i db = (Ok pp, db') →
  (∃ val, kv_Get db' ("pre_params_" +:+ fmt_d (Z.of_nat i)) = Ok val ∧
     Unmarshal_PreParams val = Ok pp) ∧
  ∀ k, k ≠ "pre_params_" +:+ fmt_d (Z.of_nat i) → kv_Get db' k = kv_Get db k.
Proof.
  intros Hround. unfold loadOrGenerate.
  destruct (kv_Get db _) as [val|e|w] eqn:Hget; [| |done].
  - intros [= Hu <-]. split; [|done]. exists val. split; [done|].
    by destruct (Unmarshal_PreParams val).
  - intros H. apply bindR_Ok in H as (q & s1 & Hg & H). injection Hg as Hg <-.
    apply bindR_Ok in H as (b & s2 & Hm & H). injection Hm as Hm <-.
    destruct (kv_Put _ b db) as [[[]| |] d] eqn:Hput; [|done..]. injection H as -> ->.
    assert (Marshal_PreParams pp = Ok b) as Hb
      by (by destruct (Marshal_PreParams pp); cbn in Hm; simplify_eq).
    split; [exists b; split; [by eapply kv_Get_Put|by apply Hround]|].
    intros k Hk. eapply kv_Get_Put_ne; [|exact Hput]. congruence.
Qed.

Lemma loadOrGenerate_loads gen i db val pp :
  kv_Get db ("pre_params_" +:+ fmt_d (Z.of_nat i)) = Ok val →
  Unmarshal_PreParams val = Ok pp →
  loadOrGenerate Unmarshal_PreParams Marshal_PreParams gen i db = (Ok pp, db).
Proof. intros Hget Hu. unfold loadOrGenerate. by rewrite Hget, Hu. Qed.

(** A node keeps its pre-parameters: what a start generated and saved is what
    every later start loads, without generating or writing anything. *)
Theorem generatePreParams_stable gen gen' db l db'
    (Hround : ∀ pp b, pp ∈ l → Marshal_PreParams pp = Ok b → Unmarshal_PreParams b = Ok pp)
    (Hrun : generatePreParams Unmarshal_PreParams Marshal_PreParams gen db = (Ok l, db')) :
  length l = 2%nat ∧
  generatePreParams Unmarshal_PreParams Marshal_PreParams gen' db' = (Ok l, db').
Proof.
  unfold generatePreParams in Hrun.
  apply bindR_Ok in Hrun as (p0 & d0 & H0 & Hrun).
  apply bindR_Ok in Hrun as (p1 & d1 & H1 & Hrun). injection Hrun as <- <-.
  split; [done|].
  apply loadOrGenerate_stored in H0 as [(v0 & G0 & U0) _]; [|intros b; apply Hround; set_solver].
  apply loadOrGenerate_stored in H1 as [(v1 & G1 & U1) F1]; [|intros b; apply Hround; set_solver].
  unfold generatePreParams, bindR.
  rewrite (loadOrGenerate_loads _ 0 d1 v0 p0), (loadOrGenerate_loads _ 1 d1 v1 p1); [done..| |done].
  rewrite F1 by done. done.
Qed.

End preparams_props.

(** *** Witnesses *)

#[local] Existing Instance tss_ref.
#[local] Existing Instance tss_ref_spec.
#[local] Existing Instance toy_crypto.
#[local] Existing Instance consul_ref.
#[local] Existing Instance kv_ref.
#[local] Existing Instance kv_ref_spec.
#[local] Existing Instance lo_ref.
#[local] Existing Instance lo_ref_spec.

(** A registry that is only its list of ready peers. *)
Definition toy_view : Type := string * list string.

#[local] Instance toy_view_registry : PeerRegistry toy_view := {|
  pr_self := fst;
  pr_ArePeersReady := λ _, true;
  pr_GetReadyPeersCount := λ v, wrap64 (Z.of_nat (length v.2));
  pr_GetReadyPeersIncludeSelf := snd;
|}.

Definition toy_view_ok (v : toy_view) : Prop := NoDup v.2 ∧ v.1 ∈ v.2.

#[local] Instance toy_view_spec : PeerRegistrySpec toy_view toy_view_ok.
Proof. split; unfold toy_view_ok; cbn; tauto. Qed.

Definition toy_node_A (ready : list string) : Node (R := toy_view) :=
  mkNode "A" ready ({["threshold_keyinfo/ecdsa:w" := encode (KeyInfo_json toy_info)]}
                    : gmap string string) ("A", ready).

Definition toy_node_B (ready : list string) : Node (R := toy_view) :=
  mkNode "B" ready (∅ : gmap string string) ("B", ready).

Definition toy_ParseECDSA : option string → option (@PartyID tss_ref) → bool → Res ecdsa.Content :=
  λ _ _ _, Ok ecdsa.SignRound2Message.
Definition toy_ParseEDDSA : option string → option (@PartyID tss_ref) → bool → Res eddsa.Content :=
  λ _ _ _, Ok eddsa.SignRound2Message.

Lemma toy_ready_ok self l : bool_decide (NoDup l) && bool_decide (self ∈ l) = true →
  toy_view_ok (self, l).
Proof. by intros [H1%bool_decide_eq_true H2%bool_decide_eq_true]%andb_true_iff. Qed.

Definition toy_signing_session : PartySession :=
  match CreateSigningSession toy_Unmarshal_KeyInfo toy_ParseECDSA toy_ParseEDDSA
    (toy_node_A ["C"; "B"; "A"]) (λ _, "uuid") SessionTypeECDSA "w" "t1" "idem" with
  | Ok s => s
  | _ => toy_signing
  end.

Lemma CreateSigningSession_committee_witness :
  ParticipantPeerIDs toy_signing_session = ["A"; "B"; "C"] ∧
  ∃ self : @PartyID tss_ref, SelfPartyID toy_signing_session = Some self.
Proof.
  split; [vm_compute; reflexivity|].
  destruct (CreateSigningSession_committee toy_Unmarshal_KeyInfo toy_ParseECDSA toy_ParseEDDSA
    (toy_node_A ["C"; "B"; "A"]) (λ _, "uuid") SessionTypeECDSA "w" "t1" "idem"
    toy_signing_session) as (i & v & self & _ & _ & _ & _ & _ & _ & Hs & _).
  - apply toy_ready_ok. vm_compute. reflexivity.
  - reflexivity.
  - vm_compute. reflexivity.
  - exists self. exact Hs.
Defined.

Lemma signing_Init_never_short_witness :
  let wd := mkWorld toy_curve toy_signing_session (∅ : gmap string string)
              (keyinfoStore (toy_node_A ["C"; "B"; "A"])) None 0 [] in
  eval (sign_Init toy_curve toy_Unmarshal_KeyInfo 7) wd ≠ Err ErrNotEnoughParticipants.
Proof.
  cbv zeta.
  apply (signing_Init_never_short toy_Unmarshal_KeyInfo toy_ParseECDSA toy_ParseEDDSA toy_curve
    (toy_node_A ["C"; "B"; "A"]) (λ _, "uuid") SessionTypeECDSA "w" "t1" "idem"
    toy_signing_session).
  - vm_compute. reflexivity.
  - reflexivity.
  - reflexivity.
Defined.

Definition toy_share_world : world toy_curve :=
  mkWorld toy_curve toy_signing_session ({["ecdsa:w_v1" := "share"]} : gmap string string)
    (keyinfoStore (toy_node_A ["C"; "B"; "A"])) None 0 [].

Lemma created_signing_Init_witness :
  sign_Init toy_curve toy_Unmarshal_KeyInfo 7 toy_share_world =
    (Ok tt, set_signing toy_curve 1 (Some "share") 7 toy_share_world).
Proof.
  assert (getKeyInfo toy_Unmarshal_KeyInfo (toy_node_A ["C"; "B"; "A"]) SessionTypeECDSA "w" =
    Ok toy_info) as Hinfo by (vm_compute; reflexivity).
  destruct (created_signing_Init toy_Unmarshal_KeyInfo toy_ParseECDSA toy_ParseEDDSA toy_curve
    (toy_node_A ["C"; "B"; "A"]) (λ _, "uuid") SessionTypeECDSA "w" "t1" "idem"
    toy_signing_session 7 toy_share_world) as (i & Hi & ->).
  - vm_compute. reflexivity.
  - reflexivity.
  - reflexivity.
  - intros i Hi. rewrite Hinfo in Hi. injection Hi as <-. apply (bool_decide_unpack _).
    vm_compute. reflexivity.
  - rewrite Hinfo in Hi. injection Hi as <-. reflexivity.
Defined.

Definition toy_keygen_session (n : Node (R := toy_view)) : PartySession :=
  match CreateKeyGenSession toy_Unmarshal_KeyInfo toy_ParseECDSA toy_ParseEDDSA
    n (λ _, "uuid") SessionTypeECDSA "w2" 1 with
  | Ok s => s
  | _ => toy_signing
  end.

Lemma keygen_committee_agreement_witness :
  keys (PartyIDs (toy_keygen_session (toy_node_A ["C"; "B"; "A"]))) =
  keys (PartyIDs (toy_keygen_session (toy_node_B ["A"; "C"; "B"]))).
Proof.
  destruct (keygen_committee_agreement toy_Unmarshal_KeyInfo toy_ParseECDSA toy_ParseEDDSA
    (toy_node_A ["C"; "B"; "A"]) (toy_node_B ["A"; "C"; "B"]) (λ _, "uuid") (λ _, "uuid")
    SessionTypeECDSA "w2" 1 1
    (toy_keygen_session (toy_node_A ["C"; "B"; "A"]))
    (toy_keygen_session (toy_node_B ["A"; "C"; "B"]))) as [H _];
    [apply toy_ready_ok; vm_compute; reflexivity|apply toy_ready_ok; vm_compute; reflexivity
    |reflexivity|intros x; cbn; rewrite !elem_of_cons; tauto
    |vm_compute; reflexivity|vm_compute; reflexivity|exact H].
Defined.

Lemma CreateKeyGenSession_fails_open_witness :
  let unreachable := λ _ : string, @Err KeyInfo (errors_New "connection refused") in
  ∃ s, CreateKeyGenSession unreachable toy_ParseECDSA toy_ParseEDDSA (toy_node_A ["A"])
         (λ _, "uuid") SessionTypeECDSA "w" 1 = Ok s ∧
       WalletID s = "w" ∧ Version s = DefaultVersion ∧ Threshold s = 1.
Proof.
  cbv zeta. eapply CreateKeyGenSession_fails_open; [by left|reflexivity|].
  vm_compute. reflexivity.
Defined.

Lemma CreateResharingSession_guard_witness :
  ∃ s r, CreateResharingSession toy_Unmarshal_KeyInfo toy_ParseECDSA toy_ParseEDDSA
           (toy_node_A ["C"; "B"; "A"]) (λ _, "u") (λ _, "u'") SessionTypeECDSA "w" 1 ["A"; "C"]
           true = Ok (Some (s, r)) ∧ 1 < Z.of_nat (length ["A"; "C"]).
Proof.
  eexists _, _. split; [vm_compute; reflexivity|].
  refine (proj1 (proj2 (CreateResharingSession_guard toy_Unmarshal_KeyInfo toy_ParseECDSA
    toy_ParseEDDSA (toy_node_A ["C"; "B"; "A"]) (λ _, "u") (λ _, "u'") SessionTypeECDSA "w" 1
    ["A"; "C"] true _ _ (toy_ready_ok "A" ["C"; "B"; "A"] eq_refl) _ _))).
  - split; [discriminate|reflexivity].
  - vm_compute. reflexivity.
Defined.


Lemma generatePreParams_stable_witness :
  let gen := λ i, Ok (fmt_d (Z.of_nat i)) in
  let gen' := λ _, Err (errors_New "no entropy") in
  let db' := (generatePreParams (λ b, Ok b) (λ p : string, Ok p) gen (∅ : @kv_db kv_ref)).2 in
  generatePreParams (λ b, Ok b) (λ p : string, Ok p) gen' db' = (Ok ["0"; "1"], db').
Proof.
  cbv zeta.
  apply (generatePreParams_stable (λ b, Ok b) (λ p : string, Ok p) (λ i, Ok (fmt_d (Z.of_nat i)))
           (λ _, Err (errors_New "no entropy")) (∅ : @kv_db kv_ref)).
  - intros pp b _ H. symmetry. exact H.
  - vm_compute. reflexivity.
Defined.

(** The guards add one to the threshold at 64 bits: with the largest threshold
    both size checks pass, and a session for a committee of one is created. *)
Theorem CreateResharingSession_overflow :
  ∃ s r, CreateResharingSession toy_Unmarshal_KeyInfo toy_ParseECDSA toy_ParseEDDSA
           (toy_node_A ["C"; "B"; "A"]) (λ _, "u") (λ _, "u'") SessionTypeECDSA "w" MaxInt64 ["A"]
           true = Ok (Some (s, r)) ∧ NewThreshold r = MaxInt64 ∧ newPeerIDs r = ["A"].
Proof. eexists _, _. split; [vm_compute; reflexivity|]. by vm_compute. Qed.
