(* ===== verification/EventConsumer.v ===== *)
(** * pkg/eventconsumer/event.go: the node's handlers

    Three subscriptions feed three workers, each with a semaphore, and each
    message is handled in a goroutine of its own.  [eventConsumer] is the state
    the handlers share; [log] records what they hand to the result queues, what
    replies they publish (one that arrives removes the request from its stream) and
    which signings they start, in order.  The protocol runs themselves are environment:
    a run is the errors the sessions reported and the result, as the handler sees them. *)

From stdpp Require Import base gmap list strings.
From Stdlib Require Import ZArith Lia Ascii.
From S2P Require Import Prelude.
From S2P Require Import GoStrings.
From S2P Require Import External.
From S2P Require Import Json.
From S2P Require Import Types.
From S2P Require Import Identity.
From S2P Require Import Ecdh.
From S2P Require Import Registry.
From S2P Require Import SessionManager.
From S2P Require Import PartySession.
From S2P Require Import KeyStore.
From S2P Require Import Sessions.
From S2P Require Import Node.

Definition MPCGenerateEvent : string := "mpc:generate".
Definition MPCSignEvent : string := "mpc:signing".
Definition MPCResharingEvent : string := "mpc:resharing".
Definition DefaultConcurrentKeygen : Z := 2.
Definition DefaultConcurrentSigning : Z := 20.
Definition DefaultConcurrentResharing : Z := 5.
Definition DefaultSessionWarmUpDelay : Z := 200.

(** The parts of a [nats.Msg] the handlers read. *)
Record Msg := mkMsg {
  Data : string;
  Reply : string;
  Header_SessionID : string;     (* Header.Get("SessionID") *)
}.

Inductive result_queue := KeygenQueue | SigningQueue | ResharingQueue.

Inductive ec_event :=
| Enqueued (q : result_queue) (topic payload idempotentKey : string)
| Replied (inbox data : string)
| Started (walletID txID : string).        (* AddSession, then the signing goroutines *)

#[export] Instance result_queue_eq_dec : EqDecision result_queue.
Proof. solve_decision. Defined.

#[export] Instance ec_event_eq_dec : EqDecision ec_event.
Proof. solve_decision. Defined.

(** ** Idempotent keys *)

Definition composeIdempotentKey (baseID : string) (natMsg : Msg) (format : string → string) :
    string :=
  let sid := Header_SessionID natMsg in
  format (if String.eqb sid "" then baseID else baseID +:+ ":" +:+ sid).

Definition composeKeygenIdempotentKey (walletID : string) (natMsg : Msg) : string :=
  composeIdempotentKey walletID natMsg TypeGenerateWalletResultFmt.
Definition composeSigningResultIdempotentKey (txID : string) (natMsg : Msg) : string :=
  composeIdempotentKey txID natMsg TypeSigningResultFmt.
Definition composeResharingResultIdempotentKey (sessionID : string) (natMsg : Msg) : string :=
  composeIdempotentKey sessionID natMsg TypeResharingWalletResultFmt.

Definition sessionTypeFromKeyType (keyType : string) : Res string :=
  if String.eqb keyType KeyTypeSecp256k1 then Ok SessionTypeECDSA
  else if String.eqb keyType KeyTypeEd25519 then Ok SessionTypeEDDSA
  else Err (errors_New ("unsupported key type: " +:+ keyType)).

Section consumer.
Context `{C : Crypto} `{T : TssLib} `{L : Lo} `{KV : KVStore} `{CK : ConsulKV}
  {R : Type} `{PR : PeerRegistry R}.

Record eventConsumer := mkEventConsumer {
  ec_threshold : Z;
  node : Node (R := R);
  ec_identityStore : fileStore;
  ec_kv : kv_db;
  sessionMgr : Manager;
  maxConcurrentKeygen : Z;
  maxConcurrentSigning : Z;
  maxConcurrentResharing : Z;
  sessionWarmUpDelayMs : Z;
  log : list ec_event;
}.

Definition set_sessionMgr f (ec : eventConsumer) : eventConsumer :=
  mkEventConsumer (ec_threshold ec) (node ec) (ec_identityStore ec) (ec_kv ec)
    (f (sessionMgr ec)) (maxConcurrentKeygen ec) (maxConcurrentSigning ec)
    (maxConcurrentResharing ec) (sessionWarmUpDelayMs ec) (log ec).
Definition record_event e (ec : eventConsumer) : eventConsumer :=
  mkEventConsumer (ec_threshold ec) (node ec) (ec_identityStore ec) (ec_kv ec)
    (sessionMgr ec) (maxConcurrentKeygen ec) (maxConcurrentSigning ec)
    (maxConcurrentResharing ec) (sessionWarmUpDelayMs ec) (log ec ++ [e]).

Definition default_if_zero (v d : Z) : Z := if v =? 0 then d else v.

(** The configured numbers; [make] of a negative capacity panics in the worker. *)
Definition NewEventConsumer (n : Node (R := R)) (ids : fileStore) (db : kv_db)
    (threshold keygen signing resharing warmUp : Z) : Res eventConsumer :=
  let k := default_if_zero keygen DefaultConcurrentKeygen in
  let s := default_if_zero signing DefaultConcurrentSigning in
  let r := default_if_zero resharing DefaultConcurrentResharing in
  if (k <? 0) || (s <? 0) || (r <? 0) then Panic "makechan: size out of range"
  else Ok (mkEventConsumer threshold n ids db
             (NewManager (5 * 60 * 10 ^ 9) (30 * 60 * 10 ^ 9)) k s r
             (default_if_zero warmUp DefaultSessionWarmUpDelay) []).

(** Environment: json.Unmarshal (the message as far as it was decoded, and the
    error), the queues' answers, the curves and tss-lib's parser. *)
Variable Unmarshal_Keygen : string → KeygenMessage * option error.
Variable Unmarshal_Signing : string → SigningMessage * option error.
Variable Unmarshal_Resharing : string → ResharingMessage * option error.
Variable Unmarshal_KeyInfo : string → Res KeyInfo.
Variable enqueue : result_queue → string → string → string → Res unit.
Variable cvE cvD : Curve.
Variable ParseECDSA : option string → option PartyID → bool → Res ecdsa.Content.
Variable ParseEDDSA : option string → option PartyID → bool → Res eddsa.Content.
Variable uuid : nat → string.

Definition Enqueue (q : result_queue) (topic payload key : string) :
    M eventConsumer (Res (Res unit)) := λ ec,
  match enqueue q topic payload key with
  | Panic w => (Panic w, ec)
  | r => (Ok r, match r with Ok _ => record_event (Enqueued q topic payload key) ec | _ => ec end)
  end.

(** [Replied]: the publication is called; what it returns is only logged. *)
Definition sendReplyToRemoveMsg (natMsg : Msg) : M eventConsumer (Res unit) :=
  if String.eqb (Reply natMsg) "" then lift (Ok tt)
  else modifyR (record_event (Replied (Reply natMsg) (Data natMsg))).

Definition fullErrMsg (contextMsg : string) (err : error) : string :=
  contextMsg +:+ ": " +:+ Error err.

Definition handleKeygenSessionError (walletID : string) (err : error) (contextMsg : string)
    (natMsg : Msg) : M eventConsumer (Res unit) :=
  let keygenResult := mkKeygenResponse walletID None None
                        (GetErrorCodeFromError (Some err)) (fullErrMsg contextMsg err) in
  _ ←! Enqueue KeygenQueue (TypeGenerateWalletResultFmt walletID)
         (encode (KeygenResponse_json keygenResult)) (composeKeygenIdempotentKey walletID natMsg);
  sendReplyToRemoveMsg natMsg.

Definition handleSigningSessionError (walletID txID : string) (err : error) (contextMsg : string)
    (natMsg : Msg) : M eventConsumer (Res unit) :=
  let signingResult := mkSigningResponse (GetErrorCodeFromError (Some err))
                         (fullErrMsg contextMsg err) false walletID txID None None None None in
  _ ←! Enqueue SigningQueue SigningResultCompleteTopic
         (encode (SigningResponse_json signingResult))
         (composeSigningResultIdempotentKey txID natMsg);
  sendReplyToRemoveMsg natMsg.

Definition handleResharingSessionError (walletID keyType : string) (newThreshold : Z)
    (err : error) (contextMsg : string) (natMsg : Msg) : M eventConsumer (Res unit) :=
  let resharingResult := mkResharingResponse walletID newThreshold keyType None
                           (GetErrorCodeFromError (Some err)) (fullErrMsg contextMsg err) in
  _ ←! Enqueue ResharingQueue (TypeResharingWalletResultFmt walletID)
         (encode (ResharingResponse_json resharingResult))
         (composeResharingResultIdempotentKey walletID natMsg);
  sendReplyToRemoveMsg natMsg.

(** [if err := ...; err != nil { handle; return }], a panic ends the process. *)
Definition check {A} (r : Res A) (handle : error → M eventConsumer (Res unit))
    (k : A → M eventConsumer (Res unit)) : M eventConsumer (Res unit) :=
  match r with Ok a => k a | Err e => handle e | Panic w => lift (Panic w) end.

(** ** Key generation *)

(** What a run shows: the errors of the two sessions in the order they are
    handled, whether the 30 seconds ran out first, and the public keys. *)
Record keygen_run := mkKeygenRun {
  run_errors : list (bool * error);       (* true: the ECDSA session *)
  run_timeout : bool;
  run_ECDSAPubKey : option string;
  run_EDDSAPubKey : option string;
}.

Definition timeout_error : error := errors_New "keygen session timed out after 30s".

Definition finishKeygen (walletID : string) (natMsg : Msg) (run : keygen_run) :
    M eventConsumer (Res unit) :=
  _ ←! forR (run_errors run) (λ '(isECDSA, err),
         handleKeygenSessionError walletID err
           (if (isECDSA : bool) then "ECDSA keygen session error" else "EdDSA keygen session error")
           natMsg);
  if run_timeout run then
    handleKeygenSessionError walletID timeout_error "Key generation timed out" natMsg
  else if bool_decide (run_errors run ≠ []) then lift (Ok tt)
  else
    let payload := encode (KeygenResponse_json
      (mkKeygenResponse walletID (run_ECDSAPubKey run) (run_EDDSAPubKey run) NoErrorCode "")) in
    r ←! Enqueue KeygenQueue (TypeGenerateWalletResultFmt walletID) payload
           (composeKeygenIdempotentKey walletID natMsg);
    match r with
    | Err e => handleKeygenSessionError walletID e "Failed to publish key generation success message"
                 natMsg
    | _ => sendReplyToRemoveMsg natMsg
    end.

Definition handleKeyGenEvent (natMsg : Msg) (run : keygen_run) : M eventConsumer (Res unit) := λ ec,
  let '(msg, err) := Unmarshal_Keygen (Data natMsg) in
  let walletID := km_WalletID msg in
  let create st := CreateKeyGenSession Unmarshal_KeyInfo ParseECDSA ParseEDDSA (node ec) uuid st
                     walletID (ec_threshold ec) in
  let fail context e := handleKeygenSessionError walletID e context natMsg in
  match err with
  | Some err => fail "Failed to unmarshal keygen message" err ec
  | None =>
      check (VerifyInitiatorMessage (ec_identityStore ec) msg)
        (fail "Failed to verify initiator message") (λ _,
      check (create SessionTypeECDSA)
        (fail "Failed to create ECDSA key generation session") (λ ecdsaSession,
      check (create SessionTypeEDDSA)
        (fail "Failed to create EdDSA key generation session") (λ eddsaSession,
      finishKeygen walletID natMsg run))) ec
  end.

(** ** Signing *)

(** The handler up to the duplicate check; [None]: it has returned. *)
Definition signing_check (natMsg : Msg) : M eventConsumer (Res (option SigningMessage)) := λ ec,
  let '(msg, err) := Unmarshal_Signing (Data natMsg) in
  match err with
  | Some _ => (Ok None, ec)                        (* logged only *)
  | None =>
      match VerifyInitiatorMessage (ec_identityStore ec) msg with
      | Panic w => (Panic w, ec)
      | Err _ => (Ok None, ec)                     (* logged only *)
      | Ok _ =>
          if SessionManager.eval_HasSession (sm_WalletID msg) (sm_TxID msg) (sessionMgr ec) then
            (_ ←! handleSigningSessionError (sm_WalletID msg) (sm_TxID msg)
                    (duplicate_session_error (sm_WalletID msg) (sm_TxID msg))
                    "Duplicate session" natMsg; lift (Ok None)) ec
          else (Ok (Some msg), ec)
      end
  end.

(** [session.Init]: only its error is seen here. *)
Definition init_signing (ec : eventConsumer) (s : PartySession) (tx : Z) : Res unit :=
  if String.eqb (SessionType s) SessionTypeECDSA then
    eval (sign_Init cvE Unmarshal_KeyInfo tx)
      (mkWorld cvE s (ec_kv ec) (keyinfoStore (node ec)) None 0 [])
  else
    eval (sign_Init cvD Unmarshal_KeyInfo tx)
      (mkWorld cvD s (ec_kv ec) (keyinfoStore (node ec)) None 0 []).

(** The rest of the handler, from the creation of the session. *)
Definition signing_start (natMsg : Msg) (msg : SigningMessage) (now : Z) :
    M eventConsumer (Res unit) := λ ec,
  let walletID := sm_WalletID msg in
  let txID := sm_TxID msg in
  let idempotentKey := composeSigningResultIdempotentKey txID natMsg in
  let create st := CreateSigningSession Unmarshal_KeyInfo ParseECDSA ParseEDDSA (node ec) uuid st
                     walletID txID idempotentKey in
  let session :=
    if String.eqb (sm_KeyType msg) KeyTypeSecp256k1 then create SessionTypeECDSA
    else if String.eqb (sm_KeyType msg) KeyTypeEd25519 then create SessionTypeEDDSA
    else Err (errors_New ("unsupported key type: " +:+ sm_KeyType msg)) in
  check session
    (λ sessionErr,
       if errors_Is sessionErr "ErrNotEnoughParticipants" then lift (Ok tt)     (* RETRY LATER *)
       else if errors_Is sessionErr "ErrNotInParticipantList" then lift (Ok tt)
       else handleSigningSessionError walletID txID sessionErr
              "Failed to create signing session" natMsg)
    (λ session,
       let txBigInt := big_SetBytes (sm_Tx msg) in
       check (init_signing ec session txBigInt)
         (λ err, handleSigningSessionError walletID txID err "Failed to init signing session" natMsg)
         (λ _,
            _ ←! modifyR (set_sessionMgr (exec (AddSession walletID txID now)));
            modifyR (record_event (Started walletID txID)))) ec.

Definition handleSigningEvent (natMsg : Msg) (now : Z) : M eventConsumer (Res unit) :=
  m ←! signing_check natMsg;
  match m with None => lift (Ok tt) | Some msg => signing_start natMsg msg now end.

(** What the signing goroutines report later. *)
Inductive signing_outcome := SignDone | SignError (e : error).

Definition finishSigning (natMsg : Msg) (msg : SigningMessage) (o : signing_outcome) :
    M eventConsumer (Res unit) :=
  match o with
  | SignDone => sendReplyToRemoveMsg natMsg
  | SignError err =>
      handleSigningSessionError (sm_WalletID msg) (sm_TxID msg) err "Failed to sign tx" natMsg
  end.

(** ** Resharing *)

(** The errors of the two sessions in the order they are handled (each reports at
    most one), and the public key the new session ends with if it has none. *)
Record resharing_run := mkResharingRun {
  rs_errors : list (bool * error);         (* true: the new session *)
  rs_PubKey : option string;
}.

Definition finishResharing (msg : ResharingMessage) (natMsg : Msg) (hasNew : bool)
    (run : resharing_run) : M eventConsumer (Res unit) :=
  let fail context e :=
    handleResharingSessionError (rm_WalletID msg) (rm_KeyType msg) (rm_NewThreshold msg) e context
      natMsg in
  _ ←! forR (rs_errors run) (λ '(isNew, err),
         fail (if (isNew : bool) then "New reshare session error" else "Old reshare session error")
           err);
  if hasNew then
    let pubKey := if existsb fst (rs_errors run) then None else rs_PubKey run in
    let resharingResponse := mkResharingResponse (rm_WalletID msg) (rm_NewThreshold msg)
                               (rm_KeyType msg) pubKey NoErrorCode "" in
    r ←! Enqueue ResharingQueue (TypeResharingWalletResultFmt (rm_SessionID msg))
           (encode (ResharingResponse_json resharingResponse))
           (composeResharingResultIdempotentKey (rm_SessionID msg) natMsg);
    match r with
    | Err e => fail "Failed to publish reshare success message" e
    | _ => sendReplyToRemoveMsg natMsg
    end
  else sendReplyToRemoveMsg natMsg.

(** [session.Init] of an old or new resharing session, if there is one. *)
Definition init_resharing (ec : eventConsumer) (s : option (PartySession * resharingSession)) :
    Res unit :=
  match s with
  | None => Ok tt
  | Some (s, r) =>
      if String.eqb (SessionType s) SessionTypeECDSA then
        _ ← reshare_Init cvE r (mkWorld cvE s (ec_kv ec) (keyinfoStore (node ec)) None 0 []); Ok tt
      else
        _ ← reshare_Init cvD r (mkWorld cvD s (ec_kv ec) (keyinfoStore (node ec)) None 0 []); Ok tt
  end.

Definition handleResharingEvent (natMsg : Msg) (run : resharing_run) :
    M eventConsumer (Res unit) := λ ec,
  let '(msg, err) := Unmarshal_Resharing (Data natMsg) in
  let fail context e :=
    handleResharingSessionError (rm_WalletID msg) (rm_KeyType msg) (rm_NewThreshold msg) e context
      natMsg in
  match err with
  | Some err => fail "Failed to unmarshal resharing message" err ec
  | None =>
      if String.eqb (rm_SessionID msg) "" then
        fail "Session ID is empty" (errors_New "validation: session ID is empty") ec
      else
        check (VerifyInitiatorMessage (ec_identityStore ec) msg)
          (fail "Failed to verify initiator message") (λ _,
        check (sessionTypeFromKeyType (rm_KeyType msg)) (fail "Failed to get session type")
          (λ sessionType,
        let create isNew :=
          CreateResharingSession Unmarshal_KeyInfo ParseECDSA ParseEDDSA (node ec) uuid uuid
            sessionType (rm_WalletID msg) (rm_NewThreshold msg) (default [] (rm_NodeIDs msg)) isNew in
        check (create false) (fail "Failed to create old resharing session") (λ oldSession,
        check (create true) (fail "Failed to create new resharing session") (λ newSession,
        match oldSession, newSession with
        | None, None => sendReplyToRemoveMsg natMsg
        | _, _ =>
            check (init_resharing ec oldSession) (fail "Failed to init old resharing session") (λ _,
            check (init_resharing ec newSession) (fail "Failed to init new resharing session") (λ _,
            finishResharing msg natMsg (bool_decide (is_Some newSession)) run))
        end)))) ec
  end.

End consumer.

(** ** Workers

    A buffered channel, the loop that takes a message and then waits for a slot of
    the semaphore, and the handlers' goroutines. *)

Section worker.
Context {A : Type} `{EqDecision A}.
Variable capacity maxConcurrent : nat.

Record worker := mkWorker {
  closed : bool;
  chan : list A;            (* the channel's buffer *)
  held : option A;          (* taken by the loop, waiting for a slot *)
  running : list A;
  started : list A;         (* in the order the goroutines were started *)
  finished : list A;
}.

(** [ch <- natMsg] in the subscription's callback, when there is room. *)
Definition send (m : A) (w : worker) : Res worker :=
  if closed w then Panic "send on closed channel"
  else Ok (mkWorker (closed w) (chan w ++ [m]) (held w) (running w) (started w) (finished w)).

Definition close_chan (w : worker) : Res worker :=
  if closed w then Panic "close of closed channel"
  else Ok (mkWorker true (chan w) (held w) (running w) (started w) (finished w)).

(** What happens at a worker, with the message it happens to. *)
Inductive worker_event :=
| Sent (m : A)         (* a callback has sent it to the channel *)
| Taken (m : A)        (* the loop has received it *)
| Spawned (m : A)      (* its handler's goroutine is started *)
| Released (m : A).    (* the handler has returned and released its slot *)

Inductive worker_act (w : worker) : worker_event → worker → Prop :=
| act_send m w' : (length (chan w) < capacity)%nat → send m w = Ok w' → worker_act w (Sent m) w'
| act_take m rest : held w = None → chan w = m :: rest →
    worker_act w (Taken m)
      (mkWorker (closed w) rest (Some m) (running w) (started w) (finished w))
| act_spawn m : held w = Some m → (length (running w) < maxConcurrent)%nat →
    worker_act w (Spawned m)
      (mkWorker (closed w) (chan w) None (m :: running w) (started w ++ [m]) (finished w))
| act_finish m l1 l2 : running w = l1 ++ m :: l2 →
    worker_act w (Released m)
      (mkWorker (closed w) (chan w) (held w) (l1 ++ l2) (started w) (m :: finished w)).

Definition worker_step (w w' : worker) : Prop := ∃ e, worker_act w e w'.

Definition new_worker : worker := mkWorker false [] None [] [] [].

(** What a history tells: the messages sent, those whose handlers were started, and
    those whose handlers have returned, in order. *)
Definition sent (h : list worker_event) : list A :=
  omap (λ e, match e with Sent m => Some m | _ => None end) h.
Definition spawned (h : list worker_event) : list A :=
  omap (λ e, match e with Spawned m => Some m | _ => None end) h.
Definition returned (h : list worker_event) : list A :=
  omap (λ e, match e with Released m => Some m | _ => None end) h.

Definition worker_inv (h : list worker_event) (w : worker) : Prop :=
  (length (running w) ≤ maxConcurrent)%nat ∧ (length (chan w) ≤ capacity)%nat ∧
  sent h = spawned h ++ option_list (held w) ++ chan w ∧
  spawned h ≡ₚ running w ++ returned h ∧ started w = spawned h ∧ finished w ≡ₚ returned h.

Lemma worker_act_inv h w e w' : worker_inv h w → worker_act w e w' → worker_inv (h ++ [e]) w'.
Proof.
  intros (Hr & Hc & Hsent & Hrun & Hst & Hf). unfold worker_inv, sent, spawned, returned in *.
  rewrite !omap_app. destruct 1 as [m w' Hlen Hsend|m rest Hh Hch|m Hh Hlen|m l1 l2 Hl]; cbn;
    rewrite ?app_nil_r.
  - unfold send in Hsend. destruct (closed w); [done|]. injection Hsend as <-. cbn.
    rewrite length_app. cbn. split_and!; [done|lia| |done..]. by rewrite Hsent, !(assoc_L app).
  - rewrite Hch in Hc, Hsent. cbn in Hc. split_and!; [done|lia| |done..]. by rewrite Hsent, Hh.
  - rewrite Hh in Hsent. split_and!; [lia|done| | |by rewrite Hst|done].
    + rewrite Hsent, <-!(assoc_L app). done.
    + rewrite Hrun. by rewrite Permutation_app_comm.
  - rewrite Hl in Hr, Hrun. rewrite length_app in *. cbn in Hr. split_and!; [lia|done..| |done|].
    + rewrite Hrun, <-(Permutation_middle l1 l2 m), (assoc_L app (l1 ++ l2)).
      apply Permutation_cons_append.
    + by rewrite Hf, <-Permutation_cons_append.
Qed.

(** C22: a worker never runs more handlers than configured, its buffer never overflows,
    and no message is lost, duplicated or overtaken: after any history, the messages that
    were sent to the channel are, in the order they were sent, those whose handlers have
    been started, the one the loop holds, and those in the buffer; and of the handlers
    started, each is running or has returned. *)
Theorem worker_invariant h w (Hruns : runs worker_act new_worker h w) :
  (length (running w) ≤ maxConcurrent)%nat ∧ (length (chan w) ≤ capacity)%nat ∧
  sent h = spawned h ++ option_list (held w) ++ chan w ∧
  spawned h ≡ₚ running w ++ returned h ∧ started w = spawned h ∧ finished w ≡ₚ returned h.
Proof.
  apply (runs_invariant worker_act worker_inv) in Hruns; [exact Hruns| |].
  - intros h' v e v' Hv Hact. by eapply worker_act_inv.
  - split_and!; cbn; (done || lia).
Qed.

(** Running handlers can all finish. *)
Lemma finish_all w : ∃ w', rtc worker_step w w' ∧ running w' = [] ∧ held w' = held w ∧
  chan w' = chan w ∧ started w' = started w.
Proof.
  remember (running w) as l eqn:Hl. revert w Hl. induction l as [|m l IH]; intros w Hl.
  - exists w. by split_and!.
  - destruct (IH (mkWorker (closed w) (chan w) (held w) l (started w) (m :: finished w)) eq_refl)
      as (w' & Hw' & ? & ? & ? & ?).
    exists w'. split_and!; try done. eapply rtc_l; [|exact Hw'].
    exists (Released m). by apply (act_finish w m [] l).
Qed.

(** C35: no message is stuck: with a positive concurrency, from every state with a
    message waiting the worker can go on until that message's handler is started,
    provided the running handlers return. *)
Theorem worker_progress w m (Hmax : (0 < maxConcurrent)%nat)
    (Hm : m ∈ option_list (held w) ++ chan w) :
  ∃ w', rtc worker_step w w' ∧ m ∈ started w'.
Proof.
  remember (length (option_list (held w) ++ chan w)) as n eqn:Hn.
  revert w Hm Hn. induction n as [n IH] using lt_wf_ind. intros w Hm Hn.
  destruct (held w) as [h|] eqn:Hh.
  - destruct (finish_all w) as (w1 & Hw1 & Hr1 & Hh1 & Hc1 & Hs1).
    set (w2 := mkWorker (closed w1) (chan w1) None (h :: running w1) (started w1 ++ [h])
                 (finished w1)).
    assert (worker_step w1 w2) as Hstep.
    { exists (Spawned h). apply act_spawn; [by rewrite Hh1, Hh|by rewrite Hr1]. }
    cbn in Hm. apply elem_of_cons in Hm as [->|Hm].
    + exists w2. split; [eapply rtc_r; [exact Hw1|exact Hstep]|]. cbn. set_solver.
    + destruct (IH (length (chan w)) ltac:(cbn in Hn; lia) w2) as (w' & Hw' & Hin);
        [cbn; by rewrite Hc1|cbn; by rewrite Hc1|].
      exists w'. split; [|done]. etrans; [exact Hw1|]. by eapply rtc_l.
  - cbn in Hm, Hn. destruct (chan w) as [|c rest] eqn:Hc; [set_solver|].
    set (w1 := mkWorker (closed w) rest (Some c) (running w) (started w) (finished w)).
    assert (worker_step w w1) as Hstep by (exists (Taken c); by apply act_take).
    destruct (finish_all w1) as (w2 & Hw2 & Hr2 & Hh2 & Hc2 & Hs2).
    set (w3 := mkWorker (closed w2) (chan w2) None (c :: running w2) (started w2 ++ [c])
                 (finished w2)).
    assert (worker_step w2 w3) as Hstep3
      by (exists (Spawned c); apply act_spawn; [by rewrite Hh2|by rewrite Hr2]).
    assert (rtc worker_step w w3) as Hw3.
    { eapply rtc_l; [exact Hstep|]. by eapply rtc_r. }
    apply elem_of_cons in Hm as [->|Hm].
    + exists w3. split; [done|]. cbn. set_solver.
    + destruct (IH (length rest) ltac:(cbn in Hn; lia) w3) as (w' & Hw' & Hin);
        [cbn; by rewrite Hc2|cbn; by rewrite Hc2|].
      exists w'. split; [by etrans|done].
Qed.

End worker.

(** ** Start and stop

    The three channels with their subscriptions, and the session manager whose
    cleanup routine [Close] stops. *)

Definition channel_buffer (q : result_queue) : nat :=
  match q with KeygenQueue => 100 | SigningQueue => 200 | ResharingQueue => 100 end.

(** The consumer's three workers. *)
Section workers.
Context `{C : Crypto} `{T : TssLib} `{L : Lo} `{KV : KVStore} `{CK : ConsulKV}
  {R : Type} `{PR : PeerRegistry R}.
Variable ec : eventConsumer (R := R).

Definition startKeyGenEventWorker : worker → worker → Prop :=
  worker_step (A := Msg) (channel_buffer KeygenQueue) (Z.to_nat (maxConcurrentKeygen ec)).
Definition startSigningEventWorker : worker → worker → Prop :=
  worker_step (A := Msg) (channel_buffer SigningQueue) (Z.to_nat (maxConcurrentSigning ec)).
Definition startResharingEventWorker : worker → worker → Prop :=
  worker_step (A := Msg) (channel_buffer ResharingQueue) (Z.to_nat (maxConcurrentResharing ec)).

End workers.

Record lifecycle := mkLifecycle {
  channels : result_queue → worker (A := Msg);
  subs : result_queue → option bool;     (* None: nil; Some true: delivering *)
  lc_sessionMgr : Manager;
}.

Definition set_channel q w (lc : lifecycle) : lifecycle :=
  mkLifecycle (λ q', if decide (q' = q) then w else channels lc q') (subs lc) (lc_sessionMgr lc).
Definition set_sub q b (lc : lifecycle) : lifecycle :=
  mkLifecycle (channels lc) (λ q', if decide (q' = q) then b else subs lc q') (lc_sessionMgr lc).

(** A message on a queue's topic: the callback of the subscription, if there is
    one, sends it to the channel. *)
Definition deliver (q : result_queue) (m : Msg) (lc : lifecycle) : Res lifecycle :=
  match subs lc q with
  | Some true => w ← send m (channels lc q); Ok (set_channel q w lc)
  | _ => Ok lc
  end.

(** consumeKeyGenerationEvent, consumeSigningEvent and consumeResharingEvent. *)
Definition consume (subscribe : result_queue → Res unit) (q : result_queue) (lc : lifecycle) :
    Res lifecycle :=
  _ ← subscribe q; Ok (set_sub q (Some true) lc).

(** [log.Fatal] ends the process. *)
Definition Run (subscribe : result_queue → Res unit) (lc : lifecycle) : Res lifecycle :=
  lc ← fatal (consume subscribe KeygenQueue lc) "Failed to consume key reconstruction event";
  lc ← fatal (consume subscribe SigningQueue lc) "Failed to consume tx signing event";
  fatal (consume subscribe ResharingQueue lc) "Failed to consume resharing event".

(** The calls of [Close], in order; deliveries can come between them. *)
Inductive close_call := CloseChan (q : result_queue) | Unsubscribe (q : result_queue) | StopMgr.

Definition Close_calls : list close_call :=
  [CloseChan KeygenQueue; CloseChan SigningQueue; CloseChan ResharingQueue;
   Unsubscribe KeygenQueue; Unsubscribe SigningQueue; Unsubscribe ResharingQueue; StopMgr].

Definition close_do (unsubscribe : result_queue → Res unit) (c : close_call) (lc : lifecycle) :
    Res lifecycle :=
  match c with
  | CloseChan q => w ← close_chan (channels lc q); Ok (set_channel q w lc)
  | Unsubscribe q =>
      match subs lc q with
      | None => Panic "invalid memory address or nil pointer dereference"
      | Some _ => _ ← unsubscribe q; Ok (set_sub q (Some false) lc)
      end
  | StopMgr =>
      mgr ← Stop (lc_sessionMgr lc); Ok (mkLifecycle (channels lc) (subs lc) mgr)
  end.

Fixpoint close_run (unsubscribe : result_queue → Res unit) (cs : list close_call)
    (lc : lifecycle) : Res lifecycle :=
  match cs with
  | [] => Ok lc
  | c :: cs => lc ← close_do unsubscribe c lc; close_run unsubscribe cs lc
  end.

Definition Close (unsubscribe : result_queue → Res unit) (lc : lifecycle) : Res lifecycle :=
  close_run unsubscribe Close_calls lc.

Lemma fatal_Ok {A} (r : Res A) msg a : fatal r msg = Ok a → r = Ok a.
Proof. by destruct r. Qed.

Lemma Run_subs subscribe lc lc' : Run subscribe lc = Ok lc' →
  (∀ q, subs lc' q = Some true) ∧ channels lc' = channels lc ∧
  lc_sessionMgr lc' = lc_sessionMgr lc.
Proof.
  unfold Run, consume. intros H.
  apply Res_bind_Ok in H as (l1 & H1%fatal_Ok & H).
  apply Res_bind_Ok in H as (l2 & H2%fatal_Ok & H3%fatal_Ok).
  apply Res_bind_Ok in H1 as ([] & _ & H1), H2 as ([] & _ & H2), H3 as ([] & _ & H3).
  injection H1 as <-. injection H2 as <-. injection H3 as <-. split; [by intros []|done].
Qed.

Lemma close_do_CloseChan unsubscribe q lc : closed (channels lc q) = false →
  close_do unsubscribe (CloseChan q) lc =
  Ok (set_channel q (mkWorker true (chan (channels lc q)) (held (channels lc q))
    (running (channels lc q)) (started (channels lc q)) (finished (channels lc q))) lc).
Proof. intros H. unfold close_do, close_chan. by rewrite H. Qed.

(** Shutting down kills a node that still receives requests: once [Close] has
    closed the channels, until it has unsubscribed a queue, a message delivered
    on that queue sends on a closed channel, which panics. *)
Theorem Close_races_with_delivery subscribe unsubscribe lc lc1 lc2 q m
    (Hopen : ∀ q, closed (channels lc q) = false)
    (Hrun : Run subscribe lc = Ok lc1)
    (Hclose : close_run unsubscribe (take 3 Close_calls) lc1 = Ok lc2) :
  deliver q m lc1 = Ok (set_channel q (mkWorker false (chan (channels lc q) ++ [m])
    (held (channels lc q)) (running (channels lc q)) (started (channels lc q))
    (finished (channels lc q))) lc1) ∧
  deliver q m lc2 = Panic "send on closed channel".
Proof.
  apply Run_subs in Hrun as (Hs & Hc & _). split.
  { unfold deliver, send. by rewrite Hs, Hc, Hopen. }
  unfold Close_calls in Hclose. cbn [take close_run] in Hclose.
  do 3 (rewrite close_do_CloseChan in Hclose
          by (unfold set_channel; cbn [channels]; rewrite ?decide_False, Hc by done; apply Hopen);
        cbn [mbind Res_bind] in Hclose).
  injection Hclose as <-. unfold deliver, send. cbn. rewrite Hs. by destruct q.
Qed.

(** ** Handlers *)

#[local] Arguments encode : simpl never.
#[local] Arguments GetErrorCodeFromError : simpl never.

Lemma elem_of_snoc_ne {A} (x y : A) l : x ∈ l ++ [y] → x ≠ y → x ∈ l.
Proof. rewrite elem_of_app, list_elem_of_singleton. tauto. Qed.

Section handlers.
Context `{C : Crypto} `{T : TssLib} `{L : Lo} `{KV : KVStore} `{CK : ConsulKV}
  {R : Type} `{PR : PeerRegistry R}.
Variable Unmarshal_Keygen : string → KeygenMessage * option error.
Variable Unmarshal_Signing : string → SigningMessage * option error.
Variable Unmarshal_Resharing : string → ResharingMessage * option error.
Variable Unmarshal_KeyInfo : string → Res KeyInfo.
Variable enqueue : result_queue → string → string → string → Res unit.
Variable cvE cvD : Curve.
Variable ParseECDSA : option string → option PartyID → bool → Res ecdsa.Content.
Variable ParseEDDSA : option string → option PartyID → bool → Res eddsa.Content.
Variable uuid : nat → string.

Notation consumer := (eventConsumer (R := R)).
Notation keygen_event := (handleKeyGenEvent Unmarshal_Keygen Unmarshal_KeyInfo enqueue
  ParseECDSA ParseEDDSA uuid).
Notation sign_check := (signing_check Unmarshal_Signing enqueue).
Notation sign_start := (signing_start Unmarshal_KeyInfo enqueue cvE cvD ParseECDSA ParseEDDSA
  uuid).
Notation sign_event := (handleSigningEvent Unmarshal_Signing Unmarshal_KeyInfo enqueue cvE cvD
  ParseECDSA ParseEDDSA uuid).

(** *** Answers *)

(** A handler's answer to a request: results that satisfy [P], and as the last
    thing the reply that removes the request. *)
Definition answers (P : ec_event → Prop) (m : Msg) (ec ec' : consumer) : Prop :=
  ∃ evs, log ec' = log ec ++ evs ++ [Replied (Reply m) (Data m)] ∧ Forall P evs.

Lemma sendReply_spec (m : Msg) (ec : consumer) : Reply m ≠ "" →
  sendReplyToRemoveMsg m ec = (Ok tt, record_event (Replied (Reply m) (Data m)) ec).
Proof.
  intros Hr. unfold sendReplyToRemoveMsg. by destruct (String.eqb_spec (Reply m) "").
Qed.

Lemma Enqueue_cases q t p k (ec ec' : consumer) r :
  Enqueue enqueue q t p k ec = (Ok r, ec') →
  (r = Ok tt ∧ ec' = record_event (Enqueued q t p k) ec) ∨ (∃ e, r = Err e ∧ ec' = ec).
Proof.
  unfold Enqueue. destruct (enqueue q t p k) as [[]|e|w]; intros [= <- <-]; [by left|right].
  by exists e.
Qed.

(** Publishing a result and replying. *)
Lemma enqueue_reply_answers q t p k (m : Msg) (ec ec' : consumer) (P : ec_event → Prop) :
  Reply m ≠ "" → P (Enqueued q t p k) →
  bindR (Enqueue enqueue q t p k) (λ _, sendReplyToRemoveMsg m) ec = (Ok tt, ec') →
  answers P m ec ec' ∧ sessionMgr ec' = sessionMgr ec.
Proof.
  intros Hr HP H. apply bindR_Ok in H as (r & ec1 & He & H).
  rewrite sendReply_spec in H by done. injection H as <-.
  apply Enqueue_cases in He as [[-> ->]|(e & -> & ->)]; (split; [|done]).
  - exists [Enqueued q t p k]. split; [cbn; by rewrite <-(assoc_L app)|]. by constructor.
  - exists []. by split.
Qed.

Lemma answers_trans P m ec1 ec2 ec3 :
  P (Replied (Reply m) (Data m)) → answers P m ec1 ec2 → answers P m ec2 ec3 →
  answers P m ec1 ec3.
Proof.
  intros HP (e1 & H1 & F1) (e2 & H2 & F2).
  exists (e1 ++ [Replied (Reply m) (Data m)] ++ e2). split.
  - rewrite H2, H1. by rewrite !(assoc_L app).
  - apply Forall_app. split; [done|]. by apply Forall_cons.
Qed.

(** *** Key generation *)

(** The only results for wallet [w]: under its topic and idempotent key. *)
Definition keygen_ev (w : string) (m : Msg) (e : ec_event) : Prop :=
  match e with
  | Enqueued q t _ k =>
      q = KeygenQueue ∧ t = TypeGenerateWalletResultFmt w ∧ k = composeKeygenIdempotentKey w m
  | Replied i d => i = Reply m ∧ d = Data m
  | Started _ _ => False
  end.

Lemma handleKeygenSessionError_answers w e c m (ec ec' : consumer) :
  Reply m ≠ "" → handleKeygenSessionError enqueue w e c m ec = (Ok tt, ec') →
  answers (keygen_ev w m) m ec ec'.
Proof. intros Hr H. by eapply enqueue_reply_answers in H as [? _]. Qed.

Lemma keygen_errors_answers w m l (ec ec' : consumer) :
  Reply m ≠ "" →
  forR l (λ '(isECDSA, err), handleKeygenSessionError enqueue w err
    (if (isECDSA : bool) then "ECDSA keygen session error" else "EdDSA keygen session error") m)
    ec = (Ok tt, ec') →
  ec' = ec ∧ l = [] ∨ answers (keygen_ev w m) m ec ec'.
Proof.
  intros Hr. revert ec. induction l as [|[b e] l IH]; intros ec.
  { cbn. intros [= <-]. by left. }
  cbn [forR]. intros H. apply bindR_Ok in H as ([] & ec1 & H1 & H).
  apply handleKeygenSessionError_answers in H1; [|done].
  right. destruct (IH ec1 H) as [[-> _]|H2]; [done|]. by eapply answers_trans.
Qed.

(** C26: every key generation request that carries a reply inbox is answered,
    whatever goes wrong: unless the process dies, the handler's last action is
    the reply that removes the request, and all it publishes before is for the
    wallet of the request, on that wallet's topic and idempotent key. *)
Theorem handleKeyGenEvent_answers (m : Msg) run (ec ec' : consumer)
    (Hreply : Reply m ≠ "")
    (Hrun : keygen_event m run ec = (Ok tt, ec')) :
  answers (keygen_ev (km_WalletID (Unmarshal_Keygen (Data m)).1) m) m ec ec'.
Proof.
  unfold handleKeyGenEvent in Hrun. destruct (Unmarshal_Keygen (Data m)) as [msg err]. cbn.
  destruct err as [err|]; [by eapply handleKeygenSessionError_answers|].
  unfold check in Hrun.
  repeat match type of Hrun with context [match ?r with Ok _ => _ | _ => _ end] =>
    match r with
    | VerifyInitiatorMessage _ _ => destruct r as [[]| |]
    | CreateKeyGenSession _ _ _ _ _ ?st _ _ => destruct r
    end; [|by eapply handleKeygenSessionError_answers|done]
  end.
  unfold finishKeygen in Hrun. apply bindR_Ok in Hrun as ([] & ec1 & Herr & Hrun).
  apply keygen_errors_answers in Herr; [|done].
  assert (∀ ec1', answers (keygen_ev (km_WalletID msg) m) m ec1 ec1' →
    answers (keygen_ev (km_WalletID msg) m) m ec ec1') as Hjoin.
  { intros ec1' H. destruct Herr as [[-> _]|Herr]; [done|]. by eapply answers_trans. }
  destruct (run_timeout run).
  { apply Hjoin. by eapply handleKeygenSessionError_answers. }
  destruct (bool_decide_reflect (run_errors run ≠ [])) as [Hne|_].
  { injection Hrun as <-. by destruct Herr as [[_ ?]|]. }
  apply Hjoin. apply bindR_Ok in Hrun as (r & ec2 & He & Hrun).
  apply Enqueue_cases in He as [[-> ->]|(e & -> & ->)].
  - rewrite sendReply_spec in Hrun by done. injection Hrun as <-.
    eexists [_]. split; [cbn; by rewrite <-(assoc_L app)|]. by repeat constructor.
  - by eapply handleKeygenSessionError_answers.
Qed.

(** *** Signing *)

(** A signing request that does not decode or is not signed by the initiator
    changes nothing and is not answered: no result, no reply, no session. *)
Theorem handleSigningEvent_unverified (m : Msg) now (ec : consumer)
    (Hbad : (Unmarshal_Signing (Data m)).2 ≠ None ∨
            ∃ e, VerifyInitiatorMessage (ec_identityStore ec) (Unmarshal_Signing (Data m)).1
                 = Err e) :
  sign_event m now ec = (Ok tt, ec).
Proof.
  unfold handleSigningEvent, bindR, signing_check.
  destruct (Unmarshal_Signing (Data m)) as [msg [err|]]; [done|]. cbn in Hbad.
  destruct Hbad as [?|[e ->]]; done.
Qed.

Lemma signing_check_pass m (ec ec' : consumer) msg :
  sign_check m ec = (Ok (Some msg), ec') →
  ec' = ec ∧ Unmarshal_Signing (Data m) = (msg, None) ∧
  VerifyInitiatorMessage (ec_identityStore ec) msg = Ok tt ∧
  eval_HasSession (sm_WalletID msg) (sm_TxID msg) (sessionMgr ec) = false.
Proof.
  unfold signing_check. destruct (Unmarshal_Signing (Data m)) as [msg' [err|]]; [done|].
  destruct (VerifyInitiatorMessage _ _) as [[]| |] eqn:Hv; [|done..].
  destruct (eval_HasSession _ _ _) eqn:Hh; [|by intros [= <- <-]].
  unfold bindR, lift. destruct (handleSigningSessionError _ _ _ _ _ _ _) as [[] ?]; done.
Qed.

(** The exact effect of reporting a signing error, when the queue takes it. *)
Lemma handleSigningSessionError_exact w t e c m (ec : consumer) :
  Reply m ≠ "" → (∀ q t p k, enqueue q t p k = Ok tt) →
  ∃ p, handleSigningSessionError enqueue w t e c m ec = (Ok tt,
    record_event (Replied (Reply m) (Data m))
      (record_event (Enqueued SigningQueue SigningResultCompleteTopic p
         (composeSigningResultIdempotentKey t m)) ec)).
Proof.
  intros Hr Henq. unfold handleSigningSessionError, Enqueue, bindR. rewrite Henq.
  rewrite sendReply_spec by done. by eexists.
Qed.

Lemma fmt_need_Is what a b s : errors_Is (fmt_need what a b) s = false.
Proof. done. Qed.

(** The duplicate branch, when the result queue takes the result. *)
Lemma signing_check_duplicate m (ec : consumer) msg
    (Hdec : Unmarshal_Signing (Data m) = (msg, None)) :
  Reply m ≠ "" → (∀ q t p k, enqueue q t p k = Ok tt) →
  VerifyInitiatorMessage (ec_identityStore ec) msg = Ok tt →
  eval_HasSession (sm_WalletID msg) (sm_TxID msg) (sessionMgr ec) = true →
  ∃ p, sign_check m ec = (Ok None,
    record_event (Replied (Reply m) (Data m))
      (record_event (Enqueued SigningQueue SigningResultCompleteTopic p
         (composeSigningResultIdempotentKey (sm_TxID msg) m)) ec)).
Proof.
  intros Hr Henq Hv Hh. unfold signing_check. rewrite Hdec, Hv, Hh.
  destruct (handleSigningSessionError_exact (sm_WalletID msg) (sm_TxID msg)
    (duplicate_session_error (sm_WalletID msg) (sm_TxID msg)) "Duplicate session" m ec Hr Henq)
    as [p Hp]. exists p. unfold bindR. by rewrite Hp.
Qed.

(** A session that was started is in the table. *)
Lemma signing_start_Started m msg now (ec ec' : consumer) :
  sign_start m msg now ec = (Ok tt, ec') →
  Started (sm_WalletID msg) (sm_TxID msg) ∈ log ec' → 
  Started (sm_WalletID msg) (sm_TxID msg) ∉ log ec →
  ec' = record_event (Started (sm_WalletID msg) (sm_TxID msg))
          (set_sessionMgr (exec (AddSession (sm_WalletID msg) (sm_TxID msg) now)) ec) ∧
  ∀ (ec0 : consumer) now', node ec0 = node ec → ec_kv ec0 = ec_kv ec →
    sign_start m msg now' ec0 = (Ok tt,
      record_event (Started (sm_WalletID msg) (sm_TxID msg))
        (set_sessionMgr (exec (AddSession (sm_WalletID msg) (sm_TxID msg) now')) ec0)).
Proof.
  set (st := Started (sm_WalletID msg) (sm_TxID msg)).
  assert (∀ e c (e1 e2 : consumer), handleSigningSessionError enqueue (sm_WalletID msg)
    (sm_TxID msg) e c m e1 = (Ok tt, e2) → st ∈ log e2 → st ∈ log e1) as Herr.
  { intros e c e1 e2 H. apply bindR_Ok in H as (r & e3 & He & H).
    assert (log e2 = log e3 ∨ log e2 = log e3 ++ [Replied (Reply m) (Data m)]) as Hl.
    { unfold sendReplyToRemoveMsg in H.
      destruct (String.eqb _ _); injection H as <-; [by left|by right]. }
    apply Enqueue_cases in He as [[_ ->]|(? & _ & ->)];
      destruct Hl as [-> | ->]; unfold st; cbn; intros Hin;
      repeat (apply elem_of_snoc_ne in Hin; [|discriminate]); exact Hin. }
  unfold signing_start, check. intros Hrun Hin Hnin.
  destruct (if String.eqb (sm_KeyType msg) KeyTypeSecp256k1 then _ else _)
    as [s|e|w] eqn:Hs; [| |done].
  - destruct (init_signing _ _ _ ec s _) as [[]|e|w] eqn:Hi; [| |done].
    + apply bindR_Ok in Hrun as ([] & e1 & H1 & Hrun). injection H1 as <-. injection Hrun as <-.
      split; [done|]. intros ec0 now' Hn Hk. rewrite Hn, Hs. unfold init_signing in *.
      by rewrite Hn, Hk, Hi.
    + exfalso. eapply Hnin, Herr; [exact Hrun|exact Hin].
  - exfalso. destruct (errors_Is e "ErrNotEnoughParticipants"); [by injection Hrun as <-|].
    destruct (errors_Is e "ErrNotInParticipantList"); [by injection Hrun as <-|].
    eapply Hnin, Herr; [exact Hrun|exact Hin].
Qed.

(** What the run reports does not touch the sessions. *)
Lemma finishSigning_frame m msg o (ec ec' : consumer) : Reply m ≠ "" →
  finishSigning enqueue m msg o ec = (Ok tt, ec') →
  sessionMgr ec' = sessionMgr ec ∧ ec_identityStore ec' = ec_identityStore ec.
Proof.
  intros Hreply. unfold finishSigning, handleSigningSessionError. destruct o as [|e].
  - rewrite sendReply_spec by done. by intros [= <-].
  - intros (r & e3 & He & H)%bindR_Ok. rewrite sendReply_spec in H by done. injection H as <-.
    by apply Enqueue_cases in He as [[-> ->]|(? & -> & ->)].
Qed.

Lemma not_in_app (st : ec_event) l l' : st ∉ l → l' = l ++ [st] → l' ≠ l.
Proof. intros _ -> H. apply (f_equal length) in H. rewrite length_app in H. cbn in H. lia. Qed.

(** C27: a signing is started at most once when its deliveries are handled one after the
    other, and also a failed one is not started again, within the session timeout (30
    minutes, as [NewEventConsumer] sets it): once a request has been started, whatever the
    run reports, and whatever sessions are added and cleanups run until the timeout has
    passed, a later verified request for the same wallet and transaction - with its own
    inbox and session id, as every forward has - is answered with one error result and a
    reply to its inbox, and starts nothing. *)
Theorem signing_not_restarted `{MapRange} (m m' : Msg) msg msg' t0 t1 ops
    (ec ec1 ec2 ec3 : consumer) o
    (Hreply : Reply m ≠ "" ∧ Reply m' ≠ "") (Henq : ∀ q t p k, enqueue q t p k = Ok tt)
    (Hdec : Unmarshal_Signing (Data m) = (msg, None))
    (Hfresh : Started (sm_WalletID msg) (sm_TxID msg) ∉ log ec)
    (Hrun : sign_event m t0 ec = (Ok tt, ec1))
    (Hstarted : Started (sm_WalletID msg) (sm_TxID msg) ∈ log ec1)
    (Hfinish : finishSigning enqueue m msg o ec1 = (Ok tt, ec2))
    (Hlater : sessionMgr ec3 = exec (forM ops run_op) (sessionMgr ec2) ∧
              ec_identityStore ec3 = ec_identityStore ec2)
    (Htimeout : 0 ≤ sessionTimeout (sessionMgr ec))
    (Htimes : Forall (λ op, t0 ≤ op_time op ≤ t0 + sessionTimeout (sessionMgr ec)) ops)
    (Hdec' : Unmarshal_Signing (Data m') = (msg', None))
    (Hsame : sm_WalletID msg' = sm_WalletID msg ∧ sm_TxID msg' = sm_TxID msg)
    (Hverified : VerifyInitiatorMessage (ec_identityStore ec) msg' = Ok tt) :
  ∃ p, sign_event m' t1 ec3 = (Ok tt,
    record_event (Replied (Reply m') (Data m'))
      (record_event (Enqueued SigningQueue SigningResultCompleteTopic p
         (composeSigningResultIdempotentKey (sm_TxID msg) m')) ec3)).
Proof.
  destruct Hreply as [Hreply Hreply'], Hlater as [Hmgr3 Hids3], Hsame as [Hw Ht].
  unfold handleSigningEvent in Hrun. apply bindR_Ok in Hrun as (om & e0 & Hchk & Hrun).
  assert (∃ msg', om = Some msg') as [msg0 ->].
  { destruct om as [msg0|]; [by eexists|]. injection Hrun as <-. exfalso. apply Hfresh.
    unfold signing_check in Hchk. rewrite Hdec in Hchk.
    destruct (VerifyInitiatorMessage _ _) as [[]|e|]; [|by injection Hchk as <-|done].
    destruct (eval_HasSession _ _ _) eqn:Hh; [|done].
    unfold handleSigningSessionError, Enqueue, bindR in Hchk. rewrite Henq in Hchk.
    rewrite sendReply_spec in Hchk by done. injection Hchk as <-. cbn in Hstarted.
    do 2 (apply elem_of_snoc_ne in Hstarted; [|discriminate]). exact Hstarted. }
  destruct (signing_check_pass _ _ _ _ Hchk) as (-> & Hdec0 & _ & _).
  rewrite Hdec in Hdec0. injection Hdec0 as <-.
  destruct (signing_start_Started m msg t0 ec ec1 Hrun Hstarted Hfresh) as [-> _].
  apply finishSigning_frame in Hfinish as [Hmgr Hids]; [|done].
  destruct (signing_check_duplicate m' ec3 msg' Hdec' Hreply' Henq) as [p Hp].
  - by rewrite Hids3, Hids.
  - rewrite Hmgr3, Hmgr, Hw, Ht. cbn. apply recent_entry_ops; [|done]. unfold MinInt64. lia.
  - exists p. unfold handleSigningEvent, bindR. rewrite Hp. by rewrite Ht.
Qed.

(** Two deliveries handled at the same time can both start: the table is
    checked when a handler begins and filled after the session is initialised, so
    when the second handler checks before the first has filled it, the same
    transaction is started twice. *)
Theorem signing_started_twice (m : Msg) msg t0 t1 (ec e0 ec1 : consumer)
    (Hfresh : Started (sm_WalletID msg) (sm_TxID msg) ∉ log ec)
    (Hcheck : sign_check m ec = (Ok (Some msg), e0))
    (Hstart : sign_start m msg t0 e0 = (Ok tt, ec1))
    (Hstarted : Started (sm_WalletID msg) (sm_TxID msg) ∈ log ec1) :
  let st := Started (sm_WalletID msg) (sm_TxID msg) in
  sign_check m e0 = (Ok (Some msg), e0) ∧
  ∃ ec2, sign_start m msg t1 ec1 = (Ok tt, ec2) ∧ log ec2 = log ec ++ [st; st].
Proof.
  intros st. destruct (signing_check_pass _ _ _ _ Hcheck) as (-> & _). split; [done|].
  destruct (signing_start_Started m msg t0 ec ec1 Hstart Hstarted Hfresh) as [-> Hagain].
  eexists. split; [by apply Hagain|]. cbn. by rewrite <-(assoc_L app).
Qed.

(** A short committee is answered, not retried: when fewer members of the
    wallet's committee are ready than its threshold needs, the handler publishes
    an error result and replies, which removes the request; the branch that would
    leave it for a redelivery is not taken. *)
Theorem signing_short_committee_answered (m : Msg) msg now (ec : consumer) st info
    (Hreply : Reply m ≠ "") (Henq : ∀ q t p k, enqueue q t p k = Ok tt)
    (Hst : sessionTypeFromKeyType (sm_KeyType msg) = Ok st)
    (Hinfo : getKeyInfo Unmarshal_KeyInfo (node ec) st (sm_WalletID msg) = Ok info)
    (Hshort : Z.of_nat (length (getReadyPeersForSession info
                (pr_GetReadyPeersIncludeSelf (peerRegistry (node ec))))) <
              wrap64 (ki_Threshold info + 1)) :
  ∃ p, sign_start m msg now ec = (Ok tt,
    record_event (Replied (Reply m) (Data m))
      (record_event (Enqueued SigningQueue SigningResultCompleteTopic p
         (composeSigningResultIdempotentKey (sm_TxID msg) m)) ec)).
Proof.
  assert (∀ u k, CreateSigningSession Unmarshal_KeyInfo ParseECDSA ParseEDDSA (node ec) u st
    (sm_WalletID msg) (sm_TxID msg) k =
    Err (fmt_need "signing" (wrap64 (ki_Threshold info + 1))
      (Z.of_nat (length (getReadyPeersForSession info
         (pr_GetReadyPeersIncludeSelf (peerRegistry (node ec)))))))) as Hcreate.
  { intros u k. unfold CreateSigningSession.
    assert (∃ v, getVersion Unmarshal_KeyInfo (node ec) st (sm_WalletID msg) = Ok v) as [v ->].
    { unfold getKeyInfo, getVersion in *.
      destruct (String.eqb st SessionTypeECDSA); cbn in *; [rewrite Hinfo; by eexists|].
      destruct (String.eqb st SessionTypeEDDSA); cbn in *; [rewrite Hinfo; by eexists|done]. }
    rewrite Hinfo. cbn. by rewrite (proj2 (Z.ltb_lt _ _)). }
  unfold signing_start, check.
  assert ((if String.eqb (sm_KeyType msg) KeyTypeSecp256k1 then
             CreateSigningSession Unmarshal_KeyInfo ParseECDSA ParseEDDSA (node ec) uuid
               SessionTypeECDSA (sm_WalletID msg) (sm_TxID msg)
               (composeSigningResultIdempotentKey (sm_TxID msg) m)
           else if String.eqb (sm_KeyType msg) KeyTypeEd25519 then
             CreateSigningSession Unmarshal_KeyInfo ParseECDSA ParseEDDSA (node ec) uuid
               SessionTypeEDDSA (sm_WalletID msg) (sm_TxID msg)
               (composeSigningResultIdempotentKey (sm_TxID msg) m)
           else Err (errors_New ("unsupported key type: " +:+ sm_KeyType msg))) =
          CreateSigningSession Unmarshal_KeyInfo ParseECDSA ParseEDDSA (node ec) uuid st
               (sm_WalletID msg) (sm_TxID msg)
               (composeSigningResultIdempotentKey (sm_TxID msg) m)) as ->.
  { unfold sessionTypeFromKeyType in Hst.
    destruct (String.eqb (sm_KeyType msg) KeyTypeSecp256k1); [by injection Hst as <-|].
    by destruct (String.eqb (sm_KeyType msg) KeyTypeEd25519); [injection Hst as <-|]. }
  rewrite Hcreate, !fmt_need_Is. by apply handleSigningSessionError_exact.
Qed.

(** *** Resharing *)

Lemma handleResharingSessionError_exact w kt th e c m (ec : consumer) :
  Reply m ≠ "" → (∀ q t p k, enqueue q t p k = Ok tt) →
  ∃ p, handleResharingSessionError enqueue w kt th e c m ec = (Ok tt,
    record_event (Replied (Reply m) (Data m))
      (record_event (Enqueued ResharingQueue (TypeResharingWalletResultFmt w) p
         (composeResharingResultIdempotentKey w m)) ec)).
Proof.
  intros Hr Henq. unfold handleResharingSessionError, Enqueue, bindR. rewrite Henq.
  rewrite sendReply_spec by done. by eexists.
Qed.

(** A resharing that failed is also reported as a success: on a node of the
    new committee, after the error of a session has been published under the
    wallet's topic, the handler still publishes a result without error code under
    the session's topic - without a public key when it is the new session that
    failed. *)
Theorem resharing_error_then_success (msg : ResharingMessage) (m : Msg) isNew e pub (ec : consumer)
    (Hreply : Reply m ≠ "") (Henq : ∀ q t p k, enqueue q t p k = Ok tt) :
  ∃ p1 ec', finishResharing enqueue msg m true (mkResharingRun [(isNew, e)] pub) ec = (Ok tt, ec') ∧
    log ec' = log ec ++
      [Enqueued ResharingQueue (TypeResharingWalletResultFmt (rm_WalletID msg)) p1
         (composeResharingResultIdempotentKey (rm_WalletID msg) m);
       Replied (Reply m) (Data m);
       Enqueued ResharingQueue (TypeResharingWalletResultFmt (rm_SessionID msg))
         (encode (ResharingResponse_json (mkResharingResponse (rm_WalletID msg)
            (rm_NewThreshold msg) (rm_KeyType msg) (if isNew then None else pub) NoErrorCode "")))
         (composeResharingResultIdempotentKey (rm_SessionID msg) m);
       Replied (Reply m) (Data m)].
Proof.
  destruct (handleResharingSessionError_exact (rm_WalletID msg) (rm_KeyType msg)
    (rm_NewThreshold msg) e
    (if isNew then "New reshare session error" else "Old reshare session error") m ec Hreply Henq)
    as [p1 Hp]. unfold finishResharing. cbn [forR rs_errors rs_PubKey].
  unfold bindR, lift. rewrite Hp. unfold Enqueue. rewrite Henq. cbv beta iota.
  rewrite sendReply_spec by done. eexists p1, _. split; [reflexivity|].
  destruct isNew; cbn; by rewrite <-!(assoc_L app).
Qed.

End handlers.

(** *** Witnesses *)

(** Three messages, one handler at a time. *)
Lemma worker_invariant_witness :
  let w := mkWorker (A := Z) false [3] (Some 2) [1] [1] [] in
  let h := [Sent 1; Taken 1; Spawned 1; Sent 2; Taken 2; Sent 3] in
  runs (worker_act 2 1) new_worker h w ∧
  sent h = spawned h ++ [2] ++ [3] ∧ (length (running w) ≤ 1)%nat.
Proof.
  cbv zeta.
  assert (runs (worker_act 2 1) new_worker [Sent 1; Taken 1; Spawned 1; Sent 2; Taken 2; Sent 3]
    (mkWorker (A := Z) false [3] (Some 2) [1] [1] [])) as H.
  { eapply runs_cons; [apply (act_send 2 1 _ 1); [cbn; lia|reflexivity]|].
    eapply runs_cons; [apply (act_take 2 1 _ 1 []); reflexivity|].
    eapply runs_cons; [apply (act_spawn 2 1 _ 1); [reflexivity|cbn; lia]|].
    eapply runs_cons; [apply (act_send 2 1 _ 2); [cbn; lia|reflexivity]|].
    eapply runs_cons; [apply (act_take 2 1 _ 2 []); reflexivity|].
    eapply runs_cons; [apply (act_send 2 1 _ 3); [cbn; lia|reflexivity]|]. apply runs_nil. }
  split; [exact H|]. destruct (worker_invariant 2 1 _ _ H) as (Hr & _ & Hs & _).
  split; [exact Hs|exact Hr].
Defined.

Lemma worker_progress_witness :
  ∃ w', rtc (worker_step 2 1) (mkWorker (A := Z) false [3] (Some 2) [1] [1] []) w' ∧
    3 ∈ started w'.
Proof.
  apply (worker_progress 2 1); [lia|]. cbn. rewrite !elem_of_cons. tauto.
Defined.

#[local] Existing Instance toy_crypto.
#[local] Existing Instance tss_ref.
#[local] Existing Instance lo_ref.
#[local] Existing Instance kv_ref.
#[local] Existing Instance consul_ref.
#[local] Existing Instance toy_view_registry.

Definition toy_initiator : string := pad_to 32 "initiator".

(** A signing request signed by the toy initiator. *)
Definition toy_sm : SigningMessage :=
  let unsigned := mkSigningMessage KeyTypeSecp256k1 "w" "t1" (Some "tx") None in
  mkSigningMessage KeyTypeSecp256k1 "w" "t1" (Some "tx")
    (Some (toy_initiator +:+ encode (SigningMessage_payload unsigned))).

Definition toy_nats : Msg := mkMsg "request" "inbox" "sid".

Definition toy_consumer (ready : list string) : eventConsumer (R := toy_view) :=
  mkEventConsumer 1 (toy_node_A ready)
    (mkFileStore "identity" "node0" ∅ toy_key64
       (mkInitiatorKey EventInitiatorKeyTypeEd25519 toy_initiator None) ∅)
    ({["ecdsa:w_v1" := "share"; "ecdsa:w" := "share"]} : gmap string string)
    (NewManager 1 1) 2 20 5 200 [].

Definition toy_decode_signing (s : string) : SigningMessage * option error := (toy_sm, None).
Definition toy_enqueue : result_queue → string → string → string → Res unit :=
  λ _ _ _ _, Ok tt.

Lemma Close_races_with_delivery_witness :
  let w := mkWorker false [] None [] [] [] in
  let lc := mkLifecycle (λ _, w) (λ _, None) (NewManager 1 1) in
  ∃ lc2, deliver SigningQueue toy_nats lc2 = Panic "send on closed channel" ∧
    subs lc2 SigningQueue = Some true.
Proof.
  cbv zeta. eexists. split.
  - refine (proj2 (Close_races_with_delivery (λ _, Ok tt) (λ _, Ok tt)
      (mkLifecycle (λ _, mkWorker false [] None [] [] []) (λ _, None) (NewManager 1 1))
      _ _ SigningQueue toy_nats _ _ _)); [|cbn; reflexivity|cbn; reflexivity].
    intros q. reflexivity.
  - reflexivity.
Defined.

Lemma handleKeyGenEvent_answers_witness :
  let run := mkKeygenRun [(true, errors_New "boom")] false None None in
  let ev := handleKeyGenEvent (λ _, (mkKeygenMessage "w2" (Some (toy_initiator +:+ "w2")), None))
              toy_Unmarshal_KeyInfo toy_enqueue toy_ParseECDSA toy_ParseEDDSA (λ _, "uuid")
              toy_nats run (toy_consumer ["A"; "B"]) in
  ev.1 = Ok tt ∧ length (log ev.2) = 2%nat ∧
  answers (keygen_ev "w2" toy_nats) toy_nats (toy_consumer ["A"; "B"]) ev.2.
Proof.
  cbv zeta. split; [vm_compute; reflexivity|]. split; [vm_compute; reflexivity|].
  refine (handleKeyGenEvent_answers
    (λ _, (mkKeygenMessage "w2" (Some (toy_initiator +:+ "w2")), None))
    toy_Unmarshal_KeyInfo toy_enqueue toy_ParseECDSA toy_ParseEDDSA (λ _, "uuid") toy_nats
    (mkKeygenRun [(true, errors_New "boom")] false None None) (toy_consumer ["A"; "B"]) _ _ _);
    [discriminate|apply run_of_eval; vm_compute; reflexivity].
Defined.

Notation toy_sign_event := (handleSigningEvent toy_decode_signing toy_Unmarshal_KeyInfo toy_enqueue
  toy_curve toy_curve toy_ParseECDSA toy_ParseEDDSA (λ _, "uuid")).
Notation toy_sign_start := (signing_start toy_Unmarshal_KeyInfo toy_enqueue
  toy_curve toy_curve toy_ParseECDSA toy_ParseEDDSA (λ _, "uuid")).

Lemma handleSigningEvent_unverified_witness :
  let dec := λ _, (mkSigningMessage KeyTypeSecp256k1 "w" "t1" (Some "tx") (Some "forged"), None) in
  handleSigningEvent dec toy_Unmarshal_KeyInfo toy_enqueue toy_curve toy_curve toy_ParseECDSA
    toy_ParseEDDSA (λ _, "uuid") toy_nats 0 (toy_consumer ["A"; "B"]) =
  (Ok tt, toy_consumer ["A"; "B"]).
Proof.
  cbv zeta. apply handleSigningEvent_unverified. right. eexists. vm_compute. reflexivity.
Defined.

(** The second delivery, with its own inbox, after a cleanup. *)
Definition toy_nats2 : Msg := mkMsg "request" "inbox2" "sid2".

Lemma toy_cleaned (ec : eventConsumer (R := toy_view)) :
  let ec' := set_sessionMgr (exec (cleanupStaleSessions (H := map_to_list_range) 1)) ec in
  sessionMgr ec' = exec (forM [OpCleanup 1] (run_op (H := map_to_list_range))) (sessionMgr ec) ∧
  ec_identityStore ec' = ec_identityStore ec.
Proof. split; [|reflexivity]. by rewrite exec_forM_cons. Qed.

Lemma signing_not_restarted_witness :
  let ec1 := (toy_sign_event toy_nats 0 (toy_consumer ["A"; "B"; "C"])).2 in
  let ec2 := (finishSigning toy_enqueue toy_nats toy_sm (SignError (errors_New "boom")) ec1).2 in
  let ec3 := set_sessionMgr (exec (cleanupStaleSessions (H := map_to_list_range) 1)) ec2 in
  log ec1 = [Started "w" "t1"] ∧
  ∃ p, toy_sign_event toy_nats2 1 ec3 = (Ok tt, record_event (Replied "inbox2" "request")
    (record_event (Enqueued SigningQueue SigningResultCompleteTopic p
      "mpc.mpc_signing_result.t1:sid2") ec3)).
Proof.
  cbv zeta. split; [vm_compute; reflexivity|].
  refine (signing_not_restarted (H := map_to_list_range) toy_decode_signing toy_Unmarshal_KeyInfo
    toy_enqueue toy_curve toy_curve toy_ParseECDSA toy_ParseEDDSA (λ _, "uuid") toy_nats toy_nats2
    toy_sm toy_sm 0 1 [OpCleanup 1]
    (toy_consumer ["A"; "B"; "C"]) (toy_sign_event toy_nats 0 (toy_consumer ["A"; "B"; "C"])).2
    (finishSigning toy_enqueue toy_nats toy_sm (SignError (errors_New "boom"))
       (toy_sign_event toy_nats 0 (toy_consumer ["A"; "B"; "C"])).2).2 _
    (SignError (errors_New "boom")) _ _ _ _ _ _ _ _ _ _ _ _ _).
  - split; discriminate.
  - reflexivity.
  - reflexivity.
  - apply not_elem_of_nil.
  - apply run_of_eval. vm_compute. reflexivity.
  - apply (bool_decide_unpack _). vm_compute. reflexivity.
  - apply run_of_eval. vm_compute. reflexivity.
  - apply toy_cleaned.
  - vm_compute. discriminate.
  - repeat constructor; vm_compute; discriminate.
  - reflexivity.
  - split; reflexivity.
  - vm_compute. reflexivity.
Defined.

Lemma signing_started_twice_witness :
  let ec1 := (toy_sign_start toy_nats toy_sm 0 (toy_consumer ["A"; "B"; "C"])).2 in
  ∃ ec2, toy_sign_start toy_nats toy_sm 1 ec1 = (Ok tt, ec2) ∧
    log ec2 = [Started "w" "t1"; Started "w" "t1"].
Proof.
  cbv zeta.
  refine (proj2 (signing_started_twice toy_decode_signing toy_Unmarshal_KeyInfo toy_enqueue
    toy_curve toy_curve toy_ParseECDSA toy_ParseEDDSA (λ _, "uuid") toy_nats toy_sm 0 1
    (toy_consumer ["A"; "B"; "C"]) (toy_consumer ["A"; "B"; "C"])
    (toy_sign_start toy_nats toy_sm 0 (toy_consumer ["A"; "B"; "C"])).2 _ _ _ _)).
  - apply not_elem_of_nil.
  - vm_compute. reflexivity.
  - apply run_of_eval. vm_compute. reflexivity.
  - apply (bool_decide_unpack _). vm_compute. reflexivity.
Defined.

Lemma signing_short_committee_answered_witness :
  ∃ ec', toy_sign_start toy_nats toy_sm 0 (toy_consumer ["A"]) = (Ok tt, ec').
Proof.
  destruct (signing_short_committee_answered toy_Unmarshal_KeyInfo toy_enqueue toy_curve toy_curve
    toy_ParseECDSA toy_ParseEDDSA (λ _, "uuid") toy_nats toy_sm 0 (toy_consumer ["A"])
    SessionTypeECDSA toy_info) as [p Hp].
  - discriminate.
  - reflexivity.
  - reflexivity.
  - vm_compute. reflexivity.
  - vm_compute. reflexivity.
  - eexists. exact Hp.
Defined.

Lemma resharing_error_then_success_witness :
  ∃ ec', finishResharing toy_enqueue
    (mkResharingMessage "s" (Some ["A"]) 0 KeyTypeSecp256k1 "w" None) toy_nats true
    (mkResharingRun [(true, errors_New "boom")] None) (toy_consumer ["A"]) = (Ok tt, ec').
Proof.
  destruct (resharing_error_then_success toy_enqueue
    (mkResharingMessage "s" (Some ["A"]) 0 KeyTypeSecp256k1 "w" None) toy_nats true
    (errors_New "boom") None (toy_consumer ["A"])) as (p & ec' & H & _).
  - discriminate.
  - reflexivity.
  - exists ec'. exact H.
Defined.
