(* ===== verification/Messaging.v ===== *)
(** * pkg/messaging: topics, direct messages, work queues

    The three ways a node talks over NATS: [pubsub.go] (broadcasts),
    [p2p.go] (direct messages, to itself without the network) and the JetStream
    streams ([jetstream_broker.go] for the requests, [message_queue.go] for the
    results).  The NATS client is environment: what it answers is an argument,
    what the code hands to it is the state or the result. *)

From stdpp Require Import base gmap list strings.
From Stdlib Require Import ZArith Lia Ascii.
From S2P Require Import Prelude.
From S2P Require Import GoStrings.

(** ** pubsub.go *)

Record nats_msg := mkNatsMsg {
  Subject : string;
  nm_Reply : string;
  nm_Data : string;
  Header : gmap string string;
}.

(** [conn] is the answer of the connection to the message. *)
Definition Publish (conn : nats_msg → Res unit) (topic message : string) : Res unit :=
  conn (mkNatsMsg topic "" message ∅).

Definition PublishWithReply (conn : nats_msg → Res unit) (topic reply data : string)
    (headers : gmap string string) : Res unit :=
  conn (mkNatsMsg topic reply data headers).

(** The callback only calls the handler; the subscription is the connection's. *)
Definition Subscribe {H} (subscribe : string → H → Res unit) (topic : string) (handler : H) :
    Res (string * H) :=
  _ ← subscribe topic handler; Ok (topic, handler).

(** ** p2p.go *)

Section direct.
Context {H : Type}.                       (* handlers *)

Record natsDirectMessaging := mkDirect {
  handlers : gmap string (list H);
  natsSubs : list (string * H);           (* what the connection is subscribed to *)
  invoked : list (H * string);            (* handler calls, in order *)
}.

Definition set_handlers f (d : natsDirectMessaging) : natsDirectMessaging :=
  mkDirect (f (handlers d)) (natsSubs d) (invoked d).
Definition set_natsSubs f (d : natsDirectMessaging) : natsDirectMessaging :=
  mkDirect (handlers d) (f (natsSubs d)) (invoked d).
Definition invoke (message : string) (h : H) (d : natsDirectMessaging) : natsDirectMessaging :=
  mkDirect (handlers d) (natsSubs d) (invoked d ++ [(h, message)]).

Definition NewNatsDirectMessaging : natsDirectMessaging := mkDirect ∅ [] [].

Definition SendToSelf (topic message : string) : M natsDirectMessaging (Res unit) := λ d,
  match handlers d !! topic with
  | None | Some [] => (Err (errors_New ("no handlers found for topic " +:+ topic)), d)
  | Some hs => (Ok tt, fold_left (λ d h, invoke message h d) hs d)
  end.

(** The flush's error is shadowed by the result of [Unsubscribe], which is what
    the text is made of ([%w] of a nil error prints "%!w(<nil>)"). *)
Definition Listen (subscribe flush unsubscribe : Res unit) (topic : string) (handler : H) :
    M natsDirectMessaging (Res unit) := λ d,
  match subscribe with
  | Err e => (Err e, d)
  | Panic w => (Panic w, d)
  | Ok _ =>
      match flush with
      | Ok _ =>
          (Ok tt, set_handlers (insert topic (default [] (handlers d !! topic) ++ [handler]))
                    (set_natsSubs (cons (topic, handler)) d))
      | Panic w => (Panic w, d)
      | Err _ =>
          match unsubscribe with
          | Ok _ => (Err (errors_New "flush after subscribe failed: %!w(<nil>)"), d)
          | Err e => (Err (Errorf_w "flush after subscribe failed: " e),
                      set_natsSubs (cons (topic, handler)) d)
          | Panic w => (Panic w, d)
          end
      end
  end.

(** [natsSubscription.Unsubscribe]: only the connection's side. *)
Definition Unsubscribe `{EqDecision H} (answer : Res unit) (topic : string) (handler : H) :
    M natsDirectMessaging (Res unit) := λ d,
  match answer with
  | Ok _ => (Ok tt, set_natsSubs (List.filter (λ p, negb (bool_decide (p = (topic, handler))))) d)
  | r => (r, d)
  end.

End direct.
#[global] Arguments natsDirectMessaging : clear implicits.

(** [retry.Do] with a number of attempts: third-party. *)
Class Retry := {
  retry_Do : nat → (nat → Res unit) → Res unit;
}.

(** It tries until the first success, at most so often. *)
Class RetrySpec (R : Retry) := {
  retry_Do_ok n f : retry_Do n f = Ok tt ↔ ∃ i, (i < n)%nat ∧ f i = Ok tt ∧
    ∀ j, (j < i)%nat → ∃ e, f j = Err e;
}.

Definition SendToOther `{R : Retry} (request : nat → Res unit) : Res unit := retry_Do 3 request.

Record RetryConfig := mkRetryConfig {
  RetryAttempt : Z;
  ExponentialBackoff : bool;
  Delay : Z;
  OnRetry : bool;                     (* not nil *)
}.

(** The options that are passed on; the first is for the jitter. *)
Inductive retry_option := MaxJitter (d : Z) | Attempts (n : Z) | BackOffDelay | RetryDelay (d : Z)
  | RetryNotify.

Definition retry_options (config : RetryConfig) : list retry_option :=
  [MaxJitter (80 * 10 ^ 6)] ++
  (if 0 <? RetryAttempt config then [Attempts (RetryAttempt config)] else []) ++
  (if ExponentialBackoff config then [BackOffDelay] else []) ++
  (if 0 <? Delay config then [RetryDelay (Delay config)] else []) ++
  (if OnRetry config then [RetryNotify] else []).

(** [retry_Do_with] is [retry.Do], which knows what options that are not given are. *)
Definition SendToOtherWithRetry
    (retry_Do_with : list retry_option → (nat → Res unit) → Res unit)
    (request : nat → Res unit) (config : RetryConfig) : Res unit :=
  retry_Do_with (retry_options config) request.

(** ** message_queue.go *)

Definition ErrPermanent : error := Sentinel "ErrPermanent" "permanent messaging error".

Inductive settlement := Acked | Naked | Termed.

#[export] Instance settlement_eq_dec : EqDecision settlement.
Proof. solve_decision. Defined.

(** The stream's answer to a publication. *)
Definition Enqueue (publish : nats_msg → Res unit) (topic message : string)
    (options : option string) : Res unit :=
  let header : gmap string string :=
    match options with Some key => {["Nats-Msg-Id" := key]} | None => ∅ end in
  wrap_err "error enqueueing message: " (publish (mkNatsMsg topic "" message header)).

(** The callback of [Dequeue]: how it settles a message; its error is logged. *)
Definition onDequeue (handler : string → Res unit) (data : string) : Res settlement :=
  match handler data with
  | Panic w => Panic w
  | Err err => if errors_Is err "ErrPermanent" then Ok Termed else Ok Naked
  | Ok _ => Ok Acked
  end.

Definition consumerWildCard (queueName consumerName : string) : string :=
  queueName +:+ "." +:+ consumerName +:+ ".*".

(** ** jetstream_broker.go *)

Definition ErrConnectionClosed : error := Sentinel "ErrConnectionClosed" "connection is closed".
Definition ErrStreamCreation : error := Sentinel "ErrStreamCreation" "failed to create stream".
Definition ErrConsumerCreation : error :=
  Sentinel "ErrConsumerCreation" "failed to create consumer".

Inductive RetentionPolicy := LimitsPolicy | InterestPolicy | WorkQueuePolicy.
Inductive StorageType := FileStorage | MemoryStorage.
Inductive DiscardPolicy := DiscardOld | DiscardNew.
Inductive DeliverPolicy := DeliverAllPolicy | OtherDeliverPolicy (n : Z).

Record brokerConfiguration := mkBroker {
  streamName : string;
  subjects : list string;
  description : string;
  retention : RetentionPolicy;
  storage : StorageType;
  maxAge : Z;                       (* durations in nanoseconds *)
  discard : DiscardPolicy;
  ackWait : Z;
  maxDeliveryAttempts : Z;
  consumerNamePrefix : string;
  deliverPolicy : DeliverPolicy;
  backoffDurations : list Z;
}.

Definition second : Z := 10 ^ 9.
Definition DefaultAckWait : Z := 30 * second.
Definition DefaultMaxDeliveryAttempts : Z := 3.
Definition DefaultConsumerPrefix : string := "consumer".
Definition DefaultStreamMaxAge : Z := 3 * 60 * second.
Definition DefaultBackoffDuration : Z := 30 * second.

Definition default_config (name : string) (subj : list string) : brokerConfiguration :=
  mkBroker name subj ("Stream for " +:+ name) InterestPolicy FileStorage DefaultStreamMaxAge
    DiscardOld DefaultAckWait DefaultMaxDeliveryAttempts DefaultConsumerPrefix DeliverAllPolicy
    [DefaultBackoffDuration; DefaultBackoffDuration; DefaultBackoffDuration].

(** The [BrokerOption]s. *)
Inductive BrokerOption :=
| WithStreamDescription (d : string)
| WithRetentionPolicy (p : RetentionPolicy)
| WithStorageType (s : StorageType)
| WithMaxAge (d : Z)
| WithDiscardPolicy (p : DiscardPolicy)
| WithAckWait (d : Z)
| WithMaxDeliveryAttempts (n : Z)
| WithConsumerNamePrefix (p : string)
| WithDeliverPolicy (p : DeliverPolicy)
| WithBackoffDurations (d : list Z).

Definition apply_option (c : brokerConfiguration) (o : BrokerOption) : brokerConfiguration :=
  let '(mkBroker n sj d r s a di aw m p dp b) := c in
  match o with
  | WithStreamDescription d => mkBroker n sj d r s a di aw m p dp b
  | WithRetentionPolicy r => mkBroker n sj d r s a di aw m p dp b
  | WithStorageType s => mkBroker n sj d r s a di aw m p dp b
  | WithMaxAge a => mkBroker n sj d r s a di aw m p dp b
  | WithDiscardPolicy di => mkBroker n sj d r s a di aw m p dp b
  | WithAckWait aw => mkBroker n sj d r s a di aw m p dp b
  | WithMaxDeliveryAttempts m => mkBroker n sj d r s a di aw m p dp b
  | WithConsumerNamePrefix p => mkBroker n sj d r s a di aw m p dp b
  | WithDeliverPolicy dp => mkBroker n sj d r s a di aw m p dp b
  | WithBackoffDurations b => mkBroker n sj d r s a di aw m p dp b
  end.

(** jetstream.StreamConfig, as far as it is set; the zero values are the rest. *)
Record StreamConfig := mkStreamConfig {
  st_Name : string;
  st_Description : string;
  st_Subjects : list string;
  st_Retention : RetentionPolicy;
  st_Storage : StorageType;
  st_Discard : DiscardPolicy;
  st_MaxAge : Z;
}.

Definition streamConfig (c : brokerConfiguration) : StreamConfig :=
  mkStreamConfig (streamName c) (description c) (subjects c) LimitsPolicy FileStorage DiscardOld
    (maxAge c).

Definition ensureStreamExists (create : StreamConfig → Res unit) (c : brokerConfiguration) :
    Res unit :=
  match create (streamConfig c) with
  | Err e => Err (mkError (Error ErrStreamCreation +:+ " for stream '" +:+ streamName c +:+ "': "
                           +:+ Error e) (chain ErrStreamCreation))
  | r => r
  end.

(** [context] is the answer of [jetstream.New]. *)
Definition NewJetStreamBroker (context : Res unit) (create : StreamConfig → Res unit)
    (name : string) (subj : list string) (opts : list BrokerOption) : Res brokerConfiguration :=
  let config := fold_left apply_option opts (default_config name subj) in
  _ ← wrap_err "failed to create JetStream context: " context;
  _ ← wrap_err "failed to ensure stream exists: " (ensureStreamExists create config);
  Ok config.

Definition PublishMessage (closed : bool) (publish : string → string → Res unit)
    (subject data : string) : Res unit :=
  if closed then Err ErrConnectionClosed
  else wrap_err ("failed to publish message to subject " +:+ subject +:+ ": ")
         (publish subject data).

(** [unicode.IsLetter] of a byte as a code point: ASCII and Latin-1 letters. *)
Definition IsLetter (c : ascii) : bool :=
  let n := byte_of c in
  ((65 <=? n) && (n <=? 90)) || ((97 <=? n) && (n <=? 122)) ||
  (n =? 170) || (n =? 181) || (n =? 186) ||
  ((192 <=? n) && (n <=? 214)) || ((216 <=? n) && (n <=? 246)) || ((248 <=? n) && (n <=? 255)).

Definition underscore : ascii := chr 95.

Definition sanitizeConsumerName (name : string) : string :=
  let name := ReplaceAll name "." "_" in
  let name := ReplaceAll name ":" "_" in
  let name := ReplaceAll name " " "_" in
  let name := ReplaceAll name "-" "_" in
  let name := ReplaceAll name ">" "all" in
  let name := ReplaceAll name "*" "any" in
  match name with
  | EmptyString => name
  | String c _ =>
      if negb (IsLetter c) && negb (Ascii.eqb c underscore) then "_" +:+ name else name
  end.

Record ConsumerConfig := mkConsumerConfig {
  cc_Name : string;
  cc_Durable : string;
  cc_MaxDeliver : Z;
  cc_BackOff : list Z;
  cc_DeliverPolicy : DeliverPolicy;
  cc_FilterSubject : string;
  cc_AckWait : Z;
}.

Definition consumerConfig (c : brokerConfiguration) (consumerName subject : string) :
    ConsumerConfig :=
  let n := sanitizeConsumerName consumerName in
  mkConsumerConfig n n (wrap64 (maxDeliveryAttempts c + 1)) (backoffDurations c)
    (deliverPolicy c) subject (ackWait c).

(** [create] answers [CreateOrUpdateConsumer], [consume] the start of the loop. *)
Definition CreateSubscription (closed : bool) (create : ConsumerConfig → Res unit)
    (consume : Res unit) (c : brokerConfiguration) (consumerName subject : string) :
    Res ConsumerConfig :=
  let n := sanitizeConsumerName consumerName in
  if closed then Err ErrConnectionClosed
  else
    let cfg := consumerConfig c consumerName subject in
    match create cfg with
    | Panic w => Panic w
    | Err e => Err (mkError (Error ErrConsumerCreation +:+ " for consumer '" +:+ n +:+
                 "' on stream '" +:+ streamName c +:+ "': " +:+ Error e)
                 (chain ErrConsumerCreation))
    | Ok _ =>
        _ ← wrap_err ("failed to start consuming messages for consumer '" +:+ n +:+
              "' on stream '" +:+ streamName c +:+ "': ") consume;
        Ok cfg
    end.

(** [fetch] answers [Fetch] of so many messages with the messages of the batch, each
    of which the handler gets, in order. *)
Definition FetchMessages {A S} (closed : bool) (create : ConsumerConfig → Res unit)
    (fetch : Z → Z → Res (list A)) (handler : A → M S (Res unit)) (c : brokerConfiguration)
    (consumerName subject : string) (batchSize : Z) : M S (Res unit) :=
  let n := sanitizeConsumerName consumerName in
  if closed then lift (Err ErrConnectionClosed)
  else
    match create (consumerConfig c consumerName subject) with
    | Panic w => lift (Panic w)
    | Err e => lift (Err (mkError (Error ErrConsumerCreation +:+ " for consumer '" +:+ n +:+
                 "' on stream '" +:+ streamName c +:+ "': " +:+ Error e)
                 (chain ErrConsumerCreation)))
    | Ok _ =>
        msgs ←! lift (wrap_err ("failed to fetch messages for consumer '" +:+ n +:+ "': ")
                        (fetch batchSize (ackWait c)));
        forR msgs handler
    end.

(** [stream] answers [js.Stream] for the stream of this name. *)
Definition GetStreamInfo {A} (stream : string → Res (Res A)) (c : brokerConfiguration) : Res A :=
  info ← wrap_err ("failed to get stream '" +:+ streamName c +:+ "': ") (stream (streamName c));
  info.

(** The connection: nil, or whether it is closed. *)
Definition jetStreamBroker_Close (conn : option bool) : option bool :=
  match conn with Some false => Some true | c => c end.

(** A consume context, with how often it was stopped. *)
Definition jetStreamSubscription_Unsubscribe (consumeContext : option nat) : Res unit * option nat :=
  (Ok tt, S <$> consumeContext).

(** *** The result queues of message_queue.go *)

Record queueConfig := mkQueueConfig {
  qc_Stream : string;
  qc_Subjects : list string;
  qc_MaxBytes : Z;
  qc_Retention : RetentionPolicy;
  qc_Storage : StorageType;
}.

(** Errors end the process ([logger.Fatal]). *)
Definition NewNATsMessageQueueManager (context : Res unit) (create : queueConfig → Res unit)
    (queueName : string) (subjects : list string) : Res queueConfig :=
  match context with
  | Ok _ =>
      let cfg := mkQueueConfig queueName subjects 10485760 WorkQueuePolicy FileStorage in
      match create cfg with
      | Ok _ => Ok cfg
      | _ => Panic "Error creating JetStream stream: "
      end
  | _ => Panic "Error creating JetStream context: "
  end.

Record queueConsumer := mkQueueConsumer {
  qn_Name : string;
  qn_Durable : string;
  qn_MaxAckPending : Z;
  qn_AckWait : Z;
  qn_FilterSubjects : list string;
  qn_MaxDeliver : Z;
}.

Definition NewMessageQueue (create : queueConsumer → Res unit) (queueName consumerName : string) :
    Res queueConsumer :=
  let cfg := mkQueueConsumer consumerName consumerName 1000 (30 * second)
               [consumerWildCard queueName consumerName] 3 in
  match create cfg with
  | Ok _ => Ok cfg
  | _ => Panic "Error creating JetStream consumer: "
  end.

(** ** Properties *)

(** *** Retries *)

Fixpoint retry_from (n i : nat) (f : nat → Res unit) : Res unit :=
  match n with
  | O => Err (errors_New "All attempts fail")
  | S n => match f i with
           | Err e => match n with O => Err e | _ => retry_from n (S i) f end
           | r => r
           end
  end.

Definition retry_ref : Retry := {| retry_Do n f := retry_from n 0 f |}.

Lemma retry_from_ok n i f : retry_from n i f = Ok tt ↔
  ∃ k, (k < n)%nat ∧ f (i + k)%nat = Ok tt ∧ ∀ j, (j < k)%nat → ∃ e, f (i + j)%nat = Err e.
Proof.
  revert i. induction n as [|n IH]; intros i; cbn; [split; [done|intros (?&?&_); lia]|].
  destruct (f i) as [[]|e|w] eqn:Hf.
  - split; [|done]. intros _. exists 0%nat. rewrite Nat.add_0_r. split_and!; [lia|done|lia].
  - assert (retry_from n (S i) f = Ok tt ↔ match n with O => Err e | _ => retry_from n (S i) f end
      = Ok tt) as <- by (destruct n; cbn; by split).
    rewrite IH. split; intros (k & Hk & Hok & Hj).
    + exists (S k). rewrite Nat.add_succ_r. split_and!; [lia|done|].
      intros [|j] Hlt; [exists e; by rewrite Nat.add_0_r|].
      rewrite Nat.add_succ_r. apply Hj. lia.
    + destruct k as [|k]; [rewrite Nat.add_0_r in Hok; congruence|].
      exists k. rewrite Nat.add_succ_r in Hok. split_and!; [lia|done|].
      intros j Hlt. destruct (Hj (S j)) as [e' He']; [lia|]. exists e'.
      by rewrite Nat.add_succ_r in He'.
  - split; [done|]. intros ([|k] & _ & Hok & Hj).
    + rewrite Nat.add_0_r in Hok. congruence.
    + destruct (Hj 0%nat) as [e He]; [lia|]. rewrite Nat.add_0_r in He. congruence.
Qed.

Definition retry_ref_spec : RetrySpec retry_ref.
Proof. split. intros n f. apply (retry_from_ok n 0). Qed.

(** *** Direct messages *)

Section direct_props.
Context {H : Type} `{EqDecision H}.

Inductive p2p_op :=
| OpListen (subscribe flush unsubscribe : Res unit) (topic : string) (h : H)
| OpUnsubscribe (answer : Res unit) (topic : string) (h : H)
| OpSendToSelf (topic message : string).

Definition run_p2p (o : p2p_op) (d : natsDirectMessaging H) : natsDirectMessaging H :=
  match o with
  | OpListen s f u t h => exec (Listen s f u t h) d
  | OpUnsubscribe a t h => exec (Unsubscribe a t h) d
  | OpSendToSelf t m => exec (SendToSelf t m) d
  end.

(** The handlers some [Listen] of the run registered for [topic], in order. *)
Definition listened (topic : string) (ops : list p2p_op) : list H :=
  omap (λ o, match o with
             | OpListen (Ok _) (Ok _) _ t h => if decide (t = topic) then Some h else None
             | _ => None
             end) ops.

Lemma fold_invoke m hs (d : natsDirectMessaging H) :
  fold_left (λ d h, invoke m h d) hs d =
  mkDirect (handlers d) (natsSubs d) (invoked d ++ ((λ h, (h, m)) <$> hs)).
Proof.
  revert d. induction hs as [|h hs IH]; intros d; cbn; [by destruct d; rewrite app_nil_r|].
  rewrite IH. cbn. by rewrite <-(assoc_L app).
Qed.

Lemma run_p2p_handlers topic ops (d : natsDirectMessaging H) :
  default [] (handlers (foldl (flip run_p2p) d ops) !! topic) =
  default [] (handlers d !! topic) ++ listened topic ops.
Proof.
  revert d. induction ops as [|o ops IH]; intros d; cbn; [by rewrite app_nil_r|].
  rewrite IH. destruct o as [[[]|e|w] f u t h|a t h|t m]; cbn; try done.
  - destruct f as [[]|e|w]; cbn; [|by destruct u|done]. destruct (decide (t = topic)) as [->|Hne].
    + rewrite lookup_insert_eq. cbn. by rewrite <-(assoc_L app).
    + by rewrite lookup_insert_ne.
  - by destruct a as [[]| |].
  - unfold exec, SendToSelf. destruct (handlers d !! t) as [[|h hs]|]; [done| |done].
    by rewrite fold_invoke.
Qed.

(** A message to the own node reaches every handler that ever listened on its
    topic, in the order of registration and once per registration - also those
    whose subscription was cancelled since, because unsubscribing does not touch
    the table of local handlers. *)
Theorem SendToSelf_reaches_every_listener ops topic message :
  let d := foldl (flip run_p2p) NewNatsDirectMessaging ops in
  let hs := listened topic ops in
  eval (SendToSelf topic message) d =
    (if bool_decide (hs = []) then Err (errors_New ("no handlers found for topic " +:+ topic))
     else Ok tt) ∧
  invoked (exec (SendToSelf topic message) d) = invoked d ++ ((λ h, (h, message)) <$> hs).
Proof.
  cbv zeta. pose proof (run_p2p_handlers topic ops NewNatsDirectMessaging) as Hh.
  cbn in Hh. rewrite lookup_empty in Hh. cbn in Hh. rewrite <-Hh.
  unfold eval, exec, SendToSelf.
  destruct (handlers _ !! topic) as [[|h hs]|]; cbn; [by rewrite app_nil_r| |by rewrite app_nil_r].
  split; [done|]. rewrite fold_invoke. cbn. by rewrite <-(assoc_L app).
Qed.

End direct_props.

(** *** Streams *)

(** An option that changes nothing the stream is created with. *)
Definition stream_neutral (o : BrokerOption) : bool :=
  match o with
  | WithStreamDescription _ | WithMaxAge _ => false
  | _ => true
  end.

(** The retention, storage and discard options have no effect: whatever
    options a broker is given, the stream it creates keeps messages by limits, in
    a file, discarding the old ones - only its name, subjects, description and
    age come from the configuration, and only the description and age options
    matter. *)
Theorem NewJetStreamBroker_stream context create name subj opts :
  let c := fold_left apply_option opts (default_config name subj) in
  let c' := fold_left apply_option (List.filter (λ o, negb (stream_neutral o)) opts)
              (default_config name subj) in
  streamConfig c = streamConfig c' ∧
  streamConfig c = mkStreamConfig name (description c') subj LimitsPolicy FileStorage DiscardOld
                     (maxAge c') ∧
  (is_Ok (NewJetStreamBroker context create name subj opts) =
   is_Ok context && is_Ok (create (streamConfig c'))).
Proof.
  assert (∀ l c c', streamConfig c = streamConfig c' →
    streamConfig (fold_left apply_option l c) =
    streamConfig (fold_left apply_option (List.filter (λ o, negb (stream_neutral o)) l) c'))
    as Hfold.
  { induction l as [|o l IH]; intros c c' Hc; [done|]. cbn.
    destruct c, c'; unfold streamConfig in Hc; cbn in Hc; injection Hc as -> -> -> ->.
    destruct o; cbn; by apply IH. }
  assert (∀ l c, streamName (fold_left apply_option l c) = streamName c ∧
    subjects (fold_left apply_option l c) = subjects c) as Hkeep.
  { induction l as [|o l IH]; intros c; [done|]. cbn. destruct (IH (apply_option c o)) as [-> ->].
    by destruct c, o. }
  intros c c'. assert (streamConfig c = streamConfig c') as Hc by (by apply Hfold).
  split_and!; [done| |].
  - rewrite Hc. unfold streamConfig, c'.
    by destruct (Hkeep (List.filter (λ o, negb (stream_neutral o)) opts) (default_config name subj))
      as [-> ->].
  - unfold NewJetStreamBroker, ensureStreamExists. fold c. rewrite Hc.
    destruct context as [[]|e|w]; cbn; [|done..]. by destruct (create (streamConfig c')) as [[]| |].
Qed.

(** *** Consumer names *)

Lemma ReplaceAll_no_char c d s new :
  no_char c s = true ∨ c = d → no_char c new = true → no_char c (ReplaceAll s d new) = true.
Proof.
  intros Hs Hn. induction s as [|e s IH]; [done|].
  change (ReplaceAll (String e s) d new) with
    (if Ascii.eqb e d then new +:+ ReplaceAll s d new else String e (ReplaceAll s d new)).
  assert (∀ t, no_char c (String e t) = negb (Ascii.eqb e c) && no_char c t) as Hcons by done.
  rewrite Hcons, andb_true_iff in Hs.
  assert (no_char c (ReplaceAll s d new) = true) as Hrest by (apply IH; tauto).
  destruct (Ascii.eqb_spec e d) as [->|Hne].
  - by rewrite no_char_app, Hn.
  - rewrite Hcons, Hrest, andb_true_r. destruct Hs as [[Hs _]| ->]; [done|].
    apply negb_true_iff. by apply Ascii.eqb_neq.
Qed.

Lemma ReplaceAll_id c s new : no_char c s = true → ReplaceAll s c new = s.
Proof.
  induction s as [|d s IH]; [done|]. unfold no_char. cbn.
  intros [Hd Hs]%andb_true_iff. apply negb_true_iff in Hd. rewrite Hd. f_equal. by apply IH.
Qed.

(** The characters a consumer name must not have. *)
Definition name_ok (s : string) : bool :=
  no_char "." s && no_char ":" s && no_char " " s && no_char "-" s && no_char ">" s &&
  no_char "*" s.

(** The first character is one of a-z, A-Z and the underscore. *)
Definition starts_ok (s : string) : bool :=
  match s with
  | EmptyString => false
  | String c _ =>
      let n := byte_of c in
      ((65 <=? n) && (n <=? 90)) || ((97 <=? n) && (n <=? 122)) || Ascii.eqb c underscore
  end.

(** On ASCII that is what the code tests. *)
Lemma starts_ok_cons c s : is_ascii c = true →
  starts_ok (String c s) = IsLetter c || Ascii.eqb c underscore.
Proof.
  unfold is_ascii, starts_ok, IsLetter. pose proof (byte_of_range c). intros Hc%Z.ltb_lt.
  f_equal. apply eq_true_iff_eq. rewrite !orb_true_iff, !andb_true_iff, !Z.leb_le, !Z.eqb_eq. lia.
Qed.

Lemma ReplaceAll_forallb p s c new : string_forallb p s = true → string_forallb p new = true →
  string_forallb p (ReplaceAll s c new) = true.
Proof.
  intros Hs Hn. induction s as [|d s IH]; [done|]. cbn in *.
  apply andb_true_iff in Hs as [Hd Hs]. destruct (Ascii.eqb d c); cbn.
  - by rewrite string_forallb_app, Hn, IH.
  - by rewrite Hd, IH.
Qed.

Lemma ReplaceAll_ne s c new : s ≠ "" → new ≠ "" → ReplaceAll s c new ≠ "".
Proof. destruct s as [|d s], new; cbn; try done. by destruct (Ascii.eqb d c). Qed.

Lemma sanitize_name_ok name : name_ok (sanitizeConsumerName name) = true.
Proof.
  unfold sanitizeConsumerName.
  match goal with |- context [match ?x with EmptyString => _ | _ => _ end] => set (r := x) end.
  assert (name_ok r = true) as Hr.
  { unfold name_ok, r. rewrite !andb_true_iff.
    repeat split; repeat (apply ReplaceAll_no_char; [|done]; first [by right|left]). }
  destruct r as [|c r]; [done|]. destruct (_ && _); [|done].
  unfold name_ok in *. rewrite !no_char_app. cbn in *. done.
Qed.

Lemma sanitize_id s : name_ok s = true → string_forallb is_ascii s = true → starts_ok s = true →
  sanitizeConsumerName s = s.
Proof.
  intros Hs Ha Hst. unfold name_ok in Hs. rewrite !andb_true_iff in Hs.
  destruct Hs as [[[[[? ?] ?] ?] ?] ?]. unfold sanitizeConsumerName.
  rewrite (ReplaceAll_id "." s), (ReplaceAll_id ":" s), (ReplaceAll_id " " s),
    (ReplaceAll_id "-" s), (ReplaceAll_id ">" s), (ReplaceAll_id "*" s) by done.
  destruct s as [|c s]; [done|]. cbn in Ha. apply andb_true_iff in Ha as [Ha _].
  rewrite starts_ok_cons in Hst by done. by destruct (IsLetter c), (Ascii.eqb c underscore).
Qed.

Lemma sanitize_starts_ok name : name ≠ "" → string_forallb is_ascii name = true →
  string_forallb is_ascii (sanitizeConsumerName name) = true ∧
  starts_ok (sanitizeConsumerName name) = true.
Proof.
  intros Hne Ha. unfold sanitizeConsumerName.
  match goal with |- context [match ?x with EmptyString => _ | _ => _ end] => set (r := x) end.
  assert (r ≠ "") as Hr by (unfold r; by repeat (apply ReplaceAll_ne; [|done])).
  assert (string_forallb is_ascii r = true) as Hra
    by (unfold r; by repeat (apply ReplaceAll_forallb; [|done])).
  destruct r as [|c r]; [done|]. pose proof Hra as Hc. cbn in Hc. apply andb_true_iff in Hc as [Hc _].
  destruct (IsLetter c) eqn:Hl; cbn [negb andb]; [by rewrite starts_ok_cons, Hl|].
  destruct (Ascii.eqb c underscore) eqn:Hu; cbn [negb]; [by rewrite starts_ok_cons, Hl, Hu|].
  by rewrite string_forallb_app, Hra.
Qed.

(** C38: the name a consumer is created under.  Whatever the given name, it has no dot,
    colon, blank, dash or wildcard; if the given name is not empty and all ASCII, it begins
    with a letter or an underscore; an ASCII name that is in this form is kept, so that
    sanitising such a name again changes nothing. *)
Theorem sanitizeConsumerName_valid name :
  name_ok (sanitizeConsumerName name) = true ∧
  (name ≠ "" → string_forallb is_ascii name = true →
   starts_ok (sanitizeConsumerName name) = true ∧
   sanitizeConsumerName (sanitizeConsumerName name) = sanitizeConsumerName name) ∧
  (name_ok name = true → string_forallb is_ascii name = true → starts_ok name = true →
   sanitizeConsumerName name = name).
Proof.
  pose proof (sanitize_name_ok name) as Hok. split; [done|]. split; [|apply sanitize_id].
  intros Hne Ha. destruct (sanitize_starts_ok name Hne Ha) as [Ha' Hst].
  split; [done|by apply sanitize_id].
Qed.

(** The empty name stays empty, and the first byte of an arrow, in UTF-8, passes for a
    letter. *)
Lemma sanitize_exceptions :
  sanitizeConsumerName "" = "" ∧ sanitizeConsumerName "→" = "→" ∧ starts_ok "→" = false.
Proof. done. Qed.

Lemma sanitizeConsumerName_valid_witness :
  starts_ok (sanitizeConsumerName "1.signing-*") = true ∧
  sanitizeConsumerName "1.signing-*" = "_1_signing_any" ∧
  sanitizeConsumerName "keygen_all" = "keygen_all".
Proof.
  split; [|split].
  - apply (sanitizeConsumerName_valid "1.signing-*"); [discriminate|reflexivity].
  - reflexivity.
  - apply (sanitizeConsumerName_valid "keygen_all"); reflexivity.
Defined.
