(* ===== verification/Client.v ===== *)
(** * pkg/client: the event initiator

    The client signs a request with the initiator's key and publishes it on the
    request stream of its kind; the nodes verify it ([Identity]) before they act
    on it ([EventConsumer]).  [Signer] is the interface of pkg/client/signer, with
    the local signer and the one of AWS KMS as instances. *)

From stdpp Require Import base gmap list strings.
From Stdlib Require Import ZArith Lia Ascii.
From S2P Require Import Prelude.
From S2P Require Import GoStrings.
From S2P Require Import External.
From S2P Require Import Json.
From S2P Require Import Types.
From S2P Require Import Decode.
From S2P Require Import Identity.
From S2P Require Import Messaging.

(** ** pkg/client/signer *)

Class Signer (S : Type) := {
  Sign : S → string → Res string;
  Algorithm : S → string;
  PublicKey : S → Res string;
}.

(** P-256 private keys and x509: third-party to the signer. *)
Class P256 `{C : Crypto} := {
  ecdsa_PrivateKey : Type;
  ecdsa_Public : ecdsa_PrivateKey → ecdsa_PublicKey;
  ecdsa_SignASN1 : ecdsa_PrivateKey → string → Res string;     (* key, hash *)
  MarshalPKIXPublicKey : ecdsa_PublicKey → Res string;
  ParsePKIXPublicKey : string → option ecdsa_PublicKey;    (* None: no ECDSA key *)
}.

Class P256Spec `(P : P256) := {
  ecdsa_Verify_Sign k h sig :
    ecdsa_SignASN1 k h = Ok sig → ecdsa_VerifyASN1 (ecdsa_Public k) h sig = true;
  ecdsa_Sign_nonempty k h sig : ecdsa_SignASN1 k h = Ok sig → sig ≠ EmptyString;
  ParsePKIX_Marshal k der : MarshalPKIXPublicKey k = Ok der → ParsePKIXPublicKey der = Some k;
  Marshal_nonempty k der : MarshalPKIXPublicKey k = Ok der → der ≠ EmptyString;
}.

Section signer.
Context `{P : P256}.

Definition SignWithP256 (privateKey : option ecdsa_PrivateKey) (data : string) : Res string :=
  match privateKey with
  | None => Err (errors_New "invalid private key: private key is nil")
  | Some k => wrap_err "failed to sign data: " (ecdsa_SignASN1 k (sha256 data))
  end.

Definition ValidateP256PublicKey (publicKey : option ecdsa_PublicKey) : Res unit :=
  match publicKey with
  | None => Err (errors_New "public key is nil")
  | Some k => if ecdsa_on_P256 k then Ok tt else Err (errors_New "public key is not P-256 curve")
  end.

Definition MarshalP256PublicKey (publicKey : option ecdsa_PublicKey) : Res string :=
  _ ← wrap_err "invalid P256 public key: " (ValidateP256PublicKey publicKey);
  match publicKey with
  | Some k => MarshalPKIXPublicKey k
  | None => Panic "nil pointer dereference"
  end.

(** The second attempt repeats the first. *)
Definition ParseP256PublicKeyFromBytes (keyBytes : string) : Res ecdsa_PublicKey :=
  let attempt := match ParsePKIXPublicKey keyBytes with
                 | Some k => if ecdsa_on_P256 k then Some k else None
                 | None => None
                 end in
  match attempt with
  | Some k => Ok k
  | None => of_option (errors_New "failed to parse P-256 public key from bytes") attempt
  end.

Definition ParseP256PublicKeyFromHex (hexString : string) : Res ecdsa_PublicKey :=
  let hexString := default hexString (TrimPrefix_opt hexString "0x") in
  keyBytes ← wrap_err "failed to decode hex string: " (hex_DecodeString hexString);
  ParseP256PublicKeyFromBytes keyBytes.

Record LocalSigner := mkLocalSigner {
  keyType : string;
  ed25519Key : option string;
  p256Key : option ecdsa_PrivateKey;
}.

Definition LocalSigner_Sign (s : LocalSigner) (data : string) : Res string :=
  if String.eqb (keyType s) EventInitiatorKeyTypeEd25519 then
    match ed25519Key s with
    | None => Err (errors_New "Ed25519 private key not initialized")
    | Some k => ed25519_Sign_go k data
    end
  else if String.eqb (keyType s) EventInitiatorKeyTypeP256 then
    match p256Key s with
    | None => Err (errors_New "P256 private key not initialized")
    | k => SignWithP256 k data
    end
  else Err (errors_New ("unsupported key type: " +:+ keyType s)).

Definition LocalSigner_PublicKey (s : LocalSigner) : Res string :=
  if String.eqb (keyType s) EventInitiatorKeyTypeEd25519 then
    match ed25519Key s with
    | None => Err (errors_New "Ed25519 private key not initialized")
    | Some k => Ok (hex_EncodeToString (ed25519_Public k))
    end
  else if String.eqb (keyType s) EventInitiatorKeyTypeP256 then
    match p256Key s with
    | None => Err (errors_New "P256 private key not initialized")
    | Some k =>
        b ← wrap_err "failed to marshal P256 public key: "
              (MarshalP256PublicKey (Some (ecdsa_Public k)));
        Ok (hex_EncodeToString b)
    end
  else Err (errors_New ("unsupported key type: " +:+ keyType s)).

#[export] Instance LocalSigner_Signer : Signer LocalSigner := {|
  Sign := LocalSigner_Sign;
  Algorithm := keyType;
  PublicKey := LocalSigner_PublicKey;
|}.

(** [seed] expands a seed to a private key ([ed25519.NewKeyFromSeed], which
    panics on a seed of another length), [parse] is [ParseP256PrivateKey];
    [keyData] is what [readKeyFile] returns: both are in InitiatorKeys, which loads a
    signer from its options. *)
Definition NewLocalSigner (seed : string → string) (parse : string → Res ecdsa_PrivateKey)
    (kt : string) (keyData : Res string) : Res LocalSigner :=
  keyData ← wrap_err "failed to read key file: " keyData;
  if String.eqb kt EventInitiatorKeyTypeEd25519 then
    privSeed ← wrap_err "failed to load Ed25519 key: "
                 (wrap_err "failed to decode Ed25519 private key hex: "
                    (hex_DecodeString (TrimSpace keyData)));
    if bool_decide (String.length privSeed = 32%nat)
    then Ok (mkLocalSigner kt (Some (seed privSeed)) None)
    else Panic "ed25519: bad seed length"
  else if String.eqb kt EventInitiatorKeyTypeP256 then
    k ← wrap_err "failed to load P256 key: "
          (wrap_err "failed to parse P256 private key: " (parse keyData));
    Ok (mkLocalSigner kt None (Some k))
  else Err (errors_New ("unsupported key type: " +:+ kt)).

(** The client of KMS is its [Sign] call. *)
Record KMSSigner := mkKMSSigner {
  kms_keyType : string;
  kms_Sign : string → Res string;
  kms_publicKey : option ecdsa_PublicKey;
}.

Definition KMSSigner_PublicKey (k : KMSSigner) : Res string :=
  match kms_publicKey k with
  | None => Err (errors_New "public key not loaded")
  | Some _ =>
      b ← wrap_err "failed to marshal P256 public key: " (MarshalP256PublicKey (kms_publicKey k));
      Ok (hex_EncodeToString b)
  end.

#[export] Instance KMSSigner_Signer : Signer KMSSigner := {|
  Sign k data := wrap_err "failed to sign with AWS KMS: " (kms_Sign k data);
  Algorithm := kms_keyType;
  PublicKey := KMSSigner_PublicKey;
|}.

End signer.

(** ** client.go *)

Inductive broker := KeygenBroker | SigningBroker | ResharingBroker.

Section client.
Context {S : Type} `{Sg : Signer S}.

(** What the client has published: broker, subject and bytes, in order. *)
Definition published : Type := list (broker * string * string).

(** The state of the connection, and JetStream's answers. *)
Variable closed : bool.
Variable publish : broker → string → string → Res unit.

Definition send_request (b : broker) (topic bytes context : string) : M published (Res unit) :=
  λ log,
  match wrap_err context (PublishMessage closed (publish b) topic bytes) with
  | Ok _ => (Ok tt, log ++ [(b, topic, bytes)])
  | r => (r, log)
  end.

Definition CreateWallet (s : S) (walletID : string) : M published (Res unit) :=
  let msg := mkKeygenMessage walletID None in
  raw ←! lift (wrap_err "CreateWallet: raw payload error: " (Raw msg));
  signature ←! lift (wrap_err "CreateWallet: failed to sign message: " (Sign s raw));
  let bytes := encode (KeygenMessage_json (mkKeygenMessage walletID (Some signature))) in
  send_request KeygenBroker (FormatKeygenRequestTopic walletID) bytes
    "CreateWallet: publish error: ".

(** [msg.Signature = signature]: the caller's message is changed, also when a
    later step fails; the result carries it. *)
Definition set_sm_Signature (sg : string) (m : SigningMessage) : SigningMessage :=
  mkSigningMessage (sm_KeyType m) (sm_WalletID m) (sm_TxID m) (sm_Tx m) (Some sg).

Definition SignTransaction (s : S) (msg : SigningMessage) :
    M published (Res unit * SigningMessage) := λ log,
  match (raw ← wrap_err "SignTransaction: raw payload error: " (Raw msg);
         wrap_err "SignTransaction: failed to sign message: " (Sign s raw)) with
  | Err e => ((Err e, msg), log)
  | Panic w => ((Panic w, msg), log)
  | Ok signature =>
      let msg := set_sm_Signature signature msg in
      let '(r, log) := send_request SigningBroker (FormatSigningRequestTopic (sm_TxID msg))
                         (encode (SigningMessage_json msg)) "SignTransaction: publish error: " log in
      ((r, msg), log)
  end.

Definition set_rm_Signature (sg : string) (m : ResharingMessage) : ResharingMessage :=
  mkResharingMessage (rm_SessionID m) (rm_NodeIDs m) (rm_NewThreshold m) (rm_KeyType m)
    (rm_WalletID m) (Some sg).

Definition Resharing (s : S) (msg : ResharingMessage) :
    M published (Res unit * ResharingMessage) := λ log,
  match (raw ← wrap_err "Resharing: raw payload error: " (Raw msg);
         wrap_err "Resharing: failed to sign message: " (Sign s raw)) with
  | Err e => ((Err e, msg), log)
  | Panic w => ((Panic w, msg), log)
  | Ok signature =>
      let msg := set_rm_Signature signature msg in
      let '(r, log) := send_request ResharingBroker
                         (FormatResharingRequestTopic (rm_WalletID msg))
                         (encode (ResharingMessage_json msg)) "Resharing: publish error: " log in
      ((r, msg), log)
  end.

(** The handler that OnWalletCreationResult, OnSignResult and OnResharingResult
    give to [Dequeue]: [decode] is json.Unmarshal, the events the callback got are
    the second component. *)
Definition onResult {E} (decode : string → Res E) (msg : string) : Res unit * list E :=
  match decode msg with
  | Err e => (Err e, [])
  | Panic w => (Panic w, [])
  | Ok event => (Ok tt, [event])
  end.

(** How such a result message is settled: one that does not decode is redelivered. *)
Definition settle_result {E} (decode : string → Res E) (msg : string) : Res settlement :=
  onDequeue (λ m, (onResult decode m).1) msg.

End client.

(** ** Properties *)

(** A store that verifies with the signer's public key. *)
Definition configured_for `{P : P256} (s : LocalSigner) (store : fileStore) : Prop :=
  ik_Algorithm (initiatorKey store) = keyType s ∧
  match ed25519Key s, p256Key s with
  | Some k, _ => keyType s = EventInitiatorKeyTypeEd25519 ∧ String.length k = 64%nat ∧
                 ik_Ed25519 (initiatorKey store) = ed25519_Public k
  | None, Some k => keyType s = EventInitiatorKeyTypeP256 ∧
                    ik_P256 (initiatorKey store) = Some (ecdsa_Public k) ∧
                    ecdsa_on_P256 (ecdsa_Public k) = true
  | None, None => False
  end.

Section properties.
Context `{P : P256} `{!CryptoSpec C} `{!P256Spec P}.

Lemma ParseP256_Marshal k der : ecdsa_on_P256 k = true → MarshalPKIXPublicKey k = Ok der →
  ParseP256PublicKeyFromHex (hex_EncodeToString der) = Ok k.
Proof.
  intros Hon Hm. unfold ParseP256PublicKeyFromHex. rewrite hex_Encode_no_0x. cbn.
  rewrite hex_Decode_Encode. cbn. unfold ParseP256PublicKeyFromBytes.
  by rewrite (ParsePKIX_Marshal _ _ Hm), Hon.
Qed.

(** The public key a new signer shows, put into a node's configuration, makes the
    node verify with that key. *)
Lemma loadInitiatorKeys_configured seed parse parse64 kt keyData s hex store
    (Hseed : ∀ x, String.length x = 32%nat → String.length (seed x) = 64%nat)
    (Hnew : NewLocalSigner seed parse kt keyData = Ok s)
    (Hpub : PublicKey s = Ok hex)
    (Hload : loadInitiatorKeys (Algorithm s) hex ParseEd25519PublicKeyFromHex
               ParseP256PublicKeyFromHex parse64 = Ok (initiatorKey store)) :
  configured_for s store.
Proof.
  unfold NewLocalSigner in Hnew. apply Res_bind_Ok in Hnew as (kd & _ & Hnew).
  unfold configured_for. cbn in Hpub, Hload. unfold LocalSigner_PublicKey in Hpub.
  destruct (String.eqb_spec kt EventInitiatorKeyTypeEd25519) as [->|];
    [|destruct (String.eqb_spec kt EventInitiatorKeyTypeP256) as [->|]; [|done]];
    apply Res_bind_Ok in Hnew as (k & _ & Hnew).
  - case_bool_decide as Hlen; [|done]. injection Hnew as <-. cbn in *. injection Hpub as <-.
    specialize (Hseed k Hlen). pose proof (ed25519_Public_length _ Hseed) as Hpl.
    assert (ed25519_Public (seed k) ≠ EmptyString) as Hne by (intros He; by rewrite He in Hpl).
    unfold loadEd25519InitiatorKey, ParseEd25519PublicKeyFromHex in Hload.
    rewrite !hex_Encode_nonempty, hex_Decode_Encode in Hload by done. cbn in Hload.
    unfold ValidateEd25519PublicKey in Hload. rewrite bool_decide_eq_true_2 in Hload by done.
    injection Hload as Hload. by rewrite <-Hload.
  - injection Hnew as <-. cbn in *. apply Res_bind_Ok in Hpub as (der & Hder%wrap_err_Ok & Hpub).
    injection Hpub as <-. unfold MarshalP256PublicKey, ValidateP256PublicKey in Hder.
    destruct (ecdsa_on_P256 (ecdsa_Public k)) eqn:Hon; [|done]. cbn in Hder.
    unfold loadP256InitiatorKey in Hload.
    rewrite hex_Encode_nonempty in Hload by (by eapply Marshal_nonempty).
    rewrite (ParseP256_Marshal _ _ Hon Hder) in Hload. injection Hload as Hload.
    by rewrite <-Hload.
Qed.

(** What the local signer signs, the store verifies: for any kind of request whose
    signed bytes do not depend on the signature. *)
Lemma LocalSigner_accepted `{InitiatorMessage A} (s : LocalSigner) store (msg : A) raw sg :
  configured_for s store → Raw msg = Ok raw → Sig msg = Some sg → Sign s raw = Ok sg →
  VerifyInitiatorMessage store msg = Ok tt.
Proof.
  intros [Halg Hkey] Hraw Hsig Hsign. unfold VerifyInitiatorMessage. rewrite Halg.
  cbn in Hsign. unfold LocalSigner_Sign in Hsign.
  destruct (ed25519Key s) as [k|].
  - destruct Hkey as (Hkt & Hlen & Hpub). rewrite Hkt in *. cbn in *.
    unfold verifyEd25519. rewrite Hraw, Hsig. cbn. unfold ed25519_Sign_go in Hsign.
    rewrite bool_decide_eq_true_2 in Hsign by done. injection Hsign as <-.
    pose proof (ed25519_Sign_nonempty k raw) as Hne.
    destruct (ed25519_Sign k raw) eqn:Hs; [done|]. rewrite <-Hs.
    unfold ed25519_Verify_go. rewrite Hpub, bool_decide_eq_true_2
      by (by apply ed25519_Public_length). cbn. by rewrite ed25519_Verify_Sign.
  - destruct (p256Key s) as [k|]; [|done].
    destruct Hkey as (Hkt & Hpub & Hon). rewrite Hkt in *. cbn in *.
    unfold verifyP256. rewrite Hraw, Hpub. cbn. rewrite Hon, Hsig. cbn.
    apply wrap_err_Ok in Hsign. pose proof (ecdsa_Sign_nonempty _ _ _ Hsign) as Hne.
    destruct sg as [|c sg]; [done|]. by rewrite (ecdsa_Verify_Sign _ _ _ Hsign).
Qed.

Variable closed : bool.
Variable publish : broker → string → string → Res unit.

Lemma send_request_Ok b topic bytes context log log' :
  send_request closed publish b topic bytes context log = (Ok tt, log') →
  closed = false ∧ log' = log ++ [(b, topic, bytes)].
Proof.
  unfold send_request, PublishMessage. destruct closed; [done|].
  destruct (publish b topic bytes) as [[]| |]; cbn; [|done..]. by intros [= <-].
Qed.

(** No signature of a local signer is empty. *)
Lemma LocalSigner_Sign_nonempty (s : LocalSigner) store raw sg :
  configured_for s store → Sign s raw = Ok sg → sg ≠ EmptyString.
Proof.
  intros [_ Hkey] Hsign. cbn in Hsign. unfold LocalSigner_Sign in Hsign.
  destruct (ed25519Key s) as [k|].
  - destruct Hkey as (Hkt & Hlen & _). rewrite Hkt in Hsign. cbn in Hsign.
    unfold ed25519_Sign_go in Hsign. rewrite bool_decide_eq_true_2 in Hsign by done.
    injection Hsign as <-. apply ed25519_Sign_nonempty.
  - destruct (p256Key s) as [k|]; [|done]. destruct Hkey as (Hkt & _). rewrite Hkt in Hsign.
    cbn in Hsign. apply wrap_err_Ok in Hsign. by eapply ecdsa_Sign_nonempty.
Qed.

(** C7: what the client asks for, the nodes believe: take a signer loaded from its
    key file and a node whose configuration has the algorithm and the public key
    that signer shows.  Then a request of any of the three kinds, with ids and key type
    in ASCII, that the client published is on the request topic of its id, and the bytes
    that were published are decoded to a message that carries the fields that were asked
    for, with a signature, and passes the node's verification. *)
Theorem client_requests_accepted seed parse parse64 kt keyData (s : LocalSigner) hex store log log'
    (Hseed : ∀ x, String.length x = 32%nat → String.length (seed x) = 64%nat)
    (Hnew : NewLocalSigner seed parse kt keyData = Ok s)
    (Hpub : PublicKey s = Ok hex)
    (Hload : loadInitiatorKeys (Algorithm s) hex ParseEd25519PublicKeyFromHex
               ParseP256PublicKeyFromHex parse64 = Ok (initiatorKey store)) :
  (∀ w, all_ascii w = true →
    CreateWallet closed publish s w log = (Ok tt, log') →
    ∃ data m, log' = log ++ [(KeygenBroker, "mpc.keygen_request." +:+ w, data)] ∧
      Unmarshal_KeygenMessage data = (m, None) ∧
      km_WalletID m = w ∧ VerifyInitiatorMessage store m = Ok tt) ∧
  (∀ msg m, forallb all_ascii [sm_KeyType msg; sm_WalletID msg; sm_TxID msg] = true →
    SignTransaction closed publish s msg log = ((Ok tt, m), log') →
    ∃ data, log' = log ++ [(SigningBroker, "mpc.signing_request." +:+ sm_TxID msg, data)] ∧
      Unmarshal_SigningMessage data = (m, None) ∧
      (sm_KeyType m, sm_WalletID m, sm_TxID m, sm_Tx m) =
        (sm_KeyType msg, sm_WalletID msg, sm_TxID msg, sm_Tx msg) ∧
      VerifyInitiatorMessage store m = Ok tt) ∧
  (∀ msg m, forallb all_ascii (rm_SessionID msg :: rm_KeyType msg :: rm_WalletID msg ::
              default [] (rm_NodeIDs msg)) = true →
    int64_range (rm_NewThreshold msg) →
    Resharing closed publish s msg log = ((Ok tt, m), log') →
    ∃ data, log' = log ++ [(ResharingBroker, "mpc.resharing_request." +:+ rm_WalletID msg, data)] ∧
      Unmarshal_ResharingMessage data = (m, None) ∧
      clear_Signature m = clear_Signature msg ∧
      VerifyInitiatorMessage store m = Ok tt).
Proof.
  pose proof (loadInitiatorKeys_configured _ _ _ _ _ _ _ _ Hseed Hnew Hpub Hload) as Hconf.
  split_and!.
  - intros w Hw Hrun. unfold CreateWallet in Hrun.
    apply bindR_Ok in Hrun as (raw & l1 & H1 & Hrun). injection H1 as H1 <-.
    apply bindR_Ok in Hrun as (sg & l2 & H2 & Hrun). injection H2 as H2 <-.
    apply send_request_Ok in Hrun as [_ ->]. apply wrap_err_Ok in H2. subst raw.
    eexists _, (mkKeygenMessage w (Some sg)). split; [done|].
    split; [by apply Unmarshal_KeygenMessage_encode|]. split; [done|].
    by eapply LocalSigner_accepted.
  - intros msg m Hascii Hrun. unfold SignTransaction in Hrun.
    destruct (raw ← _; _) as [sg|e|w] eqn:Hsg; [|done..].
    apply Res_bind_Ok in Hsg as (raw & H1%wrap_err_Ok & H2%wrap_err_Ok).
    destruct (send_request _ _ _ _ _ _ _) as [r l] eqn:Hsend. injection Hrun as -> <- <-.
    apply send_request_Ok in Hsend as [_ ->]. cbn [forallb] in Hascii.
    apply andb_true_iff in Hascii as [Hk Hascii]. apply andb_true_iff in Hascii as [Hw Hascii].
    apply andb_true_iff in Hascii as [Ht _]. eexists. split; [done|].
    split; [by apply Unmarshal_SigningMessage_encode|]. split; [done|].
    by eapply (LocalSigner_accepted s store (set_sm_Signature sg msg) raw sg).
  - intros msg m Hascii Hth Hrun. unfold Resharing in Hrun.
    destruct (raw ← _; _) as [sg|e|w] eqn:Hsg; [|done..].
    apply Res_bind_Ok in Hsg as (raw & H1%wrap_err_Ok & H2%wrap_err_Ok).
    destruct (send_request _ _ _ _ _ _ _) as [r l] eqn:Hsend. injection Hrun as -> <- <-.
    apply send_request_Ok in Hsend as [_ ->]. cbn [forallb] in Hascii.
    apply andb_true_iff in Hascii as [Hs Hascii]. apply andb_true_iff in Hascii as [Hk Hascii].
    apply andb_true_iff in Hascii as [Hw Hids]. eexists. split; [done|]. split.
    { apply Unmarshal_ResharingMessage_encode; [done..|].
      intros [= He]. by eapply LocalSigner_Sign_nonempty. }
    split; [done|]. by eapply (LocalSigner_accepted s store (set_rm_Signature sg msg) raw sg).
Qed.

(** An id that is not UTF-8 is not told from another one in what is published: both are
    written as U+FFFD, while the signature covers the bytes of the id itself. *)
Lemma keygen_request_not_utf8 g g' :
  let request c g := mkKeygenMessage (str1 (chr c)) g in
  encode (KeygenMessage_json (request 255%nat g)) = encode (KeygenMessage_json (request 254%nat g)) ∧
  Raw (request 255%nat g) ≠ Raw (request 254%nat g').
Proof. split; [reflexivity|discriminate]. Qed.

End properties.

(** *** Witnesses *)

#[local] Existing Instance toy_crypto.
#[local] Existing Instance toy_crypto_spec.

(** Private keys are their public keys. *)
Definition toy_p256 : P256 := {|
  ecdsa_PrivateKey := string;
  ecdsa_Public k := k : @ecdsa_PublicKey toy_crypto;
  ecdsa_SignASN1 k h := if String.eqb k "" then Err (errors_New "invalid key") else Ok (k +:+ h);
  MarshalPKIXPublicKey k := Ok ("der" +:+ (k : string));
  ParsePKIXPublicKey d := TrimPrefix_opt d "der";
|}.

Definition toy_p256_spec : P256Spec toy_p256.
Proof.
  split; cbn.
  - intros k h sig. destruct (String.eqb k ""); [done|]. intros [= <-].
    by apply bool_decide_eq_true_2.
  - intros k h sig. destruct k as [|c k]; cbn; [done|]. by intros [= <-].
  - intros k der [= <-]. done.
  - intros k der [= <-]. done.
Qed.
#[local] Existing Instance toy_p256.
#[local] Existing Instance toy_p256_spec.

Definition toy_signer : LocalSigner := mkLocalSigner EventInitiatorKeyTypeP256 None (Some "p256key").

Definition toy_accepting_store : fileStore (C := toy_crypto) :=
  mkFileStore "identity" "node0" ∅ toy_key64
    (mkInitiatorKey EventInitiatorKeyTypeP256 "" (Some "p256key")) ∅.

Lemma client_requests_accepted_witness :
  let m := mkSigningMessage KeyTypeEd25519 "w" "t1" (Some "tx") None in
  let r := SignTransaction false (λ _ _ _, Ok tt) toy_signer m [] in
  VerifyInitiatorMessage toy_accepting_store r.1.2 = Ok tt ∧ length r.2 = 1%nat.
Proof.
  cbv zeta. split; [|vm_compute; reflexivity].
  destruct (client_requests_accepted false (λ _ _ _, Ok tt) (λ x, x +:+ x)
    (λ _, Ok ("p256key" : @ecdsa_PrivateKey _ toy_p256))
    (λ _, Err (errors_New "no base64")) EventInitiatorKeyTypeP256 (Ok "file") toy_signer
    (hex_EncodeToString "derp256key") toy_accepting_store []
    (SignTransaction false (λ _ _ _, Ok tt) toy_signer
       (mkSigningMessage KeyTypeEd25519 "w" "t1" (Some "tx") None) []).2)
    as (_ & Hsign & _).
  - intros x Hx. rewrite length_app_s, Hx. reflexivity.
  - vm_compute. reflexivity.
  - vm_compute. reflexivity.
  - vm_compute. reflexivity.
  - destruct (Hsign (mkSigningMessage KeyTypeEd25519 "w" "t1" (Some "tx") None)
      (SignTransaction false (λ _ _ _, Ok tt) toy_signer
        (mkSigningMessage KeyTypeEd25519 "w" "t1" (Some "tx") None) []).1.2)
      as (data & _ & Hdec & _ & Hver); [vm_compute; reflexivity|vm_compute; reflexivity|].
    exact Hver.
Defined.
