(* ===== verification/Topology.v ===== *)
(** * pkg/client/client.go, cmd/node/start.go: the streams and queues of the system

    What [NewMPCClient] and the node's start create in JetStream - a stream per kind of
    request, one stream for the results with a queue per kind - and where the subjects
    of pkg/constant lead.  How NATS matches a subject with a filter is an interface
    with the documented laws. *)

From stdpp Require Import base list strings sets.
From Stdlib Require Import ZArith Lia Ascii.
From S2P Require Import Prelude.
From S2P Require Import GoStrings.
From S2P Require Import Types.
From S2P Require Import Messaging.
From S2P Require Import Client.

#[export] Instance broker_eq_dec : EqDecision broker.
Proof. solve_decision. Defined.

Definition dot : ascii := chr 46.

(** No wildcard and no blank: a subject one may publish to, or a part of it. *)
Definition literal (s : string) : bool :=
  no_char (chr 42) s && no_char (chr 62) s && no_char (chr 32) s.

(** Subject-based messaging: a filter that ends in [.*] takes what has exactly one more
    token; tokens are not empty. *)
Class NatsSubjects := { subject_matches : string → string → bool }.

Class NatsSubjectsSpec (N : NatsSubjects) := {
  matches_star p s : literal p = true → literal s = true →
    subject_matches (p +:+ ".*") s = true ↔
    ∃ tok, s = p +:+ "." +:+ tok ∧ tok ≠ EmptyString ∧ no_char dot tok = true;
}.

(** ** What is created *)

Record js_state := mkJs {
  js_streams : list StreamConfig;
  js_results : list queueConfig;
  js_consumers : list queueConsumer;
}.

Definition no_streams : js_state := mkJs [] [] [].

Section create.
(** JetStream's answers. *)
Variable context : Res unit.
Variable create_stream : StreamConfig → Res unit.
Variable create_results : queueConfig → Res unit.
Variable create_consumer : queueConsumer → Res unit.

(** [logger.Fatal] with this text when the broker cannot be created. *)
Definition new_broker (fatal name : string) (subj : list string) :
    M js_state (Res brokerConfiguration) := λ j,
  match NewJetStreamBroker context create_stream name subj [] with
  | Ok c => (Ok c, mkJs (js_streams j ++ [streamConfig c]) (js_results j) (js_consumers j))
  | _ => (Panic fatal, j)
  end.

Definition new_manager (name : string) (subj : list string) : M js_state (Res queueConfig) := λ j,
  match NewNATsMessageQueueManager context create_results name subj with
  | Ok c => (Ok c, mkJs (js_streams j) (js_results j ++ [c]) (js_consumers j))
  | r => (r, j)
  end.

Definition new_queue (m : queueConfig) (name : string) : M js_state (Res queueConsumer) := λ j,
  match NewMessageQueue create_consumer (qc_Stream m) name with
  | Ok c => (Ok c, mkJs (js_streams j) (js_results j) (js_consumers j ++ [c]))
  | r => (r, j)
  end.

Definition StreamName : string := "mpc".
Definition KeygenResultQueueName : string := "mpc_keygen_result".
Definition SigningResultQueueName : string := "mpc_signing_result".
Definition ResharingResultQueueName : string := "mpc_resharing_result".

Definition result_subjects : list string :=
  [KeygenResultTopic; SigningResultTopic; ResharingResultTopic].

(** The fields of [initiator]; the node's variables but for the signer. *)
Record endpoints := mkEndpoints {
  broker_of : broker → brokerConfiguration;
  queue_of : broker → queueConsumer;
}.

Definition per_kind {A} (k s r : A) (b : broker) : A :=
  match b with KeygenBroker => k | SigningBroker => s | ResharingBroker => r end.

(** The part that is the same in both programs. *)
Definition new_queues : M js_state (Res (broker → queueConsumer)) :=
  messageQueueMgr ←! new_manager StreamName result_subjects;
  keygenResultQueue ←! new_queue messageQueueMgr KeygenResultQueueName;
  signingResultQueue ←! new_queue messageQueueMgr SigningResultQueueName;
  resharingResultQueue ←! new_queue messageQueueMgr ResharingResultQueueName;
  lift (Ok (per_kind keygenResultQueue signingResultQueue resharingResultQueue)).

Record initiator (S : Type) := mkInitiator { in_endpoints : endpoints; in_signer : S }.
Arguments mkInitiator {S} _ _.
Arguments in_endpoints {S} _.

Definition NewMPCClient {S} (signer : option S) : M js_state (Res (initiator S)) :=
  match signer with
  | None => lift (Panic "Signer is required")
  | Some signer =>
      signingBroker ←! new_broker "Failed to create signing jetstream broker"
                         SigningBrokerStream [SigningRequestTopic];
      keygenBroker ←! new_broker "Failed to create keygen jetstream broker"
                        KeygenBrokerStream [KeygenRequestTopic];
      resharingBroker ←! new_broker "Failed to create resharing jetstream broker"
                           ResharingBrokerStream [ResharingRequestTopic];
      queues ←! new_queues;
      lift (Ok (mkInitiator
        (mkEndpoints (per_kind keygenBroker signingBroker resharingBroker) queues) signer))
  end.

(** [runNode], from the connection to the result queues. *)
Definition runNode_messaging : M js_state (Res endpoints) :=
  keygenBroker ←! new_broker "Failed to create keygen jetstream broker"
                    KeygenBrokerStream [KeygenRequestTopic];
  signingBroker ←! new_broker "Failed to create signing jetstream broker"
                     SigningBrokerStream [SigningRequestTopic];
  resharingBroker ←! new_broker "Failed to create resharing jetstream broker"
                       ResharingBrokerStream [ResharingRequestTopic];
  queues ←! new_queues;
  lift (Ok (mkEndpoints (per_kind keygenBroker signingBroker resharingBroker) queues)).

End create.
#[global] Arguments mkInitiator {S} _ _.
#[global] Arguments in_endpoints {S} _.

(** ** Result queues *)

(** [mq.context]: the running consume loop, by number; [running] are those that have
    not been stopped. *)
Record messageQueue := mkQueue { mq_context : option nat; mq_started : nat; running : list nat }.

Definition fresh_queue : messageQueue := mkQueue None 0 [].

(** [consume] is the answer of [consumer.Consume]; the topic is not used. *)
Definition Dequeue (consume : Res unit) (topic : string) : M messageQueue (Res unit) := λ q,
  match consume with
  | Ok _ => (Ok tt, mkQueue (Some (mq_started q)) (S (mq_started q)) (mq_started q :: running q))
  | r => (r, mkQueue None (mq_started q) (running q))
  end.

Definition messageQueue_Close (q : messageQueue) : messageQueue :=
  match mq_context q with
  | Some n => mkQueue (mq_context q) (mq_started q)
                (List.filter (λ m, negb (Nat.eqb m n)) (running q))
  | None => q
  end.

Definition OnWalletCreationResult (consume : Res unit) : M messageQueue (Res unit) := λ q,
  let '(r, q) := Dequeue consume KeygenResultTopic q in
  (wrap_err "OnWalletCreationResult: subscribe error: " r, q).

Definition OnSignResult (consume : Res unit) : M messageQueue (Res unit) := λ q,
  let '(r, q) := Dequeue consume SigningResultCompleteTopic q in
  (wrap_err "OnSignResult: subscribe error: " r, q).

Definition OnResharingResult (consume : Res unit) : M messageQueue (Res unit) := λ q,
  let '(r, q) := Dequeue consume ResharingResultTopic q in
  (wrap_err "OnResharingResult: subscribe error: " r, q).

(** ** Subjects *)

Definition request_topic (b : broker) : string → string :=
  per_kind FormatKeygenRequestTopic FormatSigningRequestTopic FormatResharingRequestTopic b.

Definition result_topic (b : broker) : string → string :=
  per_kind FormatKeygenResultTopic FormatSigningResultTopic FormatResharingResultTopic b.

Definition request_stream (b : broker) : string :=
  per_kind KeygenBrokerStream SigningBrokerStream ResharingBrokerStream b.

Definition result_queue (b : broker) : string :=
  per_kind KeygenResultQueueName SigningResultQueueName ResharingResultQueueName b.

(** The streams that exist, with their subjects. *)
Definition stream_table (j : js_state) : list (string * list string) :=
  ((λ s, (st_Name s, st_Subjects s)) <$> js_streams j) ++
  ((λ q, (qc_Stream q, qc_Subjects q)) <$> js_results j).

Definition captures `{N : NatsSubjects} (subj : list string) (s : string) : bool :=
  existsb (λ f, subject_matches f s) subj.

(** An id NATS takes as one token. *)
Definition routable (id : string) : Prop := id ≠ EmptyString ∧ no_char dot id = true.

(** ** Properties *)

(** *** The six kinds of subject *)

Inductive kind := Request (b : broker) | Result (b : broker).

Definition root (k : kind) : string :=
  match k with
  | Request b => per_kind "mpc.keygen_request" "mpc.signing_request" "mpc.resharing_request" b
  | Result b =>
      per_kind "mpc.mpc_keygen_result" "mpc.mpc_signing_result" "mpc.mpc_resharing_result" b
  end.

Definition filter_of (k : kind) : string := root k +:+ ".*".
Definition topic_of (k : kind) (id : string) : string := root k +:+ "." +:+ id.

Lemma request_topic_of b id : request_topic b id = topic_of (Request b) id.
Proof. by destruct b. Qed.

Lemma result_topic_of b id : result_topic b id = topic_of (Result b) id.
Proof. by destruct b. Qed.

Lemma root_literal k : literal (root k) = true.
Proof. by destruct k as [[]|[]]. Qed.

Lemma no_char_dot_app c p id : Ascii.eqb dot c = false →
  no_char c (p +:+ "." +:+ id) = no_char c p && no_char c id.
Proof.
  intros Hc. rewrite !no_char_app. f_equal.
  change (no_char c ".") with (negb (Ascii.eqb dot c) && true). by rewrite Hc.
Qed.

Lemma topic_literal k id : literal id = true → literal (topic_of k id) = true.
Proof.
  pose proof (root_literal k) as Hr. unfold literal, topic_of in *.
  rewrite !no_char_dot_app by done. rewrite !andb_true_iff in *. tauto.
Qed.

(** No root is the beginning of another. *)
Lemma topic_of_inj k k' x y : topic_of k x = topic_of k' y → k = k' ∧ x = y.
Proof.
  unfold topic_of. intros H.
  destruct k as [[]|[]], k' as [[]|[]]; cbn in H; try discriminate H;
    injection H as H; by rewrite H.
Qed.

Section routing.
Context `{N : NatsSubjects} `{!NatsSubjectsSpec N}.

Lemma filter_of_matches k s : literal s = true →
  subject_matches (filter_of k) s = true ↔ ∃ id, s = topic_of k id ∧ routable id.
Proof. intros Hs. unfold filter_of. by rewrite matches_star by (done || apply root_literal). Qed.

(** A filter takes the subjects of its kind, with an id that is a token. *)
Lemma filter_of_topic_of k k' id : literal id = true →
  subject_matches (filter_of k) (topic_of k' id) = true ↔ k = k' ∧ routable id.
Proof.
  intros Hid. rewrite filter_of_matches by by apply topic_literal. split.
  - intros (id' & [-> ->]%topic_of_inj & Hr). done.
  - intros [-> Hr]. by exists id.
Qed.

Lemma captures_elem subj s :
  captures subj s = true ↔ ∃ f, f ∈ subj ∧ subject_matches f s = true.
Proof.
  unfold captures. rewrite existsb_exists. split.
  - intros (f & Hf & Hm). exists f. by rewrite list_elem_of_In.
  - intros (f & Hf & Hm). exists f. by rewrite <-list_elem_of_In.
Qed.

End routing.

(** *** What a successful start leaves *)

Section programs.
Variable context : Res unit.
Variable create_stream : StreamConfig → Res unit.
Variable create_results : queueConfig → Res unit.
Variable create_consumer : queueConsumer → Res unit.
#[local] Abbreviation new_broker := (new_broker context create_stream).
#[local] Abbreviation new_queues := (new_queues context create_results create_consumer).
#[local] Abbreviation NewMPCClient :=
  (NewMPCClient context create_stream create_results create_consumer).
#[local] Abbreviation runNode_messaging :=
  (runNode_messaging context create_stream create_results create_consumer).

Definition broker_config (b : broker) : brokerConfiguration :=
  default_config (request_stream b) [filter_of (Request b)].

Definition queue_consumer (b : broker) : queueConsumer :=
  mkQueueConsumer (result_queue b) (result_queue b) 1000 (30 * second) [filter_of (Result b)] 3.

Definition results_config : queueConfig :=
  mkQueueConfig StreamName (filter_of ∘ Result <$> [KeygenBroker; SigningBroker; ResharingBroker])
    10485760 WorkQueuePolicy FileStorage.

(** JetStream takes all of it. *)
Definition accepts : Prop :=
  context = Ok tt ∧ (∀ b, create_stream (streamConfig (broker_config b)) = Ok tt) ∧
  create_results results_config = Ok tt ∧ (∀ b, create_consumer (queue_consumer b) = Ok tt).

Lemma new_broker_spec fatal b j c j' :
  new_broker fatal (request_stream b) [filter_of (Request b)] j = (Ok c, j') ↔
  context = Ok tt ∧ create_stream (streamConfig (broker_config b)) = Ok tt ∧
  c = broker_config b ∧
  j' = mkJs (js_streams j ++ [streamConfig c]) (js_results j) (js_consumers j).
Proof.
  unfold Topology.new_broker, NewJetStreamBroker, ensureStreamExists. cbn [fold_left].
  change (default_config (request_stream b) [filter_of (Request b)]) with (broker_config b).
  destruct context as [[]| |]; cbn; [|naive_solver..].
  destruct (create_stream _) as [[]| |]; cbn; naive_solver.
Qed.

Lemma new_queue_spec m b j c j' :
  qc_Stream m = StreamName →
  new_queue create_consumer m (result_queue b) j = (Ok c, j') ↔
  create_consumer (queue_consumer b) = Ok tt ∧ c = queue_consumer b ∧
  j' = mkJs (js_streams j) (js_results j) (js_consumers j ++ [c]).
Proof.
  intros Hm. unfold new_queue, NewMessageQueue. rewrite Hm.
  replace (mkQueueConsumer (result_queue b) (result_queue b) 1000 (30 * second)
    [consumerWildCard StreamName (result_queue b)] 3) with (queue_consumer b) by by destruct b.
  destruct (create_consumer _) as [[]| |]; naive_solver.
Qed.

Lemma new_manager_spec j c j' :
  new_manager context create_results StreamName result_subjects j = (Ok c, j') ↔
  context = Ok tt ∧ create_results results_config = Ok tt ∧ c = results_config ∧
  j' = mkJs (js_streams j) (js_results j ++ [c]) (js_consumers j).
Proof.
  unfold new_manager, NewNATsMessageQueueManager.
  change (mkQueueConfig StreamName result_subjects 10485760 WorkQueuePolicy FileStorage)
    with results_config.
  destruct context as [[]| |]; [|naive_solver..].
  destruct (create_results _) as [[]| |]; naive_solver.
Qed.

Lemma new_queues_spec j q j' :
  new_queues j = (Ok q, j') ↔
  context = Ok tt ∧ create_results results_config = Ok tt ∧
  (∀ b, create_consumer (queue_consumer b) = Ok tt) ∧
  q = per_kind (queue_consumer KeygenBroker) (queue_consumer SigningBroker)
        (queue_consumer ResharingBroker) ∧
  j' = mkJs (js_streams j) (js_results j ++ [results_config])
         (js_consumers j ++ (queue_consumer <$> [KeygenBroker; SigningBroker; ResharingBroker])).
Proof.
  unfold Topology.new_queues. rewrite bindR_Ok. setoid_rewrite new_manager_spec.
  split.
  - intros (m & j1 & (Hc & Hr & -> & ->) & H).
    apply bindR_Ok in H as (q1 & j2 & H1 & H). apply bindR_Ok in H as (q2 & j3 & H2 & H).
    apply bindR_Ok in H as (q3 & j4 & H3 & H). apply lift_Ok in H as [[= <-] ->].
    apply (new_queue_spec results_config KeygenBroker) in H1 as (? & -> & ->); [|done].
    apply (new_queue_spec results_config SigningBroker) in H2 as (? & -> & ->); [|done].
    apply (new_queue_spec results_config ResharingBroker) in H3 as (? & -> & ->); [|done].
    split_and!; try done; [by intros []|]. cbn. by rewrite <-!app_assoc.
  - intros (Hc & Hr & Hq & -> & ->). eexists _, _. split; [split_and!; eauto|].
    repeat (apply bindR_Ok; eexists _, _; split;
      [first [apply (new_queue_spec results_config KeygenBroker)
             |apply (new_queue_spec results_config SigningBroker)
             |apply (new_queue_spec results_config ResharingBroker)]; [done|by split_and!]|]).
    cbn. unfold lift. by rewrite <-!app_assoc.
Qed.

Definition all_endpoints : endpoints :=
  mkEndpoints (per_kind (broker_config KeygenBroker) (broker_config SigningBroker)
                 (broker_config ResharingBroker))
    (per_kind (queue_consumer KeygenBroker) (queue_consumer SigningBroker)
       (queue_consumer ResharingBroker)).

(** The streams in the order [bs], the results and their queues. *)
Definition created (bs : list broker) (j : js_state) : js_state :=
  mkJs (js_streams j ++ (streamConfig ∘ broker_config <$> bs)) (js_results j ++ [results_config])
    (js_consumers j ++ (queue_consumer <$> [KeygenBroker; SigningBroker; ResharingBroker])).

Lemma NewMPCClient_spec {S} (sg : S) j i j' :
  NewMPCClient (Some sg) j = (Ok i, j') ↔
  accepts ∧ i = mkInitiator all_endpoints sg ∧
  j' = created [SigningBroker; KeygenBroker; ResharingBroker] j.
Proof.
  unfold Topology.NewMPCClient, accepts, created. split.
  - intros H. apply bindR_Ok in H as (b1 & j1 & H1 & H).
    apply bindR_Ok in H as (b2 & j2 & H2 & H). apply bindR_Ok in H as (b3 & j3 & H3 & H).
    apply bindR_Ok in H as (q & j4 & H4 & H). apply lift_Ok in H as [[= <-] ->].
    apply (new_broker_spec _ SigningBroker) in H1 as (? & ? & -> & ->).
    apply (new_broker_spec _ KeygenBroker) in H2 as (? & ? & -> & ->).
    apply (new_broker_spec _ ResharingBroker) in H3 as (? & ? & -> & ->).
    apply new_queues_spec in H4 as (? & ? & ? & -> & ->).
    split_and!; try done; [by intros []|]. cbn. by rewrite <-!app_assoc.
  - intros ((Hc & Hs & Hr & Hq) & -> & ->).
    apply bindR_Ok; eexists _, _; split; [by apply (new_broker_spec _ SigningBroker); eauto|].
    apply bindR_Ok; eexists _, _; split; [by apply (new_broker_spec _ KeygenBroker); eauto|].
    apply bindR_Ok; eexists _, _; split; [by apply (new_broker_spec _ ResharingBroker); eauto|].
    apply bindR_Ok; eexists _, _; split; [by apply new_queues_spec; eauto|].
    apply lift_Ok. split; [done|]. cbn. by rewrite <-!app_assoc.
Qed.

Lemma runNode_messaging_spec j n j' :
  runNode_messaging j = (Ok n, j') ↔
  accepts ∧ n = all_endpoints ∧ j' = created [KeygenBroker; SigningBroker; ResharingBroker] j.
Proof.
  unfold Topology.runNode_messaging, accepts, created. split.
  - intros H. apply bindR_Ok in H as (b1 & j1 & H1 & H).
    apply bindR_Ok in H as (b2 & j2 & H2 & H). apply bindR_Ok in H as (b3 & j3 & H3 & H).
    apply bindR_Ok in H as (q & j4 & H4 & H). apply lift_Ok in H as [[= <-] ->].
    apply (new_broker_spec _ KeygenBroker) in H1 as (? & ? & -> & ->).
    apply (new_broker_spec _ SigningBroker) in H2 as (? & ? & -> & ->).
    apply (new_broker_spec _ ResharingBroker) in H3 as (? & ? & -> & ->).
    apply new_queues_spec in H4 as (? & ? & ? & -> & ->).
    split_and!; try done; [by intros []|]. cbn. by rewrite <-!app_assoc.
  - intros ((Hc & Hs & Hr & Hq) & -> & ->).
    apply bindR_Ok; eexists _, _; split; [by apply (new_broker_spec _ KeygenBroker); eauto|].
    apply bindR_Ok; eexists _, _; split; [by apply (new_broker_spec _ SigningBroker); eauto|].
    apply bindR_Ok; eexists _, _; split; [by apply (new_broker_spec _ ResharingBroker); eauto|].
    apply bindR_Ok; eexists _, _; split; [by apply new_queues_spec; eauto|].
    apply lift_Ok. split; [done|]. cbn. by rewrite <-!app_assoc.
Qed.

(** A client and a node set up the same messaging: with the same answers of
    JetStream one starts exactly when the other does, they publish and consume with the
    same configurations, and the streams, the results stream and the queues they create
    are the same. *)
Theorem client_and_node_agree {S} (sg : S) j :
  ((∃ i j', NewMPCClient (Some sg) j = (Ok i, j')) ↔ (∃ n j', runNode_messaging j = (Ok n, j'))) ∧
  ∀ i j1 n j2, NewMPCClient (Some sg) j = (Ok i, j1) → runNode_messaging j = (Ok n, j2) →
    in_endpoints i = n ∧ js_streams j1 ≡ₚ js_streams j2 ∧ js_results j1 = js_results j2 ∧
    js_consumers j1 = js_consumers j2.
Proof.
  setoid_rewrite NewMPCClient_spec. setoid_rewrite runNode_messaging_spec. split; [naive_solver|].
  intros i j1 n j2 (Ha & -> & ->) (_ & -> & ->). split_and!; try done.
  cbn. apply Permutation_app_head, Permutation_swap.
Qed.

(** *** Where subjects lead *)

(** The filters of a stream that a program has created. *)
Lemma stream_table_created bs name subj :
  (∀ b, b ∈ bs) → (name, subj) ∈ stream_table (created bs no_streams) ↔
  (∃ b, name = request_stream b ∧ subj = [filter_of (Request b)]) ∨
  (name = StreamName ∧
   subj = filter_of ∘ Result <$> [KeygenBroker; SigningBroker; ResharingBroker]).
Proof.
  intros Hbs. unfold stream_table. cbn [created js_streams js_results no_streams app].
  rewrite elem_of_app, !list_elem_of_fmap. split.
  - intros [(st & [= -> ->] & Hst)|(q & [= -> ->] & Hq)].
    + apply list_elem_of_fmap in Hst as (b & -> & _). left. by exists b.
    + apply list_elem_of_singleton in Hq as ->. by right.
  - intros [(b & -> & ->)|[-> ->]].
    + left. exists (streamConfig (broker_config b)). split; [done|].
      apply list_elem_of_fmap. by exists b.
    + right. exists results_config. split; [done|]. set_solver.
Qed.

Lemma kinds_all (b : broker) : b ∈ [KeygenBroker; SigningBroker; ResharingBroker].
Proof. destruct b; set_solver. Qed.

Lemma client_kinds (b : broker) : b ∈ [SigningBroker; KeygenBroker; ResharingBroker].
Proof. destruct b; set_solver. Qed.

Section subjects.
Context `{N : NatsSubjects} `{!NatsSubjectsSpec N}.

Lemma captures_requests b k id : literal id = true →
  captures [filter_of (Request b)] (topic_of k id) = true ↔ k = Request b ∧ routable id.
Proof.
  intros Hid. rewrite captures_elem. setoid_rewrite list_elem_of_singleton. split.
  - intros (f & -> & [<- ?]%filter_of_topic_of); done.
  - intros [-> ?]. eexists. split; [done|]. by apply filter_of_topic_of.
Qed.

Lemma captures_results k id : literal id = true →
  captures (filter_of ∘ Result <$> [KeygenBroker; SigningBroker; ResharingBroker])
    (topic_of k id) = true ↔ (∃ b, k = Result b) ∧ routable id.
Proof.
  intros Hid. rewrite captures_elem. setoid_rewrite list_elem_of_fmap. split.
  - intros (f & (b & -> & _) & [<- ?]%filter_of_topic_of); [|done]. split; [by exists b|done].
  - intros [[b ->] ?]. exists (filter_of (Result b)). split.
    + exists b. split; [done|]. apply kinds_all.
    + by apply filter_of_topic_of.
Qed.

(** A message on the subject goes into the stream, or into the queue. *)
Definition stream_takes (j : js_state) (name s : string) : Prop :=
  ∃ subj, (name, subj) ∈ stream_table j ∧ captures subj s = true.
Definition queue_takes (j : js_state) (name s : string) : Prop :=
  ∃ q, q ∈ js_consumers j ∧ qn_Name q = name ∧ captures (qn_FilterSubjects q) s = true.

Lemma stream_takes_request bs b id name : (∀ b, b ∈ bs) → literal id = true →
  stream_takes (created bs no_streams) name (request_topic b id) ↔
  name = request_stream b ∧ routable id.
Proof.
  intros Hbs Hid. unfold stream_takes. setoid_rewrite stream_table_created; [|done].
  rewrite request_topic_of. split.
  - intros (subj & [(b1 & -> & ->)|[-> ->]] & Hc).
    + by apply captures_requests in Hc as [[= ->] ?].
    + by apply captures_results in Hc as [[? ?] _].
  - intros [-> Hr]. eexists. split; [left; by exists b|]. by apply captures_requests.
Qed.

Lemma stream_takes_result bs b id name : (∀ b, b ∈ bs) → literal id = true →
  stream_takes (created bs no_streams) name (result_topic b id) ↔
  name = StreamName ∧ routable id.
Proof.
  intros Hbs Hid. unfold stream_takes. setoid_rewrite stream_table_created; [|done].
  rewrite result_topic_of. split.
  - intros (subj & [(b1 & -> & ->)|[-> ->]] & Hc).
    + by apply captures_requests in Hc as [? _].
    + by apply captures_results in Hc as [_ ?].
  - intros [-> Hr]. eexists. split; [by right|]. apply captures_results; [done|].
    split; [by exists b|done].
Qed.

Lemma queue_takes_result bs b id name : literal id = true →
  queue_takes (created bs no_streams) name (result_topic b id) ↔
  name = result_queue b ∧ routable id.
Proof.
  intros Hid. unfold queue_takes. rewrite result_topic_of. cbn [created js_consumers no_streams app].
  setoid_rewrite list_elem_of_fmap. setoid_rewrite captures_elem. split.
  - intros (q & (b' & -> & _) & <- & f & Hf & Hm). apply list_elem_of_singleton in Hf as ->.
    by apply filter_of_topic_of in Hm as [[= ->] ?].
  - intros [-> Hr]. exists (queue_consumer b). split; [exists b; split; [done|apply kinds_all]|].
    split; [done|]. exists (filter_of (Result b)). split; [by apply list_elem_of_singleton|].
    by apply filter_of_topic_of.
Qed.

(** C14: where messages go, once a client or a node has set up its messaging.  There is
    a stream for each kind of request, one for the results, and a queue for each kind of
    result; a request is taken by the stream of its kind and by no other, a result by the
    results stream and by the queue of its kind and by no other, exactly when the id in its
    subject is one token, not empty and without a dot.  The id has no wildcard and no
    blank, which NATS does not allow in the subject of a message. *)
Theorem subjects_routed {S} (sg : S) j b id
    (Hstarted : (∃ i, NewMPCClient (Some sg) no_streams = (Ok i, j)) ∨
                (∃ n, runNode_messaging no_streams = (Ok n, j)))
    (Hid : literal id = true) :
  (∀ name, stream_takes j name (request_topic b id) ↔ name = request_stream b ∧ routable id) ∧
  (∀ name, stream_takes j name (result_topic b id) ↔ name = StreamName ∧ routable id) ∧
  (∀ name, queue_takes j name (result_topic b id) ↔ name = result_queue b ∧ routable id).
Proof.
  assert (∃ bs, (∀ b, b ∈ bs) ∧ j = created bs no_streams) as (bs & Hbs & ->).
  { destruct Hstarted as [(i & (_ & _ & ->)%NewMPCClient_spec)|
      (n & (_ & _ & ->)%runNode_messaging_spec)]; eexists; (split; [|done]).
    - apply client_kinds.
    - apply kinds_all. }
  split_and!; intros name.
  - by apply stream_takes_request.
  - by apply stream_takes_result.
  - by apply queue_takes_result.
Qed.

(** No subject is taken by two streams: JetStream accepts them side by side. *)
Lemma streams_disjoint s n1 f1 n2 f2 : literal s = true →
  (n1, f1) ∈ stream_table (created [SigningBroker; KeygenBroker; ResharingBroker] no_streams) →
  (n2, f2) ∈ stream_table (created [SigningBroker; KeygenBroker; ResharingBroker] no_streams) →
  captures f1 s = true → captures f2 s = true → n1 = n2.
Proof.
  intros Hs. rewrite !stream_table_created by exact client_kinds. rewrite !captures_elem.
  intros H1 H2 (g1 & Hg1 & Hm1) (g2 & Hg2 & Hm2).
  assert (∀ n f g, (∃ b, n = request_stream b ∧ f = [filter_of (Request b)]) ∨
    (n = StreamName ∧ f = filter_of ∘ Result <$> [KeygenBroker; SigningBroker; ResharingBroker]) →
    g ∈ f → ∃ k, g = filter_of k ∧ n = match k with Request b => request_stream b
                                       | Result _ => StreamName end) as Hk.
  { intros n f g [(b & -> & ->)|[-> ->]].
    - intros ->%list_elem_of_singleton. by exists (Request b).
    - intros (b & -> & _)%list_elem_of_fmap. by exists (Result b). }
  destruct (Hk _ _ _ H1 Hg1) as (k1 & -> & ->), (Hk _ _ _ H2 Hg2) as (k2 & -> & ->).
  apply filter_of_matches in Hm1 as (x & -> & _); [|done].
  apply filter_of_matches in Hm2 as (y & [-> _]%topic_of_inj & _); [done|].
  done.
Qed.

End subjects.

End programs.

(** *** Result queues *)

(** A second [Dequeue] on a queue leaves the first loop to run after [Close]. *)
Lemma second_Dequeue_outlives_Close t1 t2 :
  running (messageQueue_Close
    (exec (Dequeue (Ok tt) t2) (exec (Dequeue (Ok tt) t1) fresh_queue))) = [0%nat].
Proof. done. Qed.

Lemma one_Dequeue_closed t : running (messageQueue_Close
    (exec (Dequeue (Ok tt) t) fresh_queue)) = [].
Proof. done. Qed.

(** *** NATS's matching, token by token *)

Definition token_matches (p t : string) : bool :=
  if String.eqb p "*" then negb (String.eqb t "") else String.eqb p t.

Fixpoint tokens_match (ps ts : list string) : bool :=
  match ps, ts with
  | [], [] => true
  | p :: ps, t :: ts => token_matches p t && tokens_match ps ts
  | _, _ => false
  end.

Definition subjects_ref : NatsSubjects :=
  {| subject_matches := λ f s, tokens_match (Split dot f) (Split dot s) |}.

Lemma Split_inj c a b : Split c a = Split c b → a = b.
Proof.
  revert b. induction a as [|d a IH]; intros [|e b]; cbn.
  - done.
  - destruct (Ascii.eqb e c); [by destruct (Split_cons c b) as (w & ws & ->)|].
    by destruct (Split_cons c b) as (w & ws & ->).
  - destruct (Ascii.eqb d c); by destruct (Split_cons c a) as (w & ws & ->).
  - destruct (Split_cons c a) as (w & ws & Ha), (Split_cons c b) as (w' & ws' & Hb).
    destruct (Ascii.eqb d c) eqn:Hd, (Ascii.eqb e c) eqn:He; rewrite Ha, Hb in *.
    + apply Ascii.eqb_eq in Hd as ->, He as ->. intros [= -> ->]. f_equal. apply IH. congruence.
    + done.
    + done.
    + intros [= -> -> ->]. f_equal. apply IH. congruence.
Qed.

Lemma Split_tokens c q s tok : tok ∈ Split c s → string_forallb q s = true →
  string_forallb q tok = true ∧ no_char c tok = true.
Proof.
  revert tok. induction s as [|d s IH]; cbn; intros tok.
  - by intros ->%list_elem_of_singleton.
  - destruct (Ascii.eqb d c) eqn:Hd.
    + intros [->|Hin]%elem_of_cons [_ Hs]%andb_true_iff; [done|]. by apply IH.
    + destruct (Split_cons c s) as (w & ws & Hw). rewrite Hw in *.
      intros [->|Hin]%elem_of_cons [Hq Hs]%andb_true_iff.
      * destruct (IH w) as [H1 H2]; [set_solver|done|]. cbn. by rewrite Hq, H1, Hd.
      * apply IH; [set_solver|done].
Qed.

(** Tokens without a wildcard match only themselves. *)
Lemma tokens_match_literal (ps ts qs : list string) :
  (∀ p, p ∈ ps → p ≠ "*") →
  tokens_match (ps ++ qs) ts = true →
  ∃ ts', ts = ps ++ ts' ∧ tokens_match qs ts' = true.
Proof.
  revert ts. induction ps as [|p ps IH]; cbn; intros ts Hp H; [by exists ts|].
  destruct ts as [|t ts]; [done|]. apply andb_true_iff in H as [Ht H].
  unfold token_matches in Ht. rewrite (proj2 (String.eqb_neq _ _)) in Ht by (apply Hp; set_solver).
  apply String.eqb_eq in Ht as ->.
  destruct (IH ts) as (ts' & -> & Hm); [set_solver|done|]. by exists ts'.
Qed.

Lemma tokens_match_refl ps qs ts :
  (∀ p, p ∈ ps → p ≠ "*") → tokens_match (ps ++ qs) (ps ++ ts) = tokens_match qs ts.
Proof.
  induction ps as [|p ps IH]; cbn; intros Hp; [done|]. rewrite IH by set_solver.
  unfold token_matches. rewrite (proj2 (String.eqb_neq _ _)) by (apply Hp; set_solver).
  by rewrite String.eqb_refl.
Qed.

Definition subjects_ref_spec : NatsSubjectsSpec subjects_ref.
Proof.
  split. cbn. intros p s Hp Hs. change (p +:+ ".*") with (p +:+ String dot "*").
  rewrite (Split_app dot p "*"). change (Split dot "*") with ["*"].
  assert (∀ t, t ∈ Split dot p → t ≠ "*") as Hlit.
  { intros t Ht ->. unfold literal in Hp. apply andb_true_iff in Hp as [Hp _].
    apply andb_true_iff in Hp as [Hp _]. by eapply Split_tokens in Ht as [Ht _]; [|exact Hp]. }
  split.
  - intros (ts & Hts & Hm)%tokens_match_literal; [|done].
    destruct ts as [|tok [|]]; cbn in Hm; [done| |by rewrite andb_false_r in Hm].
    rewrite andb_true_r in Hm. apply negb_true_iff, String.eqb_neq in Hm.
    assert (tok ∈ Split dot s) as Hin by (rewrite Hts; set_solver).
    apply (Split_tokens _ (λ _, true)) in Hin as [_ Hdot]; [|by clear; induction s].
    exists tok. split_and!; [|done..]. apply (Split_inj dot).
    change (p +:+ "." +:+ tok) with (p +:+ String dot tok).
    by rewrite Split_app, (Split_none _ tok).
  - intros (tok & -> & Hne & Hdot). change (p +:+ "." +:+ tok) with (p +:+ String dot tok).
    rewrite Split_app, tokens_match_refl, (Split_none _ tok) by done. cbn.
    rewrite andb_true_r. by apply negb_true_iff, String.eqb_neq.
Qed.

(** *** Witnesses *)

Definition js_ok {A} (_ : A) : Res unit := Ok tt.

Lemma client_and_node_agree_witness :
  let c := NewMPCClient (Ok tt) js_ok js_ok js_ok (Some tt) no_streams in
  let n := runNode_messaging (Ok tt) js_ok js_ok js_ok no_streams in
  is_Ok c.1 = true ∧ is_Ok n.1 = true ∧ js_streams c.2 ≡ₚ js_streams n.2.
Proof.
  cbv zeta. split_and!; [done..|].
  destruct (client_and_node_agree (Ok tt) js_ok js_ok js_ok tt no_streams) as [_ H].
  edestruct H as (_ & Hp & _); [reflexivity..|]. exact Hp.
Defined.

Lemma subjects_routed_witness :
  let j := (NewMPCClient (Ok tt) js_ok js_ok js_ok (Some tt) no_streams).2 in
  stream_takes (N := subjects_ref) j SigningBrokerStream (FormatSigningRequestTopic "tx1") ∧
  ¬ stream_takes (N := subjects_ref) j KeygenBrokerStream (FormatSigningRequestTopic "tx1") ∧
  ¬ stream_takes (N := subjects_ref) j SigningBrokerStream (FormatSigningRequestTopic "tx.1").
Proof.
  cbv zeta.
  pose (j := (NewMPCClient (Ok tt) js_ok js_ok js_ok (Some tt) no_streams).2).
  assert (∃ i, NewMPCClient (Ok tt) js_ok js_ok js_ok (Some tt) no_streams = (Ok i, j)) as Hj
    by (exists (mkInitiator all_endpoints tt); reflexivity).
  split_and!.
  - apply (subjects_routed (N := subjects_ref) (NatsSubjectsSpec0 := subjects_ref_spec)
      (Ok tt) js_ok js_ok js_ok tt j SigningBroker "tx1" (or_introl Hj) eq_refl).
    split; [reflexivity|split; [discriminate|reflexivity]].
  - intros H. apply (subjects_routed (N := subjects_ref) (NatsSubjectsSpec0 := subjects_ref_spec)
      (Ok tt) js_ok js_ok js_ok tt j SigningBroker "tx1" (or_introl Hj) eq_refl) in H.
    by destruct H as [? _].
  - intros H. apply (subjects_routed (N := subjects_ref) (NatsSubjectsSpec0 := subjects_ref_spec)
      (Ok tt) js_ok js_ok js_ok tt j SigningBroker "tx.1" (or_introl Hj) eq_refl) in H.
    by destruct H as [_ [_ ?]].
Defined.
