(* ===== verification/Keys.v ===== *)
(** * Key files of a node: cmd/cli/identity, cmd/cli/utils, pkg/identity

    The command line generates the key pair of a node and writes it, encrypted
    with a passphrase or not; the node reads it when it starts.  The state is a
    disk, which maps paths to contents.  age, which encrypts the file, is a class. *)

From stdpp Require Import base gmap list strings.
From Stdlib Require Import ZArith Lia Ascii.
From S2P Require Import Prelude.
From S2P Require Import GoStrings.
From S2P Require Import External.
From S2P Require Import Json.
From S2P Require Import Paths.
From S2P Require Import Types.
From S2P Require Import Identity.

(** ** os *)

Notation disk := (gmap string string) (only parsing).

(** What the file system answers: the errors of [os.Stat], of opening a file for
    reading, of [os.MkdirAll] and of writing.  A write fails when the file is opened
    ([None]) or after some bytes. *)
Record os := mkOs {
  os_stat : string → option error;
  os_read : string → option error;
  os_mkdir : string → option error;
  os_write : string → option (option nat * error);
}.

Definition os_fine : os := mkOs (λ _, None) (λ _, None) (λ _, None) (λ _, None).

Definition ErrNotExist : error := Sentinel "ErrNotExist" "file does not exist".

Definition answer (e : option error) : Res unit :=
  match e with Some e => Err e | None => Ok tt end.

Section os.
Variable o : os.

Definition Stat (path : string) (d : disk) : Res unit :=
  _ ← answer (os_stat o path);
  match d !! path with Some _ => Ok tt | None => Err ErrNotExist end.

Definition ReadFile (path : string) (d : disk) : Res string :=
  _ ← answer (os_read o path);
  of_option ErrNotExist (d !! path).

Definition WriteFile (path content : string) : M disk (Res unit) := λ d,
  match os_write o path with
  | Some (None, e) => (Err e, d)
  | Some (Some n, e) => (Err e, <[path := take_s n content]> d)
  | None => (Ok tt, <[path := content]> d)
  end.

Definition MkdirAll (path : string) : Res unit := answer (os_mkdir o path).

(** [if _, err := os.Stat(path); err == nil && !overwrite { return fmt.Errorf(msg) }] *)
Definition refuse (overwrite : bool) (path msg : string) : M disk (Res unit) := λ d,
  (if is_Ok (Stat path d) && negb overwrite then Err (errors_New msg) else Ok tt, d).

Lemma refuse_Ok overwrite path msg d d' :
  refuse overwrite path msg d = (Ok tt, d') → d' = d.
Proof. unfold refuse. case_match; [done|]. by intros [= <-]. Qed.

Lemma WriteFile_Ok path content d d' :
  WriteFile path content d = (Ok tt, d') → d' = <[path := content]> d.
Proof. unfold WriteFile. destruct (os_write o path) as [[[n|] e]|]; by intros [= <-]. Qed.

End os.

Definition wrapM {S A} (prefix : string) (m : M S (Res A)) : M S (Res A) := λ s,
  let '(r, s') := m s in (wrap_err prefix r, s').

Lemma wrapM_Ok {S A} prefix (m : M S (Res A)) s a s' :
  wrapM prefix m s = (Ok a, s') ↔ m s = (Ok a, s').
Proof.
  unfold wrapM. destruct (m s) as [[] s1]; cbn; (split; [|done || by intros [= -> ->]]);
    [done|intros [=]..].
Qed.

(** ** cmd/cli/utils/password.go *)

Definition is_alnum (c : ascii) : bool :=
  let n := byte_of c in
  ((97 <=? n) && (n <=? 122)) || ((65 <=? n) && (n <=? 90)) || ((48 <=? n) && (n <=? 57)).

(** The loop over the runes; [skip] bytes belong to a rune that has been counted. *)
Fixpoint special_loop (skip : nat) (count n : Z) (s : string) : bool :=
  match s with
  | EmptyString => false
  | String c s' =>
      match skip with
      | S k => special_loop k count n s'
      | O => if is_alnum c then special_loop 0 count n s'
             else if n <=? count + 1 then true
             else special_loop (pred (utf8_size s)) (count + 1) n s'
      end
  end.

Definition ContainsAtLeastNSpecial (s : string) (n : Z) : bool := special_loop 0 0 n s.

(** [first] and [second] are the answers of [term.ReadPassword]. *)
Definition RequestPassword (first second : Res string) : Res string :=
  passphrase ← wrap_err "failed to read passphrase: " first;
  confirmation ← wrap_err "failed to read confirmation passphrase: " second;
  if negb (String.eqb passphrase confirmation) then
    Err (errors_New "passphrases do not match")
  else if Z.of_nat (String.length passphrase) <? 12 then
    Err (errors_New "passphrase too short (minimum 12 characters recommended)")
  else if negb (ContainsAtLeastNSpecial passphrase 1) then
    Err (errors_New "passphrase must contain at least 2 special characters")
  else Ok passphrase.

Definition PromptPassword (read : Res string) : Res string :=
  password ← wrap_err "failed to read password: " read;
  if String.eqb password "" then Err (errors_New "password cannot be empty") else Ok password.

(** ** age: files encrypted with a passphrase *)

Class Age := {
  age_Recipient : Type;
  age_Identity : Type;
  age_Reader : Type;
  NewScryptRecipient : string → Res age_Recipient;
  NewScryptIdentity : string → Res age_Identity;
  age_ciphertext : age_Recipient → string → string → string;   (* randomness, plaintext *)
  age_Decrypt : string → age_Identity → Res age_Reader;
  age_ReadAll : age_Reader → Res string;
}.

Class AgeSpec (A : Age) := {
  scrypt_identity p r : NewScryptRecipient p = Ok r → ∃ i, NewScryptIdentity p = Ok i;
  age_Decrypt_ciphertext p r i rnd m :
    NewScryptRecipient p = Ok r → NewScryptIdentity p = Ok i →
    ∃ rd, age_Decrypt (age_ciphertext r rnd m) i = Ok rd ∧ age_ReadAll rd = Ok m;
}.

Definition toy_age : Age := {|
  age_Recipient := string;
  age_Identity := string;
  age_Reader := string;
  NewScryptRecipient p :=
    if String.eqb p "" then Err (errors_New "passphrase can't be empty") else Ok p;
  NewScryptIdentity p :=
    if String.eqb p "" then Err (errors_New "passphrase can't be empty") else Ok p;
  age_ciphertext r rnd m := "age " +:+ r +:+ " " +:+ m;
  age_Decrypt c i := of_option (errors_New "incorrect passphrase")
                       (TrimPrefix_opt c ("age " +:+ i +:+ " "));
  age_ReadAll := Ok;
|}.

Definition toy_age_spec : AgeSpec toy_age.
Proof.
  split; cbn -[TrimPrefix_opt String.append].
  - intros p r. destruct (String.eqb p ""); [done|]. eauto.
  - intros p r i rnd m. destruct (String.eqb p ""); [done|]. intros [= <-] [= <-].
    exists m. split; [|done].
    change ("age " +:+ p +:+ " " +:+ m) with ("age " +:+ (p +:+ (" " +:+ m))).
    by rewrite <-(app_assoc_s p " " m), <-(app_assoc_s "age " (p +:+ " ") m), TrimPrefix_opt_app.
Qed.

(** The calls that write the encrypted file. *)
Inductive age_step := AgeEncrypt | AgeWrite | AgeClose.

Definition age_step_error (s : age_step) : string :=
  match s with
  | AgeEncrypt => "failed to create age encryption writer: "
  | AgeWrite => "failed to write encrypted private key: "
  | AgeClose => "failed to finalize age encryption: "
  end.

(** ed25519.NewKeyFromSeed; a private key begins with its seed. *)
Class Ed25519Seed := { NewKeyFromSeed : string → string }.

Class Ed25519SeedSpec (E : Ed25519Seed) := {
  NewKeyFromSeed_length s : String.length s = 32%nat → String.length (NewKeyFromSeed s) = 64%nat;
  NewKeyFromSeed_seed s : String.length s = 32%nat → take_s 32 (NewKeyFromSeed s) = s;
}.

Definition toy_seed : Ed25519Seed := {| NewKeyFromSeed s := s +:+ s |}.

Definition toy_seed_spec : Ed25519SeedSpec toy_seed.
Proof.
  split; cbn; intros s Hs; [by rewrite length_app_s, Hs|].
  rewrite <-Hs. apply take_drop_app_s.
Qed.

(** ** cmd/cli/identity/generate.go *)

(** json.MarshalIndent of a struct of strings. *)
Definition MarshalIndent_struct (fields : list (string * string)) : string :=
  let newline := str1 (chr 10) in
  "{" +:+ newline +:+
  concat_with ("," +:+ newline)
    ((λ f, "  " +:+ json_string f.1 +:+ ": " +:+ json_string f.2) <$> fields) +:+
  newline +:+ "}".

Definition NodeIdentity_fields (i : NodeIdentity) : list (string * string) :=
  [("node_name", ni_NodeName i); ("node_id", ni_NodeID i);
   ("public_key", ni_PublicKey i); ("created_at", ni_CreatedAt i)].

(** What a run of the command meets. *)
Record generate_env := mkGenerateEnv {
  ge_os : os;
  ge_seed : Res string;                         (* the random seed of ed25519.GenerateKey *)
  ge_now : string;
  ge_random : string;                           (* what age draws *)
  ge_age : option (age_step * nat * error);     (* a failure, and the bytes written before it *)
  ge_first : Res string;                        (* the two answers of the terminal *)
  ge_second : Res string;
}.

Section keys.
Context `{C : Crypto} `{A : Age} `{E : Ed25519Seed}.

(** The encrypted branch from [os.Create] to [identityWriter.Close]. *)
Definition write_encrypted (env : generate_env) (path passphrase plaintext : string) :
    M disk (Res unit) := λ d,
  match os_write (ge_os env) path with
  | Some (None, e) => (Err (Errorf_w "failed to create encrypted private key file: " e), d)
  | _ =>
      match wrap_err "failed to create scrypt recipient: " (NewScryptRecipient passphrase) with
      | Ok recipient =>
          let c := age_ciphertext recipient (ge_random env) plaintext in
          match ge_age env with
          | Some (step, n, e) =>
              (Err (Errorf_w (age_step_error step) e), <[path := take_s n c]> d)
          | None => (Ok tt, <[path := c]> d)
          end
      | Err e => (Err e, <[path := EmptyString]> d)
      | Panic w => (Panic w, <[path := EmptyString]> d)
      end
  end.

Definition generateNodeIdentity (env : generate_env) (nodeName nodeID identityDir : string)
    (encrypt : bool) (passphrase : string) (overwrite : bool) : M disk (Res unit) :=
  seed ←! lift (wrap_err "failed to generate keypair: " (ge_seed env));
  let privKey := NewKeyFromSeed seed in
  let pubKey := ed25519_Public privKey in
  let identity := mkNodeIdentity nodeName nodeID (hex_EncodeToString pubKey) (ge_now env) in
  let identityPath := Join identityDir (nodeName +:+ "_identity.json") in
  _ ←! refuse (ge_os env) overwrite identityPath
         ("identity file " +:+ identityPath +:+ " already exists. Use --overwrite to force");
  _ ←! wrapM "failed to write identity JSON: "
         (WriteFile (ge_os env) identityPath (MarshalIndent_struct (NodeIdentity_fields identity)));
  let privateKeyHex := hex_EncodeToString privKey in
  let privateKeyPath := Join identityDir (nodeName +:+ "_private.key") in
  if encrypt then
    let encryptedKeyPath := privateKeyPath +:+ ".age" in
    _ ←! refuse (ge_os env) overwrite encryptedKeyPath
           ("encrypted key file " +:+ encryptedKeyPath +:+
            " already exists. Use --overwrite to force");
    _ ←! lift (wrap_err "invalid encrypted key file path: " (ValidateFilePath encryptedKeyPath));
    write_encrypted env encryptedKeyPath passphrase privateKeyHex
  else
    _ ←! refuse (ge_os env) overwrite privateKeyPath
           ("private key file " +:+ privateKeyPath +:+ " already exists. Use --overwrite to force");
    wrapM "failed to write private key: " (WriteFile (ge_os env) privateKeyPath privateKeyHex).

Variable decodePeers : string → Res (gmap string string).

Definition check_peers_file (o : os) (peersPath : string) : M disk (Res unit) := λ d,
  (match Stat o peersPath d with
   | Err e => if errors_Is e "ErrNotExist"
              then Err (errors_New ("peers file " +:+ peersPath +:+ " does not exist"))
              else Err (Errorf_w "error checking peers file: " e)
   | r => r
   end, d).

Definition runGenerateIdentity (env : generate_env) (nodeName peersPath identityDir : string)
    (encrypt overwrite : bool) : M disk (Res unit) :=
  passphrase ←! lift (if encrypt then RequestPassword (ge_first env) (ge_second env)
                      else Ok EmptyString);
  _ ←! check_peers_file (ge_os env) peersPath;
  _ ←! lift (wrap_err "invalid peers file path: " (ValidateFilePath peersPath));
  peersData ←! λ d, (wrap_err "failed to read peers file: " (ReadFile (ge_os env) peersPath d), d);
  peers ←! lift (wrap_err "failed to parse peers JSON: " (decodePeers peersData));
  nodeID ←! lift (of_option (errors_New ("node " +:+ nodeName +:+ " not found in peers file"))
                    (peers !! nodeName));
  _ ←! lift (wrap_err "failed to create identity directory: " (MkdirAll (ge_os env) identityDir));
  wrapM ("failed to generate identity for " +:+ nodeName +:+ ": ")
    (generateNodeIdentity env nodeName nodeID identityDir encrypt passphrase overwrite).

(** ** pkg/identity/identity.go: loadPrivateKey *)

(** The passphrase, from a file or from the terminal; [prompt] is the answer of
    [term.ReadPassword]. *)
Definition key_passphrase (o : os) (prompt : Res string) (agePasswordFile : string) (d : disk) :
    Res string :=
  if negb (String.eqb agePasswordFile "") then
    data ← wrap_err ("failed to read age key file " +:+ agePasswordFile +:+ ": ")
             (ReadFile o agePasswordFile d);
    Ok (TrimSpace data)
  else wrap_err "failed to read passphrase: " prompt.

(** An opened file is read to its end. *)
Definition loadPrivateKey (o : os) (wd prompt : Res string) (identityDir nodeName : string)
    (decrypt : bool) (agePasswordFile : string) (d : disk) : Res string :=
  encryptedKeyPath ← wrap_err ("invalid encrypted key path for node " +:+ nodeName +:+ ": ")
    (SafePath wd identityDir (nodeName +:+ "_private.key.age"));
  unencryptedKeyPath ← wrap_err ("invalid unencrypted key path for node " +:+ nodeName +:+ ": ")
    (SafePath wd identityDir (nodeName +:+ "_private.key"));
  if decrypt then
    _ ← wrap_err ("failed to check encrypted private key for node " +:+ nodeName +:+ " at " +:+
                  encryptedKeyPath +:+ ": ") (Stat o encryptedKeyPath d);
    encryptedFile ← wrap_err "failed to open encrypted key file: " (ReadFile o encryptedKeyPath d);
    passphrase ← key_passphrase o prompt agePasswordFile d;
    identity ← wrap_err "failed to create identity for decryption: " (NewScryptIdentity passphrase);
    decrypter ← wrap_err "failed to decrypt private key: " (age_Decrypt encryptedFile identity);
    wrap_err "failed to read decrypted key: " (age_ReadAll decrypter)
  else
    match Stat o unencryptedKeyPath d with
    | Err _ => Err (errors_New ("no unencrypted private key found for node " +:+ nodeName))
    | _ => wrap_err "failed to read private key file: " (ReadFile o unencryptedKeyPath d)
    end.

(** [identity.NewFileStore] on a disk. *)
Definition open_store `{MapRange} (o : os) (wd prompt : Res string)
    (decodeIdentity : string → Res NodeIdentity) (ik : Res InitiatorKey)
    (identityDir nodeName : string) (decrypt : bool) (agePasswordFile : string) (d : disk) :
    Res fileStore :=
  NewFileStore wd (λ p, ReadFile o p d) decodeIdentity decodePeers (MkdirAll o identityDir)
    identityDir nodeName
    (loadPrivateKey o wd prompt identityDir nodeName decrypt agePasswordFile d) ik.

End keys.

(** ** Properties *)

Lemma special_loop_1 s : special_loop 0 0 1 s = negb (string_forallb is_alnum s).
Proof.
  induction s as [|c s IH]; [done|]. cbn -[utf8_size]. destruct (is_alnum c); [apply IH|done].
Qed.

Lemma RequestPassword_first first second p : RequestPassword first second = Ok p → first = Ok p.
Proof. unfold RequestPassword. intros H. inv_res. cases. Qed.

(** A passphrase is accepted exactly when it was typed twice, has at least twelve
    bytes, and at least one character that is no ASCII letter or digit; the message
    of the last check asks for two. *)
Theorem RequestPassword_accepts first second p :
  RequestPassword first second = Ok p ↔
  first = Ok p ∧ second = Ok p ∧ (12 ≤ String.length p)%nat ∧ string_forallb is_alnum p = false.
Proof.
  unfold RequestPassword, ContainsAtLeastNSpecial. split.
  - intros H. inv_res. rewrite special_loop_1 in *.
    match goal with H : (if negb (String.eqb ?a ?b) then _ else _) = _ |- _ =>
      destruct (String.eqb_spec a b) as [->|]; [|done] end. cbn in *.
    case_match eqn:Hlen; [done|]. case_match eqn:Hsp; [done|]. simplify_eq/=.
    rewrite negb_involutive in Hsp. split_and!; [done..|lia|done].
  - intros (-> & -> & Hlen & Hsp). cbn [mbind Res_bind wrap_err]. rewrite String.eqb_refl. cbn.
    rewrite special_loop_1, Hsp. cbn. by rewrite (proj2 (Z.ltb_ge _ _)) by lia.
Qed.

Lemma RequestPassword_accepts_witness :
  RequestPassword (Ok "correct horse") (Ok "correct horse") = Ok "correct horse".
Proof.
  apply RequestPassword_accepts. split_and!; [done|done|cbn; lia|vm_compute; reflexivity].
Defined.

Section key_props.
Context `{C : Crypto} `{A : Age} `{!AgeSpec A} `{E : Ed25519Seed} `{!Ed25519SeedSpec E}.
Variable decodePeers : string → Res (gmap string string).

Lemma write_encrypted_Ok env path pass plain d d' :
  write_encrypted env path pass plain d = (Ok tt, d') →
  ∃ r, NewScryptRecipient pass = Ok r ∧
       d' = <[path := age_ciphertext r (ge_random env) plain]> d.
Proof.
  unfold write_encrypted. intros H.
  assert (match wrap_err "failed to create scrypt recipient: " (NewScryptRecipient pass) with
          | Ok _ => True | _ => False end ∧ ge_age env = None) as [Hr Ha].
  { destruct (os_write (ge_os env) path) as [[[n|] e]|]; [|done|];
    (destruct (wrap_err _ _); [|done..]); destruct (ge_age env) as [[[]]|]; done. }
  destruct (NewScryptRecipient pass) as [r| |]; [|done..]. exists r. split; [done|].
  rewrite Ha in H. cbn in H. destruct (os_write (ge_os env) path) as [[[n|] e]|];
    [|done|]; by injection H as <-.
Qed.

(** The file of the private key below the directory. *)
Definition key_file (nodeName : string) (encrypt : bool) : string :=
  nodeName +:+ (if encrypt then "_private.key.age" else "_private.key").

Lemma plain_file name suffix : no_char slash (name +:+ suffix) = true →
  (2 < String.length suffix)%nat → plain (name +:+ suffix).
Proof.
  intros Hs Hl. assert (2 < String.length (name +:+ suffix))%nat as Hn
    by (rewrite length_app_s; lia).
  repeat split; try done; intros He; rewrite He in Hn; cbn in Hn; lia.
Qed.

Lemma path_of_snoc_app r l a b : path_of r (l ++ [a]) +:+ b = path_of r (l ++ [a +:+ b]).
Proof. destruct (path_of_snoc r l) as (p & _ & Hp). by rewrite !Hp, app_assoc_s. Qed.

Lemma path_of_snoc_inj r l a b : path_of r (l ++ [a]) = path_of r (l ++ [b]) → a = b.
Proof. destruct (path_of_snoc r l) as (p & _ & Hp). rewrite !Hp. apply app_inj_l_s. Qed.

(** What a successful generation leaves on the disk. *)
Lemma generateNodeIdentity_Ok env node id r l encrypt pass overwrite d d' :
  no_char slash node = true → Forall plain l →
  generateNodeIdentity env node id (path_of r l) encrypt pass overwrite d = (Ok tt, d') →
  ∃ seed content, ge_seed env = Ok seed ∧
    let priv := NewKeyFromSeed seed in
    d' = <[path_of r (l ++ [key_file node encrypt]) := content]>
          (<[path_of r (l ++ [node +:+ "_identity.json"]) := MarshalIndent_struct
               (NodeIdentity_fields (mkNodeIdentity node id
                  (hex_EncodeToString (ed25519_Public priv)) (ge_now env)))]> d) ∧
    if encrypt then ∃ rc, NewScryptRecipient pass = Ok rc ∧
                          content = age_ciphertext rc (ge_random env) (hex_EncodeToString priv)
    else content = hex_EncodeToString priv.
Proof.
  intros Hname Hl. unfold generateNodeIdentity.
  assert (∀ s, no_char slash s = true → no_char slash (node +:+ s) = true) as Hsl.
  { intros s Hs. by rewrite no_char_app, Hname, Hs. }
  assert (plain (node +:+ "_identity.json")) as Hid by (apply plain_file; [by apply Hsl|cbn; lia]).
  assert (plain (node +:+ "_private.key")) as Hkey by (apply plain_file; [by apply Hsl|cbn; lia]).
  rewrite !Join_plain by done.
  intros (seed & d0 & [Hseed%wrap_err_Ok ->]%lift_Ok & H)%bindR_Ok. cbv zeta in H.
  apply bindR_Ok in H as ([] & d1 & ->%refuse_Ok & H).
  apply bindR_Ok in H as ([] & d2 & ->%wrapM_Ok%WriteFile_Ok & H).
  exists seed. destruct encrypt.
  - apply bindR_Ok in H as ([] & d3 & ->%refuse_Ok & H).
    apply bindR_Ok in H as ([] & d4 & [_ ->]%lift_Ok & H).
    apply write_encrypted_Ok in H as (rc & Hrc & ->). eexists. split; [done|].
    cbv zeta. rewrite path_of_snoc_app, app_assoc_s. eauto.
  - apply bindR_Ok in H as ([] & d3 & ->%refuse_Ok & H).
    apply wrapM_Ok, WriteFile_Ok in H as ->. eexists. by split.
Qed.

(** A separator that is no dot keeps two dots from meeting. *)
Lemma Contains_dotdot_app a c b : Contains a ".." = false → c ≠ "."%char →
  Contains b ".." = false → Contains (a +:+ String c b) ".." = false.
Proof.
  intros Ha Hc Hb. assert (Ascii.eqb "." c = false) as Hcf by (by apply Ascii.eqb_neq).
  induction a as [|x a IH].
  - change (Contains (String c b) ".." = false). cbn [Contains HasPrefix]. by rewrite Hcf.
  - change (Contains (String x (a +:+ String c b)) ".." = false). cbn [Contains] in *.
    apply orb_false_iff in Ha as [Hp Ha]. rewrite (IH Ha), orb_false_r.
    cbn [HasPrefix] in *. destruct (Ascii.eqb "." x); [|done]. destruct a as [|y a].
    + change ("" +:+ String c b) with (String c b). cbn [HasPrefix]. by rewrite Hcf.
    + change (String y a +:+ String c b) with (String y (a +:+ String c b)).
      cbn [HasPrefix] in *. by destruct (Ascii.eqb "." y), a.
Qed.

Lemma runGenerateIdentity_Ok env node peersPath dir encrypt overwrite d d' :
  runGenerateIdentity decodePeers env node peersPath dir encrypt overwrite d = (Ok tt, d') →
  ∃ pass peers id,
    (encrypt = true → ge_first env = Ok pass) ∧
    ReadFile (ge_os env) peersPath d ≫= decodePeers = Ok peers ∧ peers !! node = Some id ∧
    generateNodeIdentity env node id dir encrypt pass overwrite d = (Ok tt, d').
Proof.
  unfold runGenerateIdentity.
  intros (pass & d0 & [Hpass ->]%lift_Ok & H)%bindR_Ok.
  apply bindR_Ok in H as ([] & d1 & Hchk & H). injection Hchk as _ <-.
  apply bindR_Ok in H as ([] & d2 & [_ ->]%lift_Ok & H).
  apply bindR_Ok in H as (data & d3 & Hdata & H). injection Hdata as Hdata%wrap_err_Ok <-.
  apply bindR_Ok in H as (peers & d4 & [Hpeers%wrap_err_Ok ->]%lift_Ok & H).
  apply bindR_Ok in H as (id & d5 & [Hid%of_option_Ok ->]%lift_Ok & H).
  apply bindR_Ok in H as ([] & d6 & [_ ->]%lift_Ok & H). apply wrapM_Ok in H.
  exists pass, peers, id. split_and!; [|by rewrite Hdata|done|done].
  intros ->. by apply RequestPassword_first in Hpass.
Qed.

(** A disk that answers: what is there can be examined and read. *)
Definition readable (o : os) : Prop := ∀ p, os_stat o p = None ∧ os_read o p = None.

Lemma ReadFile_readable o p c d : readable o → d !! p = Some c → ReadFile o p d = Ok c.
Proof. intros Ho Hp. unfold ReadFile. destruct (Ho p) as [_ ->]. cbn. by rewrite Hp. Qed.

Lemma Stat_readable o p c d : readable o → d !! p = Some c → Stat o p d = Ok tt.
Proof. intros Ho Hp. unfold Stat. destruct (Ho p) as [-> _]. cbn. by rewrite Hp. Qed.

Lemma SafePath_file w r l node c suffix : IsAbs w = true → Forall plain l →
  no_char slash node = true → Contains node ".." = false →
  no_char slash (String c suffix) = true → (2 < String.length (String c suffix))%nat →
  c ≠ "."%char → Contains suffix ".." = false →
  SafePath (Ok w) (path_of r l) (node +:+ String c suffix)
    = Ok (path_of r (l ++ [node +:+ String c suffix])).
Proof.
  intros Hw Hl Hn Hd Hs Hlen Hc Hsd. apply SafePath_plain; [done|done| |].
  - apply plain_file; [|done]. by rewrite no_char_app, Hn, Hs.
  - by apply Contains_dotdot_app.
Qed.

Lemma loadPrivateKey_file o w prompt r l node (encrypt : bool) pwfile d content plain
    (Hw : IsAbs w = true) (Hl : Forall Paths.plain l) (Hn : no_char slash node = true)
    (Hd : Contains node ".." = false) (Ho : readable o)
    (Hfile : d !! path_of r (l ++ [key_file node encrypt]) = Some content)
    (Hplain : if encrypt then ∃ pass rc rnd, key_passphrase o prompt pwfile d = Ok pass ∧
                NewScryptRecipient pass = Ok rc ∧ content = age_ciphertext rc rnd plain
              else content = plain) :
  loadPrivateKey o (Ok w) prompt (path_of r l) node encrypt pwfile d = Ok plain.
Proof.
  unfold loadPrivateKey. rewrite !SafePath_file by (done || cbn; lia). cbn [wrap_err mbind Res_bind].
  unfold key_file in Hfile. destruct encrypt.
  - destruct Hplain as (pass & rc & rnd & Hpass & Hrc & ->).
    rewrite (Stat_readable _ _ _ _ Ho Hfile). cbn [wrap_err mbind Res_bind].
    rewrite (ReadFile_readable _ _ _ _ Ho Hfile). cbn [wrap_err mbind Res_bind].
    rewrite Hpass. cbn [wrap_err mbind Res_bind].
    destruct (scrypt_identity _ _ Hrc) as [i Hi].
    destruct (age_Decrypt_ciphertext pass rc i rnd plain Hrc Hi) as (rd & Hrd & Hall).
    rewrite Hi. cbn [wrap_err mbind Res_bind]. rewrite Hrd. cbn [wrap_err mbind Res_bind].
    by rewrite Hall.
  - subst. rewrite (Stat_readable _ _ _ _ Ho Hfile).
    by rewrite (ReadFile_readable _ _ _ _ Ho Hfile).
Qed.

Lemma addPeerIdentities_privateKey wd read dec peers (s s' : fileStore) :
  addPeerIdentities wd read dec s peers = Ok s' → privateKey s' = privateKey s.
Proof.
  revert s. induction peers as [|[name id] peers IH]; intros s; cbn [addPeerIdentities].
  { by intros [= <-]. }
  intros (s1 & H1 & H)%Res_bind_Ok. rewrite (IH _ H).
  by apply addPeerIdentity_Ok in H1 as (key & -> & _).
Qed.

(** The public key a store has of a peer whose id no other name has. *)
Lemma open_store_peer `{MapRange} o w prompt dec ik r l self decrypt pwfile d s peers node id i pub
    (Hw : IsAbs w = true) (Hl : Forall Paths.plain l) (Hn : no_char slash node = true)
    (Hd : Contains node ".." = false) (Ho : readable o)
    (Hopen : open_store decodePeers o (Ok w) prompt dec ik (path_of r l) self decrypt pwfile d = Ok s)
    (Hpeers : ReadFile o "peers.json" d ≫= decodePeers = Ok peers)
    (Hid : peers !! node = Some id) (Huniq : ∀ name, peers !! name = Some id → name = node)
    (Hfile : d !! path_of r (l ++ [node +:+ "_identity.json"])
               = Some (MarshalIndent_struct (NodeIdentity_fields i)))
    (Hdec : dec (MarshalIndent_struct (NodeIdentity_fields i)) = Ok i)
    (Hpub : ni_PublicKey i = hex_EncodeToString pub) :
  publicKeys s !! id = Some pub.
Proof.
  unfold open_store, NewFileStore in Hopen. inv_res.
  match goal with H1 : ReadFile o _ d = Ok ?a, H2 : ReadFile o _ d = Ok ?b |- _ =>
    assert (a = b) as -> by congruence end.
  match goal with H1 : decodePeers _ = Ok ?a, H2 : decodePeers _ = Ok peers |- _ =>
    assert (a = peers) as -> by congruence; clear H1 end.
  match goal with H : addPeerIdentities _ _ _ _ _ = Ok s |- _ =>
    apply addPeerIdentities_Ok in H as [Hdom Hval] end. cbn in Hdom, Hval.
  assert (is_Some (publicKeys s !! id)) as [key Hkey].
  { apply Hdom. right. apply list_elem_of_fmap. exists (node, id).
    by rewrite elem_of_range_of. }
  rewrite Hkey. f_equal.
  destruct (Hval _ _ Hkey) as [?|(name & path & data & i' & Hin & Hpath & Hread & Hi' & _ & Hhex)];
    [done|].
  apply elem_of_range_of, Huniq in Hin as ->.
  rewrite SafePath_file in Hpath by (done || cbn; lia). injection Hpath as <-.
  rewrite (ReadFile_readable _ _ _ _ Ho Hfile) in Hread. injection Hread as <-.
  rewrite Hdec in Hi'. injection Hi' as <-. rewrite Hpub, hex_Decode_Encode in Hhex. congruence.
Qed.

(** C9: the key pair the command line generates is the one the nodes use.  After a
    successful run the node reads its private key back, from the plain file, or from
    the encrypted one when it is given the passphrase that was typed; a store it opens
    signs with that key.  The identity file that was written has the node's name, its id
    of peers.json and the matching public key; and a store that any node opens on a disk
    with this file, when its JSON reads back as what was written, knows this public key
    under that id.  No file but the identity and the key file has changed. *)
Theorem generated_key_is_used env node peersPath r l (encrypt overwrite : bool) d d'
    (Hrun : runGenerateIdentity decodePeers env node peersPath (path_of r l) encrypt overwrite d
              = (Ok tt, d'))
    (Hn : no_char slash node = true) (Hd : Contains node ".." = false)
    (Hl : Forall Paths.plain l) :
  let identityPath := path_of r (l ++ [node +:+ "_identity.json"]) in
  let keyPath := path_of r (l ++ [key_file node encrypt]) in
  ∃ peers id seed i,
    ReadFile (ge_os env) peersPath d ≫= decodePeers = Ok peers ∧ peers !! node = Some id ∧
    ge_seed env = Ok seed ∧
    d' !! identityPath = Some (MarshalIndent_struct (NodeIdentity_fields i)) ∧
    (ni_NodeName i, ni_NodeID i, ni_PublicKey i) =
      (node, id, hex_EncodeToString (ed25519_Public (NewKeyFromSeed seed))) ∧
    (∀ p, p ≠ identityPath → p ≠ keyPath → d' !! p = d !! p) ∧
    (∀ o w prompt pwfile, IsAbs w = true → readable o →
       (encrypt = true → key_passphrase o prompt pwfile d' = ge_first env) →
       loadPrivateKey o (Ok w) prompt (path_of r l) node encrypt pwfile d'
         = Ok (hex_EncodeToString (NewKeyFromSeed seed)) ∧
       ∀ (MR : MapRange) dec ik s,
         open_store decodePeers o (Ok w) prompt dec ik (path_of r l) node encrypt pwfile d' = Ok s →
         privateKey s = NewKeyFromSeed seed) ∧
    (∀ (MR : MapRange) o w prompt pwfile dec ik self decrypt d'' s peers'',
       IsAbs w = true → readable o → d'' !! identityPath = d' !! identityPath →
       dec (MarshalIndent_struct (NodeIdentity_fields i)) = Ok i →
       open_store decodePeers o (Ok w) prompt dec ik (path_of r l) self decrypt pwfile d'' = Ok s →
       ReadFile o "peers.json" d'' ≫= decodePeers = Ok peers'' →
       peers'' !! node = Some id → (∀ name, peers'' !! name = Some id → name = node) →
       publicKeys s !! id = Some (ed25519_Public (NewKeyFromSeed seed))).
Proof.
  intros identityPath keyPath.
  apply runGenerateIdentity_Ok in Hrun as (pass & peers & id & Hpass & Hpeers & Hid & Hgen).
  apply generateNodeIdentity_Ok in Hgen as (seed & content & Hseed & Hd' & Hcontent); [|done..].
  fold identityPath keyPath in Hd'.
  assert (identityPath ≠ keyPath) as Hne.
  { intros Heq. apply path_of_snoc_inj, app_inj_l_s in Heq. by destruct encrypt. }
  assert (d' !! keyPath = Some content) as Hkey by (by rewrite Hd', lookup_insert_eq).
  set (i := mkNodeIdentity node id (hex_EncodeToString (ed25519_Public (NewKeyFromSeed seed)))
              (ge_now env)) in *.
  assert (d' !! identityPath = Some (MarshalIndent_struct (NodeIdentity_fields i))) as Hfile
    by (by rewrite Hd', lookup_insert_ne, lookup_insert_eq).
  exists peers, id, seed, i. split_and!; [done..| | |].
  - intros p H1 H2. by rewrite Hd', !lookup_insert_ne.
  - intros o w prompt pwfile Hw Ho Hkp.
    assert (loadPrivateKey o (Ok w) prompt (path_of r l) node encrypt pwfile d'
            = Ok (hex_EncodeToString (NewKeyFromSeed seed))) as Hload.
    { apply (loadPrivateKey_file _ _ _ _ _ _ _ _ _ content); [done..|].
      destruct encrypt; [|done]. destruct Hcontent as (rc & Hrc & ->).
      exists pass, rc, (ge_random env). by rewrite Hkp, Hpass. }
    split; [exact Hload|]. intros MR dec ik s Hopen. unfold open_store, NewFileStore in Hopen.
    rewrite Hload in Hopen. inv_res. rewrite hex_Decode_Encode in *. inv_res.
    match goal with H : addPeerIdentities _ _ _ _ _ = Ok s |- _ =>
      apply addPeerIdentities_privateKey in H as -> end. done.
  - intros MR o w prompt pwfile dec ik self decrypt d'' s peers'' Hw Ho Hsame Hdec Hopen Hp Hnode Hu.
    eapply (open_store_peer _ _ _ _ _ _ _ _ _ _ _ _ _ _ _ i); [done..| |exact Hdec|reflexivity].
    fold identityPath. by rewrite Hsame.
Qed.

(** A generation that is refused can still replace a node's identity.  When the key
    file exists and the identity file does not, a run without --overwrite writes a new
    identity with a new public key before it looks for the key file: it fails with the
    old private key in place, next to a public key that does not match it. *)
Theorem refused_generation_replaces_identity env node id r l (encrypt : bool) pass d old seed
    (Hn : no_char slash node = true) (Hl : Forall Paths.plain l)
    (Hos : readable (ge_os env)) (Hseed : ge_seed env = Ok seed)
    (Hnone : d !! path_of r (l ++ [node +:+ "_identity.json"]) = None)
    (Hkey : d !! path_of r (l ++ [key_file node encrypt]) = Some old)
    (Hwrite : os_write (ge_os env) (path_of r (l ++ [node +:+ "_identity.json"])) = None) :
  ∃ e d', generateNodeIdentity env node id (path_of r l) encrypt pass false d = (Err e, d') ∧
    d' !! path_of r (l ++ [key_file node encrypt]) = Some old ∧
    d' !! path_of r (l ++ [node +:+ "_identity.json"]) =
      Some (MarshalIndent_struct (NodeIdentity_fields (mkNodeIdentity node id
              (hex_EncodeToString (ed25519_Public (NewKeyFromSeed seed))) (ge_now env)))).
Proof.
  unfold generateNodeIdentity. rewrite Hseed.
  assert (∀ s, no_char slash s = true → (2 < String.length s)%nat → plain (node +:+ s)) as Hp.
  { intros s Hs. apply plain_file. by rewrite no_char_app, Hn, Hs. }
  rewrite !Join_plain by (done || (apply Hp; [done|cbn; lia])).
  set (ip := path_of r (l ++ [node +:+ "_identity.json"])) in *.
  assert (ip ≠ path_of r (l ++ [key_file node encrypt])) as Hne.
  { intros Heq. apply path_of_snoc_inj, app_inj_l_s in Heq. by destruct encrypt. }
  set (text := MarshalIndent_struct _). set (kp := path_of r (l ++ [key_file node encrypt])) in *.
  assert (refuse (ge_os env) false ip
    ("identity file " +:+ ip +:+ " already exists. Use --overwrite to force") d = (Ok tt, d)) as Hr.
  { unfold refuse, Stat. destruct (Hos ip) as [-> _]. cbn. by rewrite Hnone. }
  assert (∀ msg, refuse (ge_os env) false kp msg (<[ip := text]> d)
                 = (Err (errors_New msg), <[ip := text]> d)) as Hk.
  { intros msg. unfold refuse. rewrite (Stat_readable _ _ old); [done..|].
    by rewrite lookup_insert_ne. }
  assert (wrapM "failed to write identity JSON: " (WriteFile (ge_os env) ip text) d
          = (Ok tt, <[ip := text]> d)) as Hw by (unfold wrapM, WriteFile; by rewrite Hwrite).
  destruct encrypt; eexists _, (<[ip := text]> d);
    (split; [|by rewrite lookup_insert_ne, lookup_insert_eq]);
    unfold bindR at 1, lift at 1; cbn [wrap_err]; unfold bindR at 1; rewrite Hr;
    unfold bindR at 1; fold text; rewrite Hw; unfold key_file in kp.
  - rewrite path_of_snoc_app, app_assoc_s. change ("_private.key" +:+ ".age") with "_private.key.age".
    fold kp. unfold bindR at 1. by rewrite Hk.
  - fold kp. unfold bindR at 1. by rewrite Hk.
Qed.

End key_props.
(** *** Witnesses *)

#[local] Existing Instance toy_crypto.
#[local] Existing Instance toy_crypto_spec.
#[local] Existing Instance toy_age.
#[local] Existing Instance toy_age_spec.
#[local] Existing Instance toy_seed.
#[local] Existing Instance toy_seed_spec.

Definition toy_decodePeers (data : string) : Res (gmap string string) :=
  if String.eqb data "peers" then Ok {["node0" := "id0"]} else Err (errors_New "invalid JSON").

Definition toy_generate_env : generate_env :=
  mkGenerateEnv os_fine (Ok (pad_to 32 "seed")) "2025" "random" None
    (Ok "correct horse") (Ok "correct horse").

Definition toy_keys_disk : gmap string string :=
  <["peers.json" := "peers"]> (<["pass.txt" := "correct horse" +:+ str1 (chr 10)]> ∅).

Definition toy_generated_disk : gmap string string :=
  (runGenerateIdentity toy_decodePeers toy_generate_env "node0" "peers.json" "identity" true false
     toy_keys_disk).2.

Lemma os_fine_readable : readable os_fine.
Proof. done. Qed.

Lemma toy_dir_plain : Forall Paths.plain ["identity"].
Proof. repeat constructor; done. Qed.

#[local] Existing Instance map_to_list_range.

(** The store node0 opens on the disk it generated its key on; [c] is the date. *)
Definition toy_open (c : string) : Res fileStore :=
  open_store toy_decodePeers os_fine (Ok "/srv") (Err (errors_New "no terminal"))
    (λ _, Ok (mkNodeIdentity "node0" "id0" (hex_EncodeToString (pad_to 32 "seed")) c))
    (Ok (mkInitiatorKey EventInitiatorKeyTypeEd25519 "key" None)) "identity" "node0" true "pass.txt"
    toy_generated_disk.

Lemma toy_store_opens c : ∃ store, toy_open c = Ok store.
Proof.
  assert (is_Ok (toy_open c) = true) as H by (vm_compute; reflexivity).
  destruct (toy_open c) as [store|e|w]; [by exists store|discriminate H..].
Qed.

Lemma generated_key_is_used_witness :
  loadPrivateKey os_fine (Ok "/srv") (Err (errors_New "no terminal")) "identity" "node0" true
    "pass.txt" toy_generated_disk = Ok (hex_EncodeToString (pad_to 32 "seed" +:+ pad_to 32 "seed")) ∧
  ∃ c store, toy_open c = Ok store ∧ publicKeys store !! "id0" = Some (pad_to 32 "seed").
Proof.
  destruct (generated_key_is_used toy_decodePeers toy_generate_env "node0" "peers.json" false
    ["identity"] true false toy_keys_disk toy_generated_disk) as (peers & id & seed & i & H).
  - apply run_of_eval. vm_compute. reflexivity.
  - reflexivity.
  - reflexivity.
  - exact toy_dir_plain.
  - destruct H as (Hpeers & Hid & Hseed & Hfile & Hi & _ & Hload & Hknown).
    assert (seed = pad_to 32 "seed") as -> by (vm_compute in Hseed |- *; congruence).
    assert (peers = {["node0" := "id0"]}) as -> by (vm_compute in Hpeers |- *; congruence).
    assert (id = "id0") as -> by (vm_compute in Hid; congruence).
    split.
    + apply (Hload os_fine "/srv" _ "pass.txt"); [done|exact os_fine_readable|].
      intros _. vm_compute. reflexivity.
    + destruct i as [name id pub c]. cbn [ni_NodeName ni_NodeID ni_PublicKey] in Hi.
      injection Hi as -> -> ->.
      destruct (toy_store_opens c) as [store Hopen]. exists c, store. split; [exact Hopen|].
      refine (Hknown _ os_fine "/srv" (Err (errors_New "no terminal")) "pass.txt" _ _ "node0" true
        toy_generated_disk
        store {["node0" := "id0"]} eq_refl os_fine_readable eq_refl _ Hopen _ eq_refl _).
      * reflexivity.
      * vm_compute. reflexivity.
      * intros name [[= <-] _]%lookup_singleton_Some. reflexivity.
Defined.

Lemma refused_generation_replaces_identity_witness :
  let d : gmap string string := {["identity/node0_private.key" := "old"]} in
  ∃ e d', generateNodeIdentity toy_generate_env "node0" "id0" "identity" false "" false d
    = (Err e, d') ∧
    d' !! "identity/node0_private.key" = Some "old" ∧ d' !! "identity/node0_identity.json" ≠ None.
Proof.
  cbv zeta.
  destruct (refused_generation_replaces_identity toy_generate_env "node0" "id0" false ["identity"]
    false "" {["identity/node0_private.key" := "old"]} "old" (pad_to 32 "seed"))
    as (e & d' & H1 & H2 & H3).
  - reflexivity.
  - exact toy_dir_plain.
  - exact os_fine_readable.
  - reflexivity.
  - vm_compute. reflexivity.
  - vm_compute. reflexivity.
  - reflexivity.
  - exists e, d'. split_and!; [exact H1|exact H2|].
    intros H4.
    change (d' !! path_of false (["identity"] ++ ["node0" +:+ "_identity.json"]) = None) in H4.
    congruence.
Defined.
