(* ===== verification/InitiatorKeys.v ===== *)
(** * Key files of the initiator: cmd/cli/initiator, pkg/client/signer, pkg/encryption

    The command line generates the initiator's key in one of two algorithms; the
    client loads the key file into a signer, the operator copies the public key
    into the configuration of the nodes.  AWS KMS is the other home of a key. *)

From stdpp Require Import base gmap list strings.
From Stdlib Require Import ZArith Lia Ascii.
From S2P Require Import Prelude.
From S2P Require Import GoStrings.
From S2P Require Import External.
From S2P Require Import Json.
From S2P Require Import Paths.
From S2P Require Import Types.
From S2P Require Import Identity.
From S2P Require Import Client.
From S2P Require Import Keys.

(** crypto/x509 on private keys: DER text is a sequence, whose first byte is 0x30. *)
Class X509Keys `{P : P256} := {
  ParsePKCS8PrivateKey : string → option ecdsa_PrivateKey;    (* None: no ECDSA key *)
  ParseECPrivateKey : string → option ecdsa_PrivateKey;
  MarshalECPrivateKey : ecdsa_PrivateKey → Res string;
}.

Class X509KeysSpec `(X : X509Keys) := {
  PKCS8_sequence der k : ParsePKCS8PrivateKey der = Some k → HasPrefix der "0" = true;
  EC_sequence der k : ParseECPrivateKey der = Some k → HasPrefix der "0" = true;
  ParseEC_Marshal k der : MarshalECPrivateKey k = Ok der → ParseECPrivateKey der = Some k;
  PKCS8_not_EC k der : MarshalECPrivateKey k = Ok der → ParsePKCS8PrivateKey der = None;
}.

Section keys.
Context `{X : X509Keys} `{A : Age} `{E : Ed25519Seed}.

(** ** pkg/encryption: p256.go, ed25519.go *)

Definition ParseP256PrivateKey (keyData : string) : Res ecdsa_PrivateKey :=
  match ParsePKCS8PrivateKey keyData with
  | Some key => Ok key
  | None =>
      match ParseECPrivateKey keyData with
      | Some key => Ok key
      | None =>
          let keyStr := TrimSpace keyData in
          let keyStr := default keyStr (TrimPrefix_opt keyStr "0x") in
          keyBytes ← wrap_err "failed to decode hex string: " (hex_DecodeString keyStr);
          match ParsePKCS8PrivateKey keyBytes with
          | Some key => Ok key
          | None =>
              of_option (errors_New "failed to parse P256 private key from DER or hex format")
                (ParseECPrivateKey keyBytes)
          end
      end
  end.

(** [DecodeString] skips line breaks. *)
Fixpoint without_newlines (s : string) : string :=
  match s with
  | EmptyString => EmptyString
  | String c s => if (byte_of c =? 10) || (byte_of c =? 13) then without_newlines s
                  else String c (without_newlines s)
  end.

Definition ParseP256PublicKeyFromBase64 (base64String : string) : Res ecdsa_PublicKey :=
  keyBytes ← wrap_err "failed to decode base64 string: "
    (of_option (errors_New "illegal base64 data") (base64_decode (without_newlines base64String)));
  ParseP256PublicKeyFromBytes keyBytes.

Record KeyData := mkKeyData { PublicKeyHex : string; PrivateKeyHex : string }.

(** [generated] is the answer of [ecdsa.GenerateKey]. *)
Definition GenerateP256Keys (generated : Res ecdsa_PrivateKey) : Res KeyData :=
  privateKey ← generated;
  privateKeyBytes ← MarshalECPrivateKey privateKey;
  publicKeyBytes ← MarshalPKIXPublicKey (ecdsa_Public privateKey);
  Ok (mkKeyData (hex_EncodeToString publicKeyBytes) (hex_EncodeToString privateKeyBytes)).

(** [seed] is the random seed of [ed25519.GenerateKey]; [Seed] gives it back. *)
Definition GenerateEd25519Keys (seed : Res string) : Res KeyData :=
  seed ← seed;
  let privKeyFull := NewKeyFromSeed seed in
  let pubKey := ed25519_Public privKeyFull in
  Ok (mkKeyData (hex_EncodeToString pubKey) (hex_EncodeToString (take_s 32 privKeyFull))).

(** ** cmd/cli/initiator/generate.go *)

Record InitiatorIdentity := mkInitiatorIdentity {
  ii_NodeName : string;
  ii_Algorithm : string;
  ii_PublicKey : string;
  ii_CreatedAt : string;
  ii_CreatedBy : string;
  ii_MachineOS : string;
  ii_MachineName : string;
}.

Definition InitiatorIdentity_fields (i : InitiatorIdentity) : list (string * string) :=
  [("node_name", ii_NodeName i)] ++
  (if String.eqb (ii_Algorithm i) "" then [] else [("algorithm", ii_Algorithm i)]) ++
  [("public_key", ii_PublicKey i); ("created_at", ii_CreatedAt i); ("created_by", ii_CreatedBy i);
   ("machine_os", ii_MachineOS i); ("machine_name", ii_MachineName i)].

(** What a run meets; the first part is that of a node's key generation. *)
Record initiator_env := mkInitiatorEnv {
  ie_common : generate_env;
  ie_p256 : Res ecdsa_PrivateKey;        (* ecdsa.GenerateKey *)
  ie_user : Res string;                  (* user.Current *)
  ie_hostname : Res string;
  ie_GOOS : string;
}.

Definition runGenerateInitiatorIdentity (env : initiator_env) (nodeName outputDir : string)
    (encrypt overwrite : bool) (algorithm : string) : M (gmap string string) (Res unit) :=
  let g := ie_common env in
  let algorithm := if String.eqb algorithm "" then EventInitiatorKeyTypeEd25519 else algorithm in
  _ ←! lift (if String.eqb algorithm EventInitiatorKeyTypeEd25519 ||
                String.eqb algorithm EventInitiatorKeyTypeP256 then Ok tt
             else Err (errors_New ("invalid algorithm: " +:+ algorithm +:+ ". Must be " +:+
                         EventInitiatorKeyTypeEd25519 +:+ " or " +:+ EventInitiatorKeyTypeP256)));
  _ ←! lift (wrap_err "failed to create output directory: " (MkdirAll (ge_os g) outputDir));
  let identityPath := Join outputDir (nodeName +:+ ".identity.json") in
  let keyPath := Join outputDir (nodeName +:+ ".key") in
  let encKeyPath := keyPath +:+ ".age" in
  _ ←! refuse (ge_os g) overwrite identityPath
         ("identity file already exists: " +:+ identityPath +:+ " (use --overwrite to force)");
  _ ←! refuse (ge_os g) overwrite keyPath
         ("key file already exists: " +:+ keyPath +:+ " (use --overwrite to force)");
  _ ←! (if encrypt
        then refuse (ge_os g) overwrite encKeyPath
               ("encrypted key file already exists: " +:+ encKeyPath +:+
                " (use --overwrite to force)")
        else lift (Ok tt));
  keyData ←! lift (wrap_err ("failed to generate " +:+ algorithm +:+ " keys: ")
                     (if String.eqb algorithm EventInitiatorKeyTypeEd25519
                      then GenerateEd25519Keys (ge_seed g) else GenerateP256Keys (ie_p256 env)));
  currentUser ←! lift (wrap_err "failed to get current user: " (ie_user env));
  let hostname := match ie_hostname env with Ok h => h | _ => "unknown" end in
  let identity := mkInitiatorIdentity nodeName algorithm (PublicKeyHex keyData) (ge_now g)
                    currentUser (ie_GOOS env) hostname in
  _ ←! wrapM "failed to save identity file: "
         (WriteFile (ge_os g) identityPath
            (MarshalIndent_struct (InitiatorIdentity_fields identity)));
  if encrypt then
    passphrase ←! lift (RequestPassword (ge_first g) (ge_second g));
    _ ←! lift (wrap_err "invalid encrypted key file path: " (ValidateFilePath encKeyPath));
    write_encrypted g encKeyPath passphrase (PrivateKeyHex keyData)
  else wrapM "failed to save private key: " (WriteFile (ge_os g) keyPath (PrivateKeyHex keyData)).

(** ** pkg/client/signer/local.go *)

Record LocalSignerOptions := mkSignerOptions {
  KeyPath : string;
  Encrypted : bool;
  Password : string;
}.

Definition decryptPrivateKey (encryptedData password : string) : Res string :=
  identity ← wrap_err "failed to create identity from password: " (NewScryptIdentity password);
  decrypter ← wrap_err "failed to create decrypter: " (age_Decrypt encryptedData identity);
  wrap_err "failed to read decrypted data: " (age_ReadAll decrypter).

Definition readKeyFile (o : os) (keyPath : string) (encrypted : bool) (password : string)
    (d : gmap string string) : Res string :=
  match Stat o keyPath d with
  | Err _ => Err (errors_New ("key file not found: " +:+ keyPath))
  | _ =>
      if encrypted then
        if String.eqb password "" then
          Err (errors_New "encrypted key found but no password provided")
        else
          encryptedBytes ← wrap_err "failed to read encrypted key file: " (ReadFile o keyPath d);
          decryptPrivateKey encryptedBytes password
      else ReadFile o keyPath d
  end.

(** [NewLocalSigner] from its options. *)
Definition NewLocalSigner_file (o : os) (d : gmap string string) (kt : string)
    (opts : LocalSignerOptions) : Res LocalSigner :=
  let keyPath := if String.eqb (KeyPath opts) "" then Join "." "event_initiator.key"
                 else KeyPath opts in
  let encrypted := HasSuffix keyPath ".age" || Encrypted opts in
  NewLocalSigner NewKeyFromSeed ParseP256PrivateKey kt
    (readKeyFile o keyPath encrypted (Password opts) d).

(** ** pkg/client/signer/kms.go *)

Record KMSSignerOptions := mkKMSOptions {
  kms_Region : string;
  kms_KeyID : string;
  kms_EndpointURL : string;
  kms_AccessKeyID : string;
  kms_SecretAccessKey : string;
}.

(** The client of AWS: what it was configured with answers its two calls. *)
Record kms_client := mkKmsClient {
  kms_GetPublicKey : string → Res string;         (* key id *)
  kms_SignCall : string → string → Res string;    (* key id, message *)
}.

(** The configuration of the client: region, static credentials, endpoint. *)
Definition kms_config : Type := string * option (string * string) * option string.

Definition KMS_config (opts : KMSSignerOptions) : kms_config :=
  (kms_Region opts,
   if negb (String.eqb (kms_AccessKeyID opts) "") && negb (String.eqb (kms_SecretAccessKey opts) "")
   then Some (kms_AccessKeyID opts, kms_SecretAccessKey opts) else None,
   if negb (String.eqb (kms_EndpointURL opts) "") then Some (kms_EndpointURL opts) else None).

(** [parse] is [x509.ParsePKIXPublicKey]: an error, a key of another kind ([None]) or an
    ECDSA key. *)
Definition KMS_loadPublicKey (parse : string → Res (option ecdsa_PublicKey)) (client : kms_client)
    (keyID : string) : Res ecdsa_PublicKey :=
  resp ← wrap_err "failed to get public key from AWS KMS: " (kms_GetPublicKey client keyID);
  publicKeyInterface ← wrap_err "failed to parse public key from KMS response: " (parse resp);
  publicKey ← of_option (errors_New "KMS public key is not an ECDSA key") publicKeyInterface;
  _ ← wrap_err "KMS public key is not a valid P256 key: " (ValidateP256PublicKey (Some publicKey));
  Ok publicKey.

(** [connect] is [config.LoadDefaultConfig] and [kms.NewFromConfig]. *)
Definition NewKMSSigner (parse : string → Res (option ecdsa_PublicKey))
    (connect : kms_config → Res kms_client) (kt : string) (opts : KMSSignerOptions) :
    Res KMSSigner :=
  if negb (String.eqb kt EventInitiatorKeyTypeP256) then
    Err (errors_New ("AWS KMS only supports P256 keys, not " +:+ kt))
  else if String.eqb (kms_KeyID opts) "" then
    Err (errors_New "keyID is required for KMS signer")
  else if String.eqb (kms_Region opts) "" then
    Err (errors_New "region is required for KMS signer")
  else
    client ← wrap_err "failed to load AWS config: " (connect (KMS_config opts));
    publicKey ← wrap_err "failed to load public key from KMS: "
                  (KMS_loadPublicKey parse client (kms_KeyID opts));
    Ok (mkKMSSigner kt (kms_SignCall client (kms_KeyID opts)) (Some publicKey)).

End keys.
(** ** Properties *)

Lemma hex_of_sequence der : HasPrefix der "0" = true →
  HasPrefix (hex_EncodeToString der) "0" = false.
Proof. intros (s & ->)%HasPrefix_inv. reflexivity. Qed.

Lemma HasSuffix_key_age a : HasSuffix (a +:+ ".key") ".age" = false.
Proof. unfold HasSuffix. rewrite rev_s_app. reflexivity. Qed.

Section props.
Context `{X : X509Keys} `{!CryptoSpec C} `{!P256Spec P} `{!X509KeysSpec X} `{A : Age} `{!AgeSpec A}
  `{E : Ed25519Seed} `{!Ed25519SeedSpec E}.

(** The hexadecimal text of a key is taken for no DER text itself. *)
Lemma ParseP256PrivateKey_hex k der : MarshalECPrivateKey k = Ok der →
  ParseP256PrivateKey (hex_EncodeToString der) = Ok k.
Proof.
  intros Hm. pose proof (ParseEC_Marshal _ _ Hm) as Hec.
  pose proof (hex_of_sequence _ (EC_sequence _ _ Hec)) as Hhex. unfold ParseP256PrivateKey.
  destruct (ParsePKCS8PrivateKey (hex_EncodeToString der)) as [k'|] eqn:Hp.
  { apply PKCS8_sequence in Hp. congruence. }
  destruct (ParseECPrivateKey (hex_EncodeToString der)) as [k'|] eqn:He.
  { apply EC_sequence in He. congruence. }
  rewrite TrimSpace_hex, hex_Encode_no_0x. cbn [default from_option].
  unfold default, from_option. rewrite hex_Decode_Encode. cbn [mbind Res_bind wrap_err].
  by rewrite (PKCS8_not_EC _ _ Hm), Hec.
Qed.

(** A generated key in a file is a signer that shows the generated public key, which a
    node accepts as its configuration. *)
Lemma generated_signer kt gseed gp256 kd
    (Hkd : (if String.eqb kt EventInitiatorKeyTypeEd25519 then GenerateEd25519Keys gseed
            else GenerateP256Keys gp256) = Ok kd)
    (Hkt : String.eqb kt EventInitiatorKeyTypeEd25519 ||
           String.eqb kt EventInitiatorKeyTypeP256 = true)
    (Hseed : ∀ seed, gseed = Ok seed → String.length seed = 32%nat)
    (Hp256 : ∀ k, gp256 = Ok k → ecdsa_on_P256 (ecdsa_Public k) = true) :
  ∃ s k, NewLocalSigner NewKeyFromSeed ParseP256PrivateKey kt (Ok (PrivateKeyHex kd)) = Ok s ∧
    keyType s = kt ∧ PublicKey s = Ok (PublicKeyHex kd) ∧
    loadInitiatorKeys kt (PublicKeyHex kd) ParseEd25519PublicKeyFromHex ParseP256PublicKeyFromHex
      ParseP256PublicKeyFromBase64 = Ok k.
Proof.
  destruct (String.eqb_spec kt EventInitiatorKeyTypeEd25519) as [->|Hne].
  - unfold GenerateEd25519Keys in Hkd. apply Res_bind_Ok in Hkd as (seed & -> & Hkd).
    injection Hkd as <-. cbn [PublicKeyHex PrivateKeyHex]. specialize (Hseed _ eq_refl).
    rewrite NewKeyFromSeed_seed by done. unfold NewLocalSigner. cbn [wrap_err mbind Res_bind].
    rewrite String.eqb_refl, TrimSpace_hex, hex_Decode_Encode. cbn [wrap_err mbind Res_bind].
    rewrite bool_decide_eq_true_2 by done.
    pose proof (ed25519_Public_length _ (NewKeyFromSeed_length _ Hseed)) as Hpl.
    assert (ed25519_Public (NewKeyFromSeed seed) ≠ EmptyString) as Hpne
      by (intros He; by rewrite He in Hpl).
    eexists _, _. split_and!; [reflexivity..|].
    unfold loadInitiatorKeys, loadEd25519InitiatorKey, ParseEd25519PublicKeyFromHex.
    cbn. rewrite !hex_Encode_nonempty, hex_Decode_Encode by done. cbn.
    unfold ValidateEd25519PublicKey. by rewrite bool_decide_eq_true_2.
  - cbn in Hkt. apply String.eqb_eq in Hkt as ->. unfold GenerateP256Keys in Hkd.
    apply Res_bind_Ok in Hkd as (key & -> & (priv & Hpriv & Hkd)%Res_bind_Ok).
    apply Res_bind_Ok in Hkd as (pub & Hpub & Hkd).
    injection Hkd as <-. cbn [PublicKeyHex PrivateKeyHex]. specialize (Hp256 _ eq_refl).
    unfold NewLocalSigner. cbn [wrap_err mbind Res_bind].
    rewrite (proj2 (String.eqb_neq _ _) Hne), String.eqb_refl, (ParseP256PrivateKey_hex _ _ Hpriv).
    eexists _, _. split_and!; [reflexivity..| |].
    + cbn. unfold MarshalP256PublicKey, ValidateP256PublicKey. rewrite Hp256. cbn. by rewrite Hpub.
    + unfold loadInitiatorKeys, loadP256InitiatorKey. cbn.
      rewrite hex_Encode_nonempty by (by eapply Marshal_nonempty).
      by rewrite (ParseP256_Marshal _ _ Hp256 Hpub).
Qed.

(** The key file below the directory. *)
Definition initiator_file (node : string) (encrypt : bool) : string :=
  node +:+ (if encrypt then ".key.age" else ".key").

(** What a successful run leaves on the disk. *)
Lemma runGenerateInitiatorIdentity_Ok env node r l (encrypt overwrite : bool) alg d d' :
  no_char slash node = true → Forall Paths.plain l →
  runGenerateInitiatorIdentity env node (path_of r l) encrypt overwrite alg d = (Ok tt, d') →
  let kt := if String.eqb alg "" then EventInitiatorKeyTypeEd25519 else alg in
  ∃ kd i content,
    (String.eqb kt EventInitiatorKeyTypeEd25519 || String.eqb kt EventInitiatorKeyTypeP256 = true) ∧
    (if String.eqb kt EventInitiatorKeyTypeEd25519 then GenerateEd25519Keys (ge_seed (ie_common env))
     else GenerateP256Keys (ie_p256 env)) = Ok kd ∧
    ii_Algorithm i = kt ∧ ii_PublicKey i = PublicKeyHex kd ∧
    d' = <[path_of r (l ++ [initiator_file node encrypt]) := content]>
           (<[path_of r (l ++ [node +:+ ".identity.json"])
                := MarshalIndent_struct (InitiatorIdentity_fields i)]> d) ∧
    if encrypt then ∃ pass rc, RequestPassword (ge_first (ie_common env)) (ge_second (ie_common env))
                                 = Ok pass ∧ NewScryptRecipient pass = Ok rc ∧
                    content = age_ciphertext rc (ge_random (ie_common env)) (PrivateKeyHex kd)
    else content = PrivateKeyHex kd.
Proof.
  intros Hn Hl Hrun kt. unfold runGenerateInitiatorIdentity in Hrun.
  cbv zeta in Hrun. fold kt in Hrun.
  assert (∀ s, no_char slash s = true → (2 < String.length s)%nat → plain (node +:+ s)) as Hp.
  { intros s Hs. apply plain_file. by rewrite no_char_app, Hn, Hs. }
  rewrite !Join_plain in Hrun by (done || (apply Hp; [done|cbn; lia])).
  apply bindR_Ok in Hrun as ([] & d0 & [Hkt ->]%lift_Ok & H).
  apply bindR_Ok in H as ([] & d1 & [_ ->]%lift_Ok & H).
  apply bindR_Ok in H as ([] & d2 & ->%refuse_Ok & H).
  apply bindR_Ok in H as ([] & d3 & ->%refuse_Ok & H).
  apply bindR_Ok in H as ([] & d4 & Hr & H).
  assert (d4 = d) as ->
    by (destruct encrypt; [by apply refuse_Ok in Hr|by apply lift_Ok in Hr as [_ ->]]).
  apply bindR_Ok in H as (kd & d5 & [Hkd%wrap_err_Ok ->]%lift_Ok & H).
  apply bindR_Ok in H as (user & d6 & [_ ->]%lift_Ok & H).
  apply bindR_Ok in H as ([] & d7 & ->%wrapM_Ok%WriteFile_Ok & H).
  match type of H with context [InitiatorIdentity_fields ?i] => exists kd, i end.
  set (text := MarshalIndent_struct _) in *. unfold initiator_file. destruct encrypt.
  - apply bindR_Ok in H as (pass & d8 & [Hpass ->]%lift_Ok & H).
    apply bindR_Ok in H as ([] & d9 & [_ ->]%lift_Ok & H).
    apply write_encrypted_Ok in H as (rc & Hrc & ->).
    rewrite path_of_snoc_app, app_assoc_s. exists (age_ciphertext rc (ge_random (ie_common env))
      (PrivateKeyHex kd)). split_and!; [by destruct (_ || _)|done..|eauto].
  - apply wrapM_Ok, WriteFile_Ok in H as ->. exists (PrivateKeyHex kd).
    split_and!; [by destruct (_ || _)|done..].
Qed.

Lemma NewLocalSigner_file_reads o d kt path pass content : readable o → d !! path = Some content →
  path ≠ "" → HasSuffix path ".age" = false →
  NewLocalSigner_file o d kt (mkSignerOptions path false pass)
    = NewLocalSigner NewKeyFromSeed ParseP256PrivateKey kt (Ok content).
Proof.
  intros Ho Hp Hne Hs. unfold NewLocalSigner_file, readKeyFile. cbn [KeyPath Encrypted Password].
  rewrite (proj2 (String.eqb_neq _ _) Hne), Hs. cbn [orb].
  by rewrite (Stat_readable _ _ _ _ Ho Hp), (ReadFile_readable _ _ _ _ Ho Hp).
Qed.

Lemma NewLocalSigner_file_decrypts o d kt path pass rc rnd plain : readable o →
  d !! path = Some (age_ciphertext rc rnd plain) → NewScryptRecipient pass = Ok rc → pass ≠ "" →
  path ≠ "" → HasSuffix path ".age" = true →
  NewLocalSigner_file o d kt (mkSignerOptions path false pass)
    = NewLocalSigner NewKeyFromSeed ParseP256PrivateKey kt (Ok plain).
Proof.
  intros Ho Hp Hrc Hpne Hne Hs. unfold NewLocalSigner_file, readKeyFile.
  cbn [KeyPath Encrypted Password].
  rewrite (proj2 (String.eqb_neq _ _) Hne), (proj2 (String.eqb_neq _ _) Hpne), Hs. cbn [orb].
  rewrite (Stat_readable _ _ _ _ Ho Hp), (ReadFile_readable _ _ _ _ Ho Hp).
  cbn [mbind Res_bind wrap_err]. unfold decryptPrivateKey.
  destruct (scrypt_identity _ _ Hrc) as [i Hi].
  destruct (age_Decrypt_ciphertext pass rc i rnd plain Hrc Hi) as (rd & Hrd & Hall).
  rewrite Hi. cbn [mbind Res_bind wrap_err]. rewrite Hrd. cbn [mbind Res_bind wrap_err].
  by rewrite Hall.
Qed.

(** C8: the initiator's key works from its generation to the nodes, in both algorithms
    and with or without encryption.  After a successful run the client loads a signer
    from the key file, given the passphrase that was typed when the file is encrypted;
    the signer has the algorithm and shows the public key of the identity file; and a
    node configured with these accepts every message signed by it. *)
Theorem initiator_key_usable env node r l (encrypt overwrite : bool) alg d d'
    (Hrun : runGenerateInitiatorIdentity env node (path_of r l) encrypt overwrite alg d = (Ok tt, d'))
    (Hn : no_char slash node = true) (Hl : Forall Paths.plain l)
    (Hseed : ∀ seed, ge_seed (ie_common env) = Ok seed → String.length seed = 32%nat)
    (Hp256 : ∀ k, ie_p256 env = Ok k → ecdsa_on_P256 (ecdsa_Public k) = true) :
  let kt := if String.eqb alg "" then EventInitiatorKeyTypeEd25519 else alg in
  ∃ i s k,
    d' !! path_of r (l ++ [node +:+ ".identity.json"])
      = Some (MarshalIndent_struct (InitiatorIdentity_fields i)) ∧
    ii_Algorithm i = kt ∧ Algorithm s = kt ∧ PublicKey s = Ok (ii_PublicKey i) ∧
    (∀ o pass, readable o → (encrypt = true → ge_first (ie_common env) = Ok pass) →
       NewLocalSigner_file o d' kt
         (mkSignerOptions (path_of r (l ++ [initiator_file node encrypt])) false pass) = Ok s) ∧
    loadInitiatorKeys kt (ii_PublicKey i) ParseEd25519PublicKeyFromHex ParseP256PublicKeyFromHex
      ParseP256PublicKeyFromBase64 = Ok k ∧
    ∀ (Req : Type) (HReq : InitiatorMessage Req) (store : fileStore) (msg : Req) raw sg,
      initiatorKey store = k →
      Raw msg = Ok raw → Sig msg = Some sg → Sign s raw = Ok sg →
      VerifyInitiatorMessage store msg = Ok tt.
Proof.
  intros kt. apply runGenerateInitiatorIdentity_Ok in Hrun; [|done..]. fold kt in Hrun.
  destruct Hrun as (kd & i & content & Hkt & Hkd & Halg & Hpub & Hd' & Hcontent).
  destruct (generated_signer _ _ _ _ Hkd Hkt Hseed Hp256) as (s & k & Hnew & Hst & Hspub & Hload).
  exists i, s, k. rewrite Hpub.
  set (kp := path_of r (l ++ [initiator_file node encrypt])) in *.
  assert (d' !! kp = Some content) as Hkey by (by rewrite Hd', lookup_insert_eq).
  destruct (path_of_snoc r l) as (dir & _ & Hpath).
  assert (kp = dir +:+ initiator_file node encrypt) as Hkp by apply Hpath.
  assert (kp ≠ "") as Hkne.
  { rewrite Hkp. intros He%(f_equal String.length). unfold initiator_file in He.
    rewrite !length_app_s in He. destruct encrypt; cbn in He; lia. }
  split_and!; [|done..| |done|].
  - rewrite Hd', lookup_insert_ne; [by rewrite lookup_insert_eq|].
    intros He. apply path_of_snoc_inj, app_inj_l_s in He. by destruct encrypt.
  - intros o pass Ho Hpass. unfold initiator_file in Hkp. rewrite <-app_assoc_s in Hkp.
    destruct encrypt.
    + destruct Hcontent as (pass' & rc & Hreq & Hrc & ->).
      assert (pass' = pass) as ->.
      { apply RequestPassword_first in Hreq. specialize (Hpass eq_refl). congruence. }
      erewrite NewLocalSigner_file_decrypts; [exact Hnew|done..| |done|].
      * intros ->. unfold RequestPassword in Hreq. inv_res. cases.
      * rewrite Hkp. change ".key.age" with (".key" +:+ ".age"). rewrite <-app_assoc_s.
        apply HasSuffix_app.
    + rewrite (NewLocalSigner_file_reads _ _ _ _ _ content); [by rewrite Hcontent|done..|].
      rewrite Hkp. apply HasSuffix_key_age.
  - intros Req HReq store msg raw sg Hik. apply LocalSigner_accepted.
    eapply (loadInitiatorKeys_configured NewKeyFromSeed _ _ kt); [|exact Hnew|exact Hspub|].
    + apply NewKeyFromSeed_length.
    + rewrite Hik. cbn. rewrite Hst. exact Hload.
Qed.

(** A signer of KMS is only built for P-256, with a key on that curve, and the signature
    requests it makes are for the configured key. *)
Theorem NewKMSSigner_Ok parse connect kt opts s :
  NewKMSSigner parse connect kt opts = Ok s →
  kt = EventInitiatorKeyTypeP256 ∧ kms_KeyID opts ≠ "" ∧ kms_Region opts ≠ "" ∧
  ∃ client key, connect (KMS_config opts) = Ok client ∧ ecdsa_on_P256 key = true ∧
    s = mkKMSSigner kt (kms_SignCall client (kms_KeyID opts)) (Some key) ∧
    PublicKey s = wrap_err "failed to marshal P256 public key: " (MarshalPKIXPublicKey key)
                    ≫= λ der, Ok (hex_EncodeToString der).
Proof.
  unfold NewKMSSigner, KMS_loadPublicKey. intros H.
  destruct (String.eqb_spec kt EventInitiatorKeyTypeP256) as [->|]; [|done].
  destruct (String.eqb_spec (kms_KeyID opts) ""); [done|].
  destruct (String.eqb_spec (kms_Region opts) ""); [done|]. cbn [negb] in H. inv_res.
  match goal with H : (if ecdsa_on_P256 ?k then _ else _) = _ |- _ =>
    destruct (ecdsa_on_P256 k) eqn:Hon; [|done] end.
  split_and!; [done..|]. eexists _, _. split_and!; [done|done|reflexivity|].
  cbn. unfold KMSSigner_PublicKey, MarshalP256PublicKey, ValidateP256PublicKey. cbn. by rewrite Hon.
Qed.

End props.
(** *** Witnesses *)

#[local] Existing Instance toy_crypto.
#[local] Existing Instance toy_crypto_spec.
#[local] Existing Instance toy_p256.
#[local] Existing Instance toy_p256_spec.
#[local] Existing Instance toy_age.
#[local] Existing Instance toy_age_spec.
#[local] Existing Instance toy_seed.
#[local] Existing Instance toy_seed_spec.

(** DER text of a private key: "0" and the key; PKCS #8 is not used. *)
Definition toy_x509 : X509Keys := {|
  ParsePKCS8PrivateKey _ := (None : option (@ecdsa_PrivateKey _ toy_p256));
  ParseECPrivateKey der := TrimPrefix_opt der "0";
  MarshalECPrivateKey k := Ok ("0" +:+ (k : string));
|}.

Definition toy_x509_spec : X509KeysSpec toy_x509.
Proof.
  split; cbn -[TrimPrefix_opt HasPrefix].
  - done.
  - intros [|c der] k; [done|]. cbn [TrimPrefix_opt HasPrefix].
    destruct (Ascii.eqb "0" c); [by destruct der|done].
  - intros k der [= <-]. apply (TrimPrefix_opt_app "0").
  - done.
Qed.
#[local] Existing Instance toy_x509.
#[local] Existing Instance toy_x509_spec.

Definition toy_initiator_env : initiator_env :=
  mkInitiatorEnv toy_generate_env (Ok "p256key") (Ok "operator") (Ok "host") "linux".

Definition toy_initiator_disk : gmap string string :=
  (runGenerateInitiatorIdentity toy_initiator_env "event_initiator" "keys" true false
     EventInitiatorKeyTypeP256 ∅).2.

Lemma initiator_key_usable_witness :
  ∃ s, NewLocalSigner_file os_fine toy_initiator_disk EventInitiatorKeyTypeP256
         (mkSignerOptions "keys/event_initiator.key.age" false "correct horse") = Ok s ∧
       Algorithm s = EventInitiatorKeyTypeP256.
Proof.
  destruct (initiator_key_usable toy_initiator_env "event_initiator" false ["keys"] true false
    EventInitiatorKeyTypeP256 ∅ toy_initiator_disk)
    as (i & s & k & _ & _ & Halg & _ & Hload & _).
  - apply run_of_eval. vm_compute. reflexivity.
  - reflexivity.
  - repeat constructor; done.
  - intros seed Hs. vm_compute in Hs. injection Hs as <-. reflexivity.
  - intros key Hk. vm_compute in Hk. injection Hk as <-. reflexivity.
  - exists s. split; [|exact Halg]. apply (Hload os_fine "correct horse" os_fine_readable).
    intros _. reflexivity.
Defined.

Lemma NewKMSSigner_Ok_witness :
  EventInitiatorKeyTypeP256 = EventInitiatorKeyTypeP256 ∧ "key" ≠ "" ∧ "eu-west-1" ≠ "".
Proof.
  destruct (NewKMSSigner_Ok (λ d, Ok (Some (d : @ecdsa_PublicKey toy_crypto)))
    (λ _, Ok (mkKmsClient (λ _, Ok "p256key") (λ _ m, Ok m)))
    EventInitiatorKeyTypeP256 (mkKMSOptions "eu-west-1" "key" "" "" "")
    (mkKMSSigner EventInitiatorKeyTypeP256 (λ m, Ok m)
       (Some ("p256key" : @ecdsa_PublicKey toy_crypto)))) as (H1 & H2 & H3 & _).
  - reflexivity.
  - exact (conj H1 (conj H2 H3)).
Defined.
