(* ===== verification/Benchmark.v ===== *)
(** * cmd/cli/benchmark: requests in bulk, and what is reported of them

    Three commands send a number of requests through the client library while a listener
    ends them as their results come in; a WaitGroup counts those that have not ended.
    Then [calculateBenchmarkResult] sums up.  The loop and the listener are the steps of
    [bench]; rates, which are floating-point numbers, stay fractions. *)

From stdpp Require Import base gmap list strings sorting.
From Stdlib Require Import ZArith Lia.
From S2P Require Import Prelude.
From S2P Require Import GoStrings.
From S2P Require Import Types.
From S2P Require Import Identity.
From S2P Require Import Messaging.
From S2P Require Import Client.
From S2P Require Import Topology.
From S2P Require Import Keys.
From S2P Require Import InitiatorKeys.

(** ** types.go *)

(** Times in nanoseconds; [None] is the zero time. *)
Record OperationResult := mkOperation {
  op_ID : string;
  op_StartTime : Z;
  op_EndTime : option Z;
  op_Completed : bool;
  op_ErrorCode : ErrorCode;
  op_ErrorReason : string;
}.

Record BenchmarkResult := mkBenchmarkResult {
  TotalOperations : Z;
  SuccessfulOps : Z;
  FailedOps : Z;
  TotalTime : Z;
  AverageTime : Z;
  MedianTime : Z;
  OperationTimes : list Z;
  ErrorRate : Z * Z;              (* of it the hundredfold *)
  OperationsPerMin : Z * Z;       (* operations, and the nanoseconds they took *)
  BatchSize : Z;
  TotalBatches : Z;
  BatchTimes : list Z;
}.

(** ** benchmark.go *)

(** [random] is what [rand.Read] gives, if it does. *)
Definition generateUniqueID (random : option string) (now pid : Z) (prefix : string) : string :=
  match random with
  | None => prefix +:+ "-" +:+ fmt_d now +:+ "-" +:+ fmt_d pid
  | Some randomBytes =>
      prefix +:+ "-" +:+ fmt_d now +:+ "-" +:+ fmt_d pid +:+ "-" +:+ hex_EncodeToString randomBytes
  end.

Definition no_error (c : ErrorCode) : bool := String.eqb (ErrorCode_string c) "".

(** The first loop: successful and failed operations, and how long the former took. *)
Definition count_operation (acc : Z * Z * list Z) (result : OperationResult) : Z * Z * list Z :=
  let '(successfulOps, failedOps, operationTimes) := acc in
  if op_Completed result then
    if no_error (op_ErrorCode result) then
      (successfulOps + 1, failedOps,
       match op_EndTime result with
       | Some t => operationTimes ++ [wrap64 (t - op_StartTime result)]
       | None => operationTimes
       end)
    else (successfulOps, failedOps + 1, operationTimes)
  else (successfulOps, failedOps + 1, operationTimes).

Definition count_operations (results : list OperationResult) : Z * Z * list Z :=
  fold_left count_operation results (0, 0, []).

Definition total_time (l : list Z) : Z := fold_left (λ t x, wrap64 (t + x)) l 0.

Definition median (sorted : list Z) : Z :=
  let n := length sorted in
  let at_ i := default 0 (sorted !! i) in
  if (n mod 2 =? 0)%nat
  then Z.quot (wrap64 (at_ (n / 2 - 1)%nat + at_ (n / 2)%nat)) 2
  else at_ (n / 2)%nat.

(** [operationTimes] is sorted in place, and it is the field of the result. *)
Definition calculateBenchmarkResult (results : list OperationResult) (totalTime batchSize : Z)
    (batchTimes : list Z) : BenchmarkResult :=
  let '(successfulOps, failedOps, operationTimes) := count_operations results in
  let totalOperations := Z.of_nat (length results) in
  let '(averageTime, medianTime, operationTimes, operationsPerSec) :=
    match operationTimes with
    | [] => (0, 0, [], (0, 1))
    | _ =>
        let averageTime := Z.quot (total_time operationTimes) (Z.of_nat (length operationTimes)) in
        let sorted := merge_sort Z.le operationTimes in
        (averageTime, median sorted, sorted, (successfulOps, totalTime))
    end in
  mkBenchmarkResult totalOperations successfulOps failedOps totalTime averageTime medianTime
    operationTimes (failedOps, totalOperations) operationsPerSec batchSize
    (Z.of_nat (length batchTimes)) batchTimes.

(** The part of the report about the first requests: how many completed, the fastest and
    the slowest of them; [None] when it has no such lines. *)
Definition request_analysis (result : BenchmarkResult) : Res (option (Z * option (Z * Z))) :=
  if BatchSize result <=? Z.of_nat (length (OperationTimes result)) then
    if BatchSize result <? 0 then Panic "slice bounds out of range"
    else
      let firstNResults := take (Z.to_nat (BatchSize result)) (OperationTimes result) in
      Ok (Some (Z.of_nat (length firstNResults),
        match firstNResults with
        | [] => None
        | t0 :: _ =>
            Some (fold_left (λ m t, if t <? m then t else m) firstNResults t0,
                  fold_left (λ m t, if m <? t then t else m) firstNResults t0)
        end))
  else Ok None.

(** What is appended to the output file; the answers of the directory, of the file and
    of the two writes, each of which may fail. *)
Fixpoint strings_Repeat (s : string) (n : nat) : string :=
  match n with O => EmptyString | S n => s +:+ strings_Repeat s n end.

Definition separator : string :=
  let nl := str1 (chr 10) in nl +:+ strings_Repeat "=" 80 +:+ nl +:+ nl.

Definition writeBenchmarkToFile (mkdir open write1 write2 : Res unit) (dir content : string) :
    M string (Res unit) :=
  _ ←! lift (wrap_err ("failed to create directory " +:+ dir +:+ ": ") mkdir);
  _ ←! lift (wrap_err "failed to open file: " open);
  _ ←! lift (wrap_err "failed to write content: " write1);
  _ ←! modifyR (λ file, file +:+ content);
  _ ←! lift (wrap_err "failed to write separator: " write2);
  modifyR (λ file, file +:+ separator).

(** What the flags and the environment are: configuration, connection, the password when
    it is asked for, the disk with the key. *)
Definition createMPCClient `{P : P256} `{X : X509Keys} `{A : Age} `{E : Ed25519Seed}
    (load nats : Res unit) (password : option (Res string)) (o : os) (d : gmap string string)
    (keyPath : string) (context : Res unit) (create_stream : StreamConfig → Res unit)
    (create_results : queueConfig → Res unit) (create_consumer : queueConsumer → Res unit) :
    M js_state (Res (initiator LocalSigner)) :=
  _ ←! lift (wrap_err "load config: " load);
  _ ←! lift (wrap_err "failed to connect to NATS: " nats);
  password ←! lift (match password with
                    | None => Ok EmptyString
                    | Some read => wrap_err "failed to get password: " (PromptPassword read)
                    end);
  signer ←! lift (wrap_err "failed to create signer: "
              (NewLocalSigner_file o d EventInitiatorKeyTypeEd25519
                 (mkSignerOptions keyPath false password)));
  NewMPCClient context create_stream create_results create_consumer (Some signer).

(** ** The loop and the listener *)

(** [late] counts the sends that failed although the result was there already. *)
Record bench := mkBench {
  results : list OperationResult;
  wg : Z;
  sending : option nat;           (* the request the loop is sending *)
  late : nat;
}.

Definition complete (now : Z) (code : ErrorCode) (reason : string) (r : OperationResult) :
    OperationResult :=
  mkOperation (op_ID r) (op_StartTime r) (Some now) true code reason.

(** [wg.Done]: the counter must not become negative. *)
Definition wg_Done (wg : Z) : Res Z :=
  if wg - 1 <? 0 then Panic "sync: negative WaitGroup counter" else Ok (wg - 1).

Section run.
(** Which operations a result is for: those of its id, or, for a resharing, those whose
    id begins with its wallet. *)
Variable for_result : string → string → bool.

(** [results = append(results, ...); wg.Add(1)], then the request is sent. *)
Definition start (id : string) (now : Z) (b : bench) : option bench :=
  match sending b with
  | Some _ => None
  | None => Some (mkBench (results b ++ [mkOperation id now None false NoErrorCode ""])
                    (wg b + 1) (Some (length (results b))) (late b))
  end.

(** What the client's call answers; an error ends the operation, whatever it was. *)
Definition sent (answer : option error) (now : Z) (b : bench) : option (Res bench) :=
  match sending b with
  | None => None
  | Some i =>
      match answer with
      | None => Some (Ok (mkBench (results b) (wg b) None (late b)))
      | Some e =>
          let was := default false (op_Completed <$> results b !! i) in
          Some (w ← wg_Done (wg b);
                Ok (mkBench (alter (complete now (GetErrorCodeFromError (Some e)) (Error e)) i
                               (results b))
                      w None (late b + (if was then 1 else 0))))
      end
  end.

(** The listener's loop: the first operation the result is for that has not ended. *)
Fixpoint end_first (id : string) (f : OperationResult → OperationResult)
    (l : list OperationResult) : option (list OperationResult) :=
  match l with
  | [] => None
  | r :: l =>
      if for_result id (op_ID r) && negb (op_Completed r) then Some (f r :: l)
      else cons r <$> end_first id f l
  end.

Definition on_result (id : string) (code : ErrorCode) (reason : string) (now : Z) (b : bench) :
    Res bench :=
  match end_first id (complete now code reason) (results b) with
  | None => Ok b
  | Some l => w ← wg_Done (wg b); Ok (mkBench l w (sending b) (late b))
  end.

Inductive bench_action :=
| BStart (id : string) (now : Z)
| BSent (answer : option error) (now : Z)
| BResult (id : string) (code : ErrorCode) (reason : string) (now : Z).

Definition bench_do (a : bench_action) (b : bench) : option (Res bench) :=
  match a with
  | BStart id now => Ok <$> start id now b
  | BSent answer now => sent answer now b
  | BResult id code reason now => Some (on_result id code reason now b)
  end.

(** A run: it stops where an action panics. *)
Fixpoint bench_run (l : list bench_action) (b : bench) : option (Res bench) :=
  match l with
  | [] => Some (Ok b)
  | a :: l =>
      r ← bench_do a b;
      match r with Ok b => bench_run l b | Err e => Some (Err e) | Panic w => Some (Panic w) end
  end.

End run.

Definition bench_start : bench := mkBench [] 0 None 0.

(** The listeners of the three commands. *)
Definition by_id (id opID : string) : bool := String.eqb opID id.
Definition by_wallet (walletID opID : string) : bool := HasPrefix opID walletID.

(** ** Properties *)

(** *** The counter *)






Section counter.
Variable for_result : string → string → bool.
#[local] Abbreviation bench_do := (bench_do for_result).
#[local] Abbreviation bench_run := (bench_run for_result).






End counter.

(** A send that fails although its request was taken and answered. *)
Lemma late_failure_panics :
  bench_run by_id [BStart "w1" 0; BResult "w1" NoErrorCode "" 5; BSent (Some ErrConnectionClosed) 6]
    bench_start = Some (Panic "sync: negative WaitGroup counter").
Proof. reflexivity. Qed.

(** *** The report *)

(** How long the successful operations took, in the order of their requests. *)
Definition durations (l : list OperationResult) : list Z :=
  omap (λ r, if op_Completed r && no_error (op_ErrorCode r)
             then (λ t, wrap64 (t - op_StartTime r)) <$> op_EndTime r else None) l.

Lemma durations_cons r l : durations (r :: l) =
  (if op_Completed r && no_error (op_ErrorCode r)
   then option_list ((λ t, wrap64 (t - op_StartTime r)) <$> op_EndTime r) else []) ++ durations l.
Proof.
  unfold durations. cbn. destruct (_ && _); [|done]. by destruct (op_EndTime r).
Qed.

Lemma count_operations_spec l s0 f0 ts0 :
  ∃ s f, fold_left count_operation l (s0, f0, ts0) = (s0 + s, f0 + f, ts0 ++ durations l) ∧
    0 ≤ s ∧ 0 ≤ f ∧ s + f = Z.of_nat (length l) ∧ Z.of_nat (length (durations l)) ≤ s.
Proof.
  revert s0 f0 ts0. induction l as [|r l IH]; intros s0 f0 ts0.
  - exists 0, 0. cbn. rewrite app_nil_r, !Z.add_0_r. by split_and!.
  - rewrite durations_cons. cbn [fold_left]. unfold count_operation at 2.
    assert (∀ ds a b, Z.of_nat (length ds) ≤ a → 0 ≤ b → a + b = 1 →
      ∃ s f, fold_left count_operation l (s0 + a, f0 + b, ts0 ++ ds) =
             (s0 + s, f0 + f, ts0 ++ ds ++ durations l) ∧
        0 ≤ s ∧ 0 ≤ f ∧ s + f = Z.of_nat (length (r :: l)) ∧
        Z.of_nat (length (ds ++ durations l)) ≤ s) as Hk.
    { intros ds a b Ha Hb Hab.
      destruct (IH (s0 + a) (f0 + b) (ts0 ++ ds)) as (s & f & -> & H1 & H2 & H3 & H4).
      exists (s + a), (f + b). rewrite <-app_assoc, length_app. cbn [length].
      split_and!; [f_equal; f_equal; lia|lia..]. }
    destruct (op_Completed r); cbn [andb]; [destruct (no_error (op_ErrorCode r));
      [destruct (op_EndTime r) as [t|]|]|]; cbn [fmap option_fmap option_map option_list].
    + destruct (Hk [wrap64 (t - op_StartTime r)] 1 0) as (s & f & Hf & H); [cbn; lia..|].
      rewrite Z.add_0_r in Hf. by exists s, f.
    + destruct (Hk [] 1 0) as (s & f & Hf & H); [cbn; lia..|].
      rewrite app_nil_r, Z.add_0_r in Hf. by exists s, f.
    + destruct (Hk [] 0 1) as (s & f & Hf & H); [cbn; lia..|].
      rewrite app_nil_r, Z.add_0_r in Hf. by exists s, f.
    + destruct (Hk [] 0 1) as (s & f & Hf & H); [cbn; lia..|].
      rewrite app_nil_r, Z.add_0_r in Hf. by exists s, f.
Qed.

#[local] Instance Zle_trans : Transitive Z.le.
Proof. intros x y z. lia. Qed.
#[local] Instance Zle_total : Total Z.le.
Proof. intros x y. lia. Qed.

Lemma fold_min l m0 : Forall (λ t, m0 ≤ t) l →
  fold_left (λ m t, if t <? m then t else m) l m0 = m0.
Proof.
  induction 1 as [|t l Ht _ IH]; cbn; [done|]. by destruct (Z.ltb_spec t m0); [lia|].
Qed.

Lemma fold_max l m0 : StronglySorted Z.le (m0 :: l) →
  ∃ k, fold_left (λ m t, if m <? t then t else m) l m0 = k ∧ last (m0 :: l) = Some k.
Proof.
  revert m0. induction l as [|t l IH]; intros m0 Hs; cbn; [by exists m0|].
  apply StronglySorted_inv in Hs as [Hs Hf]. apply Forall_cons in Hf as [Ht _].
  destruct (IH t Hs) as (k & Hk & Hl). exists k. split; [|exact Hl].
  destruct (Z.ltb_spec m0 t); [done|]. by replace m0 with t by lia.
Qed.

Lemma last_is_max (l : list Z) k t : StronglySorted Z.le l → last l = Some k → t ∈ l → t ≤ k.
Proof.
  intros Hs [l' ->]%last_Some. apply StronglySorted_app in Hs as (Hc & _ & _).
  intros [Ht| ->%list_elem_of_singleton]%elem_of_app; [|lia]. apply Hc; [done|set_solver].
Qed.

(** What is reported.  Every operation counts as successful or as failed; the times
    are those of the successful operations, in ascending order.  So what is given for
    "the first N" requests is about the N fastest: the fastest is that of all, and every
    other request took at least as long as the slowest. *)
Theorem report_spec l totalTime batchSize batchTimes n fast slow :
  let r := calculateBenchmarkResult l totalTime batchSize batchTimes in
  SuccessfulOps r + FailedOps r = Z.of_nat (length l) ∧ 0 ≤ SuccessfulOps r ∧ 0 ≤ FailedOps r ∧
  OperationTimes r ≡ₚ durations l ∧ StronglySorted Z.le (OperationTimes r) ∧
  (request_analysis r = Ok (Some (n, Some (fast, slow))) →
   n = batchSize ∧ fast ∈ durations l ∧ slow ∈ durations l ∧
   (∀ t, t ∈ durations l → fast ≤ t) ∧
   ∃ firsts others, durations l ≡ₚ firsts ++ others ∧ Z.of_nat (length firsts) = n ∧
     (∀ t, t ∈ firsts → t ≤ slow) ∧ ∀ t, t ∈ others → slow ≤ t).
Proof.
  intros r. destruct (count_operations_spec l 0 0 []) as (s & f & Hc & Hs & Hf & Hsf & _).
  rewrite !Z.add_0_l in Hc. cbn [app] in Hc.
  assert (SuccessfulOps r = s ∧ FailedOps r = f ∧ BatchSize r = batchSize ∧
    OperationTimes r = merge_sort Z.le (durations l)) as (H1 & H2 & H3 & H4).
  { unfold r, calculateBenchmarkResult, count_operations. rewrite Hc.
    by destruct (durations l). }
  rewrite H1, H2, H4. pose proof (StronglySorted_merge_sort Z.le (durations l)) as Hsorted.
  split_and!; [done..|by rewrite merge_sort_Permutation|done|].
  unfold request_analysis. rewrite H3, H4.
  set (S := merge_sort Z.le (durations l)) in *.
  assert (∀ t, t ∈ durations l ↔ t ∈ S) as Hin
    by (intros t; unfold S; by rewrite merge_sort_Permutation).
  destruct (Z.leb_spec batchSize (Z.of_nat (length S))); [|done].
  destruct (Z.ltb_spec batchSize 0); [done|].
  destruct (take (Z.to_nat batchSize) S) as [|t0 ts] eqn:Ht; [done|].
  assert (length (t0 :: ts) = Z.to_nat batchSize) as Hlen
    by (rewrite <-Ht, length_take; lia).
  assert (S = (t0 :: ts) ++ drop (Z.to_nat batchSize) S) as HS by (by rewrite <-Ht, take_drop).
  set (others := drop (Z.to_nat batchSize) S) in *.
  rewrite HS in Hsorted. apply StronglySorted_app in Hsorted as (Hcross & Hfirst & _).
  pose proof (StronglySorted_inv Hfirst) as [_ Hmin].
  destruct (fold_max ts t0 Hfirst) as (k & Hk & Hlast).
  cbn [fold_left]. rewrite Z.ltb_irrefl, Hk, (fold_min ts t0) by done.
  intros [= <- <- <-].
  assert (k ∈ t0 :: ts) as Hkin by (apply last_Some in Hlast as [? ->]; set_solver).
  split_and!; [cbn [length] in Hlen; lia|..].
  - apply Hin. rewrite HS. set_solver.
  - apply Hin. rewrite HS. apply elem_of_app. by left.
  - intros t Htin. apply Hin in Htin. rewrite HS in Htin.
    apply elem_of_app in Htin as [[->|Htin]%elem_of_cons|Htin]; [lia|..].
    + rewrite Forall_forall in Hmin. by apply Hmin.
    + apply Hcross; [set_solver|done].
  - exists (t0 :: ts), others. split_and!.
    + rewrite <-HS. unfold S. by rewrite merge_sort_Permutation.
    + cbn [length]. lia.
    + intros t Htin. by apply (last_is_max (t0 :: ts)).
    + intros t Htin. by apply Hcross.
Qed.

(** *** Witnesses *)

Definition toy_run : list bench_action :=
  [BStart "w1" 0; BSent None 1; BStart "w2" 2; BResult "w1" NoErrorCode "" 9; BSent None 3;
   BStart "w3" 4; BSent (Some ErrConnectionClosed) 5; BResult "w2" NoErrorCode "" 8].

Definition toy_bench : bench :=
  match bench_run by_id toy_run bench_start with Some (Ok b) => b | _ => bench_start end.


Lemma report_spec_witness :
  let r := calculateBenchmarkResult (results toy_bench) 20 1 [] in
  SuccessfulOps r + FailedOps r = 3 ∧ request_analysis r = Ok (Some (1, Some (6, 6))) ∧
  ∀ t, t ∈ durations (results toy_bench) → 6 ≤ t.
Proof.
  cbv zeta.
  destruct (report_spec (results toy_bench) 20 1 [] 1 6 6) as (H1 & _ & _ & _ & _ & H).
  split; [exact H1|].
  assert (request_analysis (calculateBenchmarkResult (results toy_bench) 20 1 []) =
    Ok (Some (1, Some (6, 6)))) as Ha by (vm_compute; reflexivity).
  split; [exact Ha|]. exact (proj1 (proj2 (proj2 (proj2 (H Ha))))).
Defined.
