(* ===== verification/JetConsumers.v ===== *)
(** * pkg/eventconsumer/{keygen,signing,resharing,timeout}.go: the request streams

    A node takes the initiator's requests from JetStream, hands each one to the
    event handlers over plain NATS with a reply inbox, waits for the reply, and
    settles the request: acknowledged it is gone, otherwise it is redelivered.
    What a handler does is the list of its effects in order; the registry is read,
    the connection's answers are arguments.  A request that was delivered too
    often comes back as an advisory, which [timeOutConsumer] turns into a result. *)

From stdpp Require Import base gmap list strings.
From Stdlib Require Import ZArith Lia Ascii.
From S2P Require Import Prelude.
From S2P Require Import GoStrings.
From S2P Require Import External.
From S2P Require Import Json.
From S2P Require Import Types.
From S2P Require Import Identity.
From S2P Require Import Ecdh.
From S2P Require Import Registry.
From S2P Require Import Messaging.
From S2P Require Import EventConsumer.

(** Durations in milliseconds. *)
Definition keygenResponseTimeout : Z := 30000.
Definition keygenPollingInterval : Z := 500.
Definition signingResponseTimeout : Z := 30000.
Definition signingPollingInterval : Z := 500.
Definition resharingResponseTimeout : Z := 60000.
Definition resharingPollingInterval : Z := 500.

Inductive js_event :=
| JEnqueued (topic payload idempotentKey : string)      (* on a result queue *)
| JForwarded (subject inbox data sessionID : string)    (* PublishWithReply *)
| JSubscribed (inbox : string)                          (* SubscribeSync *)
| JUnsubscribed (inbox : string)                        (* deferred *)
| JSettled (s : settlement).

Definition buildIdempotentKey (baseID sessionID : string) (format : string → string) : string :=
  format (if String.eqb sessionID "" then baseID else baseID +:+ ":" +:+ sessionID).

Section consumers.
Context `{C : Crypto} `{L : Lo}.

(** The result queue's answer; nil is [None]. *)
Variable enqueue : string → string → string → option error.

(** An error of the queue is only logged. *)
Definition enqueue_result (topic payload key : string) : list js_event :=
  match enqueue topic payload key with
  | None => [JEnqueued topic payload key]
  | Some _ => []
  end.

(** ** Waiting for the reply *)

(** One [replySub.NextMsg]: what it returned and how long it took. *)
Inductive poll := PollTimeout | PollError | PollMsg.

Fixpoint poll_loop (fuel : nat) (timeout elapsed : Z) (next : nat → poll * Z) (i : nat) :
    option settlement :=
  match fuel with
  | O => None
  | S fuel =>
      if timeout <=? elapsed then Some Naked
      else match next i with
           | (PollTimeout, d) => poll_loop fuel timeout (elapsed + d) next (S i)
           | (PollError, _) => Some Naked
           | (PollMsg, _) => Some Acked
           end
  end.

(** Rounds that suffice when a poll that times out takes the whole interval. *)
Definition poll_fuel (timeout interval : Z) : nat := Z.to_nat (timeout / interval + 2).

(** The second half of the three handlers: [subscribed] and [published] are the
    answers to [SubscribeSync] and [PublishWithReply]. *)
Definition forward (subject : string) (timeout interval : Z) (subscribed published : option error)
    (inbox newSessionID data : string) (next : nat → poll * Z) : option (list js_event) :=
  match subscribed with
  | Some _ => Some [JSettled Naked]
  | None =>
      match published with
      | Some _ => Some [JSubscribed inbox; JSettled Naked; JUnsubscribed inbox]
      | None =>
          s ← poll_loop (poll_fuel timeout interval) timeout 0 next 0;
          Some [JSubscribed inbox; JForwarded subject inbox data newSessionID; JSettled s;
                JUnsubscribed inbox]
      end
  end.

(** ** keygen.go *)

Definition handleKeygenError (m : KeygenMessage) (code : ErrorCode) (err : error)
    (sessionID : string) : list js_event :=
  enqueue_result (TypeGenerateWalletResultFmt (km_WalletID m))
    (encode (KeygenResponse_json (mkKeygenResponse (km_WalletID m) None None code (Error err))))
    (buildIdempotentKey (km_WalletID m) sessionID TypeGenerateWalletResultFmt).

Definition handleKeygenEvent (decoded : KeygenMessage * option error) (r : registry)
    (data sessionID inbox newSessionID : string) (subscribed published : option error)
    (next : nat → poll * Z) : option (list js_event) :=
  let '(keygenMsg, err) := decoded in
  match err with
  | Some err =>
      Some (handleKeygenError keygenMsg ErrorCodeUnmarshalFailure err sessionID ++ [JSettled Acked])
  | None =>
      if negb (ArePeersReady r) then
        Some (handleKeygenError keygenMsg ErrorCodeClusterNotReady
                (errors_New "not all peers are ready") sessionID ++ [JSettled Acked])
      else forward MPCGenerateEvent keygenResponseTimeout keygenPollingInterval subscribed published
             inbox newSessionID data next
  end.

(** ** signing.go *)

Record signingConsumer := mkSigningConsumer { sc_threshold : Z }.

(** The constructor does not set the threshold. *)
Definition NewSigningConsumer : signingConsumer := mkSigningConsumer 0.

Definition handleSigningError (m : SigningMessage) (code : ErrorCode) (err : error)
    (sessionID : string) : list js_event :=
  enqueue_result SigningResultCompleteTopic
    (encode (SigningResponse_json (mkSigningResponse code (Error err) false (sm_WalletID m)
       (sm_TxID m) None None None None)))
    (buildIdempotentKey (sm_TxID m) sessionID TypeSigningResultFmt).

Definition handleSigningEvent (sc : signingConsumer) (decoded : SigningMessage * option error)
    (r : registry) (data sessionID inbox newSessionID : string) (subscribed published : option error)
    (next : nat → poll * Z) : option (list js_event) :=
  let '(signingMsg, err) := decoded in
  match err with
  | Some err =>
      Some (handleSigningError signingMsg ErrorCodeUnmarshalFailure err sessionID ++
            [JSettled Acked])
  | None =>
      if negb (AreMajorityReady r) then
        let err := errors_New ("not enough peers to process signing request: ready=" +:+
          fmt_d (readyCount r) +:+ ", required=" +:+ fmt_d (wrap64 (sc_threshold sc + 1))) in
        Some (handleSigningError signingMsg ErrorCodeNotMajority err sessionID ++ [JSettled Acked])
      else forward MPCSignEvent signingResponseTimeout signingPollingInterval subscribed published
             inbox newSessionID data next
  end.

(** ** resharing.go *)

Definition handleResharingError (m : ResharingMessage) (code : ErrorCode) (err : error)
    (sessionID : string) : list js_event :=
  enqueue_result ResharingResultCompleteTopic
    (encode (ResharingResponse_json (mkResharingResponse (rm_WalletID m) (rm_NewThreshold m)
       (rm_KeyType m) None code (Error err))))
    (buildIdempotentKey (rm_WalletID m) sessionID TypeResharingWalletResultFmt).

Definition handleResharingEvent (decoded : ResharingMessage * option error)
    (data sessionID inbox newSessionID : string) (subscribed published : option error)
    (next : nat → poll * Z) : option (list js_event) :=
  let '(resharingMsg, err) := decoded in
  match err with
  | Some err =>
      Some (handleResharingError resharingMsg ErrorCodeUnmarshalFailure err sessionID ++
            [JSettled Acked])
  | None =>
      forward MPCResharingEvent resharingResponseTimeout resharingPollingInterval subscribed
        published inbox newSessionID data next
  end.

(** ** Run *)

(** What the waiting loop sees: a tick with the registry of that moment, or the
    end of the context. *)
Inductive wait_event := WTick (r : registry) | WDone (ctxErr : error).

Definition context_Canceled : error := Sentinel "context.Canceled" "context canceled".

(** [None]: it still waits. *)
Fixpoint wait_for (enough : registry → bool) (evs : list wait_event) : option (option error) :=
  match evs with
  | [] => None
  | WDone e :: _ => Some (if bool_decide (e = context_Canceled) then None else Some e)
  | WTick r :: evs => if enough r then Some None else wait_for enough evs
  end.

Definition signing_waitForSufficientPeers (sc : signingConsumer) : list wait_event →
    option (option error) :=
  wait_for (λ r, wrap64 (sc_threshold sc + 1) <=? readyCount r).

Definition keygen_waitForSufficientPeers : list wait_event → option (option error) :=
  wait_for ArePeersReady.

Inductive run_state :=
| Waiting
| Subscribed                 (* and blocked until the context ends *)
| Returned (err : option error).

(** The part of [Run] up to the subscription; [create] answers it. *)
Definition Run_until_subscribed (waited : option (option error)) (kind : string)
    (create : option error) : run_state :=
  match waited with
  | None => Waiting
  | Some (Some err) =>
      if bool_decide (err = context_Canceled) then Returned None
      else Returned (Some (Errorf_w "failed to wait for sufficient peers: " err))
  | Some None =>
      match create with
      | None => Subscribed
      | Some e => Returned (Some (Errorf_w ("failed to subscribe to " +:+ kind +:+ " events: ") e))
      end
  end.

(** ** timeout.go *)

Definition errorMsgSigningTimeout : string := "Signing failed: maximum delivery attempts exceeded".
Definition errorMsgResharingTimeout : string :=
  "Resharing failed: maximum delivery attempts exceeded".
Definition errorMsgKeygenTimeout : string := "Keygen failed: maximum delivery attempts exceeded".

(** json.Unmarshal of a request's bytes into the struct of a response. *)
Variable Unmarshal_SigningResponse : string → Res SigningResponse.
Variable Unmarshal_ResharingResponse : string → Res ResharingResponse.
Variable Unmarshal_KeygenResponse : string → Res KeygenResponse.

(** Enqueue with an error text; the idempotent key is also the result. *)
Definition enqueue_timeout (kind topic payload key : string) : Res string * list js_event :=
  match enqueue topic payload key with
  | None => (Ok key, [JEnqueued topic payload key])
  | Some e => (Err (Errorf_w ("failed to enqueue " +:+ kind +:+ " response: ") e), [])
  end.

Definition SigningStreamHandler_HandleTimeout (data : string) : Res string * list js_event :=
  match wrap_err "failed to unmarshal signing response: " (Unmarshal_SigningResponse data) with
  | Err e => (Err e, [])
  | Panic w => (Panic w, [])
  | Ok r =>
      let r := mkSigningResponse ErrorCodeMaxDeliveryAttempts errorMsgSigningTimeout true
                 (sr_WalletID r) (sr_TxID r) (sr_R r) (sr_S r) (sr_SignatureRecovery r)
                 (sr_Signature r) in
      enqueue_timeout "signing" SigningResultTopic (encode (SigningResponse_json r)) (sr_TxID r)
  end.

Definition ResharingStreamHandler_HandleTimeout (data : string) : Res string * list js_event :=
  match wrap_err "failed to unmarshal resharing response: " (Unmarshal_ResharingResponse data) with
  | Err e => (Err e, [])
  | Panic w => (Panic w, [])
  | Ok r =>
      let r := mkResharingResponse (rr_WalletID r) (rr_NewThreshold r) (rr_KeyType r) (rr_PubKey r)
                 ErrorCodeMaxDeliveryAttempts errorMsgResharingTimeout in
      enqueue_timeout "resharing" ResharingResultTopic (encode (ResharingResponse_json r))
        (rr_WalletID r)
  end.

Definition KeygenStreamHandler_HandleTimeout (data : string) : Res string * list js_event :=
  match wrap_err "failed to unmarshal keygen response: " (Unmarshal_KeygenResponse data) with
  | Err e => (Err e, [])
  | Panic w => (Panic w, [])
  | Ok r =>
      let r := mkKeygenResponse (kr_WalletID r) (kr_ECDSAPubKey r) (kr_EDDSAPubKey r)
                 ErrorCodeMaxDeliveryAttempts errorMsgKeygenTimeout in
      enqueue_timeout "keygen" KeygenResultTopic (encode (KeygenResponse_json r)) (kr_WalletID r)
  end.

(** The map of handlers by stream. *)
Definition stream_handler (stream : string) : option (string → Res string * list js_event) :=
  if String.eqb stream SigningBrokerStream then Some SigningStreamHandler_HandleTimeout
  else if String.eqb stream ResharingBrokerStream then Some ResharingStreamHandler_HandleTimeout
  else if String.eqb stream KeygenBrokerStream then Some KeygenStreamHandler_HandleTimeout
  else None.

(** The subscription to the advisories, [None] when it is nil. *)
Definition maxDeliveriesExceededSubject : string :=
  "$JS.EVENT.ADVISORY.CONSUMER.MAX_DELIVERIES.>".

Definition timeOutConsumer_Run (subscribe : string → option error) (sub : option string) :
    option string :=
  match subscribe maxDeliveriesExceededSubject with
  | Some _ => sub
  | None => Some maxDeliveriesExceededSubject
  end.

Definition timeOutConsumer_Close (unsubscribe : string → option error) (sub : option string) :
    option error :=
  match sub with Some s => unsubscribe s | None => None end.

(** [advisory]: the decoded stream and sequence; [GetMsg] fetches the request.
    All errors ([None]) are only logged. *)
Definition handleDeadlineExceeded (advisory : option (string * Z)) (JetStream : option error)
    (GetMsg : string → Z → option string) : Res (list js_event) :=
  match advisory with
  | None => Ok []
  | Some (stream, seq) =>
      match stream_handler stream with
      | None => Ok []
      | Some handler =>
          match JetStream, GetMsg stream seq with
          | None, Some data =>
              match handler data with (Panic w, _) => Panic w | (_, evs) => Ok evs end
          | _, _ => Ok []
          end
      end
  end.

End consumers.

(** ** Properties *)

#[local] Arguments encode : simpl never.

(** *** The polling loop *)

(** [NextMsg] waits the whole interval before it reports a timeout. *)
Definition polls_wait (interval : Z) (next : nat → poll * Z) : Prop :=
  ∀ i, (next i).1 = PollTimeout → interval ≤ (next i).2.

Lemma poll_loop_ends fuel timeout interval elapsed next i :
  0 < interval → polls_wait interval next →
  timeout - elapsed ≤ Z.of_nat fuel * interval →
  ∃ s, poll_loop (S fuel) timeout elapsed next i = Some s ∧ (s = Acked ∨ s = Naked).
Proof.
  intros Hi Hnext. revert elapsed i. induction fuel as [|fuel IH]; intros elapsed i Hf; cbn.
  - rewrite (proj2 (Z.leb_le _ _)) by lia. exists Naked. by split; [|right].
  - destruct (Z.leb_spec timeout elapsed) as [|Hlt]; [exists Naked; by split; [|right]|].
    pose proof (Hnext i) as Hd. destruct (next i) as [[] d]; cbn in Hd.
    + apply IH. specialize (Hd eq_refl). lia.
    + exists Naked. by split; [|right].
    + exists Acked. by split; [|left].
Qed.

Lemma poll_loop_fuel timeout interval next : 0 < interval → 0 ≤ timeout →
  polls_wait interval next →
  ∃ s, poll_loop (poll_fuel timeout interval) timeout 0 next 0 = Some s ∧ (s = Acked ∨ s = Naked).
Proof.
  intros Hi Ht Hnext. unfold poll_fuel.
  assert (0 ≤ timeout / interval) as Hq by (by apply Z.div_pos).
  replace (Z.to_nat (timeout / interval + 2)) with (S (Z.to_nat (timeout / interval + 1))) by lia.
  apply (poll_loop_ends _ _ interval); [done..|]. rewrite Z2Nat.id by lia.
  pose proof (Z.div_mod timeout interval). pose proof (Z.mod_pos_bound timeout interval). nia.
Qed.

(** The time that has passed when poll [n] begins. *)
Fixpoint waited (next : nat → poll * Z) (n : nat) : Z :=
  match n with O => 0 | S n => waited next n + (next n).2 end.

(** The reply came in time: a poll that began before [timeout] brought a message, and
    those before it brought nothing, within their interval. *)
Definition replied (timeout : Z) (next : nat → poll * Z) : Prop :=
  ∃ n, (∀ i, (i < n)%nat → (next i).1 = PollTimeout) ∧ (next n).1 = PollMsg ∧
    waited next n < timeout.

Lemma waited_mono interval next i n : 0 < interval → polls_wait interval next → (i ≤ n)%nat →
  (∀ j, (j < n)%nat → (next j).1 = PollTimeout) → waited next i ≤ waited next n.
Proof.
  intros Hi Hnext Hle Hall. induction Hle as [|n Hle IH]; [lia|]. cbn.
  pose proof (Hnext n (Hall n ltac:(lia))). specialize (IH (λ j Hj, Hall j ltac:(lia))). lia.
Qed.

(** Acknowledged only after a message ... *)
Lemma poll_loop_Acked fuel timeout next i :
  (∀ j, (j < i)%nat → (next j).1 = PollTimeout) →
  poll_loop fuel timeout (waited next i) next i = Some Acked → replied timeout next.
Proof.
  revert i. induction fuel as [|fuel IH]; intros i Hbefore; cbn; [done|].
  destruct (Z.leb_spec timeout (waited next i)) as [|Hlt]; [done|].
  destruct (next i) as [[] d] eqn:Hi; [|done|].
  - intros H. apply (IH (S i)); [|by cbn; rewrite Hi].
    intros j Hj. destruct (decide (j = i)) as [->|]; [by rewrite Hi|]. apply Hbefore. lia.
  - intros _. exists i. by rewrite Hi.
Qed.

(** ... and always after one that came in time. *)
Lemma poll_loop_replied fuel timeout interval next i n st :
  0 < interval → polls_wait interval next → (i ≤ n)%nat →
  (∀ j, (j < n)%nat → (next j).1 = PollTimeout) → (next n).1 = PollMsg →
  waited next n < timeout →
  poll_loop fuel timeout (waited next i) next i = Some st → st = Acked.
Proof.
  intros Hpos Hnext Hle Hall Hn Hlt. revert i Hle.
  induction fuel as [|fuel IH]; intros i Hle; cbn; [done|].
  pose proof (waited_mono interval next i n Hpos Hnext Hle Hall).
  destruct (Z.leb_spec timeout (waited next i)) as [|_]; [lia|].
  destruct (decide (i = n)) as [->|].
  - destruct (next n) as [[] d]; [done..|]. by intros [= <-].
  - pose proof (Hall i ltac:(lia)) as Hi. destruct (next i) as [[] d] eqn:Hd; [|done..].
    specialize (IH (S i) ltac:(lia)). cbn in IH. by rewrite Hd in IH.
Qed.

Lemma poll_loop_spec timeout interval next : 0 < interval → 0 ≤ timeout →
  polls_wait interval next →
  ∃ st, poll_loop (poll_fuel timeout interval) timeout 0 next 0 = Some st ∧
    (st = Acked ∨ st = Naked) ∧ (st = Acked ↔ replied timeout next).
Proof.
  intros Hi Ht Hnext. destruct (poll_loop_fuel timeout interval next Hi Ht Hnext) as (st & Hst & Hor).
  exists st. split_and!; [done..|]. split.
  - intros ->. by apply (poll_loop_Acked _ _ _ 0) in Hst; [|lia].
  - intros (n & Hall & Hn & Hlt).
    by eapply (poll_loop_replied _ timeout interval next 0 n); [..|exact Hst]; try lia.
Qed.

(** *** Settling a request *)

Definition settlements (evs : list js_event) : list settlement :=
  omap (λ e, match e with JSettled s => Some s | _ => None end) evs.
Definition inboxes_open (evs : list js_event) : list string :=
  omap (λ e, match e with JSubscribed i => Some i | _ => None end) evs.
Definition inboxes_closed (evs : list js_event) : list string :=
  omap (λ e, match e with JUnsubscribed i => Some i | _ => None end) evs.
Definition results (evs : list js_event) : list js_event :=
  List.filter (λ e, match e with JEnqueued _ _ _ => true | _ => false end) evs.

(** What a request handler must end with: it returns, having settled the request
    once, closed every inbox it opened, reported a result only if the request is
    gone, and acknowledged exactly when [acked]. *)
Definition settles (o : option (list js_event)) (acked : Prop) : Prop :=
  ∃ evs s, o = Some evs ∧ settlements evs = [s] ∧ (s = Acked ∨ s = Naked) ∧
    inboxes_open evs = inboxes_closed evs ∧
    (s = Naked → results evs = []) ∧ (s = Acked ↔ acked).

Section settle.
Context `{C : Crypto} `{L : Lo}.
Variable enqueue : string → string → string → option error.

Lemma forward_settles subject timeout interval subscribed published inbox sid data next :
  0 < interval → 0 ≤ timeout → polls_wait interval next →
  settles (forward subject timeout interval subscribed published inbox sid data next)
    (subscribed = None ∧ published = None ∧ replied timeout next).
Proof.
  intros Hi Ht Hnext. unfold settles, forward.
  destruct subscribed as [e|]; [exists [JSettled Naked], Naked; naive_solver|].
  destruct published as [e|].
  { exists [JSubscribed inbox; JSettled Naked; JUnsubscribed inbox], Naked. naive_solver. }
  destruct (poll_loop_spec timeout interval next Hi Ht Hnext) as (s & Hs & Hor & Hack). rewrite Hs.
  eexists _, s. split; [reflexivity|]. cbn. split_and!; naive_solver.
Qed.

Lemma reported_settles topic payload key (P : Prop) : P →
  settles (Some (enqueue_result enqueue topic payload key ++ [JSettled Acked])) P.
Proof.
  intros HP. eexists _, Acked. split; [reflexivity|]. unfold enqueue_result.
  destruct (enqueue topic payload key); cbn; naive_solver.
Qed.

Lemma settles_iff o (P Q : Prop) : settles o P → (P ↔ Q) → settles o Q.
Proof.
  intros (evs & s & ? & ? & ? & ? & ? & HP) HQ. exists evs, s. split_and!; try done; by rewrite HP.
Qed.

(** C28: every request is settled: the handlers of the three streams return, after
    at most the response timeout divided by the polling interval rounds of
    polling, and settle the request exactly once.  It is acknowledged exactly
    when it does not decode, when the cluster is not ready for it, or when it could be
    forwarded and a poll of the reply inbox that began within the response timeout
    (30 seconds, 60 for a resharing) brought a message, those before it having run
    out; a request that will be redelivered has had no result published; and the reply
    inbox is always closed.  A poll that runs out takes at least its interval, 500 ms. *)
Theorem requests_settled_once (sc : signingConsumer) (r : registry) km sm rm
    data sid inbox sid' subscribed published next (Hnext : polls_wait 500 next) :
  let forwarded timeout := subscribed = None ∧ published = None ∧ replied timeout next in
  settles (handleKeygenEvent enqueue km r data sid inbox sid' subscribed published next)
    (km.2 ≠ None ∨ ArePeersReady r = false ∨ forwarded 30000) ∧
  settles (handleSigningEvent enqueue sc sm r data sid inbox sid' subscribed published next)
    (sm.2 ≠ None ∨ AreMajorityReady r = false ∨ forwarded 30000) ∧
  settles (handleResharingEvent enqueue rm data sid inbox sid' subscribed published next)
    (rm.2 ≠ None ∨ forwarded 60000).
Proof.
  cbv zeta. split_and!.
  - destruct km as [m [e|]]; [apply reported_settles; by left|]. cbn.
    destruct (ArePeersReady r) eqn:Hr; [|apply reported_settles; by right; left]. cbn.
    eapply settles_iff; [by apply (forward_settles _ 30000 500)|]. naive_solver.
  - destruct sm as [m [e|]]; [apply reported_settles; by left|]. cbn.
    destruct (AreMajorityReady r) eqn:Hr; [|apply reported_settles; by right; left]. cbn.
    eapply settles_iff; [by apply (forward_settles _ 30000 500)|]. naive_solver.
  - destruct rm as [m [e|]]; [apply reported_settles; by left|]. cbn.
    eapply settles_iff; [by apply (forward_settles _ 60000 500)|]. naive_solver.
Qed.

(** *** Starting to consume *)

(** The signing consumer does not wait for enough peers: its threshold is never
    set, so in every reachable state of the registry, whatever threshold the node
    is configured with, the first tick ends the waiting, with no peer ready; and a
    context that is cancelled while it waits does not end [Run], which goes on to
    create the subscription. *)
Theorem signing_Run_does_not_wait `{!LoSpec L} `{MapRange} Unmarshal self peers store th
    (r0 r : registry) cs evs
    (Hnew : NewRegistry self peers store th = Ok r0)
    (Hreach : rtc (reg_step Unmarshal) (r0, []) (r, cs))
    (Hsmall : Z.of_nat (length (GetReadyPeersIncludeSelf r)) < MaxInt64) :
  let run evs := Run_until_subscribed (signing_waitForSufficientPeers NewSigningConsumer evs)
                   "signing" None in
  run (WTick r :: evs) = Subscribed ∧ run (WDone context_Canceled :: evs) = Subscribed.
Proof.
  cbv zeta. split; [|done].
  pose proof (wf_count_pos r cs (reachable_wf Unmarshal _ _ _ _ _ _ _ Hnew Hreach) Hsmall) as Hc.
  unfold signing_waitForSufficientPeers. cbn [wait_for].
  replace (wrap64 (sc_threshold NewSigningConsumer + 1)) with 1 by done.
  by rewrite (proj2 (Z.leb_le _ _) Hc).
Qed.

(** *** Dead letters *)

Variable Unmarshal_SigningResponse : string → Res SigningResponse.
Variable Unmarshal_ResharingResponse : string → Res ResharingResponse.
Variable Unmarshal_KeygenResponse : string → Res KeygenResponse.

(** What json.Unmarshal makes of a signing request's fields in a response: the
    fields of the same name. *)
Definition response_of_request (m : SigningMessage) : SigningResponse :=
  mkSigningResponse NoErrorCode "" false (sm_WalletID m) (sm_TxID m) None None None
    (sm_Signature m).

Lemma TypeSigningResultFmt_longer a b : a ≠ TypeSigningResultFmt (a +:+ b).
Proof.
  intros H. apply (f_equal String.length) in H. unfold TypeSigningResultFmt in H.
  rewrite !length_app_s in H. cbn in H. lia.
Qed.

(** A signing request that was delivered too often becomes one timeout result
    for its wallet and transaction.  It is published on the wildcard topic instead
    of the transaction's, carries the signature of the initiator's request in the
    field of the transaction's signature, and its idempotent key is never the one
    under which any other result of that transaction is published, so it is not
    deduplicated against them. *)
Theorem signing_dead_letter (m : SigningMessage) seq
    (Hdec : Unmarshal_SigningResponse (encode (SigningMessage_json m)) =
            Ok (response_of_request m)) :
  let result := mkSigningResponse ErrorCodeMaxDeliveryAttempts errorMsgSigningTimeout true
                  (sm_WalletID m) (sm_TxID m) None None None (sm_Signature m) in
  handleDeadlineExceeded enqueue Unmarshal_SigningResponse Unmarshal_ResharingResponse
    Unmarshal_KeygenResponse (Some (SigningBrokerStream, seq)) None
    (λ _ _, Some (encode (SigningMessage_json m))) =
  Ok (enqueue_result enqueue "mpc.mpc_signing_result.*" (encode (SigningResponse_json result))
        (sm_TxID m)) ∧
  (∀ sid, sm_TxID m ≠ buildIdempotentKey (sm_TxID m) sid TypeSigningResultFmt) ∧
  (∀ natMsg, sm_TxID m ≠ composeSigningResultIdempotentKey (sm_TxID m) natMsg).
Proof.
  cbv zeta. split_and!.
  - unfold handleDeadlineExceeded.
    change (stream_handler _ _ _ _ _) with (Some (SigningStreamHandler_HandleTimeout enqueue
      Unmarshal_SigningResponse)). cbv beta iota.
    unfold SigningStreamHandler_HandleTimeout. rewrite Hdec. cbn.
    unfold enqueue_timeout, enqueue_result, SigningResultTopic. by destruct (enqueue _ _ _).
  - intros sid. unfold buildIdempotentKey. destruct (String.eqb sid "").
    + rewrite <-(app_nil_r_s (sm_TxID m)) at 2. apply TypeSigningResultFmt_longer.
    + apply TypeSigningResultFmt_longer.
  - intros natMsg. unfold composeSigningResultIdempotentKey, composeIdempotentKey.
    destruct (String.eqb (Header_SessionID natMsg) "").
    + rewrite <-(app_nil_r_s (sm_TxID m)) at 2. apply TypeSigningResultFmt_longer.
    + apply TypeSigningResultFmt_longer.
Qed.

End settle.

(** *** Witnesses *)

#[local] Existing Instance toy_crypto.
#[local] Existing Instance lo_ref.
#[local] Existing Instance lo_ref_spec.
#[local] Existing Instance map_to_list_range.

(** Two polls that time out, then the reply. *)
Definition toy_polls (i : nat) : poll * Z :=
  match i with O | 1%nat => (PollTimeout, 500) | _ => (PollMsg, 20) end.

Lemma toy_polls_reply timeout : 1000 < timeout → replied timeout toy_polls.
Proof. intros Ht. exists 2%nat. split; [intros [|[|i]]; [done..|lia]|]. split; [done|]. exact Ht. Qed.

Lemma requests_settled_once_witness :
  settles (handleResharingEvent (λ _ _ _, None)
             (mkResharingMessage "s" (Some ["A"]) 1 KeyTypeEd25519 "w" None, None)
             "data" "" "inbox" "sid" None None toy_polls) True.
Proof.
  eapply settles_iff.
  - refine (proj2 (proj2 (requests_settled_once (λ _ _ _, None) NewSigningConsumer toy_registry
      (mkKeygenMessage "w" None, None)
      (mkSigningMessage KeyTypeEd25519 "w" "t" None None, None)
      (mkResharingMessage "s" (Some ["A"]) 1 KeyTypeEd25519 "w" None, None)
      "data" "" "inbox" "sid" None None toy_polls _))).
    intros [|[|i]]; cbn; [lia..|discriminate].
  - split; [done|]. intros _. right. split; [done|]. split; [done|].
    apply toy_polls_reply. lia.
Defined.

Lemma signing_Run_does_not_wait_witness :
  Run_until_subscribed (signing_waitForSufficientPeers NewSigningConsumer [WTick toy_registry])
    "signing" None = Subscribed.
Proof.
  refine (proj1 (signing_Run_does_not_wait (λ _, None) "nodeN"
    ["nodeN"; "nodeA"; "nodeB"] toy_reg_store 1 toy_registry toy_registry [] [] _ _ _)).
  - vm_compute. reflexivity.
  - apply rtc_refl.
  - vm_compute. reflexivity.
Defined.

Lemma signing_dead_letter_witness :
  let m := mkSigningMessage KeyTypeEd25519 "w" "t" (Some "tx") (Some "sig") in
  ∃ payload, handleDeadlineExceeded (λ _ _ _, None) (λ _, Ok (response_of_request m))
    (λ _, Err (errors_New "unused")) (λ _, Err (errors_New "unused"))
    (Some (SigningBrokerStream, 7)) None (λ _ _, Some (encode (SigningMessage_json m))) =
  Ok [JEnqueued "mpc.mpc_signing_result.*" payload "t"].
Proof.
  cbv zeta. eexists.
  refine (proj1 (signing_dead_letter (λ _ _ _, None)
    (λ _, Ok (response_of_request (mkSigningMessage KeyTypeEd25519 "w" "t" (Some "tx") (Some "sig"))))
    (λ _, Err (errors_New "unused")) (λ _, Err (errors_New "unused"))
    (mkSigningMessage KeyTypeEd25519 "w" "t" (Some "tx") (Some "sig")) 7 _)).
  reflexivity.
Defined.
