(* ===== verification/Backup.v ===== *)
(** * pkg/kvstore/badger_backup.go: encrypted incremental backups

    [Execute] writes what changed in Badger since the last backup into a new
    encrypted file and notes the version it reached in [latest.version];
    [RestoreAllBackupsEncrypted] loads all files, in the order of their names,
    into an empty database.  The state is the backup directory.  Badger is a
    class: what [Backup] dumps and [Load] does is third-party. *)

From stdpp Require Import base gmap list strings sorting.
From Stdlib Require Import ZArith Lia Ascii.
From S2P Require Import Prelude.
From S2P Require Import GoStrings.
From S2P Require Import External.
From S2P Require Import Json.
From S2P Require Import Types.
From S2P Require Import Identity.

Class Badger := {
  badger_db : Type;
  db_Backup : badger_db → Z → Res (string * Z);   (* the dump since a version, the next one *)
  db_Load : string → badger_db → Res badger_db;
  db_empty : badger_db;
  db_get : badger_db → string → option string;
}.

(** What Badger documents: a dump since [v] has the entries from version [v] on and
    the version it reaches; loaded into a copy that is complete up to [v], or further, it
    completes it.  [copy db v r]: [r] holds what [db] held at version [v]; [grows]: the
    later states of a database. *)
Class BadgerSpec (B : Badger) := {
  Backup_uint64 db v b n : db_Backup db v = Ok (b, n) → 0 ≤ n < 2 ^ 64;
  Backup_since db v b n : db_Backup db v = Ok (b, n) → b ≠ EmptyString → v ≤ n;
  grows : badger_db → badger_db → Prop;
  copy : badger_db → Z → badger_db → Prop;
  copy_empty db : copy db 0 db_empty;
  copy_grows db db' v r : grows db db' → copy db v r → copy db' v r;
  Backup_Load db v v' r b n : copy db v' r → v ≤ v' → db_Backup db v = Ok (b, n) →
    b ≠ EmptyString →
    ∃ r', db_Load b r = Ok r' ∧ copy db n r' ∧ ∀ k, db_get r' k = db_get db k;
  Backup_nothing db v v' r b n : copy db v' r → v ≤ v' → db_Backup db v = Ok (b, n) →
    b = EmptyString ∨ n = v → ∀ k, db_get r k = db_get db k;
}.

Definition magic : string := "MPCIUM_BACKUP".
Definition defaultBackupDir : string := "./backups".
Definition MaxUint32 : Z := 2 ^ 32 - 1.

Record BadgerBackupMeta := mkMeta {
  Algo : string;
  NonceB64 : string;
  CreatedAt : string;
  Since : Z;
  NextSince : Z;
  EncryptionKeyID : string;
}.

Definition BadgerBackupMeta_json (m : BadgerBackupMeta) : json :=
  JObj [("algo", JStr (Algo m)); ("nonce_b64", JStr (NonceB64 m));
        ("created_at", JStr (CreatedAt m)); ("since", JInt (Since m));
        ("next_since", JInt (NextSince m)); ("encryption_key_id", JStr (EncryptionKeyID m))].

Record BadgerBackupVersionInfo := mkVersionInfo {
  vi_Version : Z;
  vi_Since : Z;
  vi_UpdatedAt : string;
}.

Definition BadgerBackupVersionInfo_json (i : BadgerBackupVersionInfo) : json :=
  JObj [("version", JInt (vi_Version i)); ("since", JInt (vi_Since i));
        ("updated_at", JStr (vi_UpdatedAt i))].

Record badgerBackupExecutor := mkExecutor {
  NodeID : string;
  BackupEncryptionKey : string;
  BackupDir : string;
}.

(** [mkdir] is the answer of [os.MkdirAll]. *)
Definition NewBadgerBackupExecutor (mkdir : string → option error) (nodeID key dir : string) :
    Res badgerBackupExecutor :=
  let dir := if String.eqb dir "" then defaultBackupDir else dir in
  match mkdir dir with
  | Some e => Panic ("failed to create backup directory: " +:+ Error e)
  | None => Ok (mkExecutor nodeID key dir)
  end.

(** The backup directory: its backup files by name, and [latest.version]. *)
Record directory := mkDirectory {
  files : gmap string string;
  latest_version : option string;
}.

#[export] Instance directory_eq_dec : EqDecision directory.
Proof. solve_decision. Defined.

Definition put_file (name content : string) (d : directory) : directory :=
  mkDirectory (<[name := content]> (files d)) (latest_version d).
Definition set_latest (c : option string) (d : directory) : directory :=
  mkDirectory (files d) c.

(** What a run meets: the clock (as formatted), the fresh nonce, and the answers of
    the file system.  [written]: only so many bytes reached the file; [saved]: what
    a failed write leaves of [latest.version]. *)
Record backup_env := mkEnv {
  stamp : string;                        (* 2006-01-02_15-04-05 *)
  rfc3339 : string;
  fresh_nonce : string;
  read_err : option error;               (* of latest.version, when it exists *)
  create_err : option error;
  written : option (nat * error);
  saved : option (option string);
}.

Section backup.
Context `{C : Crypto} `{B : Badger}.

Variable Unmarshal_Meta : string → Res BadgerBackupMeta.
Variable Unmarshal_VersionInfo : string → Res BadgerBackupVersionInfo.

Definition SaveVersionInfo (counter since : Z) (env : backup_env) : directory → directory :=
  set_latest (match saved env with
              | None => Some (encode (BadgerBackupVersionInfo_json
                                        (mkVersionInfo counter since (rfc3339 env))))
              | Some rest => rest
              end).

(** A missing file is no error. *)
Definition LoadVersionInfo (env : backup_env) (d : directory) : Res BadgerBackupVersionInfo :=
  match latest_version d with
  | None => Ok (mkVersionInfo 0 0 (rfc3339 env))
  | Some data =>
      match read_err env with Some e => Err e | None => Unmarshal_VersionInfo data end
  end.

Definition backup_filename (b : badgerBackupExecutor) (env : backup_env) (version : Z) : string :=
  "backup-" +:+ NodeID b +:+ "-" +:+ stamp env +:+ "-" +:+ fmt_d version +:+ ".enc".

Definition backup_meta (b : badgerBackupExecutor) (env : backup_env) (nonce : string)
    (since nextSince : Z) : BadgerBackupMeta :=
  mkMeta "AES-256-GCM" (base64 nonce) (rfc3339 env) since nextSince
    (take_s 16 (hex_EncodeToString (sha256 (BackupEncryptionKey b)))).

(** [binary.Write] of a uint32, big endian. *)
Definition be32 (n : Z) : string := be_bytes 4 n.

Definition Execute (b : badgerBackupExecutor) (db : badger_db) (env : backup_env) :
    M directory (Res unit) := λ d,
  match wrap_err "failed to load version info: " (LoadVersionInfo env d) with
  | Err e => (Err e, d)
  | Panic w => (Panic w, d)
  | Ok info =>
      let since := vi_Since info in
      let version := wrapU64 (vi_Version info + 1) in
      let name := backup_filename b env version in
      match db_Backup db since with
      | Err e => (Err e, d)
      | Panic w => (Panic w, d)
      | Ok (plain, nextSince) =>
          if String.eqb plain "" || (nextSince =? since) then (Ok tt, d)       (* skip *)
          else
            match EncryptAESGCM plain (BackupEncryptionKey b) (fresh_nonce env) with
            | Err e => (Err e, d)
            | Panic w => (Panic w, d)
            | Ok (ct, nonce) =>
                match create_err env with
                | Some e => (Err e, d)
                | None =>
                    let metaJSON := encode (BadgerBackupMeta_json
                                              (backup_meta b env nonce since nextSince)) in
                    let metaLen := Z.of_nat (String.length metaJSON) in
                    let too_large := MaxUint32 <? metaLen in
                    let content := if too_large then magic
                                   else magic +:+ be32 metaLen +:+ metaJSON +:+ ct in
                    let done :=
                      if too_large then (Err (errors_New "metaJSON too large"),
                                         put_file name content d)
                      else (Ok tt, SaveVersionInfo version nextSince env
                                     (put_file name content d)) in
                    match written env with
                    | Some (n, e) =>
                        if (n <? String.length content)%nat
                        then (Err e, put_file name (take_s n content) d)
                        else done
                    | None => done
                    end
                end
            end
      end
  end.

(** ** pkg/kvstore/badger.go *)

Definition ErrEncryptionKeyNotProvided : error :=
  Sentinel "ErrEncryptionKeyNotProvided" "encryption key not provided".
Definition ErrBackupEncryptionKeyNotProvided : error :=
  Sentinel "ErrBackupEncryptionKeyNotProvided" "backup encryption key not provided".

Record BadgerConfig := mkBadgerConfig {
  bc_NodeID : string;
  bc_EncryptionKey : string;
  bc_BackupEncryptionKey : string;
  bc_BackupDir : string;
  bc_DBPath : string;
}.

Record BadgerKVStore := mkBadgerKVStore {
  DB : badger_db;
  BackupExecutor : option badgerBackupExecutor;
}.

(** [open] is [badger.Open] of a path with an encryption key. *)
Definition NewBadgerKVStore (mkdir : string → option error) (open : string → string → Res badger_db)
    (config : BadgerConfig) : Res BadgerKVStore :=
  if String.eqb (bc_EncryptionKey config) "" then Err ErrEncryptionKeyNotProvided
  else if String.eqb (bc_BackupEncryptionKey config) "" then Err ErrBackupEncryptionKeyNotProvided
  else
    db ← open (bc_DBPath config) (bc_EncryptionKey config);
    backupExecutor ← NewBadgerBackupExecutor mkdir (bc_NodeID config)
                       (bc_BackupEncryptionKey config) (bc_BackupDir config);
    Ok (mkBadgerKVStore db (Some backupExecutor)).

Definition BadgerKVStore_Backup (s : BadgerKVStore) (env : backup_env) :
    M directory (Res unit) :=
  match BackupExecutor s with
  | None => lift (Err (errors_New "backup executor is not initialized"))
  | Some b => Execute b (DB s) env
  end.

(** ** Restoring *)

(** The pattern [backup-*.enc]. *)
Definition is_backup (name : string) : bool :=
  HasPrefix name "backup-" && HasSuffix name ".enc" && (11 <=? String.length name)%nat.

Definition SortedEncryptedBackups (d : directory) : list string :=
  merge_sort bytes_le (List.filter is_backup ((map_to_list (files d)).*1)).

(** [io.ReadFull] of so many bytes: them and the rest. *)
Definition ReadFull (n : nat) (s : string) : Res (string * string) :=
  if (String.length s <? n)%nat
  then Err (errors_New (if String.eqb s "" then "EOF" else "unexpected EOF"))
  else Ok (take_s n s, drop_s n s).

Definition loadEncryptedBackup (b : badgerBackupExecutor) (content : string) (db : badger_db) :
    Res badger_db :=
  '(m, rest) ← ReadFull (String.length magic) content;
  if negb (String.eqb m magic) then Err (errors_New "bad magic") else
  '(len, rest) ← ReadFull 4 rest;
  '(metaBuf, ct) ← ReadFull (Z.to_nat (SetBytes len)) rest;
  meta ← Unmarshal_Meta metaBuf;
  nonce ← of_option (errors_New "illegal base64 data") (base64_decode (NonceB64 meta));
  plain ← DecryptAESGCM ct (BackupEncryptionKey b) nonce;
  db_Load plain db.

Fixpoint restore_files (b : badgerBackupExecutor) (names : list string) (d : directory)
    (db : badger_db) : Res badger_db :=
  match names with
  | [] => Ok db
  | name :: names =>
      content ← of_option (errors_New "file does not exist") (files d !! name);
      db ← loadEncryptedBackup b content db;
      restore_files b names d db
  end.

(** [opened] is the answer of making and opening the database to restore into,
    [closed] that of closing it. *)
Definition RestoreAllBackupsEncrypted (b : badgerBackupExecutor) (opened closed : Res unit)
    (d : directory) : Res badger_db :=
  _ ← opened;
  db ← restore_files b (SortedEncryptedBackups d) d db_empty;
  _ ← wrap_err "failed to close restore database: " closed;
  Ok db.

(** ** The backup file *)

Definition ascii_meta (m : BadgerBackupMeta) : Prop :=
  Forall (λ s, all_ascii s = true) [Algo m; NonceB64 m; CreatedAt m; EncryptionKeyID m] ∧
  0 ≤ Since m < 2 ^ 64 ∧ 0 ≤ NextSince m < 2 ^ 64.

Definition ascii_info (i : BadgerBackupVersionInfo) : Prop :=
  all_ascii (vi_UpdatedAt i) = true ∧ 0 ≤ vi_Version i < 2 ^ 64 ∧ 0 ≤ vi_Since i < 2 ^ 64.

Lemma ReadFull_app a s : ReadFull (String.length a) (a +:+ s) = Ok (a, s).
Proof.
  unfold ReadFull. rewrite length_app_s, (proj2 (Nat.ltb_ge _ _)) by lia.
  by destruct (take_drop_app_s a s) as [-> ->].
Qed.

Lemma ReadFull_short n s : (String.length s < n)%nat → ∃ e, ReadFull n s = Err e.
Proof. intros H. unfold ReadFull. rewrite (proj2 (Nat.ltb_lt _ _)) by done. by eexists. Qed.

Lemma DecryptAESGCM_Encrypt `{!CryptoSpec C} plain key nonce ct n :
  String.length nonce = NonceSize → EncryptAESGCM plain key nonce = Ok (ct, n) →
  n = nonce ∧ DecryptAESGCM ct key nonce = Ok plain.
Proof.
  intros Hlen (k & Hk & [= <- <-])%Res_bind_Ok. split; [done|].
  unfold DecryptAESGCM. rewrite Hk. cbn. rewrite bool_decide_eq_true_2 by done.
  by rewrite aes_Open_Seal.
Qed.

(** What one reads of a file another has written is what was written. *)
Lemma loadEncryptedBackup_written `{!CryptoSpec C} b m nonce plain ct n db :
  Unmarshal_Meta (encode (BadgerBackupMeta_json m)) = Ok m →
  NonceB64 m = base64 nonce → String.length nonce = NonceSize →
  EncryptAESGCM plain (BackupEncryptionKey b) nonce = Ok (ct, n) →
  let metaJSON := encode (BadgerBackupMeta_json m) in
  Z.of_nat (String.length metaJSON) ≤ MaxUint32 →
  loadEncryptedBackup b (magic +:+ be32 (Z.of_nat (String.length metaJSON)) +:+ metaJSON +:+ ct) db
  = db_Load plain db.
Proof.
  intros Hm Hn Hlen Henc. cbv zeta. intros Hmax.
  destruct (DecryptAESGCM_Encrypt _ _ _ _ _ Hlen Henc) as [_ Hdec].
  unfold loadEncryptedBackup. rewrite ReadFull_app. unfold mbind at 1, Res_bind at 1.
  rewrite String.eqb_refl. cbv beta iota delta [negb].
  change 4%nat with (String.length (be32 (Z.of_nat (String.length
    (encode (BadgerBackupMeta_json m)))))) at 1.
  rewrite ReadFull_app. unfold mbind at 1, Res_bind at 1. unfold be32 at 1.
  rewrite SetBytes_be_bytes by (unfold MaxUint32 in Hmax; lia).
  rewrite Nat2Z.id, ReadFull_app. unfold mbind, Res_bind.
  by rewrite Hm, Hn, base64_decode_base64; cbn [of_option]; rewrite Hdec.
Qed.

(** ** Names and their order *)

Definition name_of (b : badgerBackupExecutor) (st : string) (version : Z) : string :=
  "backup-" +:+ NodeID b +:+ "-" +:+ st +:+ "-" +:+ fmt_d version +:+ ".enc".

Lemma is_backup_name b st v : is_backup (name_of b st v) = true.
Proof.
  unfold is_backup, name_of. rewrite HasPrefix_app.
  replace ("backup-" +:+ NodeID b +:+ "-" +:+ st +:+ "-" +:+ fmt_d v +:+ ".enc")
    with (("backup-" +:+ NodeID b +:+ "-" +:+ st +:+ "-" +:+ fmt_d v) +:+ ".enc")
    by by rewrite !app_assoc_s.
  rewrite HasSuffix_app. cbn [andb]. apply Nat.leb_le. rewrite !length_app_s. cbn. lia.
Qed.

Lemma name_of_lt b st st' v v' : String.length st = String.length st' → bytes_lt st st' →
  bytes_lt (name_of b st v) (name_of b st' v').
Proof.
  intros Hlen Hlt. unfold name_of.
  rewrite <-!(app_assoc_s (NodeID b)), <-!(app_assoc_s "backup-").
  by apply bytes_lt_app.
Qed.

Lemma elem_of_Sorted d n :
  n ∈ SortedEncryptedBackups d ↔ is_Some (files d !! n) ∧ is_backup n = true.
Proof.
  unfold SortedEncryptedBackups. rewrite merge_sort_Permutation, elem_of_filter_b.
  rewrite <-elem_of_dom, dom_alt, elem_of_list_to_set. done.
Qed.

(** A backup with a name above all others is the last one restored. *)
Lemma Sorted_put d n c : files d !! n = None → is_backup n = true →
  (∀ m, is_Some (files d !! m) → bytes_lt m n) →
  SortedEncryptedBackups (put_file n c d) = SortedEncryptedBackups d ++ [n].
Proof.
  intros Hnew Hn Hlt. apply (StronglySorted_unique bytes_le).
  - apply (StronglySorted_merge_sort bytes_le).
  - apply StronglySorted_app_2; [|apply (StronglySorted_merge_sort bytes_le)|].
    + intros x y Hx Hy. apply list_elem_of_singleton in Hy as ->.
      apply bytes_lt_le, Hlt. by apply elem_of_Sorted in Hx as [? _].
    + by repeat constructor.
  - unfold SortedEncryptedBackups. rewrite !merge_sort_Permutation.
    unfold put_file. cbn [files]. rewrite map_to_list_insert by done.
    rewrite fmap_cons. cbn [fst List.filter]. rewrite Hn. apply Permutation_cons_append.
Qed.

Lemma restore_files_app b l k d db :
  restore_files b (l ++ k) d db = restore_files b l d db ≫= restore_files b k d.
Proof.
  revert db. induction l as [|n l IH]; intros db; [done|]. cbn.
  destruct (files d !! n) as [c|]; [|done]. cbn.
  destruct (loadEncryptedBackup b c db); [|done..]. apply IH.
Qed.

Lemma restore_files_put b l n c d db : n ∉ l →
  restore_files b l (put_file n c d) db = restore_files b l d db.
Proof.
  revert db. induction l as [|m l IH]; intros db; [done|].
  intros [Hm Hl]%not_elem_of_cons. cbn. rewrite lookup_insert_ne by done.
  destruct (files d !! m) as [c'|]; [|done]. cbn.
  destruct (loadEncryptedBackup b c' db); [|done..]. by apply IH.
Qed.

Lemma length_take_s n s : String.length (take_s n s) = Nat.min n (String.length s).
Proof.
  revert n. induction s as [|c s IH]; intros [|n]; try done.
  change (take_s (S n) (String c s)) with (String c (take_s n s)). cbn. by rewrite IH.
Qed.

Lemma length_drop_s n s : String.length (drop_s n s) = (String.length s - n)%nat.
Proof.
  revert n. induction s as [|c s IH]; intros [|n]; try done.
  change (drop_s (S n) (String c s)) with (drop_s n s). by rewrite IH.
Qed.

(** ** A history of backups *)

(** What the formats and the random generator yield. *)
Record good_env (env : backup_env) : Prop := {
  ge_stamp : String.length (stamp env) = 19%nat;
  ge_rfc : all_ascii (rfc3339 env) = true;
  ge_nonce : String.length (fresh_nonce env) = NonceSize;
}.

(** A failed save of [latest.version] leaves the file as it was, or a text that was cut
    off and is no JSON. *)
Definition save_ok (env : backup_env) (d : directory) : Prop :=
  ∀ rest, saved env = Some rest → rest = latest_version d ∨
    ∃ text e, rest = Some text ∧ Unmarshal_VersionInfo text = Err e.

Definition content_of (m : BadgerBackupMeta) (ct : string) : string :=
  let metaJSON := encode (BadgerBackupMeta_json m) in
  magic +:+ be32 (Z.of_nat (String.length metaJSON)) +:+ metaJSON +:+ ct.

Definition info_of (env : backup_env) (version since : Z) : BadgerBackupVersionInfo :=
  mkVersionInfo version since (rfc3339 env).

(** What a run got to before it wrote: the dump, and the file it had in mind. *)
Definition dumped (b : badgerBackupExecutor) (db : badger_db) (env : backup_env) (d : directory)
    (info : BadgerBackupVersionInfo) (plain ct nonce : string) (n : Z) : Prop :=
  LoadVersionInfo env d = Ok info ∧ db_Backup db (vi_Since info) = Ok (plain, n) ∧
  plain ≠ EmptyString ∧
  EncryptAESGCM plain (BackupEncryptionKey b) (fresh_nonce env) = Ok (ct, nonce).

Definition new_version (info : BadgerBackupVersionInfo) : Z := wrapU64 (vi_Version info + 1).

(** A successful run: nothing was new, or a file was added. *)
Lemma Execute_Ok b db env d d' : Execute b db env d = (Ok tt, d') →
  ∃ info plain n, LoadVersionInfo env d = Ok info ∧
    db_Backup db (vi_Since info) = Ok (plain, n) ∧
    (d' = d ∧ (plain = EmptyString ∨ n = vi_Since info) ∨
     ∃ ct nonce, dumped b db env d info plain ct nonce n ∧
       let m := backup_meta b env nonce (vi_Since info) n in
       Z.of_nat (String.length (encode (BadgerBackupMeta_json m))) ≤ MaxUint32 ∧
       d' = SaveVersionInfo (new_version info) n env
              (put_file (name_of b (stamp env) (new_version info)) (content_of m ct) d)).
Proof.
  unfold Execute.
  destruct (LoadVersionInfo env d) as [info|e|w] eqn:Hi; cbn [wrap_err]; [|done..].
  destruct (db_Backup db (vi_Since info)) as [[plain n]|e|w] eqn:Hb; [|done..].
  destruct (String.eqb plain "" || (n =? vi_Since info)) eqn:Hskip.
  { intros [= <-]. exists info, plain, n. split; [done|]. split; [done|]. left. split; [done|].
    apply orb_true_iff in Hskip. by rewrite String.eqb_eq, Z.eqb_eq in Hskip. }
  apply orb_false_iff in Hskip as [Hplain%String.eqb_neq _].
  destruct (EncryptAESGCM plain _ _) as [[ct nonce]|e|w] eqn:He; [|done..].
  destruct (create_err env); [discriminate|]. cbv zeta. intros H.
  exists info, plain, n. split; [done|]. split; [done|]. right. exists ct, nonce.
  split; [done|]. revert H.
  match goal with |- context [MaxUint32 <? ?z] => destruct (Z.ltb_spec MaxUint32 z) end;
    (destruct (written env) as [[k e]|]; [destruct (_ <? _)%nat|]); try discriminate;
    intros [= <-]; by split.
Qed.

(** A run that failed has left the directory alone, or the beginning of a file. *)
Lemma Execute_Err b db env d e d' : Execute b db env d = (Err e, d') → d' ≠ d →
  ∃ info plain ct nonce n c, dumped b db env d info plain ct nonce n ∧
    d' = put_file (name_of b (stamp env) (new_version info)) c d ∧
    ((String.length c < 17)%nat ∨
     let content := content_of (backup_meta b env nonce (vi_Since info) n) ct in
     let metaJSON := encode (BadgerBackupMeta_json (backup_meta b env nonce (vi_Since info) n)) in
     Z.of_nat (String.length metaJSON) ≤ MaxUint32 ∧
     ∃ k, c = take_s k content ∧ (k < String.length content)%nat).
Proof.
  unfold Execute.
  destruct (LoadVersionInfo env d) as [info|err|w] eqn:Hi; cbn [wrap_err]; [|by intros [= _ <-]..].
  destruct (db_Backup db (vi_Since info)) as [[plain n]|err|w] eqn:Hb; [|by intros [= _ <-]..].
  destruct (String.eqb plain "" || (n =? vi_Since info)) eqn:Hskip; [by intros [= _ <-]|].
  apply orb_false_iff in Hskip as [Hplain%String.eqb_neq _].
  destruct (EncryptAESGCM plain _ _) as [[ct nonce]|err|w] eqn:He; [|by intros [= _ <-]..].
  destruct (create_err env); [by intros [= _ <-]|]. cbv zeta. intros H _.
  exists info, plain, ct, nonce, n.
  assert (dumped b db env d info plain ct nonce n) as Hdump by done. revert H.
  match goal with |- context [MaxUint32 <? ?z] => destruct (Z.ltb_spec MaxUint32 z) end;
    (destruct (written env) as [[k err]|];
       [match goal with |- context [(k <? ?c)%nat] => destruct (Nat.ltb_spec k c) end|]);
    try discriminate; intros [= _ <-]; eexists; (split; [exact Hdump|split; [reflexivity|]]).
  - left. rewrite length_take_s. cbn. lia.
  - left. cbn. lia.
  - left. cbn. lia.
  - right. split; [done|]. by exists k.
Qed.

(** A run whose writes are cut off early leaves the beginning of a file. *)
Lemma Execute_cut b db env d res d' n e : written env = Some (n, e) → (n < 17)%nat →
  Execute b db env d = (res, d') → d' ≠ d →
  ∃ name c, is_backup name = true ∧ files d' !! name = Some c ∧ (String.length c < 17)%nat.
Proof.
  intros Hw Hn. unfold Execute. rewrite Hw.
  destruct (wrap_err _ (LoadVersionInfo env d)) as [info|err|w]; [|by intros [= _ <-]..].
  destruct (db_Backup db (vi_Since info)) as [[plain next]|err|w]; [|by intros [= _ <-]..].
  destruct (String.eqb plain "" || (next =? vi_Since info)); [by intros [= _ <-]|].
  destruct (EncryptAESGCM plain _ _) as [[ct nonce]|err|w]; [|by intros [= _ <-]..].
  destruct (create_err env); [by intros [= _ <-]|]. cbv zeta.
  set (content := if _ : bool then _ else _ +:+ _).
  set (name := backup_filename b env _). intros Hd' _.
  exists name.
  destruct (Nat.ltb_spec n (String.length content)) as [Hlt|Hge].
  - exists (take_s n content). injection Hd' as _ <-. split; [apply is_backup_name|].
    split; [apply lookup_insert_eq|]. rewrite length_take_s. lia.
  - exists content.
    assert (files d' !! name = Some content) as ->.
    { destruct (MaxUint32 <? _) in Hd'; injection Hd' as _ <-; apply lookup_insert_eq. }
    split; [apply is_backup_name|]. split; [done|]. lia.
Qed.

(** ** The metadata of a backup is ASCII *)

Lemma hex_digit_ascii n : 0 ≤ n < 16 → is_ascii (hex_digit n) = true.
Proof.
  intros Hn. unfold is_ascii, hex_digit. rewrite byte_of_ascii_of by (case_match; lia).
  case_match; apply Z.ltb_lt; lia.
Qed.

Lemma hex_ascii s : all_ascii (hex_EncodeToString s) = true.
Proof.
  unfold all_ascii. induction s as [|c s IH]; [done|].
  cbn -[hex_digit is_ascii Z.div Z.modulo]. pose proof (byte_of_range c).
  rewrite !hex_digit_ascii; [done|apply Z.mod_pos_bound; lia|].
  split; [apply Z.div_pos; lia|apply Z.div_lt_upper_bound; lia].
Qed.

Lemma take_s_ascii n s : all_ascii s = true → all_ascii (take_s n s) = true.
Proof.
  unfold all_ascii. revert n. induction s as [|c s IH]; intros [|n]; try done.
  change (take_s (S n) (String c s)) with (String c (take_s n s)). cbn -[is_ascii].
  intros [-> Hs]%andb_true_iff. by apply IH.
Qed.

Lemma backup_meta_ascii b env nonce since next : all_ascii (rfc3339 env) = true →
  0 ≤ since < 2 ^ 64 → 0 ≤ next < 2 ^ 64 → ascii_meta (backup_meta b env nonce since next).
Proof.
  intros Hr Hs Hn. split; [|done]. unfold backup_meta. cbn [Algo NonceB64 CreatedAt EncryptionKeyID].
  repeat constructor; [apply base64_ascii|done|apply take_s_ascii, hex_ascii].
Qed.

(** Only the files matter to a restore. *)
Lemma restore_files_files b l d db d' : files d = files d' →
  restore_files b l d db = restore_files b l d' db.
Proof.
  intros Hf. revert db. induction l as [|m l IH]; intros db; [done|]. cbn. rewrite Hf.
  destruct (files d' !! m) as [c'|]; [|done]. cbn.
  destruct (loadEncryptedBackup b c' db); [|done..]. apply IH.
Qed.

(** A restore needs the key of the executor only. *)
Lemma restore_files_key b b' l d db : BackupEncryptionKey b = BackupEncryptionKey b' →
  restore_files b l d db = restore_files b' l d db.
Proof.
  intros Hk. revert db. induction l as [|m l IH]; intros db; [done|]. cbn.
  destruct (files d !! m) as [c|]; [|done]. cbn.
  assert (loadEncryptedBackup b c db = loadEncryptedBackup b' c db) as ->
    by (unfold loadEncryptedBackup; by rewrite Hk).
  destruct (loadEncryptedBackup b' c db); [|done..]. apply IH.
Qed.

End backup.

Section history.
Context `{C : Crypto} `{!CryptoSpec C} `{B : Badger} `{!BadgerSpec B}.
Variable Unmarshal_Meta : string → Res BadgerBackupMeta.
Variable Unmarshal_VersionInfo : string → Res BadgerBackupVersionInfo.

(** [json.Unmarshal] reads back what [json.Marshal] has written; the strings of the
    metadata are ASCII. *)
Hypothesis Unmarshal_Meta_encode : ∀ m, ascii_meta m →
  Unmarshal_Meta (encode (BadgerBackupMeta_json m)) = Ok m.
Hypothesis Unmarshal_VersionInfo_encode : ∀ i, ascii_info i →
  Unmarshal_VersionInfo (encode (BadgerBackupVersionInfo_json i)) = Ok i.
(** AES-GCM refuses a ciphertext that was cut off. *)
Hypothesis aes_Open_cut : ∀ k n p m, (m < String.length (aes_Seal k n p))%nat →
  aes_Open k n (take_s m (aes_Seal k n p)) = None.

Notation Execute := (Execute Unmarshal_VersionInfo).
Notation restore_files := (restore_files Unmarshal_Meta).
Notation RestoreAllBackupsEncrypted := (RestoreAllBackupsEncrypted Unmarshal_Meta).

(** The concrete system: the directory, the live database and the time stamp of the
    last file.  The database grows; backups are taken, no two in the same second, and
    their writes may fail: a failed backup leaves the directory alone or a file that was
    cut off, and after a successful one [latest.version] may not have been saved; the
    directory is restored, or the restore is refused. *)
Record backup_world := mkWorld {
  bw_last : option string;
  bw_dir : directory;
  bw_live : badger_db;
}.

Inductive backup_label :=
| BWrite
| BBackup
| BFailed (e : error)                    (* nothing was written *)
| BCut (e : error)                       (* a file was begun *)
| BRestore (contents : string → option string)
| BRefused (e : error).

Definition is_cut (l : backup_label) : bool := match l with BCut _ => true | _ => false end.

(** The next file: its second is later than the last one's. *)
Definition next_stamp (last : option string) (env : backup_env) : Prop :=
  good_env env ∧ from_option (λ l, bytes_lt l (stamp env)) True last.

Inductive backup_step (b : badgerBackupExecutor) :
    backup_world → backup_label → backup_world → Prop :=
| bs_write last d db db' : grows db db' →
    backup_step b (mkWorld last d db) BWrite (mkWorld last d db')
| bs_backup last d db env d' : next_stamp last env → save_ok Unmarshal_VersionInfo env d →
    Execute b db env d = (Ok tt, d') →
    backup_step b (mkWorld last d db) BBackup (mkWorld (Some (stamp env)) d' db)
| bs_failed last d db env e : Execute b db env d = (Err e, d) →
    backup_step b (mkWorld last d db) (BFailed e) (mkWorld last d db)
| bs_cut last d db env e d' : next_stamp last env →
    Execute b db env d = (Err e, d') → d' ≠ d →
    backup_step b (mkWorld last d db) (BCut e) (mkWorld (Some (stamp env)) d' db)
| bs_restore last d db r : RestoreAllBackupsEncrypted b (Ok tt) (Ok tt) d = Ok r →
    backup_step b (mkWorld last d db) (BRestore (db_get r)) (mkWorld last d db)
| bs_refused last d db e : RestoreAllBackupsEncrypted b (Ok tt) (Ok tt) d = Err e →
    backup_step b (mkWorld last d db) (BRefused e) (mkWorld last d db).

Definition new_world (db : badger_db) : backup_world := mkWorld None (mkDirectory ∅ None) db.

(** The specification: one snapshot of the contents, which a backup takes and a
    restore returns, unless a cut-off file damages the backups, and restores are refused. *)
Record snapshots := mkSnapshots {
  sp_live : string → option string;
  sp_snapshot : string → option string;
  sp_damaged : bool;
}.

Inductive snapshot_step : snapshots → backup_label → snapshots → Prop :=
| ss_write live live' snap dam :
    snapshot_step (mkSnapshots live snap dam) BWrite (mkSnapshots live' snap dam)
| ss_backup live snap dam :
    snapshot_step (mkSnapshots live snap dam) BBackup (mkSnapshots live live dam)
| ss_failed sp e : snapshot_step sp (BFailed e) sp
| ss_cut live snap dam e :
    snapshot_step (mkSnapshots live snap dam) (BCut e) (mkSnapshots live snap true)
| ss_restore live snap contents : (∀ k, contents k = snap k) →
    snapshot_step (mkSnapshots live snap false) (BRestore contents) (mkSnapshots live snap false)
| ss_refused live snap e :
    snapshot_step (mkSnapshots live snap true) (BRefused e) (mkSnapshots live snap true).

Lemma runs_damaged sp es sp' : runs snapshot_step sp es sp' →
  sp_damaged sp' = sp_damaged sp || existsb is_cut es.
Proof.
  induction 1 as [sp|sp e sp1 es sp2 Hstep _ IH]; [by rewrite orb_false_r|].
  rewrite IH. destruct Hstep; cbn; by rewrite ?orb_true_r.
Qed.

(** The names of the files carry the time stamps up to the last one. *)
Definition names_ok (b : badgerBackupExecutor) (last : option string) (d : directory) : Prop :=
  (∀ n c, files d !! n = Some c → ∃ st w, n = name_of b st w ∧ String.length st = 19%nat ∧
      from_option (bytes_le st) False last) ∧
  from_option (λ l, String.length l = 19%nat) True last.

(** A file that no restore gets past. *)
Definition unreadable (b : badgerBackupExecutor) (c : string) : Prop :=
  ∀ db r, loadEncryptedBackup Unmarshal_Meta b c db ≠ Ok r.

(** What holds of an undamaged directory: the recorded version is reached, and restoring
    the files yields the database at version [v]. *)
Record backup_inv (b : badgerBackupExecutor) (d : directory) (db : badger_db) (v : Z)
    (r : badger_db) : Prop := {
  bi_version env i : LoadVersionInfo Unmarshal_VersionInfo env d = Ok i →
    vi_Since i ≤ v ∧ 0 ≤ vi_Since i < 2 ^ 64 ∧ 0 ≤ vi_Version i < 2 ^ 64;
  bi_restore : restore_files b (SortedEncryptedBackups d) d db_empty = Ok r;
  bi_copy : copy db v r;
}.

Lemma backup_inv_start b db : backup_inv b (mkDirectory ∅ None) db 0 db_empty.
Proof.
  split; cbn; [|done|apply copy_empty]. intros env i [= <-]. cbn. lia.
Qed.

Lemma bytes_le_lt_trans s t u : bytes_le s t → bytes_lt t u → bytes_lt s u.
Proof.
  unfold bytes_lt. intros Hst Htu. destruct (bytes_leb u s) eqn:Hus; [|done].
  pose proof (bytes_le_trans u s t Hus Hst) as H. unfold bytes_le in H. congruence.
Qed.

(** The names in a directory are below the next one. *)
Lemma names_fresh b last d env w : names_ok b last d → next_stamp last env →
  ∀ m, is_Some (files d !! m) → bytes_lt m (name_of b (stamp env) w).
Proof.
  intros [Hnames _] [Hg Hlast] m [c (st & x & -> & Hst & Hle)%Hnames].
  apply name_of_lt; [by rewrite Hst, ge_stamp|].
  destruct last as [l|]; [|destruct Hle]. exact (bytes_le_lt_trans _ _ _ Hle Hlast).
Qed.

Lemma names_keep b last d env : names_ok b last d → next_stamp last env →
  names_ok b (Some (stamp env)) d.
Proof.
  intros [Hnames _] [Hg Hlast]. split; [|apply Hg].
  intros n c (st & w & Hm & Hst & Hle)%Hnames. exists st, w. split; [done|]. split; [done|].
  destruct last as [l|]; [|destruct Hle]. exact (bytes_lt_le _ _ (bytes_le_lt_trans _ _ _ Hle Hlast)).
Qed.

Lemma names_put b last d env w c : names_ok b last d → next_stamp last env →
  names_ok b (Some (stamp env)) (put_file (name_of b (stamp env) w) c d).
Proof.
  intros Hn Hnext. split; [|apply Hnext]. intros n c'. cbn [files put_file].
  rewrite lookup_insert_Some. intros [[<- _]|[_ Hm]].
  - eexists _, _. split; [done|]. split; [apply Hnext|].
    by destruct (bytes_le_total (stamp env) (stamp env)).
  - by apply (names_keep _ _ _ _ Hn Hnext) in Hm.
Qed.

(** Restoring after one more file: its dump is loaded last. *)
Lemma restore_one_more b d db0 r name m plain ct n nonce :
  restore_files b (SortedEncryptedBackups d) d db0 = Ok r →
  (∀ m, is_Some (files d !! m) → bytes_lt m name) → is_backup name = true →
  ascii_meta m → NonceB64 m = base64 nonce → String.length nonce = NonceSize →
  EncryptAESGCM plain (BackupEncryptionKey b) nonce = Ok (ct, n) →
  Z.of_nat (String.length (encode (BadgerBackupMeta_json m))) ≤ MaxUint32 →
  let d' := put_file name (content_of m ct) d in
  restore_files b (SortedEncryptedBackups d') d' db0 = db_Load plain r.
Proof.
  intros Hr Hlt Hname Hm Hn Hlen Henc Hmax. cbv zeta.
  assert (files d !! name = None) as Hnew.
  { apply eq_None_not_Some. intros Hs%Hlt. by apply (bytes_lt_ne _ _ Hs). }
  rewrite Sorted_put, restore_files_app, restore_files_put by
    (done || (intros [[? Hx] _]%elem_of_Sorted; congruence)).
  rewrite Hr. unfold mbind, Res_bind. cbn [Backup.restore_files].
  unfold put_file at 1. cbn [files]. rewrite lookup_insert_eq.
  unfold mbind, Res_bind. cbn [of_option].
  rewrite (loadEncryptedBackup_written _ b m nonce plain ct n) by
    (done || by apply Unmarshal_Meta_encode).
  by destruct (db_Load plain r).
Qed.

(** The version that is recorded does not depend on what reads it. *)
Lemma LoadVersionInfo_env env env' d d' i i' : latest_version d = latest_version d' →
  LoadVersionInfo Unmarshal_VersionInfo env d = Ok i →
  LoadVersionInfo Unmarshal_VersionInfo env' d' = Ok i' →
  vi_Since i' = vi_Since i ∧ vi_Version i' = vi_Version i.
Proof.
  unfold LoadVersionInfo. intros <-. destruct (latest_version d) as [text|].
  - destruct (read_err env); [discriminate|]. intros Hi. destruct (read_err env'); [discriminate|].
    intros Hi'. rewrite Hi in Hi'. by injection Hi' as <-.
  - by intros [= <-] [= <-].
Qed.

(** What a later run can read after the version was saved, or was not. *)
Lemma version_saved env env' d name c info n i : good_env env → 0 ≤ n < 2 ^ 64 →
  save_ok Unmarshal_VersionInfo env d → LoadVersionInfo Unmarshal_VersionInfo env d = Ok info →
  LoadVersionInfo Unmarshal_VersionInfo env'
    (SaveVersionInfo (new_version info) n env (put_file name c d)) = Ok i →
  vi_Since i = n ∧ vi_Version i = new_version info ∨
  vi_Since i = vi_Since info ∧ vi_Version i = vi_Version info.
Proof.
  intros Hg Hn Hsave Hinfo. unfold SaveVersionInfo.
  destruct (saved env) as [rest|] eqn:Hsaved.
  - destruct (Hsave rest Hsaved) as [->|(text & e & -> & He)].
    + intros Hi. right. by eapply LoadVersionInfo_env; [|exact Hinfo|exact Hi].
    + unfold LoadVersionInfo. cbn [latest_version set_latest].
      destruct (read_err env'); [discriminate|]. congruence.
  - unfold LoadVersionInfo at 1. cbn [latest_version set_latest].
    destruct (read_err env'); [discriminate|]. unfold new_version.
    assert (0 ≤ wrapU64 (vi_Version info + 1) < 2 ^ 64) by (apply Z.mod_pos_bound; lia).
    rewrite Unmarshal_VersionInfo_encode by (repeat split; (apply Hg || apply Hn || tauto)).
    intros [= <-]. by left.
Qed.

(** One more backup: the restored database is now complete. *)
Lemma backup_inv_step b last d db v r env d' : names_ok b last d → backup_inv b d db v r →
  next_stamp last env → save_ok Unmarshal_VersionInfo env d → Execute b db env d = (Ok tt, d') →
  ∃ v' r', backup_inv b d' db v' r' ∧ ∀ k, db_get r' k = db_get db k.
Proof.
  intros Hnames Hinv Hnext Hsave (info & plain & n & Hi & Hb & Hcase)%Execute_Ok.
  destruct (bi_version _ _ _ _ _ Hinv _ _ Hi) as (Hv & Hsince & Hver).
  pose proof (Backup_uint64 _ _ _ _ Hb) as Hn.
  destruct Hcase as [[-> Hsame]|(ct & nonce & (_ & _ & Hplain & Henc) & Hlen & ->)].
  - exists v, r. split; [done|]. eapply Backup_nothing; [apply Hinv|exact Hv|done..].
  - exists n. destruct (Backup_Load _ _ _ _ _ _ (bi_copy _ _ _ _ _ Hinv) Hv Hb Hplain)
      as (r' & Hload & Hcopy & Hget).
    exists r'. split; [|done]. destruct Hnext as [Hg Hlast].
    pose proof (Backup_since _ _ _ _ Hb Hplain) as Hle.
    split; [| |done].
    + intros env' i Hi'. assert (0 ≤ new_version info < 2 ^ 64) by (apply Z.mod_pos_bound; lia).
      destruct (version_saved _ _ _ _ _ _ _ _ Hg Hn Hsave Hi Hi') as [[-> ->]|[-> ->]]; lia.
    + rewrite <-Hload. destruct (DecryptAESGCM_Encrypt _ _ _ _ _ (ge_nonce _ Hg) Henc) as [-> _].
      unfold SaveVersionInfo. rewrite (restore_files_files _ _ _ _ _ (put_file (name_of b (stamp env)
        (new_version info)) (content_of (backup_meta b env (fresh_nonce env)
        (vi_Since info) n) ct) d)) by done.
      apply (restore_one_more _ _ _ _ _ _ _ _ (fresh_nonce env) (fresh_nonce env));
        [apply Hinv|by apply (names_fresh b last)|apply is_backup_name| |done|apply Hg|done|done].
      apply backup_meta_ascii; [apply Hg|lia|done].
Qed.

(** Also an unsuccessful backup keeps the names in order. *)
Lemma names_step b last d db env d' : names_ok b last d → next_stamp last env →
  Execute b db env d = (Ok tt, d') → names_ok b (Some (stamp env)) d'.
Proof.
  intros Hnames Hnext (info & plain & n & _ & _ & [[-> _]|(ct & nonce & _ & _ & ->)])%Execute_Ok.
  - by eapply names_keep.
  - by apply (names_put b last d env (new_version info)
      (content_of (backup_meta b env nonce (vi_Since info) n) ct)).
Qed.


(** *** Damage *)

(** What is read of text that was cut off. *)
Lemma ReadFull_take a k s : (k < String.length (a +:+ s))%nat →
  (∃ e, ReadFull (String.length a) (take_s k (a +:+ s)) = Err e) ∨
  ∃ k', ReadFull (String.length a) (take_s k (a +:+ s)) = Ok (a, take_s k' s) ∧
    (k' < String.length s)%nat.
Proof.
  intros Hk. destruct (Nat.lt_ge_cases k (String.length a)) as [Hlt|Hge].
  - left. apply ReadFull_short. rewrite length_take_s. lia.
  - right. exists (k - String.length a)%nat. rewrite length_app_s in Hk.
    assert (take_s k (a +:+ s) = a +:+ take_s (k - String.length a) s) as ->; [|].
    { clear Hk. revert k Hge. induction a as [|x a IH]; intros k Hge; [by rewrite Nat.sub_0_r|].
      destruct k as [|k]; [cbn in Hge; lia|].
      change (String x (take_s k (a +:+ s)) = String x (a +:+ take_s (k - String.length a) s)).
      by rewrite IH by (cbn in Hge; lia). }
    split; [apply ReadFull_app|lia].
Qed.

Lemma cut_unreadable b m plain nonce ct n k : ascii_meta m → NonceB64 m = base64 nonce →
  String.length nonce = NonceSize →
  EncryptAESGCM plain (BackupEncryptionKey b) nonce = Ok (ct, n) →
  Z.of_nat (String.length (encode (BadgerBackupMeta_json m))) ≤ MaxUint32 →
  (k < String.length (content_of m ct))%nat → unreadable b (take_s k (content_of m ct)).
Proof.
  intros Hm Hnonce Hlen Henc Hmax Hk db r. unfold loadEncryptedBackup, content_of in *.
  cbv zeta in *. set (metaJSON := encode (BadgerBackupMeta_json m)) in *.
  destruct (ReadFull_take _ _ _ Hk) as [[e ->]|(k1 & -> & Hk1)]; [done|].
  cbn [mbind Res_bind]. rewrite String.eqb_refl. cbn [negb].
  change 4%nat with (String.length (be32 (Z.of_nat (String.length metaJSON)))).
  destruct (ReadFull_take _ _ _ Hk1) as [[e ->]|(k2 & -> & Hk2)]; [done|].
  cbn [mbind Res_bind]. unfold be32. rewrite SetBytes_be_bytes by (unfold MaxUint32 in Hmax; lia).
  rewrite Nat2Z.id. destruct (ReadFull_take _ _ _ Hk2) as [[e ->]|(k3 & -> & Hk3)]; [done|].
  unfold mbind, Res_bind. unfold metaJSON. rewrite Unmarshal_Meta_encode by done.
  rewrite Hnonce, base64_decode_base64. cbn [of_option].
  apply Res_bind_Ok in Henc as (key & Hkey & [= <- _]).
  unfold DecryptAESGCM. rewrite Hkey. unfold mbind, Res_bind.
  rewrite bool_decide_eq_true_2 by done. by rewrite aes_Open_cut.
Qed.

(** A backup file cut off inside its first 17 bytes. *)
Lemma short_unreadable b c : (String.length c < 17)%nat → unreadable b c.
Proof.
  intros Hlen db r. unfold loadEncryptedBackup.
  intros ([m rest] & Hm & Hx)%Res_bind_Ok. cbv beta iota in Hx.
  destruct (negb (String.eqb m magic)); [discriminate|].
  apply Res_bind_Ok in Hx as ([len rest'] & Hx & _).
  destruct (ReadFull_short 4 rest) as [e He]; [|congruence].
  revert Hm. unfold ReadFull. destruct (Nat.ltb_spec (String.length c) (String.length magic));
    [discriminate|]. intros [= <- <-]. rewrite length_drop_s.
  change (String.length magic) with 13%nat. lia.
Qed.

(** The restore stops at the first file it cannot read. *)
Lemma unreadable_blocks b opened closed d n c r : files d !! n = Some c → is_backup n = true →
  unreadable b c → RestoreAllBackupsEncrypted b opened closed d ≠ Ok r.
Proof.
  intros Hc Hn Hbad. unfold Backup.RestoreAllBackupsEncrypted.
  assert (n ∈ SortedEncryptedBackups d) as Hin by (apply elem_of_Sorted; by rewrite Hc).
  intros (_ & _ & (db & Hr & _)%Res_bind_Ok)%Res_bind_Ok. revert Hr. generalize db_empty.
  induction Hin as [y l|y z l Hin IH]; intros db0.
  - intros (c' & Hc'%of_option_Ok & (x & Hx & _)%Res_bind_Ok)%Res_bind_Ok.
    rewrite Hc in Hc'. injection Hc' as <-. by eapply Hbad.
  - intros (c' & _ & (x & _ & Hx)%Res_bind_Ok)%Res_bind_Ok. by eapply IH, Hx.
Qed.

(** A file that was begun, and not finished, is in the directory. *)
Definition damaged (b : badgerBackupExecutor) (d : directory) : Prop :=
  ∃ n c, files d !! n = Some c ∧ is_backup n = true ∧ unreadable b c.

Lemma Execute_damages b last d db v r env e d' : names_ok b last d → backup_inv b d db v r →
  next_stamp last env → Execute b db env d = (Err e, d') → d' ≠ d →
  names_ok b (Some (stamp env)) d' ∧ damaged b d'.
Proof.
  intros Hnames Hinv Hnext He Hd.
  destruct (Execute_Err _ _ _ _ _ _ _ He Hd)
    as (info & plain & ct & nonce & n & c & (Hi & Hb & _ & Henc) & -> & Hcut).
  split; [by eapply names_put|]. eexists _, c. split; [apply lookup_insert_eq|].
  split; [apply is_backup_name|].
  destruct Hcut as [Hshort|(Hmax & k & -> & Hk)]; [by apply short_unreadable|].
  destruct (DecryptAESGCM_Encrypt _ _ _ _ _ (ge_nonce _ (proj1 Hnext)) Henc) as [-> _].
  destruct (bi_version _ _ _ _ _ Hinv _ _ Hi) as (_ & Hsince & _).
  apply (cut_unreadable _ _ plain (fresh_nonce env) _ (fresh_nonce env)); try done.
  - apply backup_meta_ascii; [apply Hnext|done|by eapply Backup_uint64].
  - apply Hnext.
Qed.

Lemma damaged_put b last d env w c : names_ok b last d → next_stamp last env → damaged b d →
  damaged b (put_file (name_of b (stamp env) w) c d).
Proof.
  intros Hnames Hnext (n & c0 & Hc & Hn & Hbad). exists n, c0. split; [|done].
  cbn [files put_file]. rewrite lookup_insert_ne; [done|].
  intros <-. eapply bytes_lt_ne; [|reflexivity]. eapply names_fresh; [done..|by rewrite Hc].
Qed.

Lemma damaged_step b last d db env r d' : names_ok b last d → next_stamp last env →
  damaged b d → Execute b db env d = (r, d') → (r = Ok tt ∨ ∃ e, r = Err e) →
  names_ok b (Some (stamp env)) d' ∧ damaged b d'.
Proof.
  intros Hnames Hnext Hdam Hx Hr. destruct Hr as [->|[e ->]].
  - split; [by eapply names_step|].
    apply Execute_Ok in Hx as (info & plain & n & _ & _ & [[-> _]|(ct & nonce & _ & _ & ->)]);
      [done|]. by apply (damaged_put b last d env (new_version info)
        (content_of (backup_meta b env nonce (vi_Since info) n) ct)).
  - destruct (decide (d' = d)) as [->|Hne]; [split; [by eapply names_keep|done]|].
    destruct (Execute_Err _ _ _ _ _ _ _ Hx Hne) as (? & ? & ? & ? & ? & ? & _ & -> & _).
    split; [by eapply names_put|by eapply damaged_put].
Qed.

(** *** The simulation *)

(** The snapshot is what a restore of the directory yields, unless it is damaged. *)
Definition simulates (b : badgerBackupExecutor) (w : backup_world) (sp : snapshots) : Prop :=
  (∀ k, sp_live sp k = db_get (bw_live w) k) ∧ names_ok b (bw_last w) (bw_dir w) ∧
  if sp_damaged sp then damaged b (bw_dir w)
  else ∃ v r, backup_inv b (bw_dir w) (bw_live w) v r ∧ ∀ k, sp_snapshot sp k = db_get r k.

Lemma backup_inv_restore b d db v r : backup_inv b d db v r →
  RestoreAllBackupsEncrypted b (Ok tt) (Ok tt) d = Ok r.
Proof.
  intros Hinv. unfold Backup.RestoreAllBackupsEncrypted. by rewrite (bi_restore _ _ _ _ _ Hinv).
Qed.

Lemma damaged_restore b d r : damaged b d →
  RestoreAllBackupsEncrypted b (Ok tt) (Ok tt) d ≠ Ok r.
Proof. intros (n & c & Hc & Hn & Hbad). by eapply unreadable_blocks. Qed.

Lemma simulation_step b w e w' sp : simulates b w sp → backup_step b w e w' →
  ∃ sp', snapshot_step sp e sp' ∧ simulates b w' sp'.
Proof.
  destruct sp as [live snap dam]. intros (Hlive & Hnames & Hstate) Hstep.
  destruct Hstep as [last d db db' Hg|last d db env d' Hnext Hsave He|last d db env er _|
    last d db env er d' Hnext He Hd|last d db r' Hr|last d db er Hr];
    cbn [bw_live bw_dir bw_last sp_live sp_snapshot sp_damaged] in *.
  - exists (mkSnapshots (db_get db') snap dam). split; [constructor|]. split; [done|].
    split; [done|]. destruct dam; [done|]. destruct Hstate as (v & r & [] & Hsnap).
    exists v, r. split; [|done]. split; try done. by eapply copy_grows.
  - exists (mkSnapshots live live dam). split; [constructor|]. split; [done|].
    destruct dam; cbn; [by eapply damaged_step; eauto|].
    destruct Hstate as (v & r & Hinv & Hsnap). split; [by eapply names_step|].
    destruct (backup_inv_step _ _ _ _ _ _ _ _ Hnames Hinv Hnext Hsave He) as (v' & r' & Hinv' & Hget).
    exists v', r'. split; [done|]. intros k. by rewrite Hget.
  - exists (mkSnapshots live snap dam). by split; [constructor|].
  - exists (mkSnapshots live snap true). split; [constructor|]. split; [done|].
    destruct dam; [by eapply damaged_step; eauto|]. destruct Hstate as (v & r & Hinv & _).
    by eapply Execute_damages.
  - destruct dam; [by apply damaged_restore in Hr|]. destruct Hstate as (v & r & Hinv & Hsnap).
    rewrite (backup_inv_restore _ _ _ _ _ Hinv) in Hr. injection Hr as <-.
    exists (mkSnapshots live snap false). split; [by constructor|]. split; [done|].
    split; [done|]. by exists v, r.
  - destruct dam; [exists (mkSnapshots live snap true); by split; [constructor|]|].
    destruct Hstate as (v & r & Hinv & _).
    by rewrite (backup_inv_restore _ _ _ _ _ Hinv) in Hr.
Qed.

Lemma simulation_runs b w es w' sp : simulates b w sp → runs (backup_step b) w es w' →
  ∃ sp', runs snapshot_step sp es sp' ∧ simulates b w' sp'.
Proof.
  intros Hsim Hruns. revert sp Hsim. induction Hruns as [w|w e w1 es w2 Hstep _ IH]; intros sp Hsim.
  - exists sp. split; [constructor|done].
  - destruct (simulation_step _ _ _ _ _ Hsim Hstep) as (sp1 & Hs1 & Hsim1).
    destruct (IH sp1 Hsim1) as (sp2 & Hs2 & Hsim2). exists sp2. split; [by econstructor|done].
Qed.

Lemma simulates_new b db :
  simulates b (new_world db) (mkSnapshots (db_get db) (db_get db_empty) false).
Proof.
  split; [done|]. split; [by split|]. exists 0, db_empty. split; [apply backup_inv_start|done].
Qed.

Lemma runs_inv b db es w : runs (backup_step b) (new_world db) es w →
  names_ok b (bw_last w) (bw_dir w) ∧
  if existsb is_cut es then damaged b (bw_dir w)
  else ∃ v r, backup_inv b (bw_dir w) (bw_live w) v r.
Proof.
  intros Hruns. destruct (simulation_runs _ _ _ _ _ (simulates_new b db) Hruns)
    as (sp & Hsp%runs_damaged & _ & Hnames & Hstate). split; [done|].
  cbn in Hsp. rewrite <-Hsp. destruct (sp_damaged sp); [done|].
  destruct Hstate as (v & r & Hinv & _). by exists v, r.
Qed.

(** C3: the chain of incremental, encrypted backup files implements one snapshot.  A new
    backup directory goes through any sequence of writes to the database, backups with
    later and later time stamps, and restores; a backup may fail before it writes, have its
    writes cut off at any byte, or not get its version saved.  Then the specification
    that keeps a single copy of the contents, and the mark of a cut-off file, goes through
    the same sequence, with the same result of every restore: the snapshot as long as no
    file was cut off, and an error from then on, never other contents.  In the state
    reached a restore succeeds and yields the snapshot, or fails, in the same way.  Badger
    and AES-GCM are only assumed to do what they document. *)
Theorem backups_refine_snapshots b db es w : runs (backup_step b) (new_world db) es w →
  ∃ sp, runs snapshot_step (mkSnapshots (db_get db) (db_get db_empty) false) es sp ∧
    (∀ k, sp_live sp k = db_get (bw_live w) k) ∧ sp_damaged sp = existsb is_cut es ∧
    if sp_damaged sp then ∀ r, RestoreAllBackupsEncrypted b (Ok tt) (Ok tt) (bw_dir w) ≠ Ok r
    else ∃ r, RestoreAllBackupsEncrypted b (Ok tt) (Ok tt) (bw_dir w) = Ok r ∧
      ∀ k, db_get r k = sp_snapshot sp k.
Proof.
  intros Hruns. destruct (simulation_runs _ _ _ _ _ (simulates_new b db) Hruns)
    as (sp & Hsp & Hlive & _ & Hstate).
  exists sp. split; [done|]. split; [done|]. split; [by rewrite (runs_damaged _ _ _ Hsp)|].
  destruct (sp_damaged sp); [intros r; by apply damaged_restore|].
  destruct Hstate as (v & r & Hinv & Hsnap). exists r.
  split; [by eapply backup_inv_restore|done].
Qed.

(** A backup whose first writes fail, on a full disk for instance, reports the
    error but leaves its file behind under the name of a backup.  From then on no
    restore of the directory succeeds, whatever later backups add to it, until
    somebody removes the file: the restore takes every [backup-*.enc] and stops at
    the first it cannot read. *)
Theorem failed_backup_blocks_restore b db env d e d' n : written env = Some (n, e) →
  (n < 17)%nat → Execute b db env d = (Err e, d') → d' ≠ d →
  ∃ name, is_backup name = true ∧ ∀ later opened closed r,
    files later !! name = files d' !! name →
    RestoreAllBackupsEncrypted b opened closed later ≠ Ok r.
Proof.
  intros Hw Hn He Hd. destruct (Execute_cut _ b db env d (Err e) d' n e Hw Hn He Hd)
    as (name & c & Hname & Hc & Hlen).
  exists name. split; [done|]. intros later opened closed r Hl. rewrite Hc in Hl.
  by eapply unreadable_blocks, short_unreadable.
Qed.

End history.

(** ** A concrete reader and a concrete database, for the witnesses *)

(** Reads a flat object of strings and natural numbers; [true] marks a string. *)
Fixpoint read_fields (sep : string) (fields : list (string * bool)) (s : string) :
    option (list json) :=
  match fields with
  | [] => if String.eqb s "}" then Some [] else None
  | (k, is_str) :: fields =>
      s ← TrimPrefix_opt s (sep +:+ json_string k +:+ ":");
      '(v, s) ← (if is_str : bool then '(t, s) ← read_string s; Some (JStr t, s)
                 else let '(z, s) := read_digits 0 s in Some (JInt z, s));
      vs ← read_fields "," fields s;
      Some (v :: vs)
  end.

Definition read_object (fields : list (string * bool)) (s : string) : option (list json) :=
  s ← TrimPrefix_opt s "{"; read_fields "" fields s.

Definition flat (j : json) : Prop :=
  match j with JStr s => all_ascii s = true | JInt z => 0 ≤ z | _ => False end.
Definition is_JStr (j : json) : bool := match j with JStr _ => true | _ => false end.

Definition field_text (f : string * json) : string := json_string f.1 +:+ ":" +:+ encode f.2.

Lemma read_field sep k v l fields rest : flat v → starts_non_num rest = true →
  read_fields "," fields rest = Some l →
  read_fields sep ((k, is_JStr v) :: fields) (sep +:+ field_text (k, v) +:+ rest)
  = Some (v :: l).
Proof.
  intros Hv Hrest Hl. cbn [read_fields]. unfold field_text. cbn [fst snd].
  replace (sep +:+ (json_string k +:+ ":" +:+ encode v) +:+ rest)
    with ((sep +:+ json_string k +:+ ":") +:+ encode v +:+ rest) by by rewrite !app_assoc_s.
  rewrite TrimPrefix_opt_app. cbn [mbind option_bind].
  destruct v; cbn [is_JStr flat] in *; try contradiction.
  - change (encode (JInt z)) with (fmt_d z). rewrite read_digits_fmt_d by done.
    cbn [mbind option_bind]. by rewrite Hl.
  - change (encode (JStr s)) with (json_string s). rewrite read_string_json by done.
    cbn [mbind option_bind]. by rewrite Hl.
Qed.

Lemma read_tail l : Forall flat l.*2 →
  read_fields "," (prod_map id is_JStr <$> l) (tail_with "," (field_text <$> l) +:+ "}")
  = Some l.*2 ∧ starts_non_num (tail_with "," (field_text <$> l) +:+ "}") = true.
Proof.
  induction l as [|[k v] l IH]; [done|]. rewrite !fmap_cons. intros [Hv Hl]%Forall_cons.
  destruct (IH Hl) as [Hr Hs]. cbn [tail_with prod_map id snd fst]. rewrite !app_assoc_s.
  split; [by apply read_field|done].
Qed.

Lemma read_object_encode l : Forall flat l.*2 →
  read_object (prod_map id is_JStr <$> l) (encode (JObj l)) = Some l.*2.
Proof.
  intros Hl. unfold read_object.
  replace (encode (JObj l)) with ("{" +:+ concat_with "," (field_text <$> l) +:+ "}").
  2: { unfold encode; fold encode. do 3 f_equal. by apply list_fmap_ext; intros ? [] ?. }
  rewrite TrimPrefix_opt_app. cbn [mbind option_bind].
  destruct l as [|[k v] l]; [done|]. rewrite !fmap_cons, concat_with_cons, app_assoc_s.
  apply Forall_cons in Hl as [Hv Hl]. destruct (read_tail l Hl) as [Hr Hs].
  by apply (read_field "").
Qed.

Definition read_Meta (s : string) : Res BadgerBackupMeta :=
  match read_object [("algo", true); ("nonce_b64", true); ("created_at", true);
                     ("since", false); ("next_since", false); ("encryption_key_id", true)] s with
  | Some [JStr a; JStr n; JStr c; JInt since; JInt next; JStr k] =>
      Ok (mkMeta a n c since next k)
  | _ => Err (errors_New "invalid JSON")
  end.

Definition read_VersionInfo (s : string) : Res BadgerBackupVersionInfo :=
  match read_object [("version", false); ("since", false); ("updated_at", true)] s with
  | Some [JInt v; JInt since; JStr u] => Ok (mkVersionInfo v since u)
  | _ => Err (errors_New "invalid JSON")
  end.

Lemma read_Meta_encode m : ascii_meta m → read_Meta (encode (BadgerBackupMeta_json m)) = Ok m.
Proof.
  intros (Hs & Hsince & Hnext). unfold read_Meta, BadgerBackupMeta_json.
  match goal with |- context [encode (JObj ?l)] => pose proof (read_object_encode l) as Hr end.
  cbn [fmap list_fmap prod_map is_JStr fst snd id] in Hr. unfold read_object in *.
  rewrite Hr; [by destruct m|].
  repeat (apply Forall_cons in Hs as [? Hs]). repeat constructor; cbn [flat]; (done || lia).
Qed.

Lemma read_VersionInfo_encode i : ascii_info i →
  read_VersionInfo (encode (BadgerBackupVersionInfo_json i)) = Ok i.
Proof.
  intros (Hs & Hsince & Hnext). unfold read_VersionInfo, BadgerBackupVersionInfo_json.
  match goal with |- context [encode (JObj ?l)] => pose proof (read_object_encode l) as Hr end.
  cbn [fmap list_fmap prod_map is_JStr fst snd id] in Hr. unfold read_object in *.
  rewrite Hr; [by destruct i|]. repeat constructor; cbn [flat]; (done || lia).
Qed.

(** A database with one key, whose value is a log; a version is a length of it, and a
    dump says from which length it goes on. *)
Definition toy_badger : Badger := {|
  badger_db := string;
  db_Backup db v :=
    if Z.of_nat (String.length db) <? 2 ^ 64 then
      let v := Z.max 0 v in
      let rest := drop_s (Z.to_nat v) db in
      Ok (if String.eqb rest "" then EmptyString else be_bytes 8 v +:+ rest,
          Z.of_nat (String.length db))
    else Err (errors_New "too large");
  db_Load b r := Ok (take_s (Z.to_nat (SetBytes (take_s 8 b))) r +:+ drop_s 8 b);
  db_empty := EmptyString;
  db_get db k := if String.eqb k "log" then Some db else None;
|}.

Lemma take_drop_s n s : take_s n s +:+ drop_s n s = s.
Proof.
  revert n. induction s as [|c s IH]; intros [|n]; try done.
  change (take_s (S n) (String c s)) with (String c (take_s n s)).
  change (drop_s (S n) (String c s)) with (drop_s n s).
  change (String c (take_s n s) +:+ drop_s n s) with (String c (take_s n s +:+ drop_s n s)).
  by rewrite IH.
Qed.

Lemma take_s_app n s x : (n ≤ String.length s)%nat → take_s n (s +:+ x) = take_s n s.
Proof.
  revert n. induction s as [|c s IH]; intros [|n] Hn; try done; cbn in Hn; [lia|].
  change (String c s +:+ x) with (String c (s +:+ x)).
  change (String c (take_s n (s +:+ x)) = String c (take_s n s)). rewrite IH by lia. done.
Qed.

Lemma take_s_all s : take_s (String.length s) s = s.
Proof.
  rewrite <-(app_nil_r_s s) at 2. by destruct (take_drop_app_s s EmptyString) as [-> _].
Qed.

Lemma take_s_take_s n m s : (n ≤ m)%nat → take_s n (take_s m s) = take_s n s.
Proof.
  revert n m. induction s as [|c s IH]; intros [|n] [|m] Hnm; try done; [lia|].
  change (String c (take_s n (take_s m s)) = String c (take_s n s)). by rewrite IH by lia.
Qed.

Lemma toy_dump db v b n : db_Backup (Badger := toy_badger) db v = Ok (b, n) →
  n = Z.of_nat (String.length db) ∧ n < 2 ^ 64 ∧
  let rest := drop_s (Z.to_nat v) db in
  (rest = EmptyString ∧ b = EmptyString ∨
   rest ≠ EmptyString ∧ b = be_bytes 8 (Z.max 0 v) +:+ rest ∧ v < n).
Proof.
  cbn. destruct (Z.ltb_spec (Z.of_nat (String.length db)) (2 ^ 64)) as [Hlt|]; [|done].
  replace (Z.to_nat (Z.max 0 v)) with (Z.to_nat v) by lia.
  intros [= <- <-]. split; [done|]. split; [lia|].
  destruct (String.eqb_spec (drop_s (Z.to_nat v) db) "") as [He|Hne]; [by left|right].
  split; [done|]. split; [done|]. destruct (Z.lt_ge_cases v (Z.of_nat (String.length db))); [done|].
  exfalso. apply Hne. pose proof (length_drop_s (Z.to_nat v) db) as Hlen.
  destruct (drop_s (Z.to_nat v) db); [done|]. cbn in Hlen. lia.
Qed.

Definition toy_badger_spec : BadgerSpec toy_badger.
Proof.
  refine {|
    grows := λ db db' : @badger_db toy_badger, ∃ x : string, db' = (db : string) +:+ x;
    copy := λ (db : @badger_db toy_badger) v (r : @badger_db toy_badger),
      0 ≤ v ≤ Z.of_nat (String.length db) ∧ r = take_s (Z.to_nat v) db |}.
  - intros db v b n (-> & ? & _)%toy_dump. lia.
  - intros db v b n (-> & _ & [[_ ->]|(_ & _ & Hlt)])%toy_dump; [done|]. lia.
  - intros db. split; [cbn; lia|]. by destruct (db : string).
  - intros db db' v r [x ->] [Hv ->]. rewrite length_app_s. split; [lia|].
    by rewrite take_s_app by lia.
  - intros db v v' r b n [Hv ->] Hle (-> & Hn & [[_ ->]|(_ & -> & Hlt)])%toy_dump; [done|].
    intros _. eexists. split; [reflexivity|].
    destruct (take_drop_app_s (be_bytes 8 (Z.max 0 v)) (drop_s (Z.to_nat v) db)) as [Ht Hd].
    rewrite length_be_bytes in Ht, Hd. rewrite Ht, Hd.
    rewrite SetBytes_be_bytes by lia. replace (Z.to_nat (Z.max 0 v)) with (Z.to_nat v) by lia.
    rewrite take_s_take_s, take_drop_s by lia. split; [|done]. split; [lia|].
    by rewrite Nat2Z.id, take_s_all.
  - intros db v v' r b n [Hv ->] Hle (-> & Hn & Hb)%toy_dump Hor k.
    replace (take_s (Z.to_nat v') db) with (db : string); [done|].
    assert (Z.of_nat (String.length db) ≤ v') as Hfull.
    { destruct Hor as [->|Hvn]; [|lia]. destruct Hb as [[Hrest _]|(Hrest & Hb & _)].
      - pose proof (length_drop_s (Z.to_nat v) db) as Hlen. rewrite Hrest in Hlen. cbn in Hlen. lia.
      - by destruct (be_bytes 8 (Z.max 0 v)), (drop_s (Z.to_nat v) db). }
    replace (Z.to_nat v') with (String.length db) by lia. by rewrite take_s_all.
Defined.

(** A cipher that refuses what was cut off: every byte is announced, and the end too. *)
Fixpoint toy_seal (p : string) : string :=
  match p with
  | EmptyString => "0"
  | String c p => String "1" (String c (toy_seal p))
  end.

Fixpoint toy_unseal (s : string) : option string :=
  match s with
  | String d r =>
      if Ascii.eqb d "0" then if String.eqb r "" then Some EmptyString else None
      else match r with
           | String c r => p ← toy_unseal r; Some (String c p)
           | EmptyString => None
           end
  | EmptyString => None
  end.

Definition sealing_crypto : Crypto :=
  let C := toy_crypto in
  {| ed25519_Public := ed25519_Public; ed25519_Sign := ed25519_Sign;
     ed25519_Verify := ed25519_Verify; sha256 := sha256; ecdsa_PublicKey := ecdsa_PublicKey;
     ecdsa_on_P256 := ecdsa_on_P256; ecdsa_VerifyASN1 := ecdsa_VerifyASN1;
     aes_Seal k n p := toy_seal p; aes_Open k n c := toy_unseal c;
     x25519_PublicKey := x25519_PublicKey; x25519_ECDH := x25519_ECDH;
     hkdf_sha256 := hkdf_sha256 |}.

Lemma toy_unseal_seal p : toy_unseal (toy_seal p) = Some p.
Proof. induction p as [|c p IH]; [done|]. cbn. by rewrite IH. Qed.

Definition sealing_crypto_spec : CryptoSpec sealing_crypto.
Proof.
  destruct toy_crypto_spec. split; try assumption. intros k n p. apply toy_unseal_seal.
Defined.

Lemma sealing_cut (k n p : string) m :
  let sealed := aes_Seal (Crypto := sealing_crypto) k n p in
  (m < String.length sealed)%nat → aes_Open (Crypto := sealing_crypto) k n (take_s m sealed) = None.
Proof.
  cbn. revert m. induction p as [|c p IH]; intros m Hm; cbn in Hm.
  - by destruct m; [|lia].
  - destruct m as [|[|m]]; [done..|].
    change (take_s (S (S m)) (toy_seal (String c p)))
      with (String "1" (String c (take_s m (toy_seal p)))). cbn.
    by rewrite IH by lia.
Qed.

Definition toy_executor : badgerBackupExecutor :=
  mkExecutor "nodeA" (pad_to 32 "backup key") "./backups".
Definition undisturbed1 : backup_env :=
  mkEnv "2026-01-01_00-00-00" "2026-01-01T00:00:00Z" "nonce-000001" None None None None.
Definition undisturbed2 : backup_env :=
  mkEnv "2026-01-01_00-05-00" "2026-01-01T00:05:00Z" "nonce-000002" None None None None.
Definition toy_Execute (db : string) : backup_env → M directory (Res unit) :=
  Execute (C := sealing_crypto) (B := toy_badger) read_VersionInfo toy_executor db.
Definition no_backups : directory := mkDirectory ∅ None.
Definition one_backup : directory := (toy_Execute "first" undisturbed1 no_backups).2.

Lemma toy_env1 : good_env undisturbed1.
Proof. by split. Qed.

Definition undisturbed3 : backup_env :=
  mkEnv "2026-01-01_00-10-00" "2026-01-01T00:10:00Z" "nonce-000003" None None None None.

Lemma toy_env3 : good_env undisturbed3.
Proof. by split. Qed.

Lemma toy_env2 : good_env undisturbed2.
Proof. by split. Qed.

(** The version is not saved, so that the next dump starts again. *)
Definition unsaved2 : backup_env :=
  mkEnv "2026-01-01_00-05-00" "2026-01-01T00:05:00Z" "nonce-000002" None None None
    (Some (latest_version one_backup)).

(** The disk is full after 60 bytes. *)
Definition full_disk : error := errors_New "no space left on device".
Definition cut3 : backup_env :=
  mkEnv "2026-01-01_00-10-00" "2026-01-01T00:10:00Z" "nonce-000003" None None
    (Some (60%nat, full_disk)) None.

Definition toy_labels : list backup_label := [BBackup; BWrite; BBackup].

Definition toy_world : backup_world :=
  mkWorld (B := toy_badger) (Some (stamp unsaved2))
    (toy_Execute "first, then second" unsaved2 one_backup).2 "first, then second".

Definition toy_cut_world : backup_world :=
  mkWorld (B := toy_badger) (Some (stamp cut3))
    (toy_Execute "first, then second, third" cut3 (bw_dir toy_world)).2 "first, then second, third".

#[local] Abbreviation toy_step := (backup_step (B := toy_badger) (C := sealing_crypto)
    (BadgerSpec0 := toy_badger_spec) read_Meta read_VersionInfo toy_executor).

Lemma toy_next1 : next_stamp None undisturbed1.
Proof. split; [apply toy_env1|done]. Qed.

(** Two backups with a write in between. *)
Lemma toy_runs : runs toy_step (new_world (B := toy_badger) "first") toy_labels toy_world.
Proof.
  eapply runs_cons; [eapply (bs_backup (B := toy_badger)) with (env := undisturbed1)|].
  { apply toy_next1. } { done. } { apply run_of_eval. vm_compute. reflexivity. }
  eapply runs_cons; [eapply (bs_write (B := toy_badger)) with (db' := "first, then second")|].
  { by exists ", then second". }
  eapply runs_cons; [|apply runs_nil].
  eapply (bs_backup (B := toy_badger)) with (env := unsaved2).
  - split; [by split|]. vm_compute. reflexivity.
  - intros rest [= <-]. left. reflexivity.
  - apply run_of_eval. vm_compute. reflexivity.
Qed.

(** Then one more write, and a backup that is cut off. *)
Lemma toy_cut_runs : runs toy_step (new_world (B := toy_badger) "first")
  (toy_labels ++ [BWrite; BCut full_disk]) toy_cut_world.
Proof.
  eapply runs_app; [exact toy_runs|].
  eapply runs_cons; [eapply (bs_write (B := toy_badger)) with (db' := "first, then second, third")|].
  { by exists ", third". }
  eapply runs_cons; [|apply runs_nil].
  eapply (bs_cut (B := toy_badger)) with (env := cut3).
  - split; [by split|]. vm_compute. reflexivity.
  - apply run_of_eval. vm_compute. reflexivity.
  - intros H%(f_equal (λ d, length (map_to_list (files d)))). vm_compute in H. discriminate H.
Qed.

#[local] Abbreviation toy_Restore := (RestoreAllBackupsEncrypted (C := sealing_crypto)
  (B := toy_badger) read_Meta toy_executor (Ok tt) (Ok tt)).

Lemma backups_refine_snapshots_witness :
  (∃ sp r, toy_Restore (bw_dir toy_world) = Ok r ∧ ∀ k, db_get r k = sp_snapshot sp k) ∧
  ∀ r, toy_Restore (bw_dir toy_cut_world) ≠ Ok r.
Proof.
  split.
  - destruct (@backups_refine_snapshots sealing_crypto sealing_crypto_spec toy_badger toy_badger_spec
           read_Meta read_VersionInfo read_Meta_encode read_VersionInfo_encode sealing_cut
           toy_executor "first" toy_labels toy_world toy_runs) as (sp & _ & _ & Hdam & Hr).
    rewrite Hdam in Hr. destruct Hr as (r & Hr & Hsnap). exists sp, r. split; [exact Hr|exact Hsnap].
  - destruct (@backups_refine_snapshots sealing_crypto sealing_crypto_spec toy_badger toy_badger_spec
           read_Meta read_VersionInfo read_Meta_encode read_VersionInfo_encode sealing_cut
           toy_executor "first" _ toy_cut_world toy_cut_runs) as (sp & _ & _ & Hdam & Hr).
    rewrite Hdam in Hr. exact Hr.
Defined.

Definition disturbed : backup_env := mkEnv "2026-01-01_00-05-00" "2026-01-01T00:05:00Z" "nonce-000002"
                               None None (Some (0%nat, full_disk)) None.

Lemma failed_backup_blocks_restore_witness : ∃ name, is_backup name = true ∧
  ∀ later opened closed r,
    files later !! name = files (toy_Execute "first, then second" disturbed one_backup).2 !! name →
    RestoreAllBackupsEncrypted (C := sealing_crypto) (B := toy_badger) read_Meta toy_executor
      opened closed later ≠ Ok r.
Proof.
  apply (@failed_backup_blocks_restore sealing_crypto toy_badger read_Meta read_VersionInfo
           toy_executor "first, then second" disturbed one_backup full_disk _ 0).
  - done.
  - lia.
  - apply run_of_eval. vm_compute. reflexivity.
  - intros H%(f_equal (λ d, length (map_to_list (files d)))). vm_compute in H. discriminate H.
Defined.
