(* ===== verification/Config.v ===== *)
(** * pkg/config and pkg/infra: the configuration of a node

    [Load] reads a file through viper and mapstructure, fills in defaults,
    validates and publishes the result in a package variable; the accessors read
    it there.  The variable is a pointer that callers of [Load] share, so the
    state has the configurations that were allocated and the address of the
    current one.  viper and mapstructure are a class. *)

From stdpp Require Import base gmap list strings.
From Stdlib Require Import ZArith Lia Ascii.
From S2P Require Import Prelude.
From S2P Require Import GoStrings.
From S2P Require Import External.
From S2P Require Import Json.
From S2P Require Import Types.
From S2P Require Import Identity.
From S2P Require Import KeyStore.
From S2P Require Import Registry.
From S2P Require Import SessionManager.
From S2P Require Import Node.
From S2P Require Import EventConsumer.

Definition defaultEnvironment : string := "development".
Definition defaultBadgerDBPath : string := ".".
Definition defaultBackupDir : string := "backups".
Definition defaultBackupPeriodSeconds : Z := 300.
Definition defaultMaxConcurrentKeygen : Z := 2.
Definition defaultMaxConcurrentSigning : Z := 10.
Definition defaultMaxConcurrentResharing : Z := 5.
Definition defaultSessionWarmUpDelayMs : Z := 100.
Definition defaultThreshold : Z := 1.
Definition defaultInitiatorAlgorithm : string := "ed25519".

Record ConsulConfig := mkConsulConfig {
  cc_Address : string;
  cc_Username : string;
  cc_Password : string;
  cc_Token : string;
}.

Record TLSConfig := mkTLSConfig { ClientCert : string; ClientKey : string; CACert : string }.

Record NATsConfig := mkNATsConfig {
  nc_URL : string;
  nc_Username : string;
  nc_Password : string;
  nc_TLS : option TLSConfig;
}.

Record Config := mkConfig {
  cfg_Consul : option ConsulConfig;
  cfg_NATs : option NATsConfig;
  cfg_Environment : string;
  cfg_BadgerPassword : string;
  cfg_DBPath : string;
  cfg_BackupDir : string;
  cfg_BackupEnabled : bool;
  cfg_BackupPeriodSeconds : Z;
  cfg_EventInitiatorAlgorithm : string;
  cfg_EventInitiatorPubKey : string;
  cfg_Threshold : Z;
  cfg_MaxConcurrentKeygen : Z;
  cfg_MaxConcurrentSigning : Z;
  cfg_MaxConcurrentResharing : Z;
  cfg_SessionWarmUpDelayMillis : Z;
}.

Definition with_BadgerPassword (password : string) (c : Config) : Config :=
  mkConfig (cfg_Consul c) (cfg_NATs c) (cfg_Environment c) password (cfg_DBPath c)
    (cfg_BackupDir c) (cfg_BackupEnabled c) (cfg_BackupPeriodSeconds c)
    (cfg_EventInitiatorAlgorithm c) (cfg_EventInitiatorPubKey c) (cfg_Threshold c)
    (cfg_MaxConcurrentKeygen c) (cfg_MaxConcurrentSigning c) (cfg_MaxConcurrentResharing c)
    (cfg_SessionWarmUpDelayMillis c).

(** ** Loading *)

(** Where viper looks: the named file, or [config.yaml] on a search path. *)
Inductive config_file :=
| SetConfigFile (path : string)
| SearchConfig (name type : string) (paths : list string).

Class Viper := {
  settings : Type;
  ReadInConfig : list (string * json) → config_file → Res settings;
  NewDecoder : Res unit;
  Decode : settings → Res Config;
}.

(** The calls of [viper.SetDefault]. *)
Definition viper_defaults : list (string * json) :=
  [("environment", JStr defaultEnvironment); ("db_path", JStr defaultBadgerDBPath);
   ("backup_dir", JStr defaultBackupDir);
   ("backup_period_seconds", JInt defaultBackupPeriodSeconds);
   ("backup_enabled", JBool true); ("threshold", JInt defaultThreshold);
   ("event_initiator_algorithm", JStr defaultInitiatorAlgorithm);
   ("max_concurrent_keygen", JInt defaultMaxConcurrentKeygen);
   ("max_concurrent_signing", JInt defaultMaxConcurrentSigning);
   ("max_concurrent_resharing", JInt defaultMaxConcurrentResharing);
   ("session_warm_up_delay_ms", JInt defaultSessionWarmUpDelayMs)].

(** [configFile] is the environment variable MPC_CONFIG_FILE. *)
Definition initConfig `{Viper} (configFile : string) : Res settings :=
  wrap_err "viper read config: "
    (ReadInConfig viper_defaults
       (if String.eqb configFile "" then
          SearchConfig "config" "yaml" ["."; "/etc/mpc/"; "$HOME/.mpc/"]
        else SetConfigFile configFile)).

Definition SetEnvConfigPath (configPath configFile : string) : string :=
  if String.eqb configPath "" then configFile else configPath.

Definition validEnvironments : list string := ["production"; "development"].

Definition validateEnvironment (environment : string) : Res unit :=
  if bool_decide (environment ∈ validEnvironments) then Ok tt
  else Err (errors_New ("invalid environment '" +:+ environment +:+ "'. Must be one of: " +:+
                        concat_with ", " validEnvironments)).

Definition default_if_empty (s d : string) : string := if String.eqb s "" then d else s.

Definition applyDefaults (c : Config) : Config :=
  mkConfig (cfg_Consul c) (cfg_NATs c)
    (default_if_empty (cfg_Environment c) defaultEnvironment)
    (cfg_BadgerPassword c)
    (default_if_empty (cfg_DBPath c) defaultBadgerDBPath)
    (default_if_empty (cfg_BackupDir c) defaultBackupDir)
    (cfg_BackupEnabled c)
    (default_if_zero (cfg_BackupPeriodSeconds c) defaultBackupPeriodSeconds)
    (default_if_empty (cfg_EventInitiatorAlgorithm c) defaultInitiatorAlgorithm)
    (cfg_EventInitiatorPubKey c)
    (default_if_zero (cfg_Threshold c) defaultThreshold)
    (default_if_zero (cfg_MaxConcurrentKeygen c) defaultMaxConcurrentKeygen)
    (default_if_zero (cfg_MaxConcurrentSigning c) defaultMaxConcurrentSigning)
    (default_if_zero (cfg_MaxConcurrentResharing c) defaultMaxConcurrentResharing)
    (default_if_zero (cfg_SessionWarmUpDelayMillis c) defaultSessionWarmUpDelayMs).

(** ** The current configuration *)

(** [allocated]: the configurations by address; [app]: the package variable. *)
Record config_store := mkConfigStore {
  allocated : list Config;
  app : option nat;
}.

Definition setConfig (cfg : nat) : M config_store (Res unit) :=
  modifyR (λ s, mkConfigStore (allocated s) (Some cfg)).

Definition new_Config (c : Config) : M config_store (Res nat) := λ s,
  (Ok (length (allocated s)), mkConfigStore (allocated s ++ [c]) (app s)).

(** The fresh configuration is not published when a step fails. *)
Definition LoadConfig `{Viper} (v : settings) : M config_store (Res nat) :=
  _ ←! lift (wrap_err "create decoder: " NewDecoder);
  cfg ←! lift (wrap_err "decode config: " (Decode v));
  let cfg := applyDefaults cfg in
  _ ←! lift (wrap_err "config validation failed: " (validateEnvironment (cfg_Environment cfg)));
  p ←! new_Config cfg;
  _ ←! setConfig p;
  lift (Ok p).

Definition Load `{Viper} (configFile : string) : M config_store (Res nat) :=
  v ←! lift (initConfig configFile);
  LoadConfig v.

(** [logger.Fatal] ends the process. *)
Definition GetConfig (s : config_store) : Res Config :=
  match app s ≫= (allocated s !!.) with
  | Some c => Ok c
  | None => Panic "configuration not loaded"
  end.

(** A write through a pointer to a configuration. *)
Definition write_Config (p : nat) (f : Config → Config) : M config_store (Res unit) :=
  modifyR (λ s, mkConfigStore (alter f p (allocated s)) (app s)).

Definition Update (fn : Config → Config) : M config_store (Res unit) := λ s,
  match app s with
  | None => (Panic "configuration not loaded", s)
  | Some p => write_Config p fn s
  end.

(** The accessors. *)
Definition current {A} (f : Config → A) (s : config_store) : Res A := c ← GetConfig s; Ok (f c).
Definition BadgerPassword : config_store → Res string := current cfg_BadgerPassword.
Definition EventInitiatorAlgorithm : config_store → Res string := current cfg_EventInitiatorAlgorithm.
Definition EventInitiatorPubKey : config_store → Res string := current cfg_EventInitiatorPubKey.
Definition Threshold : config_store → Res Z := current cfg_Threshold.
Definition MaxConcurrentKeygen : config_store → Res Z := current cfg_MaxConcurrentKeygen.
Definition MaxConcurrentSigning : config_store → Res Z := current cfg_MaxConcurrentSigning.
Definition MaxConcurrentResharing : config_store → Res Z := current cfg_MaxConcurrentResharing.
Definition SessionWarmUpDelayMillis : config_store → Res Z := current cfg_SessionWarmUpDelayMillis.
Definition DBPath : config_store → Res string := current cfg_DBPath.
Definition BackupEnabled : config_store → Res bool := current cfg_BackupEnabled.
Definition BackupPeriodSeconds : config_store → Res Z := current cfg_BackupPeriodSeconds.
Definition NATs : config_store → Res (option NATsConfig) := current cfg_NATs.
Definition Environment : config_store → Res string := current cfg_Environment.
Definition BackupDir : config_store → Res string := current cfg_BackupDir.

Definition SetBadgerPassword (password : string) : M config_store (Res unit) :=
  Update (with_BadgerPassword password).

(** ** pkg/infra/consul.go *)

(** The part of [api.Config] the node sets; [DefaultConfig] is third-party. *)
Record api_Config := mkApiConfig {
  api_Address : string;
  api_Token : string;
  api_HttpAuth : option (string * string);
}.

Definition EnvProduction : string := "production".

(** A configuration without a consul section is a nil pointer, which is dereferenced. *)
Definition GetConsulConfig (DefaultConfig : api_Config) (s : config_store) : Res api_Config :=
  cfg ← GetConfig s;
  consulCfg ← (match cfg_Consul cfg with
               | Some c => Ok c
               | None => Panic "nil pointer dereference"
               end);
  let config :=
    if String.eqb (cfg_Environment cfg) EnvProduction then
      mkApiConfig (api_Address DefaultConfig) (cc_Token consulCfg)
        (if negb (String.eqb (cc_Username consulCfg) "") ||
            negb (String.eqb (cc_Password consulCfg) "")
         then Some (cc_Username consulCfg, cc_Password consulCfg)
         else api_HttpAuth DefaultConfig)
    else DefaultConfig in
  Ok (mkApiConfig (default_if_empty (cc_Address consulCfg) (api_Address DefaultConfig))
        (api_Token config) (api_HttpAuth config)).

(** [NewClient] and [Leader] are the client's answers to the configuration, which has a
    wait time of ten seconds besides. *)
Definition GetConsulClient (DefaultConfig : api_Config) (NewClient Leader : api_Config → Res unit)
    (s : config_store) : Res api_Config :=
  config ← GetConsulConfig DefaultConfig s;
  match NewClient config with
  | Ok _ =>
      match Leader config with
      | Ok _ => Ok config
      | _ => Panic "failed to connect to Consul"
      end
  | _ => Panic "Failed to create consul client"
  end.

(** ** pkg/messaging/nats_connection.go *)

(** What [nats.Connect] is given besides the fixed reconnection options: the URL, and
    in production certificate, key, root certificate, user and password. *)
Record nats_options := mkNatsOptions {
  no_url : string;
  no_tls : option (string * string * string);
  no_UserInfo : option (string * string);
}.

(** A configuration without a nats section is a nil pointer, which is dereferenced. *)
Definition GetNATSConnection (s : config_store) : Res nats_options :=
  cfg ← GetConfig s;
  nats ← (match cfg_NATs cfg with Some n => Ok n | None => Panic "nil pointer dereference" end);
  if String.eqb (cfg_Environment cfg) EnvProduction then
    let get f := match nc_TLS nats with Some t => f t | None => EmptyString end in
    let clientCert := default_if_empty (get ClientCert) "certs/client-cert.pem" in
    let clientKey := default_if_empty (get ClientKey) "certs/client-key.pem" in
    let caCert := default_if_empty (get CACert) "certs/rootCA.pem" in
    Ok (mkNatsOptions (nc_URL nats) (Some (clientCert, clientKey, caCert))
          (Some (nc_Username nats, nc_Password nats)))
  else Ok (mkNatsOptions (nc_URL nats) None None).

(** The event consumer reads its numbers from the current configuration. *)
Definition NewEventConsumer_configured
    `{C : Crypto} `{L : Lo} `{T : TssLib} `{KV : KVStore} `{CK : ConsulKV}
    {R : Type} `{PR : PeerRegistry R}
    (n : Node (R := R)) (ids : fileStore) (db : kv_db) (s : config_store) :=
  threshold ← Threshold s;
  keygen ← MaxConcurrentKeygen s;
  signing ← MaxConcurrentSigning s;
  resharing ← MaxConcurrentResharing s;
  warmUp ← SessionWarmUpDelayMillis s;
  NewEventConsumer n ids db threshold keygen signing resharing warmUp.

(** ** What a loaded configuration guarantees *)

Record complete (c : Config) : Prop := {
  co_Environment : cfg_Environment c ∈ validEnvironments;
  co_DBPath : cfg_DBPath c ≠ "";
  co_BackupDir : cfg_BackupDir c ≠ "";
  co_Algorithm : cfg_EventInitiatorAlgorithm c ≠ "";
  co_BackupPeriod : cfg_BackupPeriodSeconds c ≠ 0;
  co_Threshold : cfg_Threshold c ≠ 0;
  co_Keygen : cfg_MaxConcurrentKeygen c ≠ 0;
  co_Signing : cfg_MaxConcurrentSigning c ≠ 0;
  co_Resharing : cfg_MaxConcurrentResharing c ≠ 0;
  co_WarmUp : cfg_SessionWarmUpDelayMillis c ≠ 0;
}.

Lemma default_if_empty_ne s d : d ≠ "" → default_if_empty s d ≠ "".
Proof. intros Hd. unfold default_if_empty. by destruct (String.eqb_spec s ""). Qed.

Lemma default_if_empty_id s d : s ≠ "" → default_if_empty s d = s.
Proof. intros Hs. unfold default_if_empty. by destruct (String.eqb_spec s ""). Qed.

Lemma default_if_zero_ne z d : d ≠ 0 → default_if_zero z d ≠ 0.
Proof. intros Hd. unfold default_if_zero. by destruct (Z.eqb_spec z 0). Qed.

Lemma default_if_zero_id z d : z ≠ 0 → default_if_zero z d = z.
Proof. intros Hz. unfold default_if_zero. by destruct (Z.eqb_spec z 0). Qed.

#[local] Hint Resolve default_if_empty_ne default_if_zero_ne : mpcium.

Lemma validateEnvironment_Ok e u : validateEnvironment e = Ok u ↔ e ∈ validEnvironments.
Proof.
  unfold validateEnvironment. destruct u. case_bool_decide; split; done.
Qed.

Lemma applyDefaults_complete c :
  cfg_Environment (applyDefaults c) ∈ validEnvironments → complete (applyDefaults c).
Proof. split; [done|cbn; auto with mpcium..]. Qed.

Lemma applyDefaults_id c : complete c → applyDefaults c = c.
Proof.
  intros [He ?????????]. unfold applyDefaults.
  assert (cfg_Environment c ≠ "") as Hne.
  { intros Hc. rewrite Hc in He. repeat (apply elem_of_cons in He as [He|He]; [done|]).
    by apply elem_of_nil in He. }
  rewrite !default_if_empty_id, !default_if_zero_id by done.
  by destruct c.
Qed.

Lemma complete_with_BadgerPassword pw c : complete c → complete (with_BadgerPassword pw c).
Proof. by intros []. Qed.

(** *** Loading *)

Section loading.
Context `{Viper}.

Lemma LoadConfig_Ok v s p s' : LoadConfig v s = (Ok p, s') → ∃ c, Decode v = Ok c ∧
  p = length (allocated s) ∧ cfg_Environment (applyDefaults c) ∈ validEnvironments ∧
  s' = mkConfigStore (allocated s ++ [applyDefaults c]) (Some p).
Proof.
  unfold LoadConfig. intros ([] & s1 & Hd & Hrest)%bindR_Ok.
  injection Hd as _ <-. apply bindR_Ok in Hrest as (c & s1 & Hc & Hrest).
  injection Hc as Hc <-. apply wrap_err_Ok in Hc. cbv zeta in Hrest.
  apply bindR_Ok in Hrest as ([] & s1 & Hv & Hrest). injection Hv as Hv <-.
  rewrite wrap_err_Ok, validateEnvironment_Ok in Hv. injection Hrest as <- <-.
  by exists c.
Qed.

Lemma LoadConfig_not_Ok v s r s' : LoadConfig v s = (r, s') → is_Ok r = false → s' = s.
Proof.
  unfold LoadConfig, lift, bindR.
  destruct (wrap_err "create decoder: " NewDecoder) as [[]| |]; [|by intros [= <- <-]..].
  destruct (wrap_err "decode config: " (Decode v)) as [c| |]; [|by intros [= <- <-]..].
  destruct (wrap_err _ (validateEnvironment _)); [|by intros [= <- <-]..].
  cbn. by intros [= <- <-].
Qed.

Lemma Load_app configFile s p s' : Load configFile s = (Ok p, s') → app s' = Some p.
Proof.
  unfold Load. intros (v & s1 & _ & Hl)%bindR_Ok.
  by apply LoadConfig_Ok in Hl as (c & _ & -> & _ & ->).
Qed.

(** The states a process can reach: it loads the configuration, any number of times
    and with any outcome, sets the password, or writes it through a pointer it got. *)
Inductive config_step : config_store → config_store → Prop :=
| step_Load configFile s r s' : Load configFile s = (r, s') → config_step s s'
| step_SetBadgerPassword password s : config_step s (SetBadgerPassword password s).2
| step_write_password p password s :
    config_step s (write_Config p (with_BadgerPassword password) s).2.

Definition not_loaded : config_store := mkConfigStore [] None.

Definition config_inv (s : config_store) : Prop :=
  Forall complete (allocated s) ∧ ∀ p, app s = Some p → (p < length (allocated s))%nat.

Lemma write_password_inv p password s : config_inv s →
  config_inv (write_Config p (with_BadgerPassword password) s).2.
Proof.
  intros [Hc Hp]. split; cbn.
  - apply Forall_alter; [done|]. intros c _. apply complete_with_BadgerPassword.
  - by rewrite length_alter.
Qed.

Lemma config_step_inv s s' : config_inv s → config_step s s' → config_inv s'.
Proof.
  intros Hinv Hstep. destruct Hstep as [configFile s r s' Hl|password s|p password s].
  2: { unfold SetBadgerPassword, Update. destruct (app s); [by apply write_password_inv|done]. }
  2: by apply write_password_inv.
  revert Hl. unfold Load, lift, bindR. destruct (initConfig configFile) as [v| |];
    [|by intros [= _ <-]..]. intros Hl. destruct (is_Ok r) eqn:Hr.
  - destruct r as [p| |]; [|done..].
    apply LoadConfig_Ok in Hl as (c & _ & -> & Henv & ->). destruct Hinv as [Hc Hp].
    split; cbn; [apply Forall_app_2; [done|]|].
    + apply Forall_singleton. by apply applyDefaults_complete.
    + intros p [= <-]. rewrite length_app. cbn. lia.
  - apply LoadConfig_not_Ok in Hl as ->; done.
Qed.

Lemma GetConfig_reachable s : rtc config_step not_loaded s →
  (app s = None ∧ GetConfig s = Panic "configuration not loaded") ∨
  ∃ c, GetConfig s = Ok c ∧ complete c.
Proof.
  intros Hs. assert (config_inv s) as [Hc Hp].
  { eapply rtc_invariant; [|done|by split]. intros a b. apply config_step_inv. }
  unfold GetConfig. destruct (app s) as [p|]; [right|by left].
  destruct (lookup_lt_is_Some_2 (allocated s) p (Hp p eq_refl)) as [c Hlook].
  exists c. cbn. rewrite Hlook. split; [done|]. by eapply Forall_lookup_1 in Hc.
Qed.

(** C32: loading a configuration: a success publishes exactly what viper decoded with
    the missing values filled in, filling in a second time changes nothing, and the
    address returned is the published one; after a failure at any stage the current
    configuration is what it was. *)
Theorem Load_outcome configFile s r s' : Load configFile s = (r, s') →
  match r with
  | Ok p => ∃ v c, initConfig configFile = Ok v ∧ Decode v = Ok c ∧ app s' = Some p ∧
      GetConfig s' = Ok (applyDefaults c) ∧ complete (applyDefaults c) ∧
      applyDefaults (applyDefaults c) = applyDefaults c
  | _ => s' = s
  end.
Proof.
  unfold Load, lift, bindR. destruct (initConfig configFile) as [v| |]; [|by intros [= <- <-]..].
  intros Hl. destruct r as [p|e|w]; [|by eapply LoadConfig_not_Ok..].
  apply LoadConfig_Ok in Hl as (c & Hc & -> & Henv & ->).
  pose proof (applyDefaults_complete _ Henv) as Hcomp.
  exists v, c. split; [done|]. split; [done|]. split; [done|].
  split; [|split; [done|by apply applyDefaults_id]].
  unfold GetConfig. cbn [app allocated mbind option_bind].
  by rewrite lookup_app_r, Nat.sub_diag by done.
Qed.

End loading.

Section consumer_config.
Context `{C : Crypto} `{L : Lo} `{T : TssLib} `{KV : KVStore} `{CK : ConsulKV}
  {R : Type} `{PR : PeerRegistry R} `{V : Viper}.

Lemma configured_consumer (n : Node (R := R)) ids db s c : GetConfig s = Ok c → complete c →
  NewEventConsumer_configured n ids db s =
  if (cfg_MaxConcurrentKeygen c <? 0) || (cfg_MaxConcurrentSigning c <? 0) ||
     (cfg_MaxConcurrentResharing c <? 0)
  then Panic "makechan: size out of range"
  else Ok (mkEventConsumer (cfg_Threshold c) n ids db
             (NewManager (5 * 60 * 10 ^ 9) (30 * 60 * 10 ^ 9))
             (cfg_MaxConcurrentKeygen c) (cfg_MaxConcurrentSigning c)
             (cfg_MaxConcurrentResharing c) (cfg_SessionWarmUpDelayMillis c) []).
Proof.
  intros H [_ _ _ _ _ Ht Hk Hg Hr Hw].
  unfold NewEventConsumer_configured, Threshold, MaxConcurrentKeygen, MaxConcurrentSigning,
    MaxConcurrentResharing, SessionWarmUpDelayMillis, current. rewrite H.
  unfold mbind, Res_bind, NewEventConsumer. by rewrite !default_if_zero_id by done.
Qed.

(** Whenever a configuration has been loaded, the event consumer works with
    exactly the configured numbers: its own defaults (20 concurrent signings, a warm
    up of 200 ms) never apply, because the loader has already replaced every zero
    (10 signings, 100 ms).  A negative number is not caught by the validation; the
    consumer's workers then panic. *)
Theorem consumer_gets_configured (n : Node (R := R)) ids db s c :
  rtc config_step not_loaded s → GetConfig s = Ok c →
  match NewEventConsumer_configured n ids db s with
  | Ok ec => ec_threshold ec = cfg_Threshold c ∧
      maxConcurrentKeygen ec = cfg_MaxConcurrentKeygen c ∧ 0 < maxConcurrentKeygen ec ∧
      maxConcurrentSigning ec = cfg_MaxConcurrentSigning c ∧ 0 < maxConcurrentSigning ec ∧
      maxConcurrentResharing ec = cfg_MaxConcurrentResharing c ∧
      0 < maxConcurrentResharing ec ∧
      sessionWarmUpDelayMs ec = cfg_SessionWarmUpDelayMillis c
  | Panic _ => cfg_MaxConcurrentKeygen c < 0 ∨ cfg_MaxConcurrentSigning c < 0 ∨
      cfg_MaxConcurrentResharing c < 0
  | Err _ => False
  end.
Proof.
  intros Hs Hc. destruct (GetConfig_reachable s Hs) as [[_ H]|(c' & H & Hcomp)];
    rewrite H in Hc; [done|injection Hc as ->].
  rewrite (configured_consumer _ _ _ _ _ H Hcomp). destruct Hcomp as [_ _ _ _ _ Ht Hk Hg Hr Hw].
  destruct (Z.ltb_spec (cfg_MaxConcurrentKeygen c) 0), (Z.ltb_spec (cfg_MaxConcurrentSigning c) 0),
    (Z.ltb_spec (cfg_MaxConcurrentResharing c) 0); cbn; try (by auto). repeat split; lia.
Qed.

End consumer_config.

(** *** Witnesses *)

Section witnesses.

#[local] Existing Instance toy_crypto.
#[local] Existing Instance tss_ref.
#[local] Existing Instance lo_ref.
#[local] Existing Instance kv_ref.
#[local] Existing Instance consul_ref.
#[local] Existing Instance toy_view_registry.

(** The file only names a password and an initiator key; the rest is empty. *)
Definition toy_decoded : Config :=
  mkConfig None None "" "secret" "" "" true 0 "" "abcd" 0 0 0 0 0.

Definition toy_viper : Viper := {|
  settings := unit;
  ReadInConfig _ _ := Ok tt;
  NewDecoder := Ok tt;
  Decode _ := Ok toy_decoded;
|}.

Definition toy_loaded : config_store := (Load (H := toy_viper) "" not_loaded).2.

Lemma Load_outcome_witness : GetConfig toy_loaded = Ok (applyDefaults toy_decoded).
Proof.
  destruct (Load_outcome (H := toy_viper) "" not_loaded (Ok 0%nat) toy_loaded)
    as (v & c & _ & [= <-] & _ & Hg & _).
  - apply run_of_eval. reflexivity.
  - exact Hg.
Defined.

Lemma consumer_gets_configured_witness :
  ∃ ec, NewEventConsumer_configured (toy_node_A ["A"])
          (mkFileStore "identity" "node0" ∅ toy_key64
             (mkInitiatorKey EventInitiatorKeyTypeEd25519 toy_initiator None) ∅)
          (∅ : gmap string string) toy_loaded = Ok ec ∧
    maxConcurrentSigning ec = 10 ∧ sessionWarmUpDelayMs ec = 100.
Proof.
  assert (rtc (config_step (H := toy_viper)) not_loaded toy_loaded) as Hs.
  { apply rtc_once. eapply (step_Load (H := toy_viper) "" _ (Ok 0%nat)). apply run_of_eval.
    reflexivity. }
  pose proof (consumer_gets_configured (V := toy_viper) (toy_node_A ["A"])
          (mkFileStore "identity" "node0" ∅ toy_key64
             (mkInitiatorKey EventInitiatorKeyTypeEd25519 toy_initiator None) ∅)
          (∅ : gmap string string) toy_loaded (applyDefaults toy_decoded) Hs eq_refl) as H.
  destruct (NewEventConsumer_configured _ _ _ toy_loaded) as [ec|e|w].
  - exists ec. split; [done|]. destruct H as (_ & _ & _ & -> & _ & _ & _ & ->). done.
  - destruct H.
  - destruct H as [H|[H|H]]; discriminate H.
Defined.

End witnesses.
