(* ===== verification/Peers.v ===== *)
(** * The peers of a cluster: pkg/config/peers.go, cmd/cli/peers, cmd/node/consul.go

    The command line writes the names and ids of the nodes to Consul, under
    [mpc_peers/], where every node reads them when it starts. *)

From stdpp Require Import base gmap list strings sorting.
From Stdlib Require Import ZArith Lia Ascii.
From S2P Require Import Prelude.
From S2P Require Import GoStrings.
From S2P Require Import External.
From S2P Require Import Json.
From S2P Require Import Types.
From S2P Require Import Identity.
From S2P Require Import KeyStore.
From S2P Require Import Paths.

(** infra.ConsulKV's [List]: the pairs under a prefix. *)
Class ConsulList (K : ConsulKV) := {
  consul_List : consul_db → string → Res (list (string * string));
}.

Class ConsulListSpec (K : ConsulKV) (CL : ConsulList K) := {
  consul_List_elem db prefix pairs k v : consul_List db prefix = Ok pairs →
    (k, v) ∈ pairs ↔ HasPrefix k prefix = true ∧ consul_Get db k = Ok (Some v);
  consul_List_NoDup db prefix pairs : consul_List db prefix = Ok pairs → NoDup pairs.*1;
  (** a write touches its own key only, whatever it answers *)
  consul_Put_other k k' v db : k ≠ k' →
    consul_Get (consul_Put k v db).2 k' = consul_Get db k';
}.

(** ** pkg/config/peers.go *)

Record Peer := mkPeer { peer_ID : string; peer_Name : string }.

(** [key[n:]] *)
Definition slice_from (n : nat) (s : string) : Res string :=
  if (String.length s <? n)%nat then Panic "slice bounds out of range" else Ok (drop_s n s).

Fixpoint peers_of (prefix : string) (pairs : list (string * string)) : Res (list Peer) :=
  match pairs with
  | [] => Ok []
  | (key, value) :: pairs =>
      name ← slice_from (String.length prefix) key;
      rest ← peers_of prefix pairs;
      Ok (mkPeer value name :: rest)
  end.

Definition LoadPeersFromConsul {K : ConsulKV} {CL : ConsulList K} (db : consul_db) (prefix : string) :
    Res (list Peer) :=
  pairs ← consul_List db prefix;
  peers_of prefix pairs.

Fixpoint GetNodeID (nodeName : string) (peers : list Peer) : string :=
  match peers with
  | [] => EmptyString
  | p :: peers => if String.eqb (peer_Name p) nodeName then peer_ID p else GetNodeID nodeName peers
  end.

(** ** cmd/node/consul.go: [logger.Fatal] ends the process *)

Definition peers_prefix : string := "mpc_peers/".

Definition fatal {A} (msg : string) (r : Res A) : Res A :=
  match r with Err e => Panic (msg +:+ ": " +:+ Error e) | _ => r end.

Definition node_LoadPeersFromConsul {K : ConsulKV} {CL : ConsulList K} (db : consul_db) :
    Res (list Peer) :=
  fatal "Failed to load peers from Consul" (LoadPeersFromConsul db peers_prefix).

Definition GetPeerIDs (peers : list Peer) : list string := peer_ID <$> peers.

Definition GetIDFromName (name : string) (peers : list Peer) : Res string :=
  let nodeID := GetNodeID name peers in
  if String.eqb nodeID "" then Panic ("Empty Node ID: node ID not found for name " +:+ name)
  else Ok nodeID.

(** ** cmd/cli/peers/generate.go *)

(** json.MarshalIndent of a map of strings: keys in order, two spaces. *)
Definition MarshalIndent_map (m : gmap string string) : string :=
  let keys := merge_sort bytes_le (map_to_list m).*1 in
  let line := λ k, "  " +:+ json_string k +:+ ": " +:+ json_string (default EmptyString (m !! k)) in
  let newline := str1 (chr 10) in
  match keys with
  | [] => "{}"
  | _ => "{" +:+ newline +:+ concat_with ("," +:+ newline) (line <$> keys) +:+ newline +:+ "}"
  end.

(** The loop over the nodes, from number [i]; [uuid] is the answer of [uuid.NewRandom]. *)
Fixpoint generate_nodes (uuid : nat → Res string) (n i : nat) (peers : gmap string string) :
    Res (gmap string string) :=
  match n with
  | O => Ok peers
  | S n =>
      id ← wrap_err "failed to generate UUID: " (uuid i);
      generate_nodes uuid n (S i) (<["node" +:+ fmt_d (Z.of_nat i) := id]> peers)
  end.

(** [stat]: the answer of [os.Stat], [None] when the file does not exist; [dir] is
    [filepath.Dir outputPath].  The result is what is written. *)
Definition generatePeers (uuid : nat → Res string) (stat : option (Res unit))
    (dir : string) (mkdir write : Res unit) (numberOfNodes : Z) (outputPath : string) : Res string :=
  if numberOfNodes <? 1 then Err (errors_New "number of nodes must be at least 1") else
  _ ← (match stat with
       | None => Ok tt
       | Some (Ok _) =>
           Err (errors_New ("file " +:+ outputPath +:+ " already exists, won't overwrite"))
       | Some r => wrap_err "error checking file status: " r
       end);
  _ ← (if String.eqb dir "." then Ok tt
       else wrap_err "failed to create directory: " mkdir);
  peers ← generate_nodes uuid (Z.to_nat numberOfNodes) 0 ∅;
  _ ← wrap_err "failed to write file: " write;
  Ok (MarshalIndent_map peers).

(** ** cmd/cli/peers/register.go *)

Section register.
Context `{K : ConsulKV}.

Definition registerPeer (nodeName nodeID : string) : M consul_db (Res unit) := λ db,
  let key := peers_prefix +:+ nodeName in
  match consul_Get db key with
  | Panic w => (Panic w, db)
  | Err e => (Err (Errorf_w ("failed to check existing key " +:+ key +:+ ": ") e), db)
  | Ok (Some existingID) =>
      if String.eqb existingID nodeID then (Ok tt, db)
      else (Err (errors_New ("conflict detected: peer " +:+ nodeName +:+
                             " already exists with ID " +:+ existingID +:+
                             ", but trying to register with different ID " +:+ nodeID)), db)
  | Ok None =>
      match consul_Put key nodeID db with
      | (Err e, db') => (Err (Errorf_w ("failed to store key " +:+ key +:+ ": ") e), db')
      | r => r
      end
  end.

(** [exists_]: whether [os.Stat] finds the file; [loaded] is the answer of
    [config.Load], [connected] that of [infra.GetConsulClient]. *)
Definition registerPeers `{MapRange} (Unmarshal : string → Res (gmap string string))
    (exists_ : bool) (read : Res string) (loaded connected : Res unit) (peersPath : string) :
    M consul_db (Res unit) :=
  let peersPath := if String.eqb peersPath "" then "peers.json" else peersPath in
  _ ←! lift (wrap_err "invalid input file path: " (ValidateFilePath peersPath));
  _ ←! lift (if exists_ then Ok tt
             else Err (errors_New
               (if String.eqb peersPath "peers.json" then
                  "peers.json not found in current directory. Please specify the path using " +:+
                  "--peers flag or create peers.json in the current directory"
                else "input file " +:+ peersPath +:+ " does not exist")));
  data ←! lift (wrap_err "failed to read JSON file: " read);
  peerMap ←! lift (wrap_err "failed to unmarshal JSON data: " (Unmarshal data));
  _ ←! lift (if Nat.eqb (size peerMap) 0
             then Err (errors_New "no peers found in the input file") else Ok tt);
  _ ←! lift (wrap_err "load config: " loaded);
  _ ←! lift connected;
  forR (range_of peerMap) (λ '(nodeName, nodeID), registerPeer nodeName nodeID).

End register.

(** ** Registering and loading *)

Lemma slice_from_app p r : slice_from (String.length p) (p +:+ r) = Ok r.
Proof.
  unfold slice_from. rewrite length_app_s, (proj2 (Nat.ltb_ge _ _)) by lia.
  by destruct (take_drop_app_s p r) as [_ ->].
Qed.

(** The peers are the pairs, with the prefix cut off their keys. *)
Lemma peers_of_elem prefix pairs peers : peers_of prefix pairs = Ok peers →
  (∀ k v, (k, v) ∈ pairs → HasPrefix k prefix = true) →
  (∀ name id, mkPeer id name ∈ peers ↔ (prefix +:+ name, id) ∈ pairs) ∧
  (NoDup pairs.*1 → NoDup (peer_Name <$> peers)).
Proof.
  revert peers. induction pairs as [|[k v] pairs IH]; intros peers; cbn.
  - intros [= <-] _. split; [by setoid_rewrite elem_of_nil|constructor].
  - intros (n & Hn & (rest & Hrest & [= <-])%Res_bind_Ok)%Res_bind_Ok Hp.
    destruct (HasPrefix_inv k prefix (Hp k v (list_elem_of_here _ _))) as [r ->].
    rewrite slice_from_app in Hn. injection Hn as <-.
    destruct (IH rest Hrest) as [Hel Hnd]; [intros ? ? ?; eapply Hp; by right|].
    split.
    + intros name id. rewrite !elem_of_cons, Hel. split.
      * intros [[= -> ->]|?]; auto.
      * intros [[= ->%app_inj_l_s ->]|?]; auto.
    + intros [Hni Hnd']%NoDup_cons. cbn. constructor; [|by apply Hnd].
      intros ([id name] & Hname & Hin)%list_elem_of_fmap. cbn in Hname. subst name.
      apply Hni. apply Hel in Hin. apply list_elem_of_fmap. by exists (prefix +:+ r, id).
Qed.

Lemma GetNodeID_elem peers name id : NoDup (peer_Name <$> peers) → mkPeer id name ∈ peers →
  GetNodeID name peers = id.
Proof.
  induction peers as [|[i n] peers IH]; cbn; [by intros _ ?%elem_of_nil|].
  intros [Hni Hnd]%NoDup_cons [[= <- <-]|Hin]%elem_of_cons.
  - by rewrite String.eqb_refl.
  - destruct (String.eqb_spec n name) as [->|]; [|by apply IH].
    destruct Hni. apply list_elem_of_fmap. by exists (mkPeer id name).
Qed.

Section register_props.
Context `{K : ConsulKV} `{!ConsulKVSpec K} {CL : ConsulList K} `{!ConsulListSpec K CL}.

Notation key_of name := (peers_prefix +:+ name).

Lemma registerPeer_outcome n id db r db' : registerPeer n id db = (r, db') →
  (r = Ok tt → consul_Get db' (key_of n) = Ok (Some id)) ∧
  (∀ v, consul_Get db (key_of n) = Ok (Some v) → db' = db) ∧
  (∀ k, k ≠ key_of n → consul_Get db' k = consul_Get db k).
Proof.
  unfold registerPeer. destruct (consul_Get db (key_of n)) as [[v|]|e|w] eqn:Hg.
  - destruct (String.eqb_spec v id) as [->|]; intros [= <- <-]; by rewrite Hg.
  - intros Hp. assert (consul_Put (key_of n) id db = (r, db') ∨
      ∃ e, r = Err e ∧ (consul_Put (key_of n) id db).2 = db') as Hput.
    { destruct (consul_Put (key_of n) id db) as [[[]| |] d]; injection Hp as <- <-; eauto. }
    split; [|split; [done|]].
    + intros ->. destruct Hput as [Hput|(e & [=] & _)]. by eapply consul_Get_Put.
    + intros k Hk. rewrite <-(consul_Put_other (key_of n) k id db) by done.
      destruct Hput as [->|(_ & _ & <-)]; done.
  - by intros [= <- <-].
  - by intros [= <- <-].
Qed.

Lemma registerPeer_keeps n id db r db' k v : registerPeer n id db = (r, db') →
  consul_Get db k = Ok (Some v) → consul_Get db' k = Ok (Some v).
Proof.
  intros (_ & Hsame & Hother)%registerPeer_outcome Hk.
  destruct (decide (k = key_of n)) as [->|Hne]; [by rewrite (Hsame v Hk)|by rewrite Hother].
Qed.

Notation registerAll l := (forR l (λ '(nodeName, nodeID), registerPeer nodeName nodeID)).

Lemma registerAll_keeps l db r db' k v : registerAll l db = (r, db') →
  consul_Get db k = Ok (Some v) → consul_Get db' k = Ok (Some v).
Proof.
  revert db. induction l as [|[n id] l IH]; intros db; cbn [forR].
  - by intros [= _ <-].
  - unfold bindR. destruct (registerPeer n id db) as [[[]| |] d] eqn:Hp;
      intros Hr Hk; pose proof (registerPeer_keeps _ _ _ _ _ _ _ Hp Hk) as Hk';
      [by eapply IH|by injection Hr as _ <-..].
Qed.

Lemma registerAll_Ok l db db' : registerAll l db = (Ok tt, db') →
  (∀ n id, (n, id) ∈ l → consul_Get db' (key_of n) = Ok (Some id)) ∧
  (∀ k, (∀ n, k = key_of n → n ∉ l.*1) → consul_Get db' k = consul_Get db k).
Proof.
  revert db. induction l as [|[n id] l IH]; intros db; cbn [forR].
  - intros [= <-]. split; [by intros ? ? ?%elem_of_nil|done].
  - intros ([] & d & Hp & Hl)%bindR_Ok. destruct (IH d Hl) as [Hin Hout].
    destruct (registerPeer_outcome _ _ _ _ _ Hp) as (Hnew & _ & Hother). split.
    + intros n' id' [[= -> ->]|Hx]%elem_of_cons; [|by apply Hin].
      eapply registerAll_keeps; [apply Hl|by apply Hnew].
    + intros k Hk. rewrite Hout, Hother; [done| |].
      * intros ->. eapply Hk; [done|]. left.
      * intros n' -> Hx. eapply Hk; [done|]. by right.
Qed.

Context `{MR : MapRange}.

Lemma registerPeers_cases Unmarshal ex rd loaded connected path db r db' :
  registerPeers Unmarshal ex rd loaded connected path db = (r, db') →
  (db' = db ∧ r ≠ Ok tt) ∨
  ∃ data m, rd = Ok data ∧ Unmarshal data = Ok m ∧ registerAll (range_of m) db = (r, db').
Proof.
  unfold registerPeers, lift, bindR. cbv zeta.
  destruct (wrap_err _ (ValidateFilePath _)) as [[]| |]; [|by left; simplify_eq..].
  destruct ex; [|by left; simplify_eq].
  destruct rd as [data| |]; cbn [wrap_err]; [|by left; simplify_eq..].
  destruct (Unmarshal data) as [m| |] eqn:Hm; cbn [wrap_err]; [|by left; simplify_eq..].
  destruct (Nat.eqb (size m) 0); [by left; simplify_eq|].
  destruct loaded as [[]| |]; cbn [wrap_err]; [|by left; simplify_eq..].
  destruct connected as [[]| |]; [|by left; simplify_eq..].
  intros H. right. by exists data, m.
Qed.

(** C29: after the command line has registered a file of peers, a node that starts
    finds itself: every name of the file leads to its id, and the peers the node
    loads are those of the file and those that were registered before, each under
    one id. *)
Theorem register_then_load Unmarshal ex data m loaded connected path db db' peers :
  Unmarshal data = Ok m →
  registerPeers Unmarshal ex (Ok data) loaded connected path db = (Ok tt, db') →
  node_LoadPeersFromConsul db' = Ok peers →
  (∀ name id, m !! name = Some id → id ≠ "" → GetIDFromName name peers = Ok id) ∧
  (∀ name id, mkPeer id name ∈ peers ↔
     m !! name = Some id ∨ (m !! name = None ∧ consul_Get db (key_of name) = Ok (Some id))) ∧
  NoDup (peer_Name <$> peers).
Proof.
  intros Hm Hreg Hload.
  apply registerPeers_cases in Hreg as [[_ []]|(data' & m' & [= <-] & Hm' & Hreg)]; [done|].
  rewrite Hm in Hm'. injection Hm' as <-.
  destruct (registerAll_Ok _ _ _ Hreg) as [Hin Hout].
  unfold node_LoadPeersFromConsul, LoadPeersFromConsul in Hload.
  destruct (consul_List db' peers_prefix) as [pairs| |] eqn:Hlist; [|done..]. cbn in Hload.
  destruct (peers_of peers_prefix pairs) as [ps| |] eqn:Hps; [|done..].
  injection Hload as ->.
  destruct (peers_of_elem _ _ _ Hps) as [Hel Hnd].
  { intros k v Hkv. by apply (consul_List_elem _ _ _ _ _ Hlist) in Hkv as [? _]. }
  specialize (Hnd (consul_List_NoDup _ _ _ Hlist)).
  assert (∀ name id, mkPeer id name ∈ peers ↔
     m !! name = Some id ∨ (m !! name = None ∧ consul_Get db (key_of name) = Ok (Some id)))
    as Hpeers.
  { intros name id. rewrite Hel, (consul_List_elem _ _ _ _ _ Hlist), HasPrefix_app.
    destruct (m !! name) as [i|] eqn:Hn.
    - rewrite (Hin name i) by by apply elem_of_range_of.
      split; [intros [_ [= ->]]; by left|by intros [[= ->]|[[=] _]]].
    - rewrite Hout; [split; [intros [_ ?]; by right|by intros [[=]|[_ ?]]]|].
      intros n ->%app_inj_l_s ([n' i] & -> & Hi)%list_elem_of_fmap.
      apply elem_of_range_of in Hi. cbn in Hn. congruence. }
  split; [|done]. intros name id Hn Hid. unfold GetIDFromName.
  rewrite (GetNodeID_elem peers name id), (proj2 (String.eqb_neq _ _) Hid); [done..|].
  apply Hpeers. by left.
Qed.

(** Registering never gives a name another id, whatever happens on the way: an id
    that is in Consul is still there afterwards, and a file that names another id for
    it is refused. *)
Theorem register_never_renames Unmarshal ex data m loaded connected path db r db' name id id' :
  Unmarshal data = Ok m →
  registerPeers Unmarshal ex (Ok data) loaded connected path db = (r, db') →
  consul_Get db (key_of name) = Ok (Some id) →
  consul_Get db' (key_of name) = Ok (Some id) ∧
  (m !! name = Some id' → id' ≠ id → r ≠ Ok tt).
Proof.
  intros Hm [[-> Hr]|(data' & m' & [= <-] & Hm' & Hreg)]%registerPeers_cases Hid; [done|].
  pose proof (registerAll_keeps _ _ _ _ _ _ Hreg Hid) as Hkeep. split; [done|].
  rewrite Hm in Hm'. injection Hm' as <-. intros Hname Hne ->.
  destruct (registerAll_Ok _ _ _ Hreg) as [Hin _].
  rewrite (Hin name id') in Hkeep by by apply elem_of_range_of. congruence.
Qed.

End register_props.

(** *** Witnesses *)

#[export] Instance consul_list_ref : ConsulList consul_ref := {|
  consul_List (db : @consul_db consul_ref) prefix :=
    Ok (List.filter (λ '(k, _), HasPrefix k prefix) (map_to_list (db : gmap string string)));
|}.

Lemma NoDup_fst_filter_b {A B} (f : A * B → bool) (l : list (A * B)) :
  NoDup l.*1 → NoDup (List.filter f l).*1.
Proof.
  induction l as [|[a b] l IH]; [done|]. cbn. intros [Hni Hnd]%NoDup_cons.
  destruct (f (a, b)); [|by apply IH]. cbn. constructor; [|by apply IH].
  intros ([a' b'] & -> & Hin)%list_elem_of_fmap. apply elem_of_filter_b in Hin as [Hin _].
  apply Hni, list_elem_of_fmap. by exists (a', b').
Qed.

#[export] Instance consul_list_ref_spec : ConsulListSpec consul_ref consul_list_ref.
Proof.
  split; cbn.
  - intros db prefix pairs k v [= <-]. rewrite elem_of_filter_b, elem_of_map_to_list.
    split; [intros [Hin Hp]; split; [exact Hp|by rewrite Hin]|].
    intros [Hp Hg]. injection Hg as Hg. by split.
  - intros db prefix pairs [= <-]. apply NoDup_fst_filter_b, NoDup_fst_map_to_list.
  - intros k k' v db Hk. unfold modifyR. cbn. by rewrite lookup_insert_ne.
Qed.

#[local] Existing Instance consul_ref_spec.

Definition toy_peers : gmap string string := {["node0" := "id-0"; "node1" := "id-1"]}.
Definition toy_consul : gmap string string := {["mpc_peers/node2" := "id-2"]}.

Definition toy_register (m : gmap string string) : M (gmap string string) (Res unit) :=
  registerPeers (K := consul_ref) (H := map_to_list_range) (λ _, Ok m) true (Ok "{}")
    (Ok tt) (Ok tt) "".

Definition toy_loaded_peers : list Peer :=
  match node_LoadPeersFromConsul (K := consul_ref) (toy_register toy_peers toy_consul).2 with
  | Ok peers => peers
  | _ => []
  end.

Lemma register_then_load_witness :
  length toy_loaded_peers = 3%nat ∧ GetIDFromName "node1" toy_loaded_peers = Ok "id-1".
Proof.
  split; [vm_compute; reflexivity|].
  refine (proj1 (register_then_load (K := consul_ref) (MR := map_to_list_range) (λ _, Ok toy_peers)
    true "{}" toy_peers (Ok tt) (Ok tt) "" toy_consul (toy_register toy_peers toy_consul).2
    toy_loaded_peers _ _ _) "node1" "id-1" _ _);
    [reflexivity|apply run_of_eval; vm_compute; reflexivity|vm_compute; reflexivity..|discriminate].
Defined.

Lemma register_never_renames_witness :
  let run := toy_register {["node2" := "other"]} toy_consul in
  consul_Get (ConsulKV := consul_ref) run.2 "mpc_peers/node2" = Ok (Some "id-2") ∧ run.1 ≠ Ok tt.
Proof.
  cbv zeta.
  destruct (register_never_renames (K := consul_ref) (MR := map_to_list_range)
    (λ _, Ok {["node2" := "other"]}) true "{}" {["node2" := "other"]} (Ok tt) (Ok tt) "" toy_consul
    (toy_register {["node2" := "other"]} toy_consul).1
    (toy_register {["node2" := "other"]} toy_consul).2 "node2" "id-2" "other") as [H1 H2].
  - reflexivity.
  - apply surjective_pairing.
  - vm_compute. reflexivity.
  - split; [exact H1|apply H2; [vm_compute; reflexivity|discriminate]].
Defined.
