(* ===== verification/Lifecycle.v ===== *)
(** * cmd/node/start.go: a node from its consumers' start to its exit

    The last part of [runNode] is five goroutines and a loop: the three consumers of
    requests ([Run] of pkg/eventconsumer/{keygen,signing,resharing}.go), the one that
    waits for a signal and shuts down, the one that closes the channel of errors when
    all consumers are done, and the loop that returns the first error.  Each of them
    is a part of [process]; an [action] is one atomic piece of one of them, and [fire]
    performs it where it is enabled.  A run is any sequence of enabled actions. *)

From stdpp Require Import base list strings relations.
From Stdlib Require Import ZArith Lia.
From S2P Require Import Prelude.
From S2P Require Import GoStrings.

(** ** The consumers *)

Inductive role := RKeygen | RSigning | RResharing.

#[export] Instance role_eq_dec : EqDecision role.
Proof. solve_decision. Defined.

Definition roles : list role := [RKeygen; RSigning; RResharing].

Definition kind (r : role) : string :=
  match r with RKeygen => "keygen" | RSigning => "signing" | RResharing => "resharing" end.

(** Where a consumer's goroutine is: in [waitForSufficientPeers], in
    [CreateSubscription], blocked until the context ends, back from [Run], or past
    [wg.Done]. *)
Inductive cstage :=
| CWaiting
| CCreating
| CBlocked
| CReturned (err : option error)
| CDone (err : option error).

(** [jsSub] is the subscription, with the number of times it was stopped. *)
Record consumer := mkConsumer { stage : cstage; jsSub : option nat }.

(** The resharing consumer does not wait for peers. *)
Definition new_consumer (r : role) : consumer :=
  mkConsumer (match r with RResharing => CCreating | _ => CWaiting end) None.

(** [Close]: stopping a consume context returns no error, however often. *)
Definition consumer_Close (c : consumer) : consumer := mkConsumer (stage c) (S <$> jsSub c).

Definition set_stage (st : cstage) (c : consumer) : consumer := mkConsumer st (jsSub c).

Definition subscribe_error (r : role) (e : error) : error :=
  Errorf_w ("failed to subscribe to " +:+ kind r +:+ " events: ") e.

(** The pieces of [Run], each where it is enabled.  A wait ends when a tick finds
    enough peers, or with the context: a cancelled wait returns no error. *)
Definition Run_peers_ready (c : consumer) : option consumer :=
  match stage c with CWaiting => Some (set_stage CCreating c) | _ => None end.

Definition Run_woken (cancelled : bool) (c : consumer) : option consumer :=
  match stage c, cancelled with
  | CWaiting, true => Some (set_stage CCreating c)
  | _, _ => None
  end.

Definition Run_create (r : role) (answer : option error) (c : consumer) : option consumer :=
  match stage c, answer with
  | CCreating, None => Some (mkConsumer CBlocked (Some O))
  | CCreating, Some e => Some (set_stage (CReturned (Some (subscribe_error r e))) c)
  | _, _ => None
  end.

Definition Run_unblock (cancelled : bool) (c : consumer) : option consumer :=
  match stage c, cancelled with
  | CBlocked, true => Some (set_stage (CReturned None) (consumer_Close c))
  | _, _ => None
  end.

(** ** The process *)

(** What the signal handler calls, in order; errors are only logged. *)
Inductive shutdown_call := SCancel | SResign | SClose (r : role) | SDrain.

Definition shutdown_calls : list shutdown_call :=
  [SCancel; SResign; SClose RKeygen; SClose RSigning; SClose RResharing; SDrain].

(** The deferred calls of [runNode]. *)
Inductive deferred :=
| DBadgerClose
| DStopBackup
| DQueueClose (r : role)
| DNodeClose              (* resigns from the registry *)
| DEventClose
| DTimeoutClose.

(** In the order they are deferred; [backup] when backups are enabled. *)
Definition deferred_calls (backup : bool) : list deferred :=
  [DBadgerClose] ++ (if backup then [DStopBackup] else []) ++
  [DQueueClose RKeygen; DQueueClose RSigning; DQueueClose RResharing;
   DNodeClose; DEventClose; DTimeoutClose].

(** The loop over [errChan], the deferred calls that are left, the end. *)
Inductive main_state :=
| MReceiving
| MReturning (res : option error) (rest : list deferred)
| MExited (res : option error)
| MPanicked.

(** [EResign] is the call of [Resign]; the signal handler and [Node.Close] only log its
    error. *)
Inductive effect := EResign | EDrain | EDefer (d : deferred).

#[export] Instance deferred_eq_dec : EqDecision deferred.
Proof. solve_decision. Defined.
#[export] Instance effect_eq_dec : EqDecision effect.
Proof. solve_decision. Defined.

Record process := mkProcess {
  cons : role → consumer;
  cancelled : bool;                            (* appContext *)
  errChan : list error;
  errChan_closed : bool;
  handler : option (list shutdown_call);       (* None: no signal yet *)
  main : main_state;
  effects : list effect;
}.

Definition set_cons f (p : process) : process :=
  mkProcess f (cancelled p) (errChan p) (errChan_closed p) (handler p) (main p) (effects p).
Definition set_cancelled (p : process) : process :=
  mkProcess (cons p) true (errChan p) (errChan_closed p) (handler p) (main p) (effects p).
Definition set_errChan l (p : process) : process :=
  mkProcess (cons p) (cancelled p) l (errChan_closed p) (handler p) (main p) (effects p).
Definition set_closed (p : process) : process :=
  mkProcess (cons p) (cancelled p) (errChan p) true (handler p) (main p) (effects p).
Definition set_handler h (p : process) : process :=
  mkProcess (cons p) (cancelled p) (errChan p) (errChan_closed p) h (main p) (effects p).
Definition set_main m (p : process) : process :=
  mkProcess (cons p) (cancelled p) (errChan p) (errChan_closed p) (handler p) m (effects p).
Definition record_effects l (p : process) : process :=
  mkProcess (cons p) (cancelled p) (errChan p) (errChan_closed p) (handler p) (main p)
    (effects p ++ l).

Definition update (r : role) (c : consumer) (f : role → consumer) : role → consumer :=
  λ r', if decide (r' = r) then c else f r'.

Definition set_consumer (r : role) (c : consumer) (p : process) : process :=
  set_cons (update r c (cons p)) p.

Definition started : process :=
  mkProcess new_consumer false [] false None MReceiving [].

Definition is_done (c : consumer) : bool := match stage c with CDone _ => true | _ => false end.

Definition consumer_error (r : role) (e : error) : error :=
  Errorf_w (kind r +:+ " consumer error: ") e.

(** The buffer of [errChan]. *)
Definition errChan_cap : nat := 3.

Inductive action :=
| APeersReady (r : role)
| AWoken (r : role)
| ACreate (r : role) (answer : option error)
| AUnblock (r : role)
| AFinish (r : role)          (* the end of the consumer's goroutine *)
| ACloseErrs                  (* wg.Wait has returned *)
| ASignal
| AHandler                    (* the next call of the signal handler *)
| AReceive
| ADefer.

Definition on_consumer (r : role) (f : consumer → option consumer) (p : process) :
    option process :=
  c ← f (cons p r); Some (set_consumer r c p).

(** [if err != nil { errChan <- err; return }], then [wg.Done]: a send waits while the
    buffer is full, and panics on a closed channel. *)
Definition finish_consumer (r : role) (p : process) : option process :=
  match stage (cons p r) with
  | CReturned None => Some (set_consumer r (set_stage (CDone None) (cons p r)) p)
  | CReturned (Some e) =>
      if errChan_closed p then Some (set_main MPanicked p)
      else if (length (errChan p) <? errChan_cap)%nat then
        Some (set_errChan (errChan p ++ [consumer_error r e])
                (set_consumer r (set_stage (CDone (Some e)) (cons p r)) p))
      else None
  | _ => None
  end.

Definition run_handler (p : process) : option process :=
  match handler p with
  | Some (c :: rest) =>
      let p := set_handler (Some rest) p in
      Some (match c with
            | SCancel => set_cancelled p
            | SResign => record_effects [EResign] p
            | SClose r => set_consumer r (consumer_Close (cons p r)) p
            | SDrain => record_effects [EDrain] p
            end)
  | _ => None
  end.

Section process.
Variable backup : bool.

(** [for err := range errChan { cancel(); return err }; return nil] *)
Definition receive (p : process) : option process :=
  match main p, errChan p with
  | MReceiving, e :: rest =>
      Some (set_main (MReturning (Some e) (rev (deferred_calls backup)))
              (set_cancelled (set_errChan rest p)))
  | MReceiving, [] =>
      if errChan_closed p
      then Some (set_main (MReturning None (rev (deferred_calls backup))) p) else None
  | _, _ => None
  end.

Definition run_deferred (p : process) : option process :=
  match main p with
  | MReturning res (d :: rest) =>
      Some (record_effects (EDefer d :: match d with DNodeClose => [EResign] | _ => [] end)
              (set_main (MReturning res rest) p))
  | MReturning res [] => Some (set_main (MExited res) p)
  | _ => None
  end.

Definition ended (p : process) : bool :=
  match main p with MExited _ | MPanicked => true | _ => false end.

Definition fire (a : action) (p : process) : option process :=
  if ended p then None else
  match a with
  | APeersReady r => on_consumer r Run_peers_ready p
  | AWoken r => on_consumer r (Run_woken (cancelled p)) p
  | ACreate r answer => on_consumer r (Run_create r answer) p
  | AUnblock r => on_consumer r (Run_unblock (cancelled p)) p
  | AFinish r => finish_consumer r p
  | ACloseErrs =>
      if negb (errChan_closed p) && forallb (λ r, is_done (cons p r)) roles
      then Some (set_closed p) else None
  | ASignal =>
      match handler p with None => Some (set_handler (Some shutdown_calls) p) | _ => None end
  | AHandler => run_handler p
  | AReceive => receive p
  | ADefer => run_deferred p
  end.

Definition step (p : process) (a : action) (p' : process) : Prop := fire a p = Some p'.

Fixpoint fires (l : list action) (p : process) : option process :=
  match l with
  | [] => Some p
  | a :: l => p' ← fire a p; fires l p'
  end.

End process.
(** ** Properties *)

Section properties.
Variable backup : bool.
#[local] Abbreviation fire := (fire backup).
#[local] Abbreviation step := (step backup).

(** *** What the finished consumers have sent *)

Definition sent_by (r : role) (c : consumer) : list error :=
  match stage c with CDone (Some e) => [consumer_error r e] | _ => [] end.

Definition sent (f : role → consumer) : list error :=
  sent_by RKeygen (f RKeygen) ++ sent_by RSigning (f RSigning) ++
  sent_by RResharing (f RResharing).

(** The error the loop has received. *)
Definition received (m : main_state) : list error :=
  match m with MReturning (Some e) _ | MExited (Some e) => [e] | _ => [] end.

Definition deferred_left (m : main_state) : list deferred :=
  match m with MReceiving => rev (deferred_calls backup) | MReturning _ l => l | _ => [] end.

Definition deferred_run (l : list effect) : list deferred :=
  omap (λ e, match e with EDefer d => Some d | _ => None end) l.

(** [EResign] is before every [EDrain]. *)
Definition resign_first (l : list effect) : Prop :=
  ∀ l1 l2, l = l1 ++ EDrain :: l2 → EResign ∈ l1.

(** A consumer whose [Run] returned no error has seen the context end, and has
    stopped its subscription. *)
Definition consumer_ok (cancelled : bool) (c : consumer) : Prop :=
  match stage c with
  | CReturned None | CDone None => cancelled = true ∧ ∃ n, jsSub c = Some (S n)
  | CBlocked => is_Some (jsSub c)
  | _ => True
  end.

Record inv (p : process) : Prop := {
  inv_sent : received (main p) ++ errChan p ≡ₚ sent (cons p);
  inv_closed : errChan_closed p = true → ∀ r, is_done (cons p r) = true;
  inv_nil : (match main p with MReturning None _ | MExited None => True | _ => False end) →
    errChan_closed p = true ∧ errChan p = [];
  inv_cancelled : received (main p) ≠ [] → cancelled p = true;
  inv_consumers : ∀ r, consumer_ok (cancelled p) (cons p r);
  inv_deferred : deferred_run (effects p) ++ deferred_left (main p) = rev (deferred_calls backup);
  inv_node_close : DNodeClose ∈ deferred_run (effects p) → EResign ∈ effects p;
  inv_handler : match handler p with
    | None => True
    | Some rest => ∃ pre, shutdown_calls = pre ++ rest ∧ (SResign ∈ pre → EResign ∈ effects p)
    end;
  inv_resign : resign_first (effects p);
  inv_main : main p ≠ MPanicked;
}.

Lemma update_eq r c f : update r c f r = c.
Proof. unfold update. by case_decide. Qed.

Lemma update_ne r r' c f : r ≠ r' → update r c f r' = f r'.
Proof. unfold update. intros. by case_decide. Qed.

(** Only a consumer that ends changes what has been sent. *)
Lemma sent_update_same r c f : sent_by r c = sent_by r (f r) → sent (update r c f) = sent f.
Proof. intros Hc. unfold sent. destruct r; rewrite update_eq, !update_ne, Hc by done; done. Qed.

Lemma sent_update_end r c f e : sent_by r (f r) = [] → sent_by r c = [e] →
  sent (update r c f) ≡ₚ e :: sent f.
Proof.
  intros H1 H2. unfold sent. destruct r; rewrite update_eq, !update_ne, H1, H2 by done; cbn.
  - done.
  - by rewrite <-Permutation_middle.
  - by rewrite app_nil_r, app_assoc, <-Permutation_cons_append.
Qed.

Lemma resign_first_app l k : resign_first l → EDrain ∉ k → resign_first (l ++ k).
Proof.
  intros Hl Hk l1 l2 Heq. apply app_eq_app in Heq as (m & [[-> Hm]|[-> Hm]]).
  - destruct m as [|x m]; cbn in Hm; [subst; set_solver|].
    injection Hm as <- ->. apply (Hl l1 m). done.
  - subst. set_solver.
Qed.

Lemma resign_first_drain l : resign_first l → EResign ∈ l → resign_first (l ++ [EDrain]).
Proof.
  intros Hl Hr l1 l2 Heq. destruct l2 as [|x l2] using rev_ind.
  - by apply app_inj_tail in Heq as [<- _].
  - rewrite app_comm_cons, app_assoc in Heq. apply app_inj_tail in Heq as [-> _].
    by eapply Hl.
Qed.

(** *** The steps keep the invariant *)

Lemma inv_started : inv started.
Proof.
  split; cbn; try done.
  - by intros [].
  - set_solver.
  - intros l1 l2 Heq. by destruct l1.
Qed.

Lemma inv_set_consumer r c p : inv p → sent_by r c = sent_by r (cons p r) →
  is_done c = is_done (cons p r) → consumer_ok (cancelled p) c → inv (set_consumer r c p).
Proof.
  intros [H1 H2 H3 H4 H5 H6 H7 H8 H9 H10] Hs Hd Hok. split; cbn; try done.
  - by rewrite sent_update_same.
  - intros Hc r'. unfold update. case_decide as Hr; [subst; rewrite Hd|]; by apply H2.
  - intros r'. unfold update. by case_decide.
Qed.

Lemma consumer_ok_cancel b c : consumer_ok b c → consumer_ok true c.
Proof. unfold consumer_ok. repeat case_match; naive_solver. Qed.

Lemma inv_set_cancelled p : inv p → inv (set_cancelled p).
Proof.
  intros [H1 H2 H3 H4 H5 H6 H7 H8 H9 H10]. split; cbn; try done.
  intros r. by eapply consumer_ok_cancel.
Qed.

(** Each piece of [Run] leaves a consumer that has not ended. *)
Lemma inv_on_consumer r f p p' : inv p → on_consumer r f p = Some p' →
  (∀ c c', f c = Some c' → consumer_ok (cancelled p) c →
     sent_by r c' = [] ∧ sent_by r c = [] ∧ is_done c' = false ∧ is_done c = false ∧
     consumer_ok (cancelled p) c') →
  inv p'.
Proof.
  intros Hinv Hf Hk. unfold on_consumer in Hf. destruct (f (cons p r)) as [c|] eqn:Hc; [|done].
  injection Hf as <-. destruct (Hk _ _ Hc (inv_consumers p Hinv r)) as (H1 & H2 & H3 & H4 & H5).
  apply inv_set_consumer; congruence.
Qed.

Ltac run_piece :=
  intros [st sub] c' Hc Hok;
  unfold Run_peers_ready, Run_woken, Run_create, Run_unblock, consumer_ok in *; cbn in *;
  repeat match type of Hc with context [match ?x with _ => _ end] => destruct x; try done end;
  injection Hc as <-; unfold set_stage, consumer_Close, sent_by, is_done; cbn;
  try destruct Hok as [? ->]; naive_solver.

Lemma inv_finish_consumer r p p' : inv p → finish_consumer r p = Some p' → inv p'.
Proof.
  intros Hinv Hf. pose proof Hinv as [H1 H2 H3 H4 H5 H6 H7 H8 H9 H10]. unfold finish_consumer in Hf.
  destruct (stage (cons p r)) as [| | |[e|]|] eqn:Hst; try done.
  - destruct (errChan_closed p) eqn:Hcl.
    { specialize (H2 eq_refl r). unfold is_done in H2. by rewrite Hst in H2. }
    destruct (_ <? _)%nat; [|done]. injection Hf as <-. split; cbn; try done; try congruence.
    + rewrite app_assoc, H1, (sent_update_end r _ _ (consumer_error r e)).
      * by rewrite Permutation_app_comm.
      * unfold sent_by. by rewrite Hst.
      * done.
    + intros Hn. by destruct (H3 Hn).
    + intros r'. unfold update. case_decide as Hr; [done|]. apply H5.
  - injection Hf as <-. assert (consumer_ok (cancelled p) (cons p r)) as Hok by apply H5.
    unfold consumer_ok in Hok. rewrite Hst in Hok. split; cbn; try done.
    + rewrite sent_update_same; [done|]. unfold sent_by. by rewrite Hst.
    + intros Hc r'. unfold update. case_decide; [done|]. by apply H2.
    + intros r'. unfold update. by case_decide.
Qed.

Lemma inv_run_handler p p' : inv p → run_handler p = Some p' → inv p'.
Proof.
  intros Hinv Hf. pose proof (inv_handler p Hinv) as Hh. unfold run_handler in Hf.
  destruct (handler p) as [[|c rest]|] eqn:Hhan; [done| |done].
  destruct Hh as (pre & Hpre & Hres).
  assert (c ≠ SResign → inv (set_handler (Some rest) p)) as Hset.
  { intros Hne. destruct Hinv as [H1 H2 H3 H4 H5 H6 H7 H8 H9 H10]. split; cbn; try done.
    exists (pre ++ [c]). split; [by rewrite <-app_assoc|]. set_solver. }
  injection Hf as <-. destruct c.
  - by apply inv_set_cancelled, Hset.
  - destruct Hinv as [H1 H2 H3 H4 H5 H6 H7 H8 H9 H10]. split; cbn; try done.
    + unfold deferred_run. rewrite omap_app. cbn. by rewrite app_nil_r.
    + set_solver.
    + exists (pre ++ [SResign]). split; [by rewrite <-app_assoc|]. set_solver.
    + apply resign_first_app; set_solver.
  - apply inv_set_consumer; [by apply Hset|done|done|].
    pose proof (inv_consumers p Hinv r) as Hok. cbn. unfold consumer_ok, consumer_Close in *. cbn.
    repeat case_match; try done; cbn in *.
    + destruct Hok as [n Hn]. rewrite Hn. by eexists.
    + destruct Hok as (Hc & n & Hn). rewrite Hn. naive_solver.
    + destruct Hok as (Hc & n & Hn). rewrite Hn. naive_solver.
  - assert (SResign ∈ pre) as Hin.
    { destruct pre as [|x1 [|x2 pre]]; cbn in Hpre; [done..|].
      injection Hpre as _ <- _. set_solver. }
    specialize (Hres Hin). assert (SDrain ≠ SResign) as Hne by done. specialize (Hset Hne).
    destruct Hset as [H1 H2 H3 H4 H5 H6 H7 H8 H9 H10]. split; cbn in *; try done.
    + unfold deferred_run. rewrite omap_app. cbn. by rewrite app_nil_r.
    + unfold deferred_run. rewrite omap_app. cbn. rewrite app_nil_r. set_solver.
    + destruct H8 as (pre' & ? & Hp). exists pre'. split; [done|]. set_solver.
    + by apply resign_first_drain.
Qed.

Lemma inv_receive p p' : inv p → receive backup p = Some p' → inv p'.
Proof.
  intros [H1 H2 H3 H4 H5 H6 H7 H8 H9 H10] Hf. unfold receive in Hf.
  destruct (main p) eqn:Hm; try done. cbn in *. destruct (errChan p) as [|e rest] eqn:He.
  - destruct (errChan_closed p) eqn:Hc; [|done]. injection Hf as <-.
    split; cbn; rewrite ?He; auto.
  - injection Hf as <-. split; cbn; try done.
    intros r. by eapply consumer_ok_cancel.
Qed.

Lemma inv_run_deferred p p' : inv p → run_deferred p = Some p' → inv p'.
Proof.
  intros [H1 H2 H3 H4 H5 H6 H7 H8 H9 H10] Hf. unfold run_deferred in Hf.
  destruct (main p) as [|res [|d rest]| |] eqn:Hm; try done; injection Hf as <-.
  - split; cbn in *; try done; [by destruct res..].
  - set (k := EDefer d :: _).
    assert (deferred_run (effects p ++ k) = deferred_run (effects p) ++ [d]) as Hk.
    { unfold deferred_run. rewrite omap_app. f_equal. by destruct d. }
    split; cbn -[deferred_run deferred_calls] in *; fold k; try done.
    + by rewrite Hk, <-app_assoc.
    + rewrite Hk. intros [Hin|Hin]%elem_of_app; [set_solver|].
      apply list_elem_of_singleton in Hin as <-. set_solver.
    + destruct (handler p); [|done]. destruct H8 as (pre & ? & ?). exists pre. set_solver.
    + apply resign_first_app; [done|]. by destruct d; set_solver.
Qed.

Lemma inv_step p a p' : inv p → step p a p' → inv p'.
Proof.
  intros Hinv Hs. unfold step, Lifecycle.step, fire in Hs.
  destruct (ended p); [done|].
  destruct a as [r|r|r ans|r|r| | | | |].
  - eapply inv_on_consumer; [done..|]. run_piece.
  - eapply inv_on_consumer; [done..|]. run_piece.
  - eapply inv_on_consumer; [done..|]. run_piece.
  - eapply inv_on_consumer; [done..|]. run_piece.
  - by eapply inv_finish_consumer.
  - destruct (negb _ && _) eqn:Hc; [|done]. injection Hs as <-.
    apply andb_true_iff in Hc as [_ Hall]. rewrite forallb_forall in Hall.
    destruct Hinv as [H1 H2 H3 H4 H5 H6 H7 H8 H9 H10]. split; cbn; try done.
    + intros _ r. apply Hall. destruct r; cbn; auto.
    + intros Hn. by destruct (H3 Hn).
  - destruct (handler p) eqn:Hh; [done|]. injection Hs as <-.
    destruct Hinv as [H1 H2 H3 H4 H5 H6 H7 H8 H9 H10]. split; cbn; try done.
    exists []. set_solver.
  - by eapply inv_run_handler.
  - by eapply inv_receive.
  - by eapply inv_run_deferred.
Qed.

Lemma inv_reachable l p p' : inv p → runs step p l p' → inv p'.
Proof. intros Hinv. induction 1; eauto using inv_step. Qed.

(** *** Who ends the context *)

Definition inv_signal (p : process) : Prop :=
  (∀ l, handler p = Some l → l = shutdown_calls ∨ cancelled p = true) ∧
  (cancelled p = true → handler p ≠ None ∨ received (main p) ≠ []).

(** The steps of the consumers and the close of the channel leave the rest alone. *)
Lemma inv_signal_frame p p' : inv_signal p → handler p' = handler p →
  cancelled p' = cancelled p → received (main p') = received (main p) → inv_signal p'.
Proof. unfold inv_signal. by intros ? -> -> ->. Qed.

Lemma inv_signal_step p a p' : inv p → inv_signal p → step p a p' → inv_signal p'.
Proof.
  intros Hinv Hsig Hs. pose proof (inv_step _ _ _ Hinv Hs) as Hinv'.
  unfold step, Lifecycle.step, fire in Hs. destruct (ended p); [done|].
  destruct a as [r|r|r ans|r|r| | | | |].
  1-4: unfold on_consumer in Hs; apply bind_Some in Hs as (c & _ & [= <-]);
    by eapply inv_signal_frame.
  - unfold finish_consumer in Hs. destruct (stage (cons p r)) as [| | |[e|]|]; try done.
    + destruct (errChan_closed p); [|destruct (_ <? _)%nat; [|done]]; injection Hs as <-.
      * by destruct (inv_main _ Hinv').
      * by eapply inv_signal_frame.
    + injection Hs as <-. by eapply inv_signal_frame.
  - destruct (_ && _); [|done]. injection Hs as <-. by eapply inv_signal_frame.
  - destruct Hsig as [H1 H2]. destruct (handler p); [done|]. injection Hs as <-.
    split; cbn; [|naive_solver]. intros l [= <-]. by left.
  - destruct Hsig as [H1 H2]. unfold run_handler in Hs.
    destruct (handler p) as [[|c rest]|] eqn:Hh; try done. injection Hs as <-.
    split; [|destruct c; cbn; naive_solver].
    intros l Hl. right. destruct c; cbn; [done|..]; by destruct (H1 _ eq_refl).
  - unfold receive in Hs. destruct (main p) eqn:Hm; try done.
    destruct Hsig as [H1 H2]. destruct (errChan p); [destruct (errChan_closed p); [|done]|];
      injection Hs as <-; split; cbn; rewrite ?Hm in *; naive_solver.
  - unfold run_deferred in Hs. destruct (main p) as [|res [|d rest]| |] eqn:Hm; try done;
      injection Hs as <-; eapply inv_signal_frame; cbn; rewrite ?Hm; by destruct res.
Qed.

Lemma reachable_invs p l : runs step started l p → inv p ∧ inv_signal p.
Proof.
  assert (∀ p0, inv p0 → inv_signal p0 → runs step p0 l p → inv p ∧ inv_signal p) as Hgen.
  { intros p0 H1 H2 Hr. induction Hr; [done|]. eauto using inv_step, inv_signal_step. }
  apply Hgen; [apply inv_started|]. split; cbn; naive_solver.
Qed.

Lemma sent_nil f r : sent f = [] → sent_by r (f r) = [].
Proof. unfold sent. intros [? [? ?]%app_eq_nil]%app_eq_nil. by destruct r. Qed.

Lemma sent_elem f e : e ∈ sent f →
  ∃ r e', stage (f r) = CDone (Some e') ∧ e = consumer_error r e'.
Proof.
  unfold sent. rewrite !elem_of_app.
  intros [He|[He|He]]; unfold sent_by in He; repeat case_match; set_solver.
Qed.

Lemma sent_length f : (length (sent f) ≤ 3)%nat.
Proof. unfold sent, sent_by. rewrite !length_app. repeat case_match; cbn; lia. Qed.

(** *** Measure *)

Definition stage_weight (st : cstage) : nat :=
  match st with CWaiting => 4 | CCreating => 3 | CBlocked => 2 | CReturned _ => 1 | CDone _ => 0 end.

Definition main_weight (m : main_state) : nat :=
  match m with
  | MReceiving => S (S (length (deferred_calls backup)))
  | MReturning _ l => S (length l)
  | MExited _ | MPanicked => 0
  end.

Definition consumers_weight (f : role → consumer) : nat :=
  stage_weight (stage (f RKeygen)) + stage_weight (stage (f RSigning)) +
  stage_weight (stage (f RResharing)).

Definition measure (p : process) : nat :=
  consumers_weight (cons p) + (if errChan_closed p then 0 else 1) +
  match handler p with None => S (length shutdown_calls) | Some l => length l end +
  main_weight (main p).

Lemma consumers_weight_update r c f :
  (consumers_weight (update r c f) + stage_weight (stage (f r)) =
   consumers_weight f + stage_weight (stage c))%nat.
Proof.
  unfold consumers_weight. destruct r; rewrite update_eq, !update_ne by done; lia.
Qed.

Lemma measure_set_consumer r c p : (stage_weight (stage c) < stage_weight (stage (cons p r)))%nat →
  (measure (set_consumer r c p) < measure p)%nat.
Proof.
  intros Hc. pose proof (consumers_weight_update r c (cons p)). unfold measure.
  cbn -[consumers_weight stage_weight]. lia.
Qed.

Lemma measure_on_consumer r f p p' : on_consumer r f p = Some p' →
  (∀ c c', f c = Some c' → (stage_weight (stage c') < stage_weight (stage c))%nat) →
  (measure p' < measure p)%nat.
Proof.
  intros Hf Hk. unfold on_consumer in Hf. apply bind_Some in Hf as (c & Hc & [= <-]).
  by apply measure_set_consumer, Hk.
Qed.

Lemma length_rev_deferred : length (rev (deferred_calls backup)) = length (deferred_calls backup).
Proof. apply length_rev. Qed.

Lemma measure_step p a p' : step p a p' → (measure p' < measure p)%nat.
Proof.
  intros Hs. unfold step, Lifecycle.step, fire in Hs. destruct (ended p) eqn:Hend; [done|].
  assert (0 < main_weight (main p))%nat as Hm0.
  { unfold ended in Hend. destruct (main p); cbn; try done; lia. }
  destruct a as [r|r|r ans|r|r| | | | |].
  1-4: eapply measure_on_consumer; [done|]; intros [st sub] c' Hc;
    unfold Run_peers_ready, Run_woken, Run_create, Run_unblock in Hc; cbn in *;
    repeat case_match; simplify_eq; cbn; lia.
  - unfold finish_consumer in Hs. destruct (stage (cons p r)) as [| | |[e|]|] eqn:Hst; try done.
    + destruct (errChan_closed p) eqn:Hcl; [|destruct (_ <? _)%nat; [|done]]; injection Hs as <-.
      * unfold measure; cbn -[consumers_weight]. lia.
      * apply (measure_set_consumer r (set_stage (CDone (Some e)) (cons p r)) p).
        rewrite Hst. cbn. lia.
    + injection Hs as <-. apply measure_set_consumer. rewrite Hst. cbn. lia.
  - destruct (errChan_closed p) eqn:Hcl; [done|]. destruct (_ && _); [|done].
    injection Hs as <-. unfold measure; cbn -[consumers_weight]. rewrite Hcl. lia.
  - destruct (handler p) eqn:Hh; [done|]. injection Hs as <-. unfold measure.
    cbn -[consumers_weight]. rewrite Hh. cbn -[consumers_weight]. lia.
  - unfold run_handler in Hs. destruct (handler p) as [[|c rest]|] eqn:Hh; try done.
    injection Hs as <-. destruct c; unfold measure; cbn -[consumers_weight]; rewrite Hh;
      cbn -[consumers_weight]; try lia.
    pose proof (consumers_weight_update r (consumer_Close (cons p r)) (cons p)) as Hw.
    cbn -[consumers_weight] in Hw. lia.
  - unfold receive in Hs. destruct (main p) eqn:Hm; try done. unfold main_weight in Hm0.
    pose proof length_rev_deferred as Hl. set (rd := rev _) in *. clearbody rd.
    set (dc := length (deferred_calls backup)) in *.
    destruct (errChan p); [destruct (errChan_closed p) eqn:Hcl; [|done]|]; injection Hs as <-;
      unfold measure; cbn -[consumers_weight]; rewrite Hm; unfold main_weight; fold dc;
      rewrite ?Hcl; lia.
  - unfold run_deferred in Hs. destruct (main p) as [|res [|d rest]| |] eqn:Hm; try done;
      injection Hs as <-; unfold measure; cbn -[consumers_weight]; rewrite Hm; cbn; lia.
Qed.

(** *** Progress *)

(** The actions of the process and of the broker: not a signal, not the peers. *)
Definition internal (a : action) : bool :=
  match a with ASignal | APeersReady _ => false | _ => true end.

Definition stopping (p : process) : Prop :=
  cancelled p = true ∨ is_Some (handler p) ∨ errChan p ≠ [].

Lemma on_consumer_Some r f p : is_Some (f (cons p r)) → is_Some (on_consumer r f p).
Proof. intros [c Hc]. unfold on_consumer. rewrite Hc. by eexists. Qed.

(** A consumer that has not ended can go on, once the context has. *)
Lemma consumer_progress p r : ended p = false → cancelled p = true → errChan p = [] →
  is_done (cons p r) = false → ∃ a, internal a = true ∧ is_Some (fire a p).
Proof.
  intros Hend Hc He Hd. unfold is_done in Hd.
  destruct (stage (cons p r)) as [| | |err|] eqn:Hst; try done.
  - exists (AWoken r). split; [done|]. unfold fire, Lifecycle.fire. rewrite Hend.
    apply on_consumer_Some. unfold Run_woken. by rewrite Hst, Hc.
  - exists (ACreate r None). split; [done|]. unfold fire, Lifecycle.fire. rewrite Hend.
    apply on_consumer_Some. unfold Run_create. by rewrite Hst.
  - exists (AUnblock r). split; [done|]. unfold fire, Lifecycle.fire. rewrite Hend.
    apply on_consumer_Some. unfold Run_unblock. by rewrite Hst, Hc.
  - exists (AFinish r). split; [done|]. unfold fire, Lifecycle.fire. rewrite Hend.
    unfold finish_consumer. rewrite Hst, He. destruct err; cbn; [|done].
    by destruct (errChan_closed p).
Qed.

Lemma stopping_progress p : inv_signal p → ended p = false → stopping p →
  ∃ a, internal a = true ∧ is_Some (fire a p).
Proof.
  intros [Hsig _] Hend Hstop. unfold stopping in Hstop. destruct (main p) as [|res l| |] eqn:Hm.
  - destruct (errChan p) as [|e rest] eqn:He.
    + destruct (errChan_closed p) eqn:Hcl.
      { exists AReceive. split; [done|]. unfold fire, Lifecycle.fire, receive.
        by rewrite Hend, Hm, He, Hcl. }
      destruct (handler p) as [[|c h]|] eqn:Hh.
      2: { exists AHandler. split; [done|]. unfold fire, Lifecycle.fire, run_handler.
           by rewrite Hend, Hh. }
      1: destruct (Hsig _ eq_refl) as [|Hc]; [done|].
      2: assert (cancelled p = true) as Hc
           by (destruct Hstop as [|[Hs|]]; [done|by destruct Hs|done]).
      all: destruct (forallb (λ r, is_done (cons p r)) roles) eqn:Hall.
      1,3: exists ACloseErrs; split; [done|]; unfold fire, Lifecycle.fire;
           by rewrite Hend, Hcl, Hall.
      all: destruct (is_done (cons p RKeygen)) eqn:?;
           [destruct (is_done (cons p RSigning)) eqn:?;
             [destruct (is_done (cons p RResharing)) eqn:?|]|];
           [|by eapply consumer_progress..]; exfalso; revert Hall; cbn;
           repeat match goal with H : is_done _ = true |- _ => rewrite H end; done.
    + exists AReceive. split; [done|]. unfold fire, Lifecycle.fire, receive.
      by rewrite Hend, Hm, He.
  - exists ADefer. split; [done|]. unfold fire, Lifecycle.fire, run_deferred.
    rewrite Hend, Hm. by destruct l.
  - unfold ended in Hend. by rewrite Hm in Hend.
  - unfold ended in Hend. by rewrite Hm in Hend.
Qed.

Lemma stopping_step p a p' : step p a p' → stopping p → stopping p'.
Proof.
  intros Hs Hstop. unfold step, Lifecycle.step, fire in Hs. destruct (ended p); [done|].
  unfold stopping in *. destruct a as [r|r|r ans|r|r| | | | |].
  1-4: unfold on_consumer in Hs; apply bind_Some in Hs as (c & _ & [= <-]); done.
  - unfold finish_consumer in Hs. repeat case_match; simplify_eq; try done.
    right; right. cbn. by destruct (errChan p).
  - repeat case_match; simplify_eq; done.
  - repeat case_match; simplify_eq; cbn; naive_solver.
  - unfold run_handler in Hs. repeat case_match; simplify_eq; right; left; cbn; by eexists.
  - unfold receive in Hs. destruct (main p); try done. destruct (errChan p); [|injection Hs as <-].
    + destruct (errChan_closed p); [|done]. injection Hs as <-.
      destruct Hstop as [|[|]]; [by left|by right; left|done].
    + by left.
  - unfold run_deferred in Hs. repeat case_match; simplify_eq; done.
Qed.

Lemma runs_measure p l p' : runs step p l p' → (length l + measure p' ≤ measure p)%nat.
Proof.
  induction 1 as [|s e s1 es s2 Hs]; cbn; [lia|]. apply measure_step in Hs. lia.
Qed.

Lemma runs_stopping p l p' : runs step p l p' → stopping p → stopping p'.
Proof. induction 1; eauto using stopping_step. Qed.

Lemma fires_runs l p p' : fires backup l p = Some p' → runs step p l p'.
Proof.
  revert p. induction l as [|a l IH]; cbn; intros p Hf; [injection Hf as <-; constructor|].
  apply bind_Some in Hf as (q & Hq & Hf). econstructor; [exact Hq|]. by apply IH.
Qed.

(** *** The theorems *)

(** Whatever the order in which the consumers, the signal handler and the loop
    over their errors run, at most three errors wait in [errChan], so no consumer
    waits to send one, and none is sent after the channel is closed: [runNode] does
    not panic there. *)
Theorem errChan_never_blocks l p r e :
  runs step started l p → stage (cons p r) = CReturned (Some e) → ended p = false →
  main p ≠ MPanicked ∧ errChan_closed p = false ∧
  ∃ p', fire (AFinish r) p = Some p' ∧
    errChan p' = errChan p ++ [consumer_error r e] ∧ (length (errChan p') ≤ errChan_cap)%nat.
Proof.
  intros Hr Hst Hend. apply reachable_invs in Hr as [Hinv _].
  pose proof (inv_main p Hinv) as Hm. pose proof (inv_closed p Hinv) as Hcl.
  assert (errChan_closed p = false) as Hc.
  { destruct (errChan_closed p); [|done]. specialize (Hcl eq_refl r).
    unfold is_done in Hcl. by rewrite Hst in Hcl. }
  assert (length (errChan p) < errChan_cap)%nat as Hlen.
  { pose proof (sent_update_end r (set_stage (CDone (Some e)) (cons p r)) (cons p)
      (consumer_error r e)) as Hp.
    unfold sent_by in Hp. rewrite Hst in Hp. specialize (Hp eq_refl eq_refl).
    apply Permutation_length in Hp. pose proof (inv_sent p Hinv) as Hs.
    apply Permutation_length in Hs. rewrite length_app in Hs. cbn in Hp.
    pose proof (sent_length (update r (set_stage (CDone (Some e)) (cons p r)) (cons p))).
    unfold errChan_cap. lia. }
  split_and!; [done..|]. unfold fire, Lifecycle.fire, finish_consumer.
  rewrite Hend, Hst, Hc. apply Nat.ltb_lt in Hlen as Hlt. rewrite Hlt.
  eexists; split_and!; [done|done|]. cbn. rewrite length_app. cbn. lia.
Qed.

(** C12: how the node exits.  The deferred calls have all run, in the reverse order of
    their [defer]s; the node has called [Resign] of the registry, whose error is only
    logged, and before the connection was drained if it was.  [runNode] returns nil only
    after a signal, with every consumer done and its subscription stopped; an error it
    returns is that of a consumer that ended with it. *)
Theorem node_exit l p res :
  runs step started l p → main p = MExited res →
  deferred_run (effects p) = rev (deferred_calls backup) ∧
  EResign ∈ effects p ∧ resign_first (effects p) ∧ cancelled p = true ∧
  match res with
  | None => is_Some (handler p) ∧
      ∀ r, stage (cons p r) = CDone None ∧ ∃ n, jsSub (cons p r) = Some (S n)
  | Some e => ∃ r e', stage (cons p r) = CDone (Some e') ∧ e = consumer_error r e'
  end.
Proof.
  intros Hr Hm. apply reachable_invs in Hr as [Hinv [_ Hsig]].
  destruct Hinv as [H1 H2 H3 H4 H5 H6 H7 H8 H9 _]. rewrite Hm in *. cbn [deferred_left] in H6.
  rewrite app_nil_r in H6.
  assert (DNodeClose ∈ deferred_run (effects p)) as Hn.
  { rewrite H6. destruct backup; cbn; set_solver. }
  destruct res as [e|]; cbn [received] in *.
  - split_and!; auto. apply sent_elem. rewrite <-H1. set_solver.
  - destruct (H3 I) as [Hcl He]. rewrite He in H1. symmetry in H1.
    apply Permutation_nil_r in H1.
    assert (∀ r, stage (cons p r) = CDone None) as Hdone.
    { intros r. pose proof (sent_nil _ r H1) as Hs. specialize (H2 Hcl r).
      unfold sent_by, is_done in *. by destruct (stage (cons p r)) as [| | | |[]]. }
    pose proof (H5 RKeygen) as Hk. unfold consumer_ok in Hk. rewrite Hdone in Hk.
    destruct Hk as [Hc _]. split_and!; auto.
    + destruct (Hsig Hc) as [Hh|Hh]; [|done]. destruct (handler p); [by eexists|done].
    + intros r. split; [done|]. specialize (H5 r). unfold consumer_ok in H5.
      rewrite Hdone in H5. tauto.
Qed.

(** C11: a shutdown ends.  A run from the start has at most twenty-nine actions; and once a
    signal has been received, the context has ended or a consumer has failed, the
    process goes on by itself, whatever the broker answers, until [runNode] returns. *)
Theorem shutdown_terminates l p l' p' :
  runs step started l p → stopping p → runs step p l' p' →
  (length (l ++ l') ≤ 29)%nat ∧
  ((∀ a, internal a = true → fire a p' = None) → ∃ res, main p' = MExited res).
Proof.
  intros Hr Hstop Hr'. split.
  - apply runs_measure in Hr, Hr'. rewrite length_app.
    assert (measure started ≤ 29)%nat; [|lia].
    unfold measure, main_weight, started. apply Nat.leb_le. by destruct backup.
  - intros Hstuck. apply (runs_stopping _ _ _ Hr') in Hstop.
    assert (runs step started (l ++ l') p') as Hall.
    { clear -Hr Hr'. induction Hr; cbn; [done|]. econstructor; eauto. }
    apply reachable_invs in Hall as [Hinv Hsig].
    destruct (ended p') eqn:Hend.
    + unfold ended in Hend. pose proof (inv_main p' Hinv) as Hp.
      destruct (main p') as [| |res|]; try done. by eexists.
    + destruct (stopping_progress p' Hsig Hend Hstop) as (a & Ha & [q Hq]).
      by rewrite Hstuck in Hq.
Qed.

End properties.

(** ** Runs *)

(** A signal while the consumers are blocked: the handler runs, then each consumer. *)
Definition signal_run : list action :=
  [APeersReady RKeygen; ACreate RKeygen None; ACreate RResharing None; APeersReady RSigning;
   ACreate RSigning None; ASignal; AHandler; AHandler; AUnblock RKeygen; AFinish RKeygen;
   AHandler; AHandler; AUnblock RSigning; AUnblock RResharing; AFinish RResharing;
   AFinish RSigning; AHandler; AHandler; ACloseErrs; AReceive] ++ repeat ADefer 9.

(** A signal while the consumers wait for peers: [CreateSubscription] with the ended
    context fails, and the error is what [runNode] returns. *)
Definition early_signal_run : list action :=
  [ACreate RResharing None; ASignal; AHandler; AWoken RKeygen;
   ACreate RKeygen (Some (Sentinel "context.Canceled" "context canceled"));
   AFinish RKeygen; AReceive] ++ repeat ADefer 9.

(** A consumer that cannot subscribe. *)
Definition failing_run : list action :=
  [APeersReady RKeygen; ACreate RKeygen (Some (errors_New "connection closed"));
   AFinish RKeygen; AReceive] ++ repeat ADefer 9.

Definition final (l : list action) : process := default started (fires true l started).

Definition enabled (l : list action) : bool :=
  match fires true l started with Some _ => true | None => false end.

Lemma final_runs l : enabled l = true → runs (step true) started l (final l).
Proof.
  unfold enabled, final. intros Hl. destruct (fires true l started) eqn:Hf; [|done].
  by apply fires_runs.
Qed.

(** A signal before the peers are there makes [runNode] return an error: the wait for
    peers ends without one, and the subscription is then asked for with the ended
    context. *)
Theorem shutdown_while_waiting_fails :
  runs (step true) started early_signal_run (final early_signal_run) ∧
  main (final early_signal_run) = MExited (Some (consumer_error RKeygen
    (subscribe_error RKeygen (Sentinel "context.Canceled" "context canceled")))) ∧
  Error (consumer_error RKeygen
    (subscribe_error RKeygen (Sentinel "context.Canceled" "context canceled"))) =
    "keygen consumer error: failed to subscribe to keygen events: context canceled" ∧
  EDrain ∉ effects (final early_signal_run) ∧
  stage (cons (final early_signal_run) RResharing) = CBlocked.
Proof.
  split; [apply final_runs; vm_compute; reflexivity|]. split; [vm_compute; reflexivity|].
  split; [vm_compute; reflexivity|]. split; [|vm_compute; reflexivity].
  apply (bool_decide_unpack _). vm_compute. exact I.
Qed.

(** An error of one consumer ends the process without waiting for the others. *)
Theorem failing_consumer_abandons_others :
  runs (step true) started failing_run (final failing_run) ∧
  main (final failing_run) = MExited (Some (consumer_error RKeygen
    (subscribe_error RKeygen (errors_New "connection closed")))) ∧
  stage (cons (final failing_run) RSigning) = CWaiting ∧ errChan_closed (final failing_run) = false.
Proof.
  split; [apply final_runs; vm_compute; reflexivity|]. vm_compute. repeat split.
Qed.

Lemma errChan_never_blocks_witness :
  let p := final (firstn 2 failing_run) in
  runs (step true) started (firstn 2 failing_run) p ∧
  ∃ p', fire true (AFinish RKeygen) p = Some p' ∧ length (errChan p') = 1%nat.
Proof.
  set (l := firstn 2 failing_run).
  assert (runs (step true) started l (final l)) as Hr by (apply final_runs; vm_compute; reflexivity).
  split; [exact Hr|].
  destruct (errChan_never_blocks true l _ RKeygen
    (subscribe_error RKeygen (errors_New "connection closed")) Hr eq_refl eq_refl)
    as (_ & _ & p' & Hf & He & _).
  exists p'. split; [exact Hf|]. rewrite He. reflexivity.
Defined.

Lemma node_exit_witness :
  let p := final signal_run in
  runs (step true) started signal_run p ∧ main p = MExited None ∧
  EResign ∈ effects p ∧ (∀ r, ∃ n, jsSub (cons p r) = Some (S n)).
Proof.
  assert (runs (step true) started signal_run (final signal_run)) as Hr
    by (apply final_runs; vm_compute; reflexivity).
  destruct (node_exit true signal_run _ None Hr eq_refl) as (_ & H2 & _ & _ & _ & H5).
  split_and!; [exact Hr|reflexivity|exact H2|]. intros r. exact (proj2 (H5 r)).
Defined.

Lemma shutdown_terminates_witness :
  let p := final (firstn 6 signal_run) in
  runs (step true) started (firstn 6 signal_run) p ∧ stopping p ∧
  ∃ l' p', runs (step true) p l' p' ∧ (∃ res, main p' = MExited res) ∧
    (length (firstn 6 signal_run ++ l') ≤ 29)%nat.
Proof.
  set (l := firstn 6 signal_run).
  assert (runs (step true) started l (final l)) as Hr by (apply final_runs; vm_compute; reflexivity).
  assert (stopping (final l)) as Hs by (right; left; by eexists).
  assert (runs (step true) (final l) (skipn 6 signal_run) (final signal_run)) as Hr'.
  { apply fires_runs. vm_compute. reflexivity. }
  destruct (shutdown_terminates true l _ _ _ Hr Hs Hr') as [Hlen Hend].
  split_and!; [exact Hr|exact Hs|]. exists (skipn 6 signal_run), (final signal_run).
  split_and!; [exact Hr'| |exact Hlen]. apply Hend. intros a _.
  assert (ended (final signal_run) = true) as He by (vm_compute; reflexivity).
  unfold fire. by rewrite He.
Defined.
