(* ===== verification/Memory.v ===== *)
(** * pkg/security/memory.go: secrets in memory

    Byte slices share arrays, so the store of arrays is explicit: what [ZeroBytes] and
    [SecureBytes] promise is about every slice of an array.  The password prompt of
    cmd/node/config.go is followed on this store, from the buffers it reads into to the
    ones it zeroes. *)

From stdpp Require Import base gmap list strings.
From Stdlib Require Import ZArith Lia.
From S2P Require Import Prelude.
From S2P Require Import GoStrings.

(** ** Arrays and slices *)

Record heap := mkHeap { arrays : gmap nat (list Z); fresh : nat }.

(** A part of an array; [nil] is no slice. *)
Record slice := mkSlice { s_arr : nat; s_off : nat; s_len : nat }.

#[export] Instance slice_eq_dec : EqDecision slice.
Proof. solve_decision. Defined.

Definition array (h : heap) (a : nat) : list Z := default [] (arrays h !! a).

Definition read (h : heap) (s : slice) : list Z :=
  take (s_len s) (drop (s_off s) (array h (s_arr s))).

(** [s[i] = z] *)
Definition write (s : slice) (i : nat) (z : Z) (h : heap) : heap :=
  mkHeap (<[s_arr s := <[(s_off s + i)%nat := z]> (array h (s_arr s))]> (arrays h)) (fresh h).

(** A new array with this content, as a slice. *)
Definition alloc (bytes : list Z) (h : heap) : slice * heap :=
  (mkSlice (fresh h) 0 (length bytes), mkHeap (<[fresh h := bytes]> (arrays h)) (S (fresh h))).

(** The arrays exist and the slice is inside its own. *)
Definition heap_ok (h : heap) : Prop := ∀ a l, arrays h !! a = Some l → (a < fresh h)%nat.
Definition slice_ok (h : heap) (s : slice) : Prop :=
  (s_arr s < fresh h)%nat ∧ (s_off s + s_len s ≤ length (array h (s_arr s)))%nat.

(** ** memory.go *)

(** [for i := range data { data[i] = 0 }]; [None] is a nil slice. *)
Definition ZeroBytes (data : option slice) (h : heap) : heap :=
  match data with
  | None => h
  | Some s =>
      if (s_len s =? 0)%nat then h else fold_left (λ h i, write s i 0 h) (seq 0 (s_len s)) h
  end.

(** Only the variable changes: the bytes of a string cannot be written. *)
Definition ZeroString (s : option string) : option string :=
  match s with None => None | Some _ => Some EmptyString end.

Record SecureBytes := mkSecureBytes { sb_data : option slice; finalizer : bool }.

Definition make_copy (data : option slice) (h : heap) : slice * heap :=
  alloc (match data with Some s => read h s | None => [] end) h.

Definition NewSecureBytes (data : option slice) (h : heap) : SecureBytes * heap :=
  let '(copied, h) := make_copy data h in (mkSecureBytes (Some copied) true, h).

Definition SecureBytes_Bytes (sb : SecureBytes) : option slice := sb_data sb.

Definition SecureBytes_Copy (sb : SecureBytes) (h : heap) : slice * heap := make_copy (sb_data sb) h.

Definition SecureBytes_zero (sb : SecureBytes) (h : heap) : SecureBytes * heap :=
  match sb_data sb with
  | Some s => (mkSecureBytes None (finalizer sb), ZeroBytes (Some s) h)
  | None => (sb, h)
  end.

Definition SecureBytes_Clear (sb : SecureBytes) (h : heap) : SecureBytes * heap :=
  let '(sb, h) := SecureBytes_zero sb h in (mkSecureBytes (sb_data sb) false, h).

(** The collector finds the object unreachable. *)
Definition finalize (sb : SecureBytes) (h : heap) : SecureBytes * heap :=
  if finalizer sb then SecureBytes_zero sb h else (sb, h).

(** ** The buffers of promptForSensitiveCredentials *)

Record prompt := mkPrompt { badgerPass : option slice; confirmPass : option slice; mem : heap }.

(** [term.ReadPassword] returns a new buffer. *)
Definition read_badger (bytes : list Z) (p : prompt) : prompt :=
  let '(s, h) := alloc bytes (mem p) in mkPrompt (Some s) (confirmPass p) h.
Definition read_confirm (bytes : list Z) (p : prompt) : prompt :=
  let '(s, h) := alloc bytes (mem p) in mkPrompt (badgerPass p) (Some s) h.

(** The rounds of the loop, over what is typed; [None]: it still waits. *)
Fixpoint prompt_rounds (typed : list (list Z)) (p : prompt) : option prompt :=
  match typed with
  | pw :: typed =>
      let p := read_badger pw p in
      match pw, typed with
      | [], _ => prompt_rounds typed p
      | _, cf :: typed =>
          let p := read_confirm cf p in
          if bool_decide (pw = cf) then Some p else prompt_rounds typed p
      | _, [] => None
      end
  | [] => None
  end.

(** The deferred function. *)
Definition prompt_exit (p : prompt) : heap :=
  ZeroBytes (confirmPass p) (ZeroBytes (badgerPass p) (mem p)).

Definition empty_heap : heap := mkHeap ∅ 0.

Definition prompt_memory (typed : list (list Z)) : option heap :=
  p ← prompt_rounds typed (mkPrompt None None empty_heap); Some (prompt_exit p).

(** ** Properties *)

Lemma array_write s i z h a :
  array (write s i z h) a =
  if decide (a = s_arr s) then <[(s_off s + i)%nat := z]> (array h a) else array h a.
Proof.
  unfold array, write. cbn. case_decide as Ha.
  - subst. by rewrite lookup_insert_eq.
  - by rewrite lookup_insert_ne by done.
Qed.

Lemma array_alloc bytes h a :
  array (alloc bytes h).2 a = if decide (a = fresh h) then bytes else array h a.
Proof.
  unfold array, alloc. cbn. case_decide as Ha.
  - subst. by rewrite lookup_insert_eq.
  - by rewrite lookup_insert_ne by done.
Qed.

(** The loop of [ZeroBytes]. *)
Lemma zero_loop s n k h a i :
  array (fold_left (λ h i, write s i 0 h) (seq k n) h) a !! i =
  if decide (a = s_arr s ∧ (s_off s + k ≤ i < s_off s + k + n)%nat ∧
             (i < length (array h a))%nat)
  then Some 0 else array h a !! i.
Proof.
  revert k h. induction n as [|n IH]; intros k h; cbn [seq fold_left].
  - rewrite decide_False; [done|lia].
  - rewrite IH, array_write. destruct (decide (a = s_arr s)) as [->|Hne].
    + rewrite length_insert. destruct (decide (i = s_off s + k)%nat) as [->|Hi].
      * rewrite decide_False by lia. destruct (decide (s_off s + k < length (array h (s_arr s)))%nat).
        -- rewrite list_lookup_insert_eq by done. rewrite decide_True; [done|]. split; [done|lia].
        -- rewrite decide_False by lia. rewrite list_insert_ge by lia. done.
      * rewrite list_lookup_insert_ne by done. apply decide_ext; [|done..]. split; intros; lia.
    + rewrite !decide_False by naive_solver. done.
Qed.

Lemma ZeroBytes_spec s h a i : 
  array (ZeroBytes (Some s) h) a !! i =
  if decide (a = s_arr s ∧ (s_off s ≤ i < s_off s + s_len s)%nat ∧ (i < length (array h a))%nat)
  then Some 0 else array h a !! i.
Proof.
  unfold ZeroBytes. destruct (s_len s =? 0)%nat eqn:Hl.
  - apply Nat.eqb_eq in Hl. rewrite decide_False; [done|lia].
  - rewrite zero_loop. apply decide_ext; [|done..]. split; intros; lia.
Qed.

Lemma fresh_ZeroBytes s h : fresh (ZeroBytes s h) = fresh h.
Proof.
  destruct s as [s|]; [|done]. unfold ZeroBytes. destruct (_ =? _)%nat; [done|].
  generalize 0%nat at 1 as k. generalize (s_len s) as n. intros n.
  revert h. induction n as [|n IH]; intros h k; cbn; [done|]. by rewrite IH.
Qed.

(** A whole array is zeroed through the slice that has all of it. *)
Lemma ZeroBytes_all a l h : array h a = l →
  array (ZeroBytes (Some (mkSlice a 0 (length l))) h) a = replicate (length l) 0.
Proof.
  intros Ha. apply list_eq. intros i. rewrite ZeroBytes_spec, Ha. cbn.
  destruct (decide (i < length l)%nat).
  - rewrite decide_True by (split; [done|lia]). by rewrite lookup_replicate_2.
  - rewrite decide_False by lia. rewrite lookup_ge_None_2 by lia. symmetry.
    apply lookup_ge_None_2. rewrite length_replicate. lia.
Qed.

Lemma ZeroBytes_other s h a : a ≠ s_arr s → array (ZeroBytes (Some s) h) a = array h a.
Proof.
  intros Ha. apply list_eq. intros i. rewrite ZeroBytes_spec, decide_False; naive_solver.
Qed.

Lemma read_array h h' s : array h' (s_arr s) = array h (s_arr s) → read h' s = read h s.
Proof. unfold read. by intros ->. Qed.

Lemma read_alloc_old bytes h s : slice_ok h s → read (alloc bytes h).2 s = read h s.
Proof.
  intros [Ha _]. apply read_array. rewrite array_alloc, decide_False; [done|lia].
Qed.

Lemma read_alloc_new bytes h : read (alloc bytes h).2 (alloc bytes h).1 = bytes.
Proof.
  unfold read. cbn [alloc fst s_arr s_off s_len]. rewrite array_alloc, decide_True by done.
  by rewrite drop_0, firstn_all.
Qed.

(** *** SecureBytes *)

Definition bytes_in (h : heap) (data : option slice) : list Z :=
  match data with Some s => read h s | None => [] end.

(** A [SecureBytes] owns a copy: it holds the caller's bytes, whose own slices it
    never touches.  Once it is cleared - or collected, which clears it too - every slice
    of its array, so every result of [Bytes] still held, reads as zeros, copies and all
    other slices keep their bytes, and neither clearing nor collecting it again writes
    anything. *)
Theorem SecureBytes_lifetime data h sb h1 c h2 sb' h3 s'
    (Hnew : NewSecureBytes data h = (sb, h1)) (Hcopy : SecureBytes_Copy sb h1 = (c, h2))
    (Hend : SecureBytes_Clear sb h2 = (sb', h3) ∨ finalize sb h2 = (sb', h3)) :
  bytes_in h1 (SecureBytes_Bytes sb) = bytes_in h data ∧
  read h3 c = bytes_in h data ∧
  (slice_ok h s' → read h3 s' = read h s') ∧
  (∀ b, SecureBytes_Bytes sb = Some b → s_arr s' = s_arr b → slice_ok h1 s' →
     read h3 s' = replicate (s_len s') 0) ∧
  SecureBytes_Bytes sb' = None ∧
  (SecureBytes_Clear sb' h3).2 = h3 ∧ (finalize sb' h3).2 = h3.
Proof.
  unfold NewSecureBytes in Hnew. fold (bytes_in h data) in Hnew.
  set (bs := bytes_in h data) in *. set (s0 := (alloc bs h).1).
  assert (sb = mkSecureBytes (Some s0) true ∧ h1 = (alloc bs h).2) as [-> ->]
    by (by injection Hnew as <- <-).
  unfold SecureBytes_Copy, make_copy in Hcopy. cbn [sb_data] in Hcopy.
  unfold s0 in Hcopy. rewrite read_alloc_new in Hcopy. fold s0 in Hcopy.
  set (h1 := (alloc bs h).2) in *.
  assert (c = (alloc bs h1).1 ∧ h2 = (alloc bs h1).2) as [-> ->] by (by rewrite Hcopy).
  assert (h3 = ZeroBytes (Some s0) (alloc bs h1).2 ∧ sb_data sb' = None) as [-> Hsb].
  { destruct Hend as [Hend|Hend]; by injection Hend as <- <-. }
  assert (array h1 (s_arr s0) = bs) as Hs0.
  { unfold h1, s0. rewrite array_alloc. by rewrite decide_True by done. }
  split_and!.
  - apply read_alloc_new.
  - rewrite (read_array (alloc bs h1).2); [apply read_alloc_new|].
    apply ZeroBytes_other. cbn. lia.
  - intros Hok. rewrite (read_array (alloc bs h1).2).
    + rewrite read_alloc_old; [by apply read_alloc_old|]. destruct Hok as [Ha Hl].
      split; [cbn; lia|]. unfold h1. rewrite array_alloc, decide_False by lia. done.
    + apply ZeroBytes_other. destruct Hok as [Ha _]. cbn. lia.
  - intros b [= <-] Hb Hok. unfold read. rewrite Hb.
    change s0 with (mkSlice (fresh h) 0 (length bs)). cbn [s_arr].
    assert (array (alloc bs h1).2 (fresh h) = bs) as Ha.
    { rewrite array_alloc, decide_False by (cbn; lia). exact Hs0. }
    rewrite (ZeroBytes_all (fresh h) bs) by done.
    rewrite drop_replicate, take_replicate. f_equal.
    destruct Hok as [_ Hl]. rewrite Hb in Hl. rewrite Hs0 in Hl. lia.
  - done.
  - unfold SecureBytes_Clear, SecureBytes_zero. by rewrite Hsb.
  - unfold finalize, SecureBytes_zero. rewrite Hsb. by destruct (finalizer sb').
Qed.

(** *** The prompt's buffers *)

(** The heap holds what was typed, a buffer each. *)
Definition holds (l : list (list Z)) (h : heap) : Prop :=
  fresh h = length l ∧ ∀ i, arrays h !! i = l !! i.

Lemma holds_alloc l bytes h : holds l h → holds (l ++ [bytes]) (alloc bytes h).2.
Proof.
  intros [Hf Hl]. split; cbn; [rewrite length_app; cbn; lia|].
  intros i. rewrite Hf. destruct (decide (i = length l)) as [->|Hne].
  - rewrite lookup_insert_eq, lookup_app_r by done. by rewrite Nat.sub_diag.
  - rewrite lookup_insert_ne, Hl by done. destruct (decide (i < length l)%nat).
    + by rewrite lookup_app_l.
    + rewrite lookup_ge_None_2 by lia. symmetry. apply lookup_ge_None_2.
      rewrite length_app. cbn. lia.
Qed.

Lemma prompt_rounds_spec typed l p p' : holds l (mem p) →
  prompt_rounds typed p = Some p' →
  ∃ pre pw rest, typed = pre ++ pw :: pw :: rest ∧ pw ≠ [] ∧
    holds (l ++ pre ++ [pw; pw]) (mem p') ∧
    badgerPass p' = Some (mkSlice (length (l ++ pre)) 0 (length pw)) ∧
    confirmPass p' = Some (mkSlice (S (length (l ++ pre))) 0 (length pw)).
Proof.
  remember (length typed) as n eqn:Hn. revert typed l p Hn.
  induction n as [n IH] using lt_wf_ind. intros typed l p -> Hh H.
  destruct typed as [|pw typed]; [done|]. cbn in H.
  pose proof (holds_alloc l pw (mem p) Hh) as Hh1.
  destruct pw as [|z pw].
  - apply (IH (length typed) ltac:(cbn; lia) _ (l ++ [[]])) in H as
      (pre & q & rest & -> & Hq & Hm & Hb & Hc); [|done|exact Hh1].
    rewrite <-!app_assoc in *. exists ([] :: pre), q, rest. by split_and!.
  - destruct typed as [|cf typed]; [done|].
    pose proof (holds_alloc _ cf _ Hh1) as Hh2. case_bool_decide as Heq.
    + injection H as <-. rewrite <-Heq in *. exists [], (z :: pw), typed.
      destruct Hh as [Hf _]. rewrite <-app_assoc in Hh2.
      split_and!; [done..|exact Hh2| |]; cbn; rewrite app_nil_r, Hf; done.
    + apply (IH (length typed) ltac:(cbn; lia) _ (l ++ [z :: pw; cf])) in H as
        (pre & q & rest & -> & Hq & Hm & Hb & Hc);
        [|done|rewrite <-app_assoc in Hh2; exact Hh2].
      rewrite <-!app_assoc in *. exists ((z :: pw) :: cf :: pre), q, rest. by split_and!.
Qed.

(** What the password prompt leaves in memory.  When it ends, the last two buffers,
    the accepted password and its confirmation, are zeroed; whatever was typed in
    earlier rounds, refused because it was empty or did not match, is still there. *)
Theorem prompt_buffers typed h : prompt_memory typed = Some h →
  ∃ pre pw rest, typed = pre ++ pw :: pw :: rest ∧ pw ≠ [] ∧
    fresh h = S (S (length pre)) ∧
    array h (length pre) = replicate (length pw) 0 ∧
    array h (S (length pre)) = replicate (length pw) 0 ∧
    ∀ i typed_i, pre !! i = Some typed_i → array h i = typed_i.
Proof.
  unfold prompt_memory. intros (p & Hp & [= <-])%bind_Some.
  apply (prompt_rounds_spec _ []) in Hp as (pre & pw & rest & -> & Hpw & [Hf Ha] & Hb & Hc);
    [|by split].
  cbn [app] in *. exists pre, pw, rest. unfold prompt_exit. rewrite Hb, Hc.
  assert (∀ i, array (mem p) i = default [] ((pre ++ [pw; pw]) !! i)) as Harr
    by (intros i; unfold array; by rewrite Ha).
  assert (array (mem p) (length pre) = pw) as H1.
  { rewrite Harr, lookup_app_r, Nat.sub_diag by done. done. }
  assert (array (mem p) (S (length pre)) = pw) as H2.
  { rewrite Harr, lookup_app_r by lia.
    by replace (S (length pre) - length pre)%nat with 1%nat by lia. }
  split_and!; [done..| | | |].
  - rewrite !fresh_ZeroBytes, Hf, length_app. cbn. lia.
  - rewrite ZeroBytes_other by (cbn; lia). by apply ZeroBytes_all.
  - apply ZeroBytes_all. rewrite ZeroBytes_other by (cbn; lia). done.
  - intros i t Hi. pose proof (lookup_lt_Some _ _ _ Hi).
    rewrite !ZeroBytes_other by (cbn; lia). rewrite Harr, lookup_app_l by done. by rewrite Hi.
Qed.

(** *** Witnesses *)

Lemma SecureBytes_lifetime_witness :
  let '(s, h) := alloc [1; 2; 3] empty_heap in
  let '(sb, h1) := NewSecureBytes (Some s) h in
  let '(c, h2) := SecureBytes_Copy sb h1 in
  let '(sb', h3) := SecureBytes_Clear sb h2 in
  read h3 c = [1; 2; 3] ∧ read h3 s = [1; 2; 3] ∧ read h3 (mkSlice 1 1 2) = [0; 0].
Proof.
  destruct (alloc _ _) as [s h] eqn:Hs. destruct (NewSecureBytes _ _) as [sb h1] eqn:Hn.
  destruct (SecureBytes_Copy _ _) as [c h2] eqn:Hc.
  destruct (SecureBytes_Clear _ _) as [sb' h3] eqn:He.
  pose proof (SecureBytes_lifetime (Some s) h sb h1 c h2 sb' h3 s Hn Hc (or_introl He))
    as (_ & H1 & H2 & _).
  pose proof (SecureBytes_lifetime (Some s) h sb h1 c h2 sb' h3 (mkSlice 1 1 2) Hn Hc
    (or_introl He)) as (_ & _ & _ & H3 & _).
  injection Hs as <- <-. injection Hn as <- <-. split_and!.
  - exact H1.
  - apply H2. split; vm_compute; lia.
  - eapply H3; [reflexivity|reflexivity|]. split; vm_compute; lia.
Defined.

Definition toy_typed : list (list Z) := [[104; 117]; [104; 105]; [7; 8]; [7; 8]].

Lemma prompt_buffers_witness :
  ∃ h, prompt_memory toy_typed = Some h ∧ array h 0 = [104; 117] ∧ array h 3 = [0; 0] ∧
  ∃ pre pw rest, toy_typed = pre ++ pw :: pw :: rest ∧
    ∀ i typed_i, pre !! i = Some typed_i → array h i = typed_i.
Proof.
  eexists. split; [reflexivity|]. split; [vm_compute; reflexivity|].
  split; [vm_compute; reflexivity|].
  edestruct (prompt_buffers toy_typed) as (pre & pw & rest & Ht & _ & _ & _ & _ & Hpre);
    [reflexivity|]. exists pre, pw, rest. split; [exact Ht|exact Hpre].
Defined.
