(* ===== verification/Programs.v ===== *)
(** * cmd: the node program's start, its backup job, and the recovery command

    [runNode] reads its configuration, asks for or checks the credentials, finds
    its id among the peers, opens the store, loads its identity and wires the
    registry, the node and the event consumer together.  What it asks the terminal,
    the file system, Consul and NATS is an argument; [logger.Fatal] ends the
    process. *)

From stdpp Require Import base gmap list strings sorting.
From Stdlib Require Import ZArith Lia Ascii.
From S2P Require Import Prelude.
From S2P Require Import GoStrings.
From S2P Require Import External.
From S2P Require Import Json.
From S2P Require Import Types.
From S2P Require Import Identity.
From S2P Require Import Ecdh.
From S2P Require Import KeyStore.
From S2P Require Import Registry.
From S2P Require Import SessionManager.
From S2P Require Import Node.
From S2P Require Import EventConsumer.
From S2P Require Import Backup.
From S2P Require Import Config.
From S2P Require Import Paths.
From S2P Require Import Peers.

(** ** cmd/node/config.go *)

(** [cfg]: the address of the caller's configuration, if it has one. *)
Definition loadPasswordFromFile (read : Res string) (cfg : option nat) (filePath : string) :
    M config_store (Res unit) :=
  passwordBytes ←! lift (wrap_err ("failed to read password file " +:+ filePath +:+ ": ") read);
  let password := TrimSpace passwordBytes in
  if String.eqb password "" then
    lift (Err (errors_New ("password file " +:+ filePath +:+ " is empty")))
  else
    _ ←! SetBadgerPassword password;
    match cfg with
    | Some p => write_Config p (with_BadgerPassword password)
    | None => lift (Ok tt)
    end.

(** The loop of the prompt over what [term.ReadPassword] answers; [None]: it is
    still waiting for input. *)
Fixpoint ask_password (inputs : list (Res string)) : option (Res string) :=
  match inputs with
  | [] => None
  | Err _ :: _ => Some (Panic "Failed to read badger password")
  | Panic w :: _ => Some (Panic w)
  | Ok badgerPass :: inputs =>
      if String.eqb badgerPass "" then ask_password inputs
      else match inputs with
           | [] => None
           | Err _ :: _ => Some (Panic "Failed to read confirmation password")
           | Panic w :: _ => Some (Panic w)
           | Ok confirmPass :: inputs =>
               if String.eqb badgerPass confirmPass then Some (Ok badgerPass)
               else ask_password inputs
           end
  end.

Fixpoint stars (n : nat) : string :=
  match n with O => EmptyString | S n => String "*" (stars n) end.

Definition maskString (s : string) : string :=
  let n := String.length s in
  if (n <=? 2)%nat then s else take_s 1 s +:+ stars (n - 2) +:+ drop_s (n - 1) s.

Definition promptForSensitiveCredentials (inputs : list (Res string)) (cfg : option nat) :
    config_store → option (Res unit * config_store) := λ s,
  match ask_password inputs with
  | None => None
  | Some r => Some ((passwordStr ←! lift r;
                     _ ←! SetBadgerPassword passwordStr;
                     match cfg with
                     | Some p => write_Config p (with_BadgerPassword passwordStr)
                     | None => lift (Ok tt)
                     end) s)
  end.

Definition checkRequiredConfigValues (cfg : Config) : Res unit :=
  if String.eqb (cfg_BadgerPassword cfg) "" then Panic "Badger password is required"
  else if String.eqb (cfg_EventInitiatorPubKey cfg) ""
  then Panic "Event initiator public key is required"
  else Ok tt.

(** ** cmd/node/storage.go *)

Section storage.
Context `{C : Crypto} `{B : Badger}.
Variable open : string → string → Res badger_db.       (* badger.Open: path, key *)
Variable mkdir : string → option error.

Definition NewBadgerKV (nodeName : string) (s : config_store) : Res BadgerKVStore :=
  basePath ← DBPath s;
  let basePath := if String.eqb basePath "" then Join "." "db" else basePath in
  let dbPath := Join basePath nodeName in
  backupDir ← BackupDir s;
  let backupDir := if String.eqb backupDir "" then Join "." "backups" else backupDir in
  encryptionKey ← BadgerPassword s;
  backupKey ← BadgerPassword s;
  fatal "Failed to create badger kv store"
    (NewBadgerKVStore mkdir open (mkBadgerConfig nodeName encryptionKey backupKey backupDir dbPath)).

(** ** cmd/node/backup.go *)

Definition DefaultBackupPeriodSeconds : Z := 300.

(** The period of the ticker, a [time.Duration] in nanoseconds. *)
Definition backup_interval (periodSeconds : Z) : Res Z :=
  let periodSeconds := if periodSeconds <=? 0 then DefaultBackupPeriodSeconds else periodSeconds in
  let d := wrap64 (periodSeconds * 10 ^ 9) in
  if d <=? 0 then Panic "non-positive interval for NewTicker" else Ok d.

(** What the job's [select] receives: a tick, with the store at that time, or the
    end of the context. *)
Inductive backup_event :=
| BackupTick (kv : BadgerKVStore) (env : backup_env)
| BackupDone.

Variable Unmarshal_VersionInfo : string → Res BadgerBackupVersionInfo.

(** An error is logged and the job goes on; a panic ends the process. *)
Fixpoint backup_job (events : list backup_event) : M directory (Res unit) := λ d,
  match events with
  | [] | BackupDone :: _ => (Ok tt, d)
  | BackupTick kv env :: events =>
      match BadgerKVStore_Backup Unmarshal_VersionInfo kv env d with
      | (Panic w, d) => (Panic w, d)
      | (_, d) => backup_job events d
      end
  end.

(** ** cmd/cli/recovery *)

Variable Unmarshal_Meta : string → Res BadgerBackupMeta.

(** [stat_backup] and [stat_target]: [os.Stat] finds the backup directory and the
    target; [removed] is the answer of [os.RemoveAll]. *)
Definition recoverDatabase (stat_backup stat_target force : bool) (keyBytes : Res string)
    (removed opened closed : Res unit) (backupDir recoveryPath : string) (d : directory) :
    Res badger_db :=
  if negb stat_backup then Err (errors_New ("backup directory does not exist: " +:+ backupDir)) else
  if stat_target && negb force then
    Err (errors_New ("recovery path already exists: " +:+ recoveryPath +:+
                     " (use --force to overwrite)")) else
  key ← wrap_err "failed to read encryption key: " keyBytes;
  if String.eqb key "" then Err (errors_New "encryption key cannot be empty") else
  _ ← (if force then wrap_err "failed to remove existing recovery path: " removed else Ok tt);
  tempExecutor ← NewBadgerBackupExecutor mkdir "temp" key backupDir;
  wrap_err "recovery failed: "
    (RestoreAllBackupsEncrypted Unmarshal_Meta tempExecutor opened closed d).

End storage.

(** ** cmd/node/start.go *)

Record node_flags := mkFlags {
  fl_name : string;
  fl_config : string;
  fl_prompt_credentials : bool;
  fl_password_file : string;
}.

(** What the environment answers while the node starts. *)
Record boot_env `{Viper} `{Crypto} `{Badger} := mkBootEnv {
  be_MPC_CONFIG_FILE : string;
  be_password_file : Res string;
  be_prompts : list (Res string);
  be_consul_default : api_Config;
  be_consul : api_Config → Res unit;         (* api.NewClient *)
  be_leader : api_Config → Res unit;         (* Status().Leader *)
  be_open : string → string → Res badger_db;
  be_mkdir : string → option error;
  be_identity : config_store → Res fileStore;   (* identity.NewFileStore *)
  be_messaging : Res unit;                   (* NATS, streams and queues *)
}.
Arguments boot_env {_ _ _}.

Section boot.
Context `{V : Viper} `{C : Crypto} `{B : Badger} `{MR : MapRange} `{L : Lo} `{T : TssLib}
  `{KV : KVStore} {CK : ConsulKV} {CL : ConsulList CK}.
Context {PreParams : Type}.
Variable Unmarshal_PreParams : string → Res PreParams.
Variable Marshal_PreParams : PreParams → Res string.
Variable GeneratePreParams : nat → Res PreParams.

(** Lines up to the check of the credentials; [None] waits for input. *)
Definition boot_config (fl : node_flags) (env : boot_env) :
    config_store → option (Res nat * config_store) := λ s,
  match (cfg ←! (λ s, match Load (SetEnvConfigPath (fl_config fl) (be_MPC_CONFIG_FILE env)) s with
                      | (r, s') => (wrap_err "load config: " r, s') end);
         _ ←! (if String.eqb (fl_password_file fl) "" then lift (Ok tt)
               else λ s, match loadPasswordFromFile (be_password_file env) (Some cfg)
                                 (fl_password_file fl) s with
                         | (r, s') => (wrap_err "failed to load password from file: " r, s') end);
         lift (Ok cfg)) s with
  | (Ok cfg, s1) =>
      if fl_prompt_credentials fl then
        match promptForSensitiveCredentials (be_prompts env) (Some cfg) s1 with
        | None => None
        | Some (r, s2) => Some (_ ← r; Ok cfg, s2)
        end
      else
        Some (c ← of_option (errors_New "dangling pointer") (allocated s1 !! cfg);
              _ ← checkRequiredConfigValues c; Ok cfg, s1)
  | (r, s1) => Some (r, s1)
  end.

(** The node's id, its store and its identity. *)
Record booted := mkBooted {
  bo_peers : list Peer;
  bo_nodeID : string;
  bo_store : BadgerKVStore;
  bo_backup : option Z;                      (* the period of the backup job *)
  bo_identity : fileStore;
}.

Definition boot_store (fl : node_flags) (env : boot_env) (cfg : nat) (consul : consul_db)
    (s : config_store) : Res booted :=
  c ← of_option (errors_New "dangling pointer") (allocated s !! cfg);
  _ ← GetConsulClient (be_consul_default env) (be_consul env) (be_leader env) s;
  peers ← node_LoadPeersFromConsul consul;
  nodeID ← GetIDFromName (fl_name fl) peers;
  badgerKV ← NewBadgerKV (be_open env) (be_mkdir env) (fl_name fl) s;
  backup ← (if cfg_BackupEnabled c
            then d ← backup_interval (cfg_BackupPeriodSeconds c); Ok (Some d) else Ok None);
  identityStore ← fatal "Failed to create identity store" (be_identity env s);
  Ok (mkBooted peers nodeID badgerKV backup identityStore).

(** The registry, the node and the event consumer. *)
Definition boot_node (env : boot_env) (b : booted) (consul : consul_db) (kv : kv_db)
    (s : config_store) : Res (eventConsumer (R := registry)) :=
  _ ← fatal "Failed to connect to NATS" (be_messaging env);
  let peerNodeIDs := GetPeerIDs (bo_peers b) in
  threshold ← Threshold s;
  peerRegistry ← NewRegistry (bo_nodeID b) peerNodeIDs (bo_identity b) threshold;
  let '(node, kv) :=
    NewNode Unmarshal_PreParams Marshal_PreParams GeneratePreParams (bo_nodeID b) peerNodeIDs
      consul peerRegistry kv in
  '(mpcNode, _) ← node;
  NewEventConsumer_configured mpcNode (bo_identity b) kv s.

(** [runNode] up to the consumers. *)
Definition boot (fl : node_flags) (env : boot_env) (consul : consul_db) (kv : kv_db)
    (s : config_store) : option (Res (booted * eventConsumer (R := registry)) * config_store) :=
  match boot_config fl env s with
  | None => None
  | Some (r, s) =>
      Some (cfg ← r;
            b ← boot_store fl env cfg consul s;
            ec ← boot_node env b consul kv s;
            Ok (b, ec), s)
  end.

End boot.

(** ** What a started node has *)

Section boot_props.
Context `{V : Viper} `{C : Crypto} `{B : Badger} `{MR : MapRange} `{L : Lo} `{T : TssLib}
  `{KV : KVStore} {CK : ConsulKV} {CL : ConsulList CK}.

Lemma ask_password_ok inputs pw : ask_password inputs = Some (Ok pw) → pw ≠ "".
Proof.
  revert inputs. fix IH 1. intros [|[a|e|w] inputs]; try done. cbn.
  destruct (String.eqb_spec a ""); [apply IH|].
  destruct inputs as [|[b|e|w] inputs]; try done.
  destruct (String.eqb a b); [|apply IH]. intros H. injection H as H. congruence.
Qed.

Lemma set_password_steps pw p s r s' :
  (_ ←! SetBadgerPassword pw; write_Config p (with_BadgerPassword pw)) s = (r, s') →
  rtc config_step s s' ∧ app s' = app s.
Proof.
  unfold bindR. destruct (SetBadgerPassword pw s) as [r1 s1] eqn:H1.
  assert (config_step s s1) as Hstep.
  { change s1 with (r1, s1).2. rewrite <-H1. constructor. }
  assert (app s1 = app s) as Happ.
  { revert H1. unfold SetBadgerPassword, Update. destruct (app s) eqn:Ha; [|by intros [= _ <-]].
    by intros [= _ <-]. }
  destruct r1 as [[]| |]; intros [= <- <-]; (split; [|done]); [|by apply rtc_once..].
  eapply rtc_l; [done|]. apply rtc_once. apply (step_write_password p pw s1).
Qed.

Lemma loadPasswordFromFile_steps rd p path s r s' :
  loadPasswordFromFile rd (Some p) path s = (r, s') → rtc config_step s s' ∧ app s' = app s.
Proof.
  unfold loadPasswordFromFile, bindR at 1, lift at 1.
  destruct (wrap_err _ rd) as [data| |]; [|by intros [= _ <-]..]. cbv zeta.
  destruct (String.eqb (TrimSpace data) ""); [by intros [= _ <-]|].
  apply set_password_steps.
Qed.

Lemma prompt_steps inputs p s r s' :
  promptForSensitiveCredentials inputs (Some p) s = Some (r, s') →
  rtc config_step s s' ∧ app s' = app s.
Proof.
  unfold promptForSensitiveCredentials. destruct (ask_password inputs) as [[pw| |]|]; [..|done];
    unfold bindR at 1, lift at 1; [|by intros [= _ <-]..].
  intros [= H]. by apply set_password_steps in H.
Qed.

Lemma boot_config_spec fl env s cfg s' : boot_config fl env s = Some (Ok cfg, s') →
  rtc config_step s s' ∧ app s' = Some cfg ∧
  (fl_prompt_credentials fl = false → ∃ c, allocated s' !! cfg = Some c ∧
    checkRequiredConfigValues c = Ok tt).
Proof.
  unfold boot_config. unfold bindR at 1.
  destruct (Load _ s) as [rl s1] eqn:Hload.
  destruct rl as [p| |]; cbn [wrap_err]; [|done..].
  assert (config_step s s1) as Hstep by (eapply step_Load; exact Hload).
  pose proof (Load_app _ _ _ _ Hload) as Happ.
  unfold bindR, lift. destruct (String.eqb (fl_password_file fl) "") eqn:Hf.
  - destruct (fl_prompt_credentials fl) eqn:Hp.
    + destruct (promptForSensitiveCredentials _ _ s1) as [[[[]| |] s2]|] eqn:Hpr; [|done..].
      cbn. intros [= <- <-]. apply prompt_steps in Hpr as [Hr Ha].
      split; [by eapply rtc_l|]. by rewrite Ha.
    + intros [= H <-]. split; [by apply rtc_once|].
      destruct (allocated s1 !! p) as [c|] eqn:Hc; [|done]. cbn in H.
      destruct (checkRequiredConfigValues c) as [[]| |] eqn:Hcheck; [|done..].
      injection H as <-. split; [done|]. intros _. by exists c.
  - destruct (loadPasswordFromFile _ _ _ s1) as [[[]| |] s2] eqn:Hl; cbn [wrap_err]; [|done..].
    apply loadPasswordFromFile_steps in Hl as [Hr2 Ha2].
    destruct (fl_prompt_credentials fl) eqn:Hp.
    + destruct (promptForSensitiveCredentials _ _ s2) as [[[[]| |] s3]|] eqn:Hpr; [|done..].
      cbn. intros [= <- <-]. apply prompt_steps in Hpr as [Hr Ha].
      split; [eapply rtc_l; [done|]; by etrans|]. by rewrite Ha, Ha2.
    + intros [= H <-]. split; [by eapply rtc_l|]. rewrite Ha2.
      destruct (allocated s2 !! p) as [c|] eqn:Hc; [|done]. cbn in H.
      destruct (checkRequiredConfigValues c) as [[]| |] eqn:Hcheck; [|done..].
      injection H as <-. split; [done|]. intros _. by exists c.
Qed.

Lemma fatal_Ok_iff {A} msg (r : Res A) a : fatal msg r = Ok a ↔ r = Ok a.
Proof. by destruct r. Qed.

Lemma GetNodeID_in name peers : GetNodeID name peers ≠ "" →
  mkPeer (GetNodeID name peers) name ∈ peers.
Proof.
  induction peers as [|[i n] peers IH]; [done|]. cbn.
  destruct (String.eqb_spec n name) as [->|]; [by left|]. intros H. right. by apply IH.
Qed.

Lemma GetIDFromName_Ok name peers id : GetIDFromName name peers = Ok id →
  id ≠ "" ∧ mkPeer id name ∈ peers.
Proof.
  unfold GetIDFromName. cbv zeta. destruct (String.eqb_spec (GetNodeID name peers) "") as [|Hne];
    [done|]. intros [= <-]. split; [done|by apply GetNodeID_in].
Qed.

Lemma NewBadgerKV_Ok open mkdir name s c kv : GetConfig s = Ok c →
  NewBadgerKV open mkdir name s = Ok kv →
  cfg_BadgerPassword c ≠ "" ∧
  ∃ dir, BackupExecutor kv = Some (mkExecutor name (cfg_BadgerPassword c) dir) ∧ dir ≠ "" ∧
    ∃ path, open path (cfg_BadgerPassword c) = Ok (DB kv).
Proof.
  intros Hc. unfold NewBadgerKV, DBPath, BackupDir, BadgerPassword, current. rewrite Hc.
  unfold mbind, Res_bind. rewrite fatal_Ok_iff. unfold NewBadgerKVStore.
  cbn [bc_EncryptionKey bc_BackupEncryptionKey bc_NodeID bc_BackupDir bc_DBPath].
  destruct (String.eqb_spec (cfg_BadgerPassword c) ""); [done|].
  intros (db & Hdb & (ex & Hex & [= <-])%Res_bind_Ok)%Res_bind_Ok. split; [done|].
  unfold NewBadgerBackupExecutor in Hex. revert Hex. cbv zeta.
  destruct (mkdir _); [done|]. intros [= <-]. eexists. split; [done|].
  split; [|by eexists]. by apply (default_if_empty_ne _ Backup.defaultBackupDir).
Qed.

(** The current configuration is the one the caller of [Load] holds. *)
Lemma boot_config_current fl env cfg s :
  boot_config fl env not_loaded = Some (Ok cfg, s) →
  ∃ c, GetConfig s = Ok c ∧ allocated s !! cfg = Some c ∧ complete c ∧
    (fl_prompt_credentials fl = false → cfg_EventInitiatorPubKey c ≠ "").
Proof.
  intros (Hr & Happ & Hcheck)%boot_config_spec.
  destruct (GetConfig_reachable s Hr) as [[Hn _]|(c & Hc & Hcomp)]; [congruence|].
  assert (allocated s !! cfg = Some c) as Hall.
  { unfold GetConfig in Hc. rewrite Happ in Hc. cbn in Hc.
    destruct (allocated s !! cfg); by simplify_eq. }
  exists c. split; [done|]. split; [done|]. split; [done|]. intros Hp.
  destruct (Hcheck Hp) as (c' & Hc' & Hreq). rewrite Hall in Hc'. injection Hc' as <-.
  unfold checkRequiredConfigValues in Hreq.
  destruct (String.eqb (cfg_BadgerPassword c) ""); [done|].
  by destruct (String.eqb_spec (cfg_EventInitiatorPubKey c) "").
Qed.

Context {PreParams : Type}.
Variable Unmarshal_PreParams : string → Res PreParams.
Variable Marshal_PreParams : PreParams → Res string.
Variable GeneratePreParams : nat → Res PreParams.

(** C10: a node that gets as far as its consumers has a complete configuration and a
    password; it opened its database and will encrypt its backups with that password,
    under its own name; its id is the one registered for its name; its threshold and
    its three concurrency limits are positive, and its event consumer works with the
    configured numbers; unless the credentials are typed in, an initiator key is
    configured.  The event consumer's node is built on the same id, the ids of all
    registered peers and a registry that watches all of them but itself. *)
Theorem boot_guarantees fl env consul kv b ec s' :
  boot Unmarshal_PreParams Marshal_PreParams GeneratePreParams fl env consul kv not_loaded
    = Some (Ok (b, ec), s') →
  ∃ c, GetConfig s' = Ok c ∧ complete c ∧ cfg_BadgerPassword c ≠ "" ∧
    (fl_prompt_credentials fl = false → cfg_EventInitiatorPubKey c ≠ "") ∧
    (∃ dir, BackupExecutor (bo_store b) = Some (mkExecutor (fl_name fl) (cfg_BadgerPassword c) dir) ∧
       dir ≠ "" ∧ ∃ path, be_open env path (cfg_BadgerPassword c) = Ok (DB (bo_store b))) ∧
    bo_nodeID b ≠ "" ∧ mkPeer (bo_nodeID b) (fl_name fl) ∈ bo_peers b ∧
    ec_threshold ec = cfg_Threshold c ∧ 1 ≤ cfg_Threshold c ∧
    maxConcurrentKeygen ec = cfg_MaxConcurrentKeygen c ∧ 0 < maxConcurrentKeygen ec ∧
    maxConcurrentSigning ec = cfg_MaxConcurrentSigning c ∧ 0 < maxConcurrentSigning ec ∧
    maxConcurrentResharing ec = cfg_MaxConcurrentResharing c ∧ 0 < maxConcurrentResharing ec ∧
    node_nodeID (node ec) = bo_nodeID b ∧ node_peerIDs (node ec) = peer_ID <$> bo_peers b ∧
    NewRegistry (bo_nodeID b) (peer_ID <$> bo_peers b) (bo_identity b) (cfg_Threshold c)
      = Ok (peerRegistry (node ec)).
Proof.
  unfold boot. destruct (boot_config fl env not_loaded) as [[r s]|] eqn:Hboot; [|done].
  destruct r as [cfg| |]; [|done..]. cbn. intros [= H <-].
  apply boot_config_current in Hboot as (c & Hc & Hall & Hcomp & Hkey).
  apply Res_bind_Ok in H as (b' & Hstore & (ec' & Hnode & [= <- <-])%Res_bind_Ok).
  exists c. split; [done|]. split; [done|].
  (* the store *)
  unfold boot_store in Hstore. rewrite Hall in Hstore. cbn [of_option mbind Res_bind] in Hstore.
  apply Res_bind_Ok in Hstore as (api & _ & (peers & Hpeers &
    (id & Hid & (bkv & Hkv & (bk & _ & (ids & _ & [= <-])%Res_bind_Ok)%Res_bind_Ok)%Res_bind_Ok)
      %Res_bind_Ok)%Res_bind_Ok).
  apply (NewBadgerKV_Ok _ _ _ _ _ _ Hc) in Hkv as [Hpw Hexec].
  apply GetIDFromName_Ok in Hid as [Hid Hin].
  (* the node *)
  unfold boot_node in Hnode. cbv zeta in Hnode. unfold Threshold, current in Hnode.
  rewrite Hc in Hnode. cbn [mbind Res_bind bo_nodeID bo_peers bo_identity] in Hnode.
  apply Res_bind_Ok in Hnode as ([] & _ & (reg & Hreg & Hnode)%Res_bind_Ok).
  unfold NewNode, bindR in Hnode. destruct (generatePreParams _ _ _ kv) as [[pp| |] kv'];
    try discriminate Hnode.
  cbn [lift] in Hnode. apply Res_bind_Ok in Hnode as (pps & [= <-] & Hnode).
  rewrite (configured_consumer _ _ _ _ _ Hc Hcomp) in Hnode.
  destruct Hcomp as [_ _ _ _ _ _ Hk Hg Hr _].
  destruct (Z.ltb_spec (cfg_MaxConcurrentKeygen c) 0), (Z.ltb_spec (cfg_MaxConcurrentSigning c) 0),
    (Z.ltb_spec (cfg_MaxConcurrentResharing c) 0); cbn [orb] in Hnode; try discriminate Hnode.
  injection Hnode as <-. unfold GetPeerIDs in *. cbn.
  assert (1 ≤ cfg_Threshold c).
  { unfold NewRegistry in Hreg. destruct (Z.ltb_spec (cfg_Threshold c) 1); [done|lia]. }
  repeat (split; [done || lia|]). done.
Qed.

End boot_props.

(** ** Recovery *)

Section recovery.
Context `{C : Crypto} `{!CryptoSpec C} `{B : Badger} `{!BadgerSpec B}.
Variable Unmarshal_Meta : string → Res BadgerBackupMeta.
Variable Unmarshal_VersionInfo : string → Res BadgerBackupVersionInfo.
Hypothesis Unmarshal_Meta_encode : ∀ m, ascii_meta m →
  Unmarshal_Meta (encode (BadgerBackupMeta_json m)) = Ok m.
Hypothesis Unmarshal_VersionInfo_encode : ∀ i, ascii_info i →
  Unmarshal_VersionInfo (encode (BadgerBackupVersionInfo_json i)) = Ok i.

Hypothesis aes_Open_cut : ∀ k n p m, (m < String.length (aes_Seal k n p))%nat →
  aes_Open k n (take_s m (aes_Seal k n p)) = None.

(** With its checks passed, the command restores with the given key. *)
Lemma recoverDatabase_key mkdir stat_target force b backupDir path d :
  BackupEncryptionKey b ≠ "" →
  mkdir (if String.eqb backupDir "" then Backup.defaultBackupDir else backupDir) = None →
  stat_target = false ∨ force = true →
  recoverDatabase mkdir Unmarshal_Meta true stat_target force (Ok (BackupEncryptionKey b))
    (Ok tt) (Ok tt) (Ok tt) backupDir path d
  = wrap_err "recovery failed: " (RestoreAllBackupsEncrypted Unmarshal_Meta b (Ok tt) (Ok tt) d).
Proof.
  intros Hkey Hmk Htarget. unfold recoverDatabase. cbn [negb].
  replace (stat_target && negb force) with false
    by (by destruct Htarget as [-> | ->]; [|rewrite andb_false_r]).
  cbn [wrap_err mbind Res_bind]. rewrite (proj2 (String.eqb_neq _ _) Hkey).
  unfold NewBadgerBackupExecutor. cbv zeta. cbn [mbind Res_bind]. rewrite Hmk.
  cbn [mbind Res_bind]. unfold RestoreAllBackupsEncrypted.
  rewrite (restore_files_key Unmarshal_Meta _ b) by done. by destruct force.
Qed.

(** C30: the recovery command, run with the node's password on the directory that the
    node's backup job has filled - after any sequence of writes, backups with later and
    later time stamps, and failed or cut-off backups, the last of which succeeded - rebuilds
    the live database as it was at that last backup, although it works under another node
    name, and also when that backup found nothing new.  But when any earlier backup left a
    file that was cut off, the recovery never succeeds.  The target must be free or be
    overwritten. *)
Theorem recovery_after_backups b db0 es last d kv env d' mkdir stat_target force backupDir path :
  runs (backup_step Unmarshal_Meta Unmarshal_VersionInfo b) (new_world db0) es
    (mkWorld last d (DB kv)) →
  next_stamp last env → save_ok Unmarshal_VersionInfo env d →
  BackupExecutor kv = Some b → BackupEncryptionKey b ≠ "" →
  BadgerKVStore_Backup Unmarshal_VersionInfo kv env d = (Ok tt, d') →
  mkdir (if String.eqb backupDir "" then Backup.defaultBackupDir else backupDir) = None →
  stat_target = false ∨ force = true →
  let recovered := recoverDatabase mkdir Unmarshal_Meta true stat_target force
    (Ok (BackupEncryptionKey b)) (Ok tt) (Ok tt) (Ok tt) backupDir path d' in
  if existsb is_cut es then ∀ r, recovered ≠ Ok r
  else ∃ r, recovered = Ok r ∧ ∀ k, db_get r k = db_get (DB kv) k.
Proof.
  intros Hrun Hnext Hsave Hex Hkey Hback Hmk Htarget. unfold BadgerKVStore_Backup in Hback.
  rewrite Hex in Hback. cbv zeta.
  rewrite (recoverDatabase_key _ _ _ b) by done.
  destruct (runs_inv _ _ Unmarshal_Meta_encode Unmarshal_VersionInfo_encode aes_Open_cut
    _ _ _ _ Hrun) as (Hnames & Hstate). destruct (existsb is_cut es).
  - destruct (damaged_step _ _ _ _ _ _ _ _ _ Hnames Hnext Hstate Hback (or_introl eq_refl))
      as [_ Hdam]. intros r Hr%wrap_err_Ok. by apply damaged_restore in Hr.
  - destruct Hstate as (v0 & r0 & Hinv).
    destruct (backup_inv_step _ _ Unmarshal_Meta_encode Unmarshal_VersionInfo_encode
      _ _ _ _ _ _ _ _ Hnames Hinv Hnext Hsave Hback) as (v' & r & Hinv' & Hget).
    exists r. split; [|done]. apply wrap_err_Ok. by eapply backup_inv_restore.
Qed.

End recovery.

(** *** Witnesses *)

Section witnesses.

#[local] Existing Instance toy_crypto.
#[local] Existing Instance toy_badger.
#[local] Existing Instance map_to_list_range.
#[local] Existing Instance tss_ref.
#[local] Existing Instance lo_ref.
#[local] Existing Instance kv_ref.
#[local] Existing Instance consul_ref.

Definition toy_config : Config :=
  mkConfig (Some (mkConsulConfig "localhost:8500" "" "" "")) None "" "secret" "" "" true 0 ""
    "abcd" 0 0 0 0 0.

#[local] Instance toy_config_viper : Viper := {|
  settings := unit;
  ReadInConfig _ _ := Ok tt;
  NewDecoder := Ok tt;
  Decode _ := Ok toy_config;
|}.

Definition toy_boot_env : boot_env := {|
  be_MPC_CONFIG_FILE := "";
  be_password_file := Err (errors_New "no file");
  be_prompts := [];
  be_consul_default := mkApiConfig "" "" None;
  be_consul := λ _, Ok tt;
  be_leader := λ _, Ok tt;
  be_open _ _ := Ok "log";
  be_mkdir _ := None;
  be_identity _ := Ok (mkFileStore "identity" "node0" ∅ toy_key64
                         (mkInitiatorKey EventInitiatorKeyTypeEd25519 toy_initiator None) ∅);
  be_messaging := Ok tt;
|}.

Definition toy_boot : option (Res (booted * eventConsumer (R := registry)) * config_store) :=
  boot (PreParams := unit) (λ _, Ok tt) (λ _, Ok "params") (λ _, Ok tt)
    (mkFlags "node2" "" false "") toy_boot_env (toy_consul : gmap string string)
    (∅ : gmap string string) not_loaded.

Lemma boot_guarantees_witness : ∃ b ec s' c, toy_boot = Some (Ok (b, ec), s') ∧
  GetConfig s' = Ok c ∧ bo_nodeID b ≠ "" ∧ maxConcurrentSigning ec = cfg_MaxConcurrentSigning c.
Proof.
  assert (∃ b ec s', toy_boot = Some (Ok (b, ec), s')) as (b & ec & s' & H).
  { assert (match toy_boot with Some (Ok _, _) => True | _ => False end) as Ht
      by (vm_compute; exact I).
    destruct toy_boot as [[[[b ec]| |] s']|]; [by eexists _, _, _|destruct Ht..]. }
  exists b, ec, s'.
  destruct (boot_guarantees (CK := consul_ref) (KV := kv_ref) (B := toy_badger)
    (λ _, Ok tt) (λ _, Ok "params") (λ _, Ok tt)
    (mkFlags "node2" "" false "") toy_boot_env (toy_consul : gmap string string)
    (∅ : gmap string string) b ec s' H)
    as (c & Hc & _ & _ & _ & _ & Hid & _ & _ & _ & _ & _ & Hs & _).
  exists c. split; [exact H|]. split; [exact Hc|]. split; [exact Hid|exact Hs].
Defined.

Definition undisturbed4 : backup_env :=
  mkEnv "2026-01-01_00-15-00" "2026-01-01T00:15:00Z" "nonce-000004" None None None None.

(** After two backups, and after two and one that was cut off. *)
Lemma recovery_after_backups_witness :
  let backed_up live env d := (BadgerKVStore_Backup (B := toy_badger) (C := sealing_crypto)
    read_VersionInfo (mkBadgerKVStore live (Some toy_executor)) env d).2 in
  let recover d := recoverDatabase (B := toy_badger) (C := sealing_crypto) (λ _, None) read_Meta
    true false false (Ok (BackupEncryptionKey toy_executor)) (Ok tt) (Ok tt) (Ok tt)
    "./backups" "./restored" d in
  (∃ r, recover (backed_up "first, then second" undisturbed3 (bw_dir toy_world)) = Ok r ∧
     ∀ k, db_get (Badger := toy_badger) r k = db_get (Badger := toy_badger) "first, then second" k) ∧
  ∀ r, recover (backed_up "first, then second, third" undisturbed4 (bw_dir toy_cut_world)) ≠ Ok r.
Proof.
  cbv zeta. split.
  - apply (@recovery_after_backups sealing_crypto sealing_crypto_spec toy_badger toy_badger_spec
             read_Meta read_VersionInfo read_Meta_encode read_VersionInfo_encode sealing_cut
             toy_executor "first" toy_labels (Some (stamp unsaved2)) (bw_dir toy_world)
             (mkBadgerKVStore (B := toy_badger) "first, then second" (Some toy_executor))
             undisturbed3).
    + apply toy_runs.
    + split; [apply toy_env3|]. vm_compute. reflexivity.
    + intros rest Hrest. discriminate Hrest.
    + reflexivity.
    + vm_compute. discriminate.
    + apply run_of_eval. vm_compute. reflexivity.
    + reflexivity.
    + by left.
  - apply (@recovery_after_backups sealing_crypto sealing_crypto_spec toy_badger toy_badger_spec
             read_Meta read_VersionInfo read_Meta_encode read_VersionInfo_encode sealing_cut
             toy_executor "first" (toy_labels ++ [BWrite; BCut full_disk])
             (Some (stamp cut3)) (bw_dir toy_cut_world)
             (mkBadgerKVStore (B := toy_badger) "first, then second, third" (Some toy_executor))
             undisturbed4).
    + apply toy_cut_runs.
    + split; [by split|]. vm_compute. reflexivity.
    + intros rest Hrest. discriminate Hrest.
    + reflexivity.
    + vm_compute. discriminate.
    + apply run_of_eval. vm_compute. reflexivity.
    + reflexivity.
    + by left.
Defined.

End witnesses.
