(* ===== verification/Examples.v ===== *)
(** * src/examples and src/scripts: the programs that use the client library

    The set-up the examples share, the loop of the key generation examples with its wait
    group and its listener, the ends of the signing and the resharing example, and the
    script that prints the keys of a database. *)

From stdpp Require Import base gmap list strings.
From Stdlib Require Import ZArith Lia Ascii.
From S2P Require Import Prelude.
From S2P Require Import GoStrings.
From S2P Require Import External.
From S2P Require Import Json.
From S2P Require Import Types.
From S2P Require Import Identity.
From S2P Require Import BadgerKV.
From S2P Require Import Node.
From S2P Require Import Client.
From S2P Require Import Topology.
From S2P Require Import Keys.
From S2P Require Import InitiatorKeys.
From S2P Require Import Benchmark.
From S2P Require Import Config.

(** ** The set-up *)

Section setup.
Context `{C : Crypto} `{P : P256} `{X : X509Keys} `{A : Age} `{E : Ed25519Seed}.
Variable context : Res unit.
Variable create_stream : Messaging.StreamConfig → Res unit.
Variable create_results : Messaging.queueConfig → Res unit.
Variable create_consumer : Messaging.queueConsumer → Res unit.

Definition example_algorithm (configured : string) : Res string :=
  let algorithm := if String.eqb configured "" then EventInitiatorKeyTypeEd25519 else configured in
  if negb (slices_Contains [EventInitiatorKeyTypeEd25519; EventInitiatorKeyTypeP256] algorithm)
  then Panic ("invalid algorithm: " +:+ algorithm +:+ ". Must be " +:+
              EventInitiatorKeyTypeEd25519 +:+ " or " +:+ EventInitiatorKeyTypeP256)
  else Ok algorithm.

(** Configuration, algorithm, connection, signer, client: each failure is fatal. *)
Definition example_client (load : Res Config) (nats : Res unit) (o : os) (d : gmap string string) :
    M js_state (Res (initiator LocalSigner)) :=
  cfg ←! lift (fatal load "Failed to load config");
  algorithm ←! lift (example_algorithm (cfg_EventInitiatorAlgorithm cfg));
  _ ←! lift (fatal nats "Failed to connect to NATS");
  localSigner ←! lift (fatal (NewLocalSigner_file o d algorithm
                                (mkSignerOptions "./event_initiator.key" false ""))
                         "Failed to create local signer");
  NewMPCClient context create_stream create_results create_consumer (Some localSigner).

Definition awsRegion : string := "ap-southeast-1".
Definition kmsKeyID : string := "48e76117-fd08-4dc0-bd10-b1c7d01de748".

(** The signer of the KMS example; the public key is asked for to log it. *)
Definition kms_example_client (parse : string → Res (option ecdsa_PublicKey))
    (connect : kms_config → Res kms_client) (load : Res Config) (nats : Res unit) :
    M js_state (Res (initiator KMSSigner)) :=
  _ ←! lift (fatal load "Failed to load config");
  _ ←! lift (fatal nats "Failed to connect to NATS");
  kmsSigner ←! lift (fatal (NewKMSSigner parse connect EventInitiatorKeyTypeP256
                              (mkKMSOptions awsRegion kmsKeyID "http://localhost:4566" "test" "test"))
                       "Failed to create KMS signer");
  _ ←! lift (fatal (KMSSigner_PublicKey kmsSigner) "Failed to get public key from KMS signer");
  NewMPCClient context create_stream create_results create_consumer (Some kmsSigner).

End setup.

(** ** examples/keygen: creating wallets *)

(** [toCreate]: what the loop has left of [walletIDs]; [creating]: the wallet between
    [wg.Add] and the return of [CreateWallet].  [surplus] counts the calls of [wg.Done]
    for a wallet that was not waited for. *)
Record wallets := mkWallets {
  walletStartTimes : gmap string Z;
  toCreate : list string;
  creating : option string;
  wl_wg : Z;
  completedCount : Z;                     (* an int32 *)
  surplus : nat;
}.

Definition wrap32 (z : Z) : Z := (z + 2 ^ 31) mod 2 ^ 32 - 2 ^ 31.

(** STEP 1: all ids with their start times, before anything is sent. *)
Definition store_ids (ids : list string) (now : string → Z) : wallets :=
  mkWallets (foldl (λ m id, <[id := now id]> m) ∅ ids) ids None 0 0 0.

(** STEP 3, up to the call of [CreateWallet]. *)
Definition create_next (e : wallets) : option wallets :=
  match creating e, toCreate e with
  | None, id :: rest =>
      Some (mkWallets (walletStartTimes e) rest (Some id) (wl_wg e + 1) (completedCount e)
              (surplus e))
  | _, _ => None
  end.

Definition is_open (id : string) (e : wallets) : bool :=
  bool_decide (is_Some (walletStartTimes e !! id)).

(** [walletStartTimes.Delete(id)] and [wg.Done()]. *)
Definition settle (id : string) (sending : option string) (count : Z) (e : wallets) : Res wallets :=
  wg ← wg_Done (wl_wg e);
  Ok (mkWallets (delete id (walletStartTimes e)) (toCreate e) sending wg count
        (surplus e + (if is_open id e then 0 else 1))).

Definition created (answer : option error) (e : wallets) : option (Res wallets) :=
  match creating e with
  | None => None
  | Some id =>
      Some match answer with
           | None => Ok (mkWallets (walletStartTimes e) (toCreate e) None (wl_wg e)
                           (completedCount e) (surplus e))
           | Some _ => settle id None (completedCount e) e
           end
  end.

(** STEP 2, the listener: a result that is not for one of the wallets is only logged,
    but [wg.Done] is called all the same. *)
Definition on_wallet (id : string) (e : wallets) : Res wallets :=
  settle id (creating e)
    (if is_open id e then wrap32 (completedCount e + 1) else completedCount e) e.

(** The loop is over and [wg.Wait] returns. *)
Definition all_generated (e : wallets) : bool :=
  match toCreate e, creating e with [], None => wl_wg e =? 0 | _, _ => false end.

Inductive wallet_action :=
| WCreate
| WCreated (answer : option error)
| WResult (walletID : string).

Definition wallet_do (a : wallet_action) (e : wallets) : option (Res wallets) :=
  match a with
  | WCreate => Ok <$> create_next e
  | WCreated answer => created answer e
  | WResult id => Some (on_wallet id e)
  end.

(** A run, as far as the process has not ended: it may go on when [wg.Wait] could have
    returned, until the goroutine that waits gets to run.  A panic ends it. *)
Fixpoint wallet_run (l : list wallet_action) (e : wallets) : option (Res wallets) :=
  match l with
  | [] => Some (Ok e)
  | a :: l =>
      r ← wallet_do a e;
      match r with Ok e => wallet_run l e | Err x => Some (Err x) | Panic w => Some (Panic w) end
  end.

(** [json.MarshalIndent] of the slice of ids, which is nil without any. *)
Definition wallets_json (ids : list string) : string :=
  let newline := str1 (chr 10) in
  match ids with
  | [] => "null"
  | _ => "[" +:+ newline +:+
         concat_with ("," +:+ newline) ((λ id, "  " +:+ json_string id) <$> ids) +:+ newline +:+ "]"
  end.

(** The goroutine's last steps, before it exits with 0: a failed write is only logged. *)
Definition save_wallets (ids : list string) (write : option error) (d : gmap string string) :
    gmap string string :=
  match write with None => <["wallets.json" := wallets_json ids]> d | Some _ => d end.

(** ** examples/signing and examples/resharing: one request, one result *)

(** What the two programs wait for at the end. *)
Inductive wait_event {E : Type} :=
| Delivered (result : E)
| Interrupted.
Arguments wait_event E : clear implicits.

(** The [select] over the channel the listener writes to and that of the signals. *)
Definition wait_done {E} (events : list (wait_event E)) : option (option E) :=
  match events with
  | [] => None
  | Delivered result :: _ => Some (Some result)
  | Interrupted :: _ => Some None
  end.

Section requests.
Context {S : Type} `{Sg : Signer S}.
Variable closed : bool.
Variable publish : broker → string → string → Res unit.

Definition on_log {A} (m : M published A) : M (published * messageQueue) A := λ w,
  let '(a, log) := m w.1 in (a, (log, w.2)).
Definition on_queue {A} (m : M messageQueue A) : M (published * messageQueue) A := λ w,
  let '(a, q) := m w.2 in (a, (w.1, q)).

Definition example_signing (txID : string) : SigningMessage :=
  mkSigningMessage KeyTypeEd25519 "d80cb708-e0d2-49de-b5e9-bc7d62400aff" txID
    (Some "deadbeef") None.

(** The request is sent before its results are listened to: their queue keeps them. *)
Definition signing_example (mpcClient : S) (txID : string) (consume : Res unit)
    (events : list (wait_event SigningResponse)) :
    M (published * messageQueue) (Res (option (option SigningResponse))) := λ w,
  let '((r, _), log) := SignTransaction closed publish mpcClient (example_signing txID) w.1 in
  (_ ←! lift (fatal r "SignTransaction failed");
   r ←! on_queue (λ q, let '(r, q) := OnSignResult consume q in (Ok r, q));
   _ ←! lift (fatal r "Failed to subscribe to OnSignResult");
   lift (Ok (wait_done events))) (log, w.2).

Definition example_resharing (sessionID : string) : ResharingMessage :=
  mkResharingMessage sessionID
    (Some ["59271e38-e8cd-458c-86e8-5a05be9da515"; "905646c8-bdd4-4318-b603-84b30844b1a5"])
    1 KeyTypeEd25519 "f7260d50-4a3c-4748-b507-8cd5422ef85f" None.

Definition resharing_example (mpcClient : S) (sessionID : string) (consume : Res unit)
    (events : list (wait_event ResharingResponse)) :
    M (published * messageQueue) (Res (option (option ResharingResponse))) :=
  r ←! on_queue (λ q, let '(r, q) := OnResharingResult consume q in (Ok r, q));
  _ ←! lift (fatal r "Failed to subscribe to OnResharingResult");
  r ←! on_log (λ log, let '((r, _), log) :=
         Resharing closed publish mpcClient (example_resharing sessionID) log in (Ok r, log));
  _ ←! lift (fatal r "Resharing failed");
  lift (Ok (wait_done events)).

End requests.

(** ** scripts/print-keys *)

Section print.
Context `{B : BadgerDB}.

(** [fmt.Print] to the standard output. *)
Definition out (s : string) : M (list string) (Res unit) := modifyR (λ o, o ++ [s]).

Definition newline : string := str1 (chr 10).

(** The loop over the iterator, with the number of keys it has printed. *)
Fixpoint print_loop (fuel : nat) (it : badger_Iterator) (count : Z) : M (list string) (Res Z) :=
  match fuel with
  | O => lift (Ok count)
  | Datatypes.S fuel =>
      if it_Valid it then
        let count := count + 1 in
        _ ←! out (fmt_d count +:+ ". " +:+ it_Key it +:+ newline);
        print_loop fuel (it_Next it) count
      else lift (Ok count)
  end.

(** [%v] keeps an error's text only. *)
Definition Errorf_v {A} (prefix : string) (r : Res A) : Res A :=
  match r with Err e => Err (errors_New (prefix +:+ Error e)) | _ => r end.

(** [open]: badger, with the password as the key of the database and read only. *)
Definition printKeys (fuel : nat) (dbPath : string) (password : Res string)
    (open : string → string → Res badger_DB) : M (list string) (Res unit) :=
  _ ←! out "Enter database password: ";
  password ←! lift (Errorf_v "failed to read password: " password);
  _ ←! out newline;
  db ←! lift (Errorf_v "failed to open BadgerDB: " (open dbPath password));
  _ ←! out ("Opening database at: " +:+ dbPath +:+ newline);
  _ ←! out ("=== All Keys in Database ===" +:+ newline);
  r ←! (λ o, let '(r, o) := db_View (λ txn : badger_Txn,
         count ←! print_loop fuel (it_Rewind (txn_NewIterator txn)) 0;
         if count =? 0 then out ("No keys found in the database." +:+ newline)
         else out (newline +:+ "Total keys: " +:+ fmt_d count +:+ newline)) db o in (Ok r, o));
  lift (Errorf_v "failed to iterate over database: " r).

End print.

(** ** Properties *)

(** *** The wait group of the key generation examples *)

Lemma wg_Done_cases w : (wg_Done w = Ok (w - 1) ∧ 1 ≤ w) ∨
  (wg_Done w = Panic "sync: negative WaitGroup counter" ∧ w < 1).
Proof. unfold wg_Done. destruct (Z.ltb_spec (w - 1) 0); [right|left]; split; done || lia. Qed.

Lemma size_delete_open id e :
  Z.of_nat (size (delete id (walletStartTimes e))) =
  Z.of_nat (size (walletStartTimes e)) - (if is_open id e then 1 else 0).
Proof.
  unfold is_open. destruct (walletStartTimes e !! id) as [t|] eqn:Hid.
  - rewrite bool_decide_eq_true_2 by done.
    pose proof (map_size_ne_0_lookup_2 (walletStartTimes e) id ltac:(done)).
    rewrite map_size_delete, Hid. lia.
  - rewrite bool_decide_eq_false_2 by (intros [? [=]]). rewrite delete_id by done. lia.
Qed.

Definition counts (e : wallets) : Prop :=
  wl_wg e = Z.of_nat (size (walletStartTimes e)) - Z.of_nat (length (toCreate e))
            - Z.of_nat (surplus e) ∧ 0 ≤ wl_wg e.

Lemma settle_Ok id sending count e e' : settle id sending count e = Ok e' →
  1 ≤ wl_wg e ∧
  e' = mkWallets (delete id (walletStartTimes e)) (toCreate e) sending (wl_wg e - 1) count
         (surplus e + (if is_open id e then 0 else 1)).
Proof.
  unfold settle. destruct (wg_Done_cases (wl_wg e)) as [[-> ?]|[-> ?]]; cbn; [|done].
  by intros [= <-].
Qed.

Lemma settle_counts id sending count e e' :
  counts e → settle id sending count e = Ok e' → counts e'.
Proof.
  intros [Hw H0] [H1 ->]%settle_Ok. unfold counts. cbn. rewrite size_delete_open.
  destruct (is_open id e); lia.
Qed.

Lemma wallet_do_counts a e e' : counts e → wallet_do a e = Some (Ok e') → counts e'.
Proof.
  intros Hc. destruct a as [|[x|]|id]; cbn.
  - unfold create_next. destruct (creating e); [done|].
    destruct (toCreate e) as [|i rest] eqn:Ht; [done|]. intros [= <-].
    destruct Hc as [Hw H0]. rewrite Ht in Hw. unfold counts. cbn in *. lia.
  - unfold created. destruct (creating e); [|done]. intros [= H]. by eapply settle_counts.
  - unfold created. destruct (creating e); [|done]. by intros [= <-].
  - intros [= H]. by eapply settle_counts.
Qed.

Lemma wallet_run_cons a l e e' : wallet_run (a :: l) e = Some (Ok e') →
  ∃ e1, wallet_do a e = Some (Ok e1) ∧ wallet_run l e1 = Some (Ok e').
Proof. cbn. intros (r & Ha & Hr)%bind_Some. destruct r as [e1| |]; [by exists e1|done..]. Qed.

Lemma wallet_run_counts l e e' : counts e → wallet_run l e = Some (Ok e') → counts e'.
Proof.
  revert e. induction l as [|a l IH]; intros e Hc Hr; [by injection Hr as <-|].
  apply wallet_run_cons in Hr as (e1 & Ha & Hr). eapply IH; [|done]. by eapply wallet_do_counts.
Qed.

Lemma dom_store_ids now ids (m : gmap string Z) :
  dom (foldl (λ m id, <[id := now id]> m) m ids) = list_to_set ids ∪ dom m.
Proof.
  revert m. induction ids as [|i ids IH]; intros m; cbn; [set_solver|].
  rewrite IH. set_solver.
Qed.

Lemma store_ids_counts ids now : NoDup ids →
  size (walletStartTimes (store_ids ids now)) = length ids ∧ counts (store_ids ids now).
Proof.
  intros Hnd. assert (size (walletStartTimes (store_ids ids now)) = length ids) as Hs.
  { rewrite <-size_dom. cbn. rewrite dom_store_ids, dom_empty_L, union_empty_r_L.
    by apply size_list_to_set. }
  split; [done|]. unfold counts. rewrite Hs. cbn. lia.
Qed.

(** The requests that could not be sent. *)
Fixpoint failed_sends (l : list wallet_action) : Z :=
  match l with
  | [] => 0
  | WCreated (Some _) :: l => 1 + failed_sends l
  | _ :: l => failed_sends l
  end.

Lemma surplus_mono_do a e e' : wallet_do a e = Some (Ok e') → (surplus e ≤ surplus e')%nat.
Proof.
  destruct a as [|[x|]|id]; cbn.
  - unfold create_next. destruct (creating e); [done|].
    destruct (toCreate e); [done|]. by intros [= <-].
  - unfold created. destruct (creating e); [|done]. intros [= [_ ->]%settle_Ok]. cbn. lia.
  - unfold created. destruct (creating e); [|done]. by intros [= <-].
  - intros [= [_ ->]%settle_Ok]. cbn. lia.
Qed.

Lemma surplus_mono l e e' : wallet_run l e = Some (Ok e') → (surplus e ≤ surplus e')%nat.
Proof.
  revert e. induction l as [|a l IH]; intros e Hr; [by injection Hr as <-|].
  apply wallet_run_cons in Hr as (e1 & Ha%surplus_mono_do & Hr%IH). lia.
Qed.

Lemma wrap32_small z : 0 ≤ z < 2 ^ 31 → wrap32 z = z.
Proof. intros Hz. unfold wrap32. rewrite Z.mod_small; lia. Qed.

(** As long as [wg.Done] is called for open wallets only, they are reported or failed. *)
Lemma completed_run l e e' : wallet_run l e = Some (Ok e') → surplus e' = 0%nat →
  0 ≤ completedCount e → completedCount e + Z.of_nat (size (walletStartTimes e)) < 2 ^ 31 →
  completedCount e' = completedCount e + Z.of_nat (size (walletStartTimes e))
                      - Z.of_nat (size (walletStartTimes e')) - failed_sends l.
Proof.
  revert e. induction l as [|a l IH]; intros e Hr Hs H0 Hb; [injection Hr as <-; cbn; lia|].
  apply wallet_run_cons in Hr as (e1 & Ha & Hr).
  pose proof (surplus_mono _ _ _ Hr) as Hm. specialize (IH e1 Hr Hs).
  assert (∀ id sending count, settle id sending count e = Ok e1 →
    completedCount e1 = count ∧
    Z.of_nat (size (walletStartTimes e1)) = Z.of_nat (size (walletStartTimes e)) - 1 ∧
    is_open id e = true) as Hsettle.
  { intros id sending count [_ ->]%settle_Ok. cbn in *. rewrite size_delete_open.
    destruct (is_open id e); [done|lia]. }
  destruct a as [|[x|]|id]; cbn in Ha.
  - unfold create_next in Ha. destruct (creating e); [done|].
    destruct (toCreate e); [done|]. injection Ha as <-. cbn in *. by apply IH.
  - unfold created in Ha. destruct (creating e); [|done]. injection Ha as Ha.
    apply Hsettle in Ha as (Hc & Hsz & _). cbn [failed_sends]. lia.
  - unfold created in Ha. destruct (creating e); [|done]. injection Ha as <-. by apply IH.
  - injection Ha as Ha. unfold on_wallet in Ha. apply Hsettle in Ha as (Hc & Hsz & Hopen).
    rewrite Hopen in Hc. rewrite wrap32_small in Hc by lia. cbn [failed_sends]. lia.
Qed.

(** What the key generation example waits for.  In every run that has not panicked
    the wait group counts the wallets that are open and have been asked for, less the
    results that were for no open wallet.  So when the wait ends, exactly as many
    wallets are still open as such results have come; without any, every wallet was
    reported or its request could not be sent, and the count that is logged is the number
    of those reported. *)
Theorem wallets_waited_for ids now l e (Hnd : NoDup ids)
    (Hr : wallet_run l (store_ids ids now) = Some (Ok e)) :
  wl_wg e = Z.of_nat (size (walletStartTimes e)) - Z.of_nat (length (toCreate e))
            - Z.of_nat (surplus e) ∧ 0 ≤ wl_wg e ∧
  (all_generated e = true → size (walletStartTimes e) = surplus e ∧
    (surplus e = 0%nat → Z.of_nat (length ids) < 2 ^ 31 →
     walletStartTimes e = ∅ ∧ completedCount e = Z.of_nat (length ids) - failed_sends l)).
Proof.
  destruct (store_ids_counts ids now Hnd) as [Hsize Hc0].
  pose proof (wallet_run_counts _ _ _ Hc0 Hr) as [Hw H0]. split_and!; [done..|].
  unfold all_generated. destruct (toCreate e); [|done]. destruct (creating e); [done|].
  intros Hz%Z.eqb_eq. cbn in Hw. assert (size (walletStartTimes e) = surplus e) as Hs by lia.
  split; [done|]. intros Hsur Hlen. rewrite Hsur in Hs. split; [by apply map_size_empty_inv|].
  rewrite (completed_run _ _ _ Hr Hsur) by (rewrite ?Hsize; cbn; lia). rewrite Hsize, Hs. cbn. lia.
Qed.

(** One result of another client ends the wait for a wallet; one more panics. *)
Lemma foreign_result_ends_wait :
  let l := [WCreate; WCreated None; WResult "of another client"] in
  ∃ e, wallet_run l (store_ids ["w"] (λ _, 0)) = Some (Ok e) ∧ all_generated e = true ∧
    is_open "w" e = true ∧
    wallet_do (WResult "w") e = Some (Panic "sync: negative WaitGroup counter").
Proof. eexists. by split_and!. Qed.

(** *** The keys that are printed *)

Section print_props.
Context `{B : BadgerDB} `{!BadgerDBSpec B}.

Definition key_line (n : Z) (key : string) : string := fmt_d n +:+ ". " +:+ key +:+ newline.

Definition total_line (n : nat) : string :=
  if (n =? 0)%nat then "No keys found in the database." +:+ newline
  else newline +:+ "Total keys: " +:+ fmt_d (Z.of_nat n) +:+ newline.

Lemma print_loop_ahead fuel it c o : (length (ahead it) < fuel)%nat →
  print_loop fuel it c o =
  (Ok (c + Z.of_nat (length (ahead it))),
   o ++ imap (λ i, key_line (c + 1 + Z.of_nat i)) (ahead it)).
Proof.
  revert it c o. induction fuel as [|fuel IH]; intros it c o Hl; [lia|]. cbn [print_loop].
  rewrite it_Valid_spec. destruct (ahead it) as [|k l] eqn:Ha.
  - cbn. by rewrite Z.add_0_r, app_nil_r.
  - destruct (it_Key_spec it k l Ha) as [Hk Hn]. unfold bindR, out, modifyR.
    rewrite IH by (rewrite Hn; cbn in Hl; lia). rewrite Hk, Hn. cbn [length]. rewrite imap_cons.
    rewrite <-app_assoc. f_equal; [f_equal; lia|]. cbn [app].
    change (Z.of_nat 0) with 0. rewrite (Z.add_0_r (c + 1)). do 2 f_equal.
    apply imap_ext. intros i x _. cbn. f_equal. lia.
Qed.

(** The script prints the database: on a database that opens, each key is on one
    line, numbered from 1, and the last line has their number; any other outcome is an
    error before the first key. *)
Theorem printKeys_lists fuel dbPath pw open :
  match open dbPath pw with
  | Ok d => closed d = false → (size (contents d) < fuel)%nat →
      ∃ keys, keys ≡ₚ (map_to_list (contents d)).*1 ∧
        printKeys fuel dbPath (Ok pw) open [] =
        (Ok tt, ["Enter database password: "; newline;
                 "Opening database at: " +:+ dbPath +:+ newline;
                 "=== All Keys in Database ===" +:+ newline] ++
                imap (λ i, key_line (1 + Z.of_nat i)) keys ++ [total_line (length keys)])
  | Err e => printKeys fuel dbPath (Ok pw) open [] =
      (Err (errors_New ("failed to open BadgerDB: " +:+ Error e)),
       ["Enter database password: "; newline])
  | Panic _ => True
  end.
Proof.
  destruct (open dbPath pw) as [d|e|w] eqn:Hopen.
  - intros Hd Hf. unfold printKeys. unfold bindR at 1 2 3 4 5 6, out at 1 2 3 4, modifyR, lift at 1 2.
    cbn [Errorf_v]. rewrite Hopen. cbn [Errorf_v app]. unfold bindR at 1.
    match goal with |- context [db_View ?fn d ?s] =>
      destruct (db_View_spec fn d s Hd) as (t & Hv & ->) end.
    pose proof (it_start t) as Hp. rewrite Hv in Hp.
    set (keys := ahead (it_Rewind (txn_NewIterator t))) in *. exists keys. split; [done|].
    unfold bindR. rewrite print_loop_ahead.
    2: { fold keys. rewrite Hp, length_fmap, length_map_to_list. done. }
    fold keys. cbn [Z.add]. unfold total_line, out, modifyR, lift.
    destruct keys as [|k ks]; [done|]. cbn [length Nat.eqb Z.of_nat Z.eqb].
    by rewrite <-!app_assoc.
  - unfold printKeys, bindR, out, modifyR, lift. cbn [Errorf_v]. by rewrite Hopen.
  - done.
Qed.

End print_props.

(** *** One request, one result *)

Section request_props.
Context {S : Type} `{Sg : Signer S}.
Variable closed : bool.
Variable publish : broker → string → string → Res unit.

(** The two examples get as far as waiting exactly when their request is published and
    the subscription is made; they end with the first result that is delivered,
    whatever it is about and also when it is an error. *)
Lemma signing_example_ends (s : S) txID consume events log q r w' :
  signing_example closed publish s txID consume events (log, q) = (Ok r, w') →
  r = wait_done events ∧ consume = Ok tt ∧
  ∃ m log', SignTransaction closed publish s (example_signing txID) log = ((Ok tt, m), log') ∧
    w'.1 = log' ∧ w'.2 = (OnSignResult (Ok tt) q).2.
Proof.
  unfold signing_example. cbn [fst snd].
  destruct (SignTransaction _ _ _ _ _) as [[[[]|e|p] m] log'] eqn:Hs; [|done..].
  destruct consume as [[]|e|p]; cbn; [|done..]. intros [= <- <-]. cbn.
  split_and!; [done..|]. by exists m, log'.
Qed.

Lemma resharing_example_ends (s : S) sid consume events log q r w' :
  resharing_example closed publish s sid consume events (log, q) = (Ok r, w') →
  r = wait_done events ∧ consume = Ok tt ∧
  ∃ m log', Resharing closed publish s (example_resharing sid) log = ((Ok tt, m), log') ∧
    w'.1 = log' ∧ w'.2 = (OnResharingResult (Ok tt) q).2.
Proof.
  unfold resharing_example, bindR at 1, on_queue.
  destruct consume as [[]|e|p]; cbn; [|done..].
  unfold bindR, on_log, lift. cbn [fst snd].
  destruct (Resharing _ _ _ _ _) as [[[[]|e|p] m] log'] eqn:Hs; cbn; [|done..].
  intros [= <- <-]. cbn. split_and!; [done..|]. by exists m, log'.
Qed.

End request_props.

(** ** Witnesses *)

Definition toy_wallet_run : list wallet_action :=
  [WCreate; WCreated None; WCreate; WCreated (Some (errors_New "closed")); WResult "a"].

Lemma toy_wallet_end : ∃ e, wallet_run toy_wallet_run (store_ids ["a"; "b"] (λ _, 0)) = Some (Ok e) ∧
  all_generated e = true ∧ surplus e = 0%nat.
Proof. eexists. by split_and!. Qed.

Lemma wallets_waited_for_witness :
  ∃ e, wallet_run toy_wallet_run (store_ids ["a"; "b"] (λ _, 0)) = Some (Ok e) ∧
    all_generated e = true ∧ walletStartTimes e = ∅ ∧ completedCount e = 1.
Proof.
  destruct toy_wallet_end as (e & Hr & Hend & Hs). exists e.
  split; [exact Hr|]. split; [exact Hend|].
  destruct (wallets_waited_for ["a"; "b"] (λ _, 0) toy_wallet_run e) as (_ & _ & H).
  - apply (bool_decide_unpack _). vm_compute. reflexivity.
  - exact Hr.
  - destruct (H Hend) as [_ Hall]. apply Hall; [exact Hs|reflexivity].
Defined.

#[local] Existing Instance badger_ref.
#[local] Existing Instance badger_ref_spec.

Lemma printKeys_lists_witness :
  let d : badger_DB := ({["eddsa:w_v1" := "share"]}, false) in
  ∃ keys, keys ≡ₚ ["eddsa:w_v1"] ∧
    printKeys 2 "db" (Ok "password") (λ _ _, Ok d) [] =
    (Ok tt, ["Enter database password: "; newline; "Opening database at: db" +:+ newline;
             "=== All Keys in Database ===" +:+ newline] ++
            imap (λ i, key_line (1 + Z.of_nat i)) keys ++ [total_line (length keys)]).
Proof.
  cbv zeta.
  pose proof (printKeys_lists 2 "db" "password"
    (λ _ _, Ok (({["eddsa:w_v1" := "share"]}, false) : badger_DB))) as H. cbv beta iota in H.
  exact (H eq_refl ltac:(vm_compute; lia)).
Defined.
