(* ===== verification/EndToEnd.v ===== *)
(** * Requests from the client to the nodes and back

    The components in the order a request passes them: Client signs and publishes
    it, JetConsumers takes it from the stream and forwards it to the event consumers
    of all nodes, EventConsumer verifies it and starts the sessions, and the reply
    of a node acknowledges it.  For a signing this is followed up to its start, for a
    key generation to the client's callback. *)

From stdpp Require Import base gmap list strings.
From Stdlib Require Import ZArith Lia Ascii.
From S2P Require Import Prelude.
From S2P Require Import GoStrings.
From S2P Require Import External.
From S2P Require Import Json.
From S2P Require Import Types.
From S2P Require Import Identity.
From S2P Require Import Ecdh.
From S2P Require Import Registry.
From S2P Require Import SessionManager.
From S2P Require Import PartySession.
From S2P Require Import KeyStore.
From S2P Require Import Sessions.
From S2P Require Import SessionRuns.
From S2P Require Import Eddsa.
From S2P Require Import Node.
From S2P Require Import Messaging.
From S2P Require Import EventConsumer.
From S2P Require Import Client.
From S2P Require Import JetConsumers.

(** What NATS hands to the event consumers: the messages a stream consumer has
    published with a reply inbox and the session id header. *)
Definition forwarded (evs : list js_event) : list Msg :=
  omap (λ e, match e with
             | JForwarded _ inbox data sid => Some (mkMsg data inbox sid)
             | _ => None
             end) evs.

(** A request that could be subscribed for and published is forwarded once, and settled
    by what comes back. *)
Lemma forwarded_once subject timeout interval inbox sid data next :
  0 < interval → 0 ≤ timeout → polls_wait interval next →
  ∃ evs, forward subject timeout interval None None inbox sid data next = Some evs ∧
    forwarded evs = [mkMsg data inbox sid] ∧
    (settlements evs = [Acked] ↔ replied timeout next).
Proof.
  intros Hi Ht Hnext.
  destruct (poll_loop_spec timeout interval next Hi Ht Hnext) as (st & Hst & _ & Hack).
  unfold forward. rewrite Hst. eexists. split; [reflexivity|]. split; [done|].
  rewrite <-Hack. cbn. split; congruence.
Qed.

Section path.
Context `{P : P256} `{!CryptoSpec C} `{!P256Spec P} `{T : TssLib} `{L : Lo} `{KV : KVStore}
  `{CK : ConsulKV} {R : Type} `{PR : PeerRegistry R}.
Variable closed : bool.
Variable publish : broker → string → string → Res unit.
Variable Unmarshal_Signing : string → SigningMessage * option error.
Variable Unmarshal_KeyInfo : string → Res KeyInfo.
Variable js_enqueue : string → string → string → option error.
Variable enqueue : result_queue → string → string → string → Res unit.
Variable cvE cvD : Curve.
Variable ParseECDSA : option string → option PartyID → bool → Res ecdsa.Content.
Variable ParseEDDSA : option string → option PartyID → bool → Res eddsa.Content.
Variable uuid : nat → string.

(** C4: a signing request the client has published arrives.  When a majority of the
    peers is ready, the stream's consumer forwards it unchanged, once; every node
    that is configured with the signer's key and does not have the session yet goes
    on to create the signing session for exactly the key type, wallet, transaction id
    and transaction the caller asked for; the reply the node sends when the signing is
    done goes to the inbox the stream's consumer waits at; and the request is
    acknowledged exactly when a poll of that inbox that began within 30 seconds brings a
    message. *)
Theorem signing_request_path (s : LocalSigner) msg m log log' r sc sid inbox sid' next
    (Hsend : SignTransaction closed publish s msg log = ((Ok tt, m), log'))
    (Hdec : Unmarshal_Signing (encode (SigningMessage_json m)) = (m, None))
    (Hready : AreMajorityReady r = true) (Hinbox : inbox ≠ "")
    (Hnext : polls_wait 500 next) :
  ∃ data evs,
    log' = log ++ [(SigningBroker, "mpc.signing_request." +:+ sm_TxID msg, data)] ∧
    JetConsumers.handleSigningEvent js_enqueue sc (Unmarshal_Signing data) r data sid inbox sid'
      None None next = Some evs ∧
    forwarded evs = [mkMsg data inbox sid'] ∧
    (settlements evs = [Acked] ↔ replied 30000 next) ∧
    (sm_KeyType m, sm_WalletID m, sm_TxID m, sm_Tx m) =
      (sm_KeyType msg, sm_WalletID msg, sm_TxID msg, sm_Tx msg) ∧
    ∀ (ec : eventConsumer (R := R)) now,
      configured_for s (ec_identityStore ec) →
      eval_HasSession (sm_WalletID msg) (sm_TxID msg) (sessionMgr ec) = false →
      EventConsumer.handleSigningEvent Unmarshal_Signing Unmarshal_KeyInfo enqueue cvE cvD
        ParseECDSA ParseEDDSA uuid (mkMsg data inbox sid') now ec =
      signing_start Unmarshal_KeyInfo enqueue cvE cvD ParseECDSA ParseEDDSA uuid
        (mkMsg data inbox sid') m now ec ∧
      finishSigning enqueue (mkMsg data inbox sid') m SignDone ec =
        (Ok tt, record_event (Replied inbox data) ec).
Proof.
  unfold SignTransaction in Hsend.
  destruct (raw ← _; _) as [sg|e|w] eqn:Hsg; [|done..].
  apply Res_bind_Ok in Hsg as (raw & H1%wrap_err_Ok & H2%wrap_err_Ok).
  destruct (send_request _ _ _ _ _ _ _) as [rs l] eqn:Hpub. injection Hsend as -> <- <-.
  apply send_request_Ok in Hpub as [_ ->].
  set (m := set_sm_Signature sg msg) in *.
  destruct (forwarded_once MPCSignEvent 30000 500 inbox sid' (encode (SigningMessage_json m)) next)
    as (evs & Hfwd & Hone & Hack); [lia..|done|].
  exists (encode (SigningMessage_json m)), evs. split; [done|]. split.
  { rewrite Hdec. unfold JetConsumers.handleSigningEvent. by rewrite Hready. }
  split; [done|]. split; [done|]. split; [done|]. intros ec now Hconf Hnosess. split.
  - unfold EventConsumer.handleSigningEvent, signing_check, bindR. cbn [Data]. rewrite Hdec.
    assert (VerifyInitiatorMessage (ec_identityStore ec) m = Ok tt) as ->.
    { by eapply (LocalSigner_accepted s _ m raw sg). }
    change (sm_WalletID m) with (sm_WalletID msg). change (sm_TxID m) with (sm_TxID msg).
    by rewrite Hnosess.
  - unfold finishSigning, sendReplyToRemoveMsg. cbn [Reply Data].
    by rewrite (proj2 (String.eqb_neq _ _) Hinbox).
Qed.

End path.

(** ** Key generation *)

Section keygen.
Context `{P : P256} `{!CryptoSpec C} `{!P256Spec P} `{T : TssLib} `{L : Lo}
  `{KV : KVStore} `{!KVStoreSpec KV} `{CK : ConsulKV} `{!ConsulKVSpec CK}
  {R : Type} `{PR : PeerRegistry R}.
Variable closed : bool.
Variable publish : broker → string → string → Res unit.
Variable Unmarshal_Keygen : string → KeygenMessage * option error.
Variable Unmarshal_KeyInfo : string → Res KeyInfo.
Variable js_enqueue : string → string → string → option error.
Variable enqueue : result_queue → string → string → string → Res unit.
Variable ParseECDSA : option string → option PartyID → bool → Res ecdsa.Content.
Variable ParseEDDSA : option string → option PartyID → bool → Res eddsa.Content.
Variable uuid : nat → string.
Variable ids : fileStore.
Variable answer : wire_event → Res unit.
Variable nonce_for : string → string.
Variable PartyID_json : PartyID → json.
Variable unsubscribe : option string → Res unit.

(** A session of a type as the node creates it, once it is subscribed. *)
Definition created_session (ec : eventConsumer (R := R)) (sessionType walletID : string)
    (s : PartySession) : Prop :=
  ∃ s0 subs, CreateKeyGenSession Unmarshal_KeyInfo ParseECDSA ParseEDDSA (node ec) uuid sessionType
               walletID (ec_threshold ec) = Ok s0 ∧ s = set_subs true subs s0.

(** [key] holds, in the store a run has left, a share it has received, whose public
    key is [pub]. *)
Definition holds_share (cv : Curve) (evs : list (tss_event (SaveData cv))) (w' : world cv)
    (key pub : string) : Prop :=
  ∃ sd kb pk, EndCh _ sd ∈ evs ∧ kv_Get (kv cv w') key = Ok kb ∧ Marshal cv sd = Ok kb ∧
    Pub cv sd = Some pk ∧ encodePub cv pk = Ok pub.

#[local] Abbreviation GenerateKey cv :=
  (Sessions.GenerateKey cv ids answer nonce_for PartyID_json unsubscribe).

(** The session a run works on is the one the node has created, if it has created one. *)
Definition run_on_created (ec : eventConsumer (R := R)) (sessionType walletID : string)
    (s : PartySession) : Prop :=
  ∀ s0, CreateKeyGenSession Unmarshal_KeyInfo ParseECDSA ParseEDDSA (node ec) uuid sessionType
          walletID (ec_threshold ec) = Ok s0 → ∃ subs, s = set_subs true subs s0.

(** With all peers ready and no key of the wallet, the node creates a session of each
    of the two types. *)
Lemma session_is_created ec sessionType walletID s e :
  pr_ArePeersReady (peerRegistry (node ec)) = true →
  getKeyInfo Unmarshal_KeyInfo (node ec) sessionType walletID = Err e →
  sessionType = SessionTypeECDSA ∨ sessionType = SessionTypeEDDSA →
  run_on_created ec sessionType walletID s → created_session ec sessionType walletID s.
Proof.
  intros Hready Hnone Hst Hrun.
  assert (∃ s0, CreateKeyGenSession Unmarshal_KeyInfo ParseECDSA ParseEDDSA (node ec) uuid
    sessionType walletID (ec_threshold ec) = Ok s0) as [s0 Hs0].
  { unfold CreateKeyGenSession. rewrite Hready, Hnone. cbn [negb].
    destruct Hst as [-> | ->]; cbn; unfold createECDSAKeyGenSession, createEDDSAKeyGenSession;
      destruct (keygenPartyIDs _ _ _ _ _); by eexists. }
  destruct (Hrun s0 Hs0) as [subs ->]. by exists s0, subs.
Qed.

(** What a key generation session is called, and where its share goes. *)
Lemma created_session_key ec sessionType walletID s prefix :
  created_session ec sessionType walletID s →
  (sessionType, prefix) ∈ [(SessionTypeECDSA, "ecdsa:"); (SessionTypeEDDSA, "eddsa:")] →
  ComposeKey s (WalletIDWithVersion (WalletID s) (Version s)) = prefix +:+ walletID +:+ "_v1".
Proof.
  intros (s0 & subs & Hc & ->) Hp. unfold CreateKeyGenSession in Hc.
  destruct (pr_ArePeersReady _); [|done]. cbn [negb] in Hc.
  destruct (getKeyInfo _ _ _ _) as [|e|]; [done| |done].
  apply elem_of_cons in Hp as [[= -> ->]|[[= -> ->]|[]%not_elem_of_nil]%elem_of_cons]; cbn in Hc.
  - unfold createECDSAKeyGenSession in Hc. destruct (keygenPartyIDs _ _ _ _ _).
    by injection Hc as <-.
  - unfold createEDDSAKeyGenSession in Hc. destruct (keygenPartyIDs _ _ _ _ _).
    by injection Hc as <-.
Qed.

Lemma run_holds_share cv evs w pub w' key :
  GenerateKey cv evs w = (Ok (Some (Finished pub)), w') →
  ComposeKey (ps cv w) (WalletIDWithVersion (WalletID (ps cv w)) (Version (ps cv w))) = key →
  holds_share cv evs w' key pub.
Proof.
  intros (sd & kb & pk & He & Hm & Hpk & Hpub & Hput & _)%run_GenerateKey <-.
  exists sd, kb, pk. split_and!; [done| |done..]. by eapply kv_Get_Put.
Qed.

(** C5: a wallet is made.  The client's request for a wallet is published once; when all
    peers are ready the stream's consumer forwards it unchanged, and acknowledges it
    exactly when a poll of the reply inbox that began within 30 seconds brings a reply.
    A node that has the signer's key configured, sees all peers ready and reads no key
    of this wallet creates both sessions; when the runs of these sessions finish without
    an error, its handler publishes one result, on the wallet's topic, and replies.
    Reading this result back, the client's callback gets the wallet id with the two public
    keys the runs ended with, the message is acknowledged, and the node's store holds, under the
    version 1 keys of the wallet, shares the runs have received, with these public keys. *)
Theorem keygen_round_trip (s : LocalSigner) walletID log log' r sid inbox sid' next
    (ec : eventConsumer (R := R)) cvE cvD evsE evsD wE wD pubE pubD wE' wD' decode
    (Hsend : CreateWallet closed publish s walletID log = (Ok tt, log'))
    (Hdec : ∀ raw sg, Raw (mkKeygenMessage walletID None) = Ok raw → Sign s raw = Ok sg →
       let msg := mkKeygenMessage walletID (Some sg) in
       Unmarshal_Keygen (encode (KeygenMessage_json msg)) = (msg, None))
    (Hready : ArePeersReady r = true) (Hinbox : inbox ≠ "") (Hnext : polls_wait 500 next)
    (Hconf : configured_for s (ec_identityStore ec))
    (Hpeers : pr_ArePeersReady (peerRegistry (node ec)) = true)
    (HnoE : ∃ e, getKeyInfo Unmarshal_KeyInfo (node ec) SessionTypeECDSA walletID = Err e)
    (HnoD : ∃ e, getKeyInfo Unmarshal_KeyInfo (node ec) SessionTypeEDDSA walletID = Err e)
    (HE : run_on_created ec SessionTypeECDSA walletID (ps cvE wE))
    (HD : run_on_created ec SessionTypeEDDSA walletID (ps cvD wD))
    (HrunE : GenerateKey cvE evsE wE = (Ok (Some (Finished pubE)), wE'))
    (HrunD : GenerateKey cvD evsD wD = (Ok (Some (Finished pubD)), wD'))
    (Hqueue : ∀ payload key,
       enqueue KeygenQueue (TypeGenerateWalletResultFmt walletID) payload key = Ok tt)
    (Hback : let result := mkKeygenResponse walletID (Some pubE) (Some pubD) NoErrorCode "" in
       decode (encode (KeygenResponse_json result)) = Ok result) :
  ∃ data evs payload key,
    log' = log ++ [(KeygenBroker, "mpc.keygen_request." +:+ walletID, data)] ∧
    JetConsumers.handleKeygenEvent js_enqueue (Unmarshal_Keygen data) r data sid inbox sid'
      None None next = Some evs ∧
    forwarded evs = [mkMsg data inbox sid'] ∧
    (settlements evs = [Acked] ↔ replied 30000 next) ∧
    created_session ec SessionTypeECDSA walletID (ps cvE wE) ∧
    created_session ec SessionTypeEDDSA walletID (ps cvD wD) ∧
    handleKeyGenEvent Unmarshal_Keygen Unmarshal_KeyInfo enqueue ParseECDSA ParseEDDSA uuid
      (mkMsg data inbox sid') (mkKeygenRun [] false (Some pubE) (Some pubD)) ec =
      (Ok tt, record_event (Replied inbox data) (record_event
         (Enqueued KeygenQueue ("mpc.mpc_keygen_result." +:+ walletID) payload key) ec)) ∧
    onResult decode payload =
      (Ok tt, [mkKeygenResponse walletID (Some pubE) (Some pubD) NoErrorCode ""]) ∧
    settle_result decode payload = Ok Acked ∧
    holds_share cvE evsE wE' ("ecdsa:" +:+ walletID +:+ "_v1") pubE ∧
    holds_share cvD evsD wD' ("eddsa:" +:+ walletID +:+ "_v1") pubD.
Proof.
  apply bindR_Ok in Hsend as (raw & l1 & [H1%wrap_err_Ok ->]%lift_Ok & Hsend).
  apply bindR_Ok in Hsend as (sg & l2 & [H2%wrap_err_Ok ->]%lift_Ok & Hsend).
  apply send_request_Ok in Hsend as [_ ->].
  specialize (Hdec raw sg H1 H2). cbv zeta in Hdec.
  set (data := encode (KeygenMessage_json (mkKeygenMessage walletID (Some sg)))) in *.
  destruct (forwarded_once MPCGenerateEvent 30000 500 inbox sid' data next)
    as (evs & Hfwd & Hone & Hack); [lia..|done|].
  cbv zeta in Hback. set (result := mkKeygenResponse _ _ _ _ _) in *.
  eexists data, evs, (encode (KeygenResponse_json result)), _. split; [done|]. split.
  { rewrite Hdec. unfold JetConsumers.handleKeygenEvent. by rewrite Hready. }
  split; [done|]. split; [done|].
  destruct HnoE as [eE HnoE], HnoD as [eD HnoD].
  pose proof (session_is_created ec _ walletID _ eE Hpeers HnoE (or_introl eq_refl) HE) as HcE.
  pose proof (session_is_created ec _ walletID _ eD Hpeers HnoD (or_intror eq_refl) HD) as HcD.
  split; [done|]. split; [done|]. split.
  { unfold handleKeyGenEvent. cbn [Data]. rewrite Hdec.
    assert (VerifyInitiatorMessage (ec_identityStore ec) (mkKeygenMessage walletID (Some sg)) =
      Ok tt) as -> by (by eapply (LocalSigner_accepted s _ _ raw sg)).
    destruct HcE as (sE & ? & HmE & _), HcD as (sD & ? & HmD & _).
    cbn [km_WalletID check]. rewrite HmE. cbn [check]. rewrite HmD. cbn [check].
    unfold finishKeygen, bindR. cbn [run_errors forR run_timeout lift].
    rewrite bool_decide_eq_false_2 by (intros []; done). unfold Enqueue. rewrite Hqueue.
    unfold sendReplyToRemoveMsg. cbn [Reply]. by rewrite (proj2 (String.eqb_neq _ _) Hinbox). }
  split; [unfold onResult; by rewrite Hback|]. split.
  { unfold settle_result, onDequeue, onResult. by rewrite Hback. }
  split; (eapply run_holds_share; [eassumption|]).
  - by apply (created_session_key ec SessionTypeECDSA); [|left].
  - by apply (created_session_key ec SessionTypeEDDSA); [|right; left].
Qed.

End keygen.

(** ** Resharing *)

Section resharing.
Context `{P : P256} `{!CryptoSpec C} `{!P256Spec P} `{T : TssLib} `{L : Lo}
  `{KV : KVStore} `{!KVStoreSpec KV} `{CK : ConsulKV} `{!ConsulKVSpec CK}
  {R : Type} `{PR : PeerRegistry R}.
Variable closed : bool.
Variable publish : broker → string → string → Res unit.
Variable Unmarshal_Resharing : string → ResharingMessage * option error.
Variable Unmarshal_KeyInfo : string → Res KeyInfo.
Variable js_enqueue : string → string → string → option error.
Variable enqueue : result_queue → string → string → string → Res unit.
Variable cvE cvD : Curve.
Variable ParseECDSA : option string → option PartyID → bool → Res ecdsa.Content.
Variable ParseEDDSA : option string → option PartyID → bool → Res eddsa.Content.
Variable uuid : nat → string.
Variable ids : fileStore.
Variable answer : wire_event → Res unit.
Variable nonce_for : string → string.
Variable PartyID_json : PartyID → json.
Variable unsubscribe : option string → Res unit.

(** What the node makes for a request, for the old ([false]) and the new committee. *)
Definition reshares (ec : eventConsumer (R := R)) st (m : ResharingMessage) (isNew : bool) :
    Res (option (PartySession * resharingSession)) :=
  CreateResharingSession Unmarshal_KeyInfo ParseECDSA ParseEDDSA (node ec) uuid uuid st
    (rm_WalletID m) (rm_NewThreshold m) (default [] (rm_NodeIDs m)) isNew.

(** The session of the new committee is about the wallet, committee and threshold of the
    request, at the version the key has. *)
Lemma reshares_session ec st m s r prefix :
  reshares ec st m true = Ok (Some (s, r)) →
  (st, prefix) ∈ [(SessionTypeECDSA, "ecdsa:"); (SessionTypeEDDSA, "eddsa:")] →
  ∃ i, getKeyInfo Unmarshal_KeyInfo (node ec) st (rm_WalletID m) = Ok i ∧
    ComposeKey s = (λ w, prefix +:+ w) ∧ WalletID s = rm_WalletID m ∧ Version s = ki_Version i ∧
    newPeerIDs r = default [] (rm_NodeIDs m) ∧ NewThreshold r = rm_NewThreshold m.
Proof.
  unfold reshares, CreateResharingSession. intros Hc Hp.
  destruct (_ <? _); [done|]. destruct (_ <? _); [done|].
  destruct (List.find _ _); [done|].
  apply Res_bind_Ok in Hc as (pre & Hpre%wrap_err_Ok & Hc).
  apply Res_bind_Ok in Hc as (i & Hi%wrap_err_Ok & Hc).
  destruct (_ && _); [done|]. destruct (_ && _); [done|]. destruct (_ <? _); [done|].
  apply Res_bind_Ok in Hc as ([] & _ & Hc). apply Res_bind_Ok in Hc as (v & _ & Hc).
  destruct (keygenPartyIDs _ uuid PurposeKeygen _ _) as [s1 l1].
  destruct (keygenPartyIDs _ uuid PurposeResharing _ _) as [s2 l2]. exists i. unfold getKeyInfo.
  apply elem_of_cons in Hp as [[= -> ->]|[[= -> ->]|[]%not_elem_of_nil]%elem_of_cons];
    cbn in Hc, Hpre; injection Hc as <- <-; injection Hpre as <-; by split_and!.
Qed.

(** C6: a wallet is reshared.  The client's request is published once; the stream's
    consumer forwards it unchanged, and acknowledges it exactly when a poll of the reply
    inbox that began within 60 seconds brings a reply.  A node of the new committee that has
    the signer's key configured and could initialise its sessions publishes, when the run
    of its new session finishes, one result on the topic of the session id, and replies.  Reading
    this result back, the client's callback gets the wallet, the threshold and the key
    type it asked for with the public key the run has ended with; and if the share the
    run has received has a public key, it is this one, the share is stored under the next
    version of the wallet's key, and what the cluster reads about the key is the
    committee and the threshold of the request at this version. *)
Theorem resharing_round_trip (s : LocalSigner) msg m log log' sid inbox sid' next
    (ec : eventConsumer (R := R)) st prefix old sN rN cv evs w w' pub decode
    (Hsend : Resharing closed publish s msg log = ((Ok tt, m), log'))
    (Hdec : Unmarshal_Resharing (encode (ResharingMessage_json m)) = (m, None))
    (Hsid : rm_SessionID msg ≠ "") (Hinbox : inbox ≠ "") (Hnext : polls_wait 500 next)
    (Hconf : configured_for s (ec_identityStore ec))
    (Hst : sessionTypeFromKeyType (rm_KeyType msg) = Ok st)
    (Hprefix : (st, prefix) ∈ [(SessionTypeECDSA, "ecdsa:"); (SessionTypeEDDSA, "eddsa:")])
    (Hold : reshares ec st msg false = Ok old) (Hnew : reshares ec st msg true = Ok (Some (sN, rN)))
    (HinitO : init_resharing cvE cvD ec old = Ok tt)
    (HinitN : init_resharing cvE cvD ec (Some (sN, rN)) = Ok tt)
    (Hps : ∃ subs, ps cv w = set_subs true subs sN)
    (Hrun : Sessions.Reshare cv ids answer nonce_for PartyID_json unsubscribe rN evs w =
       (Ok (Some (Finished pub)), w'))
    (Hqueue : ∀ payload key,
       enqueue ResharingQueue (TypeResharingWalletResultFmt (rm_SessionID msg)) payload key = Ok tt)
    (Hback : let result := mkResharingResponse (rm_WalletID msg) (rm_NewThreshold msg)
                             (rm_KeyType msg) (Some pub) NoErrorCode "" in
       decode (encode (ResharingResponse_json result)) = Ok result)
    (Hinfo : ∀ i, getKeyInfo Unmarshal_KeyInfo (node ec) st (rm_WalletID msg) = Ok i →
       info_readable Unmarshal_KeyInfo (mkKeyInfo (default [] (rm_NodeIDs msg))
         (rm_NewThreshold msg) (wrap64 (ki_Version i + 1)))) :
  ∃ data jevs payload key i sd,
    log' = log ++ [(ResharingBroker, "mpc.resharing_request." +:+ rm_WalletID msg, data)] ∧
    JetConsumers.handleResharingEvent js_enqueue (Unmarshal_Resharing data) data sid inbox sid'
      None None next = Some jevs ∧
    forwarded jevs = [mkMsg data inbox sid'] ∧
    (settlements jevs = [Acked] ↔ replied 60000 next) ∧
    EventConsumer.handleResharingEvent Unmarshal_Resharing Unmarshal_KeyInfo enqueue cvE cvD
      ParseECDSA ParseEDDSA uuid (mkMsg data inbox sid') (mkResharingRun [] (Some pub)) ec =
      (Ok tt, record_event (Replied inbox data) (record_event
         (Enqueued ResharingQueue ("mpc.mpc_resharing_result." +:+ rm_SessionID msg) payload key)
         ec)) ∧
    onResult decode payload = (Ok tt, [mkResharingResponse (rm_WalletID msg) (rm_NewThreshold msg)
                                         (rm_KeyType msg) (Some pub) NoErrorCode ""]) ∧
    getKeyInfo Unmarshal_KeyInfo (node ec) st (rm_WalletID msg) = Ok i ∧
    EndCh _ sd ∈ evs ∧
    ∀ pk, Pub cv sd = Some pk →
      let v := wrap64 (ki_Version i + 1) in
      encodePub cv pk = Ok pub ∧
      (∃ kb, Marshal cv sd = Ok kb ∧
         kv_Get (kv cv w') (prefix +:+ WalletIDWithVersion (rm_WalletID msg) v) = Ok kb) ∧
      Get Unmarshal_KeyInfo (consul cv w') (prefix +:+ rm_WalletID msg) =
        Ok (mkKeyInfo (default [] (rm_NodeIDs msg)) (rm_NewThreshold msg) v).
Proof.
  unfold Resharing in Hsend.
  destruct (raw ← _; _) as [sg|e|why] eqn:Hsg; [|done..].
  apply Res_bind_Ok in Hsg as (raw & H1%wrap_err_Ok & H2%wrap_err_Ok).
  destruct (send_request _ _ _ _ _ _ _) as [rs l] eqn:Hpub. injection Hsend as -> <- <-.
  apply send_request_Ok in Hpub as [_ ->].
  set (m := set_rm_Signature sg msg) in *. set (data := encode (ResharingMessage_json m)) in *.
  destruct (forwarded_once MPCResharingEvent 60000 500 inbox sid' data next)
    as (jevs & Hfwd & Hone & Hack); [lia..|done|].
  cbv zeta in Hback. set (result := mkResharingResponse _ _ _ _ _ _) in *.
  destruct (reshares_session ec st msg sN rN prefix Hnew Hprefix)
    as (i & Hi & Hkey & Hwallet & Hver & Hpeers & Hth).
  destruct Hps as [subs Hps]. apply run_Reshare in Hrun as (sd & He & Hend).
  exists data, jevs, (encode (ResharingResponse_json result)). eexists _, i, sd.
  split; [done|]. split.
  { rewrite Hdec. unfold JetConsumers.handleResharingEvent. done. }
  split; [done|]. split; [done|]. split.
  { unfold EventConsumer.handleResharingEvent. cbn [Data]. rewrite Hdec.
    assert (VerifyInitiatorMessage (ec_identityStore ec) m = Ok tt) as ->
      by (by eapply (LocalSigner_accepted s _ m raw sg)).
    change (rm_SessionID m) with (rm_SessionID msg). change (rm_KeyType m) with (rm_KeyType msg).
    rewrite (proj2 (String.eqb_neq _ _) Hsid), Hst. cbn [check].
    change (rm_WalletID m) with (rm_WalletID msg). change (rm_NodeIDs m) with (rm_NodeIDs msg).
    change (rm_NewThreshold m) with (rm_NewThreshold msg).
    unfold reshares in Hold, Hnew. rewrite Hold, Hnew. cbn [check].
    destruct old as [o|]; rewrite ?HinitO, HinitN; cbn [check init_resharing];
      unfold finishResharing, bindR; cbn [rs_errors forR lift existsb];
      rewrite bool_decide_eq_true_2 by done; unfold Enqueue; rewrite Hqueue;
      unfold sendReplyToRemoveMsg; cbn [Reply]; by rewrite (proj2 (String.eqb_neq _ _) Hinbox). }
  split; [unfold onResult; by rewrite Hback|]. split; [done|]. split; [done|].
  intros pk Hpk v. rewrite Hpk in Hend. destruct Hend as (kb & Hm & Hpubk & Hput & Hsave).
  rewrite Hps in Hput, Hsave. cbn [ComposeKey WalletID Version set_subs] in Hput, Hsave.
  rewrite Hkey, Hwallet, Hver in Hput, Hsave. rewrite Hpeers, Hth in Hsave. cbn in Hput, Hsave.
  split; [done|]. split.
  - exists kb. split; [done|]. by eapply kv_Get_Put.
  - eapply Save_Get; [done|by apply Hinfo|exact Hsave].
Qed.

End resharing.

(** *** Witness *)

Section witness.

#[local] Existing Instance toy_crypto.
#[local] Existing Instance toy_crypto_spec.
#[local] Existing Instance toy_p256.
#[local] Existing Instance toy_p256_spec.
#[local] Existing Instance tss_ref.
#[local] Existing Instance lo_ref.
#[local] Existing Instance kv_ref.
#[local] Existing Instance kv_ref_spec.
#[local] Existing Instance consul_ref.
#[local] Existing Instance consul_ref_spec.
#[local] Existing Instance toy_view_registry.

Definition toy_request : SigningMessage := mkSigningMessage KeyTypeEd25519 "w" "t1" (Some "tx") None.

Definition toy_signed_request : SigningMessage :=
  (SignTransaction false (λ _ _ _, Ok tt) toy_signer toy_request []).1.2.

(** A node with one peer, which is ready and has exchanged keys with it. *)
Definition toy_ready_registry : registry :=
  let store := mkFileStore "identity" "nodeN" ∅ toy_key64
                 (mkInitiatorKey EventInitiatorKeyTypeEd25519 toy_initiator None)
                 {["nodeA" := Some toy_key32]} in
  mkRegistry "nodeN" ["nodeA"] {["nodeA" := true]} 2 true 1 false false false
    (mkEcdhState (NewECDHSession "nodeN" ["nodeN"; "nodeA"]) store [] []) [].

Definition toy_signing_consumer : eventConsumer (R := toy_view) :=
  mkEventConsumer 1 (toy_node_A ["A"; "B"]) toy_accepting_store (∅ : gmap string string)
    (NewManager 1 1) 2 20 5 200 [].

Lemma signing_request_path_witness : ∃ data evs,
  (SignTransaction false (λ _ _ _, Ok tt) toy_signer toy_request []).2
    = [(SigningBroker, "mpc.signing_request.t1", data)] ∧
  JetConsumers.handleSigningEvent (λ _ _ _, None) NewSigningConsumer (toy_signed_request, None)
    toy_ready_registry data "" "inbox" "sid" None None toy_polls = Some evs ∧
  forwarded evs = [mkMsg data "inbox" "sid"] ∧ settlements evs = [Acked] ∧
  finishSigning toy_enqueue (mkMsg data "inbox" "sid") toy_signed_request SignDone
    toy_signing_consumer = (Ok tt, record_event (Replied "inbox" data) toy_signing_consumer).
Proof.
  destruct (signing_request_path false (λ _ _ _, Ok tt) (λ _, (toy_signed_request, None))
    (λ _, Err (errors_New "no key")) (λ _ _ _, None) toy_enqueue toy_curve toy_curve
    toy_ParseECDSA toy_ParseEDDSA (λ _, "uuid")
    toy_signer toy_request toy_signed_request []
    (SignTransaction false (λ _ _ _, Ok tt) toy_signer toy_request []).2
    toy_ready_registry NewSigningConsumer "" "inbox" "sid" toy_polls)
    as (data & evs & Hlog & Hjs & Hfwd & Hack & _ & Hnode).
  - vm_compute. reflexivity.
  - reflexivity.
  - vm_compute. reflexivity.
  - discriminate.
  - intros [|[|i]]; cbn; [lia..|discriminate].
  - exists data, evs. split; [exact Hlog|]. split; [exact Hjs|]. split; [exact Hfwd|].
    split; [apply Hack, toy_polls_reply; lia|].
    apply (Hnode toy_signing_consumer 5); [|vm_compute; reflexivity].
    vm_compute. repeat split.
Defined.

(** A wallet "w2" on the node above. *)
Definition toy_keygen_of (sessionType : string) : PartySession :=
  match CreateKeyGenSession toy_Unmarshal_KeyInfo toy_ParseECDSA toy_ParseEDDSA
    (node toy_signing_consumer) (λ _, "uuid") sessionType "w2"
    (ec_threshold toy_signing_consumer) with
  | Ok s => set_subs true id s
  | _ => toy_keygen
  end.

Lemma toy_created sessionType :
  run_on_created toy_Unmarshal_KeyInfo toy_ParseECDSA toy_ParseEDDSA (λ _, "uuid")
    toy_signing_consumer sessionType "w2" (toy_keygen_of sessionType).
Proof. intros s0 Hs0. exists id. unfold toy_keygen_of. by rewrite Hs0. Qed.

#[local] Abbreviation toy_run cv w evs :=
  (Sessions.GenerateKey cv (toy_ids "A" "B") (λ _, Ok tt) (λ _, "nonce") (λ _, JNull)
    (λ _, Ok tt) evs w).

Definition toy_eddsa_keygen : world toy_eddsa :=
  toy_eddsa_world (toy_keygen_of SessionTypeEDDSA) ∅ ∅.

Lemma toy_runs_finish : ∃ wE' wD',
  toy_run toy_curve (toy_world (toy_keygen_of SessionTypeECDSA)) (toy_evs "share") =
    (Ok (Some (Finished (EncodeS256PubKey (1, 2)))), wE') ∧
  toy_run toy_eddsa toy_eddsa_keygen (toy_evs "share2") = (Ok (Some (Finished "pub")), wD').
Proof. do 2 eexists. split; apply run_of_eval; vm_compute; reflexivity. Qed.

Definition toy_wallet_signature : string :=
  match Sign toy_signer "w2" with Ok sg => sg | _ => EmptyString end.

Definition toy_wallet_result : KeygenResponse :=
  mkKeygenResponse "w2" (Some (EncodeS256PubKey (1, 2))) (Some "pub") NoErrorCode "".

Lemma keygen_round_trip_witness : ∃ data payload wE' wD',
  (CreateWallet false (λ _ _ _, Ok tt) toy_signer "w2" []).2 =
    [(KeygenBroker, "mpc.keygen_request.w2", data)] ∧
  onResult (λ _, Ok toy_wallet_result) payload = (Ok tt, [toy_wallet_result]) ∧
  holds_share toy_curve (toy_evs "share") wE' "ecdsa:w2_v1" (EncodeS256PubKey (1, 2)) ∧
  holds_share toy_eddsa (toy_evs "share2") wD' "eddsa:w2_v1" "pub".
Proof.
  destruct toy_runs_finish as (wE' & wD' & HE & HD).
  destruct (keygen_round_trip false (λ _ _ _, Ok tt)
    (λ _, (mkKeygenMessage "w2" (Some toy_wallet_signature), None)) toy_Unmarshal_KeyInfo
    (λ _ _ _, None) toy_enqueue toy_ParseECDSA toy_ParseEDDSA (λ _, "uuid") (toy_ids "A" "B")
    (λ _, Ok tt) (λ _, "nonce") (λ _, JNull) (λ _, Ok tt) toy_signer "w2" []
    (CreateWallet false (λ _ _ _, Ok tt) toy_signer "w2" []).2 toy_ready_registry "" "inbox" "sid"
    toy_polls toy_signing_consumer toy_curve toy_eddsa (toy_evs "share") (toy_evs "share2")
    (toy_world (toy_keygen_of SessionTypeECDSA)) toy_eddsa_keygen (EncodeS256PubKey (1, 2)) "pub"
    wE' wD' (λ _, Ok toy_wallet_result))
    as (data & evs & payload & key & Hlog & _ & _ & _ & _ & _ & _ & Hcall & _ & HshE & HshD).
  - vm_compute. reflexivity.
  - intros raw sg Hraw Hsg.
    assert (raw = "w2") as -> by (vm_compute in Hraw; congruence).
    unfold toy_wallet_signature. rewrite Hsg. reflexivity.
  - vm_compute. reflexivity.
  - discriminate.
  - intros [|[|i]]; cbn; [lia..|discriminate].
  - vm_compute. repeat split.
  - reflexivity.
  - eexists. vm_compute. reflexivity.
  - eexists. vm_compute. reflexivity.
  - apply toy_created.
  - apply toy_created.
  - exact HE.
  - exact HD.
  - intros payload key. reflexivity.
  - reflexivity.
  - exists data, payload, wE', wD'.
    split; [exact Hlog|split; [exact Hcall|split; [exact HshE|exact HshD]]].
Defined.

(** The wallet "w" of nodes A, B and C is given to A, B and D. *)
Definition toy_reshare_request : ResharingMessage :=
  mkResharingMessage "s1" (Some ["A"; "B"; "D"]) 1 KeyTypeSecp256k1 "w" None.

Definition toy_signed_resharing : ResharingMessage :=
  (Resharing false (λ _ _ _, Ok tt) toy_signer toy_reshare_request []).1.2.

Definition toy_reshare_consumer : eventConsumer (R := toy_view) :=
  mkEventConsumer 1 (toy_node_A ["A"; "B"; "D"]) toy_accepting_store
    ({["ecdsa:w_v1" := "share"]} : gmap string string) (NewManager 1 1) 2 20 5 200 [].

#[local] Abbreviation toy_reshares isNew :=
  (reshares toy_Unmarshal_KeyInfo toy_ParseECDSA toy_ParseEDDSA (λ _, "uuid")
    toy_reshare_consumer SessionTypeECDSA toy_reshare_request isNew).

Definition toy_sessions (isNew : bool) : PartySession * resharingSession :=
  match toy_reshares isNew with Ok (Some p) => p | _ => (toy_keygen, toy_reshare) end.

Lemma toy_sessions_made isNew : toy_reshares isNew = Ok (Some (toy_sessions isNew)).
Proof.
  assert (match toy_reshares isNew with Ok (Some _) => true | _ => false end = true) as H
    by (destruct isNew; vm_compute; reflexivity).
  unfold toy_sessions. by destruct (toy_reshares isNew) as [[p|]|e|why].
Qed.

Definition toy_new_world : world toy_curve := toy_world (set_subs true id (toy_sessions true).1).

Lemma toy_resharing_finishes : ∃ w',
  Sessions.Reshare toy_curve (toy_ids "A" "B") (λ _, Ok tt) (λ _, "nonce") (λ _, JNull)
    (λ _, Ok tt) (toy_sessions true).2 (toy_evs "new") toy_new_world =
  (Ok (Some (Finished (EncodeS256PubKey (1, 2)))), w').
Proof. eexists. apply run_of_eval. vm_compute. reflexivity. Qed.

Definition toy_reshare_result : ResharingResponse :=
  mkResharingResponse "w" 1 KeyTypeSecp256k1 (Some (EncodeS256PubKey (1, 2))) NoErrorCode "".

Lemma resharing_round_trip_witness : ∃ data payload w',
  (Resharing false (λ _ _ _, Ok tt) toy_signer toy_reshare_request []).2 =
    [(ResharingBroker, "mpc.resharing_request.w", data)] ∧
  onResult (λ _, Ok toy_reshare_result) payload = (Ok tt, [toy_reshare_result]) ∧
  (∃ kb : string, kv_Get (kv toy_curve w') "ecdsa:w_v2" = Ok kb) ∧
  Get toy_Unmarshal_KeyInfo (consul toy_curve w') "ecdsa:w" = Ok toy_info2.
Proof.
  destruct toy_resharing_finishes as [w' Hrun].
  assert (getKeyInfo toy_Unmarshal_KeyInfo (node toy_reshare_consumer) SessionTypeECDSA "w" =
    Ok toy_info) as Hinfo by (vm_compute; reflexivity).
  destruct (resharing_round_trip false (λ _ _ _, Ok tt) (λ _, (toy_signed_resharing, None))
    toy_Unmarshal_KeyInfo (λ _ _ _, None) toy_enqueue toy_curve toy_curve toy_ParseECDSA
    toy_ParseEDDSA (λ _, "uuid") (toy_ids "A" "B") (λ _, Ok tt) (λ _, "nonce") (λ _, JNull)
    (λ _, Ok tt) toy_signer toy_reshare_request toy_signed_resharing []
    (Resharing false (λ _ _ _, Ok tt) toy_signer toy_reshare_request []).2 "" "inbox" "sid"
    toy_polls toy_reshare_consumer SessionTypeECDSA "ecdsa:" (Some (toy_sessions false))
    (toy_sessions true).1 (toy_sessions true).2 toy_curve (toy_evs "new") toy_new_world w'
    (EncodeS256PubKey (1, 2)) (λ _, Ok toy_reshare_result))
    as (data & jevs & payload & key & i & sd & Hlog & _ & _ & _ & _ & Hcall & Hi & _ & Hpub).
  - vm_compute. reflexivity.
  - reflexivity.
  - discriminate.
  - discriminate.
  - intros [|[|i]]; cbn; [lia..|discriminate].
  - vm_compute. repeat split.
  - reflexivity.
  - left.
  - apply toy_sessions_made.
  - rewrite toy_sessions_made. by destruct (toy_sessions true).
  - vm_compute. reflexivity.
  - vm_compute. reflexivity.
  - exists id. reflexivity.
  - exact Hrun.
  - intros payload key. reflexivity.
  - reflexivity.
  - intros i Hi. pose proof (eq_trans (eq_sym Hinfo) Hi) as He.
    injection He as <-. vm_compute. reflexivity.
  - pose proof (eq_trans (eq_sym Hinfo) Hi) as He. injection He as <-.
    destruct (Hpub (1, 2) eq_refl) as (_ & (kb & _ & Hkv) & Hget).
    exists data, payload, w'. split; [exact Hlog|]. split; [exact Hcall|].
    split; [exists kb; exact Hkv|exact Hget].
Defined.

End witness.
